(* ===== verification/_CoqProject ===== *)
-Q . S2P
Prelude.v
Encoding.v
Json.v
Kvdb.v
External.v
Config.v
Toy.v
Paths.v
ConfigFiles.v
Util.v
EotsStore.v
RandGen.v
EotsApi.v
LocalManager.v
Lifecycle.v
EotsRpc.v
Pop.v
EotsCmd.v
KeysAdd.v
EotsOffline.v
PubRandStore.v
FpStore.v
ChainApi.v
FinalitySubmitter.v
RandCommitter.v
Bootstrap.v
ChainPoller.v
BbnConsumer.v
BbnWrapper.v
FpInstance.v
InstanceLoops.v
ManualOps.v
App.v
AppRpc.v
Backup.v
Metrics.v
AppSteps.v
AppHistory.v
AppRequests.v
RequestLoops.v
FpdCmd.v
FpdTools.v
FpdStart.v
FpdHome.v
Cli.v
CliFlags.v
CmdFiles.v
CreateCmd.v
VoteSafety.v
