(* ===== verification/Prelude.v ===== *)
(** * The finality provider: a verification library

    The repository holds two daemons.  [eotsd] (src/eotsmanager) keeps the
    BTC keys of finality providers and makes extractable one-time signatures
    (EOTS): two signatures of one key at one height over different messages
    give the key away, so that the daemon must never make them.  [fpd]
    (src/finality-provider) follows a consumer chain, commits public
    randomness to it ahead of time and votes for its blocks with signatures
    that it asks [eotsd] for.

    ** Parts and files

    - [Prelude], this file: the outcome type (a value, an error, a panic), the
      state monad of the operations and its lemmas ([preserves], [atomic]),
      machine integers and shared lemmas on lists.
    - [Encoding]: what the sources use of encoding/base64, strconv and [%x],
      and the string literals of encoding/json; [Json]: documents of strings
      of encoding/json, written and read.
    - [Kvdb]: the key-value store (kvdb over bbolt) as an interface with laws
      (buckets, point reads and writes, ordered iteration, transactions that
      roll back) and an implementation by finite maps.
    - [External]: what the sources call and do not define, as classes with
      laws: secp256k1, Schnorr and EOTS operations and encodings ([Crypto]),
      HMAC, protobuf codecs, the Cosmos keyring, Merkle proofs, decimals, the
      big-endian encoding, [retry.Do].  [Toy] instantiates all of them for
      the witnesses.
    - [Config]: the configuration records and their [Validate] methods
      (finality-provider/config, eotsmanager/config, metrics/config.go).
    - [Paths]: util/path.go on a model of the file system; [ConfigFiles]: the
      default configurations, the files of a home directory, loading them, the
      init commands of both daemons and the logger (log/log.go).
    - [Util]: util/validation.go, util/crypto.go.
    - [EotsStore]: eotsmanager/store, key names and signing records.
    - [RandGen]: eotsmanager/randgenerator, rejection sampling over HMAC.
    - [EotsApi]: the interface of eotsmanager/eotsmanager.go; its laws
      [EOTSProtection] and [EOTSRandomness] are what [fpd] relies on.
    - [LocalManager]: eotsmanager/localmanager.go, the signing daemon; it
      discharges the laws.
    - [EotsRpc]: the same interface over gRPC (eotsmanager/service,
      eotsmanager/client): handlers, client, both HMAC interceptors, a link
      that loses messages, restarts; it discharges the laws again.
    - [Lifecycle]: both servers (service/server.go), the metrics server and the
      start command of [eotsd], as a trace of what is acquired and released.
    - [PubRandStore]: finality-provider/store/pub_rand.go and its adapter.
    - [FpStore]: finality-provider/store/fpstore.go, storedfp.go, the
      conversions of proto/finality_providers.go, and the state adapter
      service/fp_store_adapter.go.
    - [ChainApi]: clientcontroller/api, types, clientcontroller/retry_utils.go.
    - [FinalitySubmitter], [RandCommitter], [Bootstrap], [ChainPoller]: the
      files of the same names in finality-provider/service (bootstrap.go and
      chain_poller.go for the last two).
    - [BbnConsumer]: clientcontroller/babylon, the calls to Babylon; it
      discharges the contract [BlockQuerierLaws] of the poller.
      [BbnWrapper] has the calls for end-to-end tests.
    - [FpInstance]: service/fp_instance.go, which composes the components;
      [InstanceLoops]: its two goroutines with the quit channel and the wait
      group, under every interleaving.
    - [ManualOps]: service/fp_test_helper.go, service/benchmark_helper.go, and
      the recovery of proofs.
    - [App]: service/app.go and event_loops.go, the daemon: its requests, the
      handlers of its loops, the one instance it serves; keyringcontroller.go
      as far as it uses it.
    - [AppRpc]: service/rpcserver.go and service/client/rpcclient.go.
    - [AppSteps]: the daemon as a step relation, every interleaving of its
      loops, requests, votes by hand, restarts and the outside world;
      [AppFrame] states once what every step keeps.  [AppHistory] uses it for
      the store and the binding of the process, [VoteSafety] for the votes
      that leave the daemon; [AppRequests] has the single requests.
    - [RequestLoops]: the callers and the registration and unjailing loops as
      goroutines with their channels; an event is one scheduling choice.
    - [Backup]: the hot backups of both databases, from the command through
      RPC to the file.  [Metrics]: metrics/fp_collectors.go and
      eots_collectors.go, the metrics loop, version/version.go and GetInfo.
    - [Pop], [EotsCmd]: eotsmanager/cmd/eotsd/daemon, the proof of possession
      (pop.go), key names (keys.go), unlocking (unlock.go) and the rollback
      (store.go).  [KeysAdd]: adding keys (keysadd.go); [EotsOffline]: the
      commands that open the database of a home directory, and the creation of
      keys (keyring/keyringcontroller.go).
    - [FpdCmd]: finality-provider/cmd/fpd/daemon, start.go and the checks of
      create_fp.go;
      [FpdTools]: the commands of cmd/fpd/common/common_cmd.go; [FpdStart]:
      how [fpd start] assembles the daemon from its configuration
      (NewFinalityProviderAppFromConfig, clientcontroller/factory.go);
      [FpdHome]: commit_pr.go and recover_proof.go, which open the database
      of a home directory themselves.
    - [Cli]: the trees of commands of both daemons (fpd/main.go, eotsd/daemon/
      root.go and the functions that make the commands) with names, arguments
      and flags; [CliFlags]: what every command reads from its flags;
      [CmdFiles]: the [pop] commands from their flags to the file they write
      or read; [CreateCmd]: create_fp.go, the command to create a provider from
      flags or a file.

    In each file the state of a component is a record with the fields of the
    Go struct, an operation is a function [M state result] (or [option] of it
    where a loop needs fuel) with the branches, the order of effects and the
    error texts of the source, and a goroutine or a history of calls is a step
    relation.  Mutexes are not represented: an operation under a lock is one
    step.  Log lines are left out; metrics are in [Metrics] only, since
    nothing reads them back.

    ** What the theorems show

    - The daemon: over any history, with failures, retries, restarts and votes
      by hand through the protected signer, no two votes that were sent for
      one height conflict ([no_conflicting_votes]); a process serves one
      finality provider ([daemon_single_binding]) and the store keeps every
      record ([daemon_store_history]); slashing is final; registration,
      unjailing, editing, synchronisation at the start and the choice of the
      provider to serve have the effects they promise; the create command is
      the registration it asks for ([create_command_line]).
    - Goroutines: concurrent registrations are all answered, each with its own
      answer, in boundedly many steps ([registrations_answered]); a request
      through the channels is the sequential call ([request_refines_call]);
      after a shutdown a pending caller stays blocked; an instance has its two
      loops exactly between [Start] and [Stop] ([loops_lifecycle]) and [Stop]
      comes back when the loops reach their select ([stop_completes]).
    - Processes: what init writes is loaded again ([init_load_roundtrip]); the
      start commands serve the configured daemon and release what they
      acquired in order ([start_command_closes], [fpd_start_command]); a
      backup opens as the database it was made from
      ([eots_backup_restores]); adding a key touches no other name
      ([add_key_effect]); metrics show what the daemon did
      ([metrics_follow_daemon]).
    - Commands: manual commitments end and cover their heights exactly once,
      lost proofs are restored, pruning and rolling back remove exactly what
      was asked for, a vote by hand is protected, names of keys are never
      lost; every command that runs has its arguments and reads its flags
      ([commands_readable]), and an exported proof of possession validates
      when its file is read back ([pop_files]).
    - Signing: over any history of requests, local or remote, with crashes
      between requests and lost messages, no key signs two messages at one
      height ([no_double_sign], [remote_no_double_sign]); a signed height is
      bound to its message ([SignEOTS_binds]); batches agree with single
      signatures and fail without a trace; the randomness that was committed
      is the one used; an HMAC-guarded server answers nobody else.
    - Stores: round trips, exact deletion, atomic batches, and invariants over
      any sequence of operations.
    - Voting: a submission holds only protected signatures with the
      randomness of their heights; the filter keeps exactly the blocks that
      need a vote; the last voted height moves only forward and only with an
      accepted vote; the retry loop ends; a jailed provider does not vote;
      the Babylon client accounts for every vote of a batch.
    - Randomness: a new commitment does not overlap the last one, holds the
      randomness of its heights and stores proofs that are read back.
    - Following the chain: the start height is above what was voted for or
      finalized, the poller leaves no gap, range queries are exact, batches
      are read in order.
    - Some theorems show where the code does less than it means to: a failed
      start sticks, votes after a gap carry other randomness, retries drop
      votes, a poller re-sends blocks.

    ** Bounds and fuel

    [uint64] and [uint32] are [N] with the wrap-around written out ([u64_add],
    [u64_sub], [u32_add]); [int] lengths are natural numbers.  Six loops take
    fuel: rejection sampling (enough as soon as some iteration is accepted),
    the submission cycles ([MaxSubmissionRetries] + 1 is enough), the reading
    of commitment pages and of pages of finality providers (one more than the
    pages of the chain), the reading
    of a batch (one more than the blocks in the channel) and the manual
    commitments (one more than the commitments that are needed); each bound is
    proved.  The scanner of [Json] takes fuel as well, twice the length of the
    document and one ([parse_value_enough]).  Witnesses evaluate the
    definitions on the toy instances.

    ** Not modelled

    Texts of help, YAML and progress output, the texts of JSON errors, the
    contents of log lines, process signals, opening and closing connections,
    registering services with gRPC, the codec set-up of the Cosmos SDK
    (codec/codec.go), the lock around its address prefix that is active in
    tests only (service/sdksync.go) and generated protobuf code are I/O, glue
    or generated; the end-to-end test managers (itest) and the data
    generators (testutil) are test support.  Cryptography, the chain, the
    keyring, bbolt, Prometheus, the INI format, the Babylon client library, the
    terminal and the network are parameters. *)

From Stdlib Require Import NArith ZArith Lia.
From Stdlib Require Strings.Byte.
From stdpp Require Import base gmap strings list pretty numbers.

(** ** Go values *)

(** A Go [byte], a Go [[]byte] and the conversion [[]byte(s)]. *)
Abbreviation byte := Byte.byte.
Abbreviation bytes := (list byte).

#[export] Instance byte_eq_dec : EqDecision byte := Byte.byte_eq_dec.

#[export] Program Instance byte_countable : Countable byte :=
  inj_countable Byte.to_N Byte.of_N _.
Next Obligation. intros b. apply Byte.of_to_N. Qed.

Definition bytes_of_string (s : string) : bytes := String.list_byte_of_string s.
Definition string_of_bytes (b : bytes) : string := String.string_of_list_byte b.

(** *** Errors

    A Go error is a tree of wrapped errors.  [EVar] is a package-level
    variable built by [errors.New] (its identity is its name), [EText] an
    anonymous error, [EWrap] one [%w] of [fmt.Errorf] with the text before and
    after it, [EWrap2] the format ["%w: %w"], [EWrapNil] a [%w] applied to a
    nil error, [EJoin] the result of [errors.Join], [EStatus] a gRPC status
    and [EExpected], [EExpectedNil] the
    [ExpectedError] of clientcontroller/retry_utils.go around an error or nil. *)
Inductive error : Type :=
| EVar (name msg : string)
| EText (msg : string)
| EWrap (pre : string) (e : error) (post : string)
| EWrap2 (e1 : error) (sep : string) (e2 : error)
| EWrapNil (pre : string)
| EJoin (e1 e2 : error)
| EStatus (code msg : string)
| EExpected (e : error)
| EExpectedNil.

(** [err.Error()] *)
Fixpoint Error (e : error) : string :=
  match e with
  | EVar _ msg => msg
  | EText msg => msg
  | EWrap pre e' post => pre +:+ Error e' +:+ post
  | EWrap2 e1 sep e2 => Error e1 +:+ sep +:+ Error e2
  | EWrapNil pre => pre +:+ "%!w(<nil>)"
  | EJoin e1 e2 => Error e1 +:+ String (Ascii.ascii_of_N 10) (Error e2)
  | EStatus code msg => "rpc error: code = " +:+ code +:+ " desc = " +:+ msg
  | EExpected e' => Error e'
  | EExpectedNil => "expected error"
  end.

(** [errors.Is(err, v)] for a package-level error variable [v]. *)
Fixpoint errors_Is (e : error) (v : string) : bool :=
  match e with
  | EVar name _ => bool_decide (name = v)
  | EText _ | EWrapNil _ | EStatus _ _ | EExpectedNil => false
  | EWrap _ e' _ => errors_Is e' v
  | EWrap2 e1 _ e2 | EJoin e1 e2 => errors_Is e1 v || errors_Is e2 v
  | EExpected e' => errors_Is e' v
  end.

(** [fmt.Errorf("pre: %w", err)] *)
Definition wrapf (pre : string) (e : error) : error := EWrap (pre +:+ ": ") e "".

(** [strings.HasPrefix] and [strings.Contains] *)
Definition HasPrefix (s p : string) : bool := String.prefix p s.

Fixpoint Contains (s sub : string) : bool :=
  HasPrefix s sub ||
  match s with
  | EmptyString => false
  | String _ s' => Contains s' sub
  end.

(** [%d] of an unsigned integer *)
Definition fmt_d (n : N) : string := pretty n.

(** *** Outcomes

    What a call does: return a value, return an error, or stop the process
    (a Go panic, or [logger.Fatal]). *)
Inductive outcome (A : Type) : Type :=
| Ok (a : A)
| Err (e : error)
| Crash (why : string).
Arguments Ok {A} a.
Arguments Err {A} e.
Arguments Crash {A} why.

#[export] Instance outcome_ret : MRet outcome := λ A a, Ok a.
#[export] Instance outcome_bind : MBind outcome := λ A B k m,
  match m with
  | Ok a => k a
  | Err e => Err e
  | Crash w => Crash w
  end.
#[export] Instance outcome_fmap : FMap outcome := λ A B f m,
  match m with
  | Ok a => Ok (f a)
  | Err e => Err e
  | Crash w => Crash w
  end.

(** [if err != nil { return fmt.Errorf("pre: %w", err) }] *)
Definition wrap_err {A} (pre : string) (m : outcome A) : outcome A :=
  match m with
  | Ok a => Ok a
  | Err e => Err (wrapf pre e)
  | Crash w => Crash w
  end.

Definition is_Ok {A} (m : outcome A) : bool :=
  match m with Ok _ => true | _ => false end.

(** *** Stateful calls

    A method with a receiver or an environment of type [S]. *)
Definition M (S A : Type) : Type := S → outcome A * S.

Definition go_ret {S A} (a : A) : M S A := λ s, (Ok a, s).
Definition go_fail {S A} (e : error) : M S A := λ s, (Err e, s).
Definition go_crash {S A} (w : string) : M S A := λ s, (Crash w, s).
Definition go_bind {S A B} (m : M S A) (k : A → M S B) : M S B := λ s,
  match m s with
  | (Ok a, s') => k a s'
  | (Err e, s') => (Err e, s')
  | (Crash w, s') => (Crash w, s')
  end.
Definition go_wrap {S A} (pre : string) (m : M S A) : M S A := λ s,
  let '(r, s') := m s in (wrap_err pre r, s').
Definition go_map_err {S A} (f : error → error) (m : M S A) : M S A := λ s,
  match m s with
  | (Err e, s') => (Err (f e), s')
  | r => r
  end.
(** Run the call and hand its error to the caller as a value. *)
Definition go_try {S A} (m : M S A) : M S (error + A) := λ s,
  match m s with
  | (Ok a, s') => (Ok (inr a), s')
  | (Err e, s') => (Ok (inl e), s')
  | (Crash w, s') => (Crash w, s')
  end.
Definition go_get {S} : M S S := λ s, (Ok s, s).
Definition go_put {S} (s : S) : M S unit := λ _, (Ok (), s).
Definition go_lift {S A} (m : outcome A) : M S A := λ s, (m, s).

#[export] Instance M_ret {S} : MRet (M S) := λ A a, go_ret a.
#[export] Instance M_bind {S} : MBind (M S) := λ A B k m, go_bind m k.

(** Expose what a sequence of calls does to the state. *)
Ltac go_unfold :=
  unfold mbind, M_bind, outcome_bind, fmap, outcome_fmap, mret, M_ret,
    outcome_ret, go_bind, go_ret, go_fail, go_crash, go_wrap, go_map_err, go_try, go_get,
    go_put, go_lift in *.

(** [for _, x := range l { ... }] over a state, stopping at the first error. *)
Fixpoint go_fold {S A B} (f : B → A → M S B) (acc : B) (l : list A) : M S B :=
  match l with
  | [] => go_ret acc
  | x :: l' => acc' ← f acc x; go_fold f acc' l'
  end.

(** *** Inversion of successful calls *)

Lemma go_bind_ok {S A B} (m : M S A) (k : A → M S B) s b s' :
  (m ≫= k) s = (Ok b, s') → ∃ a s1, m s = (Ok a, s1) ∧ k a s1 = (Ok b, s').
Proof.
  unfold mbind, M_bind, go_bind. destruct (m s) as [[a|e|w] s1] eqn:E; [|done..]. eauto.
Qed.

Lemma wrap_err_ok {A} p (m : outcome A) a : wrap_err p m = Ok a ↔ m = Ok a.
Proof. by destruct m. Qed.

Lemma go_wrap_ok {S A} p (m : M S A) s a s' :
  go_wrap p m s = (Ok a, s') → m s = (Ok a, s').
Proof. unfold go_wrap. destruct (m s) as [[] ?]; simpl; congruence. Qed.

Lemma go_map_err_ok {S A} f (m : M S A) s a s' :
  go_map_err f m s = (Ok a, s') → m s = (Ok a, s').
Proof. unfold go_map_err. destruct (m s) as [[] ?]; congruence. Qed.

Lemma go_lift_ok {S A} (m : outcome A) (s : S) a s' :
  go_lift m s = (Ok a, s') → m = Ok a ∧ s' = s.
Proof. by intros [= -> ->]. Qed.

Lemma go_try_ok {S A} (m : M S A) s r s' :
  go_try m s = (Ok r, s') →
  match r with inl e => m s = (Err e, s') | inr a => m s = (Ok a, s') end.
Proof. unfold go_try. destruct (m s) as [[] ?]; intros [= <- <-]; done. Qed.

Lemma outcome_bind_ok {A B} (m : outcome A) (k : A → outcome B) b :
  m ≫= k = Ok b → ∃ a, m = Ok a ∧ k a = Ok b.
Proof. destruct m; simpl; [eauto|done..]. Qed.

(** Running a bind whose first call is known. *)
Lemma go_bind_run {S A B} (m : M S A) (k : A → M S B) s a s1 :
  m s = (Ok a, s1) → (m ≫= k) s = k a s1.
Proof. intros E. unfold mbind, M_bind, go_bind. by rewrite E. Qed.

Lemma go_bind_err {S A B} (m : M S A) (k : A → M S B) s e s1 :
  m s = (Err e, s1) → (m ≫= k) s = (Err e, s1).
Proof. intros E. unfold mbind, M_bind, go_bind. by rewrite E. Qed.

Lemma go_wrap_run {S A} p (m : M S A) s a s1 :
  m s = (Ok a, s1) → go_wrap p m s = (Ok a, s1).
Proof. intros E. unfold go_wrap. by rewrite E. Qed.

Lemma go_wrap_inv {S A} pre (m : M S A) s r s' :
  go_wrap pre m s = (r, s') → ∃ r0, m s = (r0, s') ∧ r = wrap_err pre r0.
Proof. unfold go_wrap. destruct (m s) as [r0 s0]. intros [= <- <-]. eauto. Qed.

(** A sequence either stops at its first call or goes on. *)
Lemma go_bind_inv {S A B} (m : M S A) (k : A → M S B) s r s' :
  (m ≫= k) s = (r, s') →
  (∃ a s1, m s = (Ok a, s1) ∧ k a s1 = (r, s'))
  ∨ (∃ e, m s = (Err e, s') ∧ r = Err e) ∨ (∃ w, m s = (Crash w, s') ∧ r = Crash w).
Proof.
  unfold mbind, M_bind, go_bind. destruct (m s) as [[a|e|w] s1]; [|intros [= <- <-]..]; eauto 6.
Qed.

Lemma go_bind_assoc {S A B C} (m : M S A) (k : A → M S B) (h : B → M S C) s :
  ((m ≫= k) ≫= h) s = (m ≫= λ a, k a ≫= h) s.
Proof. unfold mbind, M_bind, go_bind. by destruct (m s) as [[] ?]. Qed.

(** Split a successful sequence [H] of calls at its first call. *)
Ltac inv_bind H :=
  let a := fresh "a" in let s := fresh "s" in let E := fresh "E" in
  apply go_bind_ok in H as (a & s & E & H);
  repeat match type of E with
  | go_wrap _ _ _ = (Ok _, _) => apply go_wrap_ok in E
  | go_map_err _ _ _ = (Ok _, _) => apply go_map_err_ok in E
  | go_lift _ _ = (Ok _, _) => apply go_lift_ok in E as [E ->]
  | wrap_err _ _ = Ok _ => apply wrap_err_ok in E
  | go_get _ = (Ok _, _) => injection E as <- <-
  end.

(** A call on a part of the state, written back whatever the call returns. *)
Definition zoom {S T A} (get : S → T) (put : T → S → S) (m : M T A) : M S A := λ s,
  let '(r, t) := m (get s) in (r, put t s).

(** *** What a call may do to the state

    [preserves R m]: whatever [m] returns, its effect on the state is in [R]. *)
Definition preserves {S A} (R : relation S) (m : M S A) : Prop :=
  ∀ s r s', m s = (r, s') → R s s'.

Create HintDb preserves.

Section preserves.
Context {S : Type} (R : relation S) `{!PreOrder R}.

Lemma preserves_ret {A} (a : A) : preserves R (mret (M := M S) a).
Proof. intros s r s' [= _ <-]. reflexivity. Qed.
Lemma preserves_go_ret {A} (a : A) : preserves R (go_ret (S := S) a).
Proof. intros s r s' [= _ <-]. reflexivity. Qed.
Lemma preserves_fail {A} e : preserves R (go_fail (S := S) (A := A) e).
Proof. intros s r s' [= _ <-]. reflexivity. Qed.
Lemma preserves_crash {A} w : preserves R (go_crash (S := S) (A := A) w).
Proof. intros s r s' [= _ <-]. reflexivity. Qed.
Lemma preserves_lift {A} (m : outcome A) : preserves R (go_lift (S := S) m).
Proof. intros s r s' [= _ <-]. reflexivity. Qed.
Lemma preserves_get : preserves R (go_get (S := S)).
Proof. intros s r s' [= _ <-]. reflexivity. Qed.
Lemma preserves_bind {A B} (m : M S A) (k : A → M S B) :
  preserves R m → (∀ a, preserves R (k a)) → preserves R (m ≫= k).
Proof.
  intros Hm Hk s r s'. unfold mbind, M_bind, go_bind.
  destruct (m s) as [[a|e|w] s1] eqn:E; [|intros [= _ <-]; by eapply Hm..].
  intros E'. etrans; [by eapply Hm|by eapply Hk].
Qed.
Lemma preserves_bind_run {A B} (m : M S A) (k : A → M S B) :
  preserves R m → (∀ s a s1 r s', m s = (Ok a, s1) → k a s1 = (r, s') → R s1 s') →
  preserves R (m ≫= k).
Proof.
  intros Hm Hk s r s'. unfold mbind, M_bind, go_bind.
  destruct (m s) as [[a|e|w] s1] eqn:E; [intros Ek|intros [= _ <-]; by eapply Hm..].
  etrans; [by eapply Hm|by eapply Hk].
Qed.
Lemma preserves_get_bind {B} (k : S → M S B) :
  (∀ s r s', k s s = (r, s') → R s s') → preserves R (go_get ≫= k).
Proof. intros Hk s r s' E. by apply (Hk s r). Qed.
Lemma preserves_wrap {A} p (m : M S A) : preserves R m → preserves R (go_wrap p m).
Proof.
  intros Hm s r s'. unfold go_wrap. destruct (m s) as [r1 s1] eqn:E.
  intros [= _ <-]. by eapply Hm.
Qed.
Lemma preserves_map_err {A} f (m : M S A) : preserves R m → preserves R (go_map_err f m).
Proof.
  intros Hm s r s'. unfold go_map_err.
  destruct (m s) as [[a|e|w] s1] eqn:E; intros [= _ <-]; by eapply Hm.
Qed.
Lemma preserves_try {A} (m : M S A) : preserves R m → preserves R (go_try m).
Proof.
  intros Hm s r s'. unfold go_try.
  destruct (m s) as [[a|e|w] s1] eqn:E; intros [= _ <-]; by eapply Hm.
Qed.
Lemma preserves_fold {A B} (f : B → A → M S B) l :
  (∀ b a, preserves R (f b a)) → ∀ b, preserves R (go_fold f b l).
Proof.
  intros Hf. induction l as [|a l IH]; intros b; simpl; [apply preserves_go_ret|].
  by apply preserves_bind.
Qed.
End preserves.

Lemma preserves_zoom {S T A} (R : relation S) (Q : relation T) (get : S → T) (put : T → S → S)
    (m : M T A) :
  (∀ s t, Q (get s) t → R s (put t s)) → preserves Q m → preserves R (zoom get put m).
Proof.
  intros Hput Hm s r s'. unfold zoom. destruct (m (get s)) as [r1 t] eqn:E.
  intros [= _ <-]. by eapply Hput, Hm.
Qed.

(** Whatever the part becomes. *)
Lemma preserves_zoom_any {S T A} (R : relation S) (get : S → T) (put : T → S → S) (m : M T A) :
  (∀ s t, R s (put t s)) → preserves R (zoom get put m).
Proof. intros Hput. apply (preserves_zoom R (λ _ _, True)); [by eauto|done]. Qed.

Lemma zoom_inv {S T A} (get : S → T) (put : T → S → S) (m : M T A) s r s' :
  zoom get put m s = (r, s') → ∃ t, m (get s) = (r, t) ∧ s' = put t s.
Proof. unfold zoom. destruct (m (get s)) as [r1 t]. intros [= -> <-]. by exists t. Qed.

(** [atomic R m]: when [m] fails its effect on the state is in [R]. *)
Definition atomic {S A} (R : relation S) (m : M S A) : Prop :=
  ∀ s r s', m s = (r, s') → is_Ok r = false → R s s'.

Section atomic.
Context {S : Type} (R : relation S) `{!PreOrder R}.

Lemma preserves_atomic {A} (m : M S A) : preserves R m → atomic R m.
Proof. intros Hm s r s' E _. by eapply Hm. Qed.
Lemma atomic_bind {A B} (m : M S A) (k : A → M S B) :
  preserves R m → (∀ a, atomic R (k a)) → atomic R (m ≫= k).
Proof.
  intros Hm Hk s r s'. unfold mbind, M_bind, go_bind.
  destruct (m s) as [[a|e|w] s1] eqn:E; [|intros [= <- <-] _; by eapply Hm..].
  intros E' Hr. etrans; [by eapply Hm|by eapply Hk].
Qed.
Lemma atomic_bind_ret {A B} (m : M S A) (f : A → B) :
  atomic R m → atomic R (m ≫= λ a, mret (f a)).
Proof.
  intros Hm s r s'. unfold mbind, M_bind, go_bind.
  destruct (m s) as [[a|e|w] s1] eqn:E; intros [= <- <-] Hr; [done|by eapply Hm..].
Qed.
Lemma atomic_wrap {A} p (m : M S A) : atomic R m → atomic R (go_wrap p m).
Proof.
  intros Hm s r s'. unfold go_wrap. destruct (m s) as [r1 s1] eqn:E.
  intros [= <- <-] Hr. eapply Hm; [done|]. by destruct r1.
Qed.
End atomic.

(** Decompose a call into the calls it makes, and close those the database
    [preserves] knows. *)
Ltac solve_preserves :=
  repeat match goal with
  | |- preserves _ (_ ≫= _) => apply preserves_bind; [try apply _| |intros ?]
  | |- preserves _ (mret _) => apply preserves_ret; apply _
  | |- preserves _ (go_ret _) => apply preserves_go_ret; apply _
  | |- preserves _ (go_fail _) => apply preserves_fail; apply _
  | |- preserves _ (go_crash _) => apply preserves_crash; apply _
  | |- preserves _ (go_lift _) => apply preserves_lift; apply _
  | |- preserves _ go_get => apply preserves_get; apply _
  | |- preserves _ (go_wrap _ _) => apply preserves_wrap
  | |- preserves _ (go_map_err _ _) => apply preserves_map_err
  | |- preserves _ (go_try _) => apply preserves_try
  | |- preserves _ (go_fold _ _ _) => apply preserves_fold; [try apply _|intros ? ?]
  | |- preserves _ (match ?x with _ => _ end) => destruct x
  | |- preserves _ _ => solve [eauto with preserves]
  end.

(** The same for [atomic]: the calls before the last one change nothing. *)
Ltac solve_atomic :=
  repeat match goal with
  | |- atomic _ (_ ≫= (λ _, mret _)) => apply atomic_bind_ret
  | |- atomic _ (_ ≫= _) => apply atomic_bind; [try apply _|solve_preserves|intros ?]
  | |- atomic _ (go_wrap _ _) => apply atomic_wrap
  | |- atomic _ (match ?x with _ => _ end) => destruct x
  | |- atomic _ _ => solve [eauto with preserves]
  | |- atomic _ _ => apply preserves_atomic; solve_preserves
  end.

(** ** Machine integers

    A [uint64] or a [uint32] is an [N]; each operation of the code that can
    leave the range is written with its wrap-around. *)
Definition two64 : N := 18446744073709551616.
Definition two32 : N := 4294967296.
Definition MaxUint64 : N := 18446744073709551615.
Definition MaxUint32 : N := 4294967295.

Definition is_u64 (n : N) : Prop := (n < two64)%N.
Definition is_u32 (n : N) : Prop := (n < two32)%N.

Definition u64_add (a b : N) : N := ((a + b) mod two64)%N.
Definition u64_sub (a b : N) : N := ((a + (two64 - b mod two64)) mod two64)%N.
Definition u64_mul (a b : N) : N := ((a * b) mod two64)%N.
Definition u32_add (a b : N) : N := ((a + b) mod two32)%N.
(** conversions [uint32(x)] and [uint64(len(l))] *)
Definition to_u32 (n : N) : N := (n mod two32)%N.
Definition lenN {A} (l : list A) : N := N.of_nat (length l).

Create HintDb u64.
Create Rewrite HintDb u64.

Lemma u64_add_small a b : (a + b < two64)%N → u64_add a b = (a + b)%N.
Proof. intros H. unfold u64_add. by apply N.mod_small. Qed.

Lemma u64_add_range a b : is_u64 (u64_add a b).
Proof. apply N.mod_lt. discriminate. Qed.

Lemma u64_sub_small a b : (b ≤ a)%N → is_u64 a → u64_sub a b = (a - b)%N.
Proof.
  unfold is_u64, u64_sub. intros Hle Ha. rewrite (N.mod_small b) by lia.
  replace (a + (two64 - b))%N with ((a - b) + 1 * two64)%N by lia.
  rewrite N.Div0.mod_add. apply N.mod_small. lia.
Qed.

Lemma u64_sub_le a b : (b ≤ a)%N → (u64_sub a b ≤ a - b)%N.
Proof.
  unfold u64_sub. intros Hle. pose proof (N.div_mod' b two64) as Hb.
  assert (b mod two64 < two64)%N by (apply N.mod_lt; done).
  replace (a + (two64 - b mod two64))%N with ((a - b) + (b / two64 + 1) * two64)%N by lia.
  rewrite N.Div0.mod_add. apply N.Div0.mod_le.
Qed.

Lemma u64_add_le a b : (u64_add a b ≤ a + b)%N.
Proof. apply N.Div0.mod_le. Qed.

Lemma u64_mul_small a b : (a * b < two64)%N → u64_mul a b = (a * b)%N.
Proof. intros H. unfold u64_mul. by apply N.mod_small. Qed.

Lemma u32_add_small a b : (a + b < two32)%N → u32_add a b = (a + b)%N.
Proof. intros H. unfold u32_add. by apply N.mod_small. Qed.

Lemma to_u32_small n : is_u32 n → to_u32 n = n.
Proof. intros H. by apply N.mod_small. Qed.

#[export] Hint Resolve u64_add_range : u64.
#[export] Hint Rewrite u64_add_small u64_sub_small u64_mul_small to_u32_small
  using (unfold is_u64, is_u32, two64, two32 in *; lia) : u64.

(** ** Loops *)

(** [for i := 0; i < n; i++ { l = append(l, f(i)) }] with a failing body *)
Fixpoint for_append {A} (f : N → outcome A) (i : N) (n : nat) : outcome (list A) :=
  match n with
  | O => Ok []
  | S n' => x ← f i; l ← for_append f (i + 1)%N n'; Ok (x :: l)
  end.

Lemma for_append_length {A} (f : N → outcome A) n : ∀ i l,
  for_append f i n = Ok l → length l = n.
Proof.
  induction n as [|n IH]; intros i l; simpl.
  - by intros [= <-].
  - destruct (f i); simpl; [|done..].
    destruct (for_append f _ n) eqn:E; simpl; [|done..].
    intros [= <-]. simpl. f_equal. by eapply IH.
Qed.

Lemma for_append_lookup {A} (f : N → outcome A) n : ∀ i l (j : nat) x,
  for_append f i n = Ok l → l !! j = Some x → f (i + N.of_nat j)%N = Ok x.
Proof.
  induction n as [|n IH]; intros i l j x; simpl.
  - by intros [= <-].
  - destruct (f i) eqn:Ef; simpl; [|done..].
    destruct (for_append f _ n) eqn:E; simpl; [|done..].
    intros [= <-]. destruct j as [|j]; simpl.
    + intros [= <-]. by rewrite N.add_0_r.
    + intros Hj. pose proof (IH _ _ _ _ E Hj) as Hf.
      by replace (i + N.of_nat (S j))%N with (i + 1 + N.of_nat j)%N by lia.
Qed.

Lemma for_append_total {A} (f : N → outcome A) n : ∀ i,
  (∀ j, (j < n)%nat → ∃ x, f (i + N.of_nat j)%N = Ok x) →
  ∃ l, for_append f i n = Ok l.
Proof.
  induction n as [|n IH]; intros i Hf; simpl; [by eexists|].
  destruct (Hf 0%nat) as [x Hx]; [lia|]. rewrite N.add_0_r in Hx.
  destruct (IH (i + 1)%N) as [l Hl].
  { intros j Hj. destruct (Hf (S j)) as [y Hy]; [lia|]. exists y.
    by replace (i + 1 + N.of_nat j)%N with (i + N.of_nat (S j))%N by lia. }
  exists (x :: l). by rewrite Hx, Hl.
Qed.

(** ** Tactics *)

(** Case analysis on the scrutinee of the next [match] or [if] of a
    hypothesis or of the goal, keeping the equation. *)
Ltac step_match H :=
  match type of H with
  | context [match ?x with _ => _ end] =>
      lazymatch x with
      | context [match _ with _ => _ end] => fail
      | _ => let E := fresh "E" in destruct x eqn:E
      end
  end; simplify_eq/=.
Ltac step_matches H := repeat step_match H.

Ltac step_goal :=
  match goal with
  | |- context [match ?x with _ => _ end] =>
      lazymatch x with
      | context [match _ with _ => _ end] => fail
      | _ => let E := fresh "E" in destruct x eqn:E
      end
  end; simplify_eq/=.

(** Turn the boolean tests of the code into propositions. *)
Ltac btests :=
  repeat match goal with
  | H : (_ <? _)%N = true |- _ => apply N.ltb_lt in H
  | H : (_ <? _)%N = false |- _ => apply N.ltb_ge in H
  | H : (_ <=? _)%N = true |- _ => apply N.leb_le in H
  | H : (_ <=? _)%N = false |- _ => apply N.leb_gt in H
  | H : (_ =? _)%N = true |- _ => apply N.eqb_eq in H
  | H : (_ =? _)%N = false |- _ => apply N.eqb_neq in H
  | H : (_ <? _)%Z = true |- _ => apply Z.ltb_lt in H
  | H : (_ <? _)%Z = false |- _ => apply Z.ltb_ge in H
  | H : (_ =? _)%nat = true |- _ => apply Nat.eqb_eq in H
  | H : (_ =? _)%nat = false |- _ => apply Nat.eqb_neq in H
  | H : (_ <? _)%nat = true |- _ => apply Nat.ltb_lt in H
  | H : (_ <? _)%nat = false |- _ => apply Nat.ltb_ge in H
  | H : bool_decide _ = true |- _ => apply bool_decide_eq_true in H
  | H : bool_decide _ = false |- _ => apply bool_decide_eq_false in H
  | H : _ && _ = true |- _ => apply andb_true_iff in H as [? ?]
  | H : negb _ = true |- _ => apply negb_true_iff in H
  | H : negb _ = false |- _ => apply negb_false_iff in H
  end.

(** Close an equation between closed terms by evaluation. *)
Ltac vm_eq := lazymatch goal with |- ?x = _ => vm_cast_no_check (eq_refl x) end.

(** Running a concrete computation: the equations below leave only its result,
    and not the state it ends in, to be compared by evaluation. *)
Definition ok_or {A} (d : A) (m : outcome A) : A :=
  match m with Ok a => a | _ => d end.

Lemma run_eq {A B} (p : A * B) r : p.1 = r → p = (r, p.2).
Proof. destruct p. simpl. by intros ->. Qed.

Lemma run_ok {A B} (d : A) (p : outcome A * B) : is_Ok p.1 = true → p = (Ok (ok_or d p.1), p.2).
Proof. by destruct p as [[]]. Qed.

Lemma some_default {A} (d : A) (x : option A) : bool_decide (is_Some x) = true → x = Some (default d x).
Proof. intros Hx%bool_decide_eq_true. by destruct x; [|destruct Hx]. Qed.

Lemma run_some {A B} (d : A) (p : outcome (option A) * B) :
  match p.1 with Ok (Some _) => true | _ => false end = true →
  p = (Ok (Some (default d (ok_or None p.1))), p.2).
Proof. by destruct p as [[[]| |]]. Qed.

Lemma run_fuel {A B} (d : B) (o : option (A * B)) r :
  fst <$> o = Some r → o = Some (r, default d (snd <$> o)).
Proof. destruct o as [[]|]; [|done]. by intros [= ->]. Qed.
