(* ===== verification/Encoding.v ===== *)
(** * Text encodings of the Go standard library

    [%x] of [fmt], [encoding/base64.StdEncoding], the string literals of
    [encoding/json], and [Unquote] and [ParseUint] of [strconv], as
    far as the daemons and their commands use them. *)

From Stdlib Require Import NArith ZArith Lia.
From stdpp Require Import base strings list numbers.
From S2P Require Import Prelude.

(** ** Bytes and numbers *)

Definition byte_of_N (n : N) : byte := default Byte.x00 (Byte.of_N (n mod 256)).

Lemma to_N_byte_of_N n : (n < 256)%N → Byte.to_N (byte_of_N n) = n.
Proof.
  intros Hn. unfold byte_of_N. rewrite N.mod_small by done.
  destruct (Byte.of_N n) as [b|] eqn:E; [by apply Byte.to_of_N in E|].
  apply Byte.of_N_None_iff in E. lia.
Qed.
Lemma byte_of_to_N b : byte_of_N (Byte.to_N b) = b.
Proof.
  unfold byte_of_N. pose proof (Byte.to_N_bounded b). rewrite N.mod_small by lia.
  by rewrite Byte.of_to_N.
Qed.

(** ** [fmt.Sprintf("%x", b)] *)

Definition hex_digit (n : N) : byte := byte_of_N (if (n <? 10)%N then 48 + n else 87 + n).

Definition hex_bytes (b : bytes) : bytes :=
  b ≫= λ x, [hex_digit (Byte.to_N x / 16); hex_digit (Byte.to_N x mod 16)].
Definition fmt_x (b : bytes) : string := string_of_bytes (hex_bytes b).

(** ** [base64.StdEncoding] *)

Definition b64_char (n : N) : byte :=
  byte_of_N (if (n <? 26)%N then 65 + n
             else if (n <? 52)%N then 71 + n
             else if (n <? 62)%N then n - 4
             else if (n =? 62)%N then 43 else 47).

Definition b64_val (c : byte) : option N :=
  let n := Byte.to_N c in
  if ((65 <=? n) && (n <=? 90))%N then Some (n - 65)%N
  else if ((97 <=? n) && (n <=? 122))%N then Some (n - 71)%N
  else if ((48 <=? n) && (n <=? 57))%N then Some (n + 4)%N
  else if (n =? 43)%N then Some 62%N
  else if (n =? 47)%N then Some 63%N
  else None.

Definition b64_pad : byte := Byte.x3d.

Fixpoint b64_encode (b : bytes) : bytes :=
  match b with
  | x :: y :: z :: rest =>
      let v := (Byte.to_N x * 65536 + Byte.to_N y * 256 + Byte.to_N z)%N in
      b64_char (v / 262144) :: b64_char (v / 4096 mod 64) :: b64_char (v / 64 mod 64)
        :: b64_char (v mod 64) :: b64_encode rest
  | [x; y] =>
      let v := (Byte.to_N x * 65536 + Byte.to_N y * 256)%N in
      [b64_char (v / 262144); b64_char (v / 4096 mod 64); b64_char (v / 64 mod 64); b64_pad]
  | [x] =>
      let v := (Byte.to_N x * 65536)%N in
      [b64_char (v / 262144); b64_char (v / 4096 mod 64); b64_pad; b64_pad]
  | [] => []
  end.

Definition EncodeToString (b : bytes) : string := string_of_bytes (b64_encode b).

(** The decoder skips carriage returns and line feeds; bits of the last
    character that belong to no byte are ignored.  The position in the text of
    the error is left out. *)
Definition b64_error : error := EText "illegal base64 data".

Fixpoint b64_decode (s : bytes) : outcome bytes :=
  match s with
  | [] => Ok []
  | a :: b :: c :: d :: rest =>
      match b64_val a, b64_val b with
      | Some va, Some vb =>
          if bool_decide (c = b64_pad) then
            if bool_decide (d = b64_pad) && (length rest =? 0)%nat then
              Ok [byte_of_N (va * 4 + vb / 16)]
            else Err b64_error
          else
            match b64_val c with
            | None => Err b64_error
            | Some vc =>
                if bool_decide (d = b64_pad) then
                  if (length rest =? 0)%nat then
                    Ok [byte_of_N (va * 4 + vb / 16); byte_of_N (vb mod 16 * 16 + vc / 4)]
                  else Err b64_error
                else
                  match b64_val d with
                  | None => Err b64_error
                  | Some vd =>
                      l ← b64_decode rest;
                      Ok (byte_of_N (va * 4 + vb / 16) :: byte_of_N (vb mod 16 * 16 + vc / 4)
                            :: byte_of_N (vc mod 4 * 64 + vd) :: l)
                  end
            end
      | _, _ => Err b64_error
      end
  | _ => Err b64_error
  end.

Definition is_newline (c : byte) : bool := bool_decide (c = Byte.x0a) || bool_decide (c = Byte.x0d).
Definition DecodeString (s : string) : outcome bytes :=
  b64_decode (List.filter (λ c, negb (is_newline c)) (bytes_of_string s)).

(** *** The decoder inverts the encoder *)

Definition sextets : list N := N.of_nat <$> seq 0 64.

Lemma sextet_in n : (n < 64)%N → n ∈ sextets.
Proof.
  intros Hn. apply list_elem_of_fmap. exists (N.to_nat n). split; [lia|]. apply elem_of_seq. lia.
Qed.

Lemma sextet_all (P : N → Prop) `{!∀ n, Decision (P n)} :
  forallb (λ n, bool_decide (P n)) sextets = true → ∀ n, (n < 64)%N → P n.
Proof.
  intros Hall n Hn. rewrite forallb_forall in Hall.
  by apply (bool_decide_eq_true_1 _), Hall, list_elem_of_In, sextet_in.
Qed.

Lemma b64_val_char n : (n < 64)%N → b64_val (b64_char n) = Some n.
Proof. apply (sextet_all (λ n, b64_val (b64_char n) = Some n)). by vm_compute. Qed.
Lemma b64_char_pad n : (n < 64)%N → b64_char n ≠ b64_pad.
Proof. apply (sextet_all (λ n, b64_char n ≠ b64_pad)). by vm_compute. Qed.
Lemma b64_char_line n : (n < 64)%N → is_newline (b64_char n) = false.
Proof. apply (sextet_all (λ n, is_newline (b64_char n) = false)). by vm_compute. Qed.

(** Induction by blocks of three bytes. *)
Lemma bytes3_ind (P : bytes → Prop) :
  P [] → (∀ x, P [x]) → (∀ x y, P [x; y]) → (∀ x y z l, P l → P (x :: y :: z :: l)) → ∀ b, P b.
Proof.
  intros H0 H1 H2 H3. fix IH 1. intros [|x [|y [|z l]]]; [done|done|done|]. apply H3, IH.
Qed.

(** The sextets of a block give its bytes back. *)
Lemma block_bytes X Y Z :
  (X < 256 → Y < 256 → Z < 256 → let v := X * 65536 + Y * 256 + Z in
   v / 262144 < 64 ∧ v / 4096 mod 64 < 64 ∧ v / 64 mod 64 < 64 ∧ v mod 64 < 64
   ∧ v / 262144 * 4 + v / 4096 mod 64 / 16 = X
   ∧ v / 4096 mod 64 mod 16 * 16 + v / 64 mod 64 / 4 = Y
   ∧ v / 64 mod 64 mod 4 * 64 + v mod 64 = Z)%N.
Proof. intros HX HY HZ v. unfold v. clear v. repeat split; Zify.zify; Z.to_euclidean_division_equations; lia. Qed.

Lemma byte_bound b : (Byte.to_N b < 256)%N.
Proof. pose proof (Byte.to_N_bounded b). lia. Qed.

Lemma b64_roundtrip b : b64_decode (b64_encode b) = Ok b.
Proof.
  induction b as [|x|x y|x y z l IH] using bytes3_ind; [done|..]; cbn [b64_encode b64_decode].
  - destruct (block_bytes (Byte.to_N x) 0 0) as (L1 & L2 & _ & _ & E1 & _); [by apply byte_bound|done..|].
    rewrite !N.add_0_r in *. rewrite !b64_val_char by done. simpl.
    by rewrite E1, byte_of_to_N.
  - destruct (block_bytes (Byte.to_N x) (Byte.to_N y) 0) as (L1 & L2 & L3 & _ & E1 & E2 & _);
      [by apply byte_bound..|done|].
    rewrite !N.add_0_r in *. rewrite !b64_val_char by done.
    rewrite (bool_decide_false (b64_char _ = _)) by by apply b64_char_pad.
    simpl. by rewrite E1, E2, !byte_of_to_N.
  - destruct (block_bytes (Byte.to_N x) (Byte.to_N y) (Byte.to_N z)) as (L1 & L2 & L3 & L4 & E1 & E2 & E3);
      [by apply byte_bound..|].
    rewrite !b64_val_char by done. rewrite !bool_decide_false by by apply b64_char_pad.
    rewrite IH. simpl. by rewrite E1, E2, E3, !byte_of_to_N.
Qed.

Lemma b64_no_newline b : List.filter (λ c, negb (is_newline c)) (b64_encode b) = b64_encode b.
Proof.
  induction b as [|x|x y|x y z l IH] using bytes3_ind; [done|..]; cbn [b64_encode List.filter].
  - destruct (block_bytes (Byte.to_N x) 0 0) as (L1 & L2 & _); [by apply byte_bound|done..|].
    rewrite !N.add_0_r in *. by rewrite !b64_char_line by done.
  - destruct (block_bytes (Byte.to_N x) (Byte.to_N y) 0) as (L1 & L2 & L3 & _);
      [by apply byte_bound..|done|].
    rewrite !N.add_0_r in *. by rewrite !b64_char_line by done.
  - destruct (block_bytes (Byte.to_N x) (Byte.to_N y) (Byte.to_N z)) as (L1 & L2 & L3 & L4 & _);
      [by apply byte_bound..|].
    rewrite !b64_char_line by done. simpl. by rewrite IH.
Qed.

Lemma DecodeString_EncodeToString b : DecodeString (EncodeToString b) = Ok b.
Proof.
  unfold DecodeString, EncodeToString, bytes_of_string, string_of_bytes.
  rewrite String.list_byte_of_string_of_list_byte, b64_no_newline. apply b64_roundtrip.
Qed.

(** ** String literals of [json.Marshal] *)

Definition in_range (lo hi : N) (b : byte) : bool := ((lo <=? Byte.to_N b) && (Byte.to_N b <=? hi))%N.

(** The length of the UTF-8 sequence at the head, [None] when it is invalid
    ([utf8.DecodeRuneInString] returning [RuneError] with size 1). *)
Definition utf8_len (s : bytes) : option nat :=
  match s with
  | [] => None
  | x :: s1 =>
      if (Byte.to_N x <? 128)%N then Some 1%nat
      else
        let cont2 lo hi := match s1 with y :: _ => in_range lo hi y | _ => false end in
        let cont3 lo hi := match s1 with
                           | y :: z :: _ => in_range lo hi y && in_range 128 191 z
                           | _ => false
                           end in
        let cont4 lo hi := match s1 with
                           | y :: z :: w :: _ => in_range lo hi y && in_range 128 191 z && in_range 128 191 w
                           | _ => false
                           end in
        if in_range 194 223 x then if cont2 128%N 191%N then Some 2%nat else None
        else if in_range 224 224 x then if cont3 160%N 191%N then Some 3%nat else None
        else if in_range 237 237 x then if cont3 128%N 159%N then Some 3%nat else None
        else if in_range 225 239 x then if cont3 128%N 191%N then Some 3%nat else None
        else if in_range 240 240 x then if cont4 144%N 191%N then Some 4%nat else None
        else if in_range 241 243 x then if cont4 128%N 191%N then Some 4%nat else None
        else if in_range 244 244 x then if cont4 128%N 143%N then Some 4%nat else None
        else None
  end.

(** U+2028 and U+2029 *)
Definition is_separator (s : bytes) : bool :=
  match s with
  | Byte.xe2 :: Byte.x80 :: z :: _ => in_range 168 169 z
  | _ => false
  end.

(** An ASCII character; quotes, backslashes, control characters and the HTML
    characters are escaped. *)
Definition json_ascii (b : byte) : bytes :=
  match b with
  | Byte.x22 | Byte.x5c => [Byte.x5c; b]
  | Byte.x08 => bytes_of_string "\b"
  | Byte.x0c => bytes_of_string "\f"
  | Byte.x0a => bytes_of_string "\n"
  | Byte.x0d => bytes_of_string "\r"
  | Byte.x09 => bytes_of_string "\t"
  | _ =>
      if (Byte.to_N b <? 32)%N || in_range 60 60 b || in_range 62 62 b || in_range 38 38 b then
        bytes_of_string "\u00" ++ [hex_digit (Byte.to_N b / 16); hex_digit (Byte.to_N b mod 16)]
      else [b]
  end.

(** [copy] bytes of a sequence are copied, [skip] bytes are dropped. *)
Fixpoint json_chars (copy skip : nat) (s : bytes) : bytes :=
  match s with
  | [] => []
  | b :: rest =>
      match copy, skip with
      | S copy', _ => b :: json_chars copy' 0 rest
      | O, S skip' => json_chars 0 skip' rest
      | O, O =>
          if (Byte.to_N b <? 128)%N then json_ascii b ++ json_chars 0 0 rest
          else
            match utf8_len s with
            | None => bytes_of_string "\ufffd" ++ json_chars 0 0 rest
            | Some n =>
                if is_separator s then
                  bytes_of_string "\u202"
                    ++ [hex_digit (match rest with _ :: z :: _ => Byte.to_N z mod 16 | _ => 0 end)]
                    ++ json_chars 0 2 rest
                else b :: json_chars (n - 1) 0 rest
            end
      end
  end.

Definition json_string (s : string) : bytes :=
  Byte.x22 :: json_chars 0 0 (bytes_of_string s) ++ [Byte.x22].

(** ** [strconv.Unquote] on a double-quoted literal *)

Definition ErrSyntax : error := EVar "strconv.ErrSyntax" "invalid syntax".

Definition digit_val (base : N) (b : byte) : option N :=
  let c := Byte.to_N b in
  let v := if in_range 48 57 b then (c - 48)%N
           else if in_range 97 102 b then (c - 87)%N
           else if in_range 65 70 b then (c - 55)%N else 16%N in
  if (v <? base)%N then Some v else None.

(** The value of [n] digits and what follows them. *)
Fixpoint take_base (base : N) (n : nat) (acc : N) (s : bytes) : option (N * bytes) :=
  match n, s with
  | O, _ => Some (acc, s)
  | S n', b :: rest => v ← digit_val base b; take_base base n' (acc * base + v)%N rest
  | S _, [] => None
  end.

(** [utf8.ValidRune] and [utf8.AppendRune] *)
Definition ValidRune (r : N) : bool :=
  ((r <? 0xD800)%N || (0xDFFF <? r)%N) && (r <=? 0x10FFFF)%N.
Definition utf8_encode (r : N) : bytes :=
  if (r <? 0x80)%N then [byte_of_N r]
  else if (r <? 0x800)%N then [byte_of_N (0xC0 + r / 64); byte_of_N (0x80 + r mod 64)]
  else if (r <? 0x10000)%N then
    [byte_of_N (0xE0 + r / 4096); byte_of_N (0x80 + r / 64 mod 64); byte_of_N (0x80 + r mod 64)]
  else
    [byte_of_N (0xF0 + r / 262144); byte_of_N (0x80 + r / 4096 mod 64);
     byte_of_N (0x80 + r / 64 mod 64); byte_of_N (0x80 + r mod 64)].

(** An escape sequence after its backslash: what it stands for and the rest. *)
Definition unquote_escape (s : bytes) : option (bytes * bytes) :=
  match s with
  | [] => None
  | c :: rest =>
      let one (b : byte) := Some ([b], rest) in
      let rune (n : nat) :=
        '(r, rest') ← take_base 16 n 0 rest;
        if ValidRune r then Some (utf8_encode r, rest') else None in
      match c with
      | Byte.x61 => one Byte.x07
      | Byte.x62 => one Byte.x08
      | Byte.x66 => one Byte.x0c
      | Byte.x6e => one Byte.x0a
      | Byte.x72 => one Byte.x0d
      | Byte.x74 => one Byte.x09
      | Byte.x76 => one Byte.x0b
      | Byte.x5c | Byte.x22 => one c
      | Byte.x78 => '(v, rest') ← take_base 16 2 0 rest; Some ([byte_of_N v], rest')
      | Byte.x75 => rune 4%nat
      | Byte.x55 => rune 8%nat
      | _ =>
          if in_range 48 55 c then
            '(v, rest') ← take_base 8 3 0 s;
            if (255 <? v)%N then None else Some ([byte_of_N v], rest')
          else None
      end
  end.

(** One character of the literal: a rune, an escape sequence or, for a byte
    that is not valid UTF-8, U+FFFD. *)
Definition unquote_char (s : bytes) : option (bytes * bytes) :=
  match s with
  | [] => None
  | b :: rest =>
      match b with
      | Byte.x22 | Byte.x0a => None
      | Byte.x5c => unquote_escape rest
      | _ =>
          match utf8_len s with
          | Some n => Some (take n s, drop n s)
          | None => Some (utf8_encode 0xFFFD, rest)
          end
      end
  end.

(** Every character takes at least one byte. *)
Fixpoint unquote_body (fuel : nat) (s : bytes) : option bytes :=
  match fuel, s with
  | _, [] => Some []
  | O, _ => None
  | S fuel', _ => '(out, rest) ← unquote_char s; l ← unquote_body fuel' rest; Some (out ++ l)
  end.

(** The literal with body [s] between its quotes. *)
Definition Unquote (s : string) : outcome string :=
  let b := bytes_of_string s in
  match unquote_body (length b) b with
  | Some out => Ok (string_of_bytes out)
  | None => Err ErrSyntax
  end.

(** Printable ASCII without quotes and backslashes stands for itself. *)
Definition plain_char (b : byte) : bool :=
  in_range 32 126 b && negb (bool_decide (b = Byte.x22)) && negb (bool_decide (b = Byte.x5c)).

Lemma unquote_plain s :
  forallb plain_char (bytes_of_string s) = true → Unquote s = Ok s.
Proof.
  intros Hs. unfold Unquote. assert (unquote_body (length (bytes_of_string s)) (bytes_of_string s)
    = Some (bytes_of_string s)) as ->.
  { induction (bytes_of_string s) as [|b l IH]; [done|]. simpl in Hs.
    apply andb_true_iff in Hs as [Hb Hl]. cbn [length unquote_body].
    assert (unquote_char (b :: l) = Some ([b], l)) as ->; [|simpl; by rewrite IH].
    revert Hb. clear. by destruct b. }
  unfold bytes_of_string, string_of_bytes. by rewrite String.string_of_list_byte_of_string.
Qed.

Example unquote_escapes : Unquote "a\n\x41\u00e9\101" =
  Ok (string_of_bytes [Byte.x61; Byte.x0a; Byte.x41; Byte.xc3; Byte.xa9; Byte.x41]).
Proof. reflexivity. Qed.

(** ** [strconv.ParseUint(s, 10, 64)]

    The [NumError] is represented by the error it wraps. *)

Definition ErrRange : error := EVar "strconv.ErrRange" "value out of range".

Fixpoint parse_digits (n : N) (s : bytes) : outcome N :=
  match s with
  | [] => Ok n
  | c :: rest =>
      match digit_val 10 c with
      | None => Err ErrSyntax
      | Some d => if (MaxUint64 <? n * 10 + d)%N then Err ErrRange else parse_digits (n * 10 + d) rest
      end
  end.
Definition ParseUint (s : string) : outcome N :=
  if bool_decide (s = "") then Err ErrSyntax else parse_digits 0 (bytes_of_string s).

Lemma parse_digits_bound s : ∀ n m, (n ≤ MaxUint64)%N → parse_digits n s = Ok m → (m ≤ MaxUint64)%N.
Proof.
  induction s as [|c s IH]; intros n m Hn; simpl; [by intros [= <-]|].
  destruct (digit_val 10 c); [|done]. destruct (_ <? _)%N eqn:El; [done|]. btests. by apply IH.
Qed.
Lemma ParseUint_bound s m : ParseUint s = Ok m → is_u64 m.
Proof.
  unfold ParseUint. case_bool_decide; [done|]. intros Hm. apply parse_digits_bound in Hm; [|done].
  unfold is_u64, two64, MaxUint64 in *. lia.
Qed.

(** ** [encoding/hex.DecodeString] *)

(** [%#U] of a byte: [strconv.IsPrint] decides whether the character is shown. *)
Definition IsPrint_byte (n : N) : bool :=
  ((32 <=? n) && (n <=? 126))%N || ((161 <=? n) && negb (n =? 173))%N.
Definition upper_hex_digit (n : N) : byte := byte_of_N (if (n <? 10)%N then 48 + n else 55 + n).
Definition fmt_U (c : byte) : string :=
  let n := Byte.to_N c in
  "U+00" +:+ string_of_bytes [upper_hex_digit (n / 16); upper_hex_digit (n mod 16)]
    +:+ (if IsPrint_byte n then " '" +:+ string_of_bytes (utf8_encode n) +:+ "'" else "").

Definition InvalidByteError (c : byte) : error := EText ("encoding/hex: invalid byte: " +:+ fmt_U c).
Definition hex_ErrLength : error := EVar "hex.ErrLength" "encoding/hex: odd length hex string".

Fixpoint hex_decode (s : bytes) : outcome bytes :=
  match s with
  | [] => Ok []
  | [p] => match digit_val 16 p with None => Err (InvalidByteError p) | Some _ => Err hex_ErrLength end
  | p :: q :: rest =>
      match digit_val 16 p, digit_val 16 q with
      | None, _ => Err (InvalidByteError p)
      | Some _, None => Err (InvalidByteError q)
      | Some a, Some b => r ← hex_decode rest; Ok (byte_of_N (16 * a + b) :: r)
      end
  end.
Definition hex_DecodeString (s : string) : outcome bytes := hex_decode (bytes_of_string s).

Lemma digit_val_hex_digit n : (n < 16)%N → digit_val 16 (hex_digit n) = Some n.
Proof.
  intros Hn. assert (∀ m : nat, m < 16 → digit_val 16 (hex_digit (N.of_nat m)) = Some (N.of_nat m)) as Hall.
  { intros m Hm. do 16 (destruct m as [|m]; [reflexivity|]). lia. }
  rewrite <- (N2Nat.id n). apply Hall. lia.
Qed.

(** What [%x] prints is decoded back. *)
Lemma hex_roundtrip b : hex_DecodeString (fmt_x b) = Ok b.
Proof.
  unfold hex_DecodeString, fmt_x, bytes_of_string, string_of_bytes.
  rewrite String.list_byte_of_string_of_list_byte.
  induction b as [|x b IH]; [done|].
  change (hex_bytes (x :: b)) with
    (hex_digit (Byte.to_N x / 16) :: hex_digit (Byte.to_N x mod 16) :: hex_bytes b).
  cbn [hex_decode]. pose proof (Byte.to_N_bounded x). rewrite !digit_val_hex_digit.
  - rewrite IH. simpl. rewrite <- N.div_mod' . by rewrite byte_of_to_N.
  - apply N.mod_lt. lia.
  - apply N.Div0.div_lt_upper_bound. lia.
Qed.
