(* ===== verification/Json.v ===== *)
(** * [encoding/json] on documents of strings

    [json.Unmarshal] into a struct whose fields are strings, as
    [validatePop] of src/eotsmanager/cmd/eotsd/daemon/pop.go and
    [ParseFinalityProviderJSON] of
    src/finality-provider/cmd/fpd/daemon/create_fp.go use it, and
    [json.MarshalIndent] of such a struct, as [handleOutputJSON] of pop.go does.
    The grammar of values, the escapes of strings, what happens to bytes that
    are not UTF-8, the limit on nesting and the choice of a field by the name
    of a member are those of the package; the text of its errors is a
    parameter. *)

From Stdlib Require Import NArith ZArith Lia.
From stdpp Require Import base numbers gmap strings list.
From S2P Require Import Prelude Encoding.

(** The error of [json.Unmarshal] on a document it refuses *)
Class JsonErrors := json_error : bytes → error.

(** ** Strings *)

(** U+FFFD *)
Definition ReplacementChar : bytes := utf8_encode 0xFFFD.

Definition IsSurrogate (r : N) : bool := ((0xD800 <=? r) && (r <? 0xE000))%N.
(** [utf16.DecodeRune] *)
Definition surrogate_pair (r1 r2 : N) : option N :=
  if ((0xD800 <=? r1) && (r1 <? 0xDC00) && (0xDC00 <=? r2) && (r2 <? 0xE000))%N
  then Some ((r1 - 0xD800) * 1024 + (r2 - 0xDC00) + 0x10000)%N else None.

(** [getu4]: a backslash, the letter u and four digits *)
Definition getu4 (s : bytes) : option (N * bytes) :=
  match s with
  | a :: b :: rest =>
      if Byte.eqb a Byte.x5c && Byte.eqb b Byte.x75 then take_base 16 4 0 rest else None
  | _ => None
  end.

(** A rune after its four digits [r1]; a surrogate without its other half is
    replaced. *)
Definition json_rune (r1 : N) (rest : bytes) : bytes * bytes :=
  if IsSurrogate r1 then
    match getu4 rest with
    | Some (r2, rest') =>
        match surrogate_pair r1 r2 with
        | Some r => (utf8_encode r, rest')
        | None => (ReplacementChar, rest)
        end
    | None => (ReplacementChar, rest)
    end
  else (utf8_encode r1, rest).

(** The letters of the short escapes *)
Definition short_escape (c : byte) : option byte :=
  if Byte.eqb c Byte.x22 || Byte.eqb c Byte.x5c || Byte.eqb c Byte.x2f then Some c
  else if Byte.eqb c Byte.x62 then Some Byte.x08
  else if Byte.eqb c Byte.x66 then Some Byte.x0c
  else if Byte.eqb c Byte.x6e then Some Byte.x0a
  else if Byte.eqb c Byte.x72 then Some Byte.x0d
  else if Byte.eqb c Byte.x74 then Some Byte.x09
  else None.
Definition json_escape (s : bytes) : option (bytes * bytes) :=
  match s with
  | [] => None
  | c :: rest =>
      match short_escape c with
      | Some b => Some ([b], rest)
      | None => if Byte.eqb c Byte.x75 then '(r, rest') ← take_base 16 4 0 rest; Some (json_rune r rest')
                else None
      end
  end.

(** One character of a string and what follows it *)
Definition json_char (s : bytes) : option (bytes * bytes) :=
  match s with
  | [] => None
  | b :: rest =>
      if Byte.eqb b Byte.x5c then json_escape rest
      else if (Byte.to_N b <? 32)%N then None
      else
        match utf8_len s with
        | Some n => Some (take n s, drop n s)
        | None => Some (ReplacementChar, rest)
        end
  end.

(** A string after its opening quote, up to its closing one *)
Fixpoint json_unquote (fuel : nat) (s : bytes) : option (bytes * bytes) :=
  match fuel, s with
  | S fuel', b :: rest =>
      if Byte.eqb b Byte.x22 then Some ([], rest)
      else '(c, rest') ← json_char s; '(cs, r) ← json_unquote fuel' rest'; Some (c ++ cs, r)
  | _, _ => None
  end.
Definition parse_string (s : bytes) : option (bytes * bytes) := json_unquote (length s) s.

(** ** Values *)

#[warnings="-register-all"]
Inductive json :=
| JNull
| JBool (b : bool)
| JNumber (literal : bytes)
| JString (s : bytes)
| JArray (l : list json)
| JObject (members : list (bytes * json)).

Definition is_space (b : byte) : bool :=
  Byte.eqb b Byte.x20 || Byte.eqb b Byte.x09 || Byte.eqb b Byte.x0d || Byte.eqb b Byte.x0a.
Fixpoint skip_space (s : bytes) : bytes :=
  match s with b :: s' => if is_space b then skip_space s' else s | [] => [] end.

Fixpoint strip_prefix (p s : bytes) : option bytes :=
  match p, s with
  | [], _ => Some s
  | a :: p', b :: s' => if Byte.eqb a b then strip_prefix p' s' else None
  | _, [] => None
  end.

(** *** Numbers *)

Definition is_digit (b : byte) : bool := in_range 48 57 b.
Fixpoint digits (s : bytes) : bytes * bytes :=
  match s with
  | b :: s' => if is_digit b then let '(d, r) := digits s' in (b :: d, r) else ([], s)
  | [] => ([], [])
  end.
Definition digits1 (s : bytes) : option (bytes * bytes) :=
  match digits s with ([], _) => None | r => Some r end.
(** The part before the point: a zero, or digits that do not start with one *)
Definition int_part (s : bytes) : option (bytes * bytes) :=
  match s with
  | b :: s' => if Byte.eqb b Byte.x30 then Some ([b], s') else digits1 s
  | [] => None
  end.
Definition frac_part (s : bytes) : option (bytes * bytes) :=
  match s with
  | b :: s' => if Byte.eqb b Byte.x2e then '(d, r) ← digits1 s'; Some (b :: d, r) else Some ([], s)
  | [] => Some ([], s)
  end.
Definition sign (s : bytes) : bytes * bytes :=
  match s with
  | b :: s' => if Byte.eqb b Byte.x2b || Byte.eqb b Byte.x2d then ([b], s') else ([], s)
  | [] => ([], [])
  end.
Definition exp_part (s : bytes) : option (bytes * bytes) :=
  match s with
  | b :: s' =>
      if Byte.eqb b Byte.x65 || Byte.eqb b Byte.x45 then
        let '(sg, s'') := sign s' in '(d, r) ← digits1 s''; Some (b :: sg ++ d, r)
      else Some ([], s)
  | [] => Some ([], s)
  end.
Definition parse_number (s : bytes) : option (bytes * bytes) :=
  let '(neg, s0) := match s with
                    | b :: s' => if Byte.eqb b Byte.x2d then ([b], s') else ([], s)
                    | [] => ([], [])
                    end in
  '(i, s1) ← int_part s0;
  '(f, s2) ← frac_part s1;
  '(e, s3) ← exp_part s2;
  Some (neg ++ i ++ f ++ e, s3).

(** *** The scanner *)

Definition maxNestingDepth : N := 10000.

Definition parse_scalar (s : bytes) : option (json * bytes) :=
  match s with
  | [] => None
  | b :: rest =>
      if Byte.eqb b Byte.x22 then '(x, r) ← parse_string rest; Some (JString x, r)
      else if Byte.eqb b Byte.x6e then r ← strip_prefix (bytes_of_string "null") s; Some (JNull, r)
      else if Byte.eqb b Byte.x74 then r ← strip_prefix (bytes_of_string "true") s; Some (JBool true, r)
      else if Byte.eqb b Byte.x66 then r ← strip_prefix (bytes_of_string "false") s; Some (JBool false, r)
      else '(n, r) ← parse_number s; Some (JNumber n, r)
  end.

(** The name of a member with its colon *)
Definition parse_key (s : bytes) : option (bytes * bytes) :=
  match skip_space s with
  | b :: r =>
      if Byte.eqb b Byte.x22 then
        '(k, r1) ← parse_string r;
        match skip_space r1 with
        | c :: r2 => if Byte.eqb c Byte.x3a then Some (k, r2) else None
        | [] => None
        end
      else None
  | [] => None
  end.

(** Whether a list goes on ([true], after a comma) or ends here *)
Definition parse_next (close : byte) (s : bytes) : option (bool * bytes) :=
  match skip_space s with
  | b :: r => if Byte.eqb b Byte.x2c then Some (true, r) else if Byte.eqb b close then Some (false, r) else None
  | [] => None
  end.

Fixpoint parse_value (fuel : nat) (depth : N) (s : bytes) {struct fuel} : option (json * bytes) :=
  match fuel with
  | O => None
  | S fuel' =>
      match skip_space s with
      | [] => None
      | b :: r =>
          if Byte.eqb b Byte.x7b || Byte.eqb b Byte.x5b then
            if (maxNestingDepth <=? depth)%N then None
            else if Byte.eqb b Byte.x7b then
              match skip_space r with
              | [] => None
              | c :: r' =>
                  if Byte.eqb c Byte.x7d then Some (JObject [], r')
                  else '(l, r'') ← parse_members fuel' (depth + 1) (c :: r'); Some (JObject l, r'')
              end
            else
              match skip_space r with
              | [] => None
              | c :: r' =>
                  if Byte.eqb c Byte.x5d then Some (JArray [], r')
                  else '(l, r'') ← parse_elements fuel' (depth + 1) (c :: r'); Some (JArray l, r'')
              end
          else parse_scalar (b :: r)
      end
  end
with parse_members (fuel : nat) (depth : N) (s : bytes) {struct fuel} : option (list (bytes * json) * bytes) :=
  match fuel with
  | O => None
  | S fuel' =>
      '(k, r1) ← parse_key s;
      '(v, r2) ← parse_value fuel' depth r1;
      '(more, r3) ← parse_next Byte.x7d r2;
      if (more : bool) then '(l, r4) ← parse_members fuel' depth r3; Some ((k, v) :: l, r4)
      else Some ([(k, v)], r3)
  end
with parse_elements (fuel : nat) (depth : N) (s : bytes) {struct fuel} : option (list json * bytes) :=
  match fuel with
  | O => None
  | S fuel' =>
      '(v, r2) ← parse_value fuel' depth s;
      '(more, r3) ← parse_next Byte.x5d r2;
      if (more : bool) then '(l, r4) ← parse_elements fuel' depth r3; Some (v :: l, r4)
      else Some ([v], r3)
  end.

(** Every two calls consume a byte. *)
Definition parse_fuel (s : bytes) : nat := 2 * length s + 1.
(** A whole document: one value and white space *)
Definition parse_document (s : bytes) : option json :=
  '(v, r) ← parse_value (parse_fuel s) 0 s;
  match skip_space r with [] => Some v | _ => None end.

(** ** Structs of strings *)

(** [foldName]: letters as capitals; the long s and the Kelvin sign are the only
    others that fold to ASCII. *)
Definition upper (b : byte) : byte := if in_range 97 122 b then byte_of_N (Byte.to_N b - 32) else b.
Fixpoint foldName (s : bytes) : bytes :=
  match s with
  | [] => []
  | a :: r =>
      match r with
      | [] => [upper a]
      | b :: r1 =>
          if Byte.eqb a Byte.xc5 && Byte.eqb b Byte.xbf then Byte.x53 :: foldName r1
          else
            match r1 with
            | c :: r2 =>
                if Byte.eqb a Byte.xe2 && Byte.eqb b Byte.x84 && Byte.eqb c Byte.xaa then Byte.x4b :: foldName r2
                else upper a :: foldName r
            | [] => upper a :: foldName r
            end
      end
  end.

(** The field a member is stored in, by its exact name or else by its folded one *)
Definition find_field (fields : list string) (key : bytes) : option string :=
  match List.find (λ f, bool_decide (bytes_of_string f = key)) fields with
  | Some f => Some f
  | None => List.find (λ f, bool_decide (foldName (bytes_of_string f) = foldName key)) fields
  end.

(** The fields that were set; a value that is not a string, other than null,
    is an error. *)
Fixpoint store_members (fields : list string) (l : list (bytes * json)) (m : gmap string string)
    : option (gmap string string) :=
  match l with
  | [] => Some m
  | (k, v) :: l' =>
      match find_field fields k, v with
      | None, _ | Some _, JNull => store_members fields l' m
      | Some f, JString s => store_members fields l' (<[f := string_of_bytes s]> m)
      | Some _, _ => None
      end
  end.

Definition decode_struct (fields : list string) (s : bytes) : option (gmap string string) :=
  v ← parse_document s;
  match v with
  | JNull => Some ∅
  | JObject l => store_members fields l ∅
  | _ => None
  end.

Definition Unmarshal `{JsonErrors} (fields : list string) (s : bytes) : outcome (gmap string string) :=
  match decode_struct fields s with Some m => Ok m | None => Err (json_error s) end.
(** The value of a field, empty when it was not set *)
Definition field (m : gmap string string) (name : string) : string := default "" (m !! name).

(** [json.MarshalIndent(v, "", "  ")] of a struct with these fields *)
Definition json_member (kv : string * string) : bytes :=
  bytes_of_string "  " ++ json_string kv.1 ++ bytes_of_string ": " ++ json_string kv.2.
Fixpoint json_members (l : list (string * string)) : bytes :=
  match l with
  | [] => []
  | [kv] => json_member kv ++ [Byte.x0a; Byte.x7d]
  | kv :: l' => json_member kv ++ [Byte.x2c; Byte.x0a] ++ json_members l'
  end.
Definition MarshalIndent (l : list (string * string)) : bytes :=
  match l with
  | [] => bytes_of_string "{}"
  | _ => [Byte.x7b; Byte.x0a] ++ json_members l
  end.

(** ** Examples *)

Definition example_fields : list string := ["keyName"; "chainID"].
(** A document written with single quotes for the double ones *)
Definition doc (s : string) : bytes :=
  (λ b, if Byte.eqb b Byte.x27 then Byte.x22 else b) <$> bytes_of_string s.

(** Unknown members, case, order, null, escapes, and the last of two members *)
Example decode_example :
  decode_struct example_fields (doc " {'x': [1, -2.5e+3, {'y': null}], 'CHAINid':'a','chainID': 'b\u0041\ud83d\ude00\ud83d', 'keyName' : null } ")
  = Some {[ "chainID" := string_of_bytes [Byte.x62; Byte.x41; Byte.xf0; Byte.x9f; Byte.x98; Byte.x80; Byte.xef; Byte.xbf; Byte.xbd] ]}.
Proof. vm_compute. reflexivity. Qed.
Example decode_refused :
  ((λ s, decode_struct example_fields (doc s)) <$>
    ["{'chainID': 5}"; "{'chainID': 'a',}"; "{'chainID' 'a'}"; "[]"; ""; "{'chainID': 'a'} x"; "{'x': 01}"; "{'x': '\q'}"])
  = [None; None; None; None; None; None; None; None].
Proof. vm_compute. reflexivity. Qed.
Example decode_null : decode_struct example_fields (doc "null") = Some ∅.
Proof. vm_compute. reflexivity. Qed.

(** ** The bound on the recursion is enough *)

Lemma skip_space_length s : length (skip_space s) ≤ length s.
Proof. induction s as [|b s IH]; simpl; [done|]. destruct (is_space b); simpl; lia. Qed.
Lemma skip_space_cons s b r : skip_space s = b :: r → length r < length s.
Proof. intros E. pose proof (skip_space_length s) as Hl. rewrite E in Hl. simpl in Hl. lia. Qed.

Lemma take_base_length base n : ∀ acc s v r, take_base base n acc s = Some (v, r) → length r ≤ length s.
Proof.
  induction n as [|n IH]; intros acc [|b s] v r; simpl; try by intros [= _ <-].
  destruct (digit_val base b); [|done]. intros Hr%IH. lia.
Qed.
#[local] Arguments take_base : simpl never.
#[local] Arguments json_char : simpl never.
#[local] Arguments utf8_len : simpl never.
#[local] Arguments parse_number : simpl never.
#[local] Arguments parse_scalar : simpl never.
#[local] Arguments parse_key : simpl never.
#[local] Arguments parse_next : simpl never.
#[local] Arguments parse_string : simpl never.
Lemma getu4_length s v r : getu4 s = Some (v, r) → length r ≤ length s.
Proof.
  destruct s as [|a [|b s]]; simpl; [done..|]. destruct (_ && _); [|done]. intros Hr%take_base_length. lia.
Qed.
Lemma json_rune_length r1 s c r : json_rune r1 s = (c, r) → length r ≤ length s.
Proof.
  unfold json_rune. destruct (IsSurrogate r1); [|by intros [= _ <-]].
  destruct (getu4 s) as [[r2 s']|] eqn:E; [|by intros [= _ <-]].
  destruct (surrogate_pair r1 r2); intros [= _ <-]; [by eapply getu4_length|done].
Qed.
Lemma json_char_length s c r : json_char s = Some (c, r) → length r ≤ length s.
Proof.
  destruct s as [|b s]; [done|]. unfold json_char. destruct (Byte.eqb b Byte.x5c).
  - destruct s as [|e s]; simpl; [done|]. destruct (short_escape e); [intros [= _ <-]; lia|].
    destruct (Byte.eqb e Byte.x75); [|done]. destruct (take_base 16 4 0 s) as [[r1 s']|] eqn:E; [|done].
    intros [= Hr]. apply take_base_length in E. apply json_rune_length in Hr. lia.
  - destruct (_ <? _)%N; [done|]. destruct (utf8_len (b :: s)) as [n|].
    + intros [= _ <-]. rewrite length_drop. lia.
    + intros [= _ <-]. simpl. lia.
Qed.
Lemma json_unquote_length fuel : ∀ s x r, json_unquote fuel s = Some (x, r) → length r < length s.
Proof.
  induction fuel as [|fuel IH]; intros [|b s] x r; simpl; try done.
  destruct (Byte.eqb b Byte.x22); [intros [= _ <-]; lia|].
  destruct (json_char (b :: s)) as [[c s']|] eqn:E; [|done]. apply json_char_length in E. simpl in *.
  destruct (json_unquote fuel s') as [[cs s'']|] eqn:E'; [|done]. intros [= _ <-]. apply IH in E'. lia.
Qed.
Lemma parse_string_length s x r : parse_string s = Some (x, r) → length r < length s.
Proof. apply json_unquote_length. Qed.

Lemma strip_prefix_length p : ∀ s r, strip_prefix p s = Some r → length r ≤ length s.
Proof.
  induction p as [|a p IH]; intros [|b s] r; simpl; try by intros [= <-].
  destruct (Byte.eqb a b); [|done]. intros Hr%IH. lia.
Qed.
Lemma digits_length s : ∀ d r, digits s = (d, r) → length r ≤ length s.
Proof.
  induction s as [|b s IH]; intros d r; simpl; [by intros [= _ <-]|]. destruct (is_digit b); [|by intros [= _ <-]].
  destruct (digits s) as [d' r']. intros [= _ <-]. specialize (IH _ _ eq_refl). lia.
Qed.
Lemma digits1_length s d r : digits1 s = Some (d, r) → length r ≤ length s.
Proof. unfold digits1. destruct (digits s) as [[|b d'] r'] eqn:E; [done|]. intros [= _ <-]. by eapply digits_length. Qed.
Lemma int_part_length s d r : int_part s = Some (d, r) → length r ≤ length s.
Proof.
  destruct s as [|b s]; [done|]. unfold int_part. destruct (Byte.eqb b Byte.x30); [|apply digits1_length].
  intros [= _ <-]. simpl. lia.
Qed.
Lemma frac_part_length s d r : frac_part s = Some (d, r) → length r ≤ length s.
Proof.
  destruct s as [|b s]; simpl; [by intros [= _ <-]|]. destruct (Byte.eqb b Byte.x2e); [|by intros [= _ <-]].
  destruct (digits1 s) as [[d' r']|] eqn:E; [|done]. intros [= _ <-]. apply digits1_length in E. lia.
Qed.
Lemma exp_part_length s d r : exp_part s = Some (d, r) → length r ≤ length s.
Proof.
  destruct s as [|b s]; simpl; [by intros [= _ <-]|]. destruct (_ || _); [|by intros [= _ <-]].
  assert (length (sign s).2 ≤ length s) as Hs.
  { destruct s as [|c s]; simpl; [done|]. destruct (_ || _); simpl; lia. }
  destruct (sign s) as [sg s']. simpl in Hs. destruct (digits1 s') as [[d' r']|] eqn:E; [|done].
  intros [= _ <-]. apply digits1_length in E. lia.
Qed.
Lemma parse_number_length s d r : parse_number s = Some (d, r) → length r ≤ length s.
Proof.
  unfold parse_number. set (p := match s with [] => _ | _ => _ end).
  assert (length p.2 ≤ length s) as Hp.
  { subst p. destruct s as [|b s]; simpl; [done|]. destruct (Byte.eqb b Byte.x2d); simpl; lia. }
  destruct p as [neg s0]. simpl in Hp. destruct (int_part s0) as [[i s1]|] eqn:E1; [|done]. simpl.
  destruct (frac_part s1) as [[f s2]|] eqn:E2; [|done]. simpl.
  destruct (exp_part s2) as [[e s3]|] eqn:E3; [|done]. intros [= _ <-].
  apply int_part_length in E1. apply frac_part_length in E2. apply exp_part_length in E3. lia.
Qed.

Lemma parse_scalar_length s v r : parse_scalar s = Some (v, r) → length r ≤ length s.
Proof.
  destruct s as [|b s]; [done|]. unfold parse_scalar.
  destruct (Byte.eqb b Byte.x22).
  { destruct (parse_string s) as [[x r']|] eqn:E; [|done]. intros [= _ <-]. apply parse_string_length in E. simpl. lia. }
  destruct (Byte.eqb b Byte.x6e); [|destruct (Byte.eqb b Byte.x74); [|destruct (Byte.eqb b Byte.x66)]].
  1-3: destruct (strip_prefix _ _) as [r'|] eqn:E; [|done]; intros [= _ <-]; by apply strip_prefix_length in E.
  destruct (parse_number _) as [[n r']|] eqn:E; [|done]. intros [= _ <-]. by apply parse_number_length in E.
Qed.
Lemma parse_key_length s k r : parse_key s = Some (k, r) → length r < length s.
Proof.
  unfold parse_key. destruct (skip_space s) as [|b r0] eqn:E0; [done|]. apply skip_space_cons in E0.
  destruct (Byte.eqb b Byte.x22); [|done]. destruct (parse_string r0) as [[k' r1]|] eqn:E1; [|done]. simpl.
  apply parse_string_length in E1. destruct (skip_space r1) as [|c r2] eqn:E2; [done|]. apply skip_space_cons in E2.
  destruct (Byte.eqb c Byte.x3a); [|done]. intros [= _ <-]. lia.
Qed.
Lemma parse_next_length close s more r : parse_next close s = Some (more, r) → length r < length s.
Proof.
  unfold parse_next. destruct (skip_space s) as [|b r0] eqn:E0; [done|]. apply skip_space_cons in E0.
  destruct (Byte.eqb b Byte.x2c); [by intros [= _ <-]|]. destruct (Byte.eqb b close); [by intros [= _ <-]|done].
Qed.

Lemma parse_length fuel : ∀ d s r,
  (∀ v, parse_value fuel d s = Some (v, r) → length r ≤ length s)
  ∧ (∀ l, parse_members fuel d s = Some (l, r) → length r ≤ length s)
  ∧ (∀ l, parse_elements fuel d s = Some (l, r) → length r ≤ length s).
Proof.
  induction fuel as [|fuel IH]; intros d s r; [done|]. split_and!.
  - intros v. cbn [parse_value]. destruct (skip_space s) as [|b r0] eqn:E0; [done|].
    pose proof (skip_space_length s) as Hs. rewrite E0 in Hs. apply skip_space_cons in E0.
    destruct (_ || _); [|intros ?%parse_scalar_length; lia].
    destruct (_ <=? _)%N; [done|]. pose proof (skip_space_length r0) as Hr0.
    destruct (Byte.eqb b Byte.x7b); (destruct (skip_space r0) as [|c r1]; [done|]; simpl in Hr0;
      destruct (Byte.eqb c _); [intros [= _ <-]; lia|]).
    + destruct (parse_members fuel (d + 1) (c :: r1)) as [[l r2]|] eqn:El; [|done]. intros [= _ <-].
      apply (IH (d + 1)%N (c :: r1) r2) in El. simpl in El. lia.
    + destruct (parse_elements fuel (d + 1) (c :: r1)) as [[l r2]|] eqn:El; [|done]. intros [= _ <-].
      apply (IH (d + 1)%N (c :: r1) r2) in El. simpl in El. lia.
  - intros l. cbn [parse_members]. destruct (parse_key s) as [[k r1]|] eqn:E1; [|done]. cbn.
    apply parse_key_length in E1. destruct (parse_value fuel d r1) as [[v r2]|] eqn:E2; [|done]. cbn.
    apply (IH d r1 r2) in E2. destruct (parse_next _ r2) as [[more r3]|] eqn:E3; [|done]. cbn.
    apply parse_next_length in E3. destruct more; [|intros [= _ <-]; lia].
    destruct (parse_members fuel d r3) as [[l' r4]|] eqn:E4; [|done]. intros [= _ <-].
    apply (IH d r3 r4) in E4. lia.
  - intros l. cbn [parse_elements]. destruct (parse_value fuel d s) as [[v r2]|] eqn:E2; [|done]. cbn.
    apply (IH d s r2) in E2. destruct (parse_next _ r2) as [[more r3]|] eqn:E3; [|done]. cbn.
    apply parse_next_length in E3. destruct more; [|intros [= _ <-]; lia].
    destruct (parse_elements fuel d r3) as [[l' r4]|] eqn:E4; [|done]. intros [= _ <-].
    apply (IH d r3 r4) in E4. lia.
Qed.

Lemma parse_enough f1 : ∀ f2 d s,
  (2 * length s + 1 ≤ f1 → 2 * length s + 1 ≤ f2 → parse_value f1 d s = parse_value f2 d s)
  ∧ (2 * length s + 2 ≤ f1 → 2 * length s + 2 ≤ f2 → parse_members f1 d s = parse_members f2 d s)
  ∧ (2 * length s + 2 ≤ f1 → 2 * length s + 2 ≤ f2 → parse_elements f1 d s = parse_elements f2 d s).
Proof.
  induction f1 as [|f1 IH]; intros [|f2] d s; try (split_and!; intros; lia). split_and!; intros L1 L2.
  - cbn [parse_value]. destruct (skip_space s) as [|b r0] eqn:E0; [done|]. apply skip_space_cons in E0.
    destruct (_ || _); [|done]. destruct (_ <=? _)%N; [done|]. pose proof (skip_space_length r0) as Hr0.
    destruct (Byte.eqb b Byte.x7b); (destruct (skip_space r0) as [|c r1]; [done|]; destruct (Byte.eqb c _); [done|];
      destruct (IH f2 (d + 1)%N (c :: r1)) as (_ & IHm & IHe); simpl in Hr0, IHm, IHe).
    + by rewrite IHm by lia.
    + by rewrite IHe by lia.
  - cbn [parse_members]. destruct (parse_key s) as [[k r1]|] eqn:E1; [|done]. cbn. apply parse_key_length in E1.
    destruct (IH f2 d r1) as [IHv _]. rewrite IHv by lia.
    destruct (parse_value f2 d r1) as [[v r2]|] eqn:E2; [|done]. cbn.
    apply (parse_length f2 d r1 r2) in E2. destruct (parse_next _ r2) as [[[] r3]|] eqn:E3; [|done..]. cbn.
    apply parse_next_length in E3. destruct (IH f2 d r3) as (_ & IHm & _). by rewrite IHm by lia.
  - cbn [parse_elements]. destruct (IH f2 d s) as [IHv _]. rewrite IHv by lia.
    destruct (parse_value f2 d s) as [[v r2]|] eqn:E2; [|done]. cbn.
    apply (parse_length f2 d s r2) in E2. destruct (parse_next _ r2) as [[[] r3]|] eqn:E3; [|done..]. cbn.
    apply parse_next_length in E3. destruct (IH f2 d r3) as (_ & _ & IHe). by rewrite IHe by lia.
Qed.

(** More fuel does not change the result: no document is refused for lack of it. *)
Lemma parse_value_enough fuel d s : parse_fuel s ≤ fuel → parse_value fuel d s = parse_value (parse_fuel s) d s.
Proof. intros Hf. destruct (parse_enough fuel (parse_fuel s) d s) as [Hv _]. by apply Hv. Qed.

(** ** Round trip of strings *)

(** A text as JSON keeps it: bytes that are not UTF-8 become U+FFFD; [copy]
    bytes of a sequence are copied. *)
Fixpoint to_valid (copy : nat) (s : bytes) : bytes :=
  match s with
  | [] => []
  | b :: rest =>
      match copy with
      | S copy' => b :: to_valid copy' rest
      | O =>
          match utf8_len s with
          | Some n => b :: to_valid (n - 1) rest
          | None => ReplacementChar ++ to_valid 0 rest
          end
      end
  end.
Definition ToValidUTF8 (s : string) : string := string_of_bytes (to_valid 0 (bytes_of_string s)).

Lemma utf8_len_bound s n : utf8_len s = Some n → 1 ≤ n ≤ length s.
Proof.
  destruct s as [|x [|y [|z [|w s]]]]; unfold utf8_len; [done|..];
    (destruct (_ <? _)%N; [intros [= <-]; simpl; lia|]);
    repeat (match goal with |- context [if ?b then _ else _] => destruct b end; try done);
    intros [= <-]; simpl; lia.
Qed.

(** It depends on the bytes of the sequence only. *)
Lemma utf8_len_local s n t : utf8_len s = Some n → utf8_len (take n s ++ t) = Some n.
Proof.
  destruct s as [|x [|y [|z [|w s]]]]; unfold utf8_len; [done|..];
    (destruct (Byte.to_N x <? 128)%N eqn:Ex; [intros [= <-]; simpl; by rewrite Ex|]);
    repeat (match goal with |- context [if ?b then _ else _] => destruct b eqn:? end; try done);
    intros [= <-]; simpl; rewrite Ex;
    repeat (match goal with H : _ = _ |- _ => rewrite H end; simpl); done.
Qed.

Lemma to_valid_copy k s : k ≤ length s → to_valid k s = take k s ++ to_valid 0 (drop k s).
Proof.
  revert s. induction k as [|k IH]; intros [|b s] Hk; simpl in *; [done..|lia|]. by rewrite IH by lia.
Qed.
Lemma json_chars_copy k s : k ≤ length s → json_chars k 0 s = take k s ++ json_chars 0 0 (drop k s).
Proof.
  revert s. induction k as [|k IH]; intros [|b s] Hk; simpl in *; [done..|lia|]. by rewrite IH by lia.
Qed.

(** A character as it is written and read *)
Record json_step (s : bytes) (n : nat) (enc out : bytes) : Prop := {
  js_n : 1 ≤ n;
  js_enc : json_chars 0 0 s = enc ++ json_chars 0 0 (drop n s);
  js_head : ∃ c e, enc = c :: e ∧ Byte.eqb c Byte.x22 = false;
  js_read t : json_char (enc ++ t) = Some (out, t);
  js_out : to_valid 0 s = out ++ to_valid 0 (drop n s)
}.

Lemma json_ascii_read b t :
  (Byte.to_N b <? 128)%N = true →
  json_char (json_ascii b ++ t) = Some ([b], t) ∧ ∃ c e, json_ascii b = c :: e ∧ Byte.eqb c Byte.x22 = false.
Proof.
  intros Hb. destruct b; try discriminate Hb; (split; [reflexivity|]; eexists _, _; split; reflexivity).
Qed.

Lemma json_sequence_read b s n t :
  (Byte.to_N b <? 128)%N = false → utf8_len (b :: s) = Some n →
  json_char (take n (b :: s) ++ t) = Some (take n (b :: s), t)
  ∧ ∃ c e, take n (b :: s) = c :: e ∧ Byte.eqb c Byte.x22 = false.
Proof.
  intros Hb Hn. pose proof (utf8_len_bound _ _ Hn) as Hl. pose proof (utf8_len_local _ _ t Hn) as Ht.
  assert (take n (b :: s) = b :: take (n - 1) s) as Etake by (destruct n; [lia|simpl; by rewrite Nat.sub_0_r]).
  rewrite Etake in Ht |- *. split.
  - change ((b :: take (n - 1) s) ++ t) with (b :: take (n - 1) s ++ t) in Ht |- *. unfold json_char.
    assert (Byte.eqb b Byte.x5c = false ∧ (Byte.to_N b <? 32)%N = false) as [-> ->]
      by (destruct b; try discriminate Hb; by split).
    rewrite Ht. f_equal. rewrite app_comm_cons, <- Etake.
    assert (length (take n (b :: s)) = n) as Elen by (rewrite length_take; lia).
    by rewrite take_app_length', drop_app_length' by done.
  - eexists _, _. split; [done|]. destruct b; try discriminate Hb; reflexivity.
Qed.

Lemma json_steps b s : ∃ n enc out, json_step (b :: s) n enc out.
Proof.
  destruct (Byte.to_N b <? 128)%N eqn:Hb.
  { exists 1%nat, (json_ascii b), [b]. destruct (json_ascii_read b [] Hb) as [_ Hh]. split; [done| |done| |].
    - cbn [json_chars]. by rewrite Hb.
    - intros t. by apply json_ascii_read.
    - cbn [to_valid]. unfold utf8_len. by rewrite Hb. }
  destruct (utf8_len (b :: s)) as [n|] eqn:Hn.
  2:{ exists 1%nat, (bytes_of_string "\ufffd"), ReplacementChar. split; [done| |by eexists _, _|done|].
      - cbn [json_chars]. by rewrite Hb, Hn.
      - cbn [to_valid]. by rewrite Hn. }
  destruct (is_separator (b :: s)) eqn:Hs.
  - assert (∃ z r, b = Byte.xe2 ∧ s = Byte.x80 :: z :: r ∧ (z = Byte.xa8 ∨ z = Byte.xa9)) as (z & r & -> & -> & Hz).
    { revert Hs. clear. destruct b; try done. destruct s as [|y [|z r]]; try done. { by destruct y. }
      destruct y; try done. intros Hz. exists z, r. split_and!; [done..|]. destruct z; try done; by eauto. }
    destruct Hz as [-> | ->];
      [exists 3%nat, (bytes_of_string "\u2028"), [Byte.xe2; Byte.x80; Byte.xa8]
      |exists 3%nat, (bytes_of_string "\u2029"), [Byte.xe2; Byte.x80; Byte.xa9]];
      (split; [lia|reflexivity|by eexists _, _|reflexivity|reflexivity]).
  - pose proof (utf8_len_bound _ _ Hn) as Hl. exists n, (take n (b :: s)), (take n (b :: s)).
    destruct (json_sequence_read b s n [] Hb Hn) as [_ Hh].
    destruct n as [|n]; [lia|]. simpl in Hl. split; [lia| |done| |].
    + cbn [json_chars]. rewrite Hb, Hn, Hs. simpl. rewrite Nat.sub_0_r, json_chars_copy by lia. done.
    + intros t. by apply json_sequence_read.
    + cbn [to_valid]. rewrite Hn. simpl. rewrite Nat.sub_0_r, to_valid_copy by lia. done.
Qed.

Lemma json_unquote_chars t : ∀ k s fuel, length s ≤ k → length (json_chars 0 0 s) < fuel →
  json_unquote fuel (json_chars 0 0 s ++ Byte.x22 :: t) = Some (to_valid 0 s, t).
Proof.
  induction k as [|k IH]; intros [|b s] fuel Hk Hf; try (simpl in Hk; lia).
  1,2: by destruct fuel; [simpl in Hf; lia|].
  destruct (json_steps b s) as (n & enc & out & [Hn He (c & e & Ec & Hc) Hr Ho]).
  rewrite He, Ho in *. rewrite length_app in Hf.
  assert (json_unquote (fuel - 1) (json_chars 0 0 (drop n (b :: s)) ++ Byte.x22 :: t)
          = Some (to_valid 0 (drop n (b :: s)), t)) as IHs.
  { apply IH; [rewrite length_drop; simpl in *; lia|]. rewrite Ec in Hf. simpl in Hf. lia. }
  destruct fuel as [|fuel]; [lia|]. rewrite <- (assoc_L (++)).
  specialize (Hr (json_chars 0 0 (drop n (b :: s)) ++ Byte.x22 :: t)). rewrite Ec in Hr |- *.
  cbn [app] in Hr |- *. cbn [json_unquote]. rewrite Hc, Hr. cbn.
  replace (S fuel - 1) with fuel in IHs by lia. by rewrite IHs.
Qed.

Lemma parse_string_json s t :
  parse_string (json_chars 0 0 (bytes_of_string s) ++ Byte.x22 :: t) = Some (to_valid 0 (bytes_of_string s), t).
Proof. unfold parse_string. eapply json_unquote_chars; [done|]. rewrite length_app. simpl. lia. Qed.

(** ** Round trip of structs *)

(** Texts that JSON keeps as they are; ASCII is among them. *)
Definition valid_utf8 (s : string) : Prop := ToValidUTF8 s = s.
#[global] Instance valid_utf8_dec s : Decision (valid_utf8 s) := decide (ToValidUTF8 s = s).
Definition is_ascii (b : byte) : bool := (Byte.to_N b <? 128)%N.
Definition ascii_text (s : string) : bool := forallb is_ascii (bytes_of_string s).

Lemma string_bytes_string s : string_of_bytes (bytes_of_string s) = s.
Proof. unfold bytes_of_string, string_of_bytes. apply String.string_of_list_byte_of_string. Qed.
Lemma bytes_string_bytes b : bytes_of_string (string_of_bytes b) = b.
Proof. unfold bytes_of_string, string_of_bytes. apply String.list_byte_of_string_of_list_byte. Qed.
Lemma bytes_of_string_inj s s' : bytes_of_string s = bytes_of_string s' → s = s'.
Proof. intros E. by rewrite <- (string_bytes_string s), E, string_bytes_string. Qed.

Lemma ascii_valid s : ascii_text s = true → valid_utf8 s.
Proof.
  unfold ascii_text, valid_utf8, ToValidUTF8. intros Hs.
  assert (to_valid 0 (bytes_of_string s) = bytes_of_string s) as ->; [|apply string_bytes_string].
  induction (bytes_of_string s) as [|b l IH]; [done|]. simpl in Hs. apply andb_true_iff in Hs as [Hb Hl].
  cbn [to_valid]. unfold utf8_len, is_ascii in *. rewrite Hb. simpl. by rewrite IH.
Qed.

Lemma skip_space_char b s : is_space b = false → skip_space (b :: s) = b :: s.
Proof. intros Hb. simpl. by rewrite Hb. Qed.

Lemma parse_key_json k t :
  valid_utf8 k →
  parse_key (bytes_of_string "  " ++ json_string k ++ bytes_of_string ": " ++ t) = Some (bytes_of_string k, Byte.x20 :: t).
Proof.
  intros Hk. unfold parse_key, json_string. simpl. rewrite <- (assoc_L (++)). cbn [app]. rewrite parse_string_json. simpl.
  do 2 f_equal. rewrite <- (bytes_string_bytes (to_valid _ _)). by f_equal.
Qed.

Lemma parse_value_string f d v t :
  0 < f → parse_value f d (Byte.x20 :: json_string v ++ t) = Some (JString (bytes_of_string (ToValidUTF8 v)), t).
Proof.
  destruct f as [|f]; [lia|]. intros _. unfold json_string. simpl. unfold parse_scalar. simpl. rewrite <- (assoc_L (++)). cbn [app]. rewrite parse_string_json. simpl.
  unfold ToValidUTF8. by rewrite bytes_string_bytes.
Qed.

(** The members as they are read back *)
Definition read_member (kv : string * string) : bytes * json :=
  (bytes_of_string kv.1, JString (bytes_of_string (ToValidUTF8 kv.2))).

Lemma json_member_app k v t :
  json_member (k, v) ++ t = bytes_of_string "  " ++ json_string k ++ bytes_of_string ": " ++ (json_string v ++ t).
Proof. unfold json_member. cbn [fst snd]. by rewrite <- !(assoc_L (++)). Qed.

Lemma parse_members_json d l : ∀ f,
  l ≠ [] → Forall (valid_utf8 ∘ fst) l → length l < f →
  parse_members f d (json_members l) = Some (read_member <$> l, []).
Proof.
  induction l as [|[k v] l IH]; intros f Hne Hl Hf; [done|].
  apply Forall_cons in Hl as [Hk Hl]. destruct f as [|f]; simpl in Hf; [lia|].
  destruct l as [|kv l].
  - cbn [json_members]. rewrite json_member_app. cbn [parse_members]. rewrite parse_key_json by done. cbn [mbind option_bind].
    by rewrite parse_value_string by lia.
  - change (json_members ((k, v) :: kv :: l)) with
      (json_member (k, v) ++ [Byte.x2c; Byte.x0a] ++ json_members (kv :: l)).
    rewrite json_member_app. cbn [parse_members]. rewrite parse_key_json by done. cbn [mbind option_bind].
    rewrite parse_value_string by lia. cbn [mbind option_bind].
    assert (∀ t, parse_next Byte.x7d ([Byte.x2c; Byte.x0a] ++ t) = Some (true, Byte.x0a :: t)) as -> by done.
    cbn [mbind option_bind].
    assert (∀ g t, parse_members g d (Byte.x0a :: t) = parse_members g d t) as -> by by intros [|g] t.
    rewrite (IH f); [done..|]. simpl in Hf |- *. lia.
Qed.

Lemma json_members_length l : length l ≤ length (json_members l).
Proof.
  induction l as [|kv l IH]; [done|]. destruct l as [|kv' l].
  - simpl. rewrite length_app. simpl. lia.
  - change (json_members (kv :: kv' :: l)) with (json_member kv ++ [Byte.x2c; Byte.x0a] ++ json_members (kv' :: l)).
    rewrite !length_app. simpl in *. lia.
Qed.

Lemma parse_document_json l :
  Forall (valid_utf8 ∘ fst) l → parse_document (MarshalIndent l) = Some (JObject (read_member <$> l)).
Proof.
  intros Hl. destruct l as [|kv l0]; [done|]. set (l := kv :: l0) in *.
  unfold parse_document, parse_fuel. change (MarshalIndent l) with (Byte.x7b :: Byte.x0a :: json_members l).
  pose proof (json_members_length l) as Hlen.
  replace (2 * length _ + 1) with (S (2 * length (json_members l) + 4)) by (simpl; lia).
  set (fuel := 2 * length (json_members l) + 4).
  assert (∃ t, json_members l = Byte.x20 :: Byte.x20 :: Byte.x22 :: t) as [t Et].
  { subst l. destruct l0; simpl; eauto. }
  assert (parse_members fuel 1 (Byte.x22 :: t) = Some (read_member <$> l, [])) as Hm.
  { rewrite <- (parse_members_json 1 l fuel); [|done..|subst fuel; lia]. rewrite Et. by destruct fuel. }
  clearbody fuel. rewrite Et. cbn [parse_value skip_space]. simpl. change (0 + 1)%N with 1%N. by rewrite Hm.
Qed.

Lemma find_field_exact fields f : f ∈ fields → find_field fields (bytes_of_string f) = Some f.
Proof.
  intros Hf. unfold find_field.
  assert (List.find (λ g, bool_decide (bytes_of_string g = bytes_of_string f)) fields = Some f) as ->; [|done].
  induction fields as [|g l IH]; [by apply elem_of_nil in Hf|]. simpl. case_bool_decide as E.
  - apply bytes_of_string_inj in E. by subst.
  - apply IH. apply elem_of_cons in Hf as [->|Hf]; done.
Qed.

Lemma store_members_json fields l : ∀ m,
  NoDup l.*1 → (∀ k, k ∈ l.*1 → k ∈ fields) →
  ∃ m', store_members fields (read_member <$> l) m = Some m'
    ∧ (∀ k v, (k, v) ∈ l → m' !! k = Some (ToValidUTF8 v)) ∧ ∀ k, k ∉ l.*1 → m' !! k = m !! k.
Proof.
  induction l as [|[k v] l IH]; intros m Hd Hin; csimpl in *.
  - exists m. split_and!; [done| |done]. by intros k v ?%elem_of_nil.
  - apply NoDup_cons in Hd as [Hk Hd]. rewrite find_field_exact by (apply Hin; left).
    rewrite string_bytes_string. destruct (IH (<[k := ToValidUTF8 v]> m) Hd) as (m' & -> & H1 & H2).
    { intros k' Hk'. apply Hin. by right. }
    exists m'. split_and!; [done| |].
    + intros k' v' [[= -> ->]|Hv]%elem_of_cons; [|by apply H1]. rewrite H2 by done. apply lookup_insert_eq.
    + intros k' Hk'. apply not_elem_of_cons in Hk' as [Hne Hk']. rewrite H2 by done. by apply lookup_insert_ne.
Qed.

(** What is written is read back, field by field. *)
Lemma decode_MarshalIndent l :
  NoDup l.*1 → Forall (valid_utf8 ∘ fst) l →
  ∃ m, decode_struct l.*1 (MarshalIndent l) = Some m ∧ ∀ k v, (k, v) ∈ l → field m k = ToValidUTF8 v.
Proof.
  intros Hd Hl. unfold decode_struct. rewrite parse_document_json by done. simpl.
  destruct (store_members_json l.*1 l ∅ Hd) as (m & -> & Hm & _); [done|].
  exists m. split; [done|]. intros k v Hkv. unfold field. by rewrite (Hm k v Hkv).
Qed.

(** Base64 and hexadecimal digits are ASCII. *)
Lemma ascii_app s t : ascii_text (s +:+ t) = ascii_text s && ascii_text t.
Proof.
  unfold ascii_text, bytes_of_string. induction s as [|c s IH]; [done|]. simpl. rewrite <- andb_assoc. by f_equal.
Qed.
Lemma b64_char_ascii n : (n < 64)%N → is_ascii (b64_char n) = true.
Proof. apply (sextet_all (λ n, is_ascii (b64_char n) = true)). by vm_compute. Qed.
Lemma base64_ascii b : ascii_text (EncodeToString b) = true.
Proof.
  unfold ascii_text, EncodeToString. rewrite bytes_string_bytes.
  induction b as [|x|x y|x y z l IH] using bytes3_ind; [done|..]; cbn [b64_encode forallb].
  - destruct (block_bytes (Byte.to_N x) 0 0) as (L1 & L2 & _); [by apply byte_bound|done..|].
    rewrite !N.add_0_r in *. by rewrite !b64_char_ascii by done.
  - destruct (block_bytes (Byte.to_N x) (Byte.to_N y) 0) as (L1 & L2 & L3 & _); [by apply byte_bound..|done|].
    rewrite !N.add_0_r in *. by rewrite !b64_char_ascii by done.
  - destruct (block_bytes (Byte.to_N x) (Byte.to_N y) (Byte.to_N z)) as (L1 & L2 & L3 & L4 & _); [by apply byte_bound..|].
    rewrite !b64_char_ascii by done. simpl. exact IH.
Qed.
Lemma hex_ascii b : ascii_text (fmt_x b) = true.
Proof.
  unfold ascii_text, fmt_x. rewrite bytes_string_bytes. induction b as [|x b IH]; [done|].
  change (hex_bytes (x :: b)) with (hex_digit (Byte.to_N x / 16) :: hex_digit (Byte.to_N x mod 16) :: hex_bytes b).
  cbn [forallb]. rewrite IH. clear. by destruct x.
Qed.

(** A document with ASCII names and valid values is read back. *)
Lemma decode_fields l :
  bool_decide (NoDup l.*1) = true → forallb ascii_text l.*1 = true → Forall valid_utf8 l.*2 →
  ∃ m, decode_struct l.*1 (MarshalIndent l) = Some m ∧ Forall (λ kv, field m kv.1 = kv.2) l.
Proof.
  intros Hd%bool_decide_eq_true Hn Hv. rewrite forallb_forall in Hn. rewrite Forall_forall in Hv.
  destruct (decode_MarshalIndent l Hd) as (m & Hm & Hf).
  { apply Forall_forall. intros kv Hkv. apply ascii_valid, Hn, list_elem_of_In. by apply list_elem_of_fmap_2. }
  exists m. split; [done|]. apply Forall_forall. intros [k v] Hkv. simpl. rewrite (Hf k v Hkv).
  apply Hv. by apply (list_elem_of_fmap_2 snd _ (k, v)).
Qed.

Ltac fields_read Hf := repeat (apply Forall_cons in Hf as [?Hk Hf]); simpl in *; congruence.
