(* ===== verification/Kvdb.v ===== *)
(** * The key-value database

    Both daemons keep their state in a [kvdb.Backend] (lnd's kvdb over bbolt),
    which is not part of this repository.  It is a parameter of the
    development: the class [KvBackend] lists the operations the stores use,
    [KvLaws] what they rely on.  A database maps bucket names to buckets and a
    bucket maps byte strings to byte strings; [ForEach] and cursors visit the
    keys in lexicographic order; a transaction whose body or commit fails
    leaves the database as it was.  [MapDb] is a concrete database (a finite
    map of finite maps) that satisfies the laws. *)

From stdpp Require Import base gmap strings list sorting.
From S2P Require Import Prelude.

(** ** Byte-wise lexicographic order (Go's [bytes.Compare]) *)

Fixpoint bytes_leb (a b : bytes) : bool :=
  match a, b with
  | [], _ => true
  | _ :: _, [] => false
  | x :: a', y :: b' =>
      (Byte.to_N x <? Byte.to_N y)%N
      || ((Byte.to_N x =? Byte.to_N y)%N && bytes_leb a' b')
  end.

Definition bytes_le (a b : bytes) : Prop := bytes_leb a b = true.
Definition bytes_lt (a b : bytes) : Prop := bytes_le a b ∧ a ≠ b.

#[export] Instance bytes_le_dec a b : Decision (bytes_le a b).
Proof. unfold bytes_le. apply _. Defined.

Lemma byte_to_N_inj x y : Byte.to_N x = Byte.to_N y → x = y.
Proof.
  intros H%(f_equal Byte.of_N). rewrite !Byte.of_to_N in H. by simplify_eq.
Qed.

Lemma bytes_le_cons x a y b :
  bytes_le (x :: a) (y :: b) ↔
  (Byte.to_N x < Byte.to_N y)%N ∨ (x = y ∧ bytes_le a b).
Proof.
  unfold bytes_le. simpl. rewrite orb_true_iff, andb_true_iff.
  rewrite N.ltb_lt, N.eqb_eq. naive_solver eauto using byte_to_N_inj.
Qed.

#[export] Instance bytes_le_refl : Reflexive bytes_le.
Proof.
  intros a. induction a as [|x a IH]; [done|]. apply bytes_le_cons. by right.
Qed.

#[export] Instance bytes_le_trans : Transitive bytes_le.
Proof.
  intros a. induction a as [|x a IH]; intros [|y b] [|z c]; try done.
  rewrite !bytes_le_cons. intros [H1|[-> H1]] [H2|[-> H2]]; [left; lia|by left..|].
  right. eauto.
Qed.

#[export] Instance bytes_le_total : Total bytes_le.
Proof.
  intros a. induction a as [|x a IH]; intros [|y b]; [by left|by left|by right|].
  rewrite !bytes_le_cons.
  destruct (N.lt_trichotomy (Byte.to_N x) (Byte.to_N y)) as [?|[E|?]]; [by left; left| |by right; left].
  apply byte_to_N_inj in E as ->. destruct (IH b); [left|right]; by right.
Qed.

#[export] Instance bytes_le_antisymm : AntiSymm (=) bytes_le.
Proof.
  intros a. induction a as [|x a IH]; intros [|y b]; try done.
  rewrite !bytes_le_cons. intros [H1|[-> H1]] [H2|[E H2]]; try lia.
  - subst y. lia.
  - f_equal. auto.
Qed.

(** A common prefix does not change the order. *)
Lemma bytes_le_app p a b : bytes_le (p ++ a) (p ++ b) ↔ bytes_le a b.
Proof.
  induction p as [|x p IH]; [done|]. simpl. rewrite bytes_le_cons, IH.
  split; [intros [?|[_ ?]]; [lia|done]|by right].
Qed.

(** ** The interface *)

Class KvBackend (D : Type) := {
  (** opening a transaction, e.g. "database not open" *)
  kv_begin : D → option error;
  (** committing a transaction whose result is the given database *)
  kv_commit : D → option error;
  (** [tx.ReadBucket(name) != nil] *)
  kv_has : D → bytes → bool;
  (** [tx.CreateTopLevelBucket(name)] *)
  kv_create : D → bytes → outcome D;
  (** [bucket.Get(key)], [None] for nil *)
  kv_get : D → bytes → bytes → option bytes;
  (** [bucket.Put(key, value)] *)
  kv_put : D → bytes → bytes → bytes → outcome D;
  (** [bucket.Delete(key)] *)
  kv_delete : D → bytes → bytes → outcome D;
  (** the pairs of a bucket in the order of [ForEach] and of a cursor *)
  kv_entries : D → bytes → list (bytes * bytes);
}.

Class KvLaws (D : Type) `{KvBackend D} : Prop := {
  kv_create_has d b d' b' :
    kv_create d b = Ok d' → kv_has d' b' = bool_decide (b = b') || kv_has d b';
  kv_create_get d b d' b' k :
    kv_create d b = Ok d' → kv_get d' b' k = kv_get d b' k;
  kv_put_has d b k v d' b' : kv_put d b k v = Ok d' → kv_has d' b' = kv_has d b';
  kv_put_get d b k v d' b' k' :
    kv_put d b k v = Ok d' →
    kv_get d' b' k' = if decide (b = b' ∧ k = k') then Some v else kv_get d b' k';
  kv_delete_has d b k d' b' : kv_delete d b k = Ok d' → kv_has d' b' = kv_has d b';
  kv_delete_get d b k d' b' k' :
    kv_delete d b k = Ok d' →
    kv_get d' b' k' = if decide (b = b' ∧ k = k') then None else kv_get d b' k';
  kv_get_has d b k v : kv_get d b k = Some v → kv_has d b = true;
  kv_entries_get d b k v : (k, v) ∈ kv_entries d b ↔ kv_get d b k = Some v;
  kv_entries_sorted d b : StronglySorted bytes_lt (kv_entries d b).*1;
}.

Lemma sorted_keys_NoDup (l : list bytes) : StronglySorted bytes_lt l → NoDup l.
Proof.
  induction 1 as [|k l _ IH Hall]; constructor; [|done]. intros Hin.
  rewrite Forall_forall in Hall. by destruct (Hall _ Hin).
Qed.

Section transactions.
Context {D : Type} `{KvBackend D}.

(** [kvdb.Batch(db, f)] and [db.Update(f)]: the body runs on the
    transaction's view of the database and its result is committed; when the
    body or the commit fails the database is unchanged. *)
Definition kv_update {A} (f : D → outcome (A * D)) : M D A := λ d,
  match kv_begin d with
  | Some e => (Err e, d)
  | None =>
      match f d with
      | Ok (a, d') =>
          match kv_commit d' with
          | Some e => (Err e, d)
          | None => (Ok a, d')
          end
      | Err e => (Err e, d)
      | Crash w => (Crash w, d)
      end
  end.

(** [db.View(f)] *)
Definition kv_view {A} (f : D → outcome A) : M D A := λ d,
  match kv_begin d with
  | Some e => (Err e, d)
  | None => (f d, d)
  end.

Lemma kv_update_ok {A} (f : D → outcome (A * D)) d a d' :
  kv_update f d = (Ok a, d') → f d = Ok (a, d').
Proof. unfold kv_update. intros H1. by step_matches H1. Qed.

Lemma kv_update_not_ok {A} (f : D → outcome (A * D)) d r d' :
  kv_update f d = (r, d') → is_Ok r = false → d' = d.
Proof. unfold kv_update. intros H1. by step_matches H1. Qed.

Lemma kv_view_same {A} (f : D → outcome A) d r d' :
  kv_view f d = (r, d') → d' = d.
Proof. unfold kv_view. intros H1. by step_matches H1. Qed.

Lemma preserves_view {A} (R : relation D) `{!Reflexive R} (f : D → outcome A) :
  preserves R (kv_view f).
Proof. intros d r d' E. by rewrite (kv_view_same _ _ _ _ E). Qed.

Lemma kv_view_ok {A} (f : D → outcome A) d a d' :
  kv_view f d = (Ok a, d') → f d = Ok a ∧ d' = d.
Proof. unfold kv_view. intros H1. by step_matches H1. Qed.

Lemma kv_view_run {A} (f : D → outcome A) d :
  kv_begin d = None → kv_view f d = (f d, d).
Proof. unfold kv_view. by intros ->. Qed.

Lemma kv_update_run {A} (f : D → outcome (A * D)) d a d' :
  kv_begin d = None → f d = Ok (a, d') → kv_commit d' = None →
  kv_update f d = (Ok a, d').
Proof. unfold kv_update. by intros -> -> ->. Qed.
End transactions.

Section laws.
Context `{KvLaws D}.

Lemma kv_put_get_eq d b k v d' :
  kv_put d b k v = Ok d' → kv_get d' b k = Some v.
Proof.
  intros Hp. rewrite (kv_put_get _ _ _ _ _ _ _ Hp). by rewrite decide_True.
Qed.

Lemma kv_put_get_ne d b k v d' b' k' :
  kv_put d b k v = Ok d' → b ≠ b' ∨ k ≠ k' → kv_get d' b' k' = kv_get d b' k'.
Proof.
  intros Hp Hne. rewrite (kv_put_get _ _ _ _ _ _ _ Hp).
  rewrite decide_False; naive_solver.
Qed.

(** The pairs of a bucket determine its lookups. *)
Lemma kv_entries_NoDup d b : NoDup (kv_entries d b).*1.
Proof.
  pose proof (kv_entries_sorted d b) as Hs. induction Hs as [|k l Hs IH Hall].
  - constructor.
  - constructor; [|done]. intros Hin. rewrite Forall_forall in Hall.
    by destruct (Hall k Hin).
Qed.
End laws.

(** ** A concrete database *)

Module MapDb.
Record db := { buckets : gmap bytes (gmap bytes bytes) }.

Definition empty : db := {| buckets := ∅ |}.

Definition bucket (d : db) (b : bytes) : gmap bytes bytes :=
  default ∅ (buckets d !! b).

Definition le_key (p q : bytes * bytes) : Prop := bytes_le p.1 q.1.

#[export] Instance backend : KvBackend db := {
  kv_begin _ := None;
  kv_commit _ := None;
  kv_has d b := bool_decide (is_Some (buckets d !! b));
  kv_create d b := Ok {| buckets := <[b := bucket d b]> (buckets d) |};
  kv_get d b k := bucket d b !! k;
  kv_put d b k v :=
    match buckets d !! b with
    | Some m => Ok {| buckets := <[b := <[k := v]> m]> (buckets d) |}
    | None => Err (EText "bucket not found")
    end;
  kv_delete d b k :=
    match buckets d !! b with
    | Some m => Ok {| buckets := <[b := delete k m]> (buckets d) |}
    | None => Err (EText "bucket not found")
    end;
  kv_entries d b := merge_sort le_key (map_to_list (bucket d b));
}.

#[local] Instance le_key_trans : Transitive le_key.
Proof. intros x y z. unfold le_key. apply bytes_le_trans. Qed.
#[local] Instance le_key_total : Total le_key.
Proof. intros x y. unfold le_key. apply bytes_le_total. Qed.

Lemma entries_perm (m : gmap bytes bytes) :
  merge_sort le_key (map_to_list m) ≡ₚ map_to_list m.
Proof. apply merge_sort_Permutation. Qed.

Lemma sorted_strict (l : list (bytes * bytes)) :
  NoDup l.*1 → StronglySorted le_key l → StronglySorted bytes_lt l.*1.
Proof.
  intros Hnd Hs. induction Hs as [|p l Hs IH Hall]; [constructor|].
  apply NoDup_cons in Hnd as [Hni Hnd]. simpl. constructor; [auto|].
  apply Forall_forall. intros k Hk. split.
  - apply list_elem_of_fmap in Hk as (q & -> & Hq).
    rewrite Forall_forall in Hall. by apply Hall.
  - intros Heq. subst k. by apply Hni.
Qed.

#[export] Instance laws : KvLaws db.
Proof.
  split; intros d b; simpl; unfold bucket.
  - intros d' b' [= <-]. simpl. destruct (decide (b = b')) as [->|Hne].
    + rewrite lookup_insert_eq, bool_decide_eq_true_2 by eauto.
      by rewrite bool_decide_eq_true_2.
    + rewrite lookup_insert_ne by done. by rewrite (bool_decide_eq_false_2 (b = b')).
  - intros d' b' k [= <-]. simpl. destruct (decide (b = b')) as [->|Hne].
    + by rewrite lookup_insert_eq.
    + by rewrite lookup_insert_ne.
  - intros k v d' b' Hp. step_matches Hp. apply bool_decide_ext.
    destruct (decide (b = b')) as [->|]; [rewrite lookup_insert_eq|by rewrite lookup_insert_ne].
    rewrite E. split; eauto.
  - intros k v d' b' k' Hp. step_matches Hp.
    destruct (decide (b = b')) as [->|]; [rewrite lookup_insert_eq|].
    + rewrite E. simpl. rewrite lookup_insert. case_decide; case_decide; naive_solver.
    + rewrite lookup_insert_ne by done. rewrite decide_False; naive_solver.
  - intros k d' b' Hp. step_matches Hp. apply bool_decide_ext.
    destruct (decide (b = b')) as [->|]; [rewrite lookup_insert_eq|by rewrite lookup_insert_ne].
    rewrite E. split; eauto.
  - intros k d' b' k' Hp. step_matches Hp.
    destruct (decide (b = b')) as [->|]; [rewrite lookup_insert_eq|].
    + rewrite E. simpl. rewrite lookup_delete. case_decide; case_decide; naive_solver.
    + rewrite lookup_insert_ne by done. rewrite decide_False; naive_solver.
  - intros k v Hk. apply bool_decide_eq_true_2.
    destruct (buckets d !! b); [by eexists|]. simpl in Hk. by rewrite lookup_empty in Hk.
  - intros k v. by rewrite entries_perm, elem_of_map_to_list.
  - apply sorted_strict.
    + rewrite entries_perm. apply NoDup_fst_map_to_list.
    + apply StronglySorted_merge_sort; apply _.
Qed.
End MapDb.
