(* ===== verification/External.v ===== *)
(** * Libraries the daemons call

    The code under src/ calls cosmos-sdk, btcec, babylon's eots package,
    CometBFT's merkle trees, protobuf, avast/retry-go and the cosmos keyring.
    None of them is part of the repository.  Each is a class of operations
    that the definitions of the other files take as a parameter, with a
    separate class of laws for the documented behaviour the code relies on.
    Every law has an instance, here or in [Toy.v], so that no theorem below
    rests on an unsatisfiable hypothesis. *)

From Stdlib Require Import NArith Lia.
From stdpp Require Import base gmap strings list.
From S2P Require Import Prelude Kvdb.

(** ** [sdk.Uint64ToBigEndian] and [sdk.BigEndianToUint64] *)

Class BigEndian := {
  Uint64ToBigEndian : N → bytes;
  BigEndianToUint64 : bytes → N;
}.

(** "Uint64ToBigEndian marshals uint64 to a bigendian byte slice so it can be
    sorted": eight bytes, inverse of [BigEndianToUint64], order preserving. *)
Class BigEndianLaws `{BigEndian} : Prop := {
  be_length n : length (Uint64ToBigEndian n) = 8%nat;
  be_roundtrip n : is_u64 n → BigEndianToUint64 (Uint64ToBigEndian n) = n;
  be_le m n : is_u64 m → is_u64 n →
    (bytes_le (Uint64ToBigEndian m) (Uint64ToBigEndian n) ↔ (m ≤ n)%N);
}.

Lemma be_inj `{BigEndianLaws} m n :
  is_u64 m → is_u64 n → Uint64ToBigEndian m = Uint64ToBigEndian n → m = n.
Proof.
  intros Hm Hn E%(f_equal BigEndianToUint64). by rewrite !be_roundtrip in E.
Qed.

Module StdBigEndian.
(** The encoding of Go's [encoding/binary]. *)
Definition byte_of (n : N) : byte := default Byte.x00 (Byte.of_N (n mod 256)).

Fixpoint enc (k : nat) (n : N) : bytes :=
  match k with
  | O => []
  | S k' => byte_of (n / 256 ^ N.of_nat k') :: enc k' n
  end.

Definition dec (l : bytes) : N :=
  fold_left (λ acc b, (acc * 256 + Byte.to_N b)%N) l 0%N.

#[export] Instance big_endian : BigEndian :=
  {| Uint64ToBigEndian := enc 8; BigEndianToUint64 := dec |}.

Lemma to_N_byte_of n : Byte.to_N (byte_of n) = (n mod 256)%N.
Proof.
  unfold byte_of. assert (n mod 256 < 256)%N as Hlt by (apply N.mod_lt; done).
  destruct (Byte.of_N (n mod 256)) as [b|] eqn:E; simpl.
  - by apply Byte.to_of_N.
  - apply Byte.of_N_None_iff in E. lia.
Qed.

Lemma enc_length k n : length (enc k n) = k.
Proof. induction k as [|k IH]; simpl; [done|]. by rewrite IH. Qed.

(** The digit of weight [256 ^ k] and the digits below it. *)
Lemma mod_split (n p : N) : (p ≠ 0 →
  n mod (256 * p) = (n / p) mod 256 * p + n mod p)%N.
Proof.
  intros Hp. rewrite (N.mul_comm 256 p), N.Div0.mod_mul_r. lia.
Qed.

Lemma dec_enc_acc k n : ∀ acc,
  fold_left (λ acc b, (acc * 256 + Byte.to_N b)%N) (enc k n) acc
  = (acc * 256 ^ N.of_nat k + n mod 256 ^ N.of_nat k)%N.
Proof.
  induction k as [|k IH]; intros acc; simpl.
  - rewrite N.pow_0_r, N.mod_1_r. lia.
  - rewrite IH, to_N_byte_of, Nat2N.inj_succ, N.pow_succ_r'.
    rewrite mod_split by (apply N.pow_nonzero; done). lia.
Qed.

(** Comparing two digits of weight [p] and their remainders. *)
Lemma digit_le (p a b x y : N) : (x < p → y < p →
  (a < b ∨ a = b ∧ x ≤ y) ↔ a * p + x ≤ b * p + y)%N.
Proof.
  intros Hx Hy. destruct (N.lt_trichotomy a b) as [Hlt|[->|Hlt]].
  - assert ((a + 1) * p ≤ b * p)%N by (apply N.mul_le_mono_r; lia). lia.
  - lia.
  - assert ((b + 1) * p ≤ a * p)%N by (apply N.mul_le_mono_r; lia). lia.
Qed.

Lemma enc_le k m n :
  bytes_le (enc k m) (enc k n)
  ↔ (m mod 256 ^ N.of_nat k ≤ n mod 256 ^ N.of_nat k)%N.
Proof.
  induction k as [|k IH]; simpl.
  - rewrite N.pow_0_r, !N.mod_1_r. done.
  - rewrite bytes_le_cons, IH, Nat2N.inj_succ, N.pow_succ_r'.
    set (p := (256 ^ N.of_nat k)%N).
    assert (p ≠ 0%N) as Hp by (apply N.pow_nonzero; done).
    rewrite !mod_split, !to_N_byte_of by done.
    assert (m mod p < p)%N by (by apply N.mod_lt).
    assert (n mod p < p)%N by (by apply N.mod_lt).
    assert (byte_of (m / p) = byte_of (n / p) ↔ (m / p) mod 256 = (n / p) mod 256)%N as ->.
    { split; [intros E%(f_equal Byte.to_N); by rewrite !to_N_byte_of in E|].
      intros E. apply byte_to_N_inj. by rewrite !to_N_byte_of. }
    by apply digit_le.
Qed.

#[export] Instance big_endian_laws : BigEndianLaws.
Proof.
  split.
  - exact (enc_length 8).
  - intros n Hn. change (dec (enc 8 n) = n). unfold dec.
    rewrite dec_enc_acc. apply N.mod_small, Hn.
  - intros m n Hm Hn. change (bytes_le (enc 8 m) (enc 8 n) ↔ (m ≤ n)%N).
    rewrite enc_le. change (256 ^ N.of_nat 8)%N with two64. by rewrite !N.mod_small.
Qed.
End StdBigEndian.

(** ** Protobuf messages: [pm.Marshal] and [pm.Unmarshal] *)

Class Codec (A : Type) := {
  marshal : A → outcome bytes;
  unmarshal : bytes → outcome A;
}.

Class CodecLaws (A : Type) `{Codec A} : Prop :=
  unmarshal_marshal (a : A) b : marshal a = Ok b → unmarshal b = Ok a.

(** ** Elliptic curve operations (btcec, schnorr, babylon/crypto/eots) *)

Class Crypto := {
  PrivateKey : Type;
  PublicKey : Type;
  ModNScalar : Type;
  FieldVal : Type;
  SchnorrSignature : Type;
  (** [btcec.PrivKeyFromBytes], [privKey.PubKey()], [privKey.Serialize()] *)
  PrivKeyFromBytes : bytes → PrivateKey;
  PubKey : PrivateKey → PublicKey;
  SerializePrivKey : PrivateKey → bytes;
  (** [btcec.ParsePubKey] (compressed or uncompressed) *)
  btcec_ParsePubKey : bytes → outcome PublicKey;
  (** [pk.SerializeUncompressed()], [pk.SerializeCompressed()] *)
  SerializeUncompressed : PublicKey → bytes;
  SerializeCompressed : PublicKey → bytes;
  (** [schnorr.SerializePubKey], [schnorr.ParsePubKey] (BIP-340, x only) *)
  SerializePubKey : PublicKey → bytes;
  schnorr_ParsePubKey : bytes → outcome PublicKey;
  (** babylon's [NewBIP340PubKeyFromBTCPK(pk)] and [bip340.ToBTCPK()] *)
  BIP340FromBTCPK : PublicKey → bytes;
  BIP340ToBTCPK : bytes → outcome PublicKey;
  (** [scalar.SetByteSlice(b)]: the scalar, and whether [b] overflowed *)
  ModN_SetByteSlice : bytes → ModNScalar * bool;
  ModN_IsZero : ModNScalar → bool;
  ModN_Bytes : ModNScalar → bytes;
  FieldVal_SetByteSlice : bytes → FieldVal;
  FieldVal_Bytes : FieldVal → bytes;
  (** x coordinate of the public key of a secret scalar *)
  PubRandOf : ModNScalar → FieldVal;
  (** [eots.Sign(sk, privRand, msg)] *)
  eots_Sign : PrivateKey → ModNScalar → bytes → outcome ModNScalar;
  (** [schnorr.Sign(sk, hash)] *)
  schnorr_Sign : PrivateKey → bytes → outcome SchnorrSignature;
  SchnorrSig_Serialize : SchnorrSignature → bytes;
  schnorr_ParseSignature : bytes → outcome SchnorrSignature;
  (** babylon's [NewSchnorrEOTSSigFromModNScalar(s)], [sig.ToModNScalar()],
      [NewSchnorrPubRandFromFieldVal(f)] and [NewBIP340SignatureFromBTCSig(sig)] *)
  NewSchnorrEOTSSigFromModNScalar : ModNScalar → bytes;
  ToModNScalar : bytes → ModNScalar;
  NewSchnorrPubRandFromFieldVal : FieldVal → bytes;
  NewBIP340SignatureFromBTCSig : SchnorrSignature → bytes;
  (** HMAC-SHA256 of a key and a message *)
  hmac_sha256 : bytes → bytes → bytes;
}.

Class CryptoLaws `{Crypto} : Prop := {
  modn_bytes_roundtrip s : ModN_SetByteSlice (ModN_Bytes s) = (s, false);
  field_bytes_roundtrip f : FieldVal_SetByteSlice (FieldVal_Bytes f) = f;
  (** the point that is parsed has the even y coordinate, also when [pk] has not *)
  schnorr_pk_parses pk : ∃ pk', schnorr_ParsePubKey (SerializePubKey pk) = Ok pk';
  schnorr_pk_parsed b pk : schnorr_ParsePubKey b = Ok pk → SerializePubKey pk = b;
  bip340_serialize pk : BIP340FromBTCPK pk = SerializePubKey pk;
  bip340_parse b : BIP340ToBTCPK b = schnorr_ParsePubKey b;
  uncompressed_roundtrip pk : btcec_ParsePubKey (SerializeUncompressed pk) = Ok pk;
  schnorr_sig_roundtrip s : schnorr_ParseSignature (SchnorrSig_Serialize s) = Ok s;
  eots_sig_roundtrip s : ToModNScalar (NewSchnorrEOTSSigFromModNScalar s) = s;
}.

(** [bip340.MustToBTCPK()] panics on an invalid key. *)
Definition MustToBTCPK `{Crypto} (b : bytes) : outcome PublicKey :=
  match BIP340ToBTCPK b with
  | Ok pk => Ok pk
  | Err e => Crash (Error e)
  | Crash w => Crash w
  end.

(** ** cosmos-sdk numbers and babylon's hex keys *)

(** [stakingtypes.Description] *)
Record Description := mkDescription {
  Moniker : string;
  Identity : string;
  Website : string;
  SecurityContact : string;
  Details : string;
}.

Class Sdk := {
  LegacyDec : Type;
  (** [dec.String()] and [math.LegacyNewDecFromStr(s)] *)
  Dec_String : LegacyDec → string;
  LegacyNewDecFromStr : string → outcome LegacyDec;
  (** [bip340.MarshalHex()] and [NewBIP340PubKeyFromHex(s)] *)
  MarshalHex : bytes → string;
  NewBIP340PubKeyFromHex : string → outcome bytes;
}.

Class SdkLaws `{Sdk} : Prop :=
  dec_roundtrip d : LegacyNewDecFromStr (Dec_String d) = Ok d.

(** A key that was parsed is printed as a text that parses to it. *)
Class HexKeyLaws `{Sdk} : Prop :=
  hex_key_roundtrip s pk : NewBIP340PubKeyFromHex s = Ok pk →
    MarshalHex pk ≠ "" ∧ NewBIP340PubKeyFromHex (MarshalHex pk) = Ok pk.

(** [math.LegacyMustNewDecFromStr] *)
Definition LegacyMustNewDecFromStr `{Sdk} (s : string) : outcome LegacyDec :=
  match LegacyNewDecFromStr s with
  | Ok d => Ok d
  | Err e => Crash (Error e)
  | Crash w => Crash w
  end.

(** [bstypes.CommissionRates] *)
Record CommissionRates `{Sdk} := mkCommissionRates {
  Rate : LegacyDec;
  MaxRate : LegacyDec;
  MaxChangeRate : LegacyDec;
}.

(** [sdk.AccAddress]: its text and [sdk.AccAddressFromBech32] *)
Class AccAddress := {
  AccAddress_String : bytes → string;
  AccAddressFromBech32 : string → outcome bytes;
}.

(** [bstypes.ProofOfPossessionBTC] *)
Inductive BTCSigType := BTCSigType_BIP340 | BTCSigType_BIP322 | BTCSigType_ECDSA.
Record ProofOfPossessionBTC := mkPop { pop_BtcSigType : BTCSigType; pop_BtcSig : bytes }.

(** ** The cosmos keyring

    Keys are read with the passphrase the keyring takes from an input reader;
    reading consumes the reader. *)

Inductive krPubKey := PubSecp256k1 (key : bytes) | PubOther.
Inductive krPrivKey := PrivSecp256k1 (key : bytes) | PrivOther.

Record krRecord := {
  (** [info.GetPubKey()] *)
  rec_PubKey : outcome krPubKey;
  (** [k.GetLocal().PrivKey.GetCachedValue()], [None] when [GetLocal()] is nil *)
  rec_Local : option krPrivKey;
  (** [k.GetAddress()] *)
  rec_Address : outcome bytes;
}.

Class Keyring (K : Type) := {
  kr_Backend : K → string;
  (** [kr.Key(name)] with the reader's content: result and remaining content *)
  kr_Key : K → string → string → outcome krRecord * string;
  (** [keyring.NewSigningAlgoFromString(name, kr.SupportedAlgorithms())] *)
  kr_SigningAlgo : K → string → outcome unit;
  (** [kr.NewAccount(name, mnemonic, "", "", algo)] *)
  kr_NewAccount : K → string → string → string → outcome unit * (K * string);
}.

Definition BackendTest : string := "test".
Definition BackendFile : string := "file".

(** ** Merkle trees and hashes (CometBFT) *)

Class Merkle := {
  Proof : Type;
  (** [merkle.ProofsFromByteSlices(items)]: root and one proof per item *)
  ProofsFromByteSlices : list bytes → bytes * list Proof;
  (** [proof.ToProto().Marshal()] *)
  Proof_Marshal : Proof → outcome bytes;
  (** [tmhash.New(); Write; Sum] *)
  tmhash_Sum : bytes → bytes;
}.

Class MerkleLaws `{Merkle} : Prop :=
  proofs_length items : length (ProofsFromByteSlices items).2 = length items.

(** ** avast/retry-go

    [retry.Do(f, Attempts(n), LastErrorOnly(true))], with [retry.Context(ctx)]
    when the flag is set. *)

Fixpoint retry_loop {S A} (n : nat) (f : M S A) : M S A := λ s,
  match n with
  | O => f s
  | S n' =>
      match f s with
      | (Err _, s') => retry_loop n' f s'
      | r => r
      end
  end.

(** What any run of [retry.Do] looks like: some attempts failed, then one
    succeeded, or the attempts or the context ran out. *)
Inductive attempts {S A} (f : M S A) : nat → S → outcome A → S → Prop :=
| at_ok n s a s' : f s = (Ok a, s') → attempts f (Datatypes.S n) s (Ok a) s'
| at_crash n s w s' : f s = (Crash w, s') → attempts f (Datatypes.S n) s (Crash w) s'
| at_stop n s e e' s' : f s = (Err e, s') → attempts f (Datatypes.S n) s (Err e') s'
| at_retry n s e s' r s'' :
    f s = (Err e, s') → attempts f n s' r s'' → attempts f (Datatypes.S n) s r s''
| at_ctx n s e : attempts f n s (Err e) s.

Class Retry := retry_Do : ∀ {S A : Type}, bool → nat → M S A → M S A.

Class RetryLaws `{Retry} : Prop := {
  (** the context can only stop the attempts *)
  retry_sound {S A} ctx n (f : M S A) s r s' :
    retry_Do ctx n f s = (r, s') → attempts f n s r s';
  (** without a context all the attempts are made *)
  retry_exact {S A} n (f : M S A) s :
    retry_Do false (Datatypes.S n) f s = retry_loop n f s;
}.

(** A successful run ends with a successful attempt. *)
Lemma attempts_ok {S A} (f : M S A) n s a s' :
  attempts f n s (Ok a) s' → ∃ s0, f s0 = (Ok a, s').
Proof.
  intros H. remember (Ok a) as r eqn:Er. induction H; simplify_eq; eauto.
Qed.

(** What every attempt preserves, the run preserves. *)
Lemma attempts_inv {S A} (f : M S A) (P : S → Prop) n s r s' :
  (∀ s1 r1 s2, f s1 = (r1, s2) → P s1 → P s2) → P s → attempts f n s r s' → P s'.
Proof. intros Hf Hs H. induction H; eauto. Qed.

Lemma preserves_retry `{RetryLaws} {S A} (R : relation S) `{!PreOrder R} ctx n (f : M S A) :
  preserves R f → preserves R (retry_Do ctx n f).
Proof.
  intros Hf s r s' E%retry_sound. eapply (attempts_inv f (R s)); [|reflexivity|exact E].
  intros s1 r1 s2 E1 H1. etrans; [exact H1|by eapply Hf].
Qed.

(** A successful [retry.Do] made a successful attempt. *)
Lemma retry_ok `{RetryLaws} {S A} ctx n (f : M S A) s a s' :
  retry_Do ctx n f s = (Ok a, s') → ∃ s0, f s0 = (Ok a, s').
Proof. intros E%retry_sound. by eapply attempts_ok. Qed.

Module StdRetry.
#[export] Instance retry : Retry := λ S A _ n f s,
  match n with
  | O => (Err (EText "no attempt"), s)
  | S n' => retry_loop n' f s
  end.

Lemma loop_attempts {S A} (f : M S A) n : ∀ s r s',
  retry_loop n f s = (r, s') → attempts f (Datatypes.S n) s r s'.
Proof.
  induction n as [|n IH]; intros s r s'; simpl.
  - destruct r; intros E; [by apply at_ok|by eapply at_stop|by apply at_crash].
  - destruct (f s) as [[a|e|w] s1] eqn:E; intros E1; simplify_eq.
    + by apply at_ok.
    + by eapply at_retry; [|apply IH].
    + by apply at_crash.
Qed.

#[export] Instance laws : RetryLaws.
Proof.
  split; intros S A.
  - intros ctx [|n] f s r s'; simpl; [intros [= <- <-]; constructor|].
    apply loop_attempts.
  - done.
Qed.
End StdRetry.

(** [RtyAttNum] (finality-provider/service/chain_poller.go) *)
Definition RtyAttNum : nat := 5.
