(* ===== verification/Config.v ===== *)
(** * Configuration and its validation
      (src/finality-provider/config, src/eotsmanager/config/config.go,
       src/metrics/config.go)

    The configuration records and the [Validate] methods that guard them.
    Durations are nanoseconds in [Z].  Defaults and files are in
    [ConfigFiles]. *)

From Stdlib Require Import NArith ZArith Lia.
From Stdlib Require QArith.QArith_base.
From stdpp Require Import base strings.
From S2P Require Import Prelude External.

(** ** The parts *)

Record ChainPollerConfig := mkPollerCfg {
  BufferSize : N;
  PollInterval : Z;
  StaticChainScanningStartHeight : N;
  AutoChainScanningMode : bool;
  PollSize : N;
}.

Definition DefaultChainPollerConfig : ChainPollerConfig :=
  mkPollerCfg 1000 1000000000 1 true 1000.

Definition Poller_Validate (c : ChainPollerConfig) : outcome unit :=
  if (BufferSize c =? 0)%N then Err (EText "invalid buffersize: 0")
  else if (PollSize c =? 0)%N then Err (EText "invalid pollsize: 0")
  else if (PollInterval c =? 0)%Z then Err (EText "invalid pollinterval: 0")
  else Ok ().

(** The standard library's address parsers: [net.ResolveTCPAddr],
    [net.ParseIP] (is it an address) and [url.Parse]. *)
Class NetParsers := {
  ResolveTCPAddr : string → outcome unit;
  ParseIP : string → bool;
  url_Parse : string → outcome unit;
}.

Record MetricsConfig := mkMetricsCfg { mc_Host : string; mc_Port : Z; mc_UpdateInterval : Z }.

(** [BBNConfig]; the gas adjustment, a finite float, is its exact value. *)
Record BBNConfig := mkBBNConfig {
  bbn_cfg_Key : string;
  bbn_cfg_ChainID : string;
  bbn_cfg_RPCAddr : string;
  bbn_cfg_GRPCAddr : string;
  bbn_cfg_AccountPrefix : string;
  bbn_cfg_KeyringBackend : string;
  bbn_cfg_GasAdjustment : QArith_base.Q;
  bbn_cfg_GasPrices : string;
  bbn_cfg_KeyDirectory : string;
  bbn_cfg_Debug : bool;
  bbn_cfg_Timeout : Z;
  bbn_cfg_BlockTimeout : Z;
  bbn_cfg_OutputFormat : string;
  bbn_cfg_SignModeStr : string;
  MaxRetriesBatchRemovingMsgs : N;
}.

(** [DBConfig] of either daemon (db.go) *)
Record DBConfig := mkDBConfig {
  DBPath : string;
  DBFileName : string;
  NoFreelistSync : bool;
  AutoCompact : bool;
  AutoCompactMinAge : Z;
  DBTimeout : Z;
}.

Record Config := mkConfig {
  cfg_LogLevel : string;
  cfg_NumPubRand : N;
  cfg_TimestampingDelayBlocks : N;
  cfg_MaxSubmissionRetries : N;
  cfg_EOTSManagerAddress : string;
  cfg_HMACKey : string;
  cfg_BatchSubmissionSize : N;
  cfg_RandomnessCommitInterval : Z;
  cfg_SubmissionRetryInterval : Z;
  cfg_SignatureSubmissionInterval : Z;
  cfg_PollerConfig : option ChainPollerConfig;
  cfg_DatabaseConfig : option DBConfig;
  cfg_BabylonConfig : option BBNConfig;
  cfg_RPCListener : string;
  cfg_Metrics : option MetricsConfig;
  cfg_ContextSigningHeight : N;
  cfg_GRPCMaxContentLength : Z;
  cfg_AdvancedResetLastVotedHeight : bool;
}.

(** [eotsmanager/config.Config] *)
Record EotsConfig := mkEotsConfig {
  ecfg_LogLevel : string;
  ecfg_KeyringBackend : string;
  ecfg_RPCListener : string;
  ecfg_HMACKey : string;
  ecfg_DisableUnsafeEndpoints : option bool;
  ecfg_Metrics : option MetricsConfig;
  ecfg_GRPCMaxContentLength : Z;
  ecfg_DatabaseConfig : option DBConfig;
}.

Section validate.
Context `{NetParsers}.

Definition Metrics_Validate (c : MetricsConfig) : outcome unit :=
  if (mc_Port c <? 0)%Z || (65535 <? mc_Port c)%Z then
    Err (EText ("invalid port: " +:+ pretty.pretty (mc_Port c)))
  else if negb (ParseIP (mc_Host c)) then Err (EText ("invalid host: " +:+ mc_Host c))
  else Ok ().

Definition BBN_Validate (c : BBNConfig) : outcome unit :=
  match url_Parse (bbn_cfg_RPCAddr c) with
  | Err e => Err (wrapf "rpc-addr is not correctly formatted" e)
  | Crash w => Crash w
  | Ok _ =>
      if (bbn_cfg_Timeout c <=? 0)%Z then Err (EText "timeout must be positive")
      else if (bbn_cfg_BlockTimeout c <? 0)%Z then Err (EText "block-timeout can't be negative")
      else if bool_decide (bbn_cfg_AccountPrefix c = "") then
        Err (EText "account-prefix must not be empty")
      else if QArith_base.Qeq_bool (bbn_cfg_GasAdjustment c) (QArith_base.inject_Z 0) then
        Err (EText "gas-adjustment must be greater than 0")
      else if bool_decide (bbn_cfg_GasPrices c = "") then Err (EText "gas-prices must not be empty")
      else Ok ()
  end.

(** [if cfg.X == nil { ... } if err := cfg.X.Validate(); err != nil { ... }] *)
Definition validate_part {A} (name : string) (validate : A → outcome unit) (part : option A)
    : outcome A :=
  match part with
  | None => Err (EText ("empty " +:+ name))
  | Some a => _ ← wrap_err ("invalid " +:+ name) (validate a); Ok a
  end.

Definition positive (what : string) (z : Z) : outcome unit :=
  if (z <=? 0)%Z then Err (EText (what +:+ pretty.pretty z)) else Ok ().

Definition Config_Validate (cfg : Config) : outcome unit :=
  if bool_decide (cfg_EOTSManagerAddress cfg = "") then
    Err (EText "EOTS manager address not specified")
  else
    match ResolveTCPAddr (cfg_RPCListener cfg) with
    | Err e => Err (EWrap ("invalid RPC listener address " +:+ cfg_RPCListener cfg +:+ ", ") e "")
    | Crash w => Crash w
    | Ok _ =>
        _ ← validate_part "metrics config" Metrics_Validate (cfg_Metrics cfg);
        poller ← validate_part "poller config" Poller_Validate (cfg_PollerConfig cfg);
        _ ← validate_part "babylon config" BBN_Validate (cfg_BabylonConfig cfg);
        _ ← positive "invalid signature submission interval: " (cfg_SignatureSubmissionInterval cfg);
        _ ← positive "invalid randomness commit interval: " (cfg_RandomnessCommitInterval cfg);
        _ ← positive "invalid submission retry interval: " (cfg_SubmissionRetryInterval cfg);
        if (cfg_BatchSubmissionSize cfg =? 0)%N then Err (EText "invalid batch submission size: 0")
        else
          _ ← positive "invalid max content length: " (cfg_GRPCMaxContentLength cfg);
          if cfg_AdvancedResetLastVotedHeight cfg then
            if (StaticChainScanningStartHeight poller =? 0)%N then
              Err (EText ("AdvancedResetLastVotedHeight requires "
                            +:+ "StaticChainScanningStartHeight > 0, got: 0"))
            else if AutoChainScanningMode poller then
              Err (EText ("AdvancedResetLastVotedHeight cannot be used with AutoChainScanningMode; "
                            +:+ "set AutoChainScanningMode to false and configure StaticChainScanningStartHeight"))
            else Ok ()
          else Ok ()
    end.

Definition EotsConfig_Validate (cfg : EotsConfig) : outcome unit :=
  match ResolveTCPAddr (ecfg_RPCListener cfg) with
  | Err e => Err (EWrap ("invalid RPC listener address " +:+ ecfg_RPCListener cfg +:+ ", ") e "")
  | Crash w => Crash w
  | Ok _ =>
      if bool_decide (ecfg_KeyringBackend cfg = "") then
        Err (EText "the keyring backend should not be empty")
      else if negb (bool_decide (ecfg_KeyringBackend cfg = BackendTest))
                && negb (bool_decide (ecfg_KeyringBackend cfg = BackendFile)) then
        Err (EText ("the keyring backend should be be either 'test' or 'file', got '"
                      +:+ ecfg_KeyringBackend cfg +:+ "'"))
      else
        match ecfg_Metrics cfg with
        | None => Err (EText "empty metrics config")
        | Some m =>
            match Metrics_Validate m with
            | Err _ => Err (EText "invalid metrics config")
            | Crash w => Crash w
            | Ok _ =>
                if (ecfg_GRPCMaxContentLength cfg <=? 0)%Z then
                  Err (EText ("invalid grpcmaxcontentlength "
                                +:+ pretty.pretty (ecfg_GRPCMaxContentLength cfg)))
                else Ok ()
            end
        end
  end.

(** *** What a validated configuration guarantees *)

Lemma validate_part_ok {A} name (v : A → outcome unit) p a :
  validate_part name v p = Ok a → p = Some a ∧ v a = Ok ().
Proof.
  unfold validate_part. destruct p as [x|]; [|done].
  intros (u & Hv%wrap_err_ok & [= <-])%outcome_bind_ok. by destruct u.
Qed.

Lemma Config_Validate_ok cfg :
  Config_Validate cfg = Ok () →
  (0 < cfg_BatchSubmissionSize cfg)%N
  ∧ ∃ p, cfg_PollerConfig cfg = Some p ∧ Poller_Validate p = Ok ()
      ∧ (cfg_AdvancedResetLastVotedHeight cfg = true →
           (0 < StaticChainScanningStartHeight p)%N ∧ AutoChainScanningMode p = false).
Proof.
  unfold Config_Validate. case_bool_decide; [done|].
  destruct (ResolveTCPAddr _) as [u| |]; [|done..].
  intros (mc & Hm & HE)%outcome_bind_ok.
  apply outcome_bind_ok in HE as (p & [Hp Hv]%validate_part_ok & HE).
  apply outcome_bind_ok in HE as (bb & _ & HE). do 3 apply outcome_bind_ok in HE as (? & _ & HE).
  destruct (_ =? 0)%N eqn:Eb; [done|]. apply outcome_bind_ok in HE as (? & _ & HE).
  apply N.eqb_neq in Eb. split; [lia|]. exists p. split_and!; [done|done|].
  intros Hr. rewrite Hr in HE. destruct (_ =? 0)%N eqn:Es; [done|]. apply N.eqb_neq in Es.
  destruct (AutoChainScanningMode p); [done|]. split; [lia|done].
Qed.

Lemma EotsConfig_Validate_backend cfg :
  EotsConfig_Validate cfg = Ok () →
  ecfg_KeyringBackend cfg = BackendTest ∨ ecfg_KeyringBackend cfg = BackendFile.
Proof.
  unfold EotsConfig_Validate. destruct (ResolveTCPAddr _); [|done..]. case_bool_decide; [done|].
  do 2 case_bool_decide; simpl; auto. done.
Qed.
End validate.

(** unset means disabled *)
Definition IsUnsafeEndpointsDisabled (cfg : EotsConfig) : bool :=
  match ecfg_DisableUnsafeEndpoints cfg with None => true | Some b => b end.

(** ** Concrete configurations, for the witnesses *)

Definition toy_bbn_cfg (key : string) (maxRetries : N) : BBNConfig :=
  mkBBNConfig key "bbn-1" "http://localhost:26657" "https://localhost:9090" "bbn" "test"
    (QArith_base.Qmake 3 2) "0.002ubbn" "" false 1 1 "text" "" maxRetries.
Definition toy_eots_cfg : EotsConfig := mkEotsConfig "debug" BackendTest "" "" None None 1 None.
