(* ===== verification/Toy.v ===== *)
(** * Concrete parameters

    Small executable instances of the library classes of [External.v].  They
    satisfy the laws, so that every hypothesis of the theorems can hold, and
    the witnesses of the theorems evaluate the definitions on them. *)

From Stdlib Require Import NArith Lia.
From stdpp Require Import base gmap strings list.
From S2P Require Import Prelude Kvdb External.

(** ** A codec for every countable type *)

Fixpoint bits_of (p : positive) : bytes :=
  match p with
  | xH => []
  | xO p' => Byte.x00 :: bits_of p'
  | xI p' => Byte.x01 :: bits_of p'
  end.

Fixpoint of_bits (b : bytes) : positive :=
  match b with
  | [] => xH
  | Byte.x00 :: b' => xO (of_bits b')
  | _ :: b' => xI (of_bits b')
  end.

Lemma of_bits_of p : of_bits (bits_of p) = p.
Proof. induction p; simpl; congruence. Qed.

Definition toy_codec {A} `{Countable A} : Codec A := {|
  marshal a := Ok (bits_of (encode a));
  unmarshal b := match decode (of_bits b) with
                 | Some a => Ok a
                 | None => Err (EText "proto: cannot parse invalid wire-format data")
                 end;
|}.

Lemma toy_codec_laws {A} `{Countable A} : @CodecLaws A toy_codec.
Proof.
  intros a b Hb. unfold marshal, toy_codec in Hb. injection Hb as <-.
  unfold unmarshal, toy_codec. by rewrite of_bits_of, decode_encode.
Qed.

Definition N_bytes (n : N) : bytes := bits_of (N.succ_pos n).
Definition bytes_N (b : bytes) : N := Pos.pred_N (of_bits b).

Lemma bytes_N_bytes n : bytes_N (N_bytes n) = n.
Proof. unfold bytes_N, N_bytes. by rewrite of_bits_of, N.pos_pred_succ. Qed.

(** Scalars are numbers, in big-endian form. *)
Definition scalar_bytes (n : N) : bytes := StdBigEndian.enc (N.size_nat n) n.

Lemma scalar_roundtrip n : StdBigEndian.dec (scalar_bytes n) = n.
Proof.
  unfold scalar_bytes, StdBigEndian.dec. rewrite StdBigEndian.dec_enc_acc.
  rewrite N.mul_0_l, N.add_0_l. apply N.mod_small.
  assert (N.of_nat (N.size_nat n) = N.size n) as ->.
  { destruct n as [|p]; [done|]. simpl. induction p as [p IH|p IH|]; simpl; lia. }
  pose proof (N.size_gt n). eapply N.lt_le_trans; [exact H|]. by apply N.pow_le_mono_l.
Qed.

(** ** Two key pairs *)

Definition toy_pk (b : bool) : bytes := replicate 32 (if b then Byte.x02 else Byte.x03).

Definition toy_parse_pk (b : bytes) : outcome bool :=
  if decide (b = toy_pk true) then Ok true
  else if decide (b = toy_pk false) then Ok false
  else Err (EText "invalid public key").

Module ToyInstances.
Export StdBigEndian StdRetry MapDb.

#[export] Instance toy_crypto : Crypto := {|
  PrivateKey := bool;
  PublicKey := bool;
  ModNScalar := N;
  FieldVal := N;
  SchnorrSignature := bytes;
  PrivKeyFromBytes b := bool_decide (b = [Byte.x02]);
  PubKey k := k;
  SerializePrivKey k := [if k then Byte.x02 else Byte.x03];
  btcec_ParsePubKey := toy_parse_pk;
  SerializeUncompressed := toy_pk;
  SerializeCompressed := toy_pk;
  SerializePubKey := toy_pk;
  schnorr_ParsePubKey := toy_parse_pk;
  BIP340FromBTCPK := toy_pk;
  BIP340ToBTCPK := toy_parse_pk;
  ModN_SetByteSlice b := (StdBigEndian.dec b, false);
  ModN_IsZero s := (s =? 0)%N;
  ModN_Bytes := scalar_bytes;
  FieldVal_SetByteSlice := bytes_N;
  FieldVal_Bytes := N_bytes;
  PubRandOf s := (s + 1)%N;
  eots_Sign _ r m := Ok (r + StdBigEndian.dec m)%N;
  schnorr_Sign k m := Ok m;
  SchnorrSig_Serialize s := s;
  schnorr_ParseSignature b := Ok b;
  NewSchnorrEOTSSigFromModNScalar := scalar_bytes;
  ToModNScalar b := StdBigEndian.dec b;
  NewSchnorrPubRandFromFieldVal := N_bytes;
  NewBIP340SignatureFromBTCSig s := s;
  hmac_sha256 k m := k ++ m;
|}.

Lemma toy_parse_pk_ok b : toy_parse_pk (toy_pk b) = Ok b.
Proof. by destruct b; vm_compute. Qed.

#[export] Instance toy_crypto_laws : CryptoLaws.
Proof.
  split; intros x.
  - unfold ModN_SetByteSlice, ModN_Bytes, toy_crypto. f_equal. apply scalar_roundtrip.
  - apply bytes_N_bytes.
  - exists x. apply toy_parse_pk_ok.
  - intros pk. simpl. unfold toy_parse_pk. by repeat case_decide; intros [= <-].
  - done.
  - done.
  - apply toy_parse_pk_ok.
  - done.
  - apply scalar_roundtrip.
Qed.

(** ** A keyring with one key, "fp" *)

Record toy_keyring := { tk_backend : string; tk_names : list string }.

#[export] Instance toy_kr : Keyring toy_keyring := {|
  kr_Backend := tk_backend;
  kr_Key k input name :=
    if bool_decide (name ∈ tk_names k) then
      (Ok {| rec_PubKey := Ok (PubSecp256k1 (toy_pk true));
             rec_Local := Some (PrivSecp256k1 [Byte.x02]);
             rec_Address := Ok [Byte.x0a] |}, "")
    else (Err (EText "key not found"), input);
  kr_SigningAlgo _ _ := Ok ();
  kr_NewAccount k input name _ :=
    (Ok (), ({| tk_backend := tk_backend k; tk_names := name :: tk_names k |}, ""));
|}.

(** ** Merkle trees: the proof of an item is its index *)

#[export] Instance toy_merkle : Merkle := {|
  Proof := nat;
  ProofsFromByteSlices items := (mjoin items, seq 0 (length items));
  Proof_Marshal n := Ok (N_bytes (N.of_nat n));
  tmhash_Sum b := b;
|}.

#[export] Instance toy_merkle_laws : MerkleLaws.
Proof. intros items. apply length_seq. Qed.

(** ** Decimals are naturals written in binary, hex is the byte string *)

Definition toy_hex (b : bytes) : string := string_of_bytes b.
Definition toy_dec_string (n : N) : string := "d" +:+ (string_of_bytes (N_bytes n)).

#[export] Instance toy_sdk : Sdk := {|
  LegacyDec := N;
  Dec_String := toy_dec_string;
  LegacyNewDecFromStr s :=
    match s with
    | EmptyString => Err (EText "decimal string cannot be empty")
    | String _ s' => Ok (bytes_N (bytes_of_string s'))
    end;
  MarshalHex := toy_hex;
  NewBIP340PubKeyFromHex s := let b := bytes_of_string s in _ ← toy_parse_pk b; Ok b;
|}.

#[export] Instance toy_sdk_laws : SdkLaws.
Proof.
  intros d. change (Ok (bytes_N (bytes_of_string (string_of_bytes (N_bytes d)))) = Ok d).
  unfold bytes_of_string, string_of_bytes. rewrite String.list_byte_of_string_of_list_byte.
  by rewrite bytes_N_bytes.
Qed.

#[export] Instance toy_hex_laws : HexKeyLaws.
Proof.
  intros s pk Hs. change ((_ ← toy_parse_pk (bytes_of_string s); Ok (bytes_of_string s)) = Ok pk) in Hs.
  change (string_of_bytes pk ≠ ""
    ∧ (_ ← toy_parse_pk (bytes_of_string (string_of_bytes pk)); Ok (bytes_of_string (string_of_bytes pk)))
      = Ok pk).
  unfold toy_parse_pk in *. destruct (decide (bytes_of_string s = toy_pk true)) as [E|_].
  { injection Hs as <-. rewrite E. by vm_compute. }
  destruct (decide (bytes_of_string s = toy_pk false)) as [E|_]; [|done].
  injection Hs as <-. rewrite E. by vm_compute.
Qed.
End ToyInstances.
