(* ===== verification/Paths.v ===== *)
(** * Paths and the file system (src/util/path.go)

    What the sources use of path/filepath, os and os/user, and the helpers of
    util/path.go on top of it.  A file system is a map from the components of
    absolute paths to nodes; a symbolic link leads nowhere (links to existing
    directories are taken as the directories). *)

From Stdlib Require Import NArith ZArith Lia.
From stdpp Require Import base gmap strings list.
From S2P Require Import Prelude External.

(** ** path/filepath, on Unix *)

Definition slash : Ascii.ascii := Ascii.ascii_of_N 47.

(** [strings.Split(s, "/")] *)
Fixpoint Split (s : string) : list string :=
  match s with
  | EmptyString => [""]
  | String c s' =>
      if Ascii.eqb c slash then "" :: Split s'
      else match Split s' with
           | [] => [String c ""]
           | x :: xs => String c x :: xs
           end
  end.

(** The components of a path as [filepath.Clean] leaves them; [acc] is what
    has been kept so far, the last component first. *)
Fixpoint clean_comps (rooted : bool) (acc cs : list string) : list string :=
  match cs with
  | [] => reverse acc
  | c :: cs' =>
      if bool_decide (c = "") || bool_decide (c = ".") then clean_comps rooted acc cs'
      else if bool_decide (c = "..") then
        match acc with
        | [] => clean_comps rooted (if rooted then [] else [".."]) cs'
        | a :: acc' =>
            if bool_decide (a = "..") then clean_comps rooted (".." :: acc) cs'
            else clean_comps rooted acc' cs'
        end
      else clean_comps rooted (c :: acc) cs'
  end.

Definition IsAbs (path : string) : bool := HasPrefix path "/".

Definition comps (path : string) : list string := clean_comps (IsAbs path) [] (Split path).

Definition render (rooted : bool) (cs : list string) : string :=
  if rooted then "/" +:+ String.concat "/" cs
  else if bool_decide (cs = []) then "." else String.concat "/" cs.

Definition Clean (path : string) : string :=
  if bool_decide (path = "") then "." else render (IsAbs path) (comps path).

(** [filepath.Join]: empty elements at the start are ignored. *)
Fixpoint Join (elem : list string) : string :=
  match elem with
  | [] => ""
  | e :: elem' => if bool_decide (e = "") then Join elem' else Clean (String.concat "/" elem)
  end.

(** [filepath.Abs], given the working directory *)
Definition Abs (cwd path : string) : string :=
  if IsAbs path then Clean path else Join [cwd; path].

(** [filepath.Dir]: everything up to the last slash, cleaned. *)
Definition Dir (path : string) : string :=
  let cs := Split path in Clean (String.concat "/" (removelast cs ++ [""])).

(** ** Environment variables: [os.Expand] *)

Definition in_range (lo hi : N) (c : Ascii.ascii) : bool :=
  (lo <=? Ascii.N_of_ascii c)%N && (Ascii.N_of_ascii c <=? hi)%N.
Definition is_char (n : N) (c : Ascii.ascii) : bool := (Ascii.N_of_ascii c =? n)%N.

(** one of [* # $ @ ! ? -] or a digit *)
Definition isShellSpecialVar (c : Ascii.ascii) : bool :=
  existsb (λ n, is_char n c) [42; 35; 36; 64; 33; 63; 45]%N || in_range 48 57 c.
Definition isAlphaNum (c : Ascii.ascii) : bool :=
  is_char 95 c || in_range 48 57 c || in_range 97 122 c || in_range 65 90 c.

(** The longest prefix of letters and digits. *)
Fixpoint scanAlphaNum (s : string) : string :=
  match s with
  | String c s' => if isAlphaNum c then String c (scanAlphaNum s') else ""
  | EmptyString => ""
  end.
(** The text before the closing brace, if there is one. *)
Fixpoint scanBrace (s : string) : option string :=
  match s with
  | EmptyString => None
  | String c s' => if is_char 125 c then Some "" else String c <$> scanBrace s'
  end.

(** The name after the dollar and how many bytes it takes. *)
Definition getShellName (s : string) : string * nat :=
  match s with
  | EmptyString => ("", 0)
  | String c s' =>
      if is_char 123 c then
        match scanBrace s' with
        | Some "" => ("", 2)
        | Some name => (name, S (S (String.length name)))
        | None => ("", 1)
        end
      else if isShellSpecialVar c then (String c "", 1)
      else let name := scanAlphaNum s in (name, String.length name)
  end.

(** [skip] bytes of the rest belong to a variable that has been replaced. *)
Fixpoint expand (mapping : string → string) (skip : nat) (s : string) : string :=
  match s with
  | EmptyString => ""
  | String c s' =>
      match skip with
      | S k => expand mapping k s'
      | O =>
          if is_char 36 c && negb (bool_decide (s' = "")) then
            let '(name, w) := getShellName s' in
            if bool_decide (name = "") then
              if bool_decide (w = 0) then String c (expand mapping 0 s')
              else expand mapping w s'
            else mapping name +:+ expand mapping w s'
          else String c (expand mapping 0 s')
      end
  end.
Definition Expand (mapping : string → string) (s : string) : string := expand mapping 0 s.

(** ** The file system *)

Inductive node := NDir | NFile (content : bytes) | NLink (target : string).

Inductive errno := ENOENT | ENOTDIR | EEXIST | EISDIR | EACCES.
Definition errno_text (e : errno) : string :=
  match e with
  | ENOENT => "no such file or directory"
  | ENOTDIR => "not a directory"
  | EEXIST => "file exists"
  | EISDIR => "is a directory"
  | EACCES => "permission denied"
  end.

(** [os.PathError] *)
Record PathError := mkPathError { pe_Op : string; pe_Path : string; pe_Err : errno }.
Definition PathError_err (e : PathError) : error :=
  EText (pe_Op e +:+ " " +:+ pe_Path e +:+ ": " +:+ errno_text (pe_Err e)).

(** The nodes, the directories in which the process may not create anything,
    the working directory, the home directory of [user.Current] and the
    environment. *)
Record os := mkOs {
  os_nodes : gmap (list string) node;
  os_denied : gset (list string);
  os_cwd : string;
  os_user : option string;
  os_Getenv : string → string
}.
Implicit Types w : os.

Definition with_nodes (n : gmap (list string) node) w : os :=
  mkOs n (os_denied w) (os_cwd w) (os_user w) (os_Getenv w).

Definition resolve w (path : string) : list string := comps (Abs (os_cwd w) path).

(** Follow the components [rest] from the directory [at_]. *)
Fixpoint walk (n : gmap (list string) node) (at_ rest : list string) : errno + node :=
  match rest with
  | [] => inr NDir
  | c :: rest' =>
      match n !! (at_ ++ [c]) with
      | None | Some (NLink _) => inl ENOENT
      | Some NDir => walk n (at_ ++ [c]) rest'
      | Some (NFile b) => if bool_decide (rest' = []) then inr (NFile b) else inl ENOTDIR
      end
  end.

Definition Stat w (path : string) : errno + node := walk (os_nodes w) [] (resolve w path).

(** The path of components, for messages. *)
Definition abs_path (cs : list string) : string := render true cs.

(** [os.MkdirAll]: every missing directory on the way is made; what was made
    before an error stays. *)
Fixpoint mkdirAll (denied : gset (list string)) (at_ rest : list string) (n : gmap (list string) node)
    : option PathError * gmap (list string) node :=
  match rest with
  | [] => (None, n)
  | c :: rest' =>
      let here := at_ ++ [c] in
      match n !! here with
      | Some NDir => mkdirAll denied here rest' n
      | Some (NFile _) => (Some (mkPathError "mkdir" (abs_path here) ENOTDIR), n)
      | Some (NLink _) => (Some (mkPathError "mkdir" (abs_path here) EEXIST), n)
      | None =>
          if bool_decide (at_ ∈ denied) then (Some (mkPathError "mkdir" (abs_path here) EACCES), n)
          else mkdirAll denied here rest' (<[here := NDir]> n)
      end
  end.

Definition MkdirAll (path : string) w : option PathError * os :=
  let '(e, n) := mkdirAll (os_denied w) [] (resolve w path) (os_nodes w) in (e, with_nodes n w).

(** [os.Readlink] *)
Definition Readlink (path : string) w : option string :=
  match os_nodes w !! resolve w path with Some (NLink t) => Some t | _ => None end.

(** [os.Create] and a write of the whole content, [os.ReadFile]. *)
Definition write_file (path : string) (content : bytes) : M os unit := λ w,
  let cs := resolve w path in
  let fail e := (Err (PathError_err (mkPathError "open" path e)), w) in
  if bool_decide (cs = []) then fail EISDIR
  else
    match walk (os_nodes w) [] (removelast cs) with
    | inl e => fail e
    | inr NDir =>
        match os_nodes w !! cs with
        | Some NDir => fail EISDIR
        | Some (NLink _) => fail ENOENT
        | Some (NFile _) => (Ok (), with_nodes (<[cs := NFile content]> (os_nodes w)) w)
        | None =>
            if bool_decide (removelast cs ∈ os_denied w) then fail EACCES
            else (Ok (), with_nodes (<[cs := NFile content]> (os_nodes w)) w)
        end
    | inr _ => fail ENOTDIR
    end.
Definition read_file (path : string) : M os bytes := λ w,
  match Stat w path with
  | inr (NFile b) => (Ok b, w)
  | inr _ => (Err (PathError_err (mkPathError "read" path EISDIR)), w)
  | inl e => (Err (PathError_err (mkPathError "open" path e)), w)
  end.

(** ** util/path.go *)

Definition FileExists w (name : string) : bool :=
  match Stat w name with
  | inl ENOENT => false
  | _ => true
  end.

Definition MakeDirectory (dir : string) : M os unit := λ w,
  match MkdirAll dir w with
  | (None, w') => (Ok (), w')
  | (Some e, w') =>
      let err :=
        match pe_Err e with
        | EEXIST =>
            match Readlink (pe_Path e) w' with
            | Some link => EText ("is symlink " +:+ pe_Path e +:+ " -> " +:+ link +:+ " mounted?")
            | None => PathError_err e
            end
        | _ => PathError_err e
        end in
      (Err (wrapf ("failed to create dir " +:+ dir) err), w')
  end.

(** [strings.Replace(path, "~", homeDir, 1)] for a path that begins with it *)
Definition replace_tilde (homeDir path : string) : string :=
  match path with String _ rest => homeDir +:+ rest | EmptyString => "" end.

Definition CleanAndExpandPath w (path : string) : string :=
  if bool_decide (path = "") then ""
  else
    let path :=
      if HasPrefix path "~" then
        replace_tilde (match os_user w with Some h => h | None => os_Getenv w "HOME" end) path
      else path in
    Clean (Expand (os_Getenv w) path).

(** cmd/eotsd/daemon/utils.go *)
Definition getCleanPath w (rawPath : string) : string :=
  CleanAndExpandPath w (Abs (os_cwd w) rawPath).

Example Clean_examples :
  Clean "/a//b/./c/../d/" = "/a/b/d" ∧ Clean "../../x" = "../../x" ∧ Clean "/.." = "/"
  ∧ Clean "a/.." = "." ∧ Join [""; "a"; "../b"] = "b" ∧ Dir "/a/b.log" = "/a" ∧ Dir "x" = ".".
Proof. by vm_compute. Qed.

Example Expand_examples :
  let env n := if bool_decide (n = "A") then "x" else "" in
  Expand env "/$A/${A}b/$" = "/x/xb/$" ∧ Expand env "${}c" = "c" ∧ Expand env "$A_" = ""
  ∧ Expand env "${A" = "A" ∧ Expand env "$/a" = "$/a".
Proof. by vm_compute. Qed.

(** ** Cleaned paths *)

Fixpoint no_slash (s : string) : bool :=
  match s with
  | EmptyString => true
  | String c s' => negb (Ascii.eqb c slash) && no_slash s'
  end.

(** A component that names something below its directory. *)
Definition is_name (c : string) : bool :=
  no_slash c && negb (bool_decide (c = "")) && negb (bool_decide (c = "."))
  && negb (bool_decide (c = "..")).

(** The components of a clean path: names, after steps up in a path that is
    not rooted. *)
Definition normal (rooted : bool) (cs : list string) : Prop :=
  ∃ n names, cs = replicate n ".." ++ names ∧ Forall (λ c, is_name c = true) names
    ∧ (rooted = true → n = 0).

Lemma is_name_spec c :
  is_name c = true ↔ no_slash c = true ∧ c ≠ "" ∧ c ≠ "." ∧ c ≠ "..".
Proof. unfold is_name. rewrite !andb_true_iff, !negb_true_iff, !bool_decide_eq_false. naive_solver. Qed.

Lemma Split_no_slash s : Forall (λ c, no_slash c = true) (Split s).
Proof.
  induction s as [|c s IH]; simpl; [by repeat constructor|].
  destruct (Ascii.eqb c slash) eqn:Ec; [by constructor|].
  destruct (Split s) as [|x xs]; inversion_clear IH; constructor; simpl; rewrite ?Ec; done.
Qed.

Lemma normal_names rooted n names :
  Forall (λ c, is_name c = true) names → (rooted = true → n = 0) →
  normal rooted (replicate n ".." ++ names).
Proof. intros. by exists n, names. Qed.

(** Names on top of what has been kept, the last one first. *)
Lemma clean_comps_normal rooted n names cs :
  Forall (λ c, no_slash c = true) cs → Forall (λ c, is_name c = true) names →
  (rooted = true → n = 0) →
  normal rooted (clean_comps rooted (reverse names ++ replicate n "..") cs).
Proof.
  intros Hcs. revert n names. induction cs as [|c cs IH]; intros n names Hn Hr; simpl.
  { rewrite reverse_app, reverse_involutive, reverse_replicate. by apply normal_names. }
  inversion_clear Hcs as [|? ? Hc Hcs']. specialize (IH Hcs').
  case_bool_decide as H0; simpl; [by apply IH|]. case_bool_decide as H1; simpl; [by apply IH|].
  case_bool_decide as H2.
  - destruct names as [|x names _] using rev_ind; simpl.
    + destruct n as [|n]; simpl.
      * destruct rooted; [by apply (IH 0 [])|by apply (IH 1 [])].
      * apply (IH (S (S n)) []); [done|].
        intros E. by specialize (Hr E).
    + rewrite reverse_app. simpl. apply Forall_app in Hn as [Hn Hx]. inversion_clear Hx as [|? ? Hx' _].
      apply is_name_spec in Hx' as (_ & _ & _ & Hx'). rewrite bool_decide_false by done. by apply IH.
  - rewrite app_comm_cons, <-reverse_snoc. apply IH; [|done]. apply Forall_app. split; [done|].
    repeat constructor. by apply is_name_spec.
Qed.

Lemma comps_normal path : normal (IsAbs path) (comps path).
Proof. apply (clean_comps_normal _ 0 []); [apply Split_no_slash|constructor|done]. Qed.

(** Cleaning leaves a normal list as it is. *)
Lemma clean_comps_names rooted acc names :
  Forall (λ c, is_name c = true) names → clean_comps rooted acc names = reverse acc ++ names.
Proof.
  intros Hn. revert acc. induction Hn as [|c names Hc Hn IH]; intros acc; simpl.
  { by rewrite app_nil_r. }
  apply is_name_spec in Hc as (_ & H0 & H1 & H2). rewrite !bool_decide_false by done. simpl.
  rewrite IH, reverse_cons, <-app_assoc. done.
Qed.

Lemma clean_comps_up n k names :
  Forall (λ c, is_name c = true) names →
  clean_comps false (replicate k "..") (replicate n ".." ++ names) = replicate (k + n) ".." ++ names.
Proof.
  intros Hn. revert k. induction n as [|n IH]; intros k; simpl.
  - rewrite clean_comps_names by done. by rewrite reverse_replicate, Nat.add_0_r.
  - replace (k + S n) with (S k + n) by lia. destruct k as [|k]; simpl; [apply (IH 1)|].
    apply (IH (S (S k))).
Qed.

Lemma clean_comps_id rooted cs : normal rooted cs → clean_comps rooted [] cs = cs.
Proof.
  intros (n & names & -> & Hn & Hr). destruct rooted.
  - rewrite (Hr eq_refl). simpl. by rewrite clean_comps_names.
  - apply (clean_comps_up n 0 names Hn).
Qed.

Lemma normal_no_slash rooted cs : normal rooted cs → Forall (λ c, no_slash c = true) cs.
Proof.
  intros (n & names & -> & Hn & _). apply Forall_app. split.
  - apply Forall_replicate. done.
  - eapply Forall_impl; [done|]. by intros c [? _]%is_name_spec.
Qed.

(** Splitting what was joined. *)
Lemma Split_app c s :
  no_slash c = true → Split (c +:+ String slash s) = c :: Split s.
Proof.
  induction c as [|a c IH]; intros Hc; simpl in *; [done|].
  apply andb_prop in Hc as [Ha Hc]. apply negb_true_iff in Ha. rewrite Ha, IH by done. done.
Qed.

Lemma Split_single c : no_slash c = true → Split c = [c].
Proof.
  induction c as [|a c IH]; intros Hc; simpl in *; [done|].
  apply andb_prop in Hc as [Ha Hc]. apply negb_true_iff in Ha. by rewrite Ha, IH.
Qed.

Lemma Split_concat c cs :
  Forall (λ c, no_slash c = true) (c :: cs) → Split (String.concat "/" (c :: cs)) = c :: cs.
Proof.
  revert c. induction cs as [|d cs IH]; intros c Hc; inversion_clear Hc as [|? ? Hc' Hcs].
  - by apply Split_single.
  - change (String.concat "/" (c :: d :: cs)) with (c +:+ String slash (String.concat "/" (d :: cs))).
    rewrite Split_app by done. by rewrite IH.
Qed.

(** *** Rendering and reading back *)

Lemma IsAbs_String a s : IsAbs (String a s) = Ascii.eqb a slash.
Proof.
  change (IsAbs (String a s)) with (if Ascii.ascii_dec slash a then String.prefix "" s else false).
  destruct (Ascii.ascii_dec slash a) as [<-|Hne].
  - by destruct s.
  - symmetry. apply Ascii.eqb_neq. intros ->. by apply Hne.
Qed.

Lemma concat_first_char c cs :
  normal false (c :: cs) → IsAbs (String.concat "/" (c :: cs)) = false.
Proof.
  intros Hn. pose proof (normal_no_slash _ _ Hn) as Hs. inversion_clear Hs as [|? ? Hc _].
  assert (c ≠ "") as Hne.
  { destruct Hn as (n & names & E & Hn & _). destruct n as [|n]; simpl in E.
    - subst names. inversion_clear Hn as [|? ? Hc' _]. apply is_name_spec in Hc'. naive_solver.
    - by injection E as -> _. }
  destruct c as [|a c]; [done|]. simpl in Hc. apply andb_prop in Hc as [Ha _].
  apply negb_true_iff in Ha.
  destruct cs as [|d cs]; [change (IsAbs (String a c) = false); by rewrite IsAbs_String|].
  change (String.concat "/" (String a c :: d :: cs)) with (String a (c +:+ "/" +:+ String.concat "/" (d :: cs))).
  by rewrite IsAbs_String.
Qed.

Lemma IsAbs_render rooted cs : normal rooted cs → IsAbs (render rooted cs) = rooted.
Proof.
  intros Hn. destruct rooted; [exact (IsAbs_String slash _)|].
  unfold render. case_bool_decide as E; [done|].
  destruct cs as [|c cs]; [done|]. by apply concat_first_char.
Qed.

Lemma comps_render rooted cs : normal rooted cs → comps (render rooted cs) = cs.
Proof.
  intros Hn. unfold comps. rewrite IsAbs_render by done. pose proof (normal_no_slash _ _ Hn) as Hs.
  destruct rooted; unfold render.
  - change ("/" +:+ String.concat "/" cs) with (String slash (String.concat "/" cs)). simpl.
    destruct cs as [|c cs]; [done|]. rewrite Split_concat by done. by apply clean_comps_id.
  - case_bool_decide as E; [by subst|]. destruct cs as [|c cs]; [done|].
    rewrite Split_concat by done. by apply clean_comps_id.
Qed.

Lemma render_nonempty rooted cs : normal rooted cs → render rooted cs ≠ "".
Proof.
  intros Hn. destruct rooted; [done|]. unfold render. case_bool_decide; [done|]. intros E.
  pose proof (comps_render _ _ Hn) as Hc. unfold render in Hc. rewrite bool_decide_false in Hc by done.
  rewrite E in Hc. by vm_compute in Hc.
Qed.

Lemma Clean_render path : path ≠ "" → Clean path = render (IsAbs path) (comps path).
Proof. intros Hp. unfold Clean. by rewrite bool_decide_false. Qed.

Lemma Clean_clean rooted cs : normal rooted cs → Clean (render rooted cs) = render rooted cs.
Proof.
  intros Hn. rewrite Clean_render by by apply render_nonempty. by rewrite IsAbs_render, comps_render.
Qed.

Lemma Clean_idempotent path : Clean (Clean path) = Clean path.
Proof.
  destruct (decide (path = "")) as [->|Hp]; [done|]. rewrite (Clean_render path Hp).
  apply Clean_clean, comps_normal.
Qed.

(** *** Absolute paths *)

(** A clean absolute path of components. *)
Lemma Clean_abs path : IsAbs path = true → Clean path = abs_path (comps path).
Proof. intros Ha. rewrite Clean_render by (by intros ->). by rewrite Ha. Qed.

Lemma string_app_assoc (x y z : string) : (x +:+ y) +:+ z = x +:+ (y +:+ z).
Proof. induction x as [|a x IH]; [done|]. exact (f_equal (String a) IH). Qed.

Lemma concat_app_last sep cs c :
  cs ≠ [] → String.concat sep (cs ++ [c]) = String.concat sep cs +:+ sep +:+ c.
Proof.
  induction cs as [|d cs IH]; [done|]. intros _. destruct cs as [|d' cs]; [done|].
  change (String.concat sep ((d :: d' :: cs) ++ [c])) with
    (d +:+ sep +:+ String.concat sep ((d' :: cs) ++ [c])).
  rewrite IH by done. change (String.concat sep (d :: d' :: cs)) with (d +:+ sep +:+ String.concat sep (d' :: cs)).
  by rewrite !string_app_assoc.
Qed.

Lemma normal_snoc cs c : normal true cs → is_name c = true → normal true (cs ++ [c]).
Proof.
  intros (n & names & -> & Hn & Hr) Hc. rewrite (Hr eq_refl). simpl. exists 0, (names ++ [c]).
  split_and!; [done| |done]. apply Forall_app. split; [done|]. by repeat constructor.
Qed.

(** Joining a name to a clean absolute directory. *)
Lemma Join_abs cs c :
  normal true cs → is_name c = true → Join [abs_path cs; c] = abs_path (cs ++ [c]).
Proof.
  intros Hn Hc. unfold Join. rewrite bool_decide_false by done.
  change (String.concat "/" [abs_path cs; c]) with (abs_path cs +:+ "/" +:+ c).
  pose proof (normal_snoc _ _ Hn Hc) as Hn'. destruct cs as [|d cs].
  - apply is_name_spec in Hc as Hs. rewrite Clean_render by done. unfold abs_path.
    change (IsAbs _) with true. f_equal.
    change (comps (String slash (String slash c)) = [c]). unfold comps.
    change (clean_comps true [] (Split c) = [c]).
    rewrite Split_single by apply Hs. by rewrite clean_comps_names by by repeat constructor.
  - assert (abs_path (d :: cs) +:+ "/" +:+ c = abs_path ((d :: cs) ++ [c])) as ->.
    { unfold abs_path, render. rewrite concat_app_last by done. by rewrite !string_app_assoc. }
    by apply Clean_clean.
Qed.

Lemma resolve_abs w cs : normal true cs → resolve w (abs_path cs) = cs.
Proof.
  intros Hn. unfold resolve, Abs. replace (IsAbs (abs_path cs)) with true
    by (symmetry; exact (IsAbs_String slash _)).
  unfold abs_path. rewrite Clean_clean by done. by apply comps_render.
Qed.

(** A path made absolute and expanded is absolute unless a variable or a tilde
    changes its beginning. *)
Lemma Abs_abs cwd path : IsAbs cwd = true → ∃ cs, Abs cwd path = abs_path cs ∧ normal true cs.
Proof.
  intros Hc. unfold Abs. destruct (IsAbs path) eqn:Hp.
  - exists (comps path). rewrite Clean_abs by done. split; [done|].
    pose proof (comps_normal path) as Hn. by rewrite Hp in Hn.
  - exists (comps (String.concat "/" [cwd; path])). unfold Join. rewrite bool_decide_false by (by intros ->).
    assert (IsAbs (String.concat "/" [cwd; path]) = true) as Ha.
    { destruct cwd as [|a cwd]; [done|]. rewrite IsAbs_String in Hc.
      change (IsAbs (String a (cwd +:+ "/" +:+ path)) = true). by rewrite IsAbs_String. }
    rewrite Clean_abs by done. split; [done|].
    pose proof (comps_normal (String.concat "/" [cwd; path])) as Hn. by rewrite Ha in Hn.
Qed.

Lemma Expand_no_dollar env s : (∀ c, is_char 36 c = true → c ∉ String.list_ascii_of_string s) → Expand env s = s.
Proof.
  unfold Expand. induction s as [|c s IH]; intros Hs; [done|]. simpl in *.
  destruct (is_char 36 c) eqn:Ec.
  { destruct (Hs c Ec). apply elem_of_cons. by left. }
  simpl. f_equal. apply IH. intros d Hd Hin. apply (Hs d Hd), elem_of_cons. by right.
Qed.

(** A leading tilde of an argument is not expanded: [filepath.Abs] has put the
    working directory before it. *)
Lemma getCleanPath_no_tilde w raw :
  IsAbs (os_cwd w) = true →
  getCleanPath w raw = Clean (Expand (os_Getenv w) (Abs (os_cwd w) raw)).
Proof.
  intros (cs & HA & _)%(Abs_abs _ raw). unfold getCleanPath, CleanAndExpandPath. by rewrite HA.
Qed.

(** ** What the operations do to the file system *)

(** New directories only. *)
Definition dirs_added (n n' : gmap (list string) node) : Prop :=
  ∀ k, n' !! k = n !! k ∨ n !! k = None ∧ n' !! k = Some NDir.

#[export] Instance dirs_added_preorder : PreOrder dirs_added.
Proof.
  split; [by left|]. intros n1 n2 n3 H12 H23 k.
  destruct (H23 k) as [->|[H2 H3]]; [apply H12|]. destruct (H12 k) as [H1|[H1 H2']]; [|congruence].
  right. by rewrite <-H1.
Qed.

Lemma dirs_added_kept n n' k x : dirs_added n n' → n !! k = Some x → n' !! k = Some x.
Proof. intros Hd Hk. destruct (Hd k) as [->|[? _]]; congruence. Qed.

Lemma mkdirAll_added denied at_ rest n e n' :
  mkdirAll denied at_ rest n = (e, n') → dirs_added n n'.
Proof.
  revert at_ n. induction rest as [|c rest IH]; intros at_ n HE; simpl in HE; [by simplify_eq|].
  destruct (n !! (at_ ++ [c])) as [[]|] eqn:Hc; [by eapply IH|by simplify_eq..|].
  case_bool_decide; [by simplify_eq|]. etrans; [|by eapply IH].
  intros k. destruct (decide (k = at_ ++ [c])) as [->|Hne]; simplify_map_eq; auto.
Qed.

(** Only the directories on the way are made. *)
Lemma mkdirAll_other denied at_ rest n e n' k :
  (∀ l1 l2, rest = l1 ++ l2 → l1 ≠ [] → k ≠ at_ ++ l1) →
  mkdirAll denied at_ rest n = (e, n') → n' !! k = n !! k.
Proof.
  revert at_ n. induction rest as [|c rest IH]; intros at_ n Hk HE; simpl in HE; [by simplify_eq|].
  assert (∀ l1 l2, rest = l1 ++ l2 → l1 ≠ [] → k ≠ (at_ ++ [c]) ++ l1) as Hk'.
  { intros l1 l2 -> _. rewrite <-app_assoc. by apply (Hk (c :: l1) l2). }
  destruct (n !! (at_ ++ [c])) as [[]|] eqn:Hc; [by eapply IH|by simplify_eq..|].
  case_bool_decide; [by simplify_eq|]. rewrite (IH _ _ Hk' HE).
  apply lookup_insert_ne. symmetry. by apply (Hk [c] rest).
Qed.

Lemma walk_added n n' at_ rest : dirs_added n n' → walk n at_ rest = inr NDir → walk n' at_ rest = inr NDir.
Proof.
  intros Hd. revert at_. induction rest as [|c rest IH]; intros at_ HW; simpl in *; [done|].
  destruct (n !! (at_ ++ [c])) as [[]|] eqn:Hc; [| |done..].
  - rewrite (dirs_added_kept _ _ _ _ Hd Hc). by apply IH.
  - by case_bool_decide.
Qed.

Lemma mkdirAll_walk denied at_ rest n n' :
  mkdirAll denied at_ rest n = (None, n') → walk n' at_ rest = inr NDir.
Proof.
  revert at_ n. induction rest as [|c rest IH]; intros at_ n HE; simpl in *; [done|].
  destruct (n !! (at_ ++ [c])) as [[]|] eqn:Hc; [|done..|].
  - by rewrite (dirs_added_kept _ _ _ _ (mkdirAll_added _ _ _ _ _ _ HE) Hc), (IH _ _ HE).
  - case_bool_decide; [done|].
    assert (<[at_ ++ [c] := NDir]> n !! (at_ ++ [c]) = Some NDir) as Hn by apply lookup_insert_eq.
    by rewrite (dirs_added_kept _ _ _ _ (mkdirAll_added _ _ _ _ _ _ HE) Hn), (IH _ _ HE).
Qed.

Lemma walk_snoc_none n at_ cs c : n !! (at_ ++ cs ++ [c]) = None → walk n at_ (cs ++ [c]) ≠ inr NDir.
Proof.
  revert at_. induction cs as [|d cs IH]; intros at_ HN; simpl in *; [by rewrite HN|].
  destruct (n !! (at_ ++ [d])) as [[]|]; [|by case_bool_decide|done..].
  apply IH. by rewrite <-app_assoc.
Qed.

Lemma MkdirAll_os dir w e w' :
  MkdirAll dir w = (e, w') →
  ∃ n, w' = with_nodes n w ∧ dirs_added (os_nodes w) n
    ∧ (e = None → walk n [] (resolve w dir) = inr NDir).
Proof.
  unfold MkdirAll. destruct (mkdirAll _ _ _ _) as [e0 n] eqn:HE. intros [= -> <-].
  exists n. split_and!; [done|by eapply mkdirAll_added|]. intros ->. by eapply mkdirAll_walk.
Qed.

Lemma MakeDirectory_ok dir w r w' :
  MakeDirectory dir w = (r, w') →
  ∃ n, w' = with_nodes n w ∧ dirs_added (os_nodes w) n
    ∧ (r = Ok () → walk n [] (resolve w dir) = inr NDir).
Proof.
  unfold MakeDirectory. destruct (MkdirAll dir w) as [e w1] eqn:HE.
  apply MkdirAll_os in HE as (n & -> & Hd & Hw). destruct e as [e|]; intros [= <- <-]; exists n.
  - by split_and!.
  - split_and!; [done..|]. intros _. by apply Hw.
Qed.

Lemma with_nodes_with n n' w : with_nodes n (with_nodes n' w) = with_nodes n w.
Proof. done. Qed.

(** A directory can be made where every node on the way is a directory or
    missing, and nothing on the way is denied. *)
Lemma mkdirAll_fresh denied at_ rest n :
  (∀ l1 l2 x, rest = l1 ++ l2 → n !! (at_ ++ l1) = Some x → l1 ≠ [] → x = NDir) →
  (∀ l1 l2, rest = l1 ++ l2 → l2 ≠ [] → at_ ++ l1 ∉ denied) →
  ∃ n', mkdirAll denied at_ rest n = (None, n').
Proof.
  revert at_ n. induction rest as [|c rest IH]; intros at_ n Hx Hden; simpl; [eauto|].
  assert (∀ m : gmap (list string) node, (∀ k, k ≠ at_ ++ [c] → m !! k = n !! k) →
    ∀ l1 l2 x, rest = l1 ++ l2 → m !! ((at_ ++ [c]) ++ l1) = Some x → l1 ≠ [] → x = NDir) as Hx'.
  { intros m Hm l1 l2 x -> Hl Hne. rewrite Hm in Hl.
    - rewrite <-app_assoc in Hl. by apply (Hx (c :: l1) l2 x).
    - intros E. rewrite <-(app_nil_r (at_ ++ [c])) in E at 2. by apply app_inv_head in E. }
  assert (∀ l1 l2, rest = l1 ++ l2 → l2 ≠ [] → (at_ ++ [c]) ++ l1 ∉ denied) as Hden'.
  { intros l1 l2 -> Hne. rewrite <-app_assoc. by apply (Hden (c :: l1) l2). }
  destruct (n !! (at_ ++ [c])) as [x|] eqn:Hc.
  - rewrite (Hx [c] rest x eq_refl Hc) by done. apply IH; [|done]. by apply Hx'.
  - rewrite bool_decide_false.
    + apply IH; [|done]. apply Hx'. intros k Hk. by rewrite lookup_insert_ne.
    + rewrite <-(app_nil_r at_). by apply (Hden [] (c :: rest)).
Qed.

(** Writing a file below a directory. *)
Lemma write_file_ok path b w u w' :
  write_file path b w = (Ok u, w') →
  w' = with_nodes (<[resolve w path := NFile b]> (os_nodes w)) w
  ∧ walk (os_nodes w) [] (removelast (resolve w path)) = inr NDir ∧ resolve w path ≠ []
  ∧ (os_nodes w !! resolve w path = None ∨ ∃ b0, os_nodes w !! resolve w path = Some (NFile b0)).
Proof.
  unfold write_file. case_bool_decide as E; [done|].
  destruct (walk _ _ _) as [e|[|b0|t]] eqn:HW; [done| |done..].
  destruct (os_nodes w !! resolve w path) as [[|b0|t]|] eqn:Hn; [done| |done|].
  - intros [= _ <-]. split_and!; eauto.
  - case_bool_decide; [done|]. intros [= _ <-]. split_and!; auto.
Qed.

Lemma write_file_run path b w :
  resolve w path ≠ [] → walk (os_nodes w) [] (removelast (resolve w path)) = inr NDir →
  removelast (resolve w path) ∉ os_denied w →
  (os_nodes w !! resolve w path = None ∨ ∃ b0, os_nodes w !! resolve w path = Some (NFile b0)) →
  write_file path b w = (Ok (), with_nodes (<[resolve w path := NFile b]> (os_nodes w)) w).
Proof.
  intros Hne HW Hd Hn. unfold write_file. rewrite bool_decide_false, HW by done.
  destruct Hn as [->|[b0 ->]]; [|done]. by rewrite bool_decide_false.
Qed.

(** Reading a file that is there. *)
Lemma walk_file n at_ cs c b :
  walk n at_ cs = inr NDir → n !! (at_ ++ cs ++ [c]) = Some (NFile b) →
  walk n at_ (cs ++ [c]) = inr (NFile b).
Proof.
  revert at_. induction cs as [|d cs IH]; intros at_ HW Hn; simpl in *.
  - by rewrite Hn.
  - destruct (n !! (at_ ++ [d])) as [[]|]; [|by case_bool_decide|done..].
    apply IH; [done|]. by rewrite <-app_assoc.
Qed.

(** A file does not hide the way to another one. *)
Lemma walk_insert_file n at_ rest k b :
  (n !! k = None ∨ ∃ b0, n !! k = Some (NFile b0)) →
  walk n at_ rest = inr NDir → walk (<[k := NFile b]> n) at_ rest = inr NDir.
Proof.
  intros Hk. revert at_. induction rest as [|c rest IH]; intros at_ HW; simpl in *; [done|].
  destruct (n !! (at_ ++ [c])) as [[]|] eqn:Hc; [|by case_bool_decide|done..].
  rewrite lookup_insert_ne by (intros ->; destruct Hk as [?|[? ?]]; congruence).
  rewrite Hc. by apply IH.
Qed.

Lemma read_file_ok path b w w' : read_file path w = (Ok b, w') → w' = w ∧ Stat w path = inr (NFile b).
Proof. unfold read_file. destruct (Stat w path) as [|[]]; naive_solver. Qed.

(** What was written is read back, by any path to the same place. *)
Lemma write_read path path' b w u w' :
  write_file path b w = (Ok u, w') → resolve w path' = resolve w path → read_file path' w' = (Ok b, w').
Proof.
  intros HE Hp. apply write_file_ok in HE as (-> & HW & Hne & Hold). unfold read_file, Stat.
  change (resolve (with_nodes _ w) path') with (resolve w path'). rewrite Hp.
  destruct (exists_last Hne) as (cs & c & E). rewrite E in *. rewrite removelast_last in HW.
  rewrite (walk_file _ [] cs c b); [done| |apply lookup_insert_eq]. by apply walk_insert_file.
Qed.

Lemma resolve_Abs w path : IsAbs (os_cwd w) = true → resolve w (Abs (os_cwd w) path) = resolve w path.
Proof.
  intros Hc. destruct (Abs_abs (os_cwd w) path Hc) as (cs & E & Hn). rewrite E, resolve_abs by done.
  unfold resolve. rewrite E. symmetry. by apply comps_render.
Qed.

(** ** A file in a directory *)

Lemma no_slash_app a b : no_slash (a +:+ b) = no_slash a && no_slash b.
Proof.
  induction a as [|c a IH]; [done|]. change (String c a +:+ b) with (String c (a +:+ b)).
  simpl. by rewrite IH, andb_assoc.
Qed.

Lemma Split_nonempty s : Split s ≠ [].
Proof. destruct s as [|c s]; simpl; [done|]. destruct (Ascii.eqb c slash); [done|]. by destruct (Split s). Qed.

Lemma Split_last d c : no_slash c = true → Split (d +:+ "/" +:+ c) = Split d ++ [c].
Proof.
  intros Hc. induction d as [|a d IH].
  - change ("" +:+ "/" +:+ c) with (String slash c). simpl. by rewrite Split_single.
  - change (String a d +:+ "/" +:+ c) with (String a (d +:+ "/" +:+ c)). simpl. rewrite IH.
    destruct (Ascii.eqb a slash); [done|]. destruct (Split d) eqn:E; [by destruct (Split_nonempty d)|done].
Qed.

Lemma clean_comps_snoc rooted acc cs c :
  is_name c = true → clean_comps rooted acc (cs ++ [c]) = clean_comps rooted acc cs ++ [c].
Proof.
  intros Hc. pose proof (proj1 (is_name_spec c) Hc) as (_ & ? & ? & ?). revert acc.
  induction cs as [|d cs IH]; intros acc; simpl.
  - rewrite !bool_decide_false by done. simpl. by rewrite reverse_cons.
  - destruct (_ || _); [done|]. case_bool_decide; [|done].
    destruct acc as [|a acc]; [done|]. by case_bool_decide.
Qed.

Lemma comps_last d c :
  d ≠ "" → is_name c = true → comps (d +:+ "/" +:+ c) = comps d ++ [c].
Proof.
  intros Hd Hc. pose proof (proj1 (is_name_spec c) Hc) as (Hs & _).
  unfold comps. rewrite Split_last by done. rewrite <-clean_comps_snoc by done.
  f_equal. destruct d as [|a d]; [done|]. change (String a d +:+ "/" +:+ c) with (String a (d +:+ "/" +:+ c)).
  by rewrite !IsAbs_String.
Qed.

(** The path with a slash and the joined path name the same file. *)
Lemma resolve_last w d c :
  IsAbs d = true → is_name c = true →
  resolve w (d +:+ "/" +:+ c) = resolve w d ++ [c] ∧ resolve w (Join [d; c]) = resolve w d ++ [c].
Proof.
  intros Hd Hc. assert (d ≠ "") as Hne by (by intros ->).
  assert (∀ p, IsAbs p = true → resolve w p = comps p) as Habs.
  { intros p Hp. unfold resolve, Abs. rewrite Hp, Clean_abs by done. apply comps_render.
    pose proof (comps_normal p) as Hn. by rewrite Hp in Hn. }
  assert (IsAbs (d +:+ "/" +:+ c) = true) as Hp.
  { destruct d as [|a d]; [done|]. change (String a d +:+ "/" +:+ c) with (String a (d +:+ "/" +:+ c)).
    by rewrite IsAbs_String in *. }
  unfold Join. rewrite bool_decide_false by done. change (String.concat "/" [d; c]) with (d +:+ "/" +:+ c).
  pose proof (comps_normal (d +:+ "/" +:+ c)) as Hn. rewrite Hp in Hn.
  rewrite Clean_abs, resolve_abs, !Habs, comps_last by done. done.
Qed.
