(* ===== verification/ConfigFiles.v ===== *)
(** * Defaults, configuration files, init commands and loggers
      (src/finality-provider/config, src/eotsmanager/config, src/metrics/config.go,
       src/log/log.go, cmd/fpd/daemon/init.go, cmd/eotsd/daemon/init.go,
       cmd/fpd/clientctx/cmd.go)

    How a configuration comes to be: the defaults (which panic when they do not
    validate), the file that [init] writes below the home directory, and
    [LoadConfig].  The two packages declare the same names: those of
    eotsmanager/config have the prefix [eots_]. *)

From Stdlib Require Import NArith ZArith Lia.
From Stdlib Require QArith.QArith_base.
From stdpp Require Import base gmap strings list pretty.
From S2P Require Import Prelude External Config Toy Paths.

(** ** What the sources take from other packages *)

(** [bbncfg.BabylonConfig], as far as it is read or written here *)
Record BabylonConfig := mkBabylonConfig {
  bc_Key : string;
  bc_ChainID : string;
  bc_RPCAddr : string;
  bc_GRPCAddr : string;
  bc_AccountPrefix : string;
  bc_KeyringBackend : string;
  bc_GasAdjustment : QArith_base.Q;
  bc_GasPrices : string;
  bc_KeyDirectory : string;
  bc_Debug : bool;
  bc_Timeout : Z;
  bc_BlockTimeout : Z;
  bc_OutputFormat : string;
  bc_SignModeStr : string;
  bc_SubmitterAddress : string
}.

(** [bbncfg.DefaultBabylonConfig], the defaults of kvdb, the home directory of
    [btcutil.AppDataDir] and an INI file of go-flags. *)
Class ConfigDefaults := {
  DefaultBabylonConfig : BabylonConfig;
  DefaultBoltAutoCompactMinAge : Z;
  DefaultDBTimeout : Z;
  AppDataDir : string → string;
}.
Class Ini (A : Type) := {
  ini_write : A → bytes;
  ini_parse : bytes → outcome A;
}.

(** Printable characters without quotes, backslashes and comment signs: an
    INI file holds such a text as it is. *)
Definition plain_char (c : Ascii.ascii) : bool :=
  in_range 33 126 c && negb (is_char 34 c) && negb (is_char 92 c) && negb (is_char 35 c)
  && negb (is_char 59 c).
Fixpoint plain (s : string) : bool :=
  match s with EmptyString => true | String c s' => plain_char c && plain s' end.

(** The choices of the option [loglevel] in the tags of both [Config]s. *)
Definition loglevel_choices : list string := ["trace"; "debug"; "info"; "warn"; "error"; "fatal"].

Definition db_plain (d : DBConfig) : bool := plain (DBPath d) && plain (DBFileName d).
Definition bbn_plain (b : BBNConfig) : bool :=
  forallb plain [bbn_cfg_Key b; bbn_cfg_ChainID b; bbn_cfg_RPCAddr b; bbn_cfg_GRPCAddr b;
    bbn_cfg_AccountPrefix b; bbn_cfg_KeyringBackend b; bbn_cfg_GasPrices b; bbn_cfg_KeyDirectory b;
    bbn_cfg_OutputFormat b; bbn_cfg_SignModeStr b].
Definition part_plain {A} (p : A → bool) (x : option A) : bool :=
  match x with Some a => p a | None => false end.

(** The configurations that a file can hold: the level is one of the choices,
    every group is there and every text is plain. *)
Definition config_plain (c : Config) : bool :=
  bool_decide (cfg_LogLevel c ∈ loglevel_choices) && part_plain (λ _, true) (cfg_PollerConfig c)
  && part_plain db_plain (cfg_DatabaseConfig c) && part_plain bbn_plain (cfg_BabylonConfig c)
  && part_plain (λ m, plain (mc_Host m)) (cfg_Metrics c)
  && forallb plain [cfg_EOTSManagerAddress c; cfg_HMACKey c; cfg_RPCListener c].
Definition eots_config_plain (c : EotsConfig) : bool :=
  bool_decide (ecfg_LogLevel c ∈ loglevel_choices) && part_plain (λ _, true) (ecfg_DisableUnsafeEndpoints c)
  && part_plain db_plain (ecfg_DatabaseConfig c) && part_plain (λ m, plain (mc_Host m)) (ecfg_Metrics c)
  && forallb plain [ecfg_KeyringBackend c; ecfg_RPCListener c; ecfg_HMACKey c].

(** Reading back what was written. *)
Class IniLaws `{Ini Config} `{Ini EotsConfig} : Prop := {
  ini_config c : config_plain c = true → ini_parse (ini_write c) = Ok c;
  ini_eots_config c : eots_config_plain c = true → ini_parse (ini_write c) = Ok c;
}.

(** Documented behaviour of the standard library and of the Babylon defaults:
    loopback addresses parse, and the default client configuration is usable. *)
Class DefaultLaws `{NetParsers} `{ConfigDefaults} : Prop := {
  resolve_loopback port :
    (0 ≤ port ≤ 65535)%Z → ∃ u, ResolveTCPAddr ("127.0.0.1:" +:+ pretty port) = Ok u;
  parse_loopback : ParseIP "127.0.0.1" = true;
  babylon_url : ∃ u, url_Parse (bc_RPCAddr DefaultBabylonConfig) = Ok u;
  babylon_timeout : (0 < bc_Timeout DefaultBabylonConfig)%Z;
  babylon_prefix : bc_AccountPrefix DefaultBabylonConfig ≠ "";
  babylon_plain :
    forallb plain [bc_ChainID DefaultBabylonConfig; bc_RPCAddr DefaultBabylonConfig;
      bc_GRPCAddr DefaultBabylonConfig; bc_AccountPrefix DefaultBabylonConfig;
      bc_KeyringBackend DefaultBabylonConfig; bc_SignModeStr DefaultBabylonConfig] = true;
}.

(** ** metrics/config.go *)

Definition second : Z := 1000000000.
Definition DefaultFpMetricsPort : Z := 2112.
Definition DefaultEotsMetricsPort : Z := 2113.

Definition DefaultFpConfig : MetricsConfig := mkMetricsCfg "127.0.0.1" DefaultFpMetricsPort 100000000.
Definition DefaultEotsConfig : MetricsConfig := mkMetricsCfg "127.0.0.1" DefaultEotsMetricsPort 100000000.

Section defaults.
Context `{NetParsers} `{ConfigDefaults}.

Definition Metrics_Address (cfg : MetricsConfig) : outcome string :=
  _ ← Metrics_Validate cfg; Ok (mc_Host cfg +:+ ":" +:+ pretty (mc_Port cfg)).

(** ** finality-provider/config *)

Definition CfgFile (homePath : string) : string := Join [homePath; "fpd.conf"].
Definition LogDir (homePath : string) : string := Join [homePath; "logs"].
Definition LogFile (homePath : string) : string := Join [LogDir homePath; "fpd.log"].
Definition DataDir (homePath : string) : string := Join [homePath; "data"].

Definition DefaultDBConfigWithHomePath (homePath : string) : DBConfig :=
  mkDBConfig (DataDir homePath) "finality-provider.db" true false DefaultBoltAutoCompactMinAge
    DefaultDBTimeout.
Definition DefaultFpdDir : string := AppDataDir "fpd".
Definition DefaultDBConfig : DBConfig := DefaultDBConfigWithHomePath DefaultFpdDir.

(** [DBConfigToBoltBackendConfig] and [GetDBBackend] of either package, given
    [kvdb.GetBoltBackend] *)
Record BoltBackendConfig := mkBoltBackendConfig {
  bolt_DBPath : string;
  bolt_DBFileName : string;
  bolt_NoFreelistSync : bool;
  bolt_AutoCompact : bool;
  bolt_AutoCompactMinAge : Z;
  bolt_DBTimeout : Z
}.
Definition DBConfigToBoltBackendConfig (db : DBConfig) : BoltBackendConfig :=
  mkBoltBackendConfig (DBPath db) (DBFileName db) (NoFreelistSync db) (AutoCompact db)
    (AutoCompactMinAge db) (DBTimeout db).
Definition GetDBBackend {S D} (GetBoltBackend : BoltBackendConfig → M S D) (db : DBConfig) : M S D :=
  go_wrap "failed to get bolt backend" (GetBoltBackend (DBConfigToBoltBackendConfig db)).

Definition DefaultBBNConfig : BBNConfig :=
  let dc := DefaultBabylonConfig in
  mkBBNConfig (bc_Key dc) (bc_ChainID dc) (bc_RPCAddr dc) (bc_GRPCAddr dc) (bc_AccountPrefix dc)
    (bc_KeyringBackend dc) (QArith_base.Qmake 3 2) "0.002ubbn" "" (bc_Debug dc) (bc_Timeout dc)
    (60 * second) "text" (bc_SignModeStr dc) 0.

Definition ToBabylonConfig (cfg : BBNConfig) : BabylonConfig :=
  mkBabylonConfig (bbn_cfg_Key cfg) (bbn_cfg_ChainID cfg) (bbn_cfg_RPCAddr cfg) ""
    (bbn_cfg_AccountPrefix cfg) (bbn_cfg_KeyringBackend cfg) (bbn_cfg_GasAdjustment cfg)
    (bbn_cfg_GasPrices cfg) (bbn_cfg_KeyDirectory cfg) (bbn_cfg_Debug cfg) (bbn_cfg_Timeout cfg)
    (bbn_cfg_BlockTimeout cfg) (bbn_cfg_OutputFormat cfg) (bbn_cfg_SignModeStr cfg) "".

Definition with_key (key dir : string) (c : BBNConfig) : BBNConfig :=
  mkBBNConfig key (bbn_cfg_ChainID c) (bbn_cfg_RPCAddr c) (bbn_cfg_GRPCAddr c) (bbn_cfg_AccountPrefix c)
    (bbn_cfg_KeyringBackend c) (bbn_cfg_GasAdjustment c) (bbn_cfg_GasPrices c) dir (bbn_cfg_Debug c)
    (bbn_cfg_Timeout c) (bbn_cfg_BlockTimeout c) (bbn_cfg_OutputFormat c) (bbn_cfg_SignModeStr c)
    (MaxRetriesBatchRemovingMsgs c).

(** [if err := cfg.Validate(); err != nil { panic(err) }] *)
Definition or_panic {A} (validated : outcome unit) (a : A) : outcome A :=
  match validated with
  | Ok _ => Ok a
  | Err e => Crash (Error e)
  | Crash w => Crash w
  end.

Definition default_config (homePath : string) : Config :=
  mkConfig "debug" 50000 6000 20 ("127.0.0.1:" +:+ pretty 12582%Z) "" 1000 (30 * second) second second
    (Some DefaultChainPollerConfig) (Some (DefaultDBConfigWithHomePath homePath))
    (Some (with_key "finality-provider" homePath DefaultBBNConfig))
    ("127.0.0.1:" +:+ pretty 12581%Z) (Some DefaultFpConfig) 0 (16 * 1024 * 1024) false.
Definition DefaultConfigWithHome (homePath : string) : outcome Config :=
  or_panic (Config_Validate (default_config homePath)) (default_config homePath).
Definition DefaultConfig : outcome Config := DefaultConfigWithHome DefaultFpdDir.

(** [LoadConfig] of either package, given its file name and its check. *)
Definition load_config {A} `{Ini A} (file : string) (validate : A → outcome unit) : M os A :=
  w ← go_get;
  if negb (FileExists w file) then
    go_fail (EText ("specified config file does not exist in " +:+ file))
  else
    cfg ← go_wrap "failed to parse config file" (b ← read_file file; go_lift (ini_parse b));
    _ ← go_lift (validate cfg);
    mret cfg.

Context `{Ini Config} `{Ini EotsConfig}.

Definition LoadConfig (homePath : string) : M os Config :=
  load_config (CfgFile homePath) Config_Validate.

(** ** cmd/fpd/daemon/init.go *)

(** The part that both init commands share: refuse an existing home unless
    forced, then make the directories. *)
Fixpoint make_directories (dirs : list (string * string)) : M os unit :=
  match dirs with
  | [] => mret ()
  | (dir, what) :: dirs' => _ ← go_wrap what (MakeDirectory dir); make_directories dirs'
  end.
Definition refuse_existing (homePath : string) (force : bool) : M os unit :=
  w ← go_get;
  if FileExists w homePath && negb force then
    go_fail (EText ("home path " +:+ homePath +:+ " already exists"))
  else mret ().

Definition runInitCmd (homeDir : string) (force : bool) : M os unit :=
  w ← go_get;
  let homePath := getCleanPath w homeDir in
  _ ← refuse_existing homePath force;
  _ ← make_directories
        [(homePath, "failed to make directory " +:+ homePath);
         (LogDir homePath, "failed to make log directory " +:+ LogDir homePath)];
  defaultConfig ← go_lift (DefaultConfigWithHome homePath);
  go_wrap "failed to write config file" (write_file (CfgFile homePath) (ini_write defaultConfig)).

(** ** eotsmanager/config and cmd/eotsd/daemon/init.go *)

Definition eots_CfgFile (homePath : string) : string := Join [homePath; "eotsd.conf"].
Definition eots_LogDir (homePath : string) : string := Join [homePath; "logs"].
Definition eots_LogFile (homePath : string) : string := Join [eots_LogDir homePath; "eotsd.log"].
Definition eots_DataDir (homePath : string) : string := Join [homePath; "data"].
Definition eots_DefaultDBConfigWithHomePath (homePath : string) : DBConfig :=
  mkDBConfig (eots_DataDir homePath) "eots.db" true false DefaultBoltAutoCompactMinAge DefaultDBTimeout.
Definition DefaultEOTSDir : string := AppDataDir "eotsd".
Definition eots_DefaultDBConfig : DBConfig := eots_DefaultDBConfigWithHomePath DefaultEOTSDir.

Definition eots_default_config (homePath : string) (rpcPort metricsPort : Z) : EotsConfig :=
  mkEotsConfig "debug" BackendTest ("127.0.0.1:" +:+ pretty rpcPort) "" (Some true)
    (Some (mkMetricsCfg (mc_Host DefaultEotsConfig) metricsPort (mc_UpdateInterval DefaultEotsConfig)))
    (16 * 1024 * 1024) (Some (eots_DefaultDBConfigWithHomePath homePath)).
Definition DefaultConfigWithHomePathAndPorts (homePath : string) (rpcPort metricsPort : Z)
    : outcome EotsConfig :=
  or_panic (EotsConfig_Validate (eots_default_config homePath rpcPort metricsPort))
    (eots_default_config homePath rpcPort metricsPort).
Definition DefaultConfigWithHomePath (homePath : string) : outcome EotsConfig :=
  DefaultConfigWithHomePathAndPorts homePath 12582 DefaultEotsMetricsPort.
Definition eots_DefaultConfig : outcome EotsConfig := DefaultConfigWithHomePath DefaultEOTSDir.

Definition eots_LoadConfig (homePath : string) : M os EotsConfig :=
  load_config (eots_CfgFile homePath) EotsConfig_Validate.

(** [defaultConfig.DatabaseConfig.DBPath = dataDir] *)
Definition with_dbpath (dir : string) (c : EotsConfig) : EotsConfig :=
  mkEotsConfig (ecfg_LogLevel c) (ecfg_KeyringBackend c) (ecfg_RPCListener c) (ecfg_HMACKey c)
    (ecfg_DisableUnsafeEndpoints c) (ecfg_Metrics c) (ecfg_GRPCMaxContentLength c)
    ((λ d, mkDBConfig dir (DBFileName d) (NoFreelistSync d) (AutoCompact d) (AutoCompactMinAge d)
             (DBTimeout d)) <$> ecfg_DatabaseConfig c).

Definition initHome (homeFlag : string) (force : bool) : M os unit :=
  w ← go_get;
  let homePath := getCleanPath w homeFlag in
  _ ← refuse_existing homePath force;
  _ ← make_directories
        [(homePath, "failed to create home directory");
         (eots_LogDir homePath, "failed to create log directory");
         (eots_DataDir homePath, "failed to create data directory")];
  defaultConfig ← go_lift eots_DefaultConfig;
  go_wrap "failed to write config file"
    (write_file (eots_CfgFile homePath) (ini_write (with_dbpath (eots_DataDir homePath) defaultConfig))).
End defaults.

(** ** log/log.go *)

Inductive log_level := DebugLevel | InfoLevel | WarnLevel | ErrorLevel | PanicLevel | FatalLevel.
Inductive log_encoder := JSONEncoder | ConsoleEncoder | LogfmtEncoder.

(** [strings.ToLower], on ASCII *)
Definition lower (c : Ascii.ascii) : Ascii.ascii :=
  if in_range 65 90 c then Ascii.ascii_of_N (Ascii.N_of_ascii c + 32) else c.
Fixpoint ToLower (s : string) : string :=
  match s with EmptyString => "" | String c s' => String (lower c) (ToLower s') end.

(** [%q] of a printable text *)
Definition quoted (s : string) : string :=
  let q := String (Ascii.ascii_of_N 34) EmptyString in q +:+ s +:+ q.

Definition log_format (format : string) : outcome log_encoder :=
  if bool_decide (format = "json") then Ok JSONEncoder
  else if bool_decide (format ∈ ["auto"; "console"]) then Ok ConsoleEncoder
  else if bool_decide (format = "logfmt") then Ok LogfmtEncoder
  else Err (EText ("unrecognized log format " +:+ quoted format)).
Definition log_level_of (level : string) : outcome log_level :=
  let l := ToLower level in
  if bool_decide (l = "panic") then Ok PanicLevel
  else if bool_decide (l = "fatal") then Ok FatalLevel
  else if bool_decide (l = "error") then Ok ErrorLevel
  else if bool_decide (l ∈ ["warn"; "warning"]) then Ok WarnLevel
  else if bool_decide (l = "info") then Ok InfoLevel
  else if bool_decide (l = "debug") then Ok DebugLevel
  else Err (EText ("unsupported log level: " +:+ level)).

(** A logger is its encoder and its level. *)
Definition NewRootLogger (format level : string) : outcome (log_encoder * log_level) :=
  enc ← log_format format; lvl ← log_level_of level; Ok (enc, lvl).

(** [os.OpenFile(logFile, O_CREATE|O_WRONLY|O_APPEND)] *)
Definition open_append (path : string) : M os unit :=
  w ← go_get;
  match Stat w path with
  | inr (NFile _) => mret ()
  | _ => write_file path []
  end.

Definition NewRootLoggerWithFile (logFile level : string) : M os (log_encoder * log_level) :=
  _ ← go_wrap "failed to create log directory" (MakeDirectory (Dir logFile));
  _ ← go_wrap "failed to open log file" (open_append logFile);
  go_lift (NewRootLogger "console" level).

(** ** The defaults validate *)

Section facts.
Context `{NetParsers} `{ConfigDefaults} `{!DefaultLaws} `{Ini Config} `{Ini EotsConfig} `{!IniLaws}.

Lemma default_valid homePath : Config_Validate (default_config homePath) = Ok ().
Proof.
  unfold Config_Validate. rewrite bool_decide_false by done.
  destruct (resolve_loopback 12581) as [u Hu]; [lia|].
  change (cfg_RPCListener (default_config homePath)) with ("127.0.0.1:" +:+ pretty 12581%Z). rewrite Hu.
  assert (Metrics_Validate DefaultFpConfig = Ok ()) as Hm.
  { unfold Metrics_Validate. simpl. by rewrite parse_loopback. }
  assert (BBN_Validate (with_key "finality-provider" homePath DefaultBBNConfig) = Ok ()) as Hb.
  { destruct babylon_url as [v Hv]. pose proof babylon_timeout. pose proof babylon_prefix.
    unfold BBN_Validate. simpl. rewrite Hv. destruct (_ <=? 0)%Z eqn:E; [apply Z.leb_le in E; lia|].
    by rewrite bool_decide_false. }
  unfold validate_part. simpl cfg_Metrics. simpl cfg_BabylonConfig. cbn -[Metrics_Validate BBN_Validate].
  by rewrite Hm, Hb.
Qed.

(** The default configuration of [fpd] is valid for every home directory:
    [DefaultConfigWithHome] never panics. *)
Lemma DefaultConfigWithHome_ok homePath :
  DefaultConfigWithHome homePath = Ok (default_config homePath).
Proof. unfold DefaultConfigWithHome. by rewrite default_valid. Qed.

(** The defaults of [eotsd] panic exactly when the metrics port is out of
    range, for RPC ports in range. *)
Lemma eots_default_validates homePath rpcPort metricsPort :
  (0 ≤ rpcPort ≤ 65535)%Z →
  EotsConfig_Validate (eots_default_config homePath rpcPort metricsPort)
  = if bool_decide (0 ≤ metricsPort ≤ 65535)%Z then Ok () else Err (EText "invalid metrics config").
Proof.
  intros Hr. destruct (resolve_loopback rpcPort Hr) as [u Hu].
  unfold EotsConfig_Validate. change (ecfg_RPCListener _) with ("127.0.0.1:" +:+ pretty rpcPort).
  rewrite Hu. simpl. unfold Metrics_Validate. simpl. rewrite parse_loopback.
  case_bool_decide as Hm.
  - by rewrite (proj2 (Z.ltb_ge metricsPort 0)), (proj2 (Z.ltb_ge 65535 metricsPort)) by lia.
  - destruct (metricsPort <? 0)%Z eqn:E1; [done|]. destruct (65535 <? metricsPort)%Z eqn:E2; [done|].
    apply Z.ltb_ge in E1, E2. lia.
Qed.

Lemma DefaultConfigWithHomePath_ok homePath :
  DefaultConfigWithHomePath homePath = Ok (eots_default_config homePath 12582 DefaultEotsMetricsPort).
Proof.
  unfold DefaultConfigWithHomePath, DefaultConfigWithHomePathAndPorts.
  rewrite eots_default_validates by lia. by rewrite bool_decide_true.
Qed.

(** *** Plain texts *)

Lemma plain_app x y : plain (x +:+ y) = plain x && plain y.
Proof.
  induction x as [|c x IH]; [done|].
  change (plain_char c && plain (x +:+ y) = (plain_char c && plain x) && plain y).
  by rewrite IH, andb_assoc.
Qed.

Lemma plain_child hs c :
  normal true hs → is_name c = true → plain (abs_path hs) = true → plain c = true →
  plain (Join [abs_path hs; c]) = true.
Proof.
  intros Hn Hc Hp Hpc. rewrite Join_abs by done. destruct hs as [|d hs].
  - change (abs_path ([] ++ [c])) with ("/" +:+ c). by rewrite plain_app, Hpc.
  - change (abs_path ((d :: hs) ++ [c])) with ("/" +:+ String.concat "/" ((d :: hs) ++ [c])).
    rewrite concat_app_last by done. rewrite !plain_app, Hpc.
    change (abs_path (d :: hs)) with ("/" +:+ String.concat "/" (d :: hs)) in Hp.
    rewrite plain_app in Hp. apply andb_prop in Hp as [_ Hp]. by rewrite Hp.
Qed.

Lemma default_plain hs :
  normal true hs → plain (abs_path hs) = true → config_plain (default_config (abs_path hs)) = true.
Proof.
  intros Hn Hp.
  assert (db_plain (DefaultDBConfigWithHomePath (abs_path hs)) = true) as Hd.
  { unfold db_plain. rewrite andb_true_iff. split; [by apply plain_child|done]. }
  pose proof babylon_plain as Hb. simpl in Hb. rewrite !andb_true_iff in Hb.
  destruct Hb as (B1 & B2 & B3 & B4 & B5 & B6 & _).
  assert (bbn_plain (with_key "finality-provider" (abs_path hs) DefaultBBNConfig) = true) as Hbbn.
  { unfold bbn_plain. cbn -[abs_path plain]. by rewrite B1, B2, B3, B4, B5, B6, Hp. }
  unfold config_plain, part_plain. cbn -[db_plain bbn_plain plain pretty abs_path].
  rewrite Hd, Hbbn. by vm_compute.
Qed.

Lemma eots_default_plain hs :
  normal true hs → plain (abs_path hs) = true →
  eots_config_plain (eots_default_config (abs_path hs) 12582 DefaultEotsMetricsPort) = true.
Proof.
  intros Hn Hp.
  assert (db_plain (eots_DefaultDBConfigWithHomePath (abs_path hs)) = true) as Hd.
  { unfold db_plain. rewrite andb_true_iff. split; [by apply plain_child|done]. }
  unfold eots_config_plain, part_plain. cbn -[db_plain plain pretty abs_path].
  rewrite Hd. by vm_compute.
Qed.

(** *** Making directories *)

Lemma make_directories_ok dirs w r w' :
  make_directories dirs w = (r, w') →
  ∃ n, w' = with_nodes n w ∧ dirs_added (os_nodes w) n
    ∧ (r = Ok () → Forall (λ d, walk n [] (resolve w d.1) = inr NDir) dirs).
Proof.
  revert w r w'. induction dirs as [|[d what] dirs IH]; intros w r w' HE; simpl in HE.
  - injection HE as <- <-. exists (os_nodes w). destruct w. by split_and!.
  - unfold mbind, M_bind, go_bind, go_wrap in HE.
    destruct (MakeDirectory d w) as [r1 w1] eqn:HM.
    apply MakeDirectory_ok in HM as (n1 & -> & Hd1 & Hw1).
    destruct r1 as [[]|e|x]; simpl in HE; [|injection HE as <- <-; exists n1; by split_and!..].
    apply IH in HE as (n2 & -> & Hd2 & Hw2). exists n2. split_and!; [done|by etrans|].
    intros Hr. constructor; [|by apply Hw2]. eapply walk_added; [done|]. by apply Hw1.
Qed.

Lemma refuse_existing_ok home force w r w' :
  refuse_existing home force w = (r, w') →
  w' = w ∧ (r = Ok () → force = true ∨ FileExists w home = false)
  ∧ (FileExists w home = true → force = false → r = Err (EText ("home path " +:+ home +:+ " already exists"))).
Proof.
  unfold refuse_existing, mbind, M_bind, go_bind, go_get.
  destruct (FileExists w home), force; intros [= <- <-]; naive_solver.
Qed.

Lemma home_abs w raw :
  IsAbs (os_cwd w) = true → ∃ hs, getCleanPath w raw = abs_path hs ∧ normal true hs.
Proof.
  intros Hc. rewrite getCleanPath_no_tilde by done. destruct (Abs_abs _ raw Hc) as (cs & -> & _).
  change (abs_path cs) with (String slash (String.concat "/" cs)).
  assert (Expand (os_Getenv w) (String slash (String.concat "/" cs))
          = String slash (Expand (os_Getenv w) (String.concat "/" cs))) as -> by done.
  set (p := String slash _). assert (IsAbs p = true) as Hp by apply IsAbs_String.
  exists (comps p). rewrite Clean_abs by done. split; [done|].
  pose proof (comps_normal p) as Hn. by rewrite Hp in Hn.
Qed.

(** Loading the file that is there. *)
Lemma load_config_run {A} `{!Ini A} hs c (cfg : A) validate n w :
  normal true hs → is_name c = true → walk n [] hs = inr NDir →
  n !! (hs ++ [c]) = Some (NFile (ini_write cfg)) → ini_parse (ini_write cfg) = Ok cfg →
  validate cfg = Ok () →
  load_config (Join [abs_path hs; c]) validate (with_nodes n w) = (Ok cfg, with_nodes n w).
Proof.
  intros Hn Hc HW Hf Hp Hv. rewrite Join_abs by done.
  assert (Stat (with_nodes n w) (abs_path (hs ++ [c])) = inr (NFile (ini_write cfg))) as HS.
  { unfold Stat. rewrite resolve_abs by by apply normal_snoc. simpl. by apply walk_file. }
  unfold load_config, mbind, M_bind, go_bind, go_get, go_wrap, go_lift, FileExists, read_file.
  rewrite HS. simpl. rewrite HS, Hp. simpl. by rewrite Hv.
Qed.

(** What a write of the configuration below directories that were made does. *)
Lemma write_config_run {A} `{!Ini A} hs c (cfg : A) validate n w u w' :
  normal true hs → is_name c = true → walk n [] hs = inr NDir → dirs_added (os_nodes w) n →
  write_file (Join [abs_path hs; c]) (ini_write cfg) (with_nodes n w) = (Ok u, w') →
  ini_parse (ini_write cfg) = Ok cfg → validate cfg = Ok () →
  load_config (Join [abs_path hs; c]) validate w' = (Ok cfg, w')
  ∧ (∀ k, k ≠ hs ++ [c] → os_nodes w' !! k = os_nodes w !! k
       ∨ os_nodes w !! k = None ∧ os_nodes w' !! k = Some NDir).
Proof.
  intros Hn Hc HW Hd HE Hp Hv. pose proof HE as HE'. rewrite Join_abs in HE by done.
  apply write_file_ok in HE as (-> & _ & _ & Hold).
  rewrite resolve_abs in * by by apply normal_snoc. rewrite with_nodes_with in *. simpl in *. split.
  - apply load_config_run; try done; [|by rewrite lookup_insert_eq].
    by apply walk_insert_file.
  - intros k Hk. rewrite lookup_insert_ne by done. apply Hd.
Qed.

(** C29: a successful [fpd init] leaves a configuration that [LoadConfig] reads
    back as the defaults for that home directory.  It was forced or the home
    directory did not exist, and whatever was in the file system before, the
    keys and the databases below an existing home included, is still there:
    only the configuration file is written, and directories are added. *)
Theorem init_load_roundtrip homeDir force w w'
    (Hcwd : IsAbs (os_cwd w) = true) (Hplain : plain (getCleanPath w homeDir) = true)
    (Hrun : runInitCmd homeDir force w = (Ok (), w')) :
  let home := getCleanPath w homeDir in
  (force = true ∨ FileExists w home = false)
  ∧ LoadConfig home w' = (Ok (default_config home), w')
  ∧ ∀ k, k ≠ resolve w (CfgFile home) →
      os_nodes w' !! k = os_nodes w !! k ∨ os_nodes w !! k = None ∧ os_nodes w' !! k = Some NDir.
Proof.
  intros home. destruct (home_abs w homeDir Hcwd) as (hs & Hh & Hn). unfold home in *. rewrite Hh in *.
  unfold runInitCmd in Hrun. inv_bind Hrun. rewrite Hh in Hrun. inv_bind Hrun.
  apply refuse_existing_ok in E as (-> & Hf & _). destruct a. inv_bind Hrun.
  apply make_directories_ok in E as (n & -> & Hd & HW). destruct a. specialize (HW eq_refl).
  inversion_clear HW as [|? ? HW1 _]. simpl in HW1. rewrite resolve_abs in HW1 by done.
  inv_bind Hrun. rewrite DefaultConfigWithHome_ok in E. injection E as <-. apply go_wrap_ok in Hrun.
  unfold CfgFile. rewrite Join_abs, resolve_abs by (done || by apply normal_snoc).
  split; [by apply Hf|]. unfold LoadConfig, CfgFile in *.
  eapply write_config_run; try done; [apply ini_config, default_plain|apply default_valid]; done.
Qed.

(** Nothing but directories on the way to [cs], and leave to create there. *)
Definition way_free w (cs : list string) : Prop :=
  (∀ l1 l2 x, cs = l1 ++ l2 → os_nodes w !! l1 = Some x → l1 ≠ [] → x = NDir)
  ∧ (∀ l1 l2, cs = l1 ++ l2 → l2 ≠ [] → l1 ∉ os_denied w).

Lemma MakeDirectory_run dir cs w :
  resolve w dir = cs → way_free w cs →
  ∃ n, MakeDirectory dir w = (Ok (), with_nodes n w) ∧ dirs_added (os_nodes w) n
    ∧ walk n [] cs = inr NDir
    ∧ ∀ k, (∀ l1 l2, cs = l1 ++ l2 → k ≠ l1) → n !! k = os_nodes w !! k.
Proof.
  intros Hr [Hx Hd]. destruct (mkdirAll_fresh (os_denied w) [] cs (os_nodes w) Hx Hd) as [n Hn].
  exists n. split_and!; [|by eapply mkdirAll_added|by eapply mkdirAll_walk|].
  - unfold MakeDirectory, MkdirAll. by rewrite Hr, Hn.
  - intros k Hk. eapply mkdirAll_other; [|done]. intros l1 l2 Hl _. by eapply Hk.
Qed.

Lemma way_free_added w n cs : way_free w cs → dirs_added (os_nodes w) n → way_free (with_nodes n w) cs.
Proof.
  intros [Hx Hd] Ha. split; [|done]. intros l1 l2 x Hl Hn Hne. simpl in Hn.
  destruct (Ha l1) as [E|[_ E]]; rewrite E in Hn; [by eapply Hx|by injection Hn].
Qed.

Lemma way_free_prefix w cs c : way_free w (cs ++ [c]) → way_free w cs.
Proof.
  intros [Hx Hd]. split.
  - intros l1 l2 x -> Hn Hne. apply (Hx l1 (l2 ++ [c]) x); [by rewrite app_assoc|done..].
  - intros l1 l2 -> _. apply (Hd l1 (l2 ++ [c])); [by rewrite app_assoc|]. by destruct l2.
Qed.

(** The command succeeds where directories can be made and the place of the
    configuration is free or a file. *)
Lemma init_succeeds homeDir force w hs :
  getCleanPath w homeDir = abs_path hs → normal true hs →
  force = true ∨ FileExists w (abs_path hs) = false → way_free w (hs ++ ["logs"]) →
  os_nodes w !! (hs ++ ["fpd.conf"]) = None ∨ (∃ b, os_nodes w !! (hs ++ ["fpd.conf"]) = Some (NFile b)) →
  ∃ w', runInitCmd homeDir force w = (Ok (), w').
Proof.
  intros Hh Hn Hf Hway Hcfg. pose proof (normal_snoc _ "logs" Hn eq_refl) as Hl.
  unfold runInitCmd. rewrite (go_bind_run _ _ _ w w) by done. rewrite Hh.
  rewrite (go_bind_run _ _ _ () w).
  2: { unfold refuse_existing, mbind, M_bind, go_bind, go_get. destruct Hf as [->| ->]; [|done].
       by rewrite andb_false_r. }
  destruct (MakeDirectory_run (abs_path hs) hs w) as (n1 & HM1 & Hd1 & HW1 & Ho1);
    [by apply resolve_abs|by eapply way_free_prefix|].
  destruct (MakeDirectory_run (LogDir (abs_path hs)) (hs ++ ["logs"]) (with_nodes n1 w))
    as (n2 & HM2 & Hd2 & _ & Ho2).
  { unfold LogDir. rewrite Join_abs by done. by apply resolve_abs. }
  { by apply way_free_added. }
  rewrite (go_bind_run _ _ _ () (with_nodes n2 w)).
  2: { unfold make_directories. rewrite (go_bind_run _ _ _ () (with_nodes n1 w)); [|by apply go_wrap_run].
       rewrite (go_bind_run _ _ _ () (with_nodes n2 w)); [done|by apply go_wrap_run]. }
  rewrite (go_bind_run _ _ _ (default_config (abs_path hs)) (with_nodes n2 w)).
  2: { unfold go_lift. by rewrite DefaultConfigWithHome_ok. }
  assert (Hr : resolve (with_nodes n2 w) (CfgFile (abs_path hs)) = hs ++ ["fpd.conf"]).
  { unfold CfgFile. rewrite Join_abs by done. apply resolve_abs. by apply normal_snoc. }
  eexists. apply go_wrap_run, write_file_run; rewrite Hr; rewrite ?removelast_last.
  - by destruct hs.
  - by eapply walk_added.
  - apply (proj2 Hway hs ["logs"]); done.
  - simpl. rewrite Ho2, Ho1; [done| |].
    + intros l1 l2 -> E. apply (f_equal length) in E. rewrite !length_app in E. simpl in E. lia.
    + intros l1 l2 Hpre <-. rewrite <-app_assoc in Hpre. by apply app_inv_head in Hpre.
Qed.

(** The same for [eotsd init]; although it starts from the defaults of the
    default home directory, the result is the defaults of this one. *)
Lemma eots_init_load homeFlag force w w'
    (Hcwd : IsAbs (os_cwd w) = true) (Hplain : plain (getCleanPath w homeFlag) = true)
    (Hrun : initHome homeFlag force w = (Ok (), w')) :
  let home := getCleanPath w homeFlag in
  (force = true ∨ FileExists w home = false)
  ∧ eots_LoadConfig home w' = (Ok (eots_default_config home 12582 DefaultEotsMetricsPort), w')
  ∧ ∀ k, k ≠ resolve w (eots_CfgFile home) →
      os_nodes w' !! k = os_nodes w !! k ∨ os_nodes w !! k = None ∧ os_nodes w' !! k = Some NDir.
Proof.
  intros home. destruct (home_abs w homeFlag Hcwd) as (hs & Hh & Hn). unfold home in *. rewrite Hh in *.
  unfold initHome in Hrun. inv_bind Hrun. rewrite Hh in Hrun. inv_bind Hrun.
  apply refuse_existing_ok in E as (-> & Hf & _). destruct a. inv_bind Hrun.
  apply make_directories_ok in E as (n & -> & Hd & HW). destruct a. specialize (HW eq_refl).
  inversion_clear HW as [|? ? HW1 _]. simpl in HW1. rewrite resolve_abs in HW1 by done.
  inv_bind Hrun. unfold eots_DefaultConfig in E. rewrite DefaultConfigWithHomePath_ok in E.
  injection E as <-. apply go_wrap_ok in Hrun.
  unfold eots_CfgFile. rewrite Join_abs, resolve_abs by (done || by apply normal_snoc).
  split; [by apply Hf|]. unfold eots_LoadConfig, eots_CfgFile in *.
  eapply write_config_run; try done.
  - apply ini_eots_config, eots_default_plain; done.
  - rewrite eots_default_validates by lia. by rewrite bool_decide_true.
Qed.

(** Without [--force] an existing home directory is left alone. *)
Lemma init_existing homeDir w :
  FileExists w (getCleanPath w homeDir) = true →
  runInitCmd homeDir false w
  = (Err (EText ("home path " +:+ getCleanPath w homeDir +:+ " already exists")), w)
  ∧ initHome homeDir false w
  = (Err (EText ("home path " +:+ getCleanPath w homeDir +:+ " already exists")), w).
Proof.
  intros He. unfold runInitCmd, initHome, refuse_existing, mbind, M_bind, go_bind, go_get. by rewrite He.
Qed.
End facts.

(** ** Log levels *)

(** Of the levels the configuration offers, the logger knows all but one. *)
Lemma loglevel_choices_supported level :
  level ∈ loglevel_choices → (is_Ok (NewRootLogger "console" level) = true ↔ level ≠ "trace").
Proof.
  intros Hl. unfold loglevel_choices in Hl.
  repeat (apply elem_of_cons in Hl as [->|Hl]; [by vm_compute|]). by apply elem_of_nil in Hl.
Qed.

(** ** cmd/fpd/clientctx/cmd.go *)

(** The fields of [client.Context] that are set; [Kr] is the keyring. *)
Record client_context (Kr : Type) := mkClientCtx {
  ctx_HomeDir : string;
  ctx_From : string;
  ctx_ChainID : string;
  ctx_Keyring : option Kr;
  ctx_KeyringDir : string;
  ctx_OutputFormat : string;
  ctx_SignModeStr : string
}.
Arguments mkClientCtx {Kr}.
Arguments ctx_HomeDir {Kr}.
Arguments ctx_From {Kr}.
Arguments ctx_ChainID {Kr}.
Arguments ctx_Keyring {Kr}.
Arguments ctx_KeyringDir {Kr}.
Arguments ctx_OutputFormat {Kr}.
Arguments ctx_SignModeStr {Kr}.

(** Which flags were given on the command line. *)
Record changed_flags := mkChanged {
  chg_From : bool;
  chg_ChainID : bool;
  chg_KeyringBackend : bool;
  chg_KeyringDir : bool;
  chg_Output : bool;
  chg_SignMode : bool
}.

Section client_context.
Context {Kr : Type}.
(** [client.NewKeyringFromBackend]: it opens the keyring in the [KeyringDir] of
    the context it is given. *)
Variable NewKeyringFromBackend : client_context Kr → string → outcome Kr.
Implicit Types ctx : client_context Kr.

Definition FillContextFromBabylonConfig (chg : changed_flags) (bbnConf : BBNConfig) ctx
    : outcome (client_context Kr) :=
  let from := if chg_From chg then ctx_From ctx else bbn_cfg_Key bbnConf in
  let chainID := if chg_ChainID chg then ctx_ChainID ctx else bbn_cfg_ChainID bbnConf in
  let ctx := mkClientCtx (ctx_HomeDir ctx) from chainID (ctx_Keyring ctx) (ctx_KeyringDir ctx)
               (ctx_OutputFormat ctx) (ctx_SignModeStr ctx) in
  kr ← (if chg_KeyringBackend chg then Ok (ctx_Keyring ctx)
        else kr ← wrap_err "failed to create keyring from backend"
                    (NewKeyringFromBackend ctx (bbn_cfg_KeyringBackend bbnConf));
             Ok (Some kr));
  let dir := if chg_KeyringDir chg then ctx_KeyringDir ctx else bbn_cfg_KeyDirectory bbnConf in
  let output := if chg_Output chg then ctx_OutputFormat ctx else bbn_cfg_OutputFormat bbnConf in
  let sign := if chg_SignMode chg then ctx_SignModeStr ctx else bbn_cfg_SignModeStr bbnConf in
  Ok (mkClientCtx (ctx_HomeDir ctx) from chainID kr dir output sign).

(** [PersistClientCtx] after the codecs are registered: a configuration that
    cannot be loaded leaves the context as it is. *)
Definition PersistClientCtx `{NetParsers} `{Ini Config} (chg : changed_flags) ctx
    : M os (client_context Kr) :=
  r ← go_try (LoadConfig (ctx_HomeDir ctx));
  match r with
  | inl _ => mret ctx
  | inr cfg =>
      match cfg_BabylonConfig cfg with
      | None => go_crash "nil pointer dereference"
      | Some bbn => go_lift (FillContextFromBabylonConfig chg bbn ctx)
      end
  end.

(** Flags win over the configuration; the keyring is opened before the
    directory of the configuration is set, hence in the directory the context
    had. *)
Lemma FillContext_fields chg bbn ctx ctx' :
  FillContextFromBabylonConfig chg bbn ctx = Ok ctx' →
  ctx_From ctx' = (if chg_From chg then ctx_From ctx else bbn_cfg_Key bbn)
  ∧ ctx_KeyringDir ctx' = (if chg_KeyringDir chg then ctx_KeyringDir ctx else bbn_cfg_KeyDirectory bbn)
  ∧ if chg_KeyringBackend chg then ctx_Keyring ctx' = ctx_Keyring ctx
    else ∃ c kr, NewKeyringFromBackend c (bbn_cfg_KeyringBackend bbn) = Ok kr
           ∧ ctx_KeyringDir c = ctx_KeyringDir ctx ∧ ctx_Keyring ctx' = Some kr.
Proof.
  unfold FillContextFromBabylonConfig. intros HE. apply outcome_bind_ok in HE as (kr & Hk & [= <-]).
  simpl. split_and!; [done..|]. destruct (chg_KeyringBackend chg); [by injection Hk as <-|].
  apply outcome_bind_ok in Hk as (k & Hk%wrap_err_ok & [= <-]). eexists _, k. by split_and!.
Qed.
End client_context.

(** ** A concrete file system, for the witnesses *)

Module CfgToy.

(** A file holds a tree of texts and numbers, in binary. *)
Abbreviation tree := (gen_tree (string + Z)).
Definition tS (s : string) : tree := GenLeaf (inl s).
Definition tZ (z : Z) : tree := GenLeaf (inr z).
Definition tN (n : N) : tree := tZ (Z.of_N n).
Definition tB (b : bool) : tree := tZ (if b then 1 else 0).
Definition tO {A} (f : A → tree) (x : option A) : tree :=
  match x with Some a => GenNode 1 [f a] | None => GenNode 0 [] end.
Definition fO {A} (g : tree → option A) (t : tree) : option (option A) :=
  match t with
  | GenNode 1 [u] => Some <$> g u
  | GenNode 0 [] => Some None
  | _ => None
  end.
Definition fB (z : Z) : bool := (z =? 1)%Z.

Definition t_poller (c : ChainPollerConfig) : tree :=
  GenNode 0 [tN (BufferSize c); tZ (PollInterval c); tN (StaticChainScanningStartHeight c);
    tB (AutoChainScanningMode c); tN (PollSize c)].
Definition f_poller (t : tree) : option ChainPollerConfig :=
  match t with
  | GenNode _ [GenLeaf (inr a); GenLeaf (inr b); GenLeaf (inr c); GenLeaf (inr d); GenLeaf (inr e)] =>
      Some (mkPollerCfg (Z.to_N a) b (Z.to_N c) (fB d) (Z.to_N e))
  | _ => None
  end.
Definition t_metrics (c : MetricsConfig) : tree :=
  GenNode 0 [tS (mc_Host c); tZ (mc_Port c); tZ (mc_UpdateInterval c)].
Definition f_metrics (t : tree) : option MetricsConfig :=
  match t with
  | GenNode _ [GenLeaf (inl a); GenLeaf (inr b); GenLeaf (inr c)] => Some (mkMetricsCfg a b c)
  | _ => None
  end.
Definition t_db (d : DBConfig) : tree :=
  GenNode 0 [tS (DBPath d); tS (DBFileName d); tB (NoFreelistSync d); tB (AutoCompact d);
    tZ (AutoCompactMinAge d); tZ (DBTimeout d)].
Definition f_db (t : tree) : option DBConfig :=
  match t with
  | GenNode _ [GenLeaf (inl a); GenLeaf (inl b); GenLeaf (inr c); GenLeaf (inr d); GenLeaf (inr e);
      GenLeaf (inr f)] => Some (mkDBConfig a b (fB c) (fB d) e f)
  | _ => None
  end.
Definition t_bbn (b : BBNConfig) : tree :=
  GenNode 0 [tS (bbn_cfg_Key b); tS (bbn_cfg_ChainID b); tS (bbn_cfg_RPCAddr b); tS (bbn_cfg_GRPCAddr b);
    tS (bbn_cfg_AccountPrefix b); tS (bbn_cfg_KeyringBackend b);
    tZ (QArith_base.Qnum (bbn_cfg_GasAdjustment b)); tZ (Zpos (QArith_base.Qden (bbn_cfg_GasAdjustment b)));
    tS (bbn_cfg_GasPrices b); tS (bbn_cfg_KeyDirectory b); tB (bbn_cfg_Debug b); tZ (bbn_cfg_Timeout b);
    tZ (bbn_cfg_BlockTimeout b); tS (bbn_cfg_OutputFormat b); tS (bbn_cfg_SignModeStr b);
    tN (MaxRetriesBatchRemovingMsgs b)].
Definition f_bbn (t : tree) : option BBNConfig :=
  match t with
  | GenNode _ [GenLeaf (inl a); GenLeaf (inl b); GenLeaf (inl c); GenLeaf (inl d); GenLeaf (inl e);
      GenLeaf (inl f); GenLeaf (inr g1); GenLeaf (inr g2); GenLeaf (inl h); GenLeaf (inl i);
      GenLeaf (inr j); GenLeaf (inr k); GenLeaf (inr l); GenLeaf (inl m); GenLeaf (inl n);
      GenLeaf (inr o)] =>
      Some (mkBBNConfig a b c d e f (QArith_base.Qmake g1 (Z.to_pos g2)) h i (fB j) k l m n (Z.to_N o))
  | _ => None
  end.
Definition t_config (c : Config) : tree :=
  GenNode 0 [tS (cfg_LogLevel c); tN (cfg_NumPubRand c); tN (cfg_TimestampingDelayBlocks c);
    tN (cfg_MaxSubmissionRetries c); tS (cfg_EOTSManagerAddress c); tS (cfg_HMACKey c);
    tN (cfg_BatchSubmissionSize c); tZ (cfg_RandomnessCommitInterval c); tZ (cfg_SubmissionRetryInterval c);
    tZ (cfg_SignatureSubmissionInterval c); tO t_poller (cfg_PollerConfig c);
    tO t_db (cfg_DatabaseConfig c); tO t_bbn (cfg_BabylonConfig c); tS (cfg_RPCListener c);
    tO t_metrics (cfg_Metrics c); tN (cfg_ContextSigningHeight c); tZ (cfg_GRPCMaxContentLength c);
    tB (cfg_AdvancedResetLastVotedHeight c)].
Definition f_config (t : tree) : option Config :=
  match t with
  | GenNode _ [GenLeaf (inl a); GenLeaf (inr b); GenLeaf (inr c); GenLeaf (inr d); GenLeaf (inl e);
      GenLeaf (inl f); GenLeaf (inr g); GenLeaf (inr h); GenLeaf (inr i); GenLeaf (inr j); tk; tl; tm;
      GenLeaf (inl n); t0; GenLeaf (inr p); GenLeaf (inr q); GenLeaf (inr r)] =>
      k ← fO f_poller tk; l ← fO f_db tl; m ← fO f_bbn tm; o ← fO f_metrics t0;
      Some (mkConfig a (Z.to_N b) (Z.to_N c) (Z.to_N d) e f (Z.to_N g) h i j k l m n o (Z.to_N p) q (fB r))
  | _ => None
  end.
Definition t_eots (c : EotsConfig) : tree :=
  GenNode 0 [tS (ecfg_LogLevel c); tS (ecfg_KeyringBackend c); tS (ecfg_RPCListener c); tS (ecfg_HMACKey c);
    tO tB (ecfg_DisableUnsafeEndpoints c); tO t_metrics (ecfg_Metrics c); tZ (ecfg_GRPCMaxContentLength c);
    tO t_db (ecfg_DatabaseConfig c)].
Definition f_bool (t : tree) : option bool := match t with GenLeaf (inr z) => Some (fB z) | _ => None end.
Definition f_eots (t : tree) : option EotsConfig :=
  match t with
  | GenNode _ [GenLeaf (inl a); GenLeaf (inl b); GenLeaf (inl c); GenLeaf (inl d); te; tf; GenLeaf (inr g); th] =>
      e ← fO f_bool te; f ← fO f_metrics tf; h ← fO f_db th; Some (mkEotsConfig a b c d e f g h)
  | _ => None
  end.

Lemma fB_tB (b : bool) : fB (if b then 1 else 0)%Z = b.
Proof. by destruct b. Qed.
Lemma fO_tO {A} (f : A → tree) g x : (∀ a, g (f a) = Some a) → fO g (tO f x) = Some x.
Proof. intros Hg. destruct x as [a|]; [|done]. simpl. by rewrite Hg. Qed.
Lemma f_poller_t c : f_poller (t_poller c) = Some c.
Proof. destruct c. simpl. by rewrite !N2Z.id, fB_tB. Qed.
Lemma f_metrics_t c : f_metrics (t_metrics c) = Some c.
Proof. by destruct c. Qed.
Lemma f_db_t c : f_db (t_db c) = Some c.
Proof. destruct c. simpl. by rewrite !fB_tB. Qed.
Lemma f_bbn_t c : f_bbn (t_bbn c) = Some c.
Proof. destruct c as [?????? [] ????????]. simpl. by rewrite N2Z.id, fB_tB. Qed.
Lemma f_config_t c : f_config (t_config c) = Some c.
Proof.
  destruct c. unfold t_config, f_config, tS, tN, tZ, tB. simpl.
  rewrite (fO_tO _ _ _ f_poller_t), (fO_tO _ _ _ f_db_t), (fO_tO _ _ _ f_bbn_t), (fO_tO _ _ _ f_metrics_t).
  simpl. by rewrite !N2Z.id, fB_tB.
Qed.
Lemma f_eots_t c : f_eots (t_eots c) = Some c.
Proof.
  destruct c. unfold t_eots, f_eots, tS, tN, tZ. simpl.
  rewrite (fO_tO tB f_bool), (fO_tO _ _ _ f_metrics_t), (fO_tO _ _ _ f_db_t); [done|].
  intros b. simpl. by rewrite fB_tB.
Qed.

Definition toy_ini {A} (t : A → tree) (f : tree → option A) : Ini A := {|
  ini_write a := bits_of (encode (t a));
  ini_parse b := match decode (A := tree) (of_bits b) ≫= f with
                 | Some a => Ok a
                 | None => Err (EText "malformed")
                 end;
|}.
#[export] Instance toy_ini_config : Ini Config := toy_ini t_config f_config.
#[export] Instance toy_ini_eots : Ini EotsConfig := toy_ini t_eots f_eots.
Lemma toy_ini_rt {A} (t : A → tree) f a :
  f (t a) = Some a → @ini_parse A (toy_ini t f) (@ini_write A (toy_ini t f) a) = Ok a.
Proof.
  intros Hf. unfold ini_parse, ini_write, toy_ini. rewrite of_bits_of, decode_encode.
  change (Some (t a) ≫= f) with (f (t a)). by rewrite Hf.
Qed.
#[export] Instance toy_ini_laws : IniLaws.
Proof. split; intros c _; [apply toy_ini_rt, f_config_t|apply toy_ini_rt, f_eots_t]. Qed.

#[export] Instance toy_net : NetParsers := {|
  ResolveTCPAddr s := if HasPrefix s "127.0.0.1:" then Ok () else Err (EText "missing port in address");
  ParseIP s := bool_decide (s = "127.0.0.1");
  url_Parse s := if Contains s "://" then Ok () else Err (EText "missing protocol scheme");
|}.
#[export] Instance toy_defaults : ConfigDefaults := {|
  DefaultBabylonConfig :=
    mkBabylonConfig "node0" "chain-test" "http://localhost:26657" "https://localhost:9090" "bbn" "test"
      (QArith_base.Qmake 3 2) "0.01ubbn" "" true (20 * second) (60 * second) "text" "direct" "";
  DefaultBoltAutoCompactMinAge := 604800 * second;
  DefaultDBTimeout := 60 * second;
  AppDataDir name := "/home/user/." +:+ name;
|}.
#[export] Instance toy_default_laws : DefaultLaws.
Proof.
  split; [|by vm_compute|by exists ()|by vm_compute..].
  intros port _. exists (). unfold ResolveTCPAddr, toy_net.
  assert (∀ s, HasPrefix ("127.0.0.1:" +:+ s) "127.0.0.1:" = true) as Hp; [|by rewrite Hp].
  intros s. unfold HasPrefix. by destruct s.
Qed.

(** A machine with a home directory and nothing in it; one with an [fpd] home
    that holds a database. *)
Definition toy_os : os :=
  mkOs {[ ["home"] := NDir; ["home"; "user"] := NDir ]} {[ []; ["home"] ]} "/home/user" (Some "/home/user")
    (λ _, "").
Definition toy_os_used : os :=
  with_nodes (<[["home"; "user"; ".fpd"] := NDir]> (<[["home"; "user"; ".fpd"; "keys.db"] := NFile [Byte.x01]]>
    (os_nodes toy_os))) toy_os.
End CfgToy.

Module CfgWitness.
Import CfgToy.
Definition w_init := runInitCmd ".fpd" true toy_os_used.

Definition w_home := getCleanPath toy_os_used ".fpd".

Lemma init_load_roundtrip_witness :
  w_init = (Ok (), w_init.2)
  ∧ LoadConfig w_home w_init.2 = (Ok (default_config w_home), w_init.2)
  ∧ w_home = "/home/user/.fpd"
  ∧ os_nodes w_init.2 !! ["home"; "user"; ".fpd"; "keys.db"] = Some (NFile [Byte.x01]).
Proof.
  assert (E : w_init = (Ok (), w_init.2)) by (apply run_eq; vm_eq).
  split; [exact E|]. unfold w_init at 1 in E.
  split; [exact (proj1 (proj2 (init_load_roundtrip ".fpd" true toy_os_used w_init.2
    ltac:(vm_eq) ltac:(vm_eq) E)))|].
  split; vm_eq.
Defined.

(** A home directory that exists is refused, and a tilde is a name like any
    other. *)
Example init_refused :
  (runInitCmd ".fpd" false toy_os_used).1 = Err (EText "home path /home/user/.fpd already exists")
  ∧ getCleanPath toy_os "~/x" = "/home/user/~/x" ∧ is_Ok (initHome "e" false toy_os).1 = true.
Proof. by vm_compute. Qed.
End CfgWitness.
