(* ===== verification/Util.v ===== *)
(** * Validation helpers (src/util) *)

From stdpp Require Import base gmap strings list.
From S2P Require Import Prelude External.

(** ** util/validation.go *)

(** The loop of [HasDuplicateHeights] with its map [seen]. *)
Fixpoint HasDuplicateHeights_loop (seen : gset N) (heights : list N) : bool * N :=
  match heights with
  | [] => (false, 0%N)
  | height :: rest =>
      if bool_decide (height ∈ seen) then (true, height)
      else HasDuplicateHeights_loop ({[height]} ∪ seen) rest
  end.

Definition HasDuplicateHeights (heights : list N) : bool * N :=
  HasDuplicateHeights_loop ∅ heights.

Definition ValidateNoDuplicateHeights (heights : list N) : outcome unit :=
  let '(hasDup, dupHeight) := HasDuplicateHeights heights in
  if hasDup then Err (EText ("duplicate height detected: " +:+ fmt_d dupHeight))
  else Ok ().

(** ** util/crypto.go *)

Definition ValidatePrivKeyBytes `{Crypto} (keyBytes : bytes) : outcome unit :=
  let '(keyInt, overflow) := ModN_SetByteSlice keyBytes in
  if overflow then
    Err (EText "private key is greater than or equal to the secp256k1 curve order")
  else if ModN_IsZero keyInt then Err (EText "private key cannot be zero")
  else Ok ().

(** ** Lemmas *)

Lemma dup_loop_none seen hs :
  HasDuplicateHeights_loop seen hs = (false, 0%N) ↔
  NoDup hs ∧ ∀ h, h ∈ hs → h ∉ seen.
Proof.
  revert seen. induction hs as [|h hs IH]; intros seen; simpl.
  - split; [|done]. intros _. split; [constructor|]. intros h Hh. by apply elem_of_nil in Hh.
  - rewrite NoDup_cons. case_bool_decide as Hin.
    + split; [done|]. intros [_ Hs]. destruct (Hs h); [by left|done].
    + rewrite IH. set_solver.
Qed.

Lemma dup_loop_some seen hs h :
  HasDuplicateHeights_loop seen hs = (true, h) →
  ∃ l1 l2, hs = l1 ++ h :: l2 ∧ (h ∈ seen ∨ h ∈ l1) ∧ NoDup l1 ∧ ∀ x, x ∈ l1 → x ∉ seen.
Proof.
  revert seen. induction hs as [|x hs IH]; intros seen; simpl; [done|].
  case_bool_decide as Hin.
  - intros [= <-]. exists [], hs. split_and!; [done|by left|constructor|].
    intros y Hy. by apply elem_of_nil in Hy.
  - intros (l1 & l2 & -> & Hh & Hnd & Hs)%IH. exists (x :: l1), l2.
    split_and!; [done|set_solver| |set_solver].
    apply NoDup_cons. split; [|done]. intros Hx. specialize (Hs x Hx). set_solver.
Qed.

(** The two outcomes of the loop. *)
Lemma dup_loop_cases seen hs :
  HasDuplicateHeights_loop seen hs = (false, 0%N)
  ∨ ∃ h, HasDuplicateHeights_loop seen hs = (true, h).
Proof.
  revert seen. induction hs as [|x hs IH]; intros seen; simpl; [by left|].
  case_bool_decide; eauto.
Qed.

Lemma Validate_ok_iff hs : ValidateNoDuplicateHeights hs = Ok () ↔ NoDup hs.
Proof.
  unfold ValidateNoDuplicateHeights, HasDuplicateHeights.
  destruct (dup_loop_cases ∅ hs) as [E|[h E]].
  - rewrite E. apply dup_loop_none in E as [E _]. done.
  - rewrite E. split; [done|]. intros Hnd. apply dup_loop_some in E as (l1 & l2 & -> & Hh & _).
    apply NoDup_app in Hnd as (_ & Hd & _). destruct Hh as [?|Hh]; [set_solver|].
    destruct (Hd h Hh). by left.
Qed.

Lemma Validate_not_ok hs : ¬ NoDup hs → ∃ e, ValidateNoDuplicateHeights hs = Err e.
Proof.
  intros Hnd. pose proof (Validate_ok_iff hs) as Hiff.
  unfold ValidateNoDuplicateHeights in *. destruct (HasDuplicateHeights hs) as [[] h].
  - eauto.
  - destruct Hnd. by apply Hiff.
Qed.

(** ** Properties *)

(** [HasDuplicateHeights] answers [true] exactly when the slice repeats a
    height, and then the height it reports is the first one that repeats an
    earlier element; this is the check that protects the EOTS key from a batch
    that signs one height twice. *)
Theorem HasDuplicateHeights_correct hs :
  (HasDuplicateHeights hs = (false, 0%N) ∧ NoDup hs)
  ∨ ∃ l1 h l2, HasDuplicateHeights hs = (true, h)
      ∧ hs = l1 ++ h :: l2 ∧ h ∈ l1 ∧ NoDup l1.
Proof.
  unfold HasDuplicateHeights. destruct (dup_loop_cases ∅ hs) as [E|[h E]].
  - left. split; [done|]. by apply dup_loop_none in E as [? _].
  - right. pose proof (dup_loop_some _ _ _ E) as (l1 & l2 & -> & Hh & Hnd & _).
    exists l1, h, l2. split_and!; [done|done|set_solver|done].
Qed.
