(* ===== verification/EotsStore.v ===== *)
(** * The EOTS store (src/eotsmanager/store)

    The signing records (slashing protection) and the names of the EOTS keys,
    kept in two buckets of one database. *)

From stdpp Require Import base gmap strings list sorting.
From S2P Require Import Prelude Kvdb External Toy.

(** ** Data *)

(** [proto.SigningRecord] (eotsmanager/proto/signstore.proto) *)
Record pSigningRecord := mkPSigningRecord {
  p_Msg : bytes;
  p_EotsSig : bytes;
  p_Timestamp : Z;
}.

(** [store.SigningRecord] *)
Record SigningRecord := mkSigningRecord {
  sr_Msg : bytes;
  sr_Signature : bytes;
  sr_Timestamp : Z;
}.

(** [store.BatchSignRecord] *)
Record BatchSignRecord := mkBatchSignRecord {
  bsr_Height : N;
  bsr_ChainID : bytes;
  bsr_Msg : bytes;
  bsr_EotsPk : bytes;
  bsr_Sig : bytes;
}.

Definition FromProto (sr : pSigningRecord) : SigningRecord :=
  {| sr_Msg := p_Msg sr; sr_Signature := p_EotsSig sr; sr_Timestamp := p_Timestamp sr |}.

Definition eotsBucketName : bytes := bytes_of_string "fpKeyNames".
Definition signRecordBucketName : bytes := bytes_of_string "signRecord".

(** *** Error variables (eotsmanager/store/errors.go) *)
Definition ErrCorruptedEOTSDb : error :=
  EVar "ErrCorruptedEOTSDb" "EOTS manager db is corrupted".
Definition ErrDuplicateEOTSKeyName : error :=
  EVar "ErrDuplicateEOTSKeyName" "EOTS key name already exists".
Definition ErrEOTSKeyNameNotFound : error :=
  EVar "ErrEOTSKeyNameNotFound" "EOTS key name not found".
Definition ErrSignRecordNotFound : error :=
  EVar "ErrSignRecordNotFound" "sign record not found".
Definition ErrDuplicateSignRecord : error :=
  EVar "ErrDuplicateSignRecord" "sign record for given height already exists".
Definition ErrDuplicateEOTSKeyRecord : error :=
  EVar "ErrDuplicateEOTSKeyRecord" "EOTS key with the same key name already exists".

Section store.
Context {D : Type} `{KvBackend D} `{BigEndian} `{Codec pSigningRecord} `{Crypto}.

(** ** Record keys *)

(** the record key is (chainID || pk || height) *)
Definition getSignRecordKey (chainID pk : bytes) (height : N) : bytes :=
  let heightBytes := Uint64ToBigEndian height in
  chainID ++ pk ++ heightBytes.

Definition hasKeyPrefix (key chainID eotsPk : bytes) : bool :=
  if (length key <? length chainID + length eotsPk)%nat then false
  else if negb (bool_decide (take (length chainID) key = chainID)) then false
  else bool_decide (take (length eotsPk) (drop (length chainID) key) = eotsPk).

Definition ExtractHeightFromKey (key : bytes) : outcome N :=
  if (length key <? 8)%nat then Err (EText "key too short to contain height")
  else Ok (BigEndianToUint64 (drop (length key - 8) key)).

(** ** Buckets *)

Definition initBuckets : M D unit :=
  go_wrap "failed to initialize buckets" (kv_update (λ d,
    d1 ← wrap_err "failed to create eots bucket" (kv_create d eotsBucketName);
    d2 ← wrap_err "failed to create sign record bucket" (kv_create d1 signRecordBucketName);
    Ok ((), d2))).

(** ** EOTS key names *)

Definition saveEOTSKeyName (d : D) (btcPk : bytes) (keyName : string) : outcome D :=
  if bool_decide (keyName = "") then Err (EText "cannot save empty key name")
  else wrap_err "failed to put key name in bucket"
         (kv_put d eotsBucketName btcPk (bytes_of_string keyName)).

Definition AddEOTSKeyName (btcPk : PublicKey) (keyName : string) : M D unit :=
  let pkBytes := SerializePubKey btcPk in
  go_wrap "failed to add EOTS key name" (kv_update (λ d,
    if negb (kv_has d eotsBucketName) then Err ErrCorruptedEOTSDb
    else
      let keyFromDBBytes := kv_get d eotsBucketName pkBytes in
      (* string(nil) is the empty string *)
      if bool_decide (string_of_bytes (default [] keyFromDBBytes) = keyName) then
        Err ErrDuplicateEOTSKeyRecord
      else if bool_decide (is_Some keyFromDBBytes) then Err ErrDuplicateEOTSKeyName
      else d' ← saveEOTSKeyName d pkBytes keyName; Ok ((), d'))).

Definition GetEOTSKeyName (pk : bytes) : M D string :=
  go_wrap "failed to get EOTS key name" (kv_view (λ d,
    if negb (kv_has d eotsBucketName) then Err ErrCorruptedEOTSDb
    else match kv_get d eotsBucketName pk with
         | None => Err ErrEOTSKeyNameNotFound
         | Some keyNameBytes => Ok (string_of_bytes keyNameBytes)
         end)).

(** keyName -> btcPK; a later key of the bucket overwrites an earlier one
    with the same name *)
Definition GetAllEOTSKeyNames : M D (gmap string bytes) :=
  go_wrap "failed to get EOTS key names" (kv_view (λ d,
    if negb (kv_has d eotsBucketName) then Err ErrCorruptedEOTSDb
    else Ok (fold_left (λ result '(k, v), <[string_of_bytes v := k]> result)
               (kv_entries d eotsBucketName) ∅))).

(** ** Signing records *)

Definition SaveSignRecord (now : Z) (height : N) (chainID msg publicKey signature : bytes)
    : M D unit :=
  let key := getSignRecordKey chainID publicKey height in
  go_wrap "failed to save sign record" (kv_update (λ d,
    if negb (kv_has d signRecordBucketName) then Err ErrCorruptedEOTSDb
    else if bool_decide (is_Some (kv_get d signRecordBucketName key)) then
      Err ErrDuplicateSignRecord
    else
      let signRecord := {| p_Msg := msg; p_EotsSig := signature; p_Timestamp := now |} in
      marshalled ← wrap_err "failed to marshal signing record" (marshal signRecord);
      d' ← kv_put d signRecordBucketName key marshalled;
      Ok ((), d'))).

(** [None] is the code's [(nil, false, nil)]. *)
Definition GetSignRecord (eotsPk chainID : bytes) (height : N) : M D (option SigningRecord) :=
  let key := getSignRecordKey chainID eotsPk height in
  λ d,
    let '(res, d') := kv_view (λ d,
      if negb (kv_has d signRecordBucketName) then Err ErrCorruptedEOTSDb
      else match kv_get d signRecordBucketName key with
           | None => Err ErrSignRecordNotFound
           | Some signRecordBytes => unmarshal (A:=pSigningRecord) signRecordBytes
           end) d in
    match res with
    | Ok protoRes => (Ok (Some (FromProto protoRes)), d')
    | Err e =>
        if errors_Is e "ErrSignRecordNotFound" then (Ok None, d')
        else (Err (wrapf "failed to get sign record" e), d')
    | Crash w => (Crash w, d')
    end.

(** The loop of [GetSignRecordsBatch]. *)
Fixpoint GetSignRecordsBatch_loop (d : D) (eotsPk chainID : bytes) (heights : list N)
    (results : gmap N SigningRecord) : outcome (gmap N SigningRecord) :=
  match heights with
  | [] => Ok results
  | height :: rest =>
      let key := getSignRecordKey chainID eotsPk height in
      match kv_get d signRecordBucketName key with
      | None => GetSignRecordsBatch_loop d eotsPk chainID rest results
      | Some signRecordBytes =>
          protoRes ← wrap_err ("failed to unmarshal sign record for height " +:+ fmt_d height)
                       (unmarshal (A:=pSigningRecord) signRecordBytes);
          GetSignRecordsBatch_loop d eotsPk chainID rest
            (<[height := FromProto protoRes]> results)
      end
  end.

Definition GetSignRecordsBatch (eotsPk chainID : bytes) (heights : list N)
    : M D (gmap N SigningRecord) :=
  go_wrap "failed to get sign records batch" (kv_view (λ d,
    if negb (kv_has d signRecordBucketName) then Err ErrCorruptedEOTSDb
    else GetSignRecordsBatch_loop d eotsPk chainID heights ∅)).

(** The loop of [SaveSignRecordsBatch]. *)
Fixpoint SaveSignRecordsBatch_loop (timestamp : Z) (d : D) (records : list BatchSignRecord)
    : outcome D :=
  match records with
  | [] => Ok d
  | record :: rest =>
      let key := getSignRecordKey (bsr_ChainID record) (bsr_EotsPk record) (bsr_Height record) in
      if bool_decide (is_Some (kv_get d signRecordBucketName key)) then
        Err (wrapf ("duplicate sign record for height " +:+ fmt_d (bsr_Height record))
               ErrDuplicateSignRecord)
      else
        let signRecord := {| p_Msg := bsr_Msg record; p_EotsSig := bsr_Sig record;
                             p_Timestamp := timestamp |} in
        marshalled ← wrap_err ("failed to marshal sign record for height "
                                 +:+ fmt_d (bsr_Height record)) (marshal signRecord);
        d' ← wrap_err ("failed to save sign record for height " +:+ fmt_d (bsr_Height record))
               (kv_put d signRecordBucketName key marshalled);
        SaveSignRecordsBatch_loop timestamp d' rest
  end.

Definition SaveSignRecordsBatch (now : Z) (records : list BatchSignRecord) : M D unit :=
  if bool_decide (records = []) then go_ret ()
  else go_wrap "failed to save sign records batch" (kv_update (λ d,
    if negb (kv_has d signRecordBucketName) then Err ErrCorruptedEOTSDb
    else d' ← SaveSignRecordsBatch_loop now d records; Ok ((), d'))).

(** The [ForEach] callback of [DeleteSignRecordsFromHeight]: the keys to
    delete, in the order of the bucket. *)
Fixpoint keysToDelete (chainID eotsPk : bytes) (fromHeight : N) (entries : list (bytes * bytes))
    : outcome (list bytes) :=
  match entries with
  | [] => Ok []
  | (k, _) :: rest =>
      if negb (hasKeyPrefix k chainID eotsPk) then keysToDelete chainID eotsPk fromHeight rest
      else
        height ← ExtractHeightFromKey k;
        ks ← keysToDelete chainID eotsPk fromHeight rest;
        Ok (if (fromHeight <=? height)%N then k :: ks else ks)
  end.

Fixpoint deleteKeys (d : D) (keys : list bytes) : outcome D :=
  match keys with
  | [] => Ok d
  | key :: rest =>
      d' ← wrap_err "failed to delete sign record" (kv_delete d signRecordBucketName key);
      deleteKeys d' rest
  end.

(** A nil slice is [None]. *)
Definition DeleteSignRecordsFromHeight (eotsPk chainID : option bytes) (fromHeight : N)
    : M D unit :=
  match eotsPk, chainID with
  | Some eotsPk, Some chainID =>
      go_wrap "failed to delete sign records from height" (kv_update (λ d,
        if negb (kv_has d signRecordBucketName) then Err ErrCorruptedEOTSDb
        else
          ks ← wrap_err "failed to iterate over sign records"
                 (keysToDelete chainID eotsPk fromHeight (kv_entries d signRecordBucketName));
          d' ← deleteKeys d ks;
          Ok ((), d')))
  | _, _ => go_fail (EText "eotsPk and chainID must not be nil")
  end.
End store.

(** ** Lemmas *)

Create HintDb eots.

Section lemmas.
Context {D : Type} `{KvLaws D} `{BigEndianLaws} `{CodecLaws pSigningRecord} `{Crypto}.
Implicit Types d : D.

(** No signing record is lost or changed. *)
Definition records_grow d d' : Prop :=
  ∀ k b, kv_get d signRecordBucketName k = Some b → kv_get d' signRecordBucketName k = Some b.

Lemma records_grow_refl d : records_grow d d.
Proof. by intros k b. Qed.
Lemma records_grow_trans d1 d2 d3 :
  records_grow d1 d2 → records_grow d2 d3 → records_grow d1 d3.
Proof. intros H12 H23 k b Hk. by apply H23, H12. Qed.

(** The record the store holds for a height. *)
Definition has_record d (pk chainID : bytes) (h : N) (r : pSigningRecord) : Prop :=
  ∃ b, kv_get d signRecordBucketName (getSignRecordKey chainID pk h) = Some b
       ∧ unmarshal b = Ok r.

Lemma has_record_grow d d' pk c h r :
  records_grow d d' → has_record d pk c h r → has_record d' pk c h r.
Proof. intros Hg (b & Hb & Hr). exists b. auto. Qed.

Lemma has_record_det d pk c h r1 r2 :
  has_record d pk c h r1 → has_record d pk c h r2 → r1 = r2.
Proof. intros (b1 & Hb1 & Hr1) (b2 & Hb2 & Hr2). congruence. Qed.

Lemma buckets_ne : eotsBucketName ≠ signRecordBucketName.
Proof. by vm_compute. Qed.

(** *** Keys *)

Lemma key_height c pk h :
  drop (length (getSignRecordKey c pk h) - 8) (getSignRecordKey c pk h)
  = Uint64ToBigEndian h.
Proof.
  unfold getSignRecordKey. rewrite !length_app, be_length, app_assoc.
  rewrite drop_app_length'; [done|]. rewrite length_app. lia.
Qed.

Lemma key_inj c1 pk1 h1 c2 pk2 h2 :
  length pk1 = length pk2 → is_u64 h1 → is_u64 h2 →
  getSignRecordKey c1 pk1 h1 = getSignRecordKey c2 pk2 h2 →
  c1 = c2 ∧ pk1 = pk2 ∧ h1 = h2.
Proof.
  unfold getSignRecordKey. intros Hl Hh1 Hh2 E.
  pose proof (f_equal length E) as El. rewrite !length_app, !be_length in El.
  apply app_inj_1 in E as [-> E]; [|lia]. apply app_inj_1 in E as [-> E]; [|done].
  split_and!; [done|done|]. by apply be_inj.
Qed.

Lemma key_prefix c pk h : hasKeyPrefix (getSignRecordKey c pk h) c pk = true.
Proof.
  unfold hasKeyPrefix, getSignRecordKey. rewrite take_app_length, drop_app_length, take_app_length.
  rewrite !bool_decide_eq_true_2 by done. simpl.
  destruct (_ <? _)%nat eqn:E; [|done]. btests. rewrite !length_app in E. lia.
Qed.

Lemma prefix_inv k c pk :
  hasKeyPrefix k c pk = true → ∃ rest, k = c ++ pk ++ rest.
Proof.
  unfold hasKeyPrefix. intros Hp. destruct (_ <? _)%nat eqn:El; [done|].
  destruct (bool_decide _) eqn:Ec in Hp; [|done]. simpl in Hp. btests.
  exists (drop (length pk) (drop (length c) k)). rewrite <- Ec at 1. rewrite <- Hp at 1.
  by rewrite take_drop, take_drop.
Qed.

(** *** Reading *)

Lemma GetSignRecord_same pk c h d r d' : GetSignRecord pk c h d = (r, d') → d' = d.
Proof.
  unfold GetSignRecord. destruct (kv_view _ d) as [res d1] eqn:E.
  apply kv_view_same in E as ->. intros Hr. by step_matches Hr.
Qed.

Lemma GetSignRecord_some pk c h d r d' :
  GetSignRecord pk c h d = (Ok (Some r), d') →
  ∃ pr, has_record d pk c h pr ∧ r = FromProto pr.
Proof.
  unfold GetSignRecord. destruct (kv_view _ d) as [res d1] eqn:E. intros Hr.
  destruct res as [pr|e|w]; simplify_eq; [|by destruct (errors_Is _ _)].
  apply kv_view_ok in E as [E _]. destruct (negb _); [done|].
  destruct (kv_get d _ _) as [b|] eqn:Eb; [|done]. exists pr. split; [by exists b|done].
Qed.

Lemma GetSignRecord_run pk c h d pr :
  kv_begin d = None → kv_has d signRecordBucketName = true → has_record d pk c h pr →
  GetSignRecord pk c h d = (Ok (Some (FromProto pr)), d).
Proof.
  intros Hb Hh (b & Hg & Hu). unfold GetSignRecord. rewrite kv_view_run by done.
  by rewrite Hh, Hg, Hu.
Qed.

Lemma GetSignRecord_absent pk c h d :
  kv_begin d = None → kv_has d signRecordBucketName = true →
  kv_get d signRecordBucketName (getSignRecordKey c pk h) = None →
  GetSignRecord pk c h d = (Ok None, d).
Proof.
  intros Hb Hh Hg. unfold GetSignRecord. rewrite kv_view_run by done. by rewrite Hh, Hg.
Qed.

Lemma GetBatch_loop_ok d pk c hs : ∀ acc m,
  GetSignRecordsBatch_loop d pk c hs acc = Ok m →
  ∀ h, match kv_get d signRecordBucketName (getSignRecordKey c pk h) with
       | Some b => if decide (h ∈ hs) then ∃ pr, unmarshal b = Ok pr ∧ m !! h = Some (FromProto pr)
                   else m !! h = acc !! h
       | None => m !! h = acc !! h
       end.
Proof.
  induction hs as [|x hs IH]; intros acc m E h; simpl in E.
  - simplify_eq. destruct (kv_get _ _ _); [|done]. by rewrite decide_False by apply not_elem_of_nil.
  - destruct (kv_get d _ (getSignRecordKey c pk x)) as [b|] eqn:Eb.
    + destruct (unmarshal b) as [pr| |] eqn:Eu; simpl in E; [|done..].
      specialize (IH _ _ E h). destruct (decide (h = x)) as [->|Hne].
      * rewrite Eb in *. rewrite decide_True by by left. case_decide; [done|].
        exists pr. by rewrite lookup_insert_eq in IH.
      * rewrite lookup_insert_ne in IH by done. destruct (kv_get d _ (getSignRecordKey c pk h)); [|done].
        destruct (decide (h ∈ x :: hs)) as [Hin|Hin].
        -- apply elem_of_cons in Hin as [?|Hin]; [done|]. by rewrite decide_True in IH.
        -- by rewrite decide_False in IH by set_solver.
    + specialize (IH _ _ E h). destruct (kv_get d _ (getSignRecordKey c pk h)) as [b|] eqn:Eh; [|done].
      destruct (decide (h ∈ x :: hs)) as [Hin|Hin].
      * apply elem_of_cons in Hin as [->|Hin]; [congruence|]. by rewrite decide_True in IH.
      * by rewrite decide_False in IH by set_solver.
Qed.

(** *** Writing *)

Lemma SaveSignRecord_ok now h c msg pk sig d d' :
  SaveSignRecord now h c msg pk sig d = (Ok (), d') →
  kv_has d signRecordBucketName = true ∧
  kv_get d signRecordBucketName (getSignRecordKey c pk h) = None ∧
  ∃ b, marshal {| p_Msg := msg; p_EotsSig := sig; p_Timestamp := now |} = Ok b ∧
       kv_put d signRecordBucketName (getSignRecordKey c pk h) b = Ok d'.
Proof.
  unfold SaveSignRecord, go_wrap. destruct (kv_update _ d) as [[[]|e|w] d1] eqn:E; intros [= <-].
  apply kv_update_ok in E. destruct (kv_has d _); [|done]. simpl in E.
  destruct (bool_decide _) eqn:Eb; [done|]. btests. rewrite <- eq_None_not_Some in Eb.
  destruct (marshal _) as [b| |] eqn:Em; simpl in E; [|done..].
  destruct (kv_put _ _ _ _) eqn:Ep; simpl in E; simplify_eq. eauto.
Qed.

Lemma SaveSignRecord_err now h c msg pk sig d r d' :
  SaveSignRecord now h c msg pk sig d = (r, d') → is_Ok r = false → d' = d.
Proof.
  unfold SaveSignRecord, go_wrap. destruct (kv_update _ d) as [[[]|e|w] d1] eqn:E;
    intros [= <- <-] Hr; simpl in Hr; [done|..]; by eapply kv_update_not_ok.
Qed.

Lemma put_grow d k v d' :
  kv_get d signRecordBucketName k = None →
  kv_put d signRecordBucketName k v = Ok d' → records_grow d d'.
Proof.
  intros Hn Hp k' b Hk. rewrite (kv_put_get_ne _ _ _ _ _ _ _ Hp); [done|].
  right. intros ->. congruence.
Qed.

Lemma SaveSignRecord_grow now h c msg pk sig d r d' :
  SaveSignRecord now h c msg pk sig d = (r, d') → records_grow d d'.
Proof.
  intros E. destruct r as [[]|e|w].
  - apply SaveSignRecord_ok in E as (_ & Hn & b & _ & Hp). by eapply put_grow.
  - apply SaveSignRecord_err in E as ->; [|done]. apply records_grow_refl.
  - apply SaveSignRecord_err in E as ->; [|done]. apply records_grow_refl.
Qed.

Lemma SaveSignRecord_has now h c msg pk sig d d' :
  SaveSignRecord now h c msg pk sig d = (Ok (), d') →
  has_record d' pk c h {| p_Msg := msg; p_EotsSig := sig; p_Timestamp := now |}.
Proof.
  intros (_ & _ & b & Hm & Hp)%SaveSignRecord_ok. exists b.
  split; [by eapply kv_put_get_eq|by apply unmarshal_marshal].
Qed.

Definition bsr_key (r : BatchSignRecord) : bytes :=
  getSignRecordKey (bsr_ChainID r) (bsr_EotsPk r) (bsr_Height r).

Definition bsr_proto (now : Z) (r : BatchSignRecord) : pSigningRecord :=
  {| p_Msg := bsr_Msg r; p_EotsSig := bsr_Sig r; p_Timestamp := now |}.

(** What a successful run of the batch loop has written. *)
Lemma SaveBatch_loop_ok now rs : ∀ d d',
  SaveSignRecordsBatch_loop now d rs = Ok d' →
  NoDup (bsr_key <$> rs)
  ∧ Forall (λ r, kv_get d signRecordBucketName (bsr_key r) = None) rs
  ∧ Forall (λ r, has_record d' (bsr_EotsPk r) (bsr_ChainID r) (bsr_Height r) (bsr_proto now r)) rs
  ∧ (∀ b k, (b ≠ signRecordBucketName ∨ k ∉ bsr_key <$> rs) → kv_get d' b k = kv_get d b k)
  ∧ (∀ b, kv_has d' b = kv_has d b).
Proof.
  induction rs as [|r rs IH]; intros d d' E; simpl in E.
  - simplify_eq. split_and!; [constructor|constructor|constructor|done|done].
  - destruct (bool_decide _) eqn:Eb; [done|]. btests. rewrite <- eq_None_not_Some in Eb.
    destruct (marshal _) as [b| |] eqn:Em; simpl in E; [|done..].
    destruct (kv_put _ _ _ _) as [d1| |] eqn:Ep; simpl in E; [|done..].
    destruct (IH _ _ E) as (Hnd & Hnone & Hhas & Hframe & Hb).
    change (getSignRecordKey (bsr_ChainID r) (bsr_EotsPk r) (bsr_Height r))
      with (bsr_key r) in *.
    assert (bsr_key r ∉ bsr_key <$> rs) as Hni.
    { intros (r' & Er & Hr')%list_elem_of_fmap. rewrite Forall_forall in Hnone.
      specialize (Hnone _ Hr'). rewrite <- Er in Hnone.
      rewrite (kv_put_get_eq _ _ _ _ _ Ep) in Hnone. done. }
    split_and!.
    + by apply NoDup_cons.
    + constructor; [done|]. eapply Forall_impl; [exact Hnone|]. intros r' Hr'. simpl in Hr'.
      destruct (decide (bsr_key r = bsr_key r')) as [Ek|Hne].
      * rewrite <- Ek in Hr'. by rewrite (kv_put_get_eq _ _ _ _ _ Ep) in Hr'.
      * by rewrite (kv_put_get_ne _ _ _ _ _ _ _ Ep) in Hr' by by right.
    + constructor; [|done]. exists b. split; [|by apply unmarshal_marshal].
      change (kv_get d' signRecordBucketName (bsr_key r) = Some b).
      rewrite Hframe by by right. by eapply kv_put_get_eq.
    + intros b' k Hk. rewrite Hframe by set_solver.
      apply (kv_put_get_ne _ _ _ _ _ _ _ Ep). set_solver.
    + intros b'. rewrite Hb. by eapply kv_put_has.
Qed.

Lemma SaveBatch_ok now rs d d' :
  SaveSignRecordsBatch now rs d = (Ok (), d') → SaveSignRecordsBatch_loop now d rs = Ok d'.
Proof.
  unfold SaveSignRecordsBatch. case_bool_decide as Hnil.
  - unfold go_ret. intros [= <-]. by rewrite Hnil.
  - unfold go_wrap. destruct (kv_update _ d) as [[[]|e|w] d1] eqn:E; intros [= <-].
    apply kv_update_ok in E. destruct (kv_has d _); [|done]. simpl in E.
    by destruct (SaveSignRecordsBatch_loop _ _ _); simplify_eq/=.
Qed.

Lemma SaveBatch_err now rs d r d' :
  SaveSignRecordsBatch now rs d = (r, d') → is_Ok r = false → d' = d.
Proof.
  unfold SaveSignRecordsBatch. case_bool_decide; [by intros [= <- <-]|].
  unfold go_wrap. destruct (kv_update _ d) as [[[]|e|w] d1] eqn:E;
    intros [= <- <-] Hr; simpl in Hr; [done|..]; by eapply kv_update_not_ok.
Qed.

Lemma SaveBatch_grow now rs d r d' :
  SaveSignRecordsBatch now rs d = (r, d') → records_grow d d'.
Proof.
  intros E. destruct r as [[]|e|w].
  - apply SaveBatch_ok, SaveBatch_loop_ok in E as (_ & Hn & _ & Hf & _). intros k b Hk.
    rewrite Hf; [done|]. right. intros (r & -> & Hr)%list_elem_of_fmap.
    rewrite Forall_forall in Hn. specialize (Hn _ Hr). simpl in Hn. congruence.
  - apply SaveBatch_err in E as ->; [|done]. apply records_grow_refl.
  - apply SaveBatch_err in E as ->; [|done]. apply records_grow_refl.
Qed.

(** Key names live in another bucket. *)
Lemma AddEOTSKeyName_grow pk name d r d' :
  AddEOTSKeyName pk name d = (r, d') → records_grow d d'.
Proof.
  unfold AddEOTSKeyName, go_wrap. destruct (kv_update _ d) as [res d1] eqn:E. intros [= <- <-].
  destruct res as [[]|e|w]; [|apply kv_update_not_ok in E as ->; [apply records_grow_refl|done]..].
  apply kv_update_ok in E. repeat (case_match; [done|]). unfold saveEOTSKeyName in E.
  case_match; [done|]. destruct (kv_put _ _ _ _) as [d2| |] eqn:Ep; simplify_eq/=.
  intros k b Hk. rewrite (kv_put_get_ne _ _ _ _ _ _ _ Ep); [done|]. left. apply buckets_ne.
Qed.

Lemma GetEOTSKeyName_same pk d r d' : GetEOTSKeyName pk d = (r, d') → d' = d.
Proof.
  unfold GetEOTSKeyName, go_wrap. destruct (kv_view _ d) as [res d1] eqn:E.
  apply kv_view_same in E as ->. by intros [= _ <-].
Qed.
End lemmas.

#[export] Hint Resolve records_grow_refl has_record_grow SaveSignRecord_grow
  SaveBatch_grow AddEOTSKeyName_grow : eots.

(** *** Deletion *)

Section delete_lemmas.
Context {D : Type} `{KvLaws D} `{BigEndianLaws} `{CodecLaws pSigningRecord} `{Crypto}.
Implicit Types d : D.

Lemma keysToDelete_ok c pk from es : ∀ ks,
  keysToDelete c pk from es = Ok ks →
  ∀ k, k ∈ ks ↔ k ∈ es.*1 ∧ hasKeyPrefix k c pk = true
                ∧ ∃ h, ExtractHeightFromKey k = Ok h ∧ (from ≤ h)%N.
Proof.
  induction es as [|[k0 v0] es IH]; intros ks E k; simpl in E.
  - simplify_eq. simpl. set_solver.
  - simpl. destruct (hasKeyPrefix k0 c pk) eqn:Ep; simpl in E.
    + destruct (ExtractHeightFromKey k0) as [h| |] eqn:Eh; simpl in E; [|done..].
      destruct (keysToDelete c pk from es) as [ks'| |] eqn:Ek; simpl in E; [|done..].
      simplify_eq. specialize (IH _ eq_refl k). rewrite elem_of_cons.
      destruct (from <=? h)%N eqn:Ef; btests; [rewrite elem_of_cons|]; rewrite IH;
        (split; [naive_solver|]); intros ([->|Hin] & Hp & h' & Hh' & Hf); simplify_eq;
        first [by left | exfalso; rewrite Eh in Hh'; simplify_eq; lia | naive_solver].
    + rewrite (IH _ E). split; [set_solver|]. intros ([->|]%elem_of_cons & Hp & ?); [congruence|done].
Qed.

Lemma deleteKeys_ok ks : ∀ d d',
  deleteKeys d ks = Ok d' →
  ∀ b k, kv_get d' b k
    = if decide (b = signRecordBucketName ∧ k ∈ ks) then None else kv_get d b k.
Proof.
  induction ks as [|k0 ks IH]; intros d d' E b k; simpl in E.
  - simplify_eq. rewrite decide_False; [done|]. intros [_ Hk]. by apply elem_of_nil in Hk.
  - destruct (kv_delete _ _ _) as [d1| |] eqn:Ed; simpl in E; [|done..].
    rewrite (IH _ _ E b k), (kv_delete_get _ _ _ _ _ _ Ed).
    repeat case_decide; set_solver.
Qed.

Lemma Delete_ok pk c from d d' :
  DeleteSignRecordsFromHeight (Some pk) (Some c) from d = (Ok (), d') →
  ∃ ks, keysToDelete c pk from (kv_entries d signRecordBucketName) = Ok ks
        ∧ deleteKeys d ks = Ok d'.
Proof.
  unfold DeleteSignRecordsFromHeight, go_wrap.
  destruct (kv_update _ d) as [[[]|e|w] d1] eqn:E; intros [= <-].
  apply kv_update_ok in E. destruct (kv_has d _); [|done]. simpl in E.
  destruct (keysToDelete _ _ _ _) as [ks| |]; simpl in E; [|done..].
  destruct (deleteKeys d ks) eqn:Ed; simpl in E; simplify_eq. eauto.
Qed.

Lemma extract_key c pk h :
  is_u64 h → ExtractHeightFromKey (getSignRecordKey c pk h) = Ok h.
Proof.
  intros Hh. unfold ExtractHeightFromKey. destruct (_ <? _)%nat eqn:El.
  - btests. unfold getSignRecordKey in El. rewrite !length_app, be_length in El. lia.
  - rewrite key_height. by rewrite be_roundtrip.
Qed.

(** The exact effect on the record of any key. *)
Lemma Delete_get pk c from d d' k h :
  DeleteSignRecordsFromHeight (Some pk) (Some c) from d = (Ok (), d') →
  ExtractHeightFromKey k = Ok h →
  kv_get d' signRecordBucketName k
  = if hasKeyPrefix k c pk && (from <=? h)%N then None
    else kv_get d signRecordBucketName k.
Proof.
  intros (ks & Hks & Hd)%Delete_ok Hh. rewrite (deleteKeys_ok _ _ _ Hd).
  assert (k ∈ ks ↔ is_Some (kv_get d signRecordBucketName k)
                   ∧ hasKeyPrefix k c pk = true ∧ (from ≤ h)%N) as Hin.
  { rewrite (keysToDelete_ok _ _ _ _ _ Hks), list_elem_of_fmap. rewrite Hh. split.
    - intros (([k1 v1] & -> & Hin) & Hp & h' & [= <-] & ?). simpl in *.
      apply kv_entries_get in Hin. eauto.
    - intros ([v Hv] & Hp & Hle). split; [|eauto]. exists (k, v). by rewrite kv_entries_get. }
  destruct (hasKeyPrefix k c pk) eqn:Ep, (from <=? h)%N eqn:Ef; simpl; btests;
    destruct (decide (_ ∧ _)) as [[_ Hk]|Hk]; try done.
  - destruct (kv_get d _ k) eqn:Eg; [|done]. destruct Hk. split; [done|].
    apply Hin. eauto.
  - apply Hin in Hk. lia.
  - apply Hin in Hk as (_ & ? & _). done.
  - apply Hin in Hk. lia.
Qed.

Lemma prefix_other c pk c' pk' h :
  length c' = length c → length pk' = length pk →
  hasKeyPrefix (getSignRecordKey c' pk' h) c pk = true → c' = c ∧ pk' = pk.
Proof.
  intros Hc Hp (rest & E)%prefix_inv. unfold getSignRecordKey in E.
  apply app_inj_1 in E as [-> E]; [|done]. by apply app_inj_1 in E as [-> _].
Qed.
End delete_lemmas.

(** ** Properties *)

Section properties.
Context {D : Type} `{KvLaws D} `{BigEndianLaws} `{CodecLaws pSigningRecord} `{Crypto}.
Implicit Types d : D.

(** Two signing records share a database key only when they are for the
    same chain, the same EOTS key and the same height (EOTS public keys have
    one length), so that a record never answers for another height; the
    height stored in a key is read back unchanged. *)
Theorem getSignRecordKey_faithful c1 pk1 h1 c2 pk2 h2
    (Hlen : length pk1 = length pk2) (Hh1 : is_u64 h1) (Hh2 : is_u64 h2) :
  (getSignRecordKey c1 pk1 h1 = getSignRecordKey c2 pk2 h2 ↔ c1 = c2 ∧ pk1 = pk2 ∧ h1 = h2)
  ∧ ExtractHeightFromKey (getSignRecordKey c1 pk1 h1) = Ok h1
  ∧ hasKeyPrefix (getSignRecordKey c1 pk1 h1) c1 pk1 = true.
Proof.
  split_and!; [split|by apply extract_key|apply key_prefix].
  - by apply key_inj.
  - by intros (-> & -> & ->).
Qed.

(** A signing record that was saved is read back with its message and
    signature; saving it changes no other record and no key name. *)
Theorem SaveSignRecord_roundtrip now h c msg pk sig d d'
    (Hsave : SaveSignRecord now h c msg pk sig d = (Ok (), d')) (Hopen : kv_begin d' = None) :
  GetSignRecord pk c h d'
    = (Ok (Some {| sr_Msg := msg; sr_Signature := sig; sr_Timestamp := now |}), d')
  ∧ ∀ b k, b ≠ signRecordBucketName ∨ k ≠ getSignRecordKey c pk h → kv_get d' b k = kv_get d b k.
Proof.
  pose proof (SaveSignRecord_ok _ _ _ _ _ _ _ _ Hsave) as (Hh & _ & b & Hm & Hp). split.
  - apply (GetSignRecord_run _ _ _ _ (mkPSigningRecord msg sig now) Hopen); [by rewrite (kv_put_has _ _ _ _ _ _ Hp)|].
    by eapply SaveSignRecord_has.
  - intros b' k Hne. apply (kv_put_get_ne _ _ _ _ _ _ _ Hp). naive_solver.
Qed.

(** A height that already has a signing record is never overwritten:
    saving again fails with [ErrDuplicateSignRecord] and changes nothing. *)
Theorem SaveSignRecord_duplicate now h c msg pk sig d r d0
    (Hrec : GetSignRecord pk c h d = (Ok (Some r), d0)) :
  ∃ e, SaveSignRecord now h c msg pk sig d = (Err e, d)
       ∧ errors_Is e "ErrDuplicateSignRecord" = true.
Proof.
  unfold GetSignRecord, kv_view in Hrec. unfold SaveSignRecord, go_wrap, kv_update.
  destruct (kv_begin d); [by step_matches Hrec|].
  destruct (kv_has d _); simpl in *; [|done].
  destruct (kv_get d _ _); simpl in *; [|done]. by eexists.
Qed.

(** A batch of signing records is saved atomically: either every record
    of the batch is stored, none of them was there before and nothing else
    changed, or the call fails and the store is unchanged. *)
Theorem SaveSignRecordsBatch_atomic now rs d r d'
    (Hrun : SaveSignRecordsBatch now rs d = (r, d')) :
  (r = Ok ()
   ∧ Forall (λ x, kv_get d signRecordBucketName (bsr_key x) = None
        ∧ has_record d' (bsr_EotsPk x) (bsr_ChainID x) (bsr_Height x) (bsr_proto now x)) rs
   ∧ ∀ b k, b ≠ signRecordBucketName ∨ k ∉ bsr_key <$> rs → kv_get d' b k = kv_get d b k)
  ∨ (is_Ok r = false ∧ d' = d).
Proof.
  destruct r as [[]|e|w].
  - left. apply SaveBatch_ok, SaveBatch_loop_ok in Hrun as (_ & Hn & Hh & Hf & _).
    split_and!; [done| |done]. apply Forall_and. by split.
  - right. split; [done|]. by eapply SaveBatch_err.
  - right. split; [done|]. by eapply SaveBatch_err.
Qed.

(** The batched lookup returns, for each requested height, exactly what
    the single lookup returns for it, and nothing for other heights. *)
Theorem GetSignRecordsBatch_agrees pk c hs d m d' h
    (Hrun : GetSignRecordsBatch pk c hs d = (Ok m, d')) :
  d' = d ∧ (h ∈ hs → GetSignRecord pk c h d = (Ok (m !! h), d)) ∧ (h ∉ hs → m !! h = None).
Proof.
  unfold GetSignRecordsBatch, go_wrap in Hrun.
  destruct (kv_view _ d) as [res d1] eqn:E. pose proof (kv_view_same _ _ _ _ E) as Ed. subst d1.
  destruct res as [m'| |]; [|done..]. simpl in Hrun. injection Hrun as -> <-.
  unfold GetSignRecord, kv_view in *.
  destruct (kv_begin d); [done|]. destruct (kv_has d _); simpl in *; [|done].
  injection E as E. pose proof (GetBatch_loop_ok _ _ _ _ _ _ E h) as Hh.
  split; [done|]. split; intros Hin; destruct (kv_get d _ _) as [b|].
  - rewrite decide_True in Hh by done. destruct Hh as (pr & Hu & ->). by rewrite Hu.
  - simpl. by rewrite Hh.
  - by rewrite decide_False in Hh.
  - done.
Qed.

(** Deleting from a height removes exactly the records of that chain and
    EOTS key at or above the height; lower heights, and the records of other
    keys or chains of the same lengths, are kept. *)
Theorem DeleteSignRecordsFromHeight_exact pk c from d d' pk' c' h
    (Hdel : DeleteSignRecordsFromHeight (Some pk) (Some c) from d = (Ok (), d'))
    (Hc : length c' = length c) (Hpk : length pk' = length pk) (Hh : is_u64 h) :
  kv_get d' signRecordBucketName (getSignRecordKey c' pk' h)
  = if decide (c' = c ∧ pk' = pk ∧ (from ≤ h)%N) then None
    else kv_get d signRecordBucketName (getSignRecordKey c' pk' h).
Proof.
  rewrite (Delete_get _ _ _ _ _ _ _ Hdel (extract_key _ _ _ Hh)).
  destruct (hasKeyPrefix _ c pk) eqn:Ep; simpl.
  - apply prefix_other in Ep as [-> ->]; [|done..].
    destruct (from <=? h)%N eqn:Ef; btests; [by rewrite decide_True|].
    rewrite decide_False; [done|]. lia.
  - rewrite decide_False; [done|]. intros (-> & -> & _). by rewrite key_prefix in Ep.
Qed.
End properties.

(** ** Concrete store, for the witnesses *)

#[export] Instance pSigningRecord_eq_dec : EqDecision pSigningRecord.
Proof. solve_decision. Defined.
#[export] Program Instance pSigningRecord_countable : Countable pSigningRecord :=
  inj_countable' (λ r, (p_Msg r, p_EotsSig r, p_Timestamp r))
    (λ '(m, s, t), {| p_Msg := m; p_EotsSig := s; p_Timestamp := t |}) _.
Next Obligation. by intros []. Qed.
Module EotsToy.
Export ToyInstances.
#[export] Instance pSigningRecord_codec : Codec pSigningRecord := toy_codec.
#[export] Instance pSigningRecord_codec_laws : CodecLaws pSigningRecord := toy_codec_laws.

(** a fresh store *)
Definition toy_store : MapDb.db := (initBuckets MapDb.empty).2.
End EotsToy.

(** ** Witnesses *)

Module EotsStoreWitness.
Import EotsToy.

Definition w_c : bytes := bytes_of_string "bbn-1".
Definition w_pk : bytes := toy_pk true.
Definition w_saved : MapDb.db :=
  (SaveSignRecord 7 100 w_c [Byte.x01] w_pk [Byte.x05] toy_store).2.
Definition w_rec : SigningRecord := mkSigningRecord [Byte.x01] [Byte.x05] 7.
Definition w_found : gmap N SigningRecord := {[100%N := w_rec]}.
Definition w_rs : list BatchSignRecord :=
  [ {| bsr_Height := 101; bsr_ChainID := w_c; bsr_Msg := [Byte.x02];
       bsr_EotsPk := w_pk; bsr_Sig := [Byte.x06] |} ].

Lemma getSignRecordKey_faithful_witness :
  is_u64 100%N ∧
  (getSignRecordKey w_c w_pk 100 = getSignRecordKey w_c w_pk 100
     ↔ w_c = w_c ∧ w_pk = w_pk ∧ 100%N = 100%N).
Proof.
  split; [done|].
  by apply (getSignRecordKey_faithful w_c w_pk 100 w_c w_pk 100).
Defined.

Lemma SaveSignRecord_roundtrip_witness :
  SaveSignRecord 7 100 w_c [Byte.x01] w_pk [Byte.x05] toy_store = (Ok (), w_saved)
  ∧ GetSignRecord w_pk w_c 100 w_saved
    = (Ok (Some {| sr_Msg := [Byte.x01]; sr_Signature := [Byte.x05]; sr_Timestamp := 7 |}), w_saved).
Proof.
  split; [vm_eq|].
  apply (SaveSignRecord_roundtrip 7 100 w_c [Byte.x01] w_pk [Byte.x05] toy_store w_saved);
    vm_eq.
Defined.

Lemma SaveSignRecord_duplicate_witness :
  ∃ e, SaveSignRecord 8 100 w_c [Byte.x09] w_pk [Byte.x0a] w_saved = (Err e, w_saved)
       ∧ errors_Is e "ErrDuplicateSignRecord" = true.
Proof.
  apply (SaveSignRecord_duplicate 8 100 w_c [Byte.x09] w_pk [Byte.x0a] w_saved w_rec w_saved).
  vm_eq.
Defined.

Lemma SaveSignRecordsBatch_atomic_witness :
  let d' := (SaveSignRecordsBatch 8 w_rs w_saved).2 in
  has_record d' w_pk w_c 101 (mkPSigningRecord [Byte.x02] [Byte.x06] 8).
Proof.
  intros d'.
  destruct (SaveSignRecordsBatch_atomic 8 w_rs w_saved (Ok ()) d') as [(_ & Hall & _)|[Hbad _]];
    [vm_eq| |done].
  by apply Forall_inv in Hall as [_ Hrec].
Defined.

Lemma GetSignRecordsBatch_agrees_witness :
  GetSignRecordsBatch w_pk w_c [100; 101]%N w_saved = (Ok w_found, w_saved)
  ∧ GetSignRecord w_pk w_c 100 w_saved = (Ok (w_found !! 100%N), w_saved).
Proof.
  split; [vm_eq|].
  apply (GetSignRecordsBatch_agrees w_pk w_c [100; 101]%N w_saved w_found w_saved 100); [vm_eq|].
  by left.
Defined.

Lemma DeleteSignRecordsFromHeight_exact_witness :
  let d' := (DeleteSignRecordsFromHeight (Some w_pk) (Some w_c) 100 w_saved).2 in
  kv_get d' signRecordBucketName (getSignRecordKey w_c w_pk 100) = None.
Proof.
  intros d'.
  rewrite (DeleteSignRecordsFromHeight_exact w_pk w_c 100 w_saved d' w_pk w_c 100);
    [by rewrite decide_True by (split_and!; [done|done|lia])|vm_eq|done|done|done].
Defined.
End EotsStoreWitness.
