(* ===== verification/RandGen.v ===== *)
(** * Deterministic EOTS randomness (src/eotsmanager/randgenerator)

    The secret nonce of a height is sampled from HMAC(key, height || chainID ||
    iteration) by rejection: the loop draws again while the digest is zero or
    not below the group order. *)

From Stdlib Require Import NArith Lia.
From stdpp Require Import base gmap strings list.
From S2P Require Import Prelude Kvdb External Toy.

Section randgen.
Context `{BigEndian} `{Crypto}.

(** the HMAC input of one iteration *)
Definition rand_input (chainID : bytes) (height iteration : N) : bytes :=
  (Uint64ToBigEndian height ++ chainID) ++ Uint64ToBigEndian iteration.

(** one iteration: the scalar when it is acceptable *)
Definition rand_sample (key chainID : bytes) (height iteration : N) : option ModNScalar :=
  let randPre := hmac_sha256 key (rand_input chainID height iteration) in
  let '(randScalar, overflow) := ModN_SetByteSlice randPre in
  if negb overflow && negb (ModN_IsZero randScalar) then Some randScalar else None.

(** The [for] loop, [iteration] being a uint64.  [None]: the fuel ran out
    before a sample was accepted. *)
Fixpoint GenerateRandomness_loop (fuel : nat) (key chainID : bytes) (height iteration : N)
    : option ModNScalar :=
  match fuel with
  | O => None
  | S fuel' =>
      match rand_sample key chainID height iteration with
      | Some randScalar => Some randScalar
      | None => GenerateRandomness_loop fuel' key chainID height (u64_add iteration 1)
      end
  end.

Definition GenerateRandomness (fuel : nat) (key chainID : bytes) (height : N)
    : option (ModNScalar * FieldVal) :=
  match GenerateRandomness_loop fuel key chainID height 0 with
  | Some privRand => Some (privRand, PubRandOf privRand)
  | None => None
  end.

Lemma loop_first key c h fuel : ∀ i n,
  (∀ j, (j < n)%nat → rand_sample key c h (i + N.of_nat j) = None) →
  (n < fuel)%nat → (i + N.of_nat n < two64)%N →
  ∀ s, rand_sample key c h (i + N.of_nat n) = Some s →
  GenerateRandomness_loop fuel key c h i = Some s.
Proof.
  induction fuel as [|fuel IH]; intros i n Hnone Hlt Hr s Hs; [lia|]. simpl.
  destruct n as [|n].
  - rewrite N.add_0_r in Hs. by rewrite Hs.
  - specialize (Hnone 0%nat) as H0'. rewrite N.add_0_r in H0'. rewrite H0' by lia.
    rewrite u64_add_small by (unfold two64 in *; lia). apply (IH _ n).
    + intros j Hj. replace (i + 1 + N.of_nat j)%N with (i + N.of_nat (S j))%N by lia.
      apply Hnone. lia.
    + lia.
    + lia.
    + by replace (i + 1 + N.of_nat n)%N with (i + N.of_nat (S n))%N by lia.
Qed.

Lemma loop_sound key c h fuel : ∀ i s,
  GenerateRandomness_loop fuel key c h i = Some s →
  ∃ k, rand_sample key c h k = Some s.
Proof.
  induction fuel as [|fuel IH]; intros i s; simpl; [done|].
  destruct (rand_sample _ _ _ i) eqn:E; [|by apply IH]. intros [= <-]. eauto.
Qed.

Lemma loop_mono key c h fuel : ∀ fuel' i s,
  (fuel ≤ fuel')%nat →
  GenerateRandomness_loop fuel key c h i = Some s →
  GenerateRandomness_loop fuel' key c h i = Some s.
Proof.
  induction fuel as [|fuel IH]; intros [|fuel'] i s Hle; simpl; [done|done|lia|].
  destruct (rand_sample _ _ _ i); [done|]. apply IH. lia.
Qed.
End randgen.

(** ** Properties *)

Section properties.
Context `{BigEndianLaws} `{Crypto}.

(** The rejection-sampling loop terminates as soon as one iteration is
    acceptable: if iteration [n] is the first one whose digest is a non-zero
    scalar below the group order, any fuel above [n] returns exactly that
    scalar with its public part, so the nonce is a function of the key, the
    chain and the height only. *)
Theorem GenerateRandomness_first key c h (n fuel : nat) s
    (Hrej : ∀ j : nat, (j < n)%nat → rand_sample key c h (N.of_nat j) = None)
    (Hacc : rand_sample key c h (N.of_nat n) = Some s)
    (Hn : (N.of_nat n < two64)%N) (Hfuel : (n < fuel)%nat) :
  GenerateRandomness fuel key c h = Some (s, PubRandOf s).
Proof.
  unfold GenerateRandomness. by rewrite (loop_first key c h fuel 0 n) with (s := s).
Qed.

(** The HMAC inputs of two draws agree only for the same height, chain
    and iteration, so heights never share a nonce by construction of the
    input; and every nonce that is returned is non-zero and was not reduced
    modulo the group order. *)
Theorem randomness_domain_separated c1 h1 i1 c2 h2 i2
    (Hh1 : is_u64 h1) (Hh2 : is_u64 h2) (Hi1 : is_u64 i1) (Hi2 : is_u64 i2) :
  (rand_input c1 h1 i1 = rand_input c2 h2 i2 → c1 = c2 ∧ h1 = h2 ∧ i1 = i2)
  ∧ ∀ fuel key s p, GenerateRandomness fuel key c1 h1 = Some (s, p) →
      ModN_IsZero s = false
      ∧ ∃ i, ModN_SetByteSlice (hmac_sha256 key (rand_input c1 h1 i)) = (s, false).
Proof.
  split.
  - unfold rand_input. intros E.
    pose proof (f_equal length E) as El. rewrite !length_app, !be_length in El.
    apply app_inj_2 in E as [E Ei]; [|by rewrite !be_length].
    apply app_inj_1 in E as [Eh ->]; [|by rewrite !be_length].
    split_and!; [done|by apply be_inj..].
  - intros fuel key s p. unfold GenerateRandomness.
    destruct (GenerateRandomness_loop _ _ _ _ _) as [s'|] eqn:E; [|done]. intros [= -> <-].
    apply loop_sound in E as [k Hk]. unfold rand_sample in Hk.
    destruct (ModN_SetByteSlice _) as [s' o] eqn:Es.
    destruct (negb o && negb (ModN_IsZero s')) eqn:Eb; [|done]. simplify_eq. btests.
    destruct o; [done|]. eauto.
Qed.
End properties.

(** ** Witnesses *)

Module RandGenWitness.
Import ToyInstances.

Definition w_s : ModNScalar :=
  (ModN_SetByteSlice (hmac_sha256 [Byte.x02] (rand_input [Byte.x01] 7 0))).1.

Lemma GenerateRandomness_first_witness :
  GenerateRandomness 3 [Byte.x02] [Byte.x01] 7 = Some (w_s, PubRandOf w_s).
Proof.
  apply (GenerateRandomness_first [Byte.x02] [Byte.x01] 7 0 3 w_s).
  - intros j Hj. lia.
  - vm_eq.
  - done.
  - lia.
Defined.

Lemma randomness_domain_separated_witness :
  rand_input [Byte.x01] 7 0 ≠ rand_input [Byte.x01] 8 0.
Proof.
  intros E. apply (randomness_domain_separated [Byte.x01] 7 0 [Byte.x01] 8 0) in E; try done.
  by destruct E as (_ & ? & _).
Defined.
End RandGenWitness.
