(* ===== verification/EotsApi.v ===== *)
(** * The EOTS manager interface (src/eotsmanager/eotsmanager.go)

    The requests and responses of the signing daemon, its interface as a
    class, and the slashing-protection contract the finality provider relies
    on.  [LocalManager.v] implements it in process, [EotsRpc.v] over gRPC. *)

From stdpp Require Import base gmap strings list.
From S2P Require Import Prelude External.

(** ** Options of [CreateRandomnessPairList] *)

Record RandomnessConfig := { Interval : option N }.
Definition RandomnessOption : Type := RandomnessConfig → RandomnessConfig.
Definition WithInterval (interval : N) : RandomnessOption := λ _, {| Interval := Some interval |}.

(** [cfg := &RandomnessConfig{}; for _, opt := range options { opt(cfg) }] *)
Definition apply_options (options : list RandomnessOption) : RandomnessConfig :=
  fold_left (λ cfg opt, opt cfg) options {| Interval := None |}.

(** ** Requests *)

Record SignDataRequest := mkSignDataRequest { sdr_Msg : bytes; sdr_Height : N }.
Record SignBatchEOTSRequest := mkSignBatchEOTSRequest {
  sbr_UID : bytes;
  sbr_ChainID : bytes;
  sbr_SignRequest : list SignDataRequest;
}.
Record SignDataResponse `{Crypto} := mkSignDataResponse {
  resp_Signature : ModNScalar;
  resp_Height : N;
}.

(** ** The interface *)

Class EOTSManager `{Crypto} (E : Type) := {
  em_CreateRandomnessPairList :
    bytes → bytes → N → N → list RandomnessOption → M E (list FieldVal);
  em_SignEOTS : bytes → bytes → bytes → N → M E ModNScalar;
  em_UnsafeSignEOTS : bytes → bytes → bytes → N → M E ModNScalar;
  em_SignSchnorrSig : bytes → bytes → M E SchnorrSignature;
  em_Unlock : bytes → string → M E unit;
  em_SignBatchEOTS : SignBatchEOTSRequest → M E (list SignDataResponse);
}.

(** ** The slashing-protection contract

    [em_signed e pk chain h msg s]: the manager has bound height [h] of the
    chain to message [msg] and signature [s] for key [pk]. *)
Class EOTSProtection `{Crypto} (E : Type) `{!EOTSManager E} := {
  em_signed : E → bytes → bytes → N → bytes → ModNScalar → Prop;
  em_signed_functional e pk c h m1 s1 m2 s2 :
    em_signed e pk c h m1 s1 → em_signed e pk c h m2 s2 → m1 = m2 ∧ s1 = s2;
  em_SignEOTS_signed pk c m h e s e' :
    em_SignEOTS pk c m h e = (Ok s, e') → em_signed e' pk c h m s;
  em_SignBatchEOTS_signed req e rs e' :
    em_SignBatchEOTS req e = (Ok rs, e') →
    Forall (λ r, ∃ m, mkSignDataRequest m (resp_Height r) ∈ sbr_SignRequest req
              ∧ em_signed e' (sbr_UID req) (sbr_ChainID req) (resp_Height r) m (resp_Signature r)) rs;
  em_SignBatchEOTS_nodup req e rs e' :
    em_SignBatchEOTS req e = (Ok rs, e') → NoDup (sdr_Height <$> sbr_SignRequest req);
  em_SignEOTS_grow pk c m h e r e' :
    em_SignEOTS pk c m h e = (r, e') →
    ∀ pk' c' h' m' s', em_signed e pk' c' h' m' s' → em_signed e' pk' c' h' m' s';
  em_SignBatchEOTS_grow req e r e' :
    em_SignBatchEOTS req e = (r, e') →
    ∀ pk' c' h' m' s', em_signed e pk' c' h' m' s' → em_signed e' pk' c' h' m' s';
  em_CreateRandomnessPairList_grow pk c h n o e r e' :
    em_CreateRandomnessPairList pk c h n o e = (r, e') →
    ∀ pk' c' h' m' s', em_signed e pk' c' h' m' s' → em_signed e' pk' c' h' m' s';
  em_SignSchnorrSig_grow pk m e r e' :
    em_SignSchnorrSig pk m e = (r, e') →
    ∀ pk' c' h' m' s', em_signed e pk' c' h' m' s' → em_signed e' pk' c' h' m' s';
}.

(** ** The randomness contract of the EOTS manager

    [em_pubrand e pk chain h f]: [f] is the public randomness of height [h]. *)
Class EOTSRandomness `{Crypto} (E : Type) `{!EOTSManager E} := {
  em_pubrand : E → bytes → bytes → N → FieldVal → Prop;
  em_CreateRandomnessPairList_at pk c start n e prs e' :
    em_CreateRandomnessPairList pk c start n [] e = (Ok prs, e') →
    (start + n < two64)%N →
    length prs = N.to_nat n ∧
    ∀ i f, prs !! i = Some f → em_pubrand e pk c (start + N.of_nat i) f;
}.
