(* ===== verification/LocalManager.v ===== *)
(** * The local EOTS manager (src/eotsmanager/localmanager.go)

    The signing daemon: keys in a cosmos keyring, signing records in the
    EOTS store, and unlocked keys in memory.  The handlers that sign take the
    mutex of the manager for their whole body, so a history of the daemon is a
    sequence of handlers. *)

From Stdlib Require Import NArith Lia.
From stdpp Require Import base gmap strings list.
From S2P Require Import Prelude Kvdb External Toy Util EotsStore RandGen EotsApi.

(** ** Data *)

Definition secp256k1Type : string := "secp256k1".
Definition MnemonicEntropySize : N := 256.

(** eotsmanager/types/errors.go *)
Definition ErrFinalityProviderAlreadyExisted : error :=
  EVar "ErrFinalityProviderAlreadyExisted" "the finality provider has already existed".
Definition ErrDoubleSign : error := EVar "ErrDoubleSign" "double sign".
Definition ErrDuplicateHeight : error :=
  EVar "ErrDuplicateHeight" "duplicate height in batch request".

Record KeyRecord_t `{Crypto} := mkKeyRecord { kr_Name : string; kr_PrivKey : PrivateKey }.

(** cosmos/go-bip39 *)
Class Bip39 := {
  bip39_NewEntropy : N → outcome bytes;
  bip39_NewMnemonic : bytes → outcome string;
}.

(** How many draws of the randomness loop are followed before the model gives
    up; see [GenerateRandomness_first]. *)
Class RandFuel := rand_fuel : nat.

(** [LocalEOTSManager]; [lm_now] is what the clock shows during the call. *)
Record LocalEOTSManager (K D : Type) `{Crypto} := mkLM {
  lm_kr : K;
  lm_es : D;
  lm_input : string;
  lm_privateKeys : gmap string (option PrivateKey);
  lm_now : Z;
}.
Arguments mkLM {K D _}.
Arguments lm_kr {K D _}.
Arguments lm_es {K D _}.
Arguments lm_input {K D _}.
Arguments lm_privateKeys {K D _}.
Arguments lm_now {K D _}.

Section manager.
Context {K D : Type} `{Keyring K} `{KvBackend D} `{BigEndian} `{Codec pSigningRecord}
  `{Crypto} `{Bip39} `{RandFuel}.
Local Abbreviation lm := (LocalEOTSManager K D).

Definition set_es (l : lm) (d : D) : lm :=
  mkLM (lm_kr l) d (lm_input l) (lm_privateKeys l) (lm_now l).
Definition set_kr (l : lm) (k : K) (input : string) : lm :=
  mkLM k (lm_es l) input (lm_privateKeys l) (lm_now l).
Definition set_keys (l : lm) (m : gmap string (option PrivateKey)) : lm :=
  mkLM (lm_kr l) (lm_es l) (lm_input l) m (lm_now l).
Definition set_now (l : lm) (now : Z) : lm :=
  mkLM (lm_kr l) (lm_es l) (lm_input l) (lm_privateKeys l) now.

(** A call of the store, [time.Now()] and the calls of the keyring. *)
Definition on_es {A} (m : M D A) : M lm A := λ l,
  let '(r, d) := m (lm_es l) in (r, set_es l d).
Definition time_Now : M lm Z := λ l, (Ok (lm_now l), l).
Definition input_Reset (s : string) : M lm unit := λ l, (Ok (), set_kr l (lm_kr l) s).
Definition kr_KeyM (name : string) : M lm krRecord := λ l,
  let '(r, i) := kr_Key (lm_kr l) (lm_input l) name in (r, set_kr l (lm_kr l) i).
Definition kr_NewAccountM (name mnemonic : string) : M lm unit := λ l,
  let '(r, (k, i)) := kr_NewAccount (lm_kr l) (lm_input l) name mnemonic in (r, set_kr l k i).

(** ** Keys *)

Definition NewMnemonic : outcome string :=
  entropySeed ← wrap_err "failed to generate entropy" (bip39_NewEntropy MnemonicEntropySize);
  wrap_err "failed to generate mnemonic" (bip39_NewMnemonic entropySeed).

Definition keyExists (name : string) : M lm bool :=
  r ← go_try (kr_KeyM name);
  mret (match r with inr _ => true | inl _ => false end).

(** The function of that name; [getKey] is the lookup of the keyring it is given. *)
Definition LoadBIP340PubKeyFromKeyName_kr {S} (getKey : string → M S krRecord) (keyName : string)
    : M S bytes :=
  info ← go_wrap ("failed to load keyring record for key " +:+ keyName) (getKey keyName);
  pubKey ← go_lift (wrap_err "failed to get public key from keyring info" (rec_PubKey info));
  match pubKey with
  | PubSecp256k1 key =>
      pk ← go_lift (wrap_err "failed to parse public key" (btcec_ParsePubKey key));
      mret (BIP340FromBTCPK pk)
  | PubOther => go_fail (EText "unsupported key type in keyring")
  end.

Definition LoadBIP340PubKeyFromKeyName (keyName : string) : M lm bytes :=
  go_wrap ("failed to load BIP340 public key from key name " +:+ keyName)
    (LoadBIP340PubKeyFromKeyName_kr kr_KeyM keyName).

Definition SaveEOTSKeyName (pk : PublicKey) (keyName : string) : M lm unit :=
  go_wrap "failed to save EOTS key name" (on_es (AddEOTSKeyName pk keyName)).

Definition newline : string := String (Ascii.ascii_of_N 10) "".

Definition CreateKeyWithMnemonic (name mnemonic passphrase : string) : M lm bytes :=
  l ← go_get;
  if bool_decide (kr_Backend (lm_kr l) = BackendFile) && (String.length passphrase <? 8)%nat then
    go_fail (EText "passphrase should be at least 8 characters")
  else
    ex ← keyExists name;
    if (ex : bool) then go_fail ErrFinalityProviderAlreadyExisted
    else
      l1 ← go_get;
      _ ← go_lift (wrap_err "failed to create signing algorithm"
                     (kr_SigningAlgo (lm_kr l1) secp256k1Type));
      _ ← input_Reset (passphrase +:+ newline +:+ passphrase);
      _ ← go_wrap "failed to create new account" (kr_NewAccountM name mnemonic);
      eotsPk ← LoadBIP340PubKeyFromKeyName name;
      btcPk ← go_lift (MustToBTCPK eotsPk);
      _ ← SaveEOTSKeyName btcPk name;
      mret eotsPk.

Definition CreateKey (name passphrase : string) : M lm bytes :=
  mnemonic ← go_lift NewMnemonic;
  CreateKeyWithMnemonic name mnemonic passphrase.

(** ** Private keys *)

(** A nil [*btcec.PrivateKey] is [None]. *)
Definition getKeyFromMap (keyName : string) : M lm PrivateKey :=
  l ← go_get;
  match lm_privateKeys l !! keyName with
  | None => go_fail (EText ("private key not found in map for key name: " +:+ keyName))
  | Some None => go_fail (EText ("private key is nil for key name: " +:+ keyName))
  | Some (Some privKey) => mret privKey
  end.

Definition getKeyFromKeyring (keyName passphrase : string) : M lm PrivateKey :=
  _ ← input_Reset passphrase;
  k ← go_wrap "failed to get key from keyring" (kr_KeyM keyName);
  match rec_Local k with
  | None => go_crash "nil pointer dereference"
  | Some (PrivSecp256k1 key) =>
      _ ← go_lift (wrap_err "invalid private key" (ValidatePrivKeyBytes key));
      mret (PrivKeyFromBytes key)
  | Some PrivOther => go_fail (EText "unsupported key type in keyring")
  end.

Definition dquote : string := String (Ascii.ascii_of_N 34) "".

Definition unlock_hint (keyName : string) (e : error) : error :=
  EWrap ("make sure to run the " +:+ dquote +:+ "unlock" +:+ dquote +:+ " command after you started the eots manager with the keyring: "
           +:+ keyName +:+ ", error: ") e "".

Definition eotsPrivKeyFromKeyName (keyName : string) : M lm (option PrivateKey) :=
  l ← go_get;
  if bool_decide (kr_Backend (lm_kr l) = BackendTest) then
    k ← getKeyFromKeyring keyName ""; mret (Some k)
  else if bool_decide (kr_Backend (lm_kr l) = BackendFile) then
    r ← go_try (getKeyFromMap keyName);
    match r with
    | inl e => go_fail (unlock_hint keyName e)
    | inr k => mret (Some k)
    end
  else mret None.

(** [privKey.PubKey()] on a possibly nil pointer *)
Definition deref {A} (k : option A) : M lm A :=
  match k with Some a => mret a | None => go_crash "nil pointer dereference" end.

Definition ErrPkMismatch : error :=
  EText "public key mismatch: requested key does not match stored key".

Definition getEOTSPrivKey (fpPk : bytes) : M lm PrivateKey :=
  keyName ← go_wrap "failed to get EOTS key name" (on_es (GetEOTSKeyName fpPk));
  privKey ← eotsPrivKeyFromKeyName keyName;
  privKey ← deref privKey;
  if bool_decide (SerializePubKey (PubKey privKey) = fpPk) then mret privKey
  else go_fail ErrPkMismatch.

Definition KeyRecord (fpPk : bytes) : M lm KeyRecord_t :=
  name ← go_wrap "failed to get EOTS key name" (on_es (GetEOTSKeyName fpPk));
  privKey ← getEOTSPrivKey fpPk;
  mret (mkKeyRecord _ name privKey).

Definition Unlock (fpPk : bytes) (passphrase : string) : M lm unit :=
  keyName ← go_wrap "failed to get EOTS key name" (on_es (GetEOTSKeyName fpPk));
  privKey ← go_wrap "failed to unlock the key ring" (getKeyFromKeyring keyName passphrase);
  l ← go_get;
  if bool_decide (is_Some (lm_privateKeys l !! keyName)) then
    go_fail (EText ("private key already unlocked for key name: " +:+ keyName))
  else go_put (set_keys l (<[keyName := Some privKey]> (lm_privateKeys l))).

(** ** Randomness *)

Definition getRandomnessPair (privKey : PrivateKey) (chainID : bytes) (height : N)
    : outcome (ModNScalar * FieldVal) :=
  match GenerateRandomness rand_fuel (SerializePrivKey privKey) chainID height with
  | Some p => Ok p
  | None => Crash "the randomness loop is still running"
  end.

Definition rand_height (cfg : RandomnessConfig) (startHeight i : N) : N :=
  match Interval cfg with
  | Some interval => u64_add startHeight (u64_mul i interval)
  | None => u64_add startHeight i
  end.

Definition CreateRandomnessPairList (fpPk chainID : bytes) (startHeight num : N)
    (options : list RandomnessOption) : M lm (list FieldVal) :=
  let cfg := apply_options options in
  if bool_decide (Interval cfg = Some 0%N) then
    go_fail (EText "interval must be greater than 0")
  else
    privKey ← go_wrap "failed to get EOTS private key" (getEOTSPrivKey fpPk);
    go_lift (for_append (λ i,
      pr ← wrap_err "failed to get randomness pair"
             (getRandomnessPair privKey chainID (rand_height cfg startHeight i));
      Ok pr.2) 0 (N.to_nat num)).

(** ** Signing *)

Definition SignEOTS (eotsPk chainID msg : bytes) (height : N) : M lm ModNScalar :=
  record ← go_wrap "error getting sign record" (on_es (GetSignRecord eotsPk chainID height));
  match record with
  | Some record =>
      if bool_decide (msg = sr_Msg record) then mret (ModN_SetByteSlice (sr_Signature record)).1
      else go_fail ErrDoubleSign
  | None =>
      keyName ← go_wrap "failed to get EOTS key name" (on_es (GetEOTSKeyName eotsPk));
      privKey ← go_wrap "failed to get EOTS private key" (eotsPrivKeyFromKeyName keyName);
      privKey ← deref privKey;
      if negb (bool_decide (SerializePubKey (PubKey privKey) = eotsPk)) then go_fail ErrPkMismatch
      else
        '(privRand, _) ← go_lift (wrap_err "failed to get randomness pair"
                                    (getRandomnessPair privKey chainID height));
        signedBytes ← go_lift (wrap_err "failed to sign eots" (eots_Sign privKey privRand msg));
        now ← time_Now;
        _ ← go_wrap "failed to save signing record"
              (on_es (SaveSignRecord now height chainID msg eotsPk (ModN_Bytes signedBytes)));
        mret signedBytes
  end.

(** The loop over [req.SignRequest]: the responses and the records to save,
    in order. *)
Fixpoint SignBatchEOTS_loop (privKey : PrivateKey) (eotsPk chainID : bytes)
    (existingRecords : gmap N SigningRecord) (reqs : list SignDataRequest)
    (response : list SignDataResponse) (recordsToSave : list BatchSignRecord)
    : outcome (list SignDataResponse * list BatchSignRecord) :=
  match reqs with
  | [] => Ok (response, recordsToSave)
  | request :: rest =>
      let msg := sdr_Msg request in
      let height := sdr_Height request in
      match existingRecords !! height with
      | Some existingRecord =>
          if bool_decide (msg = sr_Msg existingRecord) then
            let s := (ModN_SetByteSlice (sr_Signature existingRecord)).1 in
            SignBatchEOTS_loop privKey eotsPk chainID existingRecords rest
              (response ++ [mkSignDataResponse _ s height]) recordsToSave
          else
            SignBatchEOTS_loop privKey eotsPk chainID existingRecords rest response recordsToSave
      | None =>
          '(privRand, _) ← wrap_err "failed to get randomness pair"
                             (getRandomnessPair privKey chainID height);
          signedBytes ← wrap_err "failed to sign eots" (eots_Sign privKey privRand msg);
          SignBatchEOTS_loop privKey eotsPk chainID existingRecords rest
            (response ++ [mkSignDataResponse _ signedBytes height])
            (recordsToSave ++ [mkBatchSignRecord height chainID msg eotsPk (ModN_Bytes signedBytes)])
      end
  end.

Definition SignBatchEOTS (req : SignBatchEOTSRequest) : M lm (list SignDataResponse) :=
  let eotsPk := sbr_UID req in
  let chainID := sbr_ChainID req in
  let heights := sdr_Height <$> sbr_SignRequest req in
  match ValidateNoDuplicateHeights heights with
  | Err e => go_fail (EWrap2 ErrDuplicateHeight ": " e)
  | Crash w => go_crash w
  | Ok _ =>
      keyName ← go_wrap "failed to get EOTS key name" (on_es (GetEOTSKeyName eotsPk));
      privKey ← go_wrap "failed to get EOTS private key" (eotsPrivKeyFromKeyName keyName);
      privKey ← deref privKey;
      if negb (bool_decide (SerializePubKey (PubKey privKey) = eotsPk)) then go_fail ErrPkMismatch
      else
        existingRecords ← go_wrap "failed to get existing sign records"
                            (on_es (GetSignRecordsBatch eotsPk chainID heights));
        '(response, recordsToSave) ← go_lift
          (SignBatchEOTS_loop privKey eotsPk chainID existingRecords (sbr_SignRequest req) [] []);
        if (0 <? length recordsToSave)%nat then
          now ← time_Now;
          _ ← go_wrap "failed to save signing records batch"
                (on_es (SaveSignRecordsBatch now recordsToSave));
          mret response
        else mret response
  end.

Definition UnsafeSignEOTS (fpPk chainID msg : bytes) (height : N) : M lm ModNScalar :=
  privKey ← go_wrap "failed to get EOTS private key" (getEOTSPrivKey fpPk);
  '(privRand, _) ← go_lift (wrap_err "failed to get randomness pair"
                              (getRandomnessPair privKey chainID height));
  go_lift (wrap_err "failed to sign eots" (eots_Sign privKey privRand msg)).

Definition signSchnorrSigFromPrivKey (privKey : option PrivateKey) (msg : bytes)
    : M lm SchnorrSignature :=
  privKey ← deref privKey;
  go_lift (wrap_err "failed to sign schnorr signature" (schnorr_Sign privKey msg)).

Definition SignSchnorrSig (fpPk msg : bytes) : M lm SchnorrSignature :=
  privKey ← go_wrap "failed to get EOTS private key" (getEOTSPrivKey fpPk);
  signSchnorrSigFromPrivKey (Some privKey) msg.

Definition SignSchnorrSigFromKeyname (keyName : string) (msg : bytes)
    : M lm (SchnorrSignature * bytes) :=
  eotsPk ← LoadBIP340PubKeyFromKeyName keyName;
  privKey ← eotsPrivKeyFromKeyName keyName;
  signature ← go_wrap "failed to schnorr sign" (signSchnorrSigFromPrivKey privKey msg);
  mret (signature, eotsPk).

(** ** Maintenance *)

Definition ListEOTSKeys : M lm (gmap string bytes) :=
  go_wrap "failed to get all EOTS key names" (on_es GetAllEOTSKeyNames).

Definition UnsafeDeleteSignStoreRecords (eotsPK chainID : option bytes) (fromHeight : N)
    : M lm unit :=
  go_wrap ("failed to delete sign records from height " +:+ fmt_d fromHeight)
    (on_es (DeleteSignRecordsFromHeight eotsPK chainID fromHeight)).

Definition IsRecordInDB (eotsPk chainID : bytes) (height : N) : M lm bool :=
  record ← go_wrap "error getting sign record" (on_es (GetSignRecord eotsPk chainID height));
  mret (bool_decide (is_Some record)).

#[export] Instance local_manager : EOTSManager lm := {|
  em_CreateRandomnessPairList := CreateRandomnessPairList;
  em_SignEOTS := SignEOTS;
  em_UnsafeSignEOTS := UnsafeSignEOTS;
  em_SignSchnorrSig := SignSchnorrSig;
  em_Unlock := Unlock;
  em_SignBatchEOTS := SignBatchEOTS;
|}.
End manager.

(** ** Lemmas *)

Section lemmas.
Context {K D : Type} `{Keyring K} `{KvLaws D} `{BigEndianLaws} `{CodecLaws pSigningRecord}
  `{CryptoLaws} `{Bip39} `{RandFuel}.
Local Abbreviation lm := (LocalEOTSManager K D).
Implicit Types l : lm.

(** The store and the clock are untouched; no signing record is lost. *)
Definition keeps (l l' : lm) : Prop := lm_es l' = lm_es l ∧ lm_now l' = lm_now l.
Definition grows (l l' : lm) : Prop := records_grow (lm_es l) (lm_es l').

#[export] Instance keeps_preorder : PreOrder keeps.
Proof.
  split; [done|]. intros l1 l2 l3 [E1 E1'] [E2 E2']. split; congruence.
Qed.
#[export] Instance grows_preorder : PreOrder grows.
Proof.
  split; [intros l; apply records_grow_refl|].
  intros l1 l2 l3. apply records_grow_trans.
Qed.

Lemma keeps_grows {A} (m : M lm A) : preserves keeps m → preserves grows m.
Proof.
  intros Hm l r l' E. destruct (Hm _ _ _ E) as [Es _]. unfold grows. rewrite Es.
  apply records_grow_refl.
Qed.

Lemma set_es_id l : set_es l (lm_es l) = l.
Proof. by destruct l. Qed.

Lemma on_es_run {A} (m : M D A) l r d : m (lm_es l) = (r, d) → on_es m l = (r, set_es l d).
Proof. unfold on_es. by intros ->. Qed.

Lemma on_es_inv {A} (m : M D A) l r l' :
  on_es m l = (r, l') → ∃ d, m (lm_es l) = (r, d) ∧ l' = set_es l d.
Proof. unfold on_es. destruct (m (lm_es l)) as [r1 d]. intros [= <- <-]. eauto. Qed.

Lemma on_es_same {A} (m : M D A) :
  (∀ d r d', m d = (r, d') → d' = d) → ∀ l r l', on_es m l = (r, l') → l' = l ∧ m (lm_es l) = (r, lm_es l).
Proof.
  intros Hm l r l' (d & E & ->)%on_es_inv. pose proof (Hm _ _ _ E) as ->.
  by rewrite set_es_id.
Qed.

Lemma on_es_keeps {A} (m : M D A) :
  (∀ d r d', m d = (r, d') → d' = d) → preserves keeps (on_es m).
Proof. intros Hm l r l' [-> _]%on_es_same; [|done]. reflexivity. Qed.

Lemma on_es_grows {A} (m : M D A) :
  (∀ d r d', m d = (r, d') → records_grow d d') → preserves grows (on_es m).
Proof. intros Hm l r l' (d & E & ->)%on_es_inv. by eapply Hm. Qed.

Lemma kr_KeyM_keeps name : preserves keeps (kr_KeyM (D := D) name).
Proof.
  intros l r l'. unfold kr_KeyM. destruct (kr_Key _ _ _). intros [= _ <-]. done.
Qed.
Lemma kr_NewAccountM_keeps name mn : preserves keeps (kr_NewAccountM (D := D) name mn).
Proof.
  intros l r l'. unfold kr_NewAccountM. destruct (kr_NewAccount _ _ _ _) as [? [? ?]].
  intros [= _ <-]. done.
Qed.
Lemma input_Reset_keeps s : preserves keeps (input_Reset (K := K) (D := D) s).
Proof. intros l r l' [= _ <-]. done. Qed.
Lemma time_Now_keeps : preserves keeps (time_Now (K := K) (D := D)).
Proof. intros l r l' [= _ <-]. done. Qed.
Lemma GetEOTSKeyName_keeps pk : preserves keeps (on_es (K := K) (GetEOTSKeyName (D := D) pk)).
Proof. apply on_es_keeps, GetEOTSKeyName_same. Qed.
Lemma GetSignRecord_keeps pk c h : preserves keeps (on_es (K := K) (GetSignRecord (D := D) pk c h)).
Proof. apply on_es_keeps, GetSignRecord_same. Qed.
Lemma GetSignRecordsBatch_same pk c hs (d : D) r d' :
  GetSignRecordsBatch pk c hs d = (r, d') → d' = d.
Proof.
  unfold GetSignRecordsBatch, go_wrap. destruct (kv_view _ d) as [res d1] eqn:E.
  apply kv_view_same in E as ->. by intros [= _ <-].
Qed.
Lemma GetSignRecordsBatch_keeps pk c hs :
  preserves keeps (on_es (K := K) (GetSignRecordsBatch (D := D) pk c hs)).
Proof. apply on_es_keeps, GetSignRecordsBatch_same. Qed.
Lemma deref_keeps {A} (k : option A) : preserves keeps (deref (K := K) (D := D) k).
Proof. unfold deref. solve_preserves. Qed.

Hint Resolve kr_KeyM_keeps kr_NewAccountM_keeps input_Reset_keeps time_Now_keeps
  GetEOTSKeyName_keeps GetSignRecord_keeps GetSignRecordsBatch_keeps deref_keeps : preserves.

Lemma keyExists_keeps n : preserves keeps (keyExists (D := D) n).
Proof. unfold keyExists. solve_preserves. Qed.
Lemma getKeyFromMap_keeps n : preserves keeps (getKeyFromMap (K := K) (D := D) n).
Proof. unfold getKeyFromMap. solve_preserves. Qed.
Lemma getKeyFromKeyring_keeps n p : preserves keeps (getKeyFromKeyring (D := D) n p).
Proof. unfold getKeyFromKeyring. solve_preserves. Qed.
Hint Resolve keyExists_keeps getKeyFromMap_keeps getKeyFromKeyring_keeps : preserves.

Lemma eotsPrivKeyFromKeyName_keeps n : preserves keeps (eotsPrivKeyFromKeyName (D := D) n).
Proof. unfold eotsPrivKeyFromKeyName. solve_preserves. Qed.
Hint Resolve eotsPrivKeyFromKeyName_keeps : preserves.

Lemma getEOTSPrivKey_keeps pk : preserves keeps (getEOTSPrivKey (D := D) pk).
Proof. unfold getEOTSPrivKey. solve_preserves. Qed.
Lemma LoadBIP340_keeps n : preserves keeps (LoadBIP340PubKeyFromKeyName (D := D) n).
Proof. unfold LoadBIP340PubKeyFromKeyName, LoadBIP340PubKeyFromKeyName_kr. solve_preserves. Qed.
Hint Resolve getEOTSPrivKey_keeps LoadBIP340_keeps : preserves.

Lemma CreateRandomnessPairList_keeps pk c h n o :
  preserves keeps (CreateRandomnessPairList (D := D) pk c h n o).
Proof. unfold CreateRandomnessPairList. solve_preserves. Qed.
Lemma SignSchnorrSig_keeps pk m : preserves keeps (SignSchnorrSig (D := D) pk m).
Proof. unfold SignSchnorrSig, signSchnorrSigFromPrivKey. solve_preserves. Qed.
Lemma Unlock_keeps pk p : preserves keeps (Unlock (D := D) pk p).
Proof.
  unfold Unlock. apply preserves_bind; [apply _|solve_preserves|intros n].
  apply preserves_bind; [apply _|solve_preserves|intros k].
  apply preserves_get_bind. intros l r l'. case_bool_decide; by intros [= _ <-].
Qed.
Lemma UnsafeSignEOTS_keeps pk c m h : preserves keeps (UnsafeSignEOTS (D := D) pk c m h).
Proof. unfold UnsafeSignEOTS. solve_preserves. Qed.
Lemma SignSchnorrSigFromKeyname_keeps n m :
  preserves keeps (SignSchnorrSigFromKeyname (D := D) n m).
Proof. unfold SignSchnorrSigFromKeyname, signSchnorrSigFromPrivKey. solve_preserves. Qed.

Lemma KeyRecord_keeps pk : preserves keeps (KeyRecord (D := D) pk).
Proof. unfold KeyRecord. solve_preserves. Qed.
Lemma IsRecordInDB_keeps pk c h : preserves keeps (IsRecordInDB (K := K) (D := D) pk c h).
Proof. unfold IsRecordInDB. solve_preserves. Qed.

(** *** What only grows *)

Lemma SaveSignRecord_grows now h c m pk s :
  preserves grows (on_es (K := K) (SaveSignRecord (D := D) now h c m pk s)).
Proof. apply on_es_grows. eauto with eots. Qed.
Lemma SaveBatch_grows now rs :
  preserves grows (on_es (K := K) (SaveSignRecordsBatch (D := D) now rs)).
Proof. apply on_es_grows. eauto with eots. Qed.
Lemma AddEOTSKeyName_grows pk n :
  preserves grows (on_es (K := K) (AddEOTSKeyName (D := D) pk n)).
Proof. apply on_es_grows. eauto with eots. Qed.
Hint Resolve SaveSignRecord_grows SaveBatch_grows AddEOTSKeyName_grows : preserves.
Hint Extern 3 (preserves grows _) => (apply keeps_grows; by auto with preserves) : preserves.

Lemma SignEOTS_grows pk c m h : preserves grows (SignEOTS (D := D) pk c m h).
Proof. unfold SignEOTS. solve_preserves. Qed.
Lemma SignBatchEOTS_grows req : preserves grows (SignBatchEOTS (D := D) req).
Proof. unfold SignBatchEOTS. solve_preserves. Qed.
Lemma CreateKeyWithMnemonic_grows n mn p :
  preserves grows (CreateKeyWithMnemonic (D := D) n mn p).
Proof. unfold CreateKeyWithMnemonic, SaveEOTSKeyName. solve_preserves. Qed.
Lemma CreateKey_grows n p : preserves grows (CreateKey (D := D) n p).
Proof.
  unfold CreateKey. solve_preserves. apply CreateKeyWithMnemonic_grows.
Qed.

(** *** What fails changes no record *)

Lemma SaveSignRecord_atomic now h c m pk s :
  atomic keeps (on_es (K := K) (SaveSignRecord (D := D) now h c m pk s)).
Proof. intros l r l' (d & E & ->)%on_es_inv Hr. by apply SaveSignRecord_err in E as ->. Qed.
Lemma SaveBatch_atomic now rs :
  atomic keeps (on_es (K := K) (SaveSignRecordsBatch (D := D) now rs)).
Proof. intros l r l' (d & E & ->)%on_es_inv Hr. by apply SaveBatch_err in E as ->. Qed.
Hint Resolve SaveSignRecord_atomic SaveBatch_atomic : preserves.

Lemma SignEOTS_atomic pk c m h : atomic keeps (SignEOTS (D := D) pk c m h).
Proof. unfold SignEOTS. solve_atomic. Qed.
Lemma SignBatchEOTS_atomic req : atomic keeps (SignBatchEOTS (D := D) req).
Proof. unfold SignBatchEOTS. solve_atomic. Qed.

(** *** Keys *)

Lemma deref_ok {A} (k : option A) l a l' :
  deref (K := K) (D := D) k l = (Ok a, l') → k = Some a ∧ l' = l.
Proof. destruct k; [by intros [= -> <-]|done]. Qed.

(** *** One signature *)

(** A signature with the secret randomness of the height. *)
Definition signs (k : PrivateKey) (pk c m : bytes) (h : N) (s : ModNScalar) : Prop :=
  SerializePubKey (PubKey k) = pk ∧
  ∃ privRand pubRand, getRandomnessPair k c h = Ok (privRand, pubRand) ∧
                      eots_Sign k privRand m = Ok s.

Lemma SignEOTS_ok pk c m h l s l' :
  SignEOTS pk c m h l = (Ok s, l') →
  (∃ r, has_record (lm_es l) pk c h r ∧ p_Msg r = m
        ∧ s = (ModN_SetByteSlice (p_EotsSig r)).1 ∧ l' = l)
  ∨ (∃ k, signs k pk c m h s
        ∧ SaveSignRecord (lm_now l) h c m pk (ModN_Bytes s) (lm_es l) = (Ok (), lm_es l')).
Proof.
  unfold SignEOTS. intros HE. inv_bind HE.
  apply on_es_same in E as [-> E]; [|apply GetSignRecord_same].
  destruct a as [r|].
  - apply GetSignRecord_some in E as (pr & Hr & ->). case_bool_decide; [|done].
    injection HE as <- <-. left. exists pr. by subst.
  - right. inv_bind HE. inv_bind HE. inv_bind HE.
    pose proof (GetEOTSKeyName_keeps _ _ _ _ E0) as [Es1 Et1].
    pose proof (eotsPrivKeyFromKeyName_keeps _ _ _ _ E1) as [Es2 Et2].
    apply deref_ok in E2 as [-> ->].
    destruct (bool_decide _) eqn:Epk; simpl in HE; [|done]. btests.
    inv_bind HE. destruct a0 as [privRand pubRand]. inv_bind HE. inv_bind HE. inv_bind HE.
    injection E4 as <- <-. injection HE as -> <-.
    apply on_es_inv in E5 as (d & E5 & ->). simpl.
    exists a1. split; [split; [done|by eauto]|].
    rewrite Es2, Es1, Et2, Et1 in E5. by destruct a3.
Qed.

Definition signed (l : lm) (pk c : bytes) (h : N) (m : bytes) (s : ModNScalar) : Prop :=
  ∃ r, has_record (lm_es l) pk c h r ∧ p_Msg r = m ∧ (ModN_SetByteSlice (p_EotsSig r)).1 = s.

Lemma signed_functional l pk c h m1 s1 m2 s2 :
  signed l pk c h m1 s1 → signed l pk c h m2 s2 → m1 = m2 ∧ s1 = s2.
Proof.
  intros (r1 & H1' & <- & <-) (r2 & H2' & <- & <-).
  by rewrite (has_record_det _ _ _ _ _ _ H1' H2').
Qed.

Lemma signed_grows l l' pk c h m s : grows l l' → signed l pk c h m s → signed l' pk c h m s.
Proof. intros Hg (r & Hr & Hm & Hs). exists r. eauto using has_record_grow. Qed.

Lemma SignEOTS_signed pk c m h l s l' :
  SignEOTS pk c m h l = (Ok s, l') → signed l' pk c h m s.
Proof.
  intros [(r & Hr & <- & -> & ->)|(k & _ & Hs)]%SignEOTS_ok.
  - by exists r.
  - apply SaveSignRecord_has in Hs. eexists. split_and!; [exact Hs|done|].
    simpl. by rewrite modn_bytes_roundtrip.
Qed.

Lemma SignEOTS_replay pk c h m s l :
  kv_begin (lm_es l) = None → kv_has (lm_es l) signRecordBucketName = true →
  signed l pk c h m s → ∀ m',
  SignEOTS pk c m' h l = (if bool_decide (m' = m) then Ok s else Err ErrDoubleSign, l).
Proof.
  intros Hb Hh (r & Hr & <- & <-) m'. unfold SignEOTS.
  erewrite go_bind_run; [|apply go_wrap_run, on_es_run, GetSignRecord_run; eassumption].
  rewrite set_es_id. simpl. by case_bool_decide.
Qed.

(** *** A batch *)

(** What the loop does with one request. *)
Definition batch_one (k : PrivateKey) (pk c : bytes) (existing : gmap N SigningRecord)
    (q : SignDataRequest) (o : option SignDataResponse * option BatchSignRecord) : Prop :=
  match existing !! sdr_Height q with
  | Some e =>
      o = (if bool_decide (sdr_Msg q = sr_Msg e)
           then Some (mkSignDataResponse _ (ModN_SetByteSlice (sr_Signature e)).1 (sdr_Height q))
           else None, None)
  | None =>
      ∃ privRand pubRand s,
        getRandomnessPair k c (sdr_Height q) = Ok (privRand, pubRand)
        ∧ eots_Sign k privRand (sdr_Msg q) = Ok s
        ∧ o = (Some (mkSignDataResponse _ s (sdr_Height q)),
               Some (mkBatchSignRecord (sdr_Height q) c (sdr_Msg q) pk (ModN_Bytes s)))
  end.

Lemma batch_loop_ok k pk c existing reqs : ∀ resp recs resp' recs',
  SignBatchEOTS_loop k pk c existing reqs resp recs = Ok (resp', recs') →
  ∃ outs, Forall2 (batch_one k pk c existing) reqs outs
          ∧ resp' = resp ++ omap fst outs ∧ recs' = recs ++ omap snd outs.
Proof.
  induction reqs as [|q reqs IH]; intros resp recs resp' recs' HE; simpl in HE.
  - simplify_eq. exists []. split; [constructor|]. simpl. by rewrite !app_nil_r.
  - destruct (existing !! sdr_Height q) as [e|] eqn:Ee.
    + case_bool_decide as Em; apply IH in HE as (outs & Hall & -> & ->).
      * eexists ((Some _, None) :: outs). split; [|by simpl; rewrite <- app_assoc].
        constructor; [|done]. unfold batch_one. rewrite Ee.
        by rewrite (bool_decide_eq_true_2 _ Em).
      * exists ((None, None) :: outs). split; [|done].
        constructor; [|done]. unfold batch_one. rewrite Ee.
        by rewrite (bool_decide_eq_false_2 _ Em).
    + apply outcome_bind_ok in HE as ([privRand pubRand] & Er%wrap_err_ok & HE).
      apply outcome_bind_ok in HE as (s & Es%wrap_err_ok & HE).
      apply IH in HE as (outs & Hall & -> & ->).
      eexists ((Some _, Some _) :: outs). split; [|by simpl; rewrite <- !app_assoc].
      constructor; [|done]. unfold batch_one. rewrite Ee. eauto 6.
Qed.

Lemma batch_one_height k pk c ex q o r :
  batch_one k pk c ex q o → o.1 = Some r → resp_Height r = sdr_Height q.
Proof.
  unfold batch_one. destruct (ex !! _).
  - intros ->. simpl. case_bool_decide; [by intros [= <-]|done].
  - intros (? & ? & ? & _ & _ & ->). by intros [= <-].
Qed.

Lemma batch_heights k pk c ex reqs outs :
  Forall2 (batch_one k pk c ex) reqs outs →
  resp_Height <$> omap fst outs `sublist_of` sdr_Height <$> reqs.
Proof.
  induction 1 as [|q o reqs outs Ho _ IH]; simpl; [constructor|].
  destruct o.1 as [r|] eqn:Er; simpl; [|by constructor].
  rewrite (batch_one_height _ _ _ _ _ _ _ Ho Er). by constructor.
Qed.

Lemma SignBatchEOTS_ok req l rs l' :
  SignBatchEOTS req l = (Ok rs, l') →
  NoDup (sdr_Height <$> sbr_SignRequest req) ∧
  ∃ k existing outs,
    SerializePubKey (PubKey k) = sbr_UID req
    ∧ GetSignRecordsBatch (sbr_UID req) (sbr_ChainID req)
        (sdr_Height <$> sbr_SignRequest req) (lm_es l) = (Ok existing, lm_es l)
    ∧ Forall2 (batch_one k (sbr_UID req) (sbr_ChainID req) existing) (sbr_SignRequest req) outs
    ∧ rs = omap fst outs
    ∧ SaveSignRecordsBatch (lm_now l) (omap snd outs) (lm_es l) = (Ok (), lm_es l').
Proof.
  unfold SignBatchEOTS. intros HE.
  destruct (ValidateNoDuplicateHeights _) as [[]| |] eqn:Ev; [|done..].
  split; [by apply Validate_ok_iff|].
  inv_bind HE. inv_bind HE. inv_bind HE.
  pose proof (GetEOTSKeyName_keeps _ _ _ _ E) as [Es1 Et1].
  pose proof (eotsPrivKeyFromKeyName_keeps _ _ _ _ E0) as [Es2 Et2].
  apply deref_ok in E1 as [-> ->].
  destruct (bool_decide _) eqn:Epk; simpl in HE; [|done]. btests.
  inv_bind HE. apply on_es_same in E1 as [-> E1]; [|apply GetSignRecordsBatch_same].
  inv_bind HE. destruct a2 as [resp recs]. apply batch_loop_ok in E2 as (outs & Hall & -> & ->).
  rewrite Es2, Es1 in E1. simpl in HE. exists a1, a0, outs. split_and!; [done|done|done|..].
  - destruct (_ <? _)%nat; [|by injection HE].
    inv_bind HE. inv_bind HE. by injection HE.
  - destruct (_ <? _)%nat eqn:El; btests.
    + inv_bind HE. inv_bind HE. injection E2 as <- <-. injection HE as _ <-.
      apply on_es_inv in E3 as (d & E3 & ->). simpl.
      rewrite Es2, Es1, Et2, Et1 in E3. by destruct a3.
    + injection HE as _ <-. destruct (omap snd outs); [|simpl in El; lia].
      unfold SaveSignRecordsBatch. rewrite bool_decide_eq_true_2 by done.
      unfold go_ret. congruence.
Qed.

Lemma GetBatch_some pk c hs (d : D) m d' h e :
  GetSignRecordsBatch pk c hs d = (Ok m, d') → m !! h = Some e →
  ∃ pr, has_record d pk c h pr ∧ e = FromProto pr.
Proof.
  unfold GetSignRecordsBatch. intros HE%go_wrap_ok Hm.
  apply kv_view_ok in HE as [HE _]. destruct (kv_has d _); simpl in HE; [|done].
  pose proof (GetBatch_loop_ok _ _ _ _ _ _ HE h) as Hh. unfold has_record.
  destruct (kv_get d _ _) as [b|].
  - case_decide; [|by rewrite Hm in Hh]. destruct Hh as (pr & Hu & Hp). exists pr.
    split; [by eauto|]. congruence.
  - by rewrite Hm in Hh.
Qed.

(** What the answer to a request of the batch says about the final store. *)
Lemma batch_one_signed req l rs l' k existing outs q o :
  GetSignRecordsBatch (sbr_UID req) (sbr_ChainID req)
    (sdr_Height <$> sbr_SignRequest req) (lm_es l) = (Ok existing, lm_es l) →
  SaveSignRecordsBatch (lm_now l) (omap snd outs) (lm_es l) = (Ok (), lm_es l') →
  SignBatchEOTS req l = (Ok rs, l') →
  batch_one k (sbr_UID req) (sbr_ChainID req) existing q o → o ∈ outs →
  match o.1 with
  | Some r => resp_Height r = sdr_Height q
      ∧ signed l' (sbr_UID req) (sbr_ChainID req) (sdr_Height q) (sdr_Msg q) (resp_Signature r)
  | None => ∃ m s, m ≠ sdr_Msg q
      ∧ signed l' (sbr_UID req) (sbr_ChainID req) (sdr_Height q) m s
  end.
Proof.
  intros Hget Hsave HE%SignBatchEOTS_grows Hone Hin. unfold batch_one in Hone.
  destruct (existing !! sdr_Height q) as [e|] eqn:Ee.
  - destruct (GetBatch_some _ _ _ _ _ _ _ _ Hget Ee) as (pr & Hr & ->). subst o. simpl.
    pose proof (has_record_grow _ _ _ _ _ _ HE Hr) as Hr'.
    clear Hin. case_bool_decide as Em; simpl.
    + split; [done|]. by exists pr.
    + exists (p_Msg pr), (ModN_SetByteSlice (p_EotsSig pr)).1. split; [done|]. by exists pr.
  - destruct Hone as (privRand & pubRand & s & Hr & Hs & ->). simpl. split; [done|].
    apply SaveBatch_ok, SaveBatch_loop_ok in Hsave as (_ & _ & Hall & _).
    rewrite Forall_forall in Hall.
    specialize (Hall (mkBatchSignRecord (sdr_Height q) (sbr_ChainID req) (sdr_Msg q)
                        (sbr_UID req) (ModN_Bytes s))).
    eexists. split; [apply Hall|].
    + apply list_elem_of_omap. eexists. by split; [exact Hin|].
    + split; [done|]. simpl. by rewrite modn_bytes_roundtrip.
Qed.

Lemma SignBatchEOTS_each req l rs l' q :
  SignBatchEOTS req l = (Ok rs, l') → q ∈ sbr_SignRequest req →
  (∃ s, (mkSignDataResponse _ s (sdr_Height q)) ∈ rs
        ∧ signed l' (sbr_UID req) (sbr_ChainID req) (sdr_Height q) (sdr_Msg q) s)
  ∨ ((sdr_Height q ∉ resp_Height <$> rs) ∧ ∃ m s, m ≠ sdr_Msg q
        ∧ signed l' (sbr_UID req) (sbr_ChainID req) (sdr_Height q) m s).
Proof.
  intros HE Hq. pose proof (SignBatchEOTS_ok _ _ _ _ HE)
    as (Hnd & k & existing & outs & _ & Hget & Hall & -> & Hsave).
  apply list_elem_of_lookup in Hq as [i Hi].
  destruct (Forall2_lookup_l _ _ _ _ _ Hall Hi) as (o & Ho & Hone).
  pose proof (batch_one_signed _ _ _ _ _ _ _ _ _ Hget Hsave HE Hone
                (list_elem_of_lookup_2 _ _ _ Ho)) as Hres.
  destruct o as [[r|] rec]; simpl in Hres.
  - destruct Hres as [<- Hs]. left. exists (resp_Signature r). split; [|done].
    apply list_elem_of_omap. exists (Some r, rec). split; [by eapply list_elem_of_lookup_2|].
    by destruct r.
  - right. split; [|done]. intros (r & Hr & Hin)%list_elem_of_fmap.
    apply list_elem_of_omap in Hin as (o' & Ho' & Er). apply list_elem_of_lookup in Ho' as [j Hj].
    destruct (Forall2_lookup_r _ _ _ _ _ Hall Hj) as (q' & Hq' & Hone').
    rewrite (batch_one_height _ _ _ _ _ _ _ Hone' Er) in Hr.
    assert (i = j) as ->; [|by simplify_eq].
    eapply NoDup_lookup; [exact Hnd| |]; rewrite list_lookup_fmap; [by rewrite Hi|].
    rewrite Hq'. simpl. by rewrite Hr.
Qed.

Lemma SignBatchEOTS_signed req l rs l' :
  SignBatchEOTS req l = (Ok rs, l') →
  Forall (λ r, ∃ m, mkSignDataRequest m (resp_Height r) ∈ sbr_SignRequest req
    ∧ signed l' (sbr_UID req) (sbr_ChainID req) (resp_Height r) m (resp_Signature r)) rs.
Proof.
  intros HE. pose proof (SignBatchEOTS_ok _ _ _ _ HE)
    as (_ & k & existing & outs & _ & Hget & Hall & -> & Hsave).
  apply Forall_forall. intros r (o & Ho & Er)%list_elem_of_omap.
  apply list_elem_of_lookup in Ho as Hj. destruct Hj as [j Hj].
  destruct (Forall2_lookup_r _ _ _ _ _ Hall Hj) as (q & Hq & Hone).
  pose proof (batch_one_signed _ _ _ _ _ _ _ _ _ Hget Hsave HE Hone Ho) as Hres.
  rewrite Er in Hres. destruct Hres as [-> Hs]. exists (sdr_Msg q). split; [|done].
  destruct q. by eapply list_elem_of_lookup_2.
Qed.

#[export] Instance local_protection : EOTSProtection lm.
Proof.
  refine {| em_signed := signed |}.
  - apply signed_functional.
  - apply SignEOTS_signed.
  - apply SignBatchEOTS_signed.
  - intros req l rs l' HE. by destruct (SignBatchEOTS_ok _ _ _ _ HE).
  - intros pk c m h l r l' HE ?????. apply signed_grows. exact (SignEOTS_grows _ _ _ _ _ _ _ HE).
  - intros req l r l' HE ?????. apply signed_grows. exact (SignBatchEOTS_grows _ _ _ _ HE).
  - intros pk c h n o l r l' HE ?????. apply signed_grows.
    exact (keeps_grows _ (CreateRandomnessPairList_keeps _ _ _ _ _) _ _ _ HE).
  - intros pk m l r l' HE ?????. apply signed_grows.
    exact (keeps_grows _ (SignSchnorrSig_keeps _ _) _ _ _ HE).
Defined.
End lemmas.

(** ** Histories

    The requests the daemon serves, with the clock at each of them, and the
    signatures that leave it.  [RRestart] is a restart of the process: what is
    in memory is lost, the database stays.  The two operations the code calls
    unsafe (signing without protection, deleting records) are not part of a
    history. *)

Inductive request :=
| RCreateKey (name passphrase : string)
| RCreateKeyWithMnemonic (name mnemonic passphrase : string)
| RUnlock (pk : bytes) (passphrase : string)
| RCreateRandomness (pk chain : bytes) (start num : N) (opts : list RandomnessOption)
| RSignEOTS (pk chain msg : bytes) (height : N)
| RSignBatchEOTS (req : SignBatchEOTSRequest)
| RSignSchnorrSig (pk msg : bytes)
| RSignSchnorrSigFromKeyname (name : string) (msg : bytes)
| RKeyRecord (pk : bytes)
| RIsRecordInDB (pk chain : bytes) (height : N)
| RRestart.

Record emission `{Crypto} := mkEmission {
  e_pk : bytes; e_chain : bytes; e_height : N; e_msg : bytes; e_sig : ModNScalar;
}.

Section history.
Context {K D : Type} `{Keyring K} `{KvBackend D} `{BigEndian} `{Codec pSigningRecord}
  `{Crypto} `{Bip39} `{RandFuel}.
Local Abbreviation lm := (LocalEOTSManager K D).

(** The signatures of a batch response, with the messages of the request. *)
Definition batch_emissions (req : SignBatchEOTSRequest) (rs : list SignDataResponse)
    : list emission :=
  r ← rs;
  q ← sbr_SignRequest req;
  if bool_decide (sdr_Height q = resp_Height r) then
    [mkEmission _ (sbr_UID req) (sbr_ChainID req) (resp_Height r) (sdr_Msg q) (resp_Signature r)]
  else [].

Definition quiet {A} (p : outcome A * lm) : list emission * lm := ([], p.2).

Definition serve (q : request) (l : lm) : list emission * lm :=
  match q with
  | RCreateKey n p => quiet (CreateKey n p l)
  | RCreateKeyWithMnemonic n mn p => quiet (CreateKeyWithMnemonic n mn p l)
  | RUnlock pk p => quiet (Unlock pk p l)
  | RCreateRandomness pk c s n o => quiet (CreateRandomnessPairList pk c s n o l)
  | RSignEOTS pk c m h =>
      match SignEOTS pk c m h l with
      | (Ok s, l') => ([mkEmission _ pk c h m s], l')
      | (_, l') => ([], l')
      end
  | RSignBatchEOTS req =>
      match SignBatchEOTS req l with
      | (Ok rs, l') => (batch_emissions req rs, l')
      | (_, l') => ([], l')
      end
  | RSignSchnorrSig pk m => quiet (SignSchnorrSig pk m l)
  | RSignSchnorrSigFromKeyname n m => quiet (SignSchnorrSigFromKeyname n m l)
  | RKeyRecord pk => quiet (KeyRecord pk l)
  | RIsRecordInDB pk c h => quiet (IsRecordInDB pk c h l)
  | RRestart => ([], mkLM (lm_kr l) (lm_es l) "" ∅ (lm_now l))
  end.

Fixpoint serve_all (qs : list (Z * request)) (l : lm) : list emission * lm :=
  match qs with
  | [] => ([], l)
  | (now, q) :: qs' =>
      let '(es, l1) := serve q (set_now l now) in
      let '(es', l2) := serve_all qs' l1 in
      (es ++ es', l2)
  end.
End history.

Section history_lemmas.
Context {K D : Type} `{Keyring K} `{KvLaws D} `{BigEndianLaws} `{CodecLaws pSigningRecord}
  `{CryptoLaws} `{Bip39} `{RandFuel}.
Local Abbreviation lm := (LocalEOTSManager K D).
Implicit Types l : lm.

Definition emission_recorded l (e : emission) : Prop :=
  signed l (e_pk e) (e_chain e) (e_height e) (e_msg e) (e_sig e).

Lemma quiet_grows {A} (m : M lm A) l :
  preserves grows m → grows l (quiet (m l)).2 ∧ Forall (emission_recorded (m l).2) (quiet (m l)).1.
Proof.
  intros Hm. split; [|constructor]. destruct (m l) as [r l'] eqn:E. by eapply Hm.
Qed.

Lemma batch_emissions_recorded req l rs l' :
  SignBatchEOTS req l = (Ok rs, l') → Forall (emission_recorded l') (batch_emissions req rs).
Proof.
  intros HE. pose proof (SignBatchEOTS_ok _ _ _ _ HE) as (Hnd & _).
  pose proof (SignBatchEOTS_signed _ _ _ _ HE) as Hall. rewrite Forall_forall in Hall.
  apply Forall_forall. unfold batch_emissions. intros e (r & He & Hr)%list_elem_of_bind.
  apply list_elem_of_bind in He as (q & He & Hq). case_bool_decide as Eh; [|by apply elem_of_nil in He].
  apply list_elem_of_singleton in He as ->. unfold emission_recorded. simpl.
  destruct (Hall _ Hr) as (m & Hm & Hs).
  assert (q = mkSignDataRequest m (resp_Height r)) as ->; [|done].
  apply list_elem_of_lookup in Hq as [i Hi], Hm as [j Hj].
  assert (i = j) as ->; [|by simplify_eq].
  eapply NoDup_lookup; [exact Hnd| |]; rewrite list_lookup_fmap; [by rewrite Hi|].
  rewrite Hj. simpl. by rewrite Eh.
Qed.

Lemma serve_inv q l es l' :
  serve q l = (es, l') → grows l l' ∧ Forall (emission_recorded l') es.
Proof.
  intros HE.
  assert (∀ A (m : M lm A), preserves grows m → quiet (m l) = (es, l') →
            grows l l' ∧ Forall (emission_recorded l') es) as Hquiet.
  { intros A m Hm [= <- <-]. destruct (quiet_grows m l Hm) as [? ?]. by split. }
  destruct q; simpl in HE;
    try (eapply Hquiet; [|exact HE]; first [apply CreateKey_grows | apply CreateKeyWithMnemonic_grows
      | apply keeps_grows; first [apply Unlock_keeps | apply CreateRandomnessPairList_keeps
      | apply SignSchnorrSig_keeps | apply SignSchnorrSigFromKeyname_keeps
      | apply KeyRecord_keeps | apply IsRecordInDB_keeps]]).
  - destruct (SignEOTS _ _ _ _ l) as [[s|e|w] l1] eqn:E; simplify_eq;
      (split; [exact (SignEOTS_grows _ _ _ _ _ _ _ E)|]); [|constructor..].
    apply Forall_singleton. exact (SignEOTS_signed _ _ _ _ _ _ _ E).
  - destruct (SignBatchEOTS _ l) as [[rs|e|w] l1] eqn:E; simplify_eq;
      (split; [exact (SignBatchEOTS_grows _ _ _ _ E)|]); [|constructor..].
    by eapply batch_emissions_recorded.
  - injection HE as <- <-. split; [apply records_grow_refl|constructor].
Qed.

Lemma serve_all_inv qs : ∀ l es l',
  serve_all qs l = (es, l') → grows l l' ∧ Forall (emission_recorded l') es.
Proof.
  induction qs as [|[now q] qs IH]; intros l es l' HE; simpl in HE.
  - simplify_eq. split; [apply records_grow_refl|constructor].
  - destruct (serve q (set_now l now)) as [es1 l1] eqn:E1.
    destruct (serve_all qs l1) as [es2 l2] eqn:E2. simplify_eq.
    apply serve_inv in E1 as [Hg1 H1']. apply IH in E2 as [Hg2 H2'].
    split; [by eapply records_grow_trans|]. apply Forall_app. split; [|done].
    eapply Forall_impl; [exact H1'|]. intros e. by apply signed_grows.
Qed.
End history_lemmas.

(** *** Keys and randomness *)

Section key_lemmas.
Context {K D : Type} `{Keyring K} `{KvLaws D} `{BigEndianLaws} `{CodecLaws pSigningRecord}
  `{CryptoLaws} `{Bip39} `{RandFuel}.
Local Abbreviation lm := (LocalEOTSManager K D).
Implicit Types l : lm.

Lemma getEOTSPrivKey_ok pk l k l' :
  getEOTSPrivKey pk l = (Ok k, l') → SerializePubKey (PubKey k) = pk.
Proof.
  unfold getEOTSPrivKey. intros HE. inv_bind HE. inv_bind HE. inv_bind HE.
  apply deref_ok in E1 as [-> ->]. case_bool_decide; [|done]. by injection HE as -> _.
Qed.

Lemma CreateRandomnessPairList_ok pk c h n o l prs l' :
  CreateRandomnessPairList pk c h n o l = (Ok prs, l') →
  Interval (apply_options o) ≠ Some 0%N ∧
  ∃ k, getEOTSPrivKey pk l = (Ok k, l') ∧ length prs = N.to_nat n ∧
    ∀ i : N, (i < n)%N → ∃ privRand pubRand,
      getRandomnessPair k c (rand_height (apply_options o) h i) = Ok (privRand, pubRand)
      ∧ prs !! N.to_nat i = Some pubRand.
Proof.
  unfold CreateRandomnessPairList. case_bool_decide as Hi; [done|]. intros HE. split; [done|].
  inv_bind HE. injection HE as HE <-. exists a. split; [done|].
  pose proof (for_append_length _ _ _ _ HE) as Hl. split; [done|]. intros i Hin.
  destruct (lookup_lt_is_Some_2 prs (N.to_nat i)) as [pr Hpr]; [lia|].
  pose proof (for_append_lookup _ _ _ _ _ _ HE Hpr) as Hf.
  rewrite N.add_0_l, N2Nat.id in Hf.
  apply outcome_bind_ok in Hf as ([privRand pubRand] & Hr%wrap_err_ok & [= <-]). eauto.
Qed.

#[export] Instance local_randomness : EOTSRandomness lm.
Proof.
  refine {| em_pubrand l pk c h f := ∃ k privRand,
    (getEOTSPrivKey pk l).1 = Ok k ∧ getRandomnessPair k c h = Ok (privRand, f) |}.
  intros pk c start n l prs l' HE Hr. change (em_CreateRandomnessPairList pk c start n [])
    with (CreateRandomnessPairList pk c start n [] : M lm _) in HE.
  apply CreateRandomnessPairList_ok in HE as (_ & k & Hk & Hl & Hall). split; [done|].
  intros i f Hi. pose proof (lookup_lt_Some _ _ _ Hi) as Hlt.
  destruct (Hall (N.of_nat i)) as (privRand & pubRand & Hg & Hp); [lia|].
  rewrite Nat2N.id, Hi in Hp. injection Hp as <-. unfold rand_height in Hg. simpl in Hg.
  rewrite u64_add_small in Hg by lia. exists k, privRand. by rewrite Hk.
Defined.

(** Signing a height that has no record looks the key up like the other
    operations do. *)
Lemma SignEOTS_fresh_key pk c m h l s l' :
  SignEOTS pk c m h l = (Ok s, l') →
  (GetSignRecord pk c h (lm_es l)).1 = Ok None →
  ∃ k l1, getEOTSPrivKey pk l = (Ok k, l1) ∧ signs k pk c m h s.
Proof.
  unfold SignEOTS. intros HE Hnone. inv_bind HE.
  apply on_es_same in E as [-> E]; [|apply GetSignRecord_same].
  rewrite E in Hnone. simpl in Hnone. injection Hnone as ->.
  inv_bind HE. inv_bind HE. inv_bind HE. apply deref_ok in E2 as [-> ->].
  destruct (bool_decide _) eqn:Epk; simpl in HE; [|done].
  exists a1, s1. split.
  - unfold getEOTSPrivKey. erewrite go_bind_run; [|by apply go_wrap_run].
    erewrite go_bind_run; [|done]. erewrite go_bind_run; [|done]. by rewrite Epk.
  - btests. split; [done|]. inv_bind HE. destruct a0 as [privRand pubRand]. inv_bind HE.
    inv_bind HE. inv_bind HE. injection HE as -> _. eauto.
Qed.

Lemma GetEOTSKeyName_run pk (d : D) r d' :
  GetEOTSKeyName pk d = (r, d') → GetEOTSKeyName pk d' = (r, d').
Proof. intros E. by pose proof (GetEOTSKeyName_same _ _ _ _ E) as ->. Qed.

(** With the file keyring the key of a name is the unlocked one. *)
Lemma eotsPrivKey_file name l :
  kr_Backend (lm_kr l) = BackendFile →
  eotsPrivKeyFromKeyName name l =
    match lm_privateKeys l !! name with
    | Some (Some k) => (Ok (Some k), l)
    | Some None => (Err (unlock_hint name (EText ("private key is nil for key name: " +:+ name))), l)
    | None => (Err (unlock_hint name
                      (EText ("private key not found in map for key name: " +:+ name))), l)
    end.
Proof.
  intros Hf. unfold eotsPrivKeyFromKeyName. erewrite go_bind_run; [|reflexivity].
  rewrite bool_decide_eq_false_2 by (by rewrite Hf). rewrite bool_decide_eq_true_2 by done.
  unfold getKeyFromMap. go_unfold. by destruct (lm_privateKeys l !! name) as [[k|]|].
Qed.

Lemma getKeyFromKeyring_frame name p l r l' :
  getKeyFromKeyring name p l = (r, l') →
  lm_kr l' = lm_kr l ∧ lm_privateKeys l' = lm_privateKeys l.
Proof.
  assert (PreOrder (λ l l' : lm, lm_kr l' = lm_kr l ∧ lm_privateKeys l' = lm_privateKeys l)).
  { split; [done|]. intros ??? [??] [??]. split; congruence. }
  intros HE. revert HE. generalize r. clear r. intros r HE.
  refine ((_ : preserves (λ l l' : lm, lm_kr l' = lm_kr l ∧ lm_privateKeys l' = lm_privateKeys l)
             (getKeyFromKeyring name p)) _ _ _ HE).
  unfold getKeyFromKeyring. solve_preserves.
  - by intros l1 r1 l1' [= _ <-].
  - intros l1 r1 l1'. unfold kr_KeyM. destruct (kr_Key _ _ _). by intros [= _ <-].
Qed.

Lemma Unlock_ok pk p l l' :
  Unlock pk p l = (Ok (), l') →
  ∃ name k, GetEOTSKeyName pk (lm_es l) = (Ok name, lm_es l)
    ∧ lm_privateKeys l !! name = None ∧ lm_es l' = lm_es l ∧ lm_kr l' = lm_kr l
    ∧ lm_privateKeys l' = <[name := Some k]> (lm_privateKeys l).
Proof.
  unfold Unlock. intros HE. inv_bind HE.
  apply on_es_same in E as [-> E]; [|apply GetEOTSKeyName_same].
  inv_bind HE. pose proof (getKeyFromKeyring_keeps _ _ _ _ _ E0) as [Es _].
  apply getKeyFromKeyring_frame in E0 as [Ek Ep].
  erewrite go_bind_run in HE; [|reflexivity]. case_bool_decide as Hs; [done|].
  rewrite <- eq_None_not_Some in Hs. injection HE as <-. simpl.
  exists a, a0. rewrite Ep in *. by rewrite Es, Ek.
Qed.
End key_lemmas.

(** ** Properties *)

Section properties.
Context {K D : Type} `{Keyring K} `{KvLaws D} `{BigEndianLaws} `{CodecLaws pSigningRecord}
  `{CryptoLaws} `{Bip39} `{RandFuel}.
Local Abbreviation lm := (LocalEOTSManager K D).
Implicit Types l : lm.

(** C2: the daemon never double-signs.  Over any history of requests (key
    creation, unlocking, randomness, single and batched signing, restarts,
    in any order and with any failures of the database or the keyring), two
    signatures it hands out for the same EOTS key, chain and height are for
    the same message and are the same signature. *)
Theorem no_double_sign (qs : list (Z * request)) l e1 e2
    (He1 : e1 ∈ (serve_all qs l).1) (He2 : e2 ∈ (serve_all qs l).1)
    (Hpk : e_pk e1 = e_pk e2) (Hc : e_chain e1 = e_chain e2) (Hh : e_height e1 = e_height e2) :
  e_msg e1 = e_msg e2 ∧ e_sig e1 = e_sig e2.
Proof.
  destruct (serve_all qs l) as [es l'] eqn:E. simpl in *.
  apply serve_all_inv in E as [_ Hall]. rewrite Forall_forall in Hall.
  pose proof (Hall _ He1) as R1. pose proof (Hall _ He2) as R2. unfold emission_recorded in *.
  rewrite Hpk, Hc, Hh in R1. by eapply signed_functional.
Qed.

(** C4: signing is idempotent and protected: once a height was signed, asking
    again with the same message returns the same signature, asking with any
    other message fails with [ErrDoubleSign], and neither changes the
    manager. *)
Theorem SignEOTS_binds pk c m h l s l' m'
    (Hsign : SignEOTS pk c m h l = (Ok s, l')) (Hopen : kv_begin (lm_es l') = None) :
  SignEOTS pk c m' h l' = (if bool_decide (m' = m) then Ok s else Err ErrDoubleSign, l').
Proof.
  apply SignEOTS_replay; [done| |by eapply SignEOTS_signed].
  apply SignEOTS_ok in Hsign as [(r & Hr & _ & _ & ->)|(k & _ & Hs)].
  - destruct Hr as (b & Hb & _). by eapply kv_get_has.
  - apply SaveSignRecord_ok in Hs as (Hh & _ & b & _ & Hp). by rewrite (kv_put_has _ _ _ _ _ _ Hp).
Qed.

(** C5: a batch agrees with signing one by one.  After a successful batch the
    responses are, in order, for a subset of the requested heights; a height
    that is answered carries exactly the signature [SignEOTS] now returns
    for its message, and a height is left out exactly when [SignEOTS] now
    refuses it with [ErrDoubleSign]. *)
Theorem SignBatchEOTS_agrees req l rs l' q
    (Hbatch : SignBatchEOTS req l = (Ok rs, l')) (Hopen : kv_begin (lm_es l') = None)
    (Hq : q ∈ sbr_SignRequest req) :
  let single := SignEOTS (sbr_UID req) (sbr_ChainID req) (sdr_Msg q) (sdr_Height q) l' in
  (resp_Height <$> rs `sublist_of` sdr_Height <$> sbr_SignRequest req)
  ∧ ((∃ s, (mkSignDataResponse _ s (sdr_Height q)) ∈ rs ∧ single = (Ok s, l'))
     ∨ ((sdr_Height q ∉ resp_Height <$> rs) ∧ single = (Err ErrDoubleSign, l'))).
Proof.
  intros single. split.
  - pose proof (SignBatchEOTS_ok _ _ _ _ Hbatch) as (_ & k & ex & outs & _ & _ & Hall & -> & _).
    by eapply batch_heights.
  - assert (∀ m s, signed l' (sbr_UID req) (sbr_ChainID req) (sdr_Height q) m s →
              single = (if bool_decide (sdr_Msg q = m) then Ok s else Err ErrDoubleSign, l')) as Hrep.
    { intros m s Hs. apply SignEOTS_replay; [done| |done].
      destruct Hs as (r & (b & Hb & _) & _). by eapply kv_get_has. }
    destruct (SignBatchEOTS_each _ _ _ _ _ Hbatch Hq) as [(s & Hin & Hs)|(Hni & m & s & Hne & Hs)];
      rewrite (Hrep _ _ Hs).
    + left. exists s. by rewrite bool_decide_eq_true_2.
    + right. by rewrite bool_decide_eq_false_2.
Qed.

(** A batch that fails signs nothing: the signing records are exactly
    those from before; a batch that repeats a height is always refused with
    [ErrDuplicateHeight] before anything is read. *)
Theorem SignBatchEOTS_failed req l r l' (Hrun : SignBatchEOTS req l = (r, l'))
    (Hbad : is_Ok r = false) :
  lm_es l' = lm_es l
  ∧ (¬ NoDup (sdr_Height <$> sbr_SignRequest req) →
     l' = l ∧ ∃ e, r = Err e ∧ errors_Is e "ErrDuplicateHeight" = true).
Proof.
  split.
  - by eapply SignBatchEOTS_atomic.
  - intros Hnd%Validate_not_ok. destruct Hnd as [e He]. unfold SignBatchEOTS in Hrun.
    rewrite He in Hrun. injection Hrun as <- <-. split; [done|]. by eexists.
Qed.

(** C15: the public randomness list has the requested length, its [i]-th entry
    is the public part of the nonce of height [start + i * interval] (or
    [start + i] without an interval) under the key that matches the EOTS
    public key, and a signature for that height later uses exactly that
    nonce; the interval 0 is refused. *)
Theorem committed_randomness_is_used pk c start num o l prs l1 m h i l2 s l3
    (Hrand : CreateRandomnessPairList pk c start num o l = (Ok prs, l1))
    (Hi : (i < num)%N) (Hh : h = rand_height (apply_options o) start i)
    (Hsame : (getEOTSPrivKey pk l2).1 = (getEOTSPrivKey pk l).1)
    (Hfresh : (GetSignRecord pk c h (lm_es l2)).1 = Ok None)
    (Hsign : SignEOTS pk c m h l2 = (Ok s, l3)) :
  length prs = N.to_nat num ∧ Interval (apply_options o) ≠ Some 0%N ∧
  ∃ k privRand pubRand,
    SerializePubKey (PubKey k) = pk
    ∧ getRandomnessPair k c h = Ok (privRand, pubRand)
    ∧ prs !! N.to_nat i = Some pubRand
    ∧ eots_Sign k privRand m = Ok s.
Proof.
  apply CreateRandomnessPairList_ok in Hrand as (Hint & k & Hk & Hl & Hall).
  apply SignEOTS_fresh_key in Hsign as (k' & l4 & Hk' & Hpk & privRand & pubRand & Hr & Hs); [|done].
  rewrite Hk, Hk' in Hsame. simpl in Hsame. injection Hsame as ->.
  destruct (Hall i Hi) as (privRand' & pubRand' & Hr' & Hpr). rewrite <- Hh, Hr in Hr'.
  injection Hr' as <- <-. split; [done|]. split; [done|]. by exists k, privRand, pubRand.
Qed.

(** A fresh height is signed: when the database is open and has no record
    for the height, the key of the public key is available, some draw of the
    nonce is acceptable within the fuel and the record can be written,
    [SignEOTS] returns the signature made with that nonce. *)
Theorem SignEOTS_signs pk c m h l k l1 (n : nat) privRand s d'
    (Hrec : GetSignRecord pk c h (lm_es l) = (Ok None, lm_es l))
    (Hkey : getEOTSPrivKey pk l = (Ok k, l1))
    (Hrej : ∀ j : nat, (j < n)%nat → rand_sample (SerializePrivKey k) c h (N.of_nat j) = None)
    (Hacc : rand_sample (SerializePrivKey k) c h (N.of_nat n) = Some privRand)
    (Hn : (N.of_nat n < two64)%N) (Hfuel : (n < rand_fuel)%nat)
    (Hsig : eots_Sign k privRand m = Ok s)
    (Hsave : SaveSignRecord (lm_now l) h c m pk (ModN_Bytes s) (lm_es l) = (Ok (), d')) :
  ∃ l', SignEOTS pk c m h l = (Ok s, l') ∧ lm_es l' = d'.
Proof.
  pose proof (getEOTSPrivKey_keeps _ _ _ _ Hkey) as [Ees Enow].
  unfold getEOTSPrivKey in Hkey. inv_bind Hkey. inv_bind Hkey. inv_bind Hkey.
  apply deref_ok in E1 as [-> ->]. case_bool_decide as Hpk; [|done]. injection Hkey as -> ->.
  unfold SignEOTS. erewrite go_bind_run; [|by apply go_wrap_run, on_es_run]. rewrite set_es_id.
  erewrite go_bind_run; [|by apply go_wrap_run].
  erewrite go_bind_run; [|by apply go_wrap_run].
  erewrite go_bind_run; [|done]. rewrite bool_decide_eq_true_2 by done. simpl.
  unfold getRandomnessPair, GenerateRandomness.
  rewrite (loop_first _ _ _ rand_fuel 0 n Hrej Hfuel Hn _ Hacc).
  erewrite go_bind_run; [|reflexivity]. simpl. rewrite Hsig.
  erewrite go_bind_run; [|reflexivity]. erewrite go_bind_run; [|reflexivity].
  erewrite go_bind_run; [|apply go_wrap_run, on_es_run; by rewrite Ees, Enow].
  by eexists.
Qed.

(** With the file keyring the private key of an EOTS key is available
    only after [Unlock]: before, every operation that needs it fails; after a
    successful [Unlock] the operations use the unlocked key, provided it
    matches the public key, and unlocking again is refused. *)
Theorem Unlock_enables pk p l l' (Hfile : kr_Backend (lm_kr l) = BackendFile)
    (Hrun : Unlock pk p l = (Ok (), l')) :
  (∃ e, getEOTSPrivKey pk l = (Err e, l))
  ∧ (∃ k, getEOTSPrivKey pk l' =
       (if bool_decide (SerializePubKey (PubKey k) = pk) then Ok k else Err ErrPkMismatch, l'))
  ∧ ∀ p', is_Ok (Unlock pk p' l').1 = false.
Proof.
  apply Unlock_ok in Hrun as (name & k & Hname & Hnone & Hes & Hkr & Hkeys).
  assert (GetEOTSKeyName pk (lm_es l') = (Ok name, lm_es l')) as Hname' by by rewrite Hes.
  split_and!.
  - eexists. unfold getEOTSPrivKey.
    erewrite go_bind_run; [|by apply go_wrap_run, on_es_run]. rewrite set_es_id.
    erewrite go_bind_err; [done|]. by rewrite eotsPrivKey_file, Hnone.
  - exists k. unfold getEOTSPrivKey.
    erewrite go_bind_run; [|by apply go_wrap_run, on_es_run]. rewrite set_es_id.
    erewrite go_bind_run; [|by rewrite eotsPrivKey_file, Hkeys, lookup_insert_eq by congruence].
    erewrite go_bind_run; [|done]. by case_bool_decide.
  - intros p'. destruct (Unlock pk p' l') as [[[]| |] l2] eqn:E; [|done..].
    apply Unlock_ok in E as (name' & k' & Hn' & Hnone' & _). rewrite Hname' in Hn'.
    injection Hn' as <-. by rewrite Hkeys, lookup_insert_eq in Hnone'.
Qed.
End properties.

(** ** A concrete manager, for the witnesses *)

Module LmToy.
Export EotsToy.
#[export] Instance toy_bip39 : Bip39 := {|
  bip39_NewEntropy _ := Ok [Byte.x07];
  bip39_NewMnemonic _ := Ok "abandon";
|}.
#[export] Instance toy_fuel : RandFuel := 4%nat.

Definition toy_lm_init (backend : string) : LocalEOTSManager toy_keyring MapDb.db :=
  mkLM {| tk_backend := backend; tk_names := [] |} toy_store "" ∅ 5.

(** one key, "fp" *)
Definition toy_lm : LocalEOTSManager toy_keyring MapDb.db :=
  (CreateKey "fp" "" (toy_lm_init BackendTest)).2.
Definition toy_lm_file : LocalEOTSManager toy_keyring MapDb.db :=
  (CreateKey "fp" "12345678" (toy_lm_init BackendFile)).2.
Definition toy_chain : bytes := bytes_of_string "bbn-1".
End LmToy.

(** ** Witnesses *)

Module LocalManagerWitness.
Import LmToy.

Definition w_pk : bytes := toy_pk true.
Definition w_m1 : bytes := [Byte.x01].
Definition w_m2 : bytes := [Byte.x02].
Definition w_req : SignBatchEOTSRequest :=
  mkSignBatchEOTSRequest w_pk toy_chain [mkSignDataRequest w_m2 10; mkSignDataRequest w_m2 11].
Definition w_qs : list (Z * request) :=
  [ (1%Z, RSignEOTS w_pk toy_chain w_m1 10); (2%Z, RRestart);
    (3%Z, RSignBatchEOTS w_req); (4%Z, RSignEOTS w_pk toy_chain w_m1 10) ].
Definition w_sig : ModNScalar :=
  ok_or 0%N (SignEOTS w_pk toy_chain w_m1 10 toy_lm).1.
Definition w_lm1 := (SignEOTS w_pk toy_chain w_m1 10 toy_lm).2.

Lemma w_signed : SignEOTS w_pk toy_chain w_m1 10 toy_lm = (Ok w_sig, w_lm1).
Proof. apply run_ok. vm_eq. Qed.

Definition w_e : emission := mkEmission _ w_pk toy_chain 10 w_m1 w_sig.

Lemma no_double_sign_witness :
  length (serve_all w_qs toy_lm).1 = 3%nat
  ∧ (serve_all w_qs toy_lm).1 !! 0%nat = Some w_e
  ∧ (serve_all w_qs toy_lm).1 !! 2%nat = Some w_e
  ∧ e_msg w_e = e_msg w_e ∧ e_sig w_e = e_sig w_e.
Proof.
  split; [vm_eq|]. split; [vm_eq|]. split; [vm_eq|].
  apply (no_double_sign w_qs toy_lm w_e w_e).
  - apply (list_elem_of_lookup_2 _ 0). vm_eq.
  - apply (list_elem_of_lookup_2 _ 2). vm_eq.
  - done.
  - done.
  - done.
Defined.

Lemma SignEOTS_binds_witness :
  SignEOTS w_pk toy_chain w_m1 10 toy_lm = (Ok w_sig, w_lm1)
  ∧ SignEOTS w_pk toy_chain w_m2 10 w_lm1 = (Err ErrDoubleSign, w_lm1).
Proof.
  split; [exact w_signed|].
  rewrite (SignEOTS_binds w_pk toy_chain w_m1 10 toy_lm w_sig w_lm1 w_m2); [done|exact w_signed|done].
Defined.

Definition w_batch : list SignDataResponse :=
  ok_or [] (SignBatchEOTS w_req w_lm1).1.
Definition w_lm2 := (SignBatchEOTS w_req w_lm1).2.

Lemma SignBatchEOTS_agrees_witness :
  resp_Height <$> w_batch = [11%N] ∧
  (resp_Height <$> w_batch `sublist_of` sdr_Height <$> sbr_SignRequest w_req).
Proof.
  split; [vm_eq|].
  apply (SignBatchEOTS_agrees w_req w_lm1 w_batch w_lm2 (mkSignDataRequest w_m2 10)).
  - apply run_ok. vm_eq.
  - done.
  - by left.
Defined.

Lemma SignBatchEOTS_failed_witness :
  let req := mkSignBatchEOTSRequest w_pk toy_chain [mkSignDataRequest w_m2 12; mkSignDataRequest w_m1 12] in
  ∃ e, (SignBatchEOTS req w_lm1).1 = Err e ∧ errors_Is e "ErrDuplicateHeight" = true.
Proof.
  intros req.
  destruct (SignBatchEOTS_failed req w_lm1 (SignBatchEOTS req w_lm1).1 (SignBatchEOTS req w_lm1).2)
    as [_ Hdup]; [apply run_eq; reflexivity|vm_eq|].
  destruct Hdup as [_ He]; [|done].
  intros Hnd. by apply NoDup_cons in Hnd as [Hni _]; set_solver.
Defined.

Definition w_prs : list FieldVal :=
  ok_or [] (CreateRandomnessPairList w_pk toy_chain 8 3 [] toy_lm).1.

Lemma committed_randomness_is_used_witness :
  ∃ k privRand pubRand,
    SerializePubKey (PubKey k) = w_pk
    ∧ getRandomnessPair k toy_chain 10 = Ok (privRand, pubRand)
    ∧ w_prs !! 2%nat = Some pubRand ∧ eots_Sign k privRand w_m1 = Ok w_sig.
Proof.
  apply (committed_randomness_is_used w_pk toy_chain 8 3 [] toy_lm w_prs
           (CreateRandomnessPairList w_pk toy_chain 8 3 [] toy_lm).2 w_m1 10 2 toy_lm w_sig w_lm1).
  - apply run_ok. vm_eq.
  - lia.
  - done.
  - done.
  - vm_eq.
  - exact w_signed.
Defined.

Definition w_rand : ModNScalar :=
  (ModN_SetByteSlice (hmac_sha256 [Byte.x02] (rand_input toy_chain 10 0))).1.

Lemma SignEOTS_signs_witness :
  ∃ l', SignEOTS w_pk toy_chain w_m1 10 toy_lm = (Ok w_sig, l') ∧ lm_es l' = lm_es w_lm1.
Proof.
  apply (SignEOTS_signs w_pk toy_chain w_m1 10 toy_lm true (getEOTSPrivKey w_pk toy_lm).2 0 w_rand
           w_sig (lm_es w_lm1)).
  - vm_eq.
  - vm_eq.
  - intros j Hj. lia.
  - vm_eq.
  - done.
  - unfold rand_fuel, toy_fuel. lia.
  - vm_eq.
  - vm_eq.
Defined.

Lemma Unlock_enables_witness :
  let l' := (Unlock w_pk "12345678" toy_lm_file).2 in
  (∃ e, getEOTSPrivKey w_pk toy_lm_file = (Err e, toy_lm_file))
  ∧ (∃ k, getEOTSPrivKey w_pk l' =
       (if bool_decide (SerializePubKey (PubKey k) = w_pk) then Ok k else Err ErrPkMismatch, l'))
  ∧ ∀ p', is_Ok (Unlock w_pk p' l').1 = false.
Proof.
  intros l'. apply (Unlock_enables w_pk "12345678" toy_lm_file l'); [done|apply run_eq; vm_eq].
Defined.
End LocalManagerWitness.
