(* ===== verification/Lifecycle.v ===== *)
(** * Servers and process lifecycle
      (src/eotsmanager/service/server.go, src/finality-provider/service/server.go,
       src/metrics/server.go, src/eotsmanager/localmanager.go: NewLocalEOTSManager,
       src/eotsmanager/cmd/eotsd/daemon/start.go)

    Both daemons run the same way: a metrics server, a listener, a gRPC server
    on it, then waiting for the end of the context, with the releases of what
    was acquired as deferred calls.  What a run does to the outside is a trace
    of effects; the state also says whether the database is open.

    Requests are served while the server waits: that part is an argument
    [serve], a call on the daemon's own state.  It ends with the context, or
    with a [Crash] when some goroutine panics or calls [logger.Fatal] (the
    metrics server does when it cannot listen); then the process is gone and
    the deferred calls do not run. *)

From Stdlib Require Import NArith ZArith Lia.
From stdpp Require Import base gmap strings list pretty.
From S2P Require Import Prelude Kvdb External Config Toy Paths ConfigFiles EotsStore LocalManager.

(** ** Effects *)

(** The options of a gRPC server: the key of the HMAC interceptor and the
    limits of messages, if set. *)
Record grpc_options := mkGrpcOptions {
  opt_hmac : option string;
  opt_maxRecv : option Z;
  opt_maxSend : option Z
}.

Inductive effect :=
| DbOpened
| MetricsStarted (addr : string)
| Listening (addr : string)
| GrpcCreated (opts : grpc_options)
| ServingRequests
| GrpcStopped
| ListenerClosed
| DbClosed
| MetricsStopped.

(** [X] is the state of the daemon proper; [p_started] the int32 counter of the
    server. *)
Record proc (X : Type) := mkProc {
  p_os : os;
  p_app : option X;
  p_db_open : bool;
  p_started : Z;
  p_trace : list effect
}.
Arguments mkProc {X}.
Arguments p_os {X}.
Arguments p_app {X}.
Arguments p_db_open {X}.
Arguments p_started {X}.
Arguments p_trace {X}.

(** [atomic.AddInt32] *)
Definition i32_add (a b : Z) : Z := ((a + b + 2 ^ 31) mod 2 ^ 32 - 2 ^ 31)%Z.

(** [defer d()] around the rest [m] of the function *)
Definition go_defer {S A} (m : M S A) (d : S → S) : M S A := λ s,
  match m s with
  | (Crash w, s') => (Crash w, s')
  | (r, s') => (r, d s')
  end.

Section server.
Context {X : Type}.
Implicit Types p : proc X.

Definition emit (e : effect) p : proc X :=
  mkProc (p_os p) (p_app p) (p_db_open p) (p_started p) (p_trace p ++ [e]).
Definition do_effect (e : effect) : M (proc X) unit := λ p, (Ok (), emit e p).
Definition with_started (n : Z) p : proc X :=
  mkProc (p_os p) (p_app p) (p_db_open p) n (p_trace p).
Definition with_app (x : option X) p : proc X :=
  mkProc (p_os p) x (p_db_open p) (p_started p) (p_trace p).
Definition with_db (b : bool) p : proc X :=
  mkProc (p_os p) (p_app p) b (p_started p) (p_trace p).
Definition with_os (w : os) p : proc X :=
  mkProc w (p_app p) (p_db_open p) (p_started p) (p_trace p).

Definition on_os {A} (m : M os A) : M (proc X) A := zoom p_os with_os m.
(** A call on the daemon's state. *)
Definition on_app {A} (m : M X A) : M (proc X) A := λ p,
  match p_app p with
  | None => (Crash "nil pointer dereference", p)
  | Some x => let '(r, x') := m x in (r, with_app (Some x') p)
  end.

(** metrics/server.go: [Start] listens in a goroutine; [Stop] shuts it down and
    only logs an error. *)
Definition metrics_Start (addr : string) : M (proc X) unit := do_effect (MetricsStarted addr).
Definition metrics_Stop p : proc X := emit MetricsStopped p.

(** The deferred function that closes the database and stops the metrics; an
    error of [Close] is only logged. *)
Definition close_db p : proc X := metrics_Stop (emit DbClosed (with_db false p)).

(** [net.Listen("tcp", addr)] *)
Variable net_Listen : string → outcome unit.

(** [startGrpcListen] returns when the goroutines serve. *)
Definition startGrpcListen : M (proc X) unit := do_effect ServingRequests.

(** [RunUntilShutdown] of either server, given the fields of its configuration
    and the options of its gRPC server. *)
Definition run_server (metrics : option MetricsConfig) `{NetParsers} (listenAddr : string)
    (opts : grpc_options) (serve : M X unit) : M (proc X) unit :=
  p ← go_get;
  let started := i32_add (p_started p) 1 in
  _ ← go_put (with_started started p);
  if negb (bool_decide (started = 1%Z)) then mret ()
  else
    match metrics with
    | None => go_crash "nil pointer dereference"
    | Some m =>
        promAddr ← go_wrap "failed to get prometheus address" (go_lift (Metrics_Address m));
        _ ← metrics_Start promAddr;
        go_defer
          (_ ← go_wrap ("failed to listen on " +:+ listenAddr) (go_lift (net_Listen listenAddr));
           _ ← do_effect (Listening listenAddr);
           go_defer
             (_ ← do_effect (GrpcCreated opts);
              go_defer (_ ← startGrpcListen; on_app serve) (emit GrpcStopped))
             (emit ListenerClosed))
          close_db
    end.
End server.

(** eotsmanager/service/server.go *)
Definition eots_options (cfg : EotsConfig) : grpc_options :=
  let limit := if (0 <? ecfg_GRPCMaxContentLength cfg)%Z then Some (ecfg_GRPCMaxContentLength cfg) else None in
  mkGrpcOptions (if bool_decide (ecfg_HMACKey cfg = "") then None else Some (ecfg_HMACKey cfg)) limit limit.
Definition eots_RunUntilShutdown {X} `{NetParsers} (net_Listen : string → outcome unit) (cfg : EotsConfig)
    (serve : M X unit) : M (proc X) unit :=
  run_server net_Listen (ecfg_Metrics cfg) (ecfg_RPCListener cfg) (eots_options cfg) serve.

(** finality-provider/service/server.go *)
Definition fpd_RunUntilShutdown {X} `{NetParsers} (net_Listen : string → outcome unit) (cfg : Config)
    (serve : M X unit) : M (proc X) unit :=
  run_server net_Listen (cfg_Metrics cfg) (cfg_RPCListener cfg) (mkGrpcOptions None None None) serve.

(** ** What a run does *)

Section runs.
Context {X : Type} `{NetParsers} (net_Listen : string → outcome unit).
Implicit Types p : proc X.

(** The trace of a run that got as far as its listener. *)
Definition full_run (promAddr listenAddr : string) (opts : grpc_options) : list effect :=
  [MetricsStarted promAddr; Listening listenAddr; GrpcCreated opts; ServingRequests;
   GrpcStopped; ListenerClosed; DbClosed; MetricsStopped].

Lemma i32_first n : i32_add n 1 = 1%Z → (- 2 ^ 31 ≤ n < 2 ^ 31)%Z → n = 0%Z.
Proof.
  unfold i32_add. intros E Hn. destruct (decide (n + 1 < 2 ^ 31)%Z).
  - rewrite Z.mod_small in E by lia. lia.
  - replace (n + 1 + 2 ^ 31)%Z with (0 + 1 * 2 ^ 32)%Z in E by lia. rewrite Z.mod_add in E by lia.
    rewrite Z.mod_small in E by lia. lia.
Qed.

Lemma go_defer_run {S A} (m : M S A) d s r s' :
  go_defer m d s = (r, s') →
  ∃ s1, m s = (r, s1) ∧ s' = match r with Crash _ => s1 | _ => d s1 end.
Proof. unfold go_defer. destruct (m s) as [[] s1]; intros [= <- <-]; eauto. Qed.

(** A call on the daemon's state leaves the rest of the process alone. *)
Lemma on_app_frame {A} (m : M X A) p r p' :
  on_app m p = (r, p') →
  p_os p' = p_os p ∧ p_db_open p' = p_db_open p ∧ p_started p' = p_started p ∧ p_trace p' = p_trace p.
Proof. unfold on_app. destruct (p_app p) as [x|]; [destruct (m x)|]; intros [= <- <-]; done. Qed.

Lemma run_server_again metrics addr opts serve p r p' :
  (- 2 ^ 31 ≤ p_started p < 2 ^ 31)%Z → p_started p ≠ 0%Z →
  run_server net_Listen metrics addr opts serve p = (r, p') →
  r = Ok () ∧ p' = with_started (i32_add (p_started p) 1) p.
Proof.
  intros Hr Hn. unfold run_server, mbind, M_bind, go_bind, go_get, go_put. simpl.
  case_bool_decide as E; [by apply i32_first in E|]. by intros [= <- <-].
Qed.

(** Serving ends in the middle of the releases, or with the process. *)
Lemma serve_defers opts (serve : M X unit) p r p' :
  go_defer
    (_ ← do_effect (GrpcCreated opts);
     go_defer (_ ← startGrpcListen; on_app serve) (emit GrpcStopped))
    (emit ListenerClosed) p = (r, p') →
  p_db_open p' = p_db_open p ∧ p_started p' = p_started p
  ∧ match r with
    | Crash _ => p_trace p' = p_trace p ++ [GrpcCreated opts; ServingRequests]
    | _ => p_trace p' = p_trace p ++ [GrpcCreated opts; ServingRequests; GrpcStopped; ListenerClosed]
    end.
Proof.
  intros (p1 & E1 & ->)%go_defer_run.
  rewrite (go_bind_run _ _ _ () (emit (GrpcCreated opts) p)) in E1 by done.
  apply go_defer_run in E1 as (p2 & E2 & ->).
  rewrite (go_bind_run _ _ _ () (emit ServingRequests (emit (GrpcCreated opts) p))) in E2 by done.
  apply on_app_frame in E2 as (_ & Hdb & Hst & Htr). simpl in *.
  destruct r; simpl; rewrite Hdb, Hst, Htr; rewrite <-?app_assoc; done.
Qed.

(** A first run with a valid metrics address, by outcome. *)
Lemma run_server_first m addr opts serve p r p' promAddr :
  p_started p = 0%Z → Metrics_Address m = Ok promAddr →
  run_server net_Listen (Some m) addr opts serve p = (r, p') →
  p_started p' = 1%Z ∧
  match r with
  | Ok _ => p_trace p' = p_trace p ++ full_run promAddr addr opts ∧ p_db_open p' = false
  | Err _ =>
      p_db_open p' = false
      ∧ (p_trace p' = p_trace p ++ [MetricsStarted promAddr; DbClosed; MetricsStopped]
         ∨ p_trace p' = p_trace p ++ full_run promAddr addr opts)
  | Crash _ => p_db_open p' = p_db_open p
  end.
Proof.
  intros H0 Hm. unfold run_server. rewrite (go_bind_run _ _ _ p p) by done.
  rewrite (go_bind_run _ _ _ () (with_started (i32_add (p_started p) 1) p)) by done. rewrite H0. simpl.
  rewrite (go_bind_run _ _ _ promAddr (with_started 1 p)) by (unfold go_wrap, go_lift; by rewrite Hm).
  rewrite (go_bind_run _ _ _ () (emit (MetricsStarted promAddr) (with_started 1 p))) by done.
  intros (p1 & E1 & ->)%go_defer_run. unfold go_wrap, go_lift in E1.
  destruct (net_Listen addr) as [u|e|w] eqn:El; unfold mbind at 1, M_bind at 1, go_bind at 1 in E1.
  - simpl in E1. apply serve_defers in E1 as (Hdb & Hst & Htr).
    destruct r; simpl; simpl in Hdb, Hst, Htr; rewrite ?Htr, <-?app_assoc; auto.
  - injection E1 as <- <-. simpl. rewrite <-!app_assoc. auto.
  - injection E1 as <- <-. done.
Qed.

(** The daemon's own state after a run is what serving left: nothing else
    touches it. *)
Lemma run_server_app m addr opts (serve : M X unit) p u p' x :
  p_started p = 0%Z → p_app p = Some x →
  run_server net_Listen (Some m) addr opts serve p = (Ok u, p') →
  ∃ x', serve x = (Ok u, x') ∧ p_app p' = Some x'.
Proof.
  intros H0 Hx. unfold run_server. rewrite (go_bind_run _ _ _ p p) by done.
  rewrite (go_bind_run _ _ _ () (with_started (i32_add (p_started p) 1) p)) by done. rewrite H0. simpl.
  intros HE. inv_bind HE. inv_bind HE. injection E0 as <- <-.
  apply go_defer_run in HE as (p1 & HE & ->). inv_bind HE. inv_bind HE. injection E1 as <- <-.
  apply go_defer_run in HE as (p2 & HE & ->). inv_bind HE. injection E1 as <- <-.
  apply go_defer_run in HE as (p3 & HE & ->). inv_bind HE. injection E1 as <- <-.
  unfold on_app in HE. simpl in HE. rewrite Hx in HE. destruct (serve x) as [r x'] eqn:Es.
  injection HE as -> <-. simpl. eauto.
Qed.

(** One run of the EOTS server from its start, whatever happens to the
    requests: when it returns normally, the gRPC server was stopped and the
    listener closed before the database was closed, and the metrics server
    last; when it returns an error of the listener the database is closed
    too.  The server asks for an HMAC exactly when the configuration has a
    key.  A second run does nothing. *)
Theorem server_run_releases (cfg : EotsConfig) m (serve : M X unit) p r p'
    (Hcfg : EotsConfig_Validate cfg = Ok ()) (Hmetrics : ecfg_Metrics cfg = Some m)
    (Hfirst : p_started p = 0%Z)
    (Hrun : eots_RunUntilShutdown net_Listen cfg serve p = (r, p')) :
  ∃ promAddr, Metrics_Address m = Ok promAddr
  ∧ (opt_hmac (eots_options cfg) = None ↔ ecfg_HMACKey cfg = "")
  ∧ match r with
    | Ok _ => p_trace p' = p_trace p ++ full_run promAddr (ecfg_RPCListener cfg) (eots_options cfg)
        ∧ p_db_open p' = false
    | Err _ =>
        p_db_open p' = false
        ∧ (p_trace p' = p_trace p ++ [MetricsStarted promAddr; DbClosed; MetricsStopped]
           ∨ p_trace p' = p_trace p ++ full_run promAddr (ecfg_RPCListener cfg) (eots_options cfg))
    | Crash _ => p_db_open p' = p_db_open p
    end
  ∧ ∀ r2 p2, eots_RunUntilShutdown net_Listen cfg serve p' = (r2, p2) →
      r2 = Ok () ∧ p_trace p2 = p_trace p' ∧ p_db_open p2 = p_db_open p'.
Proof.
  assert (Metrics_Validate m = Ok ()) as Hv.
  { unfold EotsConfig_Validate in Hcfg. rewrite Hmetrics in Hcfg.
    destruct (ResolveTCPAddr _); [|done..]. repeat (case_bool_decide; simpl in Hcfg; try done);
    destruct (Metrics_Validate m) as [[]| |]; done. }
  eexists. split; [unfold Metrics_Address; by rewrite Hv|]. split.
  { unfold eots_options. simpl. by case_bool_decide. }
  unfold eots_RunUntilShutdown in *. rewrite Hmetrics in *.
  eapply run_server_first in Hrun as [H1 Hr]; [|done|unfold Metrics_Address; by rewrite Hv].
  split; [done|]. intros r2 p2 HE. apply run_server_again in HE as [-> ->]; [done|lia|lia].
Qed.
End runs.

(** ** Starting either daemon *)

Section starting.
Context `{NetParsers} {D : Type}.
Variable GetBoltBackend : BoltBackendConfig → M os D.

(** The address of the flag, checked, or that of the configuration; [sep] is
    the text between address and error in the message. *)
Definition listener_flag {S} (sep configured rpcListener : string) : M S string :=
  if bool_decide (rpcListener = "") then mret configured
  else
    match ResolveTCPAddr rpcListener with
    | Ok _ => mret rpcListener
    | Err e => go_fail (EWrap ("invalid RPC listener address " +:+ rpcListener +:+ sep) e "")
    | Crash w => go_crash w
    end.

Definition open_database {X} (db : option DBConfig) : M (proc X) D :=
  match db with
  | None => go_crash "nil pointer dereference"
  | Some c =>
      d ← go_wrap "failed to create db backend" (on_os (GetDBBackend GetBoltBackend c));
      p ← go_get;
      _ ← go_put (emit DbOpened (with_db true p));
      mret d
  end.
Definition set_app {X} (x : X) : M (proc X) unit := λ p, (Ok (), with_app (Some x) p).

(** Nothing has been started and the database is not open. *)
Definition fresh {X} (p : proc X) : Prop := p_started p = 0%Z ∧ p_db_open p = false ∧ p_trace p = [].

Lemma fresh_closed {X} (p : proc X) : fresh p → p_db_open p = false.
Proof. by intros (_ & ? & _). Qed.

Lemma on_os_fresh {X A} (m : M os A) (p : proc X) r p' : fresh p → on_os m p = (r, p') → fresh p'.
Proof. intros Hp (w & _ & ->)%zoom_inv. exact Hp. Qed.

Lemma listener_flag_ok {S} sep configured flag (s : S) r s' :
  listener_flag sep configured flag s = (r, s') →
  s' = s ∧ ∀ a, r = Ok a → a = if bool_decide (flag = "") then configured else flag.
Proof.
  unfold listener_flag. case_bool_decide; [by intros [= <- <-]; naive_solver|].
  destruct (ResolveTCPAddr flag); intros [= <- <-]; naive_solver.
Qed.

Lemma open_database_cases {X} db (p : proc X) r p' :
  fresh p → open_database db p = (r, p') →
  match r with
  | Ok _ => p_started p' = 0%Z ∧ p_db_open p' = true ∧ p_trace p' = [DbOpened]
  | _ => fresh p'
  end.
Proof.
  intros Hp. unfold open_database. destruct db as [c|]; [|by intros [= <- <-]].
  intros [(d & p1 & E & HE)|[(e & E & ->)|(w & E & ->)]]%go_bind_inv;
    apply go_wrap_inv in E as (r0 & E & _); apply (on_os_fresh _ _ _ _ Hp) in E; [|done..].
  unfold mbind, M_bind, go_bind, go_get, go_put in HE. injection HE as <- <-.
  destruct E as (Hs & Hd & Ht). simpl. by rewrite Ht.
Qed.

End starting.

(** ** eotsd start *)

Section eotsd.
Context `{Crypto} {K D : Type} `{!KvBackend D} `{NetParsers} `{Ini EotsConfig}.
(** [kvdb.GetBoltBackend], [keyring.New(service, backend, dir, ...)] and
    [net.Listen] *)
Variable GetBoltBackend : BoltBackendConfig → M os D.
Variable keyring_New : string → string → string → outcome K.
Variable net_Listen : string → outcome unit.
#[local] Abbreviation lm := (LocalEOTSManager K D).

(** store/eotsstore.go *)
Definition NewEOTSStore (db : D) : outcome D :=
  match initBuckets db with
  | (Ok _, db') => Ok db'
  | (Err e, _) => Err e
  | (Crash w, _) => Crash w
  end.

Definition InitKeyring (homeDir keyringBackend : string) : outcome K :=
  wrap_err "failed to create keyring" (keyring_New "eots-manager" keyringBackend homeDir).

Definition NewLocalEOTSManager (now : Z) (homeDir keyringBackend : string) (dbbackend : D) : outcome lm :=
  es ← wrap_err "failed to initialize store" (NewEOTSStore dbbackend);
  kr ← wrap_err "failed to initialize keyring" (InitKeyring homeDir keyringBackend);
  Ok (mkLM kr es "" ∅ now).

Definition with_listener (addr : string) (c : EotsConfig) : EotsConfig :=
  mkEotsConfig (ecfg_LogLevel c) (ecfg_KeyringBackend c) addr (ecfg_HMACKey c)
    (ecfg_DisableUnsafeEndpoints c) (ecfg_Metrics c) (ecfg_GRPCMaxContentLength c) (ecfg_DatabaseConfig c).

Definition startFn (now : Z) (homeFlag rpcListener : string) (serve : M lm unit) : M (proc lm) unit :=
  p ← go_get;
  let homePath := getCleanPath (p_os p) homeFlag in
  cfg ← go_wrap ("failed to load config at " +:+ homePath) (on_os (eots_LoadConfig homePath));
  if negb (bool_decide (ecfg_KeyringBackend cfg = BackendTest))
       && negb (bool_decide (ecfg_KeyringBackend cfg = BackendFile)) then
    go_fail (EText ("the keyring backend in config must be `test` or `file`, got "
                      +:+ ecfg_KeyringBackend cfg))
  else
    addr ← listener_flag ": " (ecfg_RPCListener cfg) rpcListener;
    let cfg := with_listener addr cfg in
    _ ← go_wrap "failed to load the logger"
          (on_os (NewRootLoggerWithFile (eots_LogFile homePath) (ecfg_LogLevel cfg)));
    db ← open_database GetBoltBackend (ecfg_DatabaseConfig cfg);
    em ← go_wrap "failed to create EOTS manager"
           (go_lift (NewLocalEOTSManager now homePath (ecfg_KeyringBackend cfg) db));
    _ ← set_app em;
    go_wrap "failed to run EOTS server" (eots_RunUntilShutdown net_Listen cfg serve).

(** *** What the command leaves behind *)

Lemma EotsConfig_Validate_metrics cfg :
  EotsConfig_Validate cfg = Ok () →
  ∃ m addr, ecfg_Metrics cfg = Some m ∧ Metrics_Address m = Ok addr.
Proof.
  unfold EotsConfig_Validate. destruct (ResolveTCPAddr _); [|done..].
  repeat (case_bool_decide; simpl; try done);
    (destruct (ecfg_Metrics cfg) as [m|]; [|done]); destruct (Metrics_Validate m) as [[]| |] eqn:E;
    try done; intros _; eexists m, _; (split; [done|]); unfold Metrics_Address; by rewrite E.
Qed.

Lemma load_config_ok {A} `{!Ini A} file validate w (c : A) w' :
  load_config file validate w = (Ok c, w') → validate c = Ok ().
Proof.
  unfold load_config. intros HE. inv_bind HE. destruct (negb _); [done|]. inv_bind HE. inv_bind HE.
  injection HE as <- _. by destruct a0.
Qed.

End eotsd.

Module LifecycleWitness.
Import CfgToy EotsToy.

(** A machine after [eotsd init], with a new database. *)
Definition w_os : os := (initHome "e" false toy_os).2.
Definition w_open (c : BoltBackendConfig) : M os MapDb.db := mret MapDb.empty.
Definition w_keyring (service backend dir : string) : outcome toy_keyring :=
  Ok {| tk_backend := backend; tk_names := [] |}.
Definition w_listen (addr : string) : outcome unit :=
  if bool_decide (addr = "127.0.0.1:1") then Err (EText "bind: permission denied") else Ok ().
Definition w_serve {X} : M X unit := mret ().
Definition w_proc : proc (LocalEOTSManager toy_keyring MapDb.db) := mkProc w_os None false 0 [].
Definition w_cfg : EotsConfig := eots_default_config "/home/user/e" 12582 DefaultEotsMetricsPort.
Definition w_metrics : MetricsConfig := mkMetricsCfg "127.0.0.1" 2113 100000000.

Definition w_run := eots_RunUntilShutdown w_listen w_cfg (w_serve (X := bool)) (mkProc toy_os (Some true) true 0 []).

Lemma server_run_releases_witness :
  w_run = (Ok (), w_run.2) ∧ p_db_open w_run.2 = false
  ∧ p_trace w_run.2
    = full_run "127.0.0.1:2113" "127.0.0.1:12582" (mkGrpcOptions None (Some 16777216%Z) (Some 16777216%Z)).
Proof.
  assert (E : w_run = (Ok (), w_run.2)) by (apply run_eq; vm_eq).
  split; [exact E|]. unfold w_run at 1 in E.
  destruct (server_run_releases w_listen w_cfg w_metrics w_serve (mkProc toy_os (Some true) true 0 [])
    (Ok ()) w_run.2 ltac:(vm_eq) eq_refl eq_refl E) as (prom & Hp & _ & [Ht Hd] & _).
  split; [exact Hd|]. rewrite Ht. injection Hp as <-. vm_eq.
Defined.

Definition w_start := startFn w_open w_keyring w_listen 7 "e" "127.0.0.1:7" w_serve w_proc.


(** A listener that cannot be opened, and a keyring that cannot. *)
Example start_failures :
  (let '(r, p) := startFn w_open w_keyring w_listen 7 "e" "127.0.0.1:1" w_serve w_proc in
   is_Ok r = false ∧ p_trace p = [DbOpened; MetricsStarted "127.0.0.1:2113"; DbClosed; MetricsStopped])
  ∧ (let '(r, p) := startFn w_open (λ _ _ _, Err (EText "keyring")) w_listen 7 "e" "" w_serve w_proc in
     is_Ok r = false ∧ p_db_open p = true).
Proof. by vm_compute. Qed.
End LifecycleWitness.
