(* ===== verification/EotsRpc.v ===== *)
(** * The EOTS manager over gRPC
      (src/eotsmanager/service/rpcserver.go, service/hmac.go,
       src/eotsmanager/client/rpcclient.go, client/hmac.go, client/secrets.go)

    The daemon's request handlers on the local manager, the HMAC interceptors
    of both sides, and the client.  The client again implements [EOTSManager]
    and keeps the slashing-protection and randomness contracts of [EotsApi.v],
    so that what is proved of the finality provider against these contracts
    holds for a provider that talks to a remote daemon over a link that loses
    requests and responses. *)

From Stdlib Require Import NArith ZArith Lia.
From stdpp Require Import base gmap strings list.
From S2P Require Import Prelude Encoding Kvdb External Config Toy Util EotsStore RandGen EotsApi LocalManager.

(** ** gRPC *)

(** The requests, as their protobuf messages. *)
Inductive rpc_request :=
| PingRequest
| CreateRandomnessPairListRequest (Uid ChainId : bytes) (StartHeight Num : N) (Interval : option N)
| SignEOTSRequest (Uid ChainId Msg : bytes) (Height : N)
| SignSchnorrSigRequest (Uid Msg : bytes)
| PbSignBatchEOTSRequest (Uid ChainId : bytes) (SignRequests : list SignDataRequest)
| SaveEOTSKeyNameRequest (KeyName : string) (EotsPk : bytes)
| UnlockKeyRequest (Uid : bytes) (Passphrase : string)
| BackupRequest (DbPath BackupDir : string).

(** [grpc_status] turns the error of a handler into the status error the
    caller sees. *)
Class Grpc := grpc_status : error → error.

Class GrpcLaws `{Grpc} : Prop := {
  grpc_status_status c m : grpc_status (EStatus c m) = EStatus c m;
  grpc_status_text pre e post :
    ∃ c m, grpc_status (EWrap pre e post) = EStatus c m
      ∧ Contains m (Error (EWrap pre e post)) = true;
}.

(** What the network does to a call: deliver it and its response, lose the
    request, or lose the response. *)
Inductive link_event := Delivered | RequestLost | ResponseLost.

Definition PingMethod : string := "/proto.EOTSManager/Ping".
Definition SaveEOTSKeyNameMethod : string := "/proto.EOTSManager/SaveEOTSKeyName".

(** ** client/secrets.go *)

Definition AWSPrefix : string := "arn:aws:secretsmanager:".
Definition GCPPrefix : string := "projects/".
Definition AzurePrefix : string := "https://".

Definition getAWSSecret (arn : string) : outcome string :=
  Err (EText ("AWS Secrets Manager integration not implemented: " +:+ arn)).
Definition getGCPSecret (secretName : string) : outcome string :=
  Err (EText ("google cloud secret Manager integration not implemented: " +:+ secretName)).
Definition getAzureSecret (secretName : string) : outcome string :=
  Err (EText ("azure key vault integration not implemented: " +:+ secretName)).

Definition GetSecretValue (reference : string) : outcome string :=
  if bool_decide (reference = "") then Ok ""
  else if HasPrefix reference AWSPrefix then getAWSSecret reference
  else if HasPrefix reference GCPPrefix && Contains reference "/secrets/" then getGCPSecret reference
  else if HasPrefix reference AzurePrefix && Contains reference ".vault.azure.net/secrets/" then
    getAzureSecret reference
  else Ok reference.

Definition ProcessHMACKey (hmacKey : string) : outcome string :=
  if bool_decide (hmacKey = "") then Ok "" else GetSecretValue hmacKey.

(** The key [NewEOTSManagerGRPCClient] installs: an error is only printed, and
    the value returned with it is empty. *)
Definition client_hmacKey (hmacKey : string) : string :=
  match ProcessHMACKey hmacKey with Ok k => k | _ => "" end.

(** ** The interceptors *)

Section hmac.
Context `{Crypto} `{Grpc} `{Codec rpc_request}.

Definition hmac_value (hmacKey : string) (data : bytes) : string :=
  EncodeToString (hmac_sha256 (bytes_of_string hmacKey) data).

(** The values of the HMAC header the client sends. *)
Definition HMACUnaryClientInterceptor (hmacKey method : string) (req : rpc_request)
    : outcome (list string) :=
  if bool_decide (method = PingMethod) || bool_decide (method = SaveEOTSKeyNameMethod) then Ok []
  else if bool_decide (hmacKey = "") then Ok []
  else
    data ← wrap_err "failed to marshal request" (marshal req);
    Ok [hmac_value hmacKey data].

(** [md] is [None] when the request has no metadata. *)
Definition HMACUnaryServerInterceptor {S A} (hmacKey method : string) (md : option (list string))
    (req : rpc_request) (handler : M S A) : M S A :=
  if bool_decide (method = PingMethod) || bool_decide (method = SaveEOTSKeyNameMethod) then handler
  else if bool_decide (hmacKey = "") then handler
  else
    match md with
    | None => go_fail (EStatus "Unauthenticated" "metadata is not provided")
    | Some [] => go_fail (EStatus "Unauthenticated" "HMAC not provided")
    | Some (receivedHMAC :: _) =>
        data ← go_map_err (λ e, EStatus "Internal" ("failed to marshal request: " +:+ Error e))
                 (go_lift (marshal req));
        if bool_decide (receivedHMAC = hmac_value hmacKey data) then handler
        else go_fail (EStatus "Unauthenticated" "invalid HMAC")
    end.
End hmac.

(** ** The daemon's handlers: service/rpcserver.go *)

Section server.
Context {K D : Type} `{Keyring K} `{KvBackend D} `{BigEndian} `{Codec pSigningRecord}
  `{Crypto} `{Bip39} `{RandFuel}.
#[local] Abbreviation lm := (LocalEOTSManager K D).

Definition srv_Ping : M lm unit := mret ().

(** An interval of 0 is not passed on. *)
Definition srv_options (interval : option N) : list RandomnessOption :=
  match interval with
  | Some v => if (0 <? v)%N then [WithInterval v] else []
  | None => []
  end.

Definition srv_CreateRandomnessPairList (uid chainId : bytes) (startHeight num : N)
    (interval : option N) : M lm (list bytes) :=
  pubRandList ← go_wrap "failed to create randomness pair list"
                  (CreateRandomnessPairList uid chainId startHeight num (srv_options interval));
  mret (FieldVal_Bytes <$> pubRandList).

Definition double_sign_status (pre : string) (err : error) : error :=
  if errors_Is err "ErrDoubleSign" then EStatus "FailedPrecondition" (Error err) else wrapf pre err.

Definition srv_SignEOTS (uid chainId msg : bytes) (height : N) : M lm bytes :=
  sig ← go_map_err (double_sign_status "failed to sign EOTS") (SignEOTS uid chainId msg height);
  mret (ModN_Bytes sig).

Definition srv_UnsafeSignEOTS (unsafeDisabled : bool) (uid chainId msg : bytes) (height : N)
    : M lm bytes :=
  if unsafeDisabled then
    go_fail (EStatus "PermissionDenied"
      "UnsafeSignEOTS endpoint is disabled in configuration for security reasons")
  else
    sig ← go_wrap "failed to sign EOTS" (UnsafeSignEOTS uid chainId msg height);
    mret (ModN_Bytes sig).

Definition srv_SignSchnorrSig (uid msg : bytes) : M lm bytes :=
  sig ← go_wrap "failed to sign EOTS" (SignSchnorrSig uid msg);
  mret (SchnorrSig_Serialize sig).

Definition srv_SignBatchEOTS (uid chainId : bytes) (signRequests : list SignDataRequest)
    : M lm (list (bytes * N)) :=
  let heights := sdr_Height <$> signRequests in
  _ ← go_map_err (λ err, EStatus "InvalidArgument" ("duplicate height in batch: " +:+ Error err))
        (go_lift (ValidateNoDuplicateHeights heights));
  responses ← go_map_err (double_sign_status "failed to sign batch EOTS")
                (SignBatchEOTS (mkSignBatchEOTSRequest uid chainId signRequests));
  mret ((λ resp, (ModN_Bytes (resp_Signature resp), resp_Height resp)) <$> responses).

Definition srv_SaveEOTSKeyName (eotsPk : bytes) (keyName : string) : M lm unit :=
  pk ← go_wrap "failed to parse EOTS public key" (go_lift (btcec_ParsePubKey eotsPk));
  go_wrap "failed to save EOTS key name" (SaveEOTSKeyName pk keyName).

Definition srv_UnlockKey (uid : bytes) (passphrase : string) : M lm unit :=
  go_wrap "failed to unlock key" (Unlock uid passphrase).
End server.

(** ** The client: client/rpcclient.go *)

(** A connection to a daemon: the daemon with its manager and its
    configuration, the client's key, and what the network will do to the
    coming calls (everything is delivered once the list is used up). *)
Record EOTSManagerGRPCClient (K D : Type) `{Crypto} := mkClient {
  c_em : LocalEOTSManager K D;
  c_serverKey : string;
  c_cfg : EotsConfig;
  c_key : string;
  c_link : list link_event;
}.
Arguments mkClient {K D _}.
Arguments c_em {K D _}.
Arguments c_serverKey {K D _}.
Arguments c_cfg {K D _}.
Arguments c_key {K D _}.
Arguments c_link {K D _}.

Section client.
Context {K D : Type} `{Keyring K} `{KvBackend D} `{BigEndian} `{Codec pSigningRecord}
  `{Crypto} `{Bip39} `{RandFuel} `{Grpc} `{Codec rpc_request}.
#[local] Abbreviation lm := (LocalEOTSManager K D).
#[local] Abbreviation client := (EOTSManagerGRPCClient K D).

Definition ErrUnavailable : error := EStatus "Unavailable" "connection error".

(** The result the caller sees of the server's. *)
Definition lost {A} (ev : link_event) (r : outcome A) : outcome A :=
  match ev with ResponseLost => Err ErrUnavailable | _ => r end.

(** The daemon after a panic and a restart: unlocked keys are gone. *)
Definition restarted (l : lm) : lm := set_keys (set_kr l (lm_kr l) "") ∅.

(** A unary call of [method]: the client's interceptor, the network, the
    server's interceptor around the handler, and the status of its error.  A
    handler that panics takes the daemon down: the caller sees the connection
    break. *)
Definition unary {A} (method : string) (req : rpc_request) (handler : client → M lm A)
    : M client A := λ c,
  match HMACUnaryClientInterceptor (c_key c) method req with
  | Err e => (Err e, c)
  | Crash w => (Crash w, c)
  | Ok md =>
      let link' := tail (c_link c) in
      let with_em l := mkClient l (c_serverKey c) (c_cfg c) (c_key c) link' in
      match default Delivered (head (c_link c)) with
      | RequestLost => (Err ErrUnavailable, with_em (c_em c))
      | ev =>
          match HMACUnaryServerInterceptor (c_serverKey c) method (Some md) req (handler c)
                  (c_em c) with
          | (Crash _, l') => (Err ErrUnavailable, with_em (restarted l'))
          | (Err e, l') => (lost ev (Err (grpc_status e)), with_em l')
          | (Ok a, l') => (lost ev (Ok a), with_em l')
          end
      end
  end.

Definition rpc_Ping : M client unit :=
  go_wrap "failed to ping EOTS manager" (unary PingMethod PingRequest (λ _, srv_Ping)).

(** A new connection to the daemon; its state is that of the old connection. *)
Definition NewEOTSManagerGRPCClient (hmacKey : string) : M client unit := λ c,
  go_wrap "the EOTS manager server is not responding" rpc_Ping
    (mkClient (c_em c) (c_serverKey c) (c_cfg c) (client_hmacKey hmacKey) (c_link c)).

Definition rpc_CreateRandomnessPairList (uid chainID : bytes) (startHeight num : N)
    (options : list RandomnessOption) : M client (list FieldVal) :=
  let cfg := apply_options options in
  let req := CreateRandomnessPairListRequest uid chainID startHeight num (Interval cfg) in
  res ← go_wrap "failed to create randomness pair list"
          (unary "/proto.EOTSManager/CreateRandomnessPairList" req
             (λ _, srv_CreateRandomnessPairList uid chainID startHeight num (Interval cfg)));
  mret (FieldVal_SetByteSlice <$> res).

Definition rpc_SaveEOTSKeyName (pk : PublicKey) (keyName : string) : M client unit :=
  go_wrap "failed to save EOTS key name"
    (unary SaveEOTSKeyNameMethod (SaveEOTSKeyNameRequest keyName (SerializeUncompressed pk))
       (λ _, srv_SaveEOTSKeyName (SerializeUncompressed pk) keyName)).

Definition rpc_SignEOTS (uid chainID msg : bytes) (height : N) : M client ModNScalar :=
  res ← go_wrap "failed to sign EOTS"
          (unary "/proto.EOTSManager/SignEOTS" (SignEOTSRequest uid chainID msg height)
             (λ _, srv_SignEOTS uid chainID msg height));
  mret (ModN_SetByteSlice res).1.

Definition rpc_UnsafeSignEOTS (uid chainID msg : bytes) (height : N) : M client ModNScalar :=
  res ← go_wrap "failed to unsafe sign EOTS"
          (unary "/proto.EOTSManager/UnsafeSignEOTS" (SignEOTSRequest uid chainID msg height)
             (λ c, srv_UnsafeSignEOTS (IsUnsafeEndpointsDisabled (c_cfg c))
                     uid chainID msg height));
  mret (ModN_SetByteSlice res).1.

Definition rpc_SignBatchEOTS (req : SignBatchEOTSRequest) : M client (list SignDataResponse) :=
  res ← go_wrap "failed to sign batch EOTS"
          (unary "/proto.EOTSManager/SignBatchEOTS"
             (PbSignBatchEOTSRequest (sbr_UID req) (sbr_ChainID req) (sbr_SignRequest req))
             (λ _, srv_SignBatchEOTS (sbr_UID req) (sbr_ChainID req) (sbr_SignRequest req)));
  mret ((λ resp, mkSignDataResponse _ (ModN_SetByteSlice resp.1).1 resp.2) <$> res).

Definition rpc_SignSchnorrSig (uid msg : bytes) : M client SchnorrSignature :=
  res ← go_wrap "failed to sign Schnorr signature"
          (unary "/proto.EOTSManager/SignSchnorrSig" (SignSchnorrSigRequest uid msg)
             (λ _, srv_SignSchnorrSig uid msg));
  go_wrap "failed to parse Schnorr signature" (go_lift (schnorr_ParseSignature res)).

Definition rpc_Unlock (uid : bytes) (passphrase : string) : M client unit :=
  go_wrap "failed to unlock key"
    (unary "/proto.EOTSManager/UnlockKey" (UnlockKeyRequest uid passphrase)
       (λ _, srv_UnlockKey uid passphrase)).

#[export] Instance rpc_manager : EOTSManager client := {|
  em_CreateRandomnessPairList := rpc_CreateRandomnessPairList;
  em_SignEOTS := rpc_SignEOTS;
  em_UnsafeSignEOTS := rpc_UnsafeSignEOTS;
  em_SignSchnorrSig := rpc_SignSchnorrSig;
  em_Unlock := rpc_Unlock;
  em_SignBatchEOTS := rpc_SignBatchEOTS;
|}.
End client.

(** ** Lemmas *)

Section lemmas.
Context {K D : Type} `{Keyring K} `{KvLaws D} `{BigEndianLaws} `{CodecLaws pSigningRecord}
  `{CryptoLaws} `{Bip39} `{RandFuel} `{Grpc} `{Codec rpc_request}.
#[local] Abbreviation lm := (LocalEOTSManager K D).
#[local] Abbreviation client := (EOTSManagerGRPCClient K D).
Implicit Types (l : lm) (c : client).

(** The handler runs on the manager, or the manager is left alone. *)
Lemma server_interceptor_cases {S A} key method md req (handler : M S A) s r s' :
  HMACUnaryServerInterceptor key method md req handler s = (r, s') →
  handler s = (r, s') ∨ (s' = s ∧ is_Ok r = false).
Proof.
  unfold HMACUnaryServerInterceptor. destruct (_ || _); [by left|].
  destruct (bool_decide (key = "")); [by left|].
  destruct md as [[|h md]|]; [by intros [= <- <-]; right| |by intros [= <- <-]; right].
  unfold mbind, M_bind, go_bind, go_map_err, go_lift. destruct (marshal req) as [data|e|w].
  - case_bool_decide; [by left|]. by intros [= <- <-]; right.
  - by intros [= <- <-]; right.
  - by intros [= <- <-]; right.
Qed.

(** No signing record is lost on the daemon. *)
Definition c_grows c c' : Prop := grows (c_em c) (c_em c').

#[export] Instance c_grows_preorder : PreOrder c_grows.
Proof. split; [intros c|intros c1 c2 c3]; unfold c_grows; [done|by etrans]. Qed.

Lemma unary_grows {A} method req (handler : client → M lm A) :
  (∀ c, preserves grows (handler c)) → preserves c_grows (unary method req handler).
Proof.
  intros Hh c r c'. unfold unary, c_grows.
  destruct (HMACUnaryClientInterceptor _ _ _) as [md|e|w]; [|by intros [= _ <-]..].
  assert (∀ ev, (match HMACUnaryServerInterceptor (c_serverKey c) method (Some md) req (handler c)
                  (c_em c) with
    | (Crash _, l') => (Err ErrUnavailable, mkClient (restarted l') (c_serverKey c)
        (c_cfg c) (c_key c) (tail (c_link c)))
    | (Err e, l') => (lost ev (Err (grpc_status e)), mkClient l' (c_serverKey c)
        (c_cfg c) (c_key c) (tail (c_link c)))
    | (Ok a, l') => (lost ev (Ok a), mkClient l' (c_serverKey c)
        (c_cfg c) (c_key c) (tail (c_link c)))
    end) = (r, c') → grows (c_em c) (c_em c')) as Hrun.
  { intros ev. destruct (HMACUnaryServerInterceptor _ _ _ _ _ _) as [r0 l0] eqn:E.
    assert (grows (c_em c) l0) as Hg
      by (apply server_interceptor_cases in E as [E|[-> _]]; [by eapply Hh|done]).
    destruct r0; by intros [= _ <-]. }
  destruct (default Delivered (head (c_link c))); [apply Hrun|by intros [= _ <-]|apply Hrun].
Qed.

(** A successful call ran its handler. *)
Lemma unary_ok {A} method req (handler : client → M lm A) c a c' :
  unary method req handler c = (Ok a, c') → handler c (c_em c) = (Ok a, c_em c').
Proof.
  unfold unary. destruct (HMACUnaryClientInterceptor _ _ _) as [md|e|w]; [|done..].
  destruct (default Delivered (head (c_link c))); [|done|];
    destruct (HMACUnaryServerInterceptor _ _ _ _ _ _) as [[a0|e|w] l0] eqn:E; simpl; try done.
  intros [= <- <-]. by apply server_interceptor_cases in E as [E|[_ E]].
Qed.

#[local] Hint Resolve SignEOTS_grows SignBatchEOTS_grows AddEOTSKeyName_grows : preserves.
#[local] Hint Resolve keeps_grows CreateRandomnessPairList_keeps SignSchnorrSig_keeps Unlock_keeps
  UnsafeSignEOTS_keeps : preserves.

Ltac solve_rpc := solve_preserves; apply unary_grows; intros ?; solve_preserves.

Lemma rpc_SignEOTS_grows pk ch m h : preserves c_grows (rpc_SignEOTS pk ch m h).
Proof. unfold rpc_SignEOTS, srv_SignEOTS. solve_rpc. Qed.
Lemma rpc_SignBatchEOTS_grows req : preserves c_grows (rpc_SignBatchEOTS req).
Proof. unfold rpc_SignBatchEOTS, srv_SignBatchEOTS. solve_rpc. Qed.
Lemma rpc_UnsafeSignEOTS_grows pk ch m h : preserves c_grows (rpc_UnsafeSignEOTS pk ch m h).
Proof. unfold rpc_UnsafeSignEOTS, srv_UnsafeSignEOTS. solve_rpc. Qed.
Lemma rpc_CreateRandomnessPairList_grows pk ch s n o :
  preserves c_grows (rpc_CreateRandomnessPairList pk ch s n o).
Proof. unfold rpc_CreateRandomnessPairList, srv_CreateRandomnessPairList. solve_rpc. Qed.
Lemma rpc_SignSchnorrSig_grows pk m : preserves c_grows (rpc_SignSchnorrSig pk m).
Proof. unfold rpc_SignSchnorrSig, srv_SignSchnorrSig. solve_rpc. Qed.
Lemma rpc_Unlock_grows pk p : preserves c_grows (rpc_Unlock pk p).
Proof. unfold rpc_Unlock, srv_UnlockKey. solve_rpc. Qed.
Lemma rpc_SaveEOTSKeyName_grows pk n : preserves c_grows (rpc_SaveEOTSKeyName pk n).
Proof. unfold rpc_SaveEOTSKeyName, srv_SaveEOTSKeyName, SaveEOTSKeyName. solve_rpc. Qed.

(** *** The contracts of the manager, kept by the client *)

#[export] Instance rpc_protection : EOTSProtection client.
Proof.
  refine {| em_signed c := signed (c_em c) |}.
  - intros c. exact (signed_functional (c_em c)).
  - intros pk ch m h c s c' HE. change (rpc_SignEOTS pk ch m h c = (Ok s, c')) in HE.
    unfold rpc_SignEOTS in HE. inv_bind HE. injection HE as <- <-. apply unary_ok in E.
    unfold srv_SignEOTS in E. inv_bind E. injection E as <- <-.
    rewrite modn_bytes_roundtrip. simpl. by eapply SignEOTS_signed.
  - intros req c rs c' HE. change (rpc_SignBatchEOTS req c = (Ok rs, c')) in HE.
    unfold rpc_SignBatchEOTS in HE. inv_bind HE. injection HE as <- <-. apply unary_ok in E.
    unfold srv_SignBatchEOTS in E. inv_bind E. inv_bind E. injection E as <- <-.
    apply SignBatchEOTS_signed in E1. rewrite !Forall_fmap. eapply Forall_impl; [exact E1|].
    intros r Hr. simpl. by rewrite modn_bytes_roundtrip.
  - intros req c rs c' HE. change (rpc_SignBatchEOTS req c = (Ok rs, c')) in HE.
    unfold rpc_SignBatchEOTS in HE. inv_bind HE. injection HE as <- <-. apply unary_ok in E.
    unfold srv_SignBatchEOTS in E. inv_bind E. inv_bind E.
    by destruct (SignBatchEOTS_ok _ _ _ _ E1) as [Hnd _].
  - intros pk ch m h c r c' HE ?????. apply signed_grows. exact (rpc_SignEOTS_grows _ _ _ _ _ _ _ HE).
  - intros req c r c' HE ?????. apply signed_grows. exact (rpc_SignBatchEOTS_grows _ _ _ _ HE).
  - intros pk ch h n o c r c' HE ?????. apply signed_grows.
    exact (rpc_CreateRandomnessPairList_grows _ _ _ _ _ _ _ _ HE).
  - intros pk m c r c' HE ?????. apply signed_grows. exact (rpc_SignSchnorrSig_grows _ _ _ _ _ HE).
Defined.

#[export] Instance rpc_randomness : EOTSRandomness client.
Proof.
  refine {| em_pubrand c pk ch h f := em_pubrand (c_em c) pk ch h f |}.
  intros pk ch start n c prs c' HE Hr.
  change (rpc_CreateRandomnessPairList pk ch start n [] c = (Ok prs, c')) in HE.
  unfold rpc_CreateRandomnessPairList in HE. inv_bind HE. injection HE as <- _. apply unary_ok in E.
  unfold srv_CreateRandomnessPairList in E. inv_bind E. injection E as <- _.
  pose proof (em_CreateRandomnessPairList_at pk ch start n (c_em c)) as Hat.
  apply Hat in E0 as [Hl Hall]; [|done]. rewrite !length_fmap. split; [done|].
  intros i f Hf. rewrite !list_lookup_fmap in Hf. destruct (a0 !! i) as [f0|] eqn:Ef; [|done].
  injection Hf as <-. rewrite field_bytes_roundtrip. by apply Hall.
Defined.

(** *** Delivered calls *)

(** The next call is delivered, and both sides have the same key. *)
Definition connected c (req : rpc_request) : Prop :=
  default Delivered (head (c_link c)) = Delivered
  ∧ c_key c = c_serverKey c ∧ ∃ data, marshal req = Ok data.

Definition c_with_em c l : client :=
  mkClient l (c_serverKey c) (c_cfg c) (c_key c) (tail (c_link c)).

(** A call the interceptors let through is the call of the handler. *)
Lemma unary_connected {A} method req (handler : client → M lm A) c :
  connected c req →
  unary method req handler c =
    match handler c (c_em c) with
    | (Ok a, l') => (Ok a, c_with_em c l')
    | (Err e, l') => (Err (grpc_status e), c_with_em c l')
    | (Crash _, l') => (Err ErrUnavailable, c_with_em c (restarted l'))
    end.
Proof.
  intros (Hlink & Hkey & data & Hd). unfold unary.
  assert (∃ md, HMACUnaryClientInterceptor (c_key c) method req = Ok md
    ∧ HMACUnaryServerInterceptor (c_serverKey c) method (Some md) req (handler c) (c_em c)
        = handler c (c_em c)) as (md & -> & ->).
  { unfold HMACUnaryClientInterceptor, HMACUnaryServerInterceptor. rewrite <-Hkey.
    destruct (_ || _); [by eexists|]. destruct (bool_decide (c_key c = "")); [by eexists|].
    rewrite Hd. eexists. split; [done|]. go_unfold. by rewrite bool_decide_eq_true_2. }
  rewrite Hlink. by destruct (handler c (c_em c)) as [[] ?].
Qed.

(** Pings and the saving of key names need no key. *)
Lemma unary_exempt {A} method req (handler : client → M lm A) c :
  method = PingMethod ∨ method = SaveEOTSKeyNameMethod → default Delivered (head (c_link c)) = Delivered →
  unary method req handler c =
    match handler c (c_em c) with
    | (Ok a, l') => (Ok a, c_with_em c l')
    | (Err e, l') => (Err (grpc_status e), c_with_em c l')
    | (Crash _, l') => (Err ErrUnavailable, c_with_em c (restarted l'))
    end.
Proof.
  intros Hm Hlink. unfold unary, HMACUnaryClientInterceptor, HMACUnaryServerInterceptor.
  assert (bool_decide (method = PingMethod) || bool_decide (method = SaveEOTSKeyNameMethod) = true) as ->.
  { apply orb_true_iff. by destruct Hm; [left|right]; apply bool_decide_eq_true. }
  rewrite Hlink. by destruct (handler c (c_em c)) as [[] ?].
Qed.

(** A connection that is made leaves the daemon as it was. *)
Lemma NewClient_run key c : default Delivered (head (c_link c)) = Delivered →
  NewEOTSManagerGRPCClient key c
  = (Ok (), mkClient (c_em c) (c_serverKey c) (c_cfg c) (client_hmacKey key) (tail (c_link c))).
Proof.
  intros Hlink. unfold NewEOTSManagerGRPCClient, rpc_Ping, go_wrap.
  by rewrite unary_exempt by (by left || done).
Qed.
Lemma NewClient_ok key c u c' : NewEOTSManagerGRPCClient key c = (Ok u, c') →
  c_em c' = c_em c ∧ c_key c' = client_hmacKey key.
Proof.
  unfold NewEOTSManagerGRPCClient, rpc_Ping. intros HE. do 2 apply go_wrap_ok in HE.
  pose proof (unary_ok _ _ _ _ _ _ HE) as Hs. split; [by injection Hs|]. revert HE. unfold unary.
  destruct (HMACUnaryClientInterceptor _ _ _) as [md|e|w]; [|done..].
  destruct (default _ _); [|done|]; destruct (HMACUnaryServerInterceptor _ _ _ _ _ _) as [[]];
    by intros [= _ <-].
Qed.
End lemmas.

(** ** Properties *)

Section properties.
Context {K D : Type} `{Keyring K} `{KvLaws D} `{BigEndianLaws} `{CodecLaws pSigningRecord}
  `{CryptoLaws} `{Bip39} `{RandFuel} `{GrpcLaws} `{Codec rpc_request}.
#[local] Abbreviation lm := (LocalEOTSManager K D).
#[local] Abbreviation client := (EOTSManagerGRPCClient K D).
Implicit Types (l : lm) (c : client).

(** A call of the client, whatever its result, or a change of what is not the
    signing state: the network, the clock, the keys and the configuration. *)
Inductive rpc_step : client → client → Prop :=
| step_sign pk ch m h c r c' : rpc_SignEOTS pk ch m h c = (r, c') → rpc_step c c'
| step_unsafe pk ch m h c r c' : rpc_UnsafeSignEOTS pk ch m h c = (r, c') → rpc_step c c'
| step_batch req c r c' : rpc_SignBatchEOTS req c = (r, c') → rpc_step c c'
| step_randomness pk ch s n o c r c' :
    rpc_CreateRandomnessPairList pk ch s n o c = (r, c') → rpc_step c c'
| step_schnorr pk m c r c' : rpc_SignSchnorrSig pk m c = (r, c') → rpc_step c c'
| step_unlock pk p c r c' : rpc_Unlock pk p c = (r, c') → rpc_step c c'
| step_save pk n c r c' : rpc_SaveEOTSKeyName pk n c = (r, c') → rpc_step c c'
| step_env c sk u k link now keys :
    rpc_step c (mkClient (set_now (set_keys (c_em c) keys) now) sk u k link).

Lemma rpc_steps_grow c c' : rtc rpc_step c c' → c_grows c c'.
Proof.
  induction 1 as [c|c1 c2 c3 Hs _ IH]; [done|]. transitivity c2; [|done]. clear IH.
  destruct Hs.
  - by eapply rpc_SignEOTS_grows.
  - by eapply rpc_UnsafeSignEOTS_grows.
  - by eapply rpc_SignBatchEOTS_grows.
  - by eapply rpc_CreateRandomnessPairList_grows.
  - by eapply rpc_SignSchnorrSig_grows.
  - by eapply rpc_Unlock_grows.
  - by eapply rpc_SaveEOTSKeyName_grows.
  - apply records_grow_refl.
Qed.


(** C30: over a working connection the client behaves as the local manager: a
    signature is the local one, a double-sign refusal arrives as a
    [FailedPrecondition] status, every other error carries the local error
    text, and the daemon's manager ends in the state the local call ends in. *)
Theorem rpc_SignEOTS_refines pk ch m h c
    (Hconn : connected c (SignEOTSRequest pk ch m h)) :
  match SignEOTS pk ch m h (c_em c) with
  | (Ok s, l') => rpc_SignEOTS pk ch m h c = (Ok s, c_with_em c l')
  | (Err e, l') => ∃ e', rpc_SignEOTS pk ch m h c = (Err e', c_with_em c l')
      ∧ (errors_Is e "ErrDoubleSign" = true →
           e' = wrapf "failed to sign EOTS" (EStatus "FailedPrecondition" (Error e)))
      ∧ (errors_Is e "ErrDoubleSign" = false →
           ∃ code msg, e' = wrapf "failed to sign EOTS" (EStatus code msg)
             ∧ Contains msg ("failed to sign EOTS: " +:+ Error e +:+ "") = true)
  | (Crash _, l') => ∃ e', rpc_SignEOTS pk ch m h c = (Err e', c_with_em c (restarted l'))
  end.
Proof.
  unfold rpc_SignEOTS, srv_SignEOTS, mbind, M_bind, go_bind, go_wrap.
  rewrite unary_connected by done. unfold go_map_err.
  destruct (SignEOTS pk ch m h (c_em c)) as [[s|e|w] l']; simpl.
  - by rewrite modn_bytes_roundtrip.
  - eexists. split; [done|]. unfold double_sign_status. destruct (errors_Is e _).
    + split; [intros _|done]. by rewrite grpc_status_status.
    + split; [done|intros _].
      change (wrapf "failed to sign EOTS" e) with (EWrap "failed to sign EOTS: " e "").
      destruct (grpc_status_text "failed to sign EOTS: " e "")
        as (code & msg & -> & Hc). by exists code, msg.
  - by eexists.
Qed.

(** C31: a daemon with an HMAC key runs a guarded request only when the header
    carries the HMAC of that very request under its key; anything else is
    refused and changes nothing.  The client's header for the same key is
    accepted. *)
Theorem hmac_gate {S A} key method md req (handler : M S A) s data
    (Hping : method ≠ PingMethod) (Hsave : method ≠ SaveEOTSKeyNameMethod) (Hkey : key ≠ "")
    (Hdata : marshal req = Ok data) :
  (head (default [] md) = Some (hmac_value key data) →
     HMACUnaryServerInterceptor key method md req handler s = handler s)
  ∧ (head (default [] md) ≠ Some (hmac_value key data) →
     ∃ why, HMACUnaryServerInterceptor key method md req handler s
              = (Err (EStatus "Unauthenticated" why), s))
  ∧ HMACUnaryClientInterceptor key method req = Ok [hmac_value key data].
Proof.
  unfold HMACUnaryServerInterceptor, HMACUnaryClientInterceptor.
  rewrite !(bool_decide_eq_false_2 _ Hping), !(bool_decide_eq_false_2 _ Hsave),
    !(bool_decide_eq_false_2 _ Hkey), !Hdata. simpl. split_and!; [| |done].
  - intros Hhd. destruct md as [[|v md]|]; [done| |done]. injection Hhd as ->. go_unfold.
    by rewrite bool_decide_eq_true_2.
  - intros Hhd. destruct md as [[|v md]|]; [by eexists| |by eexists]. go_unfold. simpl in Hhd.
    rewrite bool_decide_eq_false_2 by congruence. by eexists.
Qed.
End properties.

(** ** Witnesses *)

Lemma HasPrefix_refl s : HasPrefix s s = true.
Proof.
  unfold HasPrefix. induction s as [|c s IH]; [done|]. simpl.
  destruct (Ascii.ascii_dec c c); [exact IH|done].
Qed.
Lemma Contains_refl s : Contains s s = true.
Proof. pose proof (HasPrefix_refl s) as E. destruct s; [done|]. cbn [Contains]. by rewrite E. Qed.

Module RpcToy.
Export LmToy.

#[export] Instance toy_grpc : Grpc :=
  λ e, match e with EStatus _ _ => e | _ => EStatus "Unknown" (Error e) end.
#[export] Instance toy_grpc_laws : GrpcLaws.
Proof. split; [done|]. intros pre e post. eexists _, _. split; [done|]. apply Contains_refl. Qed.

(** enough of the encoding to tell signing requests apart *)
#[export] Instance toy_request_codec : Codec rpc_request := {|
  marshal req :=
    match req with
    | SignEOTSRequest u c m h => Ok (u ++ c ++ m ++ Uint64ToBigEndian h)
    | _ => Ok []
    end;
  unmarshal _ := Err (EText "not decoded");
|}.

Definition toy_remote (serverKey clientKey : string) (link : list link_event)
    : EOTSManagerGRPCClient toy_keyring MapDb.db :=
  mkClient toy_lm serverKey toy_eots_cfg (client_hmacKey clientKey) link.
End RpcToy.

Module RpcWitness.
Import RpcToy LocalManagerWitness.

Definition w_c0 := toy_remote "secret" "secret" [Delivered; ResponseLost; RequestLost].
Definition w_run1 := rpc_SignEOTS w_pk toy_chain w_m1 10 w_c0.
Definition w_c1 := w_run1.2.
Definition w_s1 : ModNScalar := ok_or 0%N w_run1.1.
Definition w_run2 := rpc_SignEOTS w_pk toy_chain w_m2 10 w_c1.
Definition w_c2 := w_run2.2.
Definition w_run3 := rpc_SignEOTS w_pk toy_chain w_m2 10 w_c2.
Definition w_c3 := w_run3.2.
Definition w_run4 := rpc_SignEOTS w_pk toy_chain w_m1 10 w_c3.


(** The refusal of a second message arrives as a [FailedPrecondition]. *)
Definition w_c4 := toy_remote "secret" "secret" [].
Definition w_c5 := (rpc_SignEOTS w_pk toy_chain w_m1 10 w_c4).2.

Lemma rpc_SignEOTS_refines_witness :
  (SignEOTS w_pk toy_chain w_m2 10 (c_em w_c5)).1 = Err ErrDoubleSign
  ∧ (rpc_SignEOTS w_pk toy_chain w_m2 10 w_c5).1
      = Err (wrapf "failed to sign EOTS" (EStatus "FailedPrecondition" "double sign")).
Proof.
  assert (connected w_c5 (SignEOTSRequest w_pk toy_chain w_m2 10)) as Hc.
  { split_and!; [vm_eq|vm_eq|]. eexists. reflexivity. }
  assert ((SignEOTS w_pk toy_chain w_m2 10 (c_em w_c5)).1 = Err ErrDoubleSign) as Hd by vm_eq.
  split; [exact Hd|].
  pose proof (rpc_SignEOTS_refines w_pk toy_chain w_m2 10 w_c5 Hc) as Hr.
  destruct (SignEOTS w_pk toy_chain w_m2 10 (c_em w_c5)) as [r l']. simpl in Hd. subst r.
  destruct Hr as (e' & -> & He & _). simpl. by rewrite (He eq_refl).
Defined.

Lemma hmac_gate_witness :
  let req := SignEOTSRequest w_pk toy_chain w_m1 10 in
  HMACUnaryServerInterceptor "secret" "/proto.EOTSManager/SignEOTS" (Some ["forged"]) req
    (srv_SignEOTS w_pk toy_chain w_m1 10) toy_lm
    = (Err (EStatus "Unauthenticated" "invalid HMAC"), toy_lm)
  ∧ ∃ why, HMACUnaryServerInterceptor "secret" "/proto.EOTSManager/SignEOTS" (Some ["forged"]) req
             (srv_SignEOTS w_pk toy_chain w_m1 10) toy_lm = (Err (EStatus "Unauthenticated" why), toy_lm).
Proof.
  intros req. split; [reflexivity|].
  apply (hmac_gate "secret" "/proto.EOTSManager/SignEOTS" (Some ["forged"]) req
    (srv_SignEOTS w_pk toy_chain w_m1 10) toy_lm (w_pk ++ toy_chain ++ w_m1 ++ Uint64ToBigEndian 10));
    [done|done|done|reflexivity|]. by intros [=].
Defined.

(** An interval of 0 is an error of the local manager; over gRPC it is dropped
    and the list is one of consecutive heights. *)
Theorem interval_zero_diverges :
  is_Ok (CreateRandomnessPairList w_pk toy_chain 8 3 [WithInterval 0] toy_lm).1 = false
  ∧ (rpc_CreateRandomnessPairList w_pk toy_chain 8 3 [WithInterval 0] w_c4).1 = Ok w_prs.
Proof. split; vm_eq. Qed.

(** A key that looks like a reference to a secret manager is not resolved: the
    client goes on without a key, and a daemon configured with the same string
    refuses its requests. *)
Theorem secret_reference_disables_hmac :
  let key := "arn:aws:secretsmanager:eu:1:secret:hmac" in
  client_hmacKey key = ""
  ∧ (rpc_SignEOTS w_pk toy_chain w_m1 10 (toy_remote key key [])).1
      = Err (wrapf "failed to sign EOTS" (EStatus "Unauthenticated" "HMAC not provided")).
Proof. split; vm_eq. Qed.
End RpcWitness.
