(* ===== verification/Pop.v ===== *)
(** * Proofs of possession (src/eotsmanager/cmd/eotsd/daemon/pop.go)

    The [pop] commands of the EOTS daemon: a finality provider proves that one
    person holds an EOTS key and a Babylon key by signing the Babylon address
    with the first and, as an ADR-36 document, the EOTS key with the second.
    The whole commands, with their flags, the database and the files, are in
    [CmdFiles]. *)

From Stdlib Require Import NArith ZArith Lia.
From stdpp Require Import base gmap strings list relations.
From S2P Require Import Prelude Encoding Kvdb External Config Toy EotsStore EotsApi LocalManager.

(** ** What the commands rely on *)

(** [kr.Sign(name, msg, SIGN_MODE_DIRECT)] with the reader's content *)
Class KeyringSign (K : Type) := kr_Sign : K → string → string → bytes → outcome bytes * string.

Class CosmosKeys `{Crypto} := {
  (** secp256k1's [pubKey.Address()] and [pubKey.VerifySignature(msg, sig)] *)
  secp_Address : bytes → outcome bytes;
  secp_Verify : bytes → bytes → bytes → bool;
  (** [sdk.MustSortJSON] *)
  MustSortJSON : bytes → outcome bytes;
  (** [sig.Verify(hash, pk)] of btcec's schnorr package *)
  schnorr_Verify : SchnorrSignature → bytes → PublicKey → bool;
}.

(** What one keyring signs verifies under the public key of the record; a
    record holds the two halves of one key pair; BIP-340 signatures verify
    under the x-only key; hex keys that parse are valid and parse back. *)
Class CosmosKeysLaws `{Crypto} `{Sdk} (K : Type) `{!Keyring K} `{!KeyringSign K} `{!CosmosKeys} : Prop := {
  kr_Sign_verifies kr input name msg sig input' input1 r input2 key :
    kr_Sign kr input name msg = (Ok sig, input') → kr_Key kr input1 name = (Ok r, input2) →
    rec_PubKey r = Ok (PubSecp256k1 key) → secp_Verify key msg sig = true;
  kr_Key_pair kr name input1 r1 input1' input2 r2 input2' key sk pk :
    kr_Key kr input1 name = (Ok r1, input1') → kr_Key kr input2 name = (Ok r2, input2') →
    rec_PubKey r1 = Ok (PubSecp256k1 key) → rec_Local r2 = Some (PrivSecp256k1 sk) →
    btcec_ParsePubKey key = Ok pk → SerializePubKey (PubKey (PrivKeyFromBytes sk)) = SerializePubKey pk;
  schnorr_Sign_verifies sk h sig pk :
    schnorr_Sign sk h = Ok sig → BIP340ToBTCPK (BIP340FromBTCPK (PubKey sk)) = Ok pk →
    schnorr_Verify sig h pk = true;
  hex_valid s b : NewBIP340PubKeyFromHex s = Ok b → ∃ pk, BIP340ToBTCPK b = Ok pk;
  hex_roundtrip b pk : BIP340ToBTCPK b = Ok pk → NewBIP340PubKeyFromHex (MarshalHex b) = Ok b;
}.

(** ** Documents *)

Record PoPExport := mkPoPExport {
  EotsPublicKey : string;
  BabyPublicKey : string;
  BabySignEotsPk : string;
  EotsSignBaby : string;
  BabyAddress : string;
}.
Record PoPExportDelete := mkPoPExportDelete {
  del_EotsPublicKey : string;
  del_BabyPublicKey : string;
  del_BabySignature : string;
  del_BabyAddress : string;
}.

Record MsgValue := mkMsgValue { Signer : string; Data : string }.
Record Msg := mkMsg { msg_Type : string; msg_Value : MsgValue }.
Record Fee := mkFee { Gas : string; Amount : list string }.
Record SignDoc := mkSignDoc {
  doc_ChainID : string;
  doc_AccountNumber : string;
  doc_Sequence : string;
  doc_Fee : Fee;
  doc_Msgs : list Msg;
  doc_Memo : string;
}.

Definition NewCosmosSignDoc (signer data : string) : SignDoc :=
  mkSignDoc "" "0" "0" (mkFee "0" []) [mkMsg "sign/MsgSignData" (mkMsgValue signer data)] "".

(** [json.Marshal] of a document, which has no value that cannot be encoded. *)
Fixpoint json_list (l : list bytes) : bytes :=
  match l with
  | [] => []
  | [x] => x
  | x :: rest => x ++ [Byte.x2c] ++ json_list rest
  end.
Definition json_array (l : list bytes) : bytes := Byte.x5b :: json_list l ++ [Byte.x5d].
Definition json_object (fields : list (string * bytes)) : bytes :=
  Byte.x7b :: json_list ((λ '(k, v), json_string k ++ [Byte.x3a] ++ v) <$> fields) ++ [Byte.x7d].

Definition json_Fee (f : Fee) : bytes :=
  json_object [("gas", json_string (Gas f)); ("amount", json_array (json_string <$> Amount f))].
Definition json_Msg (m : Msg) : bytes :=
  json_object [("type", json_string (msg_Type m));
    ("value", json_object [("signer", json_string (Signer (msg_Value m)));
                           ("data", json_string (Data (msg_Value m)))])].
Definition json_SignDoc (d : SignDoc) : bytes :=
  json_object [("chain_id", json_string (doc_ChainID d));
    ("account_number", json_string (doc_AccountNumber d)); ("sequence", json_string (doc_Sequence d));
    ("fee", json_Fee (doc_Fee d)); ("msgs", json_array (json_Msg <$> doc_Msgs d));
    ("memo", json_string (doc_Memo d))].

(** ** The commands *)

(** The Babylon keyring with its reader, and the EOTS manager. *)
Record PopEnv (K D : Type) `{Crypto} := mkPopEnv {
  pe_kr : K; pe_input : string; pe_em : LocalEOTSManager K D;
}.
Arguments mkPopEnv {K D _}.
Arguments pe_kr {K D _}.
Arguments pe_input {K D _}.
Arguments pe_em {K D _}.

Section pop.
Context `{Crypto} `{Sdk} `{BigEndian} `{Codec pSigningRecord} `{Bip39} `{RandFuel} `{Merkle} `{AccAddress}.
Context {K D : Type} `{!Keyring K} `{!KeyringSign K} `{!CosmosKeys} `{!KvBackend D}.
#[local] Abbreviation lm := (LocalEOTSManager K D).
#[local] Abbreviation env := (PopEnv K D).

Definition on_pe_em {A} : M lm A → M env A :=
  zoom pe_em (λ l s, mkPopEnv (pe_kr s) (pe_input s) l).
Definition pe_Sign (name : string) (msg : bytes) : M env bytes := λ s,
  let '(r, i) := kr_Sign (pe_kr s) (pe_input s) name msg in (r, mkPopEnv (pe_kr s) i (pe_em s)).

Definition babyPk (babyRecord : krRecord) : outcome bytes :=
  pubKey ← wrap_err "failed to get baby public key" (rec_PubKey babyRecord);
  match pubKey with
  | PubSecp256k1 v => Ok v
  | PubOther => Err (EText "unsupported key type in keyring")
  end.

(** The part of [babyKeyring] after the keyring [kr] was made: the key and the
    account address; [pubKey.Address()] panics on a key of the wrong length. *)
Definition babyKeyring_key (babyKeyName : string) : M (K * string) (bytes * bytes) :=
  babyKeyRecord ← go_wrap "failed to get baby keyring" (λ '(kr, input),
                    let '(r, i) := kr_Key kr input babyKeyName in (r, (kr, i)));
  babyPubKey ← go_wrap "failed to get baby public key" (go_lift (babyPk babyKeyRecord));
  addr ← go_lift (secp_Address babyPubKey);
  mret (babyPubKey, addr).

(** The bytes a Babylon key signs for a text. *)
Definition adr36_bytes (cosmosBech32Address : string) (bytesToSign : bytes) : outcome bytes :=
  let base64Bytes := EncodeToString bytesToSign in
  MustSortJSON (json_SignDoc (NewCosmosSignDoc cosmosBech32Address base64Bytes)).

Definition SignCosmosAdr36 (keyName cosmosBech32Address : string) (bytesToSign : bytes) : M env bytes :=
  bz ← go_lift (adr36_bytes cosmosBech32Address bytesToSign);
  go_wrap "failed to sign btc address bytes" (pe_Sign keyName bz).

Definition eotsPubKey (keyName fpPkStr : string) : M env bytes :=
  if negb (bool_decide (fpPkStr = "")) then
    go_wrap ("invalid finality-provider public key " +:+ fpPkStr) (go_lift (NewBIP340PubKeyFromHex fpPkStr))
  else
    go_wrap "failed to load EOTS public key from key name" (on_pe_em (LoadBIP340PubKeyFromKeyName keyName)).

Definition eotsSignMsg (keyName fpPkStr : string) (hashOfMsgToSign : bytes)
    : M env (SchnorrSignature * bytes) :=
  if negb (bool_decide (fpPkStr = "")) then
    fpPk ← go_wrap ("invalid finality-provider public key " +:+ fpPkStr)
             (go_lift (NewBIP340PubKeyFromHex fpPkStr));
    signature ← go_wrap ("unable to sign msg with pk " +:+ fpPkStr)
                  (on_pe_em (SignSchnorrSig fpPk hashOfMsgToSign));
    mret (signature, fpPk)
  else
    go_wrap ("unable to sign msg with key name " +:+ keyName)
      (on_pe_em (SignSchnorrSigFromKeyname keyName hashOfMsgToSign)).

(** From the account of the Babylon key on; the result is what
    [handleOutputJSON] writes. *)
Definition exportPop_signed (eotsKeyName eotsFpPubKeyStr babyKeyName : string) (babyPubKey bbnAddr : bytes)
    : M env PoPExport :=
  let bbnAddrStr := AccAddress_String bbnAddr in
  let hashOfMsgToSign := tmhash_Sum (bytes_of_string bbnAddrStr) in
  '(schnorrSigOverBabyAddr, eotsPk) ← go_wrap ("failed to sign address " +:+ bbnAddrStr)
                                        (eotsSignMsg eotsKeyName eotsFpPubKeyStr hashOfMsgToSign);
  let eotsPkHex := MarshalHex eotsPk in
  babySignature ← SignCosmosAdr36 babyKeyName bbnAddrStr (bytes_of_string eotsPkHex);
  mret (mkPoPExport eotsPkHex (EncodeToString babyPubKey) (EncodeToString babySignature)
          (EncodeToString (SchnorrSig_Serialize schnorrSigOverBabyAddr)) bbnAddrStr).

(** [flag] is the read of the flag with the message. *)
Definition getInterpretedMessage (flag : outcome string) : outcome string :=
  msg ← flag;
  if bool_decide (msg = "") then Err (EText "flage --message is empty")
  else wrap_err "failed to unquote message" (Unquote msg).

Definition deletePop_signed (eotsKeyName eotsFpPubKeyStr babyKeyName : string) (msg : outcome string)
    (babyPubKey bbnAddr : bytes) : M env PoPExportDelete :=
  btcPubKey ← go_map_err (λ e, EWrap "failed to get eots pk " e "") (eotsPubKey eotsKeyName eotsFpPubKeyStr);
  interpretedMsg ← go_lift (getInterpretedMessage msg);
  let bbnAddrStr := AccAddress_String bbnAddr in
  babySignature ← SignCosmosAdr36 babyKeyName bbnAddrStr (bytes_of_string interpretedMsg);
  mret (mkPoPExportDelete (MarshalHex btcPubKey) (EncodeToString babyPubKey)
          (EncodeToString babySignature) bbnAddrStr).

(** ** Validation *)

Definition ValidEotsSignBaby (eotsPk babyAddr eotsSigOverBabyAddr : string) : outcome bool :=
  eotsPubKey ← wrap_err "failed to parse eots public key" (NewBIP340PubKeyFromHex eotsPk);
  schnorrSigBase64 ← wrap_err "failed to decode signature" (DecodeString eotsSigOverBabyAddr);
  schnorrSig ← wrap_err "failed to parse schnorr signature" (schnorr_ParseSignature schnorrSigBase64);
  let sha256Addr := tmhash_Sum (bytes_of_string babyAddr) in
  btcPk ← MustToBTCPK eotsPubKey;
  Ok (schnorr_Verify schnorrSig sha256Addr btcPk).

Definition ValidBabySignEots (babyPk babyAddr eotsPkHex babySigOverEotsPk : string) : outcome bool :=
  babyPubKeyBz ← wrap_err "failed to parse baby public key" (DecodeString babyPk);
  eotsPk ← wrap_err "failed to parse eots public key" (NewBIP340PubKeyFromHex eotsPkHex);
  let babySignEots := bytes_of_string (MarshalHex eotsPk) in
  babySignEotsBz ← adr36_bytes babyAddr babySignEots;
  secp256SigBase64 ← wrap_err "failed to parse baby signature" (DecodeString babySigOverEotsPk);
  Ok (secp_Verify babyPubKeyBz babySignEotsBz secp256SigBase64).

Definition ValidPopExport (pop : PoPExport) : outcome bool :=
  valid ← ValidEotsSignBaby (EotsPublicKey pop) (BabyAddress pop) (EotsSignBaby pop);
  if (valid : bool) then
    ValidBabySignEots (BabyPublicKey pop) (BabyAddress pop) (EotsPublicKey pop) (BabySignEotsPk pop)
  else Ok false.

(** [%+v] of the document *)
Definition fmt_pop (pop : PoPExport) : string :=
  "{EotsPublicKey:" +:+ EotsPublicKey pop +:+ " BabyPublicKey:" +:+ BabyPublicKey pop
  +:+ " BabySignEotsPk:" +:+ BabySignEotsPk pop +:+ " EotsSignBaby:" +:+ EotsSignBaby pop
  +:+ " BabyAddress:" +:+ BabyAddress pop +:+ "}".

(** [validatePop] on the decoded document *)
Definition validatePop_doc (pop : PoPExport) : outcome unit :=
  match ValidPopExport pop with
  | Ok true => Ok ()
  | Ok false => Err (EText ("invalid pop " +:+ fmt_pop pop))
  | Err e => Err (EWrap ("failed to validate pop " +:+ fmt_pop pop +:+ ", reason: ") e "")
  | Crash w => Crash w
  end.
End pop.

(** ** Lemmas *)

Section lemmas.
Context `{CryptoLaws} `{Sdk} `{BigEndian} `{Codec pSigningRecord} `{Bip39} `{RandFuel} `{Merkle} `{AccAddress}.
Context {K D : Type} `{!Keyring K} `{!KeyringSign K} `{!CosmosKeys} `{!CosmosKeysLaws K} `{!KvBackend D}.
#[local] Abbreviation lm := (LocalEOTSManager K D).
#[local] Abbreviation env := (PopEnv K D).
Implicit Types (l : lm) (s : env).

(** A schnorr signature of a key verifies under its x-only key. *)
Lemma signed_by_key sk h sig b :
  schnorr_Sign sk h = Ok sig → SerializePubKey (PubKey sk) = b →
  ∃ pk, BIP340ToBTCPK b = Ok pk ∧ schnorr_Verify sig h pk = true.
Proof.
  intros Hs Hb. destruct (schnorr_pk_parses (PubKey sk)) as [pk Hpk]. exists pk.
  rewrite bip340_parse, <- Hb. split; [done|].
  eapply schnorr_Sign_verifies; [exact Hs|]. by rewrite bip340_serialize, bip340_parse.
Qed.

Lemma kr_KeyM_ok name l r l' :
  kr_KeyM name l = (Ok r, l') →
  (∃ i, kr_Key (lm_kr l) (lm_input l) name = (Ok r, i))
  ∧ lm_kr l' = lm_kr l ∧ lm_privateKeys l' = lm_privateKeys l.
Proof.
  unfold kr_KeyM. destruct (kr_Key _ _ _) as [rk i] eqn:Ek. intros [= -> <-]. split_and!; [|done..].
  by exists i.
Qed.

Lemma SignSchnorrSig_verifies pk h l sig l' :
  SignSchnorrSig pk h l = (Ok sig, l') →
  ∃ P, BIP340ToBTCPK pk = Ok P ∧ schnorr_Verify sig h P = true.
Proof.
  unfold SignSchnorrSig, signSchnorrSigFromPrivKey. intros HE. inv_bind HE.
  unfold getEOTSPrivKey in E. inv_bind E. inv_bind E. inv_bind E.
  case_bool_decide as Hpk; [|done]. injection E as -> <-.
  inv_bind HE. injection E as <- <-. apply go_lift_ok in HE as [Hs%wrap_err_ok _].
  by eapply signed_by_key.
Qed.

(** Without unlocked keys the manager signs with the key of the keyring. *)
Lemma privKey_of_keyring name l k l' :
  lm_privateKeys l = ∅ → eotsPrivKeyFromKeyName name l = (Ok (Some k), l') →
  ∃ i r i' sk, kr_Key (lm_kr l) i name = (Ok r, i') ∧ rec_Local r = Some (PrivSecp256k1 sk)
    ∧ k = PrivKeyFromBytes sk.
Proof.
  intros Hm. unfold eotsPrivKeyFromKeyName. intros HE. inv_bind HE. case_bool_decide.
  - inv_bind HE. injection HE as -> <-. unfold getKeyFromKeyring in E. inv_bind E.
    injection E0 as _ <-. inv_bind E. apply kr_KeyM_ok in E0 as ([i Hk] & _).
    destruct (rec_Local a0) as [[sk|]|] eqn:El; [|done..]. inv_bind E. injection E as <- _.
    by exists "", a0, i, sk.
  - case_bool_decide; [|done]. inv_bind HE. apply go_try_ok in E. unfold getKeyFromMap in E.
    destruct a as [e|k']; [done|]. inv_bind E. by rewrite Hm, lookup_empty in E.
Qed.

Lemma SignFromKeyname_verifies name h l sig pk l' :
  lm_privateKeys l = ∅ → SignSchnorrSigFromKeyname name h l = (Ok (sig, pk), l') →
  ∃ P, BIP340ToBTCPK pk = Ok P ∧ schnorr_Verify sig h P = true.
Proof.
  intros Hm. unfold SignSchnorrSigFromKeyname, signSchnorrSigFromPrivKey. intros HE. inv_bind HE.
  unfold LoadBIP340PubKeyFromKeyName, LoadBIP340PubKeyFromKeyName_kr in E. apply go_wrap_ok in E.
  inv_bind E. apply kr_KeyM_ok in E0 as ([i Hk] & Hkr & Hkeys). inv_bind E.
  destruct a1 as [key|]; [|done]. inv_bind E. injection E as <- <-.
  inv_bind HE. inv_bind HE. inv_bind E2. destruct a as [k|]; [|done]. injection E3 as -> <-.
  apply go_lift_ok in E2 as [Hs%wrap_err_ok _]. injection HE as -> <- _.
  apply privKey_of_keyring in E as (i1 & r & i2 & sk & Hk2 & Hl & ->); [|congruence].
  eapply signed_by_key; [exact Hs|]. rewrite bip340_serialize.
  rewrite Hkr in Hk2. exact (kr_Key_pair _ _ _ _ _ _ _ _ _ _ _ Hk Hk2 E0 Hl E1).
Qed.

Lemma eotsSignMsg_verifies name str h s sig pk s' :
  lm_privateKeys (pe_em s) = ∅ → eotsSignMsg name str h s = (Ok (sig, pk), s') →
  pe_kr s' = pe_kr s ∧ ∃ P, BIP340ToBTCPK pk = Ok P ∧ schnorr_Verify sig h P = true.
Proof.
  intros Hm. unfold eotsSignMsg. case_bool_decide; simpl; intros HE.
  - apply go_wrap_ok, zoom_inv in HE as (l & Hs & ->). split; [done|].
    by eapply SignFromKeyname_verifies.
  - inv_bind HE. inv_bind HE. injection HE as -> -> <-. apply zoom_inv in E0 as (l & Hs & ->).
    split; [done|]. by eapply SignSchnorrSig_verifies.
Qed.

Lemma babyKeyring_key_ok name kr input key addr k' :
  babyKeyring_key name (kr, input) = (Ok (key, addr), k') →
  k'.1 = kr ∧ secp_Address key = Ok addr
  ∧ ∃ r i, kr_Key kr input name = (Ok r, i) ∧ rec_PubKey r = Ok (PubSecp256k1 key).
Proof.
  unfold babyKeyring_key. intros HE. inv_bind HE. inv_bind HE. inv_bind HE. injection HE as -> -> <-.
  destruct (kr_Key _ _ _) as [r i] eqn:Ek. injection E as -> <-.
  unfold babyPk in E0. apply outcome_bind_ok in E0 as (p & Hp%wrap_err_ok & E0).
  destruct p as [k|]; [|done]. injection E0 as ->. split_and!; [done..|]. by exists a, i.
Qed.

(** What a Babylon key signed verifies over the same document. *)
Lemma SignCosmosAdr36_verifies name addr m s sig s' r i i' key :
  SignCosmosAdr36 name addr m s = (Ok sig, s') → kr_Key (pe_kr s) i name = (Ok r, i') →
  rec_PubKey r = Ok (PubSecp256k1 key) →
  ∃ bz, adr36_bytes addr m = Ok bz ∧ secp_Verify key bz sig = true.
Proof.
  unfold SignCosmosAdr36. intros HE Hk Hpk. inv_bind HE. apply go_wrap_ok in HE. unfold pe_Sign in HE.
  destruct (kr_Sign _ _ _ _) as [rs i1] eqn:Es. injection HE as -> <-. exists a. split; [done|].
  by eapply kr_Sign_verifies.
Qed.

(** Two signatures that verify make a valid document, whatever the address is. *)
Lemma valid_document eotsPk P key addr sig bz bsig :
  BIP340ToBTCPK eotsPk = Ok P → schnorr_Verify sig (tmhash_Sum (bytes_of_string addr)) P = true →
  adr36_bytes addr (bytes_of_string (MarshalHex eotsPk)) = Ok bz → secp_Verify key bz bsig = true →
  ValidPopExport (mkPoPExport (MarshalHex eotsPk) (EncodeToString key) (EncodeToString bsig)
    (EncodeToString (SchnorrSig_Serialize sig)) addr) = Ok true.
Proof.
  intros HP Hsig Hbz Hb. pose proof (hex_roundtrip (K:=K) _ _ HP) as Hhex.
  unfold ValidPopExport, ValidEotsSignBaby, ValidBabySignEots. simpl.
  rewrite Hhex. simpl. rewrite !DecodeString_EncodeToString. simpl.
  rewrite schnorr_sig_roundtrip. simpl. unfold MustToBTCPK. rewrite HP. simpl. rewrite Hsig. simpl.
  rewrite Hbz. simpl. by rewrite Hb.
Qed.

(** What an export makes of a fresh manager and the key of a record validates. *)
Lemma exportPop_signed_valid eotsName eotsPkStr babyName key addr s pop s' r i i' :
  lm_privateKeys (pe_em s) = ∅ → kr_Key (pe_kr s) i babyName = (Ok r, i') → rec_PubKey r = Ok (PubSecp256k1 key) →
  exportPop_signed eotsName eotsPkStr babyName key addr s = (Ok pop, s') →
  validatePop_doc pop = Ok ()
  ∧ BabyPublicKey pop = EncodeToString key ∧ BabyAddress pop = AccAddress_String addr
  ∧ (∃ pk P, EotsPublicKey pop = MarshalHex pk ∧ BIP340ToBTCPK pk = Ok P) ∧ (∃ b, BabySignEotsPk pop = EncodeToString b)
  ∧ ∃ b, EotsSignBaby pop = EncodeToString b.
Proof.
  intros Hfresh Hk Hpk HE. unfold exportPop_signed in HE. inv_bind HE. destruct a as [sig pk].
  destruct (eotsSignMsg_verifies _ _ _ _ _ _ _ Hfresh E) as (Hkr & P & HP & Hv).
  inv_bind HE. injection HE as <- _. rewrite <- Hkr in Hk.
  destruct (SignCosmosAdr36_verifies _ _ _ _ _ _ _ _ _ _ E0 Hk Hpk) as (bz & Hbz & Hb).
  split_and!; [|by eauto..]. unfold validatePop_doc. by rewrite (valid_document _ _ _ _ _ _ _ HP Hv Hbz Hb).
Qed.

(** Whichever way it is named, the EOTS key is a valid one. *)
Lemma eotsPubKey_valid name str s pk s' :
  eotsPubKey name str s = (Ok pk, s') → pe_kr s' = pe_kr s ∧ ∃ P, BIP340ToBTCPK pk = Ok P.
Proof.
  unfold eotsPubKey. case_bool_decide; simpl; intros HE; apply go_wrap_ok in HE.
  - apply zoom_inv in HE as (l & HE & ->). split; [done|].
    unfold LoadBIP340PubKeyFromKeyName, LoadBIP340PubKeyFromKeyName_kr in HE. apply go_wrap_ok in HE.
    inv_bind HE. inv_bind HE. destruct a0 as [key|]; [|done]. inv_bind HE. injection HE as <- _.
    destruct (schnorr_pk_parses a0) as [P HP]. exists P. by rewrite bip340_serialize, bip340_parse.
  - apply go_lift_ok in HE as [Hp ->]. split; [done|]. by eapply (hex_valid (K:=K)).
Qed.

(** A deletion is signed over the document of the unquoted message. *)
Lemma deletePop_signed_verifies eotsName eotsPkStr babyName msg key addr s del s' r i i' :
  kr_Key (pe_kr s) i babyName = (Ok r, i') → rec_PubKey r = Ok (PubSecp256k1 key) →
  deletePop_signed eotsName eotsPkStr babyName msg key addr s = (Ok del, s') →
  ∃ text bz sig pk P, getInterpretedMessage msg = Ok text ∧ BIP340ToBTCPK pk = Ok P
    ∧ adr36_bytes (AccAddress_String addr) (bytes_of_string text) = Ok bz ∧ secp_Verify key bz sig = true
    ∧ del = mkPoPExportDelete (MarshalHex pk) (EncodeToString key) (EncodeToString sig) (AccAddress_String addr).
Proof.
  intros Hk Hpk HE. unfold deletePop_signed in HE. inv_bind HE. inv_bind HE. inv_bind HE. injection HE as <- _.
  apply eotsPubKey_valid in E as (Hkr & P & HP).
  rewrite <- Hkr in Hk. destruct (SignCosmosAdr36_verifies _ _ _ _ _ _ _ _ _ _ E1 Hk Hpk) as (bz & Hbz & Hb).
  by exists a0, bz, a1, a, P.
Qed.
End lemmas.

(** ** Properties *)

Section properties.
Context `{CryptoLaws} `{Sdk} `{BigEndian} `{Codec pSigningRecord} `{Bip39} `{RandFuel} `{Merkle} `{AccAddress}.
Context {K D : Type} `{!Keyring K} `{!KeyringSign K} `{!CosmosKeys} `{!CosmosKeysLaws K} `{!KvBackend D}.

(** The address is not checked against the Babylon key: documents for any
    address at all validate when the two keys sign it. *)
Lemma any_address_validates sk key eotsPk addr sig bz bsig
    (Hpk : SerializePubKey (PubKey sk) = eotsPk)
    (Hsig : schnorr_Sign sk (tmhash_Sum (bytes_of_string addr)) = Ok sig)
    (Hbz : adr36_bytes addr (bytes_of_string (MarshalHex eotsPk)) = Ok bz)
    (Hb : secp_Verify key bz bsig = true) :
  validatePop_doc (mkPoPExport (MarshalHex eotsPk) (EncodeToString key) (EncodeToString bsig)
    (EncodeToString (SchnorrSig_Serialize sig)) addr) = Ok ().
Proof.
  destruct (signed_by_key (K:=K) _ _ _ _ Hsig Hpk) as (P & HP & Hv).
  unfold validatePop_doc. by rewrite (valid_document (K:=K) _ _ _ _ _ _ _ HP Hv Hbz Hb).
Qed.
End properties.

(** ** An instance *)

Module PopToy.
Export LmToy.
#[export] Instance pop_acc : AccAddress := {|
  AccAddress_String b := "bbn1" +:+ fmt_x b;
  AccAddressFromBech32 s := Ok (bytes_of_string s);
|}.
(** A signature is the key it was made with and the message. *)
#[export] Instance toy_sign : KeyringSign toy_keyring := λ k input name msg,
  if bool_decide (name ∈ tk_names k) then (Ok (toy_pk true ++ msg), "")
  else (Err (EText "key not found"), input).
#[export] Instance toy_cosmos : CosmosKeys := {|
  secp_Address key := Ok (take 2 key);
  secp_Verify key msg sig := bool_decide (sig = key ++ msg);
  MustSortJSON := Ok;
  schnorr_Verify sig h _ := bool_decide (sig = h);
|}.
#[export] Instance toy_cosmos_laws : CosmosKeysLaws toy_keyring.
Proof.
  split.
  - intros kr input name msg sig i i1 r i2 key. unfold kr_Sign, toy_sign. simpl.
    case_bool_decide; [|done]. intros [= <- _] [= <- _]. simpl. intros [= <-]. by apply bool_decide_true.
  - intros kr name i1 r1 i1' i2 r2 i2' key sk pk. simpl. case_bool_decide; [|done].
    intros [= <- _] [= <- _]. simpl. intros [= <-] [= <-]. rewrite toy_parse_pk_ok. by intros [= <-].
  - intros sk h sig pk [= <-] _. by apply bool_decide_true.
  - intros s b. change ((_ ← toy_parse_pk (bytes_of_string s); Ok (bytes_of_string s)) = Ok b →
      ∃ pk, toy_parse_pk b = Ok pk).
    intros (pk & Hpk & [= <-])%outcome_bind_ok. by exists pk.
  - intros b pk Hb. change (toy_parse_pk b = Ok pk) in Hb.
    change ((_ ← toy_parse_pk (bytes_of_string (string_of_bytes b)); Ok (bytes_of_string (string_of_bytes b)))
      = Ok b).
    unfold bytes_of_string, string_of_bytes. by rewrite String.list_byte_of_string_of_list_byte, Hb.
Qed.
End PopToy.
