(* ===== verification/EotsCmd.v ===== *)
(** * Keys from the command line of the EOTS daemon
      (src/eotsmanager/cmd/eotsd/daemon/keys.go, store.go, unlock.go)

    After a key was added to or imported into the keyring, its public key is
    mapped to its name in the database of the manager, either directly or
    through a running daemon; the listing prints the mapping, a rollback
    deletes signing records, and unlocking loads a key of a file keyring into
    a running daemon.  Adding a key is in [KeysAdd]; reading the configuration
    and opening the database around these parts in [EotsOffline]. *)

From Stdlib Require Import NArith ZArith Lia.
From stdpp Require Import base gmap strings list relations.
From S2P Require Import Prelude Encoding Kvdb External Config Toy EotsStore EotsApi LocalManager EotsRpc.

(** The keyring of the command with its reader, and what it saves to. *)
Record KeysEnv (K T : Type) := mkKeysEnv { ke_kr : K; ke_input : string; ke_target : T }.
Arguments mkKeysEnv {K T}.
Arguments ke_kr {K T}.
Arguments ke_input {K T}.
Arguments ke_target {K T}.

Section keys.
Context {K D : Type} `{Keyring K} `{KvBackend D} `{BigEndian} `{Codec pSigningRecord}
  `{Crypto} `{Sdk} `{Bip39} `{RandFuel} `{Grpc} `{Codec rpc_request}.

Definition ke_Key {T} (name : string) : M (KeysEnv K T) krRecord := λ s,
  let '(r, i) := kr_Key (ke_kr s) (ke_input s) name in (r, mkKeysEnv (ke_kr s) i (ke_target s)).
Definition on_target {T A} : M T A → M (KeysEnv K T) A :=
  zoom ke_target (λ t s, mkKeysEnv (ke_kr s) (ke_input s) t).

(** With the RPC flag. *)
Definition saveKeyNameMapping_rpc (keyName : string)
    : M (KeysEnv K (EOTSManagerGRPCClient K D)) bytes :=
  _ ← go_wrap "failed to create eots client" (on_target (NewEOTSManagerGRPCClient ""));
  eotsPk ← go_wrap ("failed to get public key for key " +:+ keyName)
             (LoadBIP340PubKeyFromKeyName_kr ke_Key keyName);
  btcPk ← go_lift (MustToBTCPK eotsPk);
  r ← go_try (on_target (rpc_SaveEOTSKeyName btcPk keyName));
  match r with
  | inr _ => mret eotsPk
  | inl err =>
      if errors_Is err "ErrDuplicateEOTSKeyName" then mret eotsPk
      else go_fail (wrapf "failed to save key name mapping" err)
  end.

(** On the database itself. *)
Definition saveKeyNameMapping_local (keyName : string)
    : M (KeysEnv K (LocalEOTSManager K D)) bytes :=
  eotsPk ← go_wrap ("failed to get public key for key " +:+ keyName)
             (LoadBIP340PubKeyFromKeyName_kr ke_Key keyName);
  btcPk ← go_lift (MustToBTCPK eotsPk);
  r ← go_try (on_target (SaveEOTSKeyName btcPk keyName));
  match r with
  | inr _ => mret eotsPk
  | inl err =>
      if errors_Is err "ErrDuplicateEOTSKeyName" then mret eotsPk
      else if errors_Is err "ErrDuplicateEOTSKeyRecord" then
        go_fail (EText ("key name " +:+ keyName +:+ " already exists in the database for a different eotsPK. "
          +:+ "Delete this key from the keyring and save it under a different name"))
      else go_fail (wrapf "failed to save key name mapping" err)
  end.

(** store.go: rolling the signing records back, given the flags. *)
Definition rollbackSignStore (height : N) (eotsFpPubKeyStr chainID : string) : M D unit :=
  if (height =? 0)%N then go_fail (EText "rollback-until-height flag is required")
  else if bool_decide (chainID = "") then go_fail (EText "flag chain-id is required")
  else
    _ ← go_wrap "failed to create eots store" initBuckets;
    fpPk ← go_wrap ("invalid finality-provider public key " +:+ eotsFpPubKeyStr)
             (go_lift (NewBIP340PubKeyFromHex eotsFpPubKeyStr));
    go_wrap "failed to delete sign store records"
      (DeleteSignRecordsFromHeight (Some fpPk) (Some (bytes_of_string chainID)) height).

Definition getAllEOTSKeys : M (LocalEOTSManager K D) (gmap string bytes) :=
  go_wrap "failed to get keys from db" ListEOTSKeys.

(** The names and keys that are printed, in the order of the map's iteration. *)
Definition print_key (kv : string * bytes) : outcome (string * string) :=
  pk ← wrap_err "failed to parse public key" (schnorr_ParsePubKey kv.2);
  Ok (kv.1, MarshalHex (BIP340FromBTCPK pk)).
Fixpoint print_keys (l : list (string * bytes)) : outcome (list (string * string)) :=
  match l with
  | [] => Ok []
  | kv :: rest => k ← print_key kv; ks ← print_keys rest; Ok (k :: ks)
  end.

(** [listed] is what [kr.List()] answers; its records are not used. *)
Definition runCommandPrintAllKeys (listed : outcome unit)
    : M (LocalEOTSManager K D) (list (string * string)) :=
  eotsKeys ← go_wrap "failed to get keys from db" getAllEOTSKeys;
  _ ← go_wrap "failed to list keys" (go_lift listed);
  go_lift (print_keys (map_to_list eotsKeys)).
End keys.

(** ** Lemmas *)

Section lemmas.
Context {K D : Type} `{Keyring K} `{KvLaws D} `{BigEndian} `{Codec pSigningRecord}
  `{CryptoLaws} `{Sdk} `{Bip39} `{RandFuel} `{GrpcLaws} `{Codec rpc_request}.
Implicit Types d : D.

(** The name a key is mapped to. *)
Definition mapped d (pk : bytes) (name : string) : Prop :=
  kv_has d eotsBucketName = true ∧ kv_get d eotsBucketName pk = Some (bytes_of_string name).

Lemma bytes_string_roundtrip b : bytes_of_string (string_of_bytes b) = b.
Proof. unfold bytes_of_string, string_of_bytes. apply String.list_byte_of_string_of_list_byte. Qed.
Lemma string_bytes_roundtrip s : string_of_bytes (bytes_of_string s) = s.
Proof. unfold bytes_of_string, string_of_bytes. apply String.string_of_list_byte_of_string. Qed.

Lemma mapped_read d pk name :
  kv_begin d = None → mapped d pk name → GetEOTSKeyName pk d = (Ok name, d).
Proof.
  intros Ho [Hh Hg]. unfold GetEOTSKeyName, go_wrap. rewrite kv_view_run by done.
  rewrite Hh. simpl. rewrite Hg. by rewrite string_bytes_roundtrip.
Qed.

(** The database accepts a name for a new key. *)
Definition db_works d : Prop :=
  kv_begin d = None ∧ kv_has d eotsBucketName = true
  ∧ ∀ k v, ∃ d', kv_put d eotsBucketName k v = Ok d' ∧ kv_commit d' = None.

(** [d'] is [d] with a new name. *)
Definition adds_name (pk : bytes) (name : string) d d' : Prop :=
  mapped d' pk name ∧ ∀ k, k ≠ pk → kv_get d' eotsBucketName k = kv_get d eotsBucketName k.

(** Saving a name, by what the key is mapped to. *)
Lemma AddEOTSKeyName_cases pk name d : name ≠ "" → db_works d →
  match kv_get d eotsBucketName (SerializePubKey pk) with
  | None => ∃ d', AddEOTSKeyName pk name d = (Ok (), d') ∧ adds_name (SerializePubKey pk) name d d'
  | Some old => AddEOTSKeyName pk name d
      = (Err (wrapf "failed to add EOTS key name"
           (if bool_decide (string_of_bytes old = name) then ErrDuplicateEOTSKeyRecord
            else ErrDuplicateEOTSKeyName)), d)
  end.
Proof.
  intros Hne (Ho & Hh & Hw). unfold AddEOTSKeyName, go_wrap.
  destruct (kv_get d eotsBucketName _) as [old|] eqn:Hg.
  - unfold kv_update. rewrite Ho, Hh, Hg. simpl. by case_bool_decide.
  - destruct (Hw (SerializePubKey pk) (bytes_of_string name)) as (d' & Hp & Hc). exists d'. split.
    + erewrite kv_update_run; [done|done| |done]. rewrite Hh, Hg. simpl.
      rewrite bool_decide_false by done. unfold saveEOTSKeyName. rewrite bool_decide_false by done.
      by rewrite Hp.
    + split; [split; [by rewrite (kv_put_has _ _ _ _ _ _ Hp)|by eapply kv_put_get_eq]|].
      intros k Hk. eapply kv_put_get_ne; [exact Hp|]. by right.
Qed.

(** The commands after the key was loaded and the save has answered. *)
Lemma local_run keyName pk P (s s1 : KeysEnv K (LocalEOTSManager K D)) d r d' :
  LoadBIP340PubKeyFromKeyName_kr ke_Key keyName s = (Ok pk, s1) → MustToBTCPK pk = Ok P →
  lm_es (ke_target s1) = d → AddEOTSKeyName P keyName d = (r, d') →
  ∃ r' s', saveKeyNameMapping_local keyName s = (r', s') ∧ lm_es (ke_target s') = d'
    ∧ match r with
      | Ok _ => r' = Ok pk
      | Err e => is_Ok r' = errors_Is e "ErrDuplicateEOTSKeyName"
      | Crash _ => is_Ok r' = false
      end.
Proof.
  intros Hkey HP <- Hadd. unfold saveKeyNameMapping_local.
  erewrite go_bind_run; [|by apply go_wrap_run]. rewrite HP. erewrite go_bind_run; [|reflexivity].
  unfold mbind, M_bind, go_bind, go_try, on_target, zoom, SaveEOTSKeyName, go_wrap, on_es. rewrite Hadd.
  destruct r as [[]|e|w]; simpl; [by eexists _, _| |by eexists _, _].
  destruct (errors_Is e "ErrDuplicateEOTSKeyName"); [by eexists _, _|].
  destruct (errors_Is e "ErrDuplicateEOTSKeyRecord"); by eexists _, _.
Qed.

(** Loading a key only reads from the keyring and its reader. *)
Lemma load_frame {T T'} keyName r (s s1 : KeysEnv K T) (t' : T') :
  LoadBIP340PubKeyFromKeyName_kr ke_Key keyName s = (r, s1) →
  ke_target s1 = ke_target s
  ∧ LoadBIP340PubKeyFromKeyName_kr ke_Key keyName (mkKeysEnv (ke_kr s) (ke_input s) t')
    = (r, mkKeysEnv (ke_kr s1) (ke_input s1) t').
Proof.
  unfold LoadBIP340PubKeyFromKeyName_kr, mbind, M_bind, go_bind, go_wrap, ke_Key, go_lift. simpl.
  destruct (kr_Key _ _ _) as [[k|e|w] i]; simpl; [|by intros [= <- <-]..].
  destruct (rec_PubKey k) as [[key|]|e|w]; simpl; [|by intros [= <- <-]..].
  destruct (btcec_ParsePubKey key); simpl; by intros [= <- <-].
Qed.

Lemma rpc_run keyName pk P (c c1 : KeysEnv K (EOTSManagerGRPCClient K D)) d r d' :
  LoadBIP340PubKeyFromKeyName_kr ke_Key keyName c = (Ok pk, c1) → MustToBTCPK pk = Ok P →
  c_link (ke_target c) = [] →
  lm_es (c_em (ke_target c)) = d → AddEOTSKeyName P keyName d = (r, d') → (∀ w, r ≠ Crash w) →
  ∃ r' c', saveKeyNameMapping_rpc keyName c = (r', c') ∧ lm_es (c_em (ke_target c')) = d'
    ∧ match r with Ok _ => r' = Ok pk | _ => ∃ e, r' = Err e end.
Proof.
  intros Hkey HP Hlink <- Hadd Hnc. unfold saveKeyNameMapping_rpc.
  erewrite go_bind_run; [|by apply go_wrap_run; unfold on_target, zoom; rewrite NewClient_run by (by rewrite Hlink)].
  erewrite go_bind_run; [|by apply go_wrap_run, (load_frame _ _ _ _ _ Hkey)].
  rewrite HP. erewrite go_bind_run; [|reflexivity].
  unfold mbind, M_bind, go_bind, go_try, on_target, zoom, rpc_SaveEOTSKeyName, go_wrap at 1. simpl.
  rewrite unary_exempt by (by right || by simpl; rewrite Hlink). simpl. unfold srv_SaveEOTSKeyName. rewrite uncompressed_roundtrip.
  erewrite go_bind_run; [|reflexivity]. unfold SaveEOTSKeyName, go_wrap, on_es. rewrite Hadd.
  destruct r as [[]|e|w]; simpl; [by eexists _, _| |by destruct (Hnc w)].
  destruct (grpc_status_text "failed to save EOTS key name: "
    (wrapf "failed to save EOTS key name" e) "") as (code & m & Hst & _).
  match goal with |- context [grpc_status ?x] => change (grpc_status x = EStatus code m) in Hst end.
  rewrite Hst. simpl. eexists _, _. split_and!; [done|done|by eexists].
Qed.
End lemmas.

(** ** Property *)

Section property.
Context {K D : Type} `{Keyring K} `{KvLaws D} `{BigEndian} `{Codec pSigningRecord}
  `{CryptoLaws} `{Sdk} `{Bip39} `{RandFuel} `{GrpcLaws} `{Codec rpc_request}.

(** Mapping a key of the keyring to its name, on a database that works: a
    key without a name gets it, and no other key is touched.  A key that has a
    name keeps it: on the database itself the command then succeeds exactly
    when the old name is a different one; through a running daemon it always
    fails. *)
Theorem key_mapping_outcomes keyName pk P
    (s s1 : KeysEnv K (LocalEOTSManager K D)) (c : EOTSManagerGRPCClient K D)
    (Hname : keyName ≠ "") (HP : MustToBTCPK pk = Ok P)
    (Hkey : LoadBIP340PubKeyFromKeyName_kr ke_Key keyName s = (Ok pk, s1))
    (Hsame : c_em c = ke_target s) (Hlink : c_link c = []) (Hdb : db_works (lm_es (ke_target s))) :
  let d := lm_es (ke_target s) in
  let remote := mkKeysEnv (ke_kr s) (ke_input s) c in
  match kv_get d eotsBucketName (SerializePubKey P) with
  | None =>
      (∃ s', saveKeyNameMapping_local keyName s = (Ok pk, s')
         ∧ adds_name (SerializePubKey P) keyName d (lm_es (ke_target s')))
      ∧ ∃ c', saveKeyNameMapping_rpc keyName remote = (Ok pk, c')
         ∧ adds_name (SerializePubKey P) keyName d (lm_es (c_em (ke_target c')))
  | Some old =>
      (∃ r s', saveKeyNameMapping_local keyName s = (r, s') ∧ lm_es (ke_target s') = d
         ∧ is_Ok r = bool_decide (string_of_bytes old ≠ keyName))
      ∧ ∃ e c', saveKeyNameMapping_rpc keyName remote = (Err e, c') ∧ lm_es (c_em (ke_target c')) = d
  end.
Proof.
  intros d remote. pose proof (AddEOTSKeyName_cases P keyName d Hname Hdb) as Hadd.
  destruct (load_frame _ _ _ _ c Hkey) as [Ht Hkeyc].
  destruct (kv_get d _ _) as [old|].
  - split.
    + destruct (local_run _ _ _ _ _ d _ _ Hkey HP ltac:(by rewrite Ht) Hadd) as (r & s' & Hr & Hd & Hok).
      exists r, s'. split_and!; [done|done|]. rewrite Hok. case_bool_decide as Ho; simpl; by case_bool_decide.
    + destruct (rpc_run _ _ _ _ _ d _ _ Hkeyc HP Hlink ltac:(by simpl; rewrite Hsame) Hadd ltac:(done))
        as (r & c' & Hr & Hd & e & ->).
      by exists e, c'.
  - destruct Hadd as (d' & Hadd & Hnew). split.
    + destruct (local_run _ _ _ _ _ d _ _ Hkey HP ltac:(by rewrite Ht) Hadd) as (r & s' & Hr & <- & ->). by exists s'.
    + destruct (rpc_run _ _ _ _ _ d _ _ Hkeyc HP Hlink ltac:(by simpl; rewrite Hsame) Hadd ltac:(done))
        as (r & c' & Hr & <- & ->).
      by exists c'.
Qed.
End property.

(** ** Rolling back *)

Section rollback.
Context {K D : Type} `{KvLaws D} `{BigEndianLaws} `{CodecLaws pSigningRecord} `{Crypto} `{Sdk}.
Implicit Types d : D.

Lemma initBuckets_get d u d' b k : initBuckets d = (Ok u, d') → kv_get d' b k = kv_get d b k.
Proof.
  unfold initBuckets. intros HE. apply go_wrap_ok, kv_update_ok in HE.
  apply outcome_bind_ok in HE as (d1 & Hc1%wrap_err_ok & HE).
  apply outcome_bind_ok in HE as (d2 & Hc2%wrap_err_ok & [= _ <-]).
  by rewrite (kv_create_get _ _ _ _ _ Hc2), (kv_create_get _ _ _ _ _ Hc1).
Qed.

End rollback.

(** ** Unlocking: unlock.go *)

Section unlock.
Context {K D : Type} `{Keyring K} `{KvLaws D} `{BigEndianLaws} `{CodecLaws pSigningRecord}
  `{CryptoLaws} `{Bip39} `{RandFuel} `{GrpcLaws} `{Codec rpc_request}.
#[local] Abbreviation client := (EOTSManagerGRPCClient K D).

(** [home] is the flag, [cfgKey] the key of the configuration in [homePath]. *)
Definition getHMACFromConfig (home homePath : string) (cfgKey : outcome string) : outcome string :=
  if bool_decide (home = "") then Ok ""
  else wrap_err ("failed to load config at " +:+ homePath) cfgKey.

(** [hmacEnv] and [passEnv] are the environment variables HMAC_KEY and
    EOTSD_KEYRING_PASSWORD, [typed] is what the terminal gives. *)
Definition unlockKeyring (hmacEnv passEnv : option string) (home homePath : string)
    (cfgKey typed : outcome string) (eotsFpPubKeyStr : string) : M client unit :=
  hmac ← match hmacEnv with
         | Some hmac => mret hmac
         | None => go_lift (getHMACFromConfig home homePath cfgKey)
         end;
  passphrase ← match passEnv with
               | Some p => mret p
               | None => go_wrap "failed to read passphrase" (go_lift typed)
               end;
  _ ← go_wrap "failed to create eotsd client" (NewEOTSManagerGRPCClient hmac);
  eotsFpPub ← go_wrap "failed to decode eots public key" (go_lift (hex_DecodeString eotsFpPubKeyStr));
  go_wrap "failed to unlock keyring" (rpc_Unlock eotsFpPub passphrase).

(** The key the command uses: the environment comes before the
    configuration. *)
Definition unlock_key (hmacEnv : option string) (home homePath : string) (cfgKey : outcome string)
    : string :=
  match hmacEnv with Some hmac => hmac | None => ok_or "" (getHMACFromConfig home homePath cfgKey) end.

(** The unlock command, when it succeeds on a daemon with a file keyring:
    the private key was not available in the daemon before and is afterwards,
    to every operation that signs with it as long as it matches the public
    key, nothing else of the daemon's database changed, and the key the
    command authenticated with is the one of the environment or else of the
    configuration; a second unlock is refused. *)
Theorem unlock_command_enables hmacEnv passEnv home homePath cfgKey typed hex (c c' : client) u
    (Hfile : kr_Backend (lm_kr (c_em c)) = BackendFile)
    (Hrun : unlockKeyring hmacEnv passEnv home homePath cfgKey typed hex c = (Ok u, c')) :
  ∃ pk, hex_DecodeString hex = Ok pk
    ∧ c_key c' = client_hmacKey (unlock_key hmacEnv home homePath cfgKey)
    ∧ lm_es (c_em c') = lm_es (c_em c)
    ∧ (∃ e, getEOTSPrivKey pk (c_em c) = (Err e, c_em c))
    ∧ (∃ k, getEOTSPrivKey pk (c_em c') =
         (if bool_decide (SerializePubKey (PubKey k) = pk) then Ok k else Err ErrPkMismatch, c_em c'))
    ∧ ∀ p', is_Ok (Unlock pk p' (c_em c')).1 = false.
Proof.
  unfold unlockKeyring in Hrun. inv_bind Hrun. inv_bind Hrun. inv_bind Hrun. inv_bind Hrun.
  assert (s = c ∧ a = unlock_key hmacEnv home homePath cfgKey) as [-> ->].
  { unfold unlock_key. destruct hmacEnv; [by injection E as <- <-|].
    apply go_lift_ok in E as [-> ->]. done. }
  assert (s0 = c) as -> by (destruct passEnv; [|apply go_wrap_ok in E0]; by injection E0 as _ <-).
  apply NewClient_ok in E1 as [Hem Hkey]. apply go_wrap_ok in Hrun. unfold rpc_Unlock in Hrun.
  apply go_wrap_ok in Hrun. pose proof (unary_ok _ _ _ _ _ _ Hrun) as Hun. apply go_wrap_ok in Hun.
  destruct u. exists a2. rewrite Hem in Hun. split_and!; [done| | |by eapply Unlock_enables..].
  - rewrite <- Hkey. revert Hrun. unfold unary.
    destruct (HMACUnaryClientInterceptor _ _ _) as [md|e|w]; [|done..].
    destruct (default _ _); [|done|]; destruct (HMACUnaryServerInterceptor _ _ _ _ _ _) as [[]];
      by intros [= _ <-].
  - by apply Unlock_ok in Hun as (name & k & _ & _ & Hes & _).
Qed.
End unlock.

(** ** Witness *)

Module KeysWitness.
Import RpcToy.

(** The environment's key is used although the configuration has another. *)
Definition w_file : EOTSManagerGRPCClient toy_keyring MapDb.db :=
  mkClient toy_lm_file "secret" toy_eots_cfg "" [].
Definition w_unlock := unlockKeyring (Some "secret") (Some "12345678") "home" "/home" (Ok "stale") (Ok "")
  (fmt_x (toy_pk true)) w_file.

Lemma unlock_command_enables_witness :
  w_unlock = (Ok (), w_unlock.2) ∧ c_key w_unlock.2 = "secret"
  ∧ is_Ok (getEOTSPrivKey (toy_pk true) (c_em w_unlock.2)).1 = true.
Proof.
  assert (E : w_unlock = (Ok (), w_unlock.2)) by (apply run_eq; vm_eq).
  split; [exact E|]. unfold w_unlock at 1 in E.
  destruct (unlock_command_enables (Some "secret") (Some "12345678") "home" "/home" (Ok "stale") (Ok "")
    (fmt_x (toy_pk true)) w_file w_unlock.2 () ltac:(vm_eq) E) as (pk & Hpk & Hkey & _).
  split; [exact Hkey|vm_eq].
Defined.

(** Height 10 was signed and is freed again, height 9 is kept. *)
Definition w_signed := (SignEOTS (toy_pk true) toy_chain (bytes_of_string "a") 10
  (SignEOTS (toy_pk true) toy_chain (bytes_of_string "a") 9 toy_lm).2).2.
Definition w_back := rollbackSignStore 10 (toy_hex (toy_pk true)) (string_of_bytes toy_chain)
  (lm_es w_signed).


Definition w_kr : toy_keyring := {| tk_backend := BackendTest; tk_names := ["other"] |}.
(** The key is known as "fp". *)
Definition w_s : KeysEnv toy_keyring (LocalEOTSManager toy_keyring MapDb.db) := mkKeysEnv w_kr "" toy_lm.
(** The daemon has an HMAC key, the command none. *)
Definition w_c : EOTSManagerGRPCClient toy_keyring MapDb.db := toy_remote "secret" "" [].

Lemma key_mapping_outcomes_witness :
  kv_get (lm_es toy_lm) eotsBucketName (toy_pk true) = Some (bytes_of_string "fp")
  ∧ is_Ok (saveKeyNameMapping_local "other" w_s).1 = true
  ∧ ∃ e c', saveKeyNameMapping_rpc "other" (mkKeysEnv w_kr "" w_c) = (Err e, c').
Proof.
  assert (Hold : kv_get (lm_es toy_lm) eotsBucketName (toy_pk true) = Some (bytes_of_string "fp")) by vm_eq.
  assert (Hdb : db_works (lm_es (ke_target w_s))).
  { assert (Hh : kv_has (lm_es toy_lm) eotsBucketName = true) by vm_eq.
    split; [vm_eq|]. split; [exact Hh|]. intros k v. unfold kv_has, MapDb.backend in Hh.
    apply bool_decide_eq_true in Hh as [m Hm]. exists (MapDb.Build_db
      (<[eotsBucketName := <[k := v]> m]> (MapDb.buckets (lm_es toy_lm)))).
    split; [|reflexivity]. unfold kv_put, MapDb.backend, w_s, ke_target. by rewrite Hm. }
  pose proof (key_mapping_outcomes "other" (toy_pk true) true w_s w_s w_c ltac:(done) ltac:(vm_eq)
    ltac:(vm_eq) eq_refl eq_refl Hdb) as Hw.
  cbv zeta in Hw.
  change (SerializePubKey (Crypto:=_) _) with (toy_pk true) in Hw.
  change (ke_target w_s) with toy_lm in Hw. rewrite Hold in Hw. destruct Hw as [(r & s' & Hr & _ & Hok) (e & c' & Hc & _)].
  split; [exact Hold|]. split; [|by exists e, c'].
  rewrite Hr. simpl. rewrite Hok. vm_eq.
Defined.
End KeysWitness.
