(* ===== verification/KeysAdd.v ===== *)
(** * Adding keys with the command line of the EOTS daemon
      (src/eotsmanager/cmd/eotsd/daemon/keysadd.go, keys.go)

    [eotsd keys add]: the key is made in the keyring ([runAddCmd], adapted from
    the Cosmos SDK), its public key is mapped to its name ([EotsCmd]) and the
    record is printed.  The keyring, the terminal and the codec of public keys
    are the classes below; flags are a record. *)

From Stdlib Require Import NArith ZArith Lia.
From stdpp Require Import base gmap strings list sorting pretty.
From S2P Require Import Prelude Kvdb External Config Toy Paths EotsStore EotsApi LocalManager EotsRpc.
From S2P Require Import Encoding EotsCmd.

(** ** What the command uses *)

Class KeyTypes := {
  AnyPubKey : Type;
  KeyRec : Type;
  SignAlgo : Type;
  pk_Address : AnyPubKey → bytes;
  (** [ctx.Codec.UnmarshalInterfaceJSON] *)
  UnmarshalInterfaceJSON : bytes → outcome AnyPubKey;
  (** [record.GetPubKey()] *)
  rec_GetPubKey : KeyRec → outcome AnyPubKey;
  (** the type URL of [algo.Generate()([]byte{}).PubKey()] *)
  algo_TypeUrl : SignAlgo → outcome string;
  IsMnemonicValid : string → bool;
  (** the SDK's description of a record for printing, and how it is made *)
  KeyOutput : Type;
  MkAccKeyOutput : KeyRec → outcome KeyOutput;
}.

(** The Cosmos keyring. *)
Class KeyStore `{KeyTypes} (KB : Type) := {
  kb_SigningAlgo : KB → string → outcome SignAlgo;
  kb_Key : string → M KB KeyRec;
  kb_Delete : string → M KB unit;
  kb_SaveMultisig : string → Z → list AnyPubKey → M KB unit;
  kb_SaveOfflineKey : string → AnyPubKey → M KB unit;
  kb_SaveLedgerKey : string → N → N → N → M KB unit;
  kb_NewAccount : string → string → string → string → SignAlgo → M KB unit;
  kb_NewInMemory : KB;
}.

(** What the keyring promises: reading changes no key, deleting removes one
    key, making a key adds it under a name that was free, and what fails
    changes no key. *)
Class KeyStoreLaws `{KeyTypes} (KB : Type) `{!KeyStore KB} := {
  kb_lookup : KB → string → option KeyRec;
  kb_key_ok name kb rec kb' : kb_Key name kb = (Ok rec, kb') → kb_lookup kb name = Some rec;
  kb_key_same name kb r kb' : kb_Key name kb = (r, kb') → ∀ n, kb_lookup kb' n = kb_lookup kb n;
  kb_delete_ok name kb u kb' : kb_Delete name kb = (Ok u, kb') →
    kb_lookup kb' name = None ∧ ∀ n, n ≠ name → kb_lookup kb' n = kb_lookup kb n;
  kb_delete_fail name kb r kb' : kb_Delete name kb = (r, kb') → is_Ok r = false →
    ∀ n, kb_lookup kb' n = kb_lookup kb n;
  kb_multisig name k pks kb r kb' : kb_SaveMultisig name k pks kb = (r, kb') →
    (∀ n, n ≠ name ∨ is_Ok r = false → kb_lookup kb' n = kb_lookup kb n)
    ∧ (is_Ok r = true → kb_lookup kb name = None ∧ is_Some (kb_lookup kb' name));
  kb_offline name pk kb r kb' : kb_SaveOfflineKey name pk kb = (r, kb') →
    (∀ n, n ≠ name ∨ is_Ok r = false → kb_lookup kb' n = kb_lookup kb n)
    ∧ (is_Ok r = true → kb_lookup kb name = None ∧ is_Some (kb_lookup kb' name));
  kb_account name m p h a kb r kb' : kb_NewAccount name m p h a kb = (r, kb') →
    (∀ n, n ≠ name ∨ is_Ok r = false → kb_lookup kb' n = kb_lookup kb n)
    ∧ (is_Ok r = true → kb_lookup kb name = None ∧ is_Some (kb_lookup kb' name));
}.

(** The terminal: [input.GetConfirmation], [input.GetString]. *)
Class Terminal (T : Type) := {
  GetConfirmation : string → M T bool;
  GetString : string → M T string;
}.

Record AddFlags := mkAddFlags {
  af_name : string;
  af_interactive : bool;
  af_noBackup : bool;
  af_keyType : string;
  af_dryRun : bool;
  af_multisig : list string;
  af_threshold : Z;
  af_noSort : bool;
  af_pubKey : string;
  af_pubKeyBase64 : string;
  af_coinType : N;
  af_account : N;
  af_index : N;
  af_hdPath : string;
  af_useLedger : bool;
  af_recover : bool;
  af_mnemonicSrc : string
}.

(** The keyring, the terminal and the files of the command. *)
Record add_env (KB T : Type) := mkAddEnv { ae_kb : KB; ae_term : T; ae_os : os }.
Arguments mkAddEnv {KB T}.
Arguments ae_kb {KB T}.
Arguments ae_term {KB T}.
Arguments ae_os {KB T}.

(** ** keysadd.go *)

Definition validateMultisigThreshold (k nKeys : Z) : outcome unit :=
  if (k <=? 0)%Z then Err (EText "threshold must be a positive integer")
  else if (nKeys <? k)%Z then
    Err (EText ("threshold k of n multisignature: " +:+ pretty nKeys +:+ " < " +:+ pretty k))
  else Ok ().

Section add.
Context `{KeyTypes} `{Bip39} {KB T : Type} `{!KeyStore KB} `{!Terminal T}.
#[local] Abbreviation env := (add_env KB T).
Implicit Types e : env.

Definition on_kb {A} : M KB A → M env A := zoom ae_kb (λ kb e, mkAddEnv kb (ae_term e) (ae_os e)).
Definition on_term {A} : M T A → M env A := zoom ae_term (λ t e, mkAddEnv (ae_kb e) t (ae_os e)).
Definition on_files {A} : M os A → M env A := zoom ae_os (λ w e, mkAddEnv (ae_kb e) (ae_term e) w).

(** The deferred close only prints its error. *)
Definition readMnemonicFromFile (filePath : string) : M env string :=
  bz ← go_wrap "failed to open mnemonic file" (on_files (read_file (Clean filePath)));
  mret (string_of_bytes bz).

(** Lines 76 to 93: an existing key is deleted after a confirmation. *)
Definition override_existing (name : string) : M env unit :=
  r ← go_try (on_kb (kb_Key name));
  match r with
  | inl _ => mret ()
  | inr _ =>
      response ← go_wrap "failed to get confirmation"
                   (on_term (GetConfirmation ("override the existing name " +:+ name)));
      if negb response then go_fail (EVar "aborted" "aborted")
      else go_wrap "failed to delete key" (on_kb (kb_Delete name))
  end.

(** Lines 103 to 114 *)
Fixpoint multisig_keys (names : list string) : M env (list AnyPubKey) :=
  match names with
  | [] => mret []
  | keyname :: rest =>
      k ← go_wrap "failed to get key" (on_kb (kb_Key keyname));
      key ← go_wrap "failed to get pubkey" (go_lift (rec_GetPubKey k));
      pks ← multisig_keys rest;
      mret (key :: pks)
  end.

Definition addr_le (p q : AnyPubKey) : Prop := bytes_le (pk_Address p) (pk_Address q).
#[local] Instance addr_le_dec p q : Decision (addr_le p q).
Proof. unfold addr_le. apply _. Defined.

(** Lines 95 to 129: [true] when a multisig key was asked for and saved *)
Definition add_multisig (f : AddFlags) : M env bool :=
  match af_multisig f with
  | [] => mret false
  | names =>
      _ ← go_wrap "failed to validate multisig threshold"
            (go_lift (validateMultisigThreshold (af_threshold f) (Z.of_nat (length names))));
      pks ← multisig_keys names;
      let pks := if af_noSort f then pks else merge_sort addr_le pks in
      _ ← go_wrap "failed to save multisig" (on_kb (kb_SaveMultisig (af_name f) (af_threshold f) pks));
      mret true
  end.

(** The JSON of the anonymous struct: empty fields are omitted. *)
Definition json_field (key value : string) : list bytes :=
  if bool_decide (value = "") then [] else [json_string key ++ [Byte.x3a] ++ json_string value].
Definition json_pub (typeUrl key : string) : bytes :=
  let fields := json_field "@type" typeUrl ++ json_field "key" key in
  Byte.x7b :: foldr (λ f acc, f ++ (if bool_decide (acc = []) then [] else [Byte.x2c]) ++ acc) [] fields
    ++ [Byte.x7d].

(** Lines 132 to 181: [true] when an offline key was saved *)
Definition add_offline (f : AddFlags) (algo : SignAlgo) : M env bool :=
  if negb (bool_decide (af_pubKey f = "")) && negb (bool_decide (af_pubKeyBase64 f = "")) then
    go_fail (EText "flags pubkey and pubkey-base64 cannot be used simultaneously")
  else if negb (bool_decide (af_pubKey f = "")) then
    pk ← go_wrap "failed to unmarshal pubkey"
           (go_lift (UnmarshalInterfaceJSON (bytes_of_string (af_pubKey f))));
    _ ← go_wrap "failed to save offline key" (on_kb (kb_SaveOfflineKey (af_name f) pk));
    mret true
  else if negb (bool_decide (af_pubKeyBase64 f = "")) then
    b64 ← go_wrap "failed to decode pubkey base64" (go_lift (DecodeString (af_pubKeyBase64 f)));
    typeUrl ← go_wrap "failed to create any with value" (go_lift (algo_TypeUrl algo));
    pk ← go_wrap "failed to unmarshal interface json"
           (go_lift (UnmarshalInterfaceJSON (json_pub typeUrl (string_of_bytes b64))));
    _ ← go_wrap "failed to save offline key" (on_kb (kb_SaveOfflineKey (af_name f) pk));
    mret true
  else mret false.

Definition read_mnemonic (f : AddFlags) (prompt : string) : M env string :=
  if bool_decide (af_mnemonicSrc f = "") then go_wrap "failed to get string" (on_term (GetString prompt))
  else go_wrap "failed to read mnemonic from file" (readMnemonicFromFile (af_mnemonicSrc f)).

(** Lines 208 to 257: the mnemonic that was typed or read, if any, or a new
    one *)
Definition typed_mnemonic (f : AddFlags) : M env string :=
  if af_recover f then
    m ← read_mnemonic f "Enter your bip39 mnemonic";
    if negb (IsMnemonicValid m) then go_fail (EText "invalid mnemonic") else mret m
  else if af_interactive f then
    m ← read_mnemonic f "Enter your bip39 mnemonic, or hit enter to generate one.";
    if negb (IsMnemonicValid m) && negb (bool_decide (m = "")) then go_fail (EText "invalid mnemonic")
    else mret m
  else mret "".
Definition choose_mnemonic (f : AddFlags) : M env string :=
  mnemonic ← typed_mnemonic f;
  if bool_decide (mnemonic = "") then
    entropySeed ← go_wrap "failed to new entropy" (go_lift (bip39_NewEntropy 256));
    go_wrap "failed to new mnemonic" (go_lift (bip39_NewMnemonic entropySeed))
  else mret mnemonic.

(** Lines 260 to 279 *)
Definition quote : string := String (Ascii.ascii_of_nat 34) "".
Definition passphrase_prompt : string :=
  "Enter your bip39 passphrase. This is combined with the mnemonic to derive the seed. "
  +:+ "Most users should just hit enter to use the default, " +:+ quote +:+ quote.
Definition choose_passphrase (f : AddFlags) : M env string :=
  if af_interactive f then
    p ← go_wrap "failed to get string" (on_term (GetString passphrase_prompt));
    if bool_decide (p = "") then mret ""
    else
      p2 ← go_wrap "failed to get string" (on_term (GetString "Repeat the passphrase:"));
      if negb (bool_decide (p = p2)) then go_fail (EText "passphrases don't match") else mret p
  else mret "".

(** Lines 183 to 297, on the keyring of the environment: the mnemonic and
    whether to show it. *)
Definition add_account (f : AddFlags) (algo : SignAlgo) : M env (option (string * bool)) :=
  if af_useLedger f then go_fail (EText "cannot set custom bip32 path with ledger")
  else if af_useLedger f then
    _ ← go_wrap "failed to save ledger key"
          (on_kb (kb_SaveLedgerKey (af_name f) (af_coinType f) (af_account f) (af_index f)));
    mret None
  else
    mnemonic ← choose_mnemonic f;
    bip39Passphrase ← choose_passphrase f;
    _ ← go_wrap "failed to create new account"
          (on_kb (kb_NewAccount (af_name f) mnemonic bip39Passphrase (af_hdPath f) algo));
    if af_recover f then mret (Some ("", false)) else mret (Some (mnemonic, negb (af_noBackup f))).

(** The part after the algorithm was found, on the keyring in use. *)
Definition add_existing (f : AddFlags) : M env bool :=
  if af_dryRun f then mret false else _ ← override_existing (af_name f); add_multisig f.
Definition add_on_keyring (f : AddFlags) (algo : SignAlgo) : M env (option (string * bool)) :=
  saved ← add_existing f;
  match saved with
  | true => mret None
  | false =>
      saved ← add_offline f algo;
      match saved with true => mret None | false => add_account f algo end
  end.

(** A dry run works on a keyring in memory, which is gone afterwards. *)
Definition runAddCmd (f : AddFlags) : M env (option (string * bool)) := λ e,
  match kb_SigningAlgo (ae_kb e) (af_keyType f) with
  | Err err => (Err (wrapf "failed to get signing algo" err), e)
  | Crash w => (Crash w, e)
  | Ok algo =>
      if af_dryRun f then
        let '(r, e') := add_on_keyring f algo (mkAddEnv kb_NewInMemory (ae_term e) (ae_os e)) in
        (r, mkAddEnv (ae_kb e) (ae_term e') (ae_os e'))
      else add_on_keyring f algo e
  end.

(** ** keys.go *)

(** What is printed: record, hex key and, if it is shown, the mnemonic. *)
Record KeyOutputWithPubKeyHex := mkKeyOutput {
  ko_rec : KeyOutput;
  ko_hex : string;
  ko_mnemonic : option string
}.

Definition printCreatePubKeyHex (k : KeyRec) (eotsPkHex : string) (showMnemonic : bool)
    (mnemonic outputFormat : string) : outcome KeyOutputWithPubKeyHex :=
  match MkAccKeyOutput k with
  | Err err => Err (wrapf "failed to marshal keys" err)
  | Crash w => Crash w
  | Ok out =>
      if bool_decide (outputFormat = "text") || bool_decide (outputFormat = "json") then
        Ok (mkKeyOutput out eotsPkHex (if showMnemonic then Some mnemonic else None))
      else Err (EText ("invalid output format " +:+ outputFormat))
  end.

(** [shown] are the values of the command's context. *)
Definition printFromKey (keyName eotsPkHex outputFormat : string) (shown : option (string * bool))
    : M env KeyOutputWithPubKeyHex :=
  k ← go_wrap ("failed to get public get key " +:+ keyName) (on_kb (kb_Key keyName));
  let '(mnemonic, showMnemonic) := default ("", false) shown in
  go_lift (printCreatePubKeyHex k eotsPkHex showMnemonic mnemonic outputFormat).
End add.

(** The environment of the whole command: the reader the keyring takes
    passphrases from and the daemon or database that keeps the names come with
    it. *)
Record cmd_env (KB T Tg : Type) := mkCmdEnv { ce_add : add_env KB T; ce_input : string; ce_target : Tg }.
Arguments mkCmdEnv {KB T Tg}.
Arguments ce_add {KB T Tg}.
Arguments ce_input {KB T Tg}.
Arguments ce_target {KB T Tg}.

Section command.
Context `{KeyTypes} `{Bip39} {KB T Tg : Type} `{!KeyStore KB} `{!Terminal T}.
#[local] Abbreviation env := (cmd_env KB T Tg).

Definition on_add {A} : M (add_env KB T) A → M env A :=
  zoom ce_add (λ e c, mkCmdEnv e (ce_input c) (ce_target c)).
Definition on_mapping {A} : M (KeysEnv KB Tg) A → M env A :=
  zoom (λ c, mkKeysEnv (ae_kb (ce_add c)) (ce_input c) (ce_target c))
    (λ k c, mkCmdEnv (mkAddEnv (ke_kr k) (ae_term (ce_add c)) (ae_os (ce_add c))) (ke_input k) (ke_target k)).

(** [saveKeyNameMapping], directly or through a daemon, and [MarshalHex] *)
Variable save : string → M (KeysEnv KB Tg) bytes.
(** [eotsmanager.LoadBIP340PubKeyFromKeyName] *)
Variable load : string → M (KeysEnv KB Tg) bytes.
Variable hex : bytes → string.

(** [showCmd.RunE]: the error of loading the key is not kept. *)
Definition showCmd_RunE (outputFormat keyName : string) : M env KeyOutputWithPubKeyHex :=
  r ← go_try (on_mapping (load keyName));
  match r with
  | inl _ => go_fail (EText ("failed to load eots pk from db by key name " +:+ keyName))
  | inr eotsPk => on_add (printFromKey keyName (hex eotsPk) outputFormat None)
  end.

(** [addCmd.RunE] *)
Definition addCmd_RunE (outputFormat : string) (f : AddFlags) : M env KeyOutputWithPubKeyHex :=
  shown ← go_wrap "failed to run add cmd prepare" (on_add (runAddCmd f));
  eotsPk ← go_wrap "failed to save key name mapping" (on_mapping (save (af_name f)));
  go_wrap ("failed to print key " +:+ af_name f)
    (on_add (printFromKey (af_name f) (hex eotsPk) outputFormat shown)).

(** The post-run of the import commands. *)
Definition saveKeyOnPostRun (keyName : string) : M env unit :=
  _ ← go_wrap "failed to save key name mapping" (on_mapping (save keyName)); mret ().
End command.

(** ** What adding a key does to the keyring *)

Section facts.
Context `{KeyTypes} `{Bip39} {KB T : Type} `{!KeyStore KB} `{!KeyStoreLaws KB} `{!Terminal T}.
#[local] Abbreviation env := (add_env KB T).
Implicit Types e : env.

Definition key_at e (n : string) : option KeyRec := kb_lookup (ae_kb e) n.

(** No key changes. *)
Definition keys_same : relation env := λ e e', ∀ n, key_at e' n = key_at e n.
#[export] Instance keys_same_preorder : PreOrder keys_same.
Proof. split; [done|]. intros e1 e2 e3 H1 H2 n. by rewrite H2, H1. Qed.
(** No key of another name changes. *)
Definition others_same (name : string) : relation env := λ e e', ∀ n, n ≠ name → key_at e' n = key_at e n.
#[export] Instance others_same_preorder name : PreOrder (others_same name).
Proof. split; [done|]. intros e1 e2 e3 H1 H2 n Hn. by rewrite H2, H1. Qed.

Lemma same_term {A} (m : M T A) : preserves keys_same (on_term (KB := KB) m).
Proof. intros e r e' (t & _ & ->)%zoom_inv. done. Qed.
Lemma same_files {A} (m : M os A) : preserves keys_same (on_files (KB := KB) (T := T) m).
Proof. intros e r e' (t & _ & ->)%zoom_inv. done. Qed.
Lemma same_key name : preserves keys_same (on_kb (T := T) (kb_Key name)).
Proof. intros e r e' (kb & E & ->)%zoom_inv n. by apply (kb_key_same _ _ _ _ E). Qed.
#[local] Hint Resolve same_term same_files same_key : preserves.

Ltac same_tac :=
  repeat first
    [ apply preserves_bind; [apply _| |intros ?] | apply preserves_wrap | apply preserves_try; [apply _|]
    | apply preserves_ret; apply _ | apply preserves_fail; apply _ | apply preserves_lift; apply _
    | solve [eauto with preserves] ].

Lemma same_multisig_keys names : preserves keys_same (multisig_keys (KB := KB) (T := T) names).
Proof. induction names as [|n names IH]; simpl; same_tac; done. Qed.

Lemma same_read_mnemonic f prompt : preserves keys_same (read_mnemonic (KB := KB) (T := T) f prompt).
Proof. unfold read_mnemonic, readMnemonicFromFile. case_bool_decide; same_tac. Qed.

Lemma same_typed_mnemonic f : preserves keys_same (typed_mnemonic (KB := KB) (T := T) f).
Proof.
  unfold typed_mnemonic. destruct (af_recover f); [|destruct (af_interactive f)].
  - apply preserves_bind; [apply _|apply same_read_mnemonic|intros m].
    destruct (negb _); same_tac.
  - apply preserves_bind; [apply _|apply same_read_mnemonic|intros m].
    destruct (_ && _); same_tac.
  - same_tac.
Qed.

Lemma same_choose_mnemonic f : preserves keys_same (choose_mnemonic (KB := KB) (T := T) f).
Proof.
  unfold choose_mnemonic. apply preserves_bind; [apply _|apply same_typed_mnemonic|intros m].
  case_bool_decide; same_tac.
Qed.

Lemma same_choose_passphrase f : preserves keys_same (choose_passphrase (KB := KB) (T := T) f).
Proof.
  unfold choose_passphrase. destruct (af_interactive f); [|same_tac].
  apply preserves_bind; [apply _|same_tac|intros p]. case_bool_decide; [same_tac|].
  apply preserves_bind; [apply _|same_tac|intros p2]. case_bool_decide; same_tac.
Qed.

(** [m] touches no key, or adds one under the free name [name] and says so. *)
Definition adds {A} (name : string) (made : A → bool) (m : M env A) : Prop :=
  ∀ e r e', m e = (r, e') →
  keys_same e e' ∧ (∀ a, r = Ok a → made a = false)
  ∨ others_same name e e' ∧ key_at e name = None ∧ is_Some (key_at e' name) ∧ ∃ a, r = Ok a ∧ made a = true.

Lemma adds_same {A} name (made : A → bool) (m : M env A) :
  preserves keys_same m → (∀ e a e', m e = (Ok a, e') → made a = false) → adds name made m.
Proof. intros Hs Hm e r e' HE. left. split; [by eapply Hs|]. intros a ->. by eapply Hm. Qed.

Lemma adds_after {A B} name (made : B → bool) (m : M env A) (k : A → M env B) :
  preserves keys_same m → (∀ a, adds name made (k a)) → adds name made (m ≫= k).
Proof.
  intros Hs Hk e r e' HE. unfold mbind, M_bind, go_bind in HE.
  destruct (m e) as [[a|x|w] e1] eqn:Em; pose proof (Hs _ _ _ Em) as H1;
    [|left; split; [by injection HE as _ <-|intros a; by injection HE as <- _]..].
  destruct (Hk a _ _ _ HE) as [[H2 H3]|(H2 & H3 & H4 & H5)]; [left|right].
  - split; [by etrans|done].
  - split_and!; [intros n Hn; by rewrite H2, H1|by rewrite <-H1|done|done].
Qed.

(** Saving under the name and answering that it was done. *)
Lemma adds_save {B} name (made : B → bool) (m : M KB unit) (b : B) :
  made b = true →
  (∀ kb r kb', m kb = (r, kb') →
     (∀ n, n ≠ name ∨ is_Ok r = false → kb_lookup kb' n = kb_lookup kb n)
     ∧ (is_Ok r = true → kb_lookup kb name = None ∧ is_Some (kb_lookup kb' name))) →
  ∀ pre, adds name made (_ ← go_wrap pre (on_kb m); mret b).
Proof.
  intros Hb Hm pre e r e' HE. unfold mbind, M_bind, go_bind, go_wrap in HE.
  destruct (on_kb m e) as [r0 e1] eqn:E. apply zoom_inv in E as (kb & E & ->).
  destruct (Hm _ _ _ E) as [Hsame Hnew]. destruct r0 as [u|x|w]; simpl in HE.
  - injection HE as <- <-. right. destruct (Hnew eq_refl) as [? ?].
    split_and!; [|done|done|by exists b]. intros n Hn. apply Hsame. by left.
  - injection HE as <- <-. left. split; [|done]. intros n. apply Hsame. by right.
  - injection HE as <- <-. left. split; [|done]. intros n. apply Hsame. by right.
Qed.

Lemma adds_multisig f : adds (af_name f) id (add_multisig (KB := KB) (T := T) f).
Proof.
  unfold add_multisig. destruct (af_multisig f) as [|n names].
  { apply adds_same; [same_tac|]. by intros e a e' [= <- _]. }
  apply adds_after; [same_tac|intros _]. apply adds_after; [apply same_multisig_keys|intros pks].
  apply adds_save; [done|]. intros kb r kb'. apply kb_multisig.
Qed.

Lemma adds_offline f algo : adds (af_name f) id (add_offline (KB := KB) (T := T) f algo).
Proof.
  unfold add_offline. repeat case_bool_decide; simpl;
    try (apply adds_same; [same_tac|by intros e a e' [= <- _]]).
  all: repeat (apply adds_after; [solve [same_tac]|intros ?]); apply adds_save; [done|]; intros kb r kb'; apply kb_offline.
Qed.

Lemma adds_account f algo : adds (af_name f) (λ _, true) (add_account (KB := KB) (T := T) f algo).
Proof.
  unfold add_account. destruct (af_useLedger f).
  { intros e r e' [= <- <-]. left. by split. }
  apply adds_after; [apply same_choose_mnemonic|intros m].
  apply adds_after; [apply same_choose_passphrase|intros p].
  destruct (af_recover f); (apply adds_save; [done|]); intros kb r kb'; apply kb_account.
Qed.

(** A first attempt that answers whether it was the one. *)
Lemma adds_bind {B} name (made : B → bool) (m : M env bool) (k : bool → M env B) b :
  adds name id m → k true = mret b → made b = true → adds name made (k false) → adds name made (m ≫= k).
Proof.
  intros Hm Hk Hb Hk' e r e' HE. unfold mbind, M_bind, go_bind in HE.
  destruct (m e) as [[x|x|w] e1] eqn:Em; destruct (Hm _ _ _ Em) as [[H1 Hx]|(H1 & H2 & H3 & y & Hy & Hid)];
    try done; [| |left; split; [by injection HE as _ <-|intros a; by injection HE as <- _]..].
  - rewrite (Hx _ eq_refl : x = false) in HE.
    destruct (Hk' _ _ _ HE) as [[H2 H3]|(H2 & H3 & H4 & H5)]; [left|right].
    + split; [by etrans|done].
    + split_and!; [intros n Hn; by rewrite H2, H1|by rewrite <-H1|done|done].
  - injection Hy as <-. unfold id in Hid. subst x. rewrite Hk in HE. injection HE as <- <-. right.
    split_and!; [done..|]. by exists b.
Qed.

Definition confirmed (name : string) e : Prop :=
  ∃ t', GetConfirmation ("override the existing name " +:+ name) (ae_term e) = (Ok true, t').

Lemma override_cases name e r e' :
  override_existing name e = (r, e') →
  others_same name e e'
  ∧ (keys_same e e' ∨ is_Ok r = true ∧ confirmed name e ∧ key_at e' name = None).
Proof.
  unfold override_existing. intros HE. unfold mbind at 1, M_bind at 1, go_bind at 1, go_try in HE.
  destruct (on_kb (kb_Key name) e) as [r1 e1] eqn:Ek.
  pose proof (same_key _ _ _ _ Ek) as H1. apply zoom_inv in Ek as (kb1 & Ek & ->).
  destruct r1 as [rec|x|w]; [|injection HE as <- <-; split; [by intros n _; apply H1|by left]..].
  assert (∀ e2, keys_same e e2 → others_same name e e2 ∧ (keys_same e e2
    ∨ is_Ok r = true ∧ confirmed name e ∧ key_at e2 name = None)) as Hsame
    by (intros e2 Hs; split; [intros n _; apply Hs|by left]).
  unfold mbind at 1, M_bind at 1, go_bind at 1, go_wrap at 1 in HE.
  destruct (on_term _ _) as [r2 e2] eqn:Et. pose proof (same_term _ _ _ _ Et) as H2.
  apply zoom_inv in Et as (t & Et & ->). simpl in Et.
  destruct r2 as [[]|x|w]; simpl in HE; [|injection HE as <- <-; apply Hsame; by etrans..].
  unfold go_wrap in HE. destruct (on_kb (kb_Delete name) _) as [r3 e3] eqn:Ed. injection HE as <- <-.
  apply zoom_inv in Ed as (kb3 & Ed & ->). simpl in *. destruct r3 as [u|x|w]; simpl in *.
  - apply kb_delete_ok in Ed as [Hn Ho]. split.
    + intros n Hne. unfold key_at in *. simpl. rewrite Ho by done. apply H1.
    + right. split_and!; [done|by exists t|done].
  - apply Hsame. etrans; [exact H1|]. intros n. by apply (kb_delete_fail _ _ _ _ Ed).
  - apply Hsame. etrans; [exact H1|]. intros n. by apply (kb_delete_fail _ _ _ _ Ed).
Qed.

Lemma adds_rest f algo :
  adds (af_name f) (λ _ : option (string * bool), true)
    (saved ← add_multisig (KB := KB) (T := T) f;
     match saved with
     | true => mret None
     | false =>
         saved ← add_offline f algo;
         match saved with true => mret None | false => add_account f algo end
     end).
Proof.
  eapply adds_bind; [apply adds_multisig|done|done|].
  eapply adds_bind; [apply adds_offline|done|done|]. apply adds_account.
Qed.


(** The branch for a ledger is never reached. *)
Lemma ledger_refused f algo e :
  af_useLedger f = true →
  add_account (KB := KB) (T := T) f algo e = (Err (EText "cannot set custom bip32 path with ledger"), e).
Proof. intros Hl. unfold add_account. by rewrite Hl. Qed.

(** A mnemonic that the user has typed in to recover a key is not shown, and
    none is with [--no-backup]. *)
Lemma mnemonic_shown f e m e' :
  runAddCmd f e = (Ok (Some (m, true)), e') → af_recover f = false ∧ af_noBackup f = false.
Proof.
  assert (∀ algo e0 e1, add_account (KB := KB) (T := T) f algo e0 = (Ok (Some (m, true)), e1) →
    af_recover f = false ∧ af_noBackup f = false) as Hacc.
  { intros algo e0 e1. unfold add_account. destruct (af_useLedger f); [done|]. intros HE.
    inv_bind HE. inv_bind HE. inv_bind HE. destruct (af_recover f); [done|].
    injection HE as _ Hb _. by destruct (af_noBackup f). }
  assert (∀ algo e0 e1, add_on_keyring (KB := KB) (T := T) f algo e0 = (Ok (Some (m, true)), e1) →
    af_recover f = false ∧ af_noBackup f = false) as Hon.
  { intros algo e0 e1 HE. unfold add_on_keyring in HE. inv_bind HE. destruct a; [done|].
    inv_bind HE. destruct a; [done|]. by eapply Hacc. }
  unfold runAddCmd. destruct (kb_SigningAlgo _ _) as [algo|x|w]; [|done..].
  destruct (af_dryRun f); [|apply Hon].
  destruct (add_on_keyring f algo _) as [r0 e0] eqn:E. intros [= -> _]. by eapply Hon.
Qed.
End facts.

(** The whole command: the key is in the keyring, the mapping was saved for it
    and the printed key is the one of the mapping. *)
Section command_facts.
Context `{KeyTypes} `{Bip39} {KB T Tg : Type} `{!KeyStore KB} `{!KeyStoreLaws KB} `{!Terminal T}.
Variable save : string → M (KeysEnv KB Tg) bytes.
Variable hex : bytes → string.

Lemma addCmd_ok outputFormat f (c : cmd_env KB T Tg) out c' :
  addCmd_RunE save hex outputFormat f c = (Ok out, c') →
  ∃ shown e1 pk k, runAddCmd f (ce_add c) = (Ok shown, e1)
    ∧ save (af_name f) (mkKeysEnv (ae_kb e1) (ce_input c) (ce_target c)) = (Ok pk, k)
    ∧ ce_target c' = ke_target k ∧ ko_hex out = hex pk
    ∧ ko_mnemonic out = match shown with Some (m, true) => Some m | _ => None end.
Proof.
  unfold addCmd_RunE. intros HE. inv_bind HE. apply zoom_inv in E as (e1 & E1 & ->).
  inv_bind HE. apply zoom_inv in E as (k & E2 & ->). simpl in E2.
  apply go_wrap_ok in HE. apply zoom_inv in HE as (e3 & HE & ->).
  exists a, e1, a0, k. split_and!; [done|done|done|..].
  all: unfold printFromKey in HE; inv_bind HE; clear E1 E2 E;
    destruct a as [[m [|]]|]; unfold printCreatePubKeyHex, go_lift in HE; simpl in HE;
    destruct (MkAccKeyOutput _) as [o|?|?]; try discriminate HE;
    (destruct (bool_decide _ || bool_decide _) in HE; [by injection HE as <- _|discriminate HE]).
Qed.
End command_facts.

(** ** Witnesses *)

Module AddWitness.
(** Keys are numbers, a record is its key; a line of the terminal is what is
    typed next. *)
#[local] Instance w_types : KeyTypes := {|
  AnyPubKey := N; KeyRec := N; SignAlgo := unit;
  pk_Address n := [Encoding.byte_of_N n];
  UnmarshalInterfaceJSON b := Ok (N.of_nat (length b));
  rec_GetPubKey := Ok;
  algo_TypeUrl _ := Ok "/secp256k1";
  IsMnemonicValid m := bool_decide (m = "good words");
  KeyOutput := N; MkAccKeyOutput := Ok;
|}.
#[local] Instance w_bip39 : Bip39 := {|
  bip39_NewEntropy _ := Ok []; bip39_NewMnemonic _ := Ok "new words";
|}.
Definition w_add (name : string) (k : N) : M (gmap string N) unit := λ kb,
  match kb !! name with
  | Some _ => (Err (EText "key already exists"), kb)
  | None => (Ok (), <[name := k]> kb)
  end.
#[local] Instance w_store : KeyStore (gmap string N) := {|
  kb_SigningAlgo _ _ := Ok ();
  kb_Key name kb := (match kb !! name with Some k => Ok k | None => Err (EText "key not found") end, kb);
  kb_Delete name kb := (Ok (), delete name kb);
  kb_SaveMultisig name k pks := w_add name (Z.to_N k);
  kb_SaveOfflineKey := w_add;
  kb_SaveLedgerKey name _ _ _ := w_add name 0;
  kb_NewAccount name m p h _ := w_add name (N.of_nat (String.length (m +:+ p +:+ h)));
  kb_NewInMemory := ∅;
|}.
Lemma w_add_law name k (kb : gmap string N) r kb' :
  w_add name k kb = (r, kb') →
  (∀ n, n ≠ name ∨ is_Ok r = false → kb' !! n = kb !! n)
  ∧ (is_Ok r = true → kb !! name = None ∧ is_Some (kb' !! name)).
Proof.
  unfold w_add. destruct (kb !! name) eqn:E; intros [= <- <-]; [done|]. split.
  - intros n [Hn|]; [|done]. by rewrite lookup_insert_ne.
  - intros _. split; [done|]. by rewrite lookup_insert_eq.
Qed.
#[local] Program Instance w_store_laws : KeyStoreLaws (gmap string N) := {| kb_lookup kb n := kb !! n |}.
Next Obligation. intros name kb rec kb'. simpl. destruct (kb !! name); naive_solver. Qed.
Next Obligation. by intros name kb r kb' [= _ <-]. Qed.
Next Obligation.
  intros name kb u kb' [= _ <-]. split; [apply lookup_delete_eq|]. intros n Hn. by apply lookup_delete_ne.
Qed.
Next Obligation. by intros name kb r kb' [= <- _]. Qed.
Next Obligation. intros name k pks kb r kb'. apply w_add_law. Qed.
Next Obligation. intros name pk kb r kb'. apply w_add_law. Qed.
Next Obligation. intros name m p h a kb r kb'. apply w_add_law. Qed.

Definition w_line : M (list string) string := λ t,
  match t with x :: t' => (Ok x, t') | [] => (Err (EText "EOF"), t) end.
#[local] Instance w_terminal : Terminal (list string) := {|
  GetConfirmation _ := x ← w_line; mret (bool_decide (x = "y"));
  GetString _ := w_line;
|}.

Definition w_flags (recover : bool) : AddFlags :=
  mkAddFlags "fp" false false "secp256k1" false [] 0 false "" "" 0 0 0 "" false recover "".
Definition w_os : os := mkOs ∅ ∅ "/" None (λ _, "").
Definition w_env (lines : list string) : add_env (gmap string N) (list string) :=
  mkAddEnv {[ "fp" := 1%N; "other" := 2%N ]} lines w_os.
Definition w_run := runAddCmd (w_flags true) (w_env ["y"; "good words"]).


(** The old key is deleted before the mnemonic is checked: after a typing
    mistake it is gone. *)
Example failed_add_loses_key :
  let '(r, e) := runAddCmd (w_flags true) (w_env ["y"; "bad words"]) in
  r = Err (EText "invalid mnemonic") ∧ key_at e "fp" = None ∧ key_at e "other" = Some 2%N.
Proof. by vm_compute. Qed.
End AddWitness.
