(* ===== verification/EotsOffline.v ===== *)
(** * eotsd commands on a home directory
      (src/eotsmanager/cmd/eotsd/daemon/keys.go: saveKeyNameMapping,
       getAllEOTSKeys and runCommandPrintAllKeys; pop.go: loadEotsManager and
       handleOutputJSON; store.go; src/keyring/keyringcontroller.go)

    The commands read the configuration of the home directory and open its
    database around the parts that [EotsCmd] models; whether the database is
    closed again is part of the state ([Lifecycle]). *)

From Stdlib Require Import NArith ZArith Lia.
From stdpp Require Import base gmap strings list pretty.
From S2P Require Import Prelude Encoding Kvdb External Config Toy Paths ConfigFiles Util EotsStore EotsApi LocalManager.
From S2P Require Import Lifecycle EotsRpc EotsCmd.

(** ** Commands *)

(** The deferred [dbBackend.Close()]; an error is only printed. *)
Definition close_database {X} (p : proc X) : proc X := emit DbClosed (with_db false p).

(** The process, the keyring of the command with its reader, and a daemon the
    command can connect to. *)
Record offline (K D : Type) `{Crypto} := mkOffline {
  of_proc : proc (LocalEOTSManager K D);
  of_kr : K;
  of_input : string;
  of_remote : EOTSManagerGRPCClient K D
}.
Arguments mkOffline {K D _}.
Arguments of_proc {K D _}.
Arguments of_kr {K D _}.
Arguments of_input {K D _}.
Arguments of_remote {K D _}.

Section commands.
Context {K D : Type} `{Keyring K} `{KvBackend D} `{BigEndian} `{Codec pSigningRecord}
  `{Crypto} `{Sdk} `{Bip39} `{RandFuel} `{Grpc} `{Codec rpc_request} `{NetParsers} `{Ini EotsConfig}.
Variable GetBoltBackend : BoltBackendConfig → M os D.
Variable keyring_New : string → string → string → outcome K.
#[local] Abbreviation lm := (LocalEOTSManager K D).
#[local] Abbreviation env := (offline K D).

Definition on_proc {A} : M (proc lm) A → M env A :=
  zoom of_proc (λ p e, mkOffline p (of_kr e) (of_input e) (of_remote e)).
(** A part of [EotsCmd] on a daemon, or on the manager of the process *)
Definition on_remote {A} : M (KeysEnv K (EOTSManagerGRPCClient K D)) A → M env A :=
  zoom (λ e, mkKeysEnv (of_kr e) (of_input e) (of_remote e))
    (λ k e, mkOffline (of_proc e) (ke_kr k) (ke_input k) (ke_target k)).
Definition on_manager {A} (m : M (KeysEnv K lm) A) : M env A := λ e,
  match p_app (of_proc e) with
  | None => (Crash "nil pointer dereference", e)
  | Some l =>
      let '(r, k) := m (mkKeysEnv (of_kr e) (of_input e) l) in
      (r, mkOffline (with_app (Some (ke_target k)) (of_proc e)) (ke_kr k) (ke_input k) (of_remote e))
  end.

(** The logger, the database and the manager, with the database closed when
    [body] has returned. *)
Definition with_manager {A} (now : Z) (home backend : string) (cfg : EotsConfig) (body : M env A) : M env A :=
  _ ← go_wrap "failed to load the logger"
        (on_proc (on_os (NewRootLoggerWithFile (eots_LogFile home) (ecfg_LogLevel cfg))));
  db ← on_proc (open_database GetBoltBackend (ecfg_DatabaseConfig cfg));
  go_defer
    (em ← go_wrap "failed to create EOTS manager"
            (go_lift (NewLocalEOTSManager keyring_New now home backend db));
     _ ← on_proc (set_app em);
     body)
    (λ e, mkOffline (close_database (of_proc e)) (of_kr e) (of_input e) (of_remote e)).

(** [homeDir] and the keyring are those of the client context. *)
Definition saveKeyNameMapping (now : Z) (homeDir rpcListener keyName : string) : M env bytes :=
  cfg ← go_wrap "failed to load config" (on_proc (on_os (eots_LoadConfig homeDir)));
  if negb (bool_decide (rpcListener = "")) then on_remote (saveKeyNameMapping_rpc keyName)
  else
    e ← go_get;
    with_manager now homeDir (kr_Backend (of_kr e)) cfg (on_manager (saveKeyNameMapping_local keyName)).

Definition getAllEOTSKeys_home (now : Z) (homeFlag : string) : M env (gmap string bytes) :=
  e ← go_get;
  let homePath := getCleanPath (p_os (of_proc e)) homeFlag in
  cfg ← go_wrap "failed to load config" (on_proc (on_os (eots_LoadConfig homePath)));
  with_manager now homePath (ecfg_KeyringBackend cfg) cfg (on_proc (on_app getAllEOTSKeys)).

(** [listed] is what [kr.List()] answers of the keyring that was made. *)
Definition printAllKeys (now : Z) (homeFlag backend : string) (listed : K → outcome unit)
    : M env (list (string * string)) :=
  e ← go_get;
  let homePath := getCleanPath (p_os (of_proc e)) homeFlag in
  kr ← go_wrap "failed to init keyring" (go_lift (InitKeyring keyring_New homePath backend));
  eotsKeys ← go_wrap "failed to get keys from db" (getAllEOTSKeys_home now homeFlag);
  _ ← go_wrap "failed to list keys" (go_lift (listed kr));
  go_lift (print_keys (map_to_list eotsKeys)).

(** The manager of the commands on proofs of possession, which close it
    themselves with [cmdCloseEots]: here a failure leaves the database open. *)
Definition loadEotsManager_home (now : Z) (eotsHomePath eotsFpPubKeyStr eotsKeyName backend : string)
    : M (proc lm) unit :=
  if bool_decide (eotsFpPubKeyStr = "") && bool_decide (eotsKeyName = "") then
    go_fail (EText "at least one of the flags: key-name, eots-pk needs to be informed")
  else
    cfg ← go_wrap ("failed to load config at " +:+ eotsHomePath) (on_os (eots_LoadConfig eotsHomePath));
    _ ← go_wrap "failed to load the logger"
          (on_os (NewRootLoggerWithFile (eots_LogFile eotsHomePath) (ecfg_LogLevel cfg)));
    match ecfg_DatabaseConfig cfg with
    | None => go_crash "nil pointer dereference"
    | Some c =>
        db ← go_wrap "failed to get db backend" (on_os (GetDBBackend GetBoltBackend c));
        p ← go_get;
        _ ← go_put (emit DbOpened (with_db true p));
        em ← go_wrap "failed to create EOTS manager"
               (go_lift (NewLocalEOTSManager keyring_New now eotsHomePath backend db));
        set_app em
    end.
Definition cmdCloseEots (p : proc lm) : proc lm := close_database p.

(** [rollbackSignStore]: the store is closed by a deferred call that is only
    registered once it was made. *)
Definition rollbackSignStore_home (homeFlag : string) (height : N) (eotsFpPubKeyStr chainID : string)
    : M (proc D) unit :=
  p ← go_get;
  let homePath := getCleanPath (p_os p) homeFlag in
  if (height =? 0)%N then go_fail (EText "rollback-until-height flag is required")
  else if bool_decide (chainID = "") then go_fail (EText "flag chain-id is required")
  else
    cfg ← go_wrap ("failed to load config at " +:+ homePath) (on_os (eots_LoadConfig homePath));
    db ← open_database GetBoltBackend (ecfg_DatabaseConfig cfg);
    es ← go_wrap "failed to create eots store" (go_lift (NewEOTSStore db));
    _ ← set_app es;
    go_defer
      (fpPk ← go_wrap ("invalid finality-provider public key " +:+ eotsFpPubKeyStr)
                (go_lift (NewBIP340PubKeyFromHex eotsFpPubKeyStr));
       go_wrap "failed to delete sign store records"
         (on_app (DeleteSignRecordsFromHeight (Some fpPk) (Some (bytes_of_string chainID)) height)))
      close_database.
End commands.

(** ** handleOutputJSON *)

(** [jsonBz] is the encoding of the output; the result is what is printed. *)
Definition handleOutputJSON (jsonBz : bytes) (outputFilePath : string) : M os string :=
  w ← go_get;
  _ ← (if bool_decide (outputFilePath = "") then mret ()
       else
         let cleanPath := Abs (os_cwd w) (Clean outputFilePath) in
         _ ← go_wrap "failed to create output directory" (λ w,
               let '(e, w') := MkdirAll (Dir cleanPath) w in
               (match e with None => Ok () | Some err => Err (PathError_err err) end, w'));
         go_wrap "failed to write output file" (write_file cleanPath jsonBz));
  mret (string_of_bytes jsonBz).

(** ** keyring/keyringcontroller.go *)

Section chain_keys.
Context `{Crypto} `{Bip39} {K : Type} `{Keyring K}.
(** [kr.NewAccount(name, mnemonic, passphrase, hdPath, algo)] with its record,
    and [keyring.New(chainID, backend, dir, ...)] *)
Variable NewAccount : string → string → string → string → M K krRecord.
Variable keyring_New : string → string → string → outcome K.

(** [types.ChainKeyInfo] *)
Record ChainKeyInfo := mkChainKeyInfo {
  cki_Name : string;
  cki_Mnemonic : string;
  cki_AccAddress : bytes;
  cki_PublicKey : PublicKey;
  cki_PrivateKey : PrivateKey
}.

Definition NewChainKeyringController (chainID keyringDir name keyringBackend : string) : outcome (string * K) :=
  if bool_decide (name = "") then Err (EText "the key name should not be empty")
  else if bool_decide (keyringBackend = "") then Err (EText "the keyring backend should not be empty")
  else
    kr ← wrap_err "failed to create keyring" (keyring_New chainID keyringBackend keyringDir);
    Ok (name, kr).

Definition CreateChainKey (fpName passphrase hdPath mnemonic : string) : M K ChainKeyInfo :=
  kr ← go_get;
  _ ← go_wrap "failed to create signing algorithm" (go_lift (kr_SigningAlgo kr secp256k1Type));
  mnemonic ← (if bool_decide (mnemonic = "") then
                entropySeed ← go_wrap "failed to generate entropy" (go_lift (bip39_NewEntropy 256));
                go_wrap "failed to generate mnemonic" (go_lift (bip39_NewMnemonic entropySeed))
              else mret mnemonic);
  record ← go_wrap "failed to create new account" (NewAccount fpName mnemonic passphrase hdPath);
  match rec_Local record with
  | None => go_crash "nil pointer dereference"
  | Some privKey =>
      accAddress ← go_wrap "failed to get address from record" (go_lift (rec_Address record));
      match privKey with
      | PrivSecp256k1 key =>
          _ ← go_wrap "invalid private key" (go_lift (ValidatePrivKeyBytes key));
          let sk := PrivKeyFromBytes key in
          mret (mkChainKeyInfo fpName mnemonic accAddress (PubKey sk) sk)
      | PrivOther => go_fail (EText "unsupported key type in keyring")
      end
  end.

(** The key that is returned is the valid one the keyring has saved under that
    name for the mnemonic that is returned. *)
Lemma CreateChainKey_ok fpName passphrase hdPath mnemonic kr info kr' :
  CreateChainKey fpName passphrase hdPath mnemonic kr = (Ok info, kr') →
  cki_Name info = fpName ∧ (mnemonic ≠ "" → cki_Mnemonic info = mnemonic)
  ∧ cki_PublicKey info = PubKey (cki_PrivateKey info)
  ∧ ∃ record key, NewAccount fpName (cki_Mnemonic info) passphrase hdPath kr = (Ok record, kr')
      ∧ rec_Local record = Some (PrivSecp256k1 key) ∧ ValidatePrivKeyBytes key = Ok ()
      ∧ cki_PrivateKey info = PrivKeyFromBytes key ∧ rec_Address record = Ok (cki_AccAddress info).
Proof.
  unfold CreateChainKey. erewrite go_bind_run; [|reflexivity]. intros HE. inv_bind HE. inv_bind HE.
  assert (s = kr ∧ (mnemonic ≠ "" → a0 = mnemonic)) as [-> Hm].
  { case_bool_decide as Hm; [|by injection E0 as <- <-]. inv_bind E0. apply go_wrap_ok in E0.
    injection E0 as _ <-. by split. }
  inv_bind HE. destruct (rec_Local a1) as [pk|] eqn:Hl; [|done]. inv_bind HE.
  destruct pk as [key|]; [|done]. inv_bind HE. injection HE as <- <-. simpl.
  split_and!; [done|done|done|]. exists a1, key. split_and!; [done|done| |done|done]. by destruct a3.
Qed.
End chain_keys.

(** ** The database is closed again *)

Section facts.
Context {K D : Type} `{Keyring K} `{KvBackend D} `{BigEndian} `{Codec pSigningRecord}
  `{Crypto} `{Sdk} `{Bip39} `{RandFuel} `{Grpc} `{Codec rpc_request} `{NetParsers} `{Ini EotsConfig}.
Variable GetBoltBackend : BoltBackendConfig → M os D.
Variable keyring_New : string → string → string → outcome K.
#[local] Abbreviation lm := (LocalEOTSManager K D).
#[local] Abbreviation env := (offline K D).
Implicit Types e : env.

Lemma on_proc_inv {A} (m : M (proc lm) A) e r e' :
  on_proc m e = (r, e') → ∃ p, m (of_proc e) = (r, p) ∧ e' = mkOffline p (of_kr e) (of_input e) (of_remote e).
Proof. intros (p & E & ->)%zoom_inv. by exists p. Qed.

Lemma go_defer_inv {S A} (m : M S A) d s r s' :
  go_defer m d s = (r, s') → ∃ s1, m s = (r, s1) ∧ s' = match r with Crash _ => s1 | _ => d s1 end.
Proof. unfold go_defer. destruct (m s) as [[a|x|w] s1]; intros [= <- <-]; by exists s1. Qed.

(** The trace of a run that opened the database and closed it. *)
Definition opened_and_closed (p : proc lm) : Prop :=
  p_db_open p = false ∧ p_trace p = [DbOpened; DbClosed].

Definition keeps_trace (m : M env bytes) : Prop := ∀ e r e', m e = (r, e') → p_trace (of_proc e') = p_trace (of_proc e).

Lemma with_manager_closes now home backend cfg (body : M env bytes) e r e' :
  keeps_trace body → fresh (of_proc e) →
  with_manager GetBoltBackend keyring_New now home backend cfg body e = (r, e') →
  match r with
  | Crash _ => True
  | Err _ => p_trace (of_proc e') = [] ∧ p_db_open (of_proc e') = false ∨ opened_and_closed (of_proc e')
  | Ok a => opened_and_closed (of_proc e')
      ∧ ∃ db em e1 e2, NewLocalEOTSManager keyring_New now home backend db = Ok em
          ∧ p_app (of_proc e1) = Some em ∧ of_kr e1 = of_kr e ∧ of_input e1 = of_input e
          ∧ body e1 = (Ok a, e2) ∧ p_app (of_proc e') = p_app (of_proc e2)
  end.
Proof.
  intros Hbody Hf HE. unfold with_manager in HE.
  apply go_bind_inv in HE as [(u & e1 & E1 & HE)|[(x & E1 & ->)|(x & E1 & ->)]]; [| |done];
    apply go_wrap_inv in E1 as (r1 & E1 & _); apply on_proc_inv in E1 as (p1 & E1 & ->);
    apply (on_os_fresh _ _ _ _ Hf) in E1 as Hf1.
  2: { left. destruct Hf1 as (_ & ? & ?). by split. }
  apply go_bind_inv in HE as [(db & e2 & E2 & HE)|[(x & E2 & ->)|(x & E2 & ->)]]; [| |done];
    apply on_proc_inv in E2 as (p2 & E2 & ->); apply (open_database_cases _ _ _ _ _ Hf1) in E2 as Hf2; simpl in Hf2.
  2: { left. destruct Hf2 as (_ & ? & ?). by split. }
  destruct Hf2 as (_ & Hd2 & Ht2).
  apply go_defer_inv in HE as (e3 & HE & ->).
  apply go_bind_inv in HE as [(em & e4 & E4 & HE)|[(x & E4 & ->)|(x & E4 & ->)]]; [| |done];
    apply go_wrap_inv in E4 as (r4 & E4 & Hr4); injection E4 as <- <-.
  2: { right. split; [done|]. simpl. by rewrite Ht2. }
  apply go_bind_inv in HE as [(u5 & e5 & E5 & HE)|[(x & E5 & _)|(x & E5 & _)]]; [|done..].
  injection E5 as _ <-. pose proof (Hbody _ _ _ HE) as Ht. simpl in Ht. rewrite Ht2 in Ht.
  assert (NewLocalEOTSManager keyring_New now home backend db = Ok em) as Hem.
  { destruct (NewLocalEOTSManager _ _ _ _ _); simpl in Hr4; congruence. }
  destruct r as [a|x|x]; [|right; split; [done|]; simpl; by rewrite Ht|done].
  split; [split; [done|simpl; by rewrite Ht]|].
  exists db, em, (mkOffline (with_app (Some em) p2) (of_kr e) (of_input e) (of_remote e)), e3. by split_and!.
Qed.

Lemma on_manager_trace (m : M (KeysEnv K lm) bytes) : keeps_trace (on_manager m).
Proof.
  intros e r e'. unfold on_manager. destruct (p_app (of_proc e)) as [l|]; [|by intros [= _ <-]].
  destruct (m _) as [r0 k]. by intros [= _ <-].
Qed.

(** Saving the name of a key, by the command on a home directory.  However
    it returns, the database of the directory is closed; with the address of a
    daemon it was not opened at all.  When it succeeds the name was saved by
    that daemon, or by a manager on the database of the directory with the
    keyring of the command. *)
Theorem mapping_command_closes now homeDir rpcListener keyName e r e'
    (Hfresh : fresh (of_proc e))
    (Hrun : saveKeyNameMapping GetBoltBackend keyring_New now homeDir rpcListener keyName e = (r, e')) :
  match r with
  | Crash _ => True
  | Err _ => p_db_open (of_proc e') = false
  | Ok pk =>
      p_db_open (of_proc e') = false
      ∧ if bool_decide (rpcListener = "") then
          opened_and_closed (of_proc e')
          ∧ ∃ db em k, NewLocalEOTSManager keyring_New now homeDir (kr_Backend (of_kr e)) db = Ok em
              ∧ saveKeyNameMapping_local keyName (mkKeysEnv (of_kr e) (of_input e) em) = (Ok pk, k)
              ∧ p_app (of_proc e') = Some (ke_target k)
        else
          p_trace (of_proc e') = []
          ∧ ∃ k, saveKeyNameMapping_rpc keyName (mkKeysEnv (of_kr e) (of_input e) (of_remote e)) = (Ok pk, k)
              ∧ of_remote e' = ke_target k
  end.
Proof.
  unfold saveKeyNameMapping in Hrun.
  apply go_bind_inv in Hrun as [(cfg & e1 & E1 & Hrun)|[(x & E1 & ->)|(x & E1 & ->)]]; [| |done];
    apply go_wrap_inv in E1 as (r1 & E1 & _); apply on_proc_inv in E1 as (p1 & E1 & ->);
    apply (on_os_fresh _ _ _ _ Hfresh) in E1 as Hf1.
  2: by apply fresh_closed.
  case_bool_decide as Hrpc; simpl in Hrun.
  - erewrite go_bind_run in Hrun; [|reflexivity].
    apply with_manager_closes in Hrun; [|apply on_manager_trace|exact Hf1]. destruct r as [pk|x|x]; [| |done].
    2: by destruct Hrun as [[_ ?]|[? _]].
    destruct Hrun as [Hoc (db & em & ea & eb & Hem & Happ & Hkr & Hin & Hb & Happ')]. split; [apply Hoc|].
    split; [done|]. unfold on_manager in Hb. rewrite Happ in Hb. simpl in Hkr, Hin, Hem.
    rewrite Hkr, Hin in Hb.
    destruct (saveKeyNameMapping_local keyName _) as [r0 k] eqn:Ek. injection Hb as -> <-.
    exists db, em, k. by split_and!.
  - apply zoom_inv in Hrun as (k & Ek & ->). simpl. destruct Hf1 as (_ & Hd & Ht).
    destruct r as [pk|x|x]; [|done..]. split; [done|]. split; [done|]. by exists k.
Qed.

(** The rollback on a home directory is that of [EotsCmd] on its database; the
    database is left open only when the store cannot be made. *)
Lemma rollback_home_refines homeFlag height hex chainID (p : proc D) u p' :
  fresh p → rollbackSignStore_home GetBoltBackend homeFlag height hex chainID p = (Ok u, p') →
  p_db_open p' = false
  ∧ ∃ db d', rollbackSignStore height hex chainID db = (Ok (), d') ∧ p_app p' = Some d'.
Proof.
  intros Hf HE. unfold rollbackSignStore_home in HE. erewrite go_bind_run in HE; [|reflexivity].
  unfold rollbackSignStore. destruct (height =? 0)%N; [done|]. destruct (bool_decide (chainID = "")); [done|].
  inv_bind HE. inv_bind HE. inv_bind HE. inv_bind HE. apply go_defer_inv in HE as (p2 & HE & ->).
  inv_bind HE. apply go_wrap_ok in HE. injection E2 as _ <-.
  unfold NewEOTSStore in E1. destruct (initBuckets a0) as [[]] eqn:Ei; [|done..]. injection E1 as <-.
  unfold on_app in HE. cbn [p_app with_app] in HE.
  destruct (DeleteSignRecordsFromHeight (Some a3) (Some (bytes_of_string chainID)) height d) as [r0 d'] eqn:Ed.
  injection HE as -> <-. split; [done|]. exists a0, d'. split; [|done].
  erewrite go_bind_run; [|unfold go_wrap; rewrite Ei; reflexivity].
  erewrite go_bind_run; [|unfold go_wrap, go_lift; rewrite E3; reflexivity].
  unfold go_wrap. rewrite Ed. by destruct u.
Qed.
End facts.

(** The file of an output has what is printed. *)
Lemma handleOutputJSON_file jsonBz path w out w' :
  path ≠ "" → IsAbs (os_cwd w) = true → handleOutputJSON jsonBz path w = (Ok out, w') →
  out = string_of_bytes jsonBz
  ∧ os_nodes w' !! resolve w (Abs (os_cwd w) (Clean path)) = Some (NFile jsonBz).
Proof.
  intros Hp Hc HE. unfold handleOutputJSON in HE. erewrite go_bind_run in HE; [|reflexivity].
  rewrite bool_decide_false in HE by done. inv_bind HE. injection HE as <- <-. split; [done|].
  inv_bind E. destruct (MkdirAll _ w) as [err w1] eqn:Em. apply MkdirAll_os in Em as (n & -> & _ & _).
  injection E0 as _ <-. apply go_wrap_ok, write_file_ok in E as (-> & _).
  change (resolve (with_nodes n w)) with (resolve w). apply lookup_insert_eq.
Qed.

(** ** Witnesses *)

Module OfflineWitness.
Import CfgToy RpcToy.
Definition w_env : offline toy_keyring MapDb.db :=
  mkOffline LifecycleWitness.w_proc KeysWitness.w_kr "" KeysWitness.w_c.
Definition w_open (c : BoltBackendConfig) : M os MapDb.db := mret MapDb.empty.
Definition w_keyring (service backend dir : string) : outcome toy_keyring :=
  if bool_decide (backend = "broken") then Err (EText "no keyring") else Ok {| tk_backend := backend; tk_names := [] |}.
Definition w_save := saveKeyNameMapping w_open w_keyring 0 "/home/user/e" "" "other" w_env.

Lemma mapping_command_closes_witness :
  w_save = (Ok (ok_or [] w_save.1), w_save.2) ∧ opened_and_closed (of_proc w_save.2).
Proof.
  assert (E : w_save = (Ok (ok_or [] w_save.1), w_save.2)) by (apply run_ok; vm_eq).
  split; [exact E|]. unfold w_save at 1 in E.
  exact (proj1 (proj2 (mapping_command_closes w_open w_keyring 0 "/home/user/e" "" "other" w_env _ w_save.2
    (conj eq_refl (conj eq_refl eq_refl)) E))).
Defined.

(** The manager of the proof commands cannot be made: the database stays open. *)
Example load_manager_leaves_open :
  let '(r, p) := loadEotsManager_home w_open w_keyring 0 "/home/user/e" "" "fp" "broken"
    (of_proc w_env) in
  is_Ok r = false ∧ p_db_open p = true.
Proof. by vm_compute. Qed.
End OfflineWitness.
