(* ===== verification/PubRandStore.v ===== *)
(** * The public randomness proof store (src/finality-provider/store/pub_rand.go)

    One Merkle proof per committed height, keyed by chain, EOTS key and
    height, and the [PubRandState] wrapper of the finality provider
    (src/finality-provider/service/pub_rand_store_adapter.go). *)

From Stdlib Require Import NArith Lia.
From stdpp Require Import base gmap strings list sorting.
From S2P Require Import Prelude Kvdb External Toy.

(** finality-provider/store/errors.go *)
Definition ErrCorruptedPubRandProofDB : error :=
  EVar "ErrCorruptedPubRandProofDB" "public randomness proof db is corrupted".
Definition ErrPubRandProofNotFound : error :=
  EVar "ErrPubRandProofNotFound" "public randomness proof not found".
(** walletdb *)
Definition ErrBucketNotFound : error := EVar "walletdb.ErrBucketNotFound" "bucket not found".

Definition pubRandProofBucketName : bytes := bytes_of_string "pub_rand_proof".

(** ** Options *)

Record KeyBuildOptions := { kbo_interval : N }.
Definition KeyBuildOption : Type := KeyBuildOptions → KeyBuildOptions.
Definition WithKeyInterval (interval : N) : KeyBuildOption := λ _, {| kbo_interval := interval |}.

Section store.
Context {D : Type} `{KvBackend D} `{BigEndian} `{Merkle}.

Definition pr_initBuckets : M D unit :=
  go_wrap "failed to initialize pub rand proof bucket" (kv_update (λ d,
    d' ← wrap_err "failed to create pub rand proof bucket" (kv_create d pubRandProofBucketName);
    Ok ((), d'))).

(** key is (chainID || pk || height) *)
Definition getKey (chainID pk : bytes) (height : N) : bytes :=
  chainID ++ pk ++ Uint64ToBigEndian height.

Definition getPrefixKey (chainID pk : bytes) : bytes := chainID ++ pk.

Definition buildKeys (chainID pk : bytes) (startHeight num : N) (options : list KeyBuildOption)
    : list bytes :=
  let opts := fold_left (λ o option, option o) options {| kbo_interval := 1 |} in
  (λ i : nat, getKey chainID pk (u64_add startHeight (u64_mul (N.of_nat i) (kbo_interval opts))))
    <$> seq 0 (N.to_nat num).

Fixpoint marshalProofs (proofList : list Proof) : outcome (list bytes) :=
  match proofList with
  | [] => Ok []
  | proof :: rest =>
      proofBytes ← wrap_err "invalid proof" (Proof_Marshal proof);
      l ← marshalProofs rest;
      Ok (proofBytes :: l)
  end.

(** [for i, key := range keys { bucket.Put(key, proofBytesList[i]) }] *)
Fixpoint putProofs (d : D) (keys : list bytes) (proofBytesList : list bytes) : outcome D :=
  match keys, proofBytesList with
  | [], _ => Ok d
  | _ :: _, [] => Crash "index out of range"
  | key :: keys', proofBytes :: rest =>
      d' ← wrap_err "failed to store pub rand proof"
             (kv_put d pubRandProofBucketName key proofBytes);
      putProofs d' keys' rest
  end.

Definition AddPubRandProofList (chainID pk : bytes) (height numPubRand : N)
    (proofList : list Proof) (options : list KeyBuildOption) : M D unit :=
  let keys := buildKeys chainID pk height numPubRand options in
  if negb (length keys =? length proofList)%nat then
    go_fail (EText "the number of public randomness is not same as the number of proofs")
  else
    proofBytesList ← go_lift (marshalProofs proofList);
    go_wrap "failed to add pub rand proof list" (kv_update (λ d,
      if negb (kv_has d pubRandProofBucketName) then Err ErrCorruptedPubRandProofDB
      else d' ← putProofs d keys proofBytesList; Ok ((), d'))).

Definition GetPubRandProof (chainID pk : bytes) (height : N) : M D bytes :=
  let key := getKey chainID pk height in
  go_wrap "failed to get pub rand proof" (kv_view (λ d,
    if negb (kv_has d pubRandProofBucketName) then Err ErrCorruptedPubRandProofDB
    else match kv_get d pubRandProofBucketName key with
         | None => Err ErrPubRandProofNotFound
         | Some proofBytes => Ok proofBytes
         end)).

Fixpoint getProofs (d : D) (keys : list bytes) : outcome (list bytes) :=
  match keys with
  | [] => Ok []
  | key :: rest =>
      match kv_get d pubRandProofBucketName key with
      | None => Err ErrPubRandProofNotFound
      | Some proofBytes => l ← getProofs d rest; Ok (proofBytes :: l)
      end
  end.

Definition GetPubRandProofList (chainID pk : bytes) (height numPubRand : N) : M D (list bytes) :=
  let keys := buildKeys chainID pk height numPubRand [] in
  go_wrap "failed to get pub rand proof list" (kv_view (λ d,
    if negb (kv_has d pubRandProofBucketName) then Err ErrCorruptedPubRandProofDB
    else getProofs d keys)).

(** [cursor.Seek(prefix)]: the entries from the first key not below it *)
Fixpoint cursor_Seek (prefix : bytes) (entries : list (bytes * bytes)) : list (bytes * bytes) :=
  match entries with
  | [] => []
  | (k, v) :: rest => if decide (bytes_le prefix k) then entries else cursor_Seek prefix rest
  end.

(** [bytes.HasPrefix] *)
Definition bytes_HasPrefix (s prefix : bytes) : bool :=
  bool_decide (take (length prefix) s = prefix).

(** The cursor loop; a key shorter than the height is a slice panic. *)
Fixpoint removeLoop (prefix : bytes) (targetHeight : N) (d : D) (entries : list (bytes * bytes))
    : outcome D :=
  match entries with
  | [] => Ok d
  | (k, _) :: rest =>
      if negb (bytes_HasPrefix k prefix) then Ok d
      else if (length k <? 8)%nat then Crash "slice bounds out of range"
      else
        let height := BigEndianToUint64 (drop (length k - 8) k) in
        if (targetHeight <? height)%N then Ok d
        else
          d' ← wrap_err "failed to delete pub rand proof" (kv_delete d pubRandProofBucketName k);
          removeLoop prefix targetHeight d' rest
  end.

Definition RemovePubRandProofList (chainID pk : bytes) (targetHeight : N) : M D unit :=
  let prefix := getPrefixKey chainID pk in
  go_wrap "failed to remove pub rand proof list" (kv_update (λ d,
    if negb (kv_has d pubRandProofBucketName) then Err ErrBucketNotFound
    else d' ← removeLoop prefix targetHeight d
                (cursor_Seek prefix (kv_entries d pubRandProofBucketName));
         Ok ((), d'))).

(** ** [PubRandState] *)

Definition addPubRandProofList (pk chainID : bytes) (height numPubRand : N)
    (proofList : list Proof) (options : list KeyBuildOption) : M D unit :=
  go_wrap "failed to add pub rand proof list"
    (AddPubRandProofList chainID pk height numPubRand proofList options).

Definition getPubRandProof (pk chainID : bytes) (height : N) : M D bytes :=
  go_wrap "failed to get pub rand proof" (GetPubRandProof chainID pk height).

Definition getPubRandProofList (pk chainID : bytes) (height numPubRand : N) : M D (list bytes) :=
  go_wrap "failed to get pub rand proof list" (GetPubRandProofList chainID pk height numPubRand).
End store.

(** ** Lemmas *)

Section lemmas.
Context {D : Type} `{KvLaws D} `{BigEndianLaws} `{Merkle}.
Implicit Types d : D.

Lemma getKey_inj c pk h1 h2 :
  is_u64 h1 → is_u64 h2 → getKey c pk h1 = getKey c pk h2 → h1 = h2.
Proof.
  unfold getKey. intros Hh1 Hh2 E. apply app_inv_head, app_inv_head in E. by apply be_inj.
Qed.

Lemma buildKeys_length c pk h n o : length (buildKeys c pk h n o) = N.to_nat n.
Proof. unfold buildKeys. by rewrite length_fmap, length_seq. Qed.

Lemma buildKeys_lookup c pk h n v (i : N) :
  (i < n)%N → (h + n * v < two64)%N →
  buildKeys c pk h n [WithKeyInterval v] !! N.to_nat i = Some (getKey c pk (h + i * v)).
Proof.
  intros Hi Hb. assert (i * v ≤ n * v)%N by (apply N.mul_le_mono_r; lia).
  unfold buildKeys. rewrite list_lookup_fmap, lookup_seq_lt by lia. simpl.
  rewrite N2Nat.id, u64_mul_small, u64_add_small by lia. done.
Qed.

Lemma buildKeys_default c pk h n : buildKeys c pk h n [] = buildKeys c pk h n [WithKeyInterval 1].
Proof. done. Qed.

Lemma buildKeys_NoDup c pk h n v :
  (v ≠ 0)%N → (h + n * v < two64)%N → NoDup (buildKeys c pk h n [WithKeyInterval v]).
Proof.
  intros Hv Hb. apply NoDup_alt. intros i j k Hi Hj.
  assert (∀ x, buildKeys c pk h n [WithKeyInterval v] !! x = Some k →
            k = getKey c pk (h + N.of_nat x * v) ∧ (N.of_nat x < n)%N) as Hx.
  { intros x Hx. pose proof (lookup_lt_Some _ _ _ Hx) as Hl. rewrite buildKeys_length in Hl.
    pose proof (buildKeys_lookup c pk h n v (N.of_nat x)) as Hk. rewrite Nat2N.id in Hk.
    split; [|lia]. rewrite Hk in Hx; [congruence|lia|done]. }
  apply Hx in Hi as [-> Hi], Hj as [E Hj].
  assert (∀ x, (N.of_nat x < n)%N → N.of_nat x * v ≤ n * v)%N as Hm
    by (intros; apply N.mul_le_mono_r; lia).
  pose proof (Hm i Hi). pose proof (Hm j Hj).
  apply getKey_inj in E; [|unfold is_u64; lia..]. nia.
Qed.

Lemma marshalProofs_ok ps : ∀ bs, marshalProofs ps = Ok bs → Forall2 (λ p b, Proof_Marshal p = Ok b) ps bs.
Proof.
  induction ps as [|p ps IH]; intros bs HE; simpl in HE; [simplify_eq; constructor|].
  apply outcome_bind_ok in HE as (b & Hb%wrap_err_ok & HE).
  apply outcome_bind_ok in HE as (bs' & Hl & [= <-]). constructor; auto.
Qed.

(** What storing a list of proofs does to every key. *)
Lemma putProofs_ok ks : ∀ vs d d',
  putProofs d ks vs = Ok d' → NoDup ks →
  (∀ i k v, ks !! i = Some k → vs !! i = Some v → kv_get d' pubRandProofBucketName k = Some v)
  ∧ (∀ b k, b ≠ pubRandProofBucketName ∨ k ∉ ks → kv_get d' b k = kv_get d b k)
  ∧ (∀ b, kv_has d' b = kv_has d b).
Proof.
  induction ks as [|k ks IH]; intros vs d d' HE Hnd; simpl in HE.
  - simplify_eq. split_and!; [|done|done]. intros i k v Hk. by rewrite lookup_nil in Hk.
  - destruct vs as [|v vs]; [done|].
    apply outcome_bind_ok in HE as (d1 & Hp%wrap_err_ok & HE).
    apply NoDup_cons in Hnd as [Hni Hnd].
    destruct (IH _ _ _ HE Hnd) as (Hget & Hframe & Hhas). split_and!.
    + intros [|i] k' v' Hk Hv; simplify_eq/=; [|by eapply Hget].
      rewrite Hframe by by right. by eapply kv_put_get_eq.
    + intros b k' Hk'. rewrite Hframe by set_solver.
      apply (kv_put_get_ne _ _ _ _ _ _ _ Hp). set_solver.
    + intros b. rewrite Hhas. by eapply kv_put_has.
Qed.

Lemma getProofs_run d ks vs :
  Forall2 (λ k v, kv_get d pubRandProofBucketName k = Some v) ks vs → getProofs d ks = Ok vs.
Proof. induction 1 as [|k v ks vs Hk _ IH]; simpl; [done|]. by rewrite Hk, IH. Qed.

Lemma getProofs_ok d ks : ∀ vs,
  getProofs d ks = Ok vs → Forall2 (λ k v, kv_get d pubRandProofBucketName k = Some v) ks vs.
Proof.
  induction ks as [|k ks IH]; intros vs HE; simpl in HE; [simplify_eq; constructor|].
  destruct (kv_get _ _ _) eqn:Ek; [|done].
  apply outcome_bind_ok in HE as (bs' & Hl & [= <-]). constructor; auto.
Qed.

Lemma AddPubRandProofList_ok c pk h n ps o d d' :
  AddPubRandProofList c pk h n ps o d = (Ok (), d') →
  length ps = N.to_nat n ∧
  ∃ bs, marshalProofs ps = Ok bs ∧ kv_has d pubRandProofBucketName = true
        ∧ putProofs d (buildKeys c pk h n o) bs = Ok d'.
Proof.
  unfold AddPubRandProofList. rewrite buildKeys_length.
  destruct (N.to_nat n =? length ps)%nat eqn:El; simpl; [|done]. btests. intros HE.
  inv_bind HE. apply go_wrap_ok, kv_update_ok in HE.
  destruct (kv_has d _) eqn:Eh; simpl in HE; [|done].
  apply outcome_bind_ok in HE as (d1 & Hp & [= <-]). eauto 6.
Qed.

Lemma AddPubRandProofList_err c pk h n ps o d r d' :
  AddPubRandProofList c pk h n ps o d = (r, d') → is_Ok r = false → d' = d.
Proof.
  unfold AddPubRandProofList. destruct (negb _); [by intros [= _ <-]|].
  go_unfold. destruct (marshalProofs ps); [|by intros [= _ <-]..].
  destruct (kv_update _ d) as [[[]|e|w] d1] eqn:E; intros [= <- <-] Hr; simpl in Hr;
    [done|..]; by eapply kv_update_not_ok.
Qed.

(** *** Pruning *)

(** The keys that match a prefix are those of the chain and EOTS key. *)
Definition keys_wf d (c pk : bytes) : Prop :=
  ∀ k v, kv_get d pubRandProofBucketName k = Some v →
    bytes_HasPrefix k (getPrefixKey c pk) = true → ∃ h, is_u64 h ∧ k = getKey c pk h.

Lemma prefix_key c pk h : bytes_HasPrefix (getKey c pk h) (getPrefixKey c pk) = true.
Proof.
  apply bool_decide_eq_true_2. unfold getKey, getPrefixKey. rewrite app_assoc.
  by rewrite take_app_length.
Qed.

Lemma key_tail c pk h :
  drop (length (getKey c pk h) - 8) (getKey c pk h) = Uint64ToBigEndian h.
Proof.
  unfold getKey. rewrite !length_app, be_length, app_assoc.
  rewrite drop_app_length'; [done|]. rewrite length_app. lia.
Qed.

Lemma key_short c pk h : (length (getKey c pk h) <? 8)%nat = false.
Proof. apply Nat.ltb_ge. unfold getKey. rewrite !length_app, be_length. lia. Qed.

Lemma key_ge_prefix c pk h : bytes_le (getPrefixKey c pk) (getKey c pk h).
Proof.
  unfold getPrefixKey, getKey. rewrite app_assoc.
  generalize (c ++ pk). intros l. induction l as [|x l IH]; [done|].
  simpl. apply bytes_le_cons. by right.
Qed.

Lemma between_prefix p : ∀ k x,
  bytes_le p k → bytes_le k (p ++ x) → take (length p) k = p.
Proof.
  induction p as [|b p IH]; intros [|b' k] x Hle Hge; [done|done|done|]. simpl in *.
  apply bytes_le_cons in Hle as [Hlt|[-> Hle]]; apply bytes_le_cons in Hge as [Hlt'|[? Hge]];
    subst; try lia. by rewrite (IH _ _ Hle Hge).
Qed.

Lemma seek_elem prefix es k v :
  StronglySorted bytes_lt es.*1 → bytes_le prefix k →
  (k, v) ∈ cursor_Seek prefix es ↔ (k, v) ∈ es.
Proof.
  intros Hs Hk. induction es as [|[k0 v0] es IH]; simpl; [done|].
  apply StronglySorted_inv in Hs as [Hs _]. case_decide as Hd; [done|].
  rewrite (IH Hs). split; [by right|]. intros [[= -> ->]|?]%elem_of_cons; done.
Qed.

Lemma seek_ge prefix es k v :
  StronglySorted bytes_lt es.*1 → (k, v) ∈ cursor_Seek prefix es → bytes_le prefix k.
Proof.
  intros Hs. induction es as [|[k0 v0] es IH]; simpl; [by intros ?%elem_of_nil|].
  apply StronglySorted_inv in Hs as [Hs Hall]. simpl in Hall. rewrite Forall_forall in Hall.
  case_decide as Hd; [|by apply IH]. intros [[= -> ->]|Hin]%elem_of_cons; [done|].
  etrans; [exact Hd|]. apply Hall. apply list_elem_of_fmap. by exists (k, v).
Qed.

Lemma seek_suffix prefix es : ∃ es0, es = es0 ++ cursor_Seek prefix es.
Proof.
  induction es as [|[k v] es [es0 IH]]; simpl; [by exists []|].
  case_decide; [by exists []|]. exists ((k, v) :: es0). simpl. by rewrite <- IH.
Qed.

Lemma putProofs_inv ks : ∀ vs d d' k v,
  putProofs d ks vs = Ok d' → kv_get d' pubRandProofBucketName k = Some v →
  k ∈ ks ∨ kv_get d pubRandProofBucketName k = Some v.
Proof.
  induction ks as [|k0 ks IH]; intros [|v0 vs] d d' k v HE Hk; simpl in HE; simplify_eq; [by right..|].
  apply outcome_bind_ok in HE as (d1 & Hp%wrap_err_ok & HE).
  destruct (IH _ _ _ _ _ HE Hk) as [Hin|Hd1]; [left; by right|].
  destruct (decide (k = k0)) as [->|Hne]; [left; by left|right].
  rewrite (kv_put_get_ne _ _ _ _ _ _ _ Hp) in Hd1; [done|]. by right.
Qed.

(** Storing proofs keeps the keys of the store well-formed. *)
Lemma AddPubRandProofList_wf c pk h n ps o d d' :
  keys_wf d c pk → AddPubRandProofList c pk h n ps o d = (Ok (), d') → keys_wf d' c pk.
Proof.
  intros Hwf (_ & bs & _ & _ & Hp)%AddPubRandProofList_ok k v Hk Hpre.
  destruct (putProofs_inv _ _ _ _ _ _ Hp Hk) as [Hin|Hd]; [|by apply (Hwf k v)].
  unfold buildKeys in Hin. apply list_elem_of_fmap in Hin as (i & -> & _).
  eexists. split; [|reflexivity]. apply u64_add_range.
Qed.

(** The loop on a sorted list of well-formed keys. *)
Lemma removeLoop_ok c pk target es : ∀ d d',
  StronglySorted bytes_lt es.*1 →
  (∀ k v, (k, v) ∈ es → bytes_HasPrefix k (getPrefixKey c pk) = true →
     ∃ h, is_u64 h ∧ k = getKey c pk h) →
  (∀ k v, (k, v) ∈ es → bytes_le (getPrefixKey c pk) k) →
  removeLoop (getPrefixKey c pk) target d es = Ok d' →
  ∀ h, is_u64 h →
  kv_get d' pubRandProofBucketName (getKey c pk h)
  = if decide (getKey c pk h ∈ es.*1 ∧ (h ≤ target)%N) then None
    else kv_get d pubRandProofBucketName (getKey c pk h).
Proof.
  induction es as [|[k v] es IH]; intros d d' Hs Hwf Hge HE h Hh; simpl in HE.
  - simplify_eq. rewrite decide_False; [done|]. intros [Hin _]. by apply elem_of_nil in Hin.
  - apply StronglySorted_inv in Hs as [Hs Hall]. simpl in Hall. rewrite Forall_forall in Hall.
    assert (∀ h', is_u64 h' → is_u64 h → k = getKey c pk h' → getKey c pk h ∈ es.*1 → (h' < h)%N) as Hlt.
    { intros h' Hh' _ -> Hin. destruct (Hall _ Hin) as [Hle Hne].
      unfold getKey in Hle. rewrite !app_assoc in Hle. apply bytes_le_app in Hle.
      apply be_le in Hle; [|done..]. destruct (decide (h' = h)) as [->|]; [done|lia]. }
    destruct (bytes_HasPrefix k _) eqn:Ep; simpl in HE.
    + destruct (Hwf k v) as (h' & Hh' & ->); [by left|done|].
      rewrite key_short, key_tail, be_roundtrip in HE by done.
      destruct (target <? h')%N eqn:Et; btests.
      * simplify_eq. rewrite decide_False; [done|]. intros [[E|Hin]%elem_of_cons Hle].
        -- simpl in E. apply getKey_inj in E; [lia|done..].
        -- pose proof (Hlt h' Hh' Hh eq_refl Hin). lia.
      * apply outcome_bind_ok in HE as (d1 & Hd%wrap_err_ok & HE).
        rewrite (IH d1 d' Hs); [|intros k0 v0 Hk0; apply (Hwf k0 v0); by right
                                |intros k0 v0 Hk0; apply (Hge k0 v0); by right|done|done].
        rewrite (kv_delete_get _ _ _ _ _ _ Hd).
        destruct (decide (h = h')) as [->|Hne].
        -- rewrite (decide_True (P := _ = _ ∧ _)) by done.
           destruct (decide (getKey c pk h' ∈ es.*1 ∧ _));
             by rewrite decide_True by (split; [by left|done]).
        -- rewrite (decide_False (P := _ = _ ∧ _)); [|intros [_ E]; by apply getKey_inj in E].
           apply decide_ext. split; [intros [? ?]; split; [by right|done]|].
           intros [[E|?]%elem_of_cons ?]; [by apply getKey_inj in E|done].
    + simplify_eq. rewrite decide_False; [done|]. intros [[E|Hin]%elem_of_cons _].
      * simpl in E. subst k. by rewrite prefix_key in Ep.
      * destruct (Hall _ Hin) as [Hle _]. unfold getKey in Hle. rewrite app_assoc in Hle.
        apply bool_decide_eq_false in Ep. destruct Ep.
        eapply between_prefix; [by eapply Hge; left|exact Hle].
Qed.
End lemmas.

(** ** Properties *)

Section properties.
Context {D : Type} `{KvLaws D} `{BigEndianLaws} `{Merkle}.
Implicit Types d : D.

(** Storing the proofs of a commitment and reading them back: with an
    interval [v] the proof of height [start + i * v] is the [i]-th proof of
    the list, every key outside the commitment keeps its proof, and a list
    of another length is refused and changes nothing. *)
Theorem AddPubRandProofList_roundtrip c pk h n v ps d d' (i : N)
    (Hv : (v ≠ 0)%N) (Hb : (h + n * v < two64)%N) (Hi : (i < n)%N)
    (Hadd : AddPubRandProofList c pk h n ps [WithKeyInterval v] d = (Ok (), d'))
    (Hopen : kv_begin d' = None) :
  (∃ p b, ps !! N.to_nat i = Some p ∧ Proof_Marshal p = Ok b
          ∧ GetPubRandProof c pk (h + i * v) d' = (Ok b, d'))
  ∧ (∀ k, (k ∉ buildKeys c pk h n [WithKeyInterval v]) →
          kv_get d' pubRandProofBucketName k = kv_get d pubRandProofBucketName k).
Proof.
  apply AddPubRandProofList_ok in Hadd as (Hl & bs & Hm & Hh & Hp).
  apply putProofs_ok in Hp as (Hget & Hframe & Hhas); [|by apply buildKeys_NoDup].
  split; [|intros k Hk; apply Hframe; by right].
  apply marshalProofs_ok in Hm. destruct (lookup_lt_is_Some_2 ps (N.to_nat i)) as [p Hp]; [lia|].
  destruct (Forall2_lookup_l _ _ _ _ _ Hm Hp) as (b & Hb' & Hpb).
  exists p, b. split_and!; [done|done|]. unfold GetPubRandProof, go_wrap.
  rewrite kv_view_run by done. rewrite Hhas, Hh. simpl.
  by rewrite (Hget (N.to_nat i) _ b (buildKeys_lookup _ _ _ _ _ _ Hi Hb) Hb').
Qed.

(** The list of consecutive proofs is read back whole: after the proofs
    of [n] consecutive heights were stored, any sub-range of them is returned
    in order of height, each entry being what the single lookup returns. *)
Theorem GetPubRandProofList_range c pk h n ps d d' (j m : N)
    (Hb : (h + n < two64)%N) (Hr : (j + m ≤ n)%N)
    (Hadd : AddPubRandProofList c pk h n ps [] d = (Ok (), d')) (Hopen : kv_begin d' = None) :
  ∃ bs, GetPubRandProofList c pk (h + j) m d' = (Ok bs, d') ∧
        Forall2 (λ p b, Proof_Marshal p = Ok b) (take (N.to_nat m) (drop (N.to_nat j) ps)) bs.
Proof.
  apply AddPubRandProofList_ok in Hadd as (Hl & bs & Hm & Hh & Hp).
  rewrite buildKeys_default in Hp.
  apply putProofs_ok in Hp as (Hget & _ & Hhas); [|apply buildKeys_NoDup; lia].
  apply marshalProofs_ok in Hm. exists (take (N.to_nat m) (drop (N.to_nat j) bs)).
  split; [|by apply Forall2_take, Forall2_drop].
  unfold GetPubRandProofList, go_wrap. rewrite kv_view_run by done. rewrite Hhas, Hh. simpl.
  rewrite (getProofs_run _ _ (take (N.to_nat m) (drop (N.to_nat j) bs))); [done|].
  pose proof (Forall2_length _ _ _ Hm) as Hbl.
  apply Forall2_same_length_lookup_2.
  { rewrite buildKeys_length, length_take, length_drop. lia. }
  intros i k v Hk Hv. pose proof (lookup_lt_Some _ _ _ Hk) as Hi. rewrite buildKeys_length in Hi.
  rewrite buildKeys_default in Hk.
  pose proof (buildKeys_lookup c pk (h + j) m 1 (N.of_nat i)) as Hk'. rewrite Nat2N.id in Hk'.
  rewrite Hk' in Hk by lia. injection Hk as <-.
  rewrite lookup_take_lt, lookup_drop in Hv by lia.
  replace (h + j + N.of_nat i * 1)%N with (h + N.of_nat (N.to_nat j + i) * 1)%N by lia.
  eapply Hget; [|exact Hv].
  pose proof (buildKeys_lookup c pk h n 1 (N.of_nat (N.to_nat j + i))) as Hkk.
  rewrite Nat2N.id in Hkk. apply Hkk; lia.
Qed.

(** Pruning touches nothing outside the prefix. *)
Lemma removeLoop_other p target es : ∀ d d' b k,
  removeLoop p target d es = Ok d' → b ≠ pubRandProofBucketName ∨ bytes_HasPrefix k p = false →
  kv_get d' b k = kv_get d b k.
Proof.
  induction es as [|[k0 v] es IH]; intros d d' b k HE Hk; simpl in HE; [by injection HE as <-|].
  destruct (bytes_HasPrefix k0 p) eqn:Hp; simpl in HE; [|by injection HE as <-].
  destruct (_ <? _)%nat; [done|]. destruct (_ <? _)%N; [by injection HE as <-|].
  apply outcome_bind_ok in HE as (d1 & Hd%wrap_err_ok & HE). rewrite (IH _ _ _ _ HE Hk).
  rewrite (kv_delete_get _ _ _ _ b k Hd), decide_False; [done|]. intros [<- <-].
  by destruct Hk as [?|Hk]; [|rewrite Hk in Hp].
Qed.
Lemma RemovePubRandProofList_other c pk target d d' b k :
  RemovePubRandProofList c pk target d = (Ok (), d') →
  b ≠ pubRandProofBucketName ∨ bytes_HasPrefix k (getPrefixKey c pk) = false →
  kv_get d' b k = kv_get d b k.
Proof.
  unfold RemovePubRandProofList. intros Hrem. apply go_wrap_ok, kv_update_ok in Hrem.
  destruct (kv_has d _); simpl in Hrem; [|done].
  apply outcome_bind_ok in Hrem as (d1 & Hloop & [= ->]). by apply (removeLoop_other _ _ _ _ _ _ _ Hloop).
Qed.

(** Pruning up to a height removes exactly the proofs of that chain and
    EOTS key at or below the height: the proof of every higher height is
    kept.  The cursor stops at the first higher height because big-endian
    heights sort like numbers. *)
Theorem RemovePubRandProofList_exact c pk target d d' h
    (Hwf : keys_wf d c pk) (Hh : is_u64 h)
    (Hrem : RemovePubRandProofList c pk target d = (Ok (), d')) :
  kv_get d' pubRandProofBucketName (getKey c pk h)
  = if (h <=? target)%N then None else kv_get d pubRandProofBucketName (getKey c pk h).
Proof.
  unfold RemovePubRandProofList in Hrem. apply go_wrap_ok, kv_update_ok in Hrem.
  destruct (kv_has d _); simpl in Hrem; [|done].
  apply outcome_bind_ok in Hrem as (d1 & Hloop & [= ->]).
  set (es := kv_entries d pubRandProofBucketName) in *.
  pose proof (kv_entries_sorted d pubRandProofBucketName) as Hs. fold es in Hs.
  destruct (seek_suffix (getPrefixKey c pk) es) as [es0 Hes].
  assert (∀ k v, (k, v) ∈ cursor_Seek (getPrefixKey c pk) es → (k, v) ∈ es) as Hsub.
  { intros k v Hin. rewrite Hes. set_solver. }
  assert (StronglySorted bytes_lt (cursor_Seek (getPrefixKey c pk) es).*1) as Hs'.
  { rewrite Hes, fmap_app in Hs. by apply StronglySorted_app_1_r in Hs. }
  rewrite (removeLoop_ok c pk target _ d d' Hs'); [|intros k v Hin|intros k v Hin|done|done].
  - destruct (h <=? target)%N eqn:Et; btests.
    + destruct (kv_get d pubRandProofBucketName (getKey c pk h)) as [v|] eqn:Eg.
      * rewrite decide_True; [done|]. split; [|done]. apply list_elem_of_fmap. exists (getKey c pk h, v).
        split; [done|]. apply seek_elem; [done|apply key_ge_prefix|]. by apply kv_entries_get.
      * by case_decide.
    + rewrite decide_False; [done|]. lia.
  - intros Hp. apply (Hwf k v); [by apply kv_entries_get, Hsub|done].
  - by apply (seek_ge _ es k v).
Qed.
End properties.

(** ** Witnesses *)

Module PubRandWitness.
Import ToyInstances.

Definition w_c : bytes := bytes_of_string "bbn-1".
Definition w_pk : bytes := toy_pk true.
Definition w_d0 : MapDb.db := (pr_initBuckets MapDb.empty).2.
Definition w_ps : list Proof := [4; 5; 6]%nat.
Definition w_d5 : MapDb.db := (AddPubRandProofList w_c w_pk 100 3 w_ps [WithKeyInterval 5] w_d0).2.
Definition w_d1 : MapDb.db := (AddPubRandProofList w_c w_pk 100 3 w_ps [] w_d0).2.

Lemma AddPubRandProofList_roundtrip_witness :
  GetPubRandProof w_c w_pk 110 w_d5 = (Ok (N_bytes 6), w_d5)
  ∧ ∃ p b, w_ps !! 2%nat = Some p ∧ Proof_Marshal p = Ok b
           ∧ GetPubRandProof w_c w_pk (100 + 2 * 5) w_d5 = (Ok b, w_d5).
Proof.
  split; [vm_eq|].
  apply (AddPubRandProofList_roundtrip w_c w_pk 100 3 5 w_ps w_d0 w_d5 2); first [done|vm_eq].
Defined.

Lemma GetPubRandProofList_range_witness :
  ∃ bs, GetPubRandProofList w_c w_pk (100 + 1) 2 w_d1 = (Ok bs, w_d1)
        ∧ Forall2 (λ p b, Proof_Marshal p = Ok b) (take 2 (drop 1 w_ps)) bs.
Proof.
  apply (GetPubRandProofList_range w_c w_pk 100 3 w_ps w_d0 w_d1 1 2); first [done|vm_eq].
Defined.

Lemma RemovePubRandProofList_exact_witness :
  let d' := (RemovePubRandProofList w_c w_pk 101 w_d1).2 in
  kv_get d' pubRandProofBucketName (getKey w_c w_pk 101) = None
  ∧ kv_get d' pubRandProofBucketName (getKey w_c w_pk 102) = Some (N_bytes 6).
Proof.
  intros d'.
  assert (keys_wf w_d1 w_c w_pk) as Hwf.
  { apply (AddPubRandProofList_wf w_c w_pk 100 3 w_ps [] w_d0 w_d1); [|vm_eq].
    intros k v Hk. vm_compute in Hk. done. }
  split.
  - rewrite (RemovePubRandProofList_exact w_c w_pk 101 w_d1 d' 101); [done|done|done|vm_eq].
  - rewrite (RemovePubRandProofList_exact w_c w_pk 101 w_d1 d' 102); [vm_eq|done|done|vm_eq].
Defined.
End PubRandWitness.
