(* ===== verification/FpStore.v ===== *)
(** * The finality provider store (src/finality-provider/store/fpstore.go)

    The records of the finality providers of the daemon, with the conversions
    of storedfp.go and proto/finality_providers.go, and the [FpState] of a
    running instance (src/finality-provider/service/fp_store_adapter.go), which
    keeps a copy of its record in memory. *)

From Stdlib Require Import NArith Lia.
From stdpp Require Import base gmap strings list.
From S2P Require Import Prelude Kvdb External Toy.

(** ** Data *)

Inductive FinalityProviderStatus := REGISTERED | ACTIVE | INACTIVE | SLASHED | JAILED.

#[export] Instance FinalityProviderStatus_eq_dec : EqDecision FinalityProviderStatus.
Proof. solve_decision. Defined.

Definition Status_String (s : FinalityProviderStatus) : string :=
  match s with
  | REGISTERED => "REGISTERED"
  | ACTIVE => "ACTIVE"
  | INACTIVE => "INACTIVE"
  | SLASHED => "SLASHED"
  | JAILED => "JAILED"
  end.

(** [proto.CommissionInfo]; a timestamp is the seconds since the epoch *)
Record CommissionInfo := mkCommissionInfo {
  ci_MaxRate : string;
  ci_MaxChangeRate : string;
  ci_UpdateTime : Z;
}.

(** [proto.FinalityProvider] *)
Record FinalityProvider := mkFinalityProvider {
  fp_FpAddr : string;
  fp_BtcPk : bytes;
  fp_Description : bytes;
  fp_Commission : string;
  fp_ChainId : string;
  fp_LastVotedHeight : N;
  fp_Status : FinalityProviderStatus;
  fp_CommissionInfo : option CommissionInfo;
}.

(** [proto.FinalityProviderInfo] *)
Record FinalityProviderInfo := mkFinalityProviderInfo {
  fpi_FpAddr : string;
  fpi_BtcPkHex : string;
  fpi_Description : Description;
  fpi_Commission : string;
  fpi_LastVotedHeight : N;
  fpi_Status : string;
  fpi_IsRunning : bool;
  fpi_CommissionInfo : option CommissionInfo;
  fpi_ChainId : string;
}.

(** [store.StoredFinalityProvider] *)
Record StoredFinalityProvider `{Crypto} `{Sdk} := mkStoredFp {
  sfp_FPAddr : string;
  sfp_BtcPk : PublicKey;
  sfp_Description : Description;
  sfp_Commission : LegacyDec;
  sfp_ChainID : string;
  sfp_LastVotedHeight : N;
  sfp_Status : FinalityProviderStatus;
  sfp_CommissionInfo : option CommissionInfo;
}.

(** finality-provider/store/errors.go *)
Definition ErrCorruptedFinalityProviderDB : error :=
  EVar "ErrCorruptedFinalityProviderDB" "finality provider db is corrupted".
Definition ErrFinalityProviderNotFound : error :=
  EVar "ErrFinalityProviderNotFound" "finality provider not found".
Definition ErrDuplicateFinalityProvider : error :=
  EVar "ErrDuplicateFinalityProvider" "finality provider already exists".

Definition finalityProviderBucketName : bytes := bytes_of_string "finalityProviders".

Section store.
Context {D : Type} `{KvBackend D} `{Crypto} `{Sdk} `{Codec FinalityProvider} `{Codec Description}.

(** ** Conversions *)

Definition MustGetBTCPK (sfp : FinalityProvider) : outcome PublicKey :=
  match schnorr_ParsePubKey (fp_BtcPk sfp) with
  | Ok pk => Ok pk
  | Err e => Crash (Error (wrapf "failed to parse BTC PK" e))
  | Crash w => Crash w
  end.

Definition MustGetBIP340BTCPK (sfp : FinalityProvider) : outcome bytes :=
  btcPK ← MustGetBTCPK sfp; Ok (BIP340FromBTCPK btcPK).

Definition NewFinalityProviderInfo (sfp : FinalityProvider) : outcome FinalityProviderInfo :=
  des ← wrap_err "failed to unmarshal description" (unmarshal (A:=Description) (fp_Description sfp));
  pk ← MustGetBIP340BTCPK sfp;
  Ok {| fpi_FpAddr := fp_FpAddr sfp; fpi_BtcPkHex := MarshalHex pk;
        fpi_Description := des; fpi_Commission := "";
        fpi_LastVotedHeight := fp_LastVotedHeight sfp;
        fpi_Status := Status_String (fp_Status sfp); fpi_IsRunning := false;
        fpi_CommissionInfo := None; fpi_ChainId := "" |}.

Definition NewCommissionInfoWithTime (maxRate maxChangeRate : LegacyDec) (updatedAt : Z)
    : CommissionInfo :=
  {| ci_MaxRate := Dec_String maxRate; ci_MaxChangeRate := Dec_String maxChangeRate;
     ci_UpdateTime := updatedAt |}.

(** [req.GetCommissionRates()]; the request's [Commission] may be nil *)
Definition GetCommissionRates (commission : option (string * string * string))
    : outcome CommissionRates :=
  match commission with
  | None => Err (EText "nil Commission in request. Cannot get CommissionRates")
  | Some (r, mr, mcr) =>
      rate ← wrap_err "invalid commission rate" (LegacyNewDecFromStr r);
      maxRate ← wrap_err "invalid commission max rate" (LegacyNewDecFromStr mr);
      maxChangeRate ← wrap_err "invalid commission max change rate" (LegacyNewDecFromStr mcr);
      Ok (mkCommissionRates _ rate maxRate maxChangeRate)
  end.

Definition protoFpToStoredFinalityProvider (fp : FinalityProvider)
    : outcome StoredFinalityProvider :=
  btcPk ← wrap_err "invalid BTC public key" (schnorr_ParsePubKey (fp_BtcPk fp));
  des ← wrap_err "invalid description" (unmarshal (A:=Description) (fp_Description fp));
  commission ← wrap_err "invalid commission" (LegacyNewDecFromStr (fp_Commission fp));
  Ok {| sfp_FPAddr := fp_FpAddr fp; sfp_BtcPk := btcPk; sfp_Description := des;
        sfp_Commission := commission; sfp_ChainID := fp_ChainId fp;
        sfp_LastVotedHeight := fp_LastVotedHeight fp; sfp_Status := fp_Status fp;
        sfp_CommissionInfo := fp_CommissionInfo fp |}.

Definition GetBIP340BTCPK (sfp : StoredFinalityProvider) : bytes := BIP340FromBTCPK (sfp_BtcPk sfp).

Definition ToFinalityProviderInfo (sfp : StoredFinalityProvider) : FinalityProviderInfo :=
  {| fpi_FpAddr := sfp_FPAddr sfp; fpi_BtcPkHex := MarshalHex (GetBIP340BTCPK sfp);
     fpi_Description := sfp_Description sfp; fpi_Commission := Dec_String (sfp_Commission sfp);
     fpi_LastVotedHeight := sfp_LastVotedHeight sfp;
     fpi_Status := Status_String (sfp_Status sfp); fpi_IsRunning := false;
     fpi_CommissionInfo := sfp_CommissionInfo sfp; fpi_ChainId := sfp_ChainID sfp |}.

(** [sfp.GetCommissionInfo()]: maximal rate, maximal change and time *)
Definition GetCommissionInfo (sfp : StoredFinalityProvider)
    : outcome (LegacyDec * LegacyDec * Z) :=
  match sfp_CommissionInfo sfp with
  | None => Crash "nil pointer dereference"
  | Some ci =>
      maxRate ← LegacyMustNewDecFromStr (ci_MaxRate ci);
      maxChangeRate ← LegacyMustNewDecFromStr (ci_MaxChangeRate ci);
      Ok (maxRate, maxChangeRate, ci_UpdateTime ci)
  end.

(** ** The store *)

Definition fp_initBuckets : M D unit :=
  go_wrap "failed to initialize finality provider bucket" (kv_update (λ d,
    d' ← wrap_err "failed to create finality provider bucket"
           (kv_create d finalityProviderBucketName);
    Ok ((), d'))).

(** A nil [*proto.FinalityProvider] is [None]. *)
Definition saveFinalityProvider (d : D) (fp : option FinalityProvider) : outcome D :=
  match fp with
  | None => Err (EText "cannot save nil finality provider")
  | Some fp =>
      marshalled ← wrap_err "failed to marshal finality provider" (marshal fp);
      wrap_err "failed to store finality provider"
        (kv_put d finalityProviderBucketName (fp_BtcPk fp) marshalled)
  end.

Definition createFinalityProviderInternal (fp : FinalityProvider) : M D unit :=
  go_wrap "failed to create finality provider" (kv_update (λ d,
    if negb (kv_has d finalityProviderBucketName) then Err ErrCorruptedFinalityProviderDB
    else if bool_decide (is_Some (kv_get d finalityProviderBucketName (fp_BtcPk fp))) then
      Err ErrDuplicateFinalityProvider
    else d' ← saveFinalityProvider d (Some fp); Ok ((), d'))).

(** [fpAddr] is the bech32 string of the address; [now] is [time.Now().UTC()]. *)
Definition CreateFinalityProvider (now : Z) (fpAddr : string) (btcPk : PublicKey)
    (description : Description) (commission : CommissionRates) (chainID : string) : M D unit :=
  desBytes ← go_lift (wrap_err "invalid description" (marshal description));
  createFinalityProviderInternal
    {| fp_FpAddr := fpAddr; fp_BtcPk := SerializePubKey btcPk; fp_Description := desBytes;
       fp_Commission := Dec_String (Rate commission); fp_ChainId := chainID;
       fp_LastVotedHeight := 0; fp_Status := REGISTERED;
       fp_CommissionInfo := Some (NewCommissionInfoWithTime (MaxRate commission)
                                    (MaxChangeRate commission) now) |}.

Definition setFinalityProviderState (btcPk : PublicKey)
    (stateTransitionFn : FinalityProvider → outcome FinalityProvider) : M D unit :=
  let pkBytes := SerializePubKey btcPk in
  go_wrap "failed to set finality provider state" (kv_update (λ d,
    if negb (kv_has d finalityProviderBucketName) then Err ErrCorruptedFinalityProviderDB
    else match kv_get d finalityProviderBucketName pkBytes with
         | None => Err ErrFinalityProviderNotFound
         | Some fpFromDB =>
             match unmarshal (A:=FinalityProvider) fpFromDB with
             | Ok storedFp =>
                 storedFp' ← stateTransitionFn storedFp;
                 d' ← saveFinalityProvider d (Some storedFp');
                 Ok ((), d')
             | Err _ => Err ErrCorruptedFinalityProviderDB
             | Crash w => Crash w
             end
         end)).

Definition with_status (fp : FinalityProvider) (s : FinalityProviderStatus) : FinalityProvider :=
  mkFinalityProvider (fp_FpAddr fp) (fp_BtcPk fp) (fp_Description fp) (fp_Commission fp)
    (fp_ChainId fp) (fp_LastVotedHeight fp) s (fp_CommissionInfo fp).

Definition SetFpStatus (btcPk : PublicKey) (status : FinalityProviderStatus) : M D unit :=
  setFinalityProviderState btcPk (λ fp, Ok (with_status fp status)).

Definition MustSetFpStatus (btcPk : PublicKey) (status : FinalityProviderStatus) : M D unit :=
  r ← go_try (SetFpStatus btcPk status);
  match r with
  | inl e => go_crash (Error e)
  | inr _ => mret ()
  end.

(** The pair [(status, err)]: the code returns the new status even when it
    could not be stored. *)
Definition UpdateFpStatusFromVotingPower (hasPower : bool) (fp : StoredFinalityProvider)
    : M D (FinalityProviderStatus * option error) :=
  if bool_decide (sfp_Status fp = SLASHED) then mret (SLASHED, None)
  else if hasPower then
    r ← go_try (SetFpStatus (sfp_BtcPk fp) ACTIVE);
    mret (ACTIVE, match r with inl e => Some e | inr _ => None end)
  else if bool_decide (sfp_Status fp = ACTIVE) then
    r ← go_try (SetFpStatus (sfp_BtcPk fp) INACTIVE);
    mret (INACTIVE, match r with inl e => Some e | inr _ => None end)
  else mret (sfp_Status fp, None).

Definition with_height (fp : FinalityProvider) (h : N) : FinalityProvider :=
  mkFinalityProvider (fp_FpAddr fp) (fp_BtcPk fp) (fp_Description fp) (fp_Commission fp)
    (fp_ChainId fp) h (fp_Status fp) (fp_CommissionInfo fp).

Definition SetFpLastVotedHeight (btcPk : PublicKey) (lastVotedHeight : N) : M D unit :=
  setFinalityProviderState btcPk (λ fp,
    Ok (if (fp_LastVotedHeight fp <? lastVotedHeight)%N then with_height fp lastVotedHeight else fp)).

Definition GetFinalityProvider (btcPk : PublicKey) : M D StoredFinalityProvider :=
  let pkBytes := SerializePubKey btcPk in
  go_wrap "failed to get finality provider" (kv_view (λ d,
    if negb (kv_has d finalityProviderBucketName) then Err ErrCorruptedFinalityProviderDB
    else match kv_get d finalityProviderBucketName pkBytes with
         | None => Err ErrFinalityProviderNotFound
         | Some fpBytes =>
             match unmarshal (A:=FinalityProvider) fpBytes with
             | Ok fpProto => protoFpToStoredFinalityProvider fpProto
             | Err _ => Err ErrCorruptedFinalityProviderDB
             | Crash w => Crash w
             end
         end)).

Fixpoint storedFps (entries : list (bytes * bytes)) : outcome (list StoredFinalityProvider) :=
  match entries with
  | [] => Ok []
  | (_, v) :: rest =>
      fpProto ← match unmarshal (A:=FinalityProvider) v with
                | Err _ => Err ErrCorruptedFinalityProviderDB
                | r => r
                end;
      fpFromDB ← protoFpToStoredFinalityProvider fpProto;
      l ← storedFps rest;
      Ok (fpFromDB :: l)
  end.

Definition GetAllStoredFinalityProviders : M D (list StoredFinalityProvider) :=
  go_wrap "failed to get all stored finality providers" (kv_view (λ d,
    if negb (kv_has d finalityProviderBucketName) then Err ErrCorruptedFinalityProviderDB
    else storedFps (kv_entries d finalityProviderBucketName))).

Definition SetFpDescription (now : Z) (btcPk : PublicKey) (desc : Description)
    (rate : option LegacyDec) : M D unit :=
  setFinalityProviderState btcPk (λ fp,
    descBytes ← wrap_err "failed to marshal description" (marshal desc);
    Ok (match rate with
        | None => mkFinalityProvider (fp_FpAddr fp) (fp_BtcPk fp) descBytes (fp_Commission fp)
                    (fp_ChainId fp) (fp_LastVotedHeight fp) (fp_Status fp) (fp_CommissionInfo fp)
        | Some rate =>
            let ci := default (mkCommissionInfo "" "" 0) (fp_CommissionInfo fp) in
            mkFinalityProvider (fp_FpAddr fp) (fp_BtcPk fp) descBytes (Dec_String rate)
              (fp_ChainId fp) (fp_LastVotedHeight fp) (fp_Status fp)
              (Some (mkCommissionInfo (ci_MaxRate ci) (ci_MaxChangeRate ci) now))
        end)).
End store.

(** ** The state of a running instance *)

(** [types.FinalityProviderState] *)
Class FinalityProviderState `{Crypto} (F : Type) := {
  st_GetBtcPk : F → PublicKey;
  st_GetChainID : F → bytes;
  st_GetLastVotedHeight : F → N;
  st_SetLastVotedHeight : N → M F unit;
  st_GetStatus : F → FinalityProviderStatus;
  st_SetStatus : FinalityProviderStatus → M F unit;
}.

(** What the submitter and the event loops rely on: a setter changes its own
    field only, and the field it sets is the one that is read, also when the
    database refuses the write. *)
Class FinalityProviderStateLaws `{Crypto} (F : Type) `{!FinalityProviderState F} : Prop := {
  st_height_set h f r f' : st_SetLastVotedHeight h f = (r, f') →
    st_GetLastVotedHeight f' = h ∧ st_GetStatus f' = st_GetStatus f
    ∧ st_GetBtcPk f' = st_GetBtcPk f ∧ st_GetChainID f' = st_GetChainID f;
  st_status_set s f r f' : st_SetStatus s f = (r, f') →
    st_GetStatus f' = s ∧ st_GetLastVotedHeight f' = st_GetLastVotedHeight f
    ∧ st_GetBtcPk f' = st_GetBtcPk f ∧ st_GetChainID f' = st_GetChainID f;
}.

Section fpstate.
Context {D : Type} `{KvBackend D} `{Crypto} `{Sdk} `{Codec FinalityProvider} `{Codec Description}.

(** [FpState]: the record in memory and the store *)
Record FpState := mkFpState { fps_sfp : StoredFinalityProvider; fps_s : D }.

Definition sfp_with_status (f : StoredFinalityProvider) (s : FinalityProviderStatus)
    : StoredFinalityProvider :=
  mkStoredFp _ _ (sfp_FPAddr f) (sfp_BtcPk f) (sfp_Description f) (sfp_Commission f)
    (sfp_ChainID f) (sfp_LastVotedHeight f) s (sfp_CommissionInfo f).
Definition sfp_with_height (f : StoredFinalityProvider) (h : N) : StoredFinalityProvider :=
  mkStoredFp _ _ (sfp_FPAddr f) (sfp_BtcPk f) (sfp_Description f) (sfp_Commission f)
    (sfp_ChainID f) h (sfp_Status f) (sfp_CommissionInfo f).

Definition GetBtcPk (fps : FpState) : PublicKey := sfp_BtcPk (fps_sfp fps).
Definition GetBtcPkBIP340 (fps : FpState) : bytes := GetBIP340BTCPK (fps_sfp fps).
Definition GetBtcPkHex (fps : FpState) : string := MarshalHex (GetBtcPkBIP340 fps).
Definition GetChainID (fps : FpState) : bytes := bytes_of_string (sfp_ChainID (fps_sfp fps)).
Definition GetLastVotedHeight (fps : FpState) : N := sfp_LastVotedHeight (fps_sfp fps).
Definition GetStatus (fps : FpState) : FinalityProviderStatus := sfp_Status (fps_sfp fps).

Definition on_s {A} (m : M D A) : M FpState A := λ fps,
  let '(r, d) := m (fps_s fps) in (r, mkFpState (fps_sfp fps) d).

Definition SetStatus (s : FinalityProviderStatus) : M FpState unit := λ fps,
  let fps1 := mkFpState (sfp_with_status (fps_sfp fps) s) (fps_s fps) in
  go_wrap "failed to set finality provider status"
    (on_s (SetFpStatus (sfp_BtcPk (fps_sfp fps1)) s)) fps1.

Definition SetLastVotedHeight (height : N) : M FpState unit := λ fps,
  let fps1 := mkFpState (sfp_with_height (fps_sfp fps) height) (fps_s fps) in
  go_wrap "failed to set finality provider last voted height"
    (on_s (SetFpLastVotedHeight (sfp_BtcPk (fps_sfp fps1)) height)) fps1.

#[export] Instance fp_state : FinalityProviderState FpState := {|
  st_GetBtcPk := GetBtcPk;
  st_GetChainID := GetChainID;
  st_GetLastVotedHeight := GetLastVotedHeight;
  st_SetLastVotedHeight := SetLastVotedHeight;
  st_GetStatus := GetStatus;
  st_SetStatus := SetStatus;
|}.

Lemma on_s_sfp {A} p (m : M D A) fps r fps' :
  go_wrap p (on_s m) fps = (r, fps') → fps_sfp fps' = fps_sfp fps.
Proof. unfold go_wrap, on_s. destruct (m (fps_s fps)). by intros [= _ <-]. Qed.

#[export] Instance fp_state_laws : FinalityProviderStateLaws FpState.
Proof.
  split; simpl; intros x f r f' HE; apply on_s_sfp in HE;
    unfold GetStatus, GetLastVotedHeight, GetBtcPk, GetChainID; by rewrite HE.
Qed.
End fpstate.
Arguments FpState D {_ _}.

(** ** Updates of the store, as operations *)

Section operations.
Context {D : Type} `{KvBackend D} `{Crypto} `{Sdk} `{Codec FinalityProvider} `{Codec Description}.

Inductive fp_op :=
| OpCreate (now : Z) (addr : string) (pk : PublicKey) (des : Description)
    (com : CommissionRates) (chain : string)
| OpSetStatus (pk : PublicKey) (s : FinalityProviderStatus)
| OpUpdateFromPower (hasPower : bool) (fp : StoredFinalityProvider)
| OpSetLastVotedHeight (pk : PublicKey) (h : N)
| OpSetDescription (now : Z) (pk : PublicKey) (des : Description) (rate : option LegacyDec).

(** The store after the operation, whatever it returned. *)
Definition apply_op (o : fp_op) (d : D) : D :=
  match o with
  | OpCreate now a pk des com c => (CreateFinalityProvider now a pk des com c d).2
  | OpSetStatus pk s => (SetFpStatus pk s d).2
  | OpUpdateFromPower b fp => (UpdateFpStatusFromVotingPower b fp d).2
  | OpSetLastVotedHeight pk h => (SetFpLastVotedHeight pk h d).2
  | OpSetDescription now pk des r => (SetFpDescription now pk des r d).2
  end.

Definition apply_ops (os : list fp_op) (d : D) : D := fold_left (λ d o, apply_op o d) os d.
End operations.

(** ** Lemmas *)

Section lemmas.
Context {D : Type} `{KvLaws D} `{CryptoLaws} `{SdkLaws} `{CodecLaws FinalityProvider}
  `{CodecLaws Description}.
Implicit Types d : D.

(** the record stored under a key *)
Definition stored d (k : bytes) (fp : FinalityProvider) : Prop :=
  ∃ b, kv_get d finalityProviderBucketName k = Some b ∧ unmarshal b = Ok fp.

(** every record is stored under its own public key *)
Definition store_wf d : Prop := ∀ k fp, stored d k fp → fp_BtcPk fp = k.

(** what an update may do to a record *)
Definition rec_le (fp fp' : FinalityProvider) : Prop :=
  fp_BtcPk fp' = fp_BtcPk fp ∧ fp_ChainId fp' = fp_ChainId fp ∧ fp_FpAddr fp' = fp_FpAddr fp
  ∧ (fp_LastVotedHeight fp ≤ fp_LastVotedHeight fp')%N.

Definition store_le d d' : Prop :=
  ∀ k fp, stored d k fp → ∃ fp', stored d' k fp' ∧ rec_le fp fp'.

#[export] Instance rec_le_preorder : PreOrder rec_le.
Proof.
  split; [intros fp; unfold rec_le; split_and!; [done|done|done|lia]|].
  intros x y z (?&?&?&?) (?&?&?&?). unfold rec_le. split_and!; [congruence..|lia].
Qed.

#[export] Instance store_le_preorder : PreOrder store_le.
Proof.
  split; [intros d k fp Hs; exists fp; split; [done|reflexivity]|].
  intros d1 d2 d3 H12 H23 k fp Hs. destruct (H12 _ _ Hs) as (fp2 & Hs2 & Hle).
  destruct (H23 _ _ Hs2) as (fp3 & Hs3 & Hle'). exists fp3. split; [done|by etrans].
Qed.

Lemma stored_det d k fp1 fp2 : stored d k fp1 → stored d k fp2 → fp1 = fp2.
Proof. intros (b1 & Hb1 & Hu1) (b2 & Hb2 & Hu2). congruence. Qed.

Lemma save_ok d fp d' :
  saveFinalityProvider d (Some fp) = Ok d' →
  stored d' (fp_BtcPk fp) fp
  ∧ (∀ k, k ≠ fp_BtcPk fp → ∀ p, stored d' k p ↔ stored d k p)
  ∧ (∀ b, kv_has d' b = kv_has d b).
Proof.
  unfold saveFinalityProvider. intros HE.
  apply outcome_bind_ok in HE as (m & Hm%wrap_err_ok & Hp%wrap_err_ok). split_and!.
  - exists m. split; [by eapply kv_put_get_eq|by apply unmarshal_marshal].
  - intros k Hk p. unfold stored. by rewrite (kv_put_get_ne _ _ _ _ _ _ _ Hp) by by right.
  - intros b. by eapply kv_put_has.
Qed.

(** A successful update of a record. *)
Lemma setState_ok pk f d d' :
  setFinalityProviderState pk f d = (Ok (), d') →
  ∃ fp fp', stored d (SerializePubKey pk) fp ∧ f fp = Ok fp'
            ∧ saveFinalityProvider d (Some fp') = Ok d'.
Proof.
  unfold setFinalityProviderState. intros HE%go_wrap_ok%kv_update_ok.
  destruct (kv_has d _); simpl in HE; [|done].
  destruct (kv_get d _ _) as [b|] eqn:Eb; [|done].
  destruct (unmarshal b) as [fp| |] eqn:Eu; [|done..].
  apply outcome_bind_ok in HE as (fp' & Hf & HE).
  apply outcome_bind_ok in HE as (d1 & Hs & [= <-]). exists fp, fp'.
  split; [by exists b|done].
Qed.

Lemma setState_err pk f d r d' :
  setFinalityProviderState pk f d = (r, d') → is_Ok r = false → d' = d.
Proof.
  unfold setFinalityProviderState, go_wrap.
  destruct (kv_update _ d) as [[[]|e|w] d1] eqn:E; intros [= <- <-] Hr; simpl in Hr;
    [done|..]; by eapply kv_update_not_ok.
Qed.

(** Updates that keep a record comparable keep the store well-formed. *)
Lemma setState_le pk f d r d' :
  (∀ fp fp', f fp = Ok fp' → rec_le fp fp') → store_wf d →
  setFinalityProviderState pk f d = (r, d') → store_wf d' ∧ store_le d d'.
Proof.
  intros Hf Hwf HE. destruct (is_Ok r) eqn:Er; cycle 1.
  { apply setState_err in HE as ->; [|done]. split; [done|reflexivity]. }
  destruct r as [[]| |]; [|done..].
  apply setState_ok in HE as (fp & fp' & Hst & Hff & Hsave).
  destruct (save_ok _ _ _ Hsave) as (Hnew & Hold & _). pose proof (Hf _ _ Hff) as Hle.
  pose proof (Hwf _ _ Hst) as Hpk. destruct Hle as (Hpk' & Hrest).
  split.
  - intros k p Hp. destruct (decide (k = fp_BtcPk fp')) as [->|Hne].
    + by rewrite (stored_det _ _ _ _ Hp Hnew).
    + apply Hwf. by apply Hold.
  - intros k p Hp. destruct (decide (k = fp_BtcPk fp')) as [->|Hne].
    + exists fp'. split; [done|]. rewrite Hpk' , Hpk in Hp.
      rewrite (stored_det _ _ _ _ Hp Hst). by split.
    + exists p. split; [by apply Hold|reflexivity].
Qed.

Lemma create_ok fp d d' :
  createFinalityProviderInternal fp d = (Ok (), d') →
  kv_get d finalityProviderBucketName (fp_BtcPk fp) = None
  ∧ kv_has d finalityProviderBucketName = true
  ∧ saveFinalityProvider d (Some fp) = Ok d'.
Proof.
  unfold createFinalityProviderInternal. intros HE%go_wrap_ok%kv_update_ok.
  destruct (kv_has d _); simpl in HE; [|done]. case_bool_decide as Hn; [done|].
  apply outcome_bind_ok in HE as (d1 & Hs & [= <-]).
  by rewrite <- eq_None_not_Some in Hn.
Qed.

Lemma create_le fp d r d' :
  store_wf d → createFinalityProviderInternal fp d = (r, d') → store_wf d' ∧ store_le d d'.
Proof.
  intros Hwf HE. destruct r as [[]|e|w].
  - apply create_ok in HE as (Hn & _ & Hs). destruct (save_ok _ _ _ Hs) as (Hnew & Hold & _).
    assert (∀ k p, stored d k p → k ≠ fp_BtcPk fp) as Hne
      by (intros k p (b & Hb & _) ->; congruence).
    split.
    + intros k p Hp. destruct (decide (k = fp_BtcPk fp)) as [->|Hk].
      * by rewrite (stored_det _ _ _ _ Hp Hnew).
      * apply Hwf. by apply Hold.
    + intros k p Hp. exists p. split; [apply Hold; [by eapply Hne|done]|reflexivity].
  - unfold createFinalityProviderInternal, go_wrap in HE.
    destruct (kv_update _ d) as [[[]|e'|w] d1] eqn:E; simplify_eq/=.
    apply kv_update_not_ok in E as ->; [|done]. split; [done|reflexivity].
  - unfold createFinalityProviderInternal, go_wrap in HE.
    destruct (kv_update _ d) as [[[]|e'|w'] d1] eqn:E; simplify_eq/=.
    apply kv_update_not_ok in E as ->; [|done]. split; [done|reflexivity].
Qed.

Lemma try_snd {S A} (m : M S A) s : (go_try m s).2 = (m s).2.
Proof. unfold go_try. by destruct (m s) as [[] ?]. Qed.

Lemma SetFpStatus_le pk s d r d' :
  store_wf d → SetFpStatus pk s d = (r, d') → store_wf d' ∧ store_le d d'.
Proof.
  intros Hwf. apply setState_le; [|done]. intros fp fp' [= <-].
  unfold rec_le. simpl. split_and!; [done|done|done|lia].
Qed.

Lemma SetFpLastVotedHeight_le pk h d r d' :
  store_wf d → SetFpLastVotedHeight pk h d = (r, d') → store_wf d' ∧ store_le d d'.
Proof.
  intros Hwf. apply setState_le; [|done]. intros fp fp' [= <-].
  destruct (_ <? _)%N eqn:El; [btests|reflexivity].
  unfold rec_le. simpl. split_and!; [done|done|done|lia].
Qed.

Lemma SetFpDescription_le now pk des rate d r d' :
  store_wf d → SetFpDescription now pk des rate d = (r, d') → store_wf d' ∧ store_le d d'.
Proof.
  intros Hwf. apply setState_le; [|done]. intros fp fp' HE.
  apply outcome_bind_ok in HE as (b & _ & [= <-]). unfold rec_le.
  destruct rate; simpl; split_and!; try done; lia.
Qed.

Lemma UpdateFp_state hasPower fp d :
  (UpdateFpStatusFromVotingPower hasPower fp d).2 = d
  ∨ ∃ s, (UpdateFpStatusFromVotingPower hasPower fp d).2 = (SetFpStatus (sfp_BtcPk fp) s d).2.
Proof.
  unfold UpdateFpStatusFromVotingPower. go_unfold.
  case_bool_decide; [by left|]. destruct hasPower.
  - right. exists ACTIVE. by destruct (SetFpStatus _ ACTIVE d) as [[] ?].
  - case_bool_decide; [|by left]. right. exists INACTIVE.
    by destruct (SetFpStatus _ INACTIVE d) as [[] ?].
Qed.

Lemma apply_op_le o d : store_wf d → store_wf (apply_op o d) ∧ store_le d (apply_op o d).
Proof.
  intros Hwf. destruct o as [now a pk des com c|pk s|b fp|pk h|now pk des r]; simpl.
  - unfold CreateFinalityProvider. go_unfold. destruct (marshal des); simpl.
    + destruct (createFinalityProviderInternal _ d) as [r d'] eqn:E. by eapply create_le.
    + split; [done|reflexivity].
    + split; [done|reflexivity].
  - destruct (SetFpStatus pk s d) eqn:E. by eapply SetFpStatus_le.
  - destruct (UpdateFp_state b fp d) as [->|[s ->]]; [split; [done|reflexivity]|].
    destruct (SetFpStatus _ s d) eqn:E. by eapply SetFpStatus_le.
  - destruct (SetFpLastVotedHeight pk h d) eqn:E. by eapply SetFpLastVotedHeight_le.
  - destruct (SetFpDescription now pk des r d) eqn:E. by eapply SetFpDescription_le.
Qed.

Lemma apply_ops_le os : ∀ d,
  store_wf d → store_wf (apply_ops os d) ∧ store_le d (apply_ops os d).
Proof.
  induction os as [|o os IH]; intros d Hwf; simpl; [split; [done|reflexivity]|].
  destruct (apply_op_le o d Hwf) as [Hwf' Hle]. destruct (IH _ Hwf') as [Hwf'' Hle'].
  split; [done|by etrans].
Qed.

Lemma GetFinalityProvider_run pk fp sfp d :
  kv_begin d = None → stored d (SerializePubKey pk) fp →
  protoFpToStoredFinalityProvider fp = Ok sfp →
  GetFinalityProvider pk d = (Ok sfp, d).
Proof.
  intros Hb (b & Hg & Hu) Hs. unfold GetFinalityProvider, go_wrap. rewrite kv_view_run by done.
  rewrite (kv_get_has _ _ _ _ Hg), Hg, Hu. simpl. by rewrite Hs.
Qed.

Lemma GetFinalityProvider_ok pk sfp d d' :
  GetFinalityProvider pk d = (Ok sfp, d') →
  d' = d ∧ ∃ fp, stored d (SerializePubKey pk) fp ∧ protoFpToStoredFinalityProvider fp = Ok sfp.
Proof.
  unfold GetFinalityProvider. intros [HE ->]%go_wrap_ok%kv_view_ok.
  destruct (kv_has d _); simpl in HE; [|done]. destruct (kv_get d _ _) as [b|] eqn:Eb; [|done].
  destruct (unmarshal b) as [fp| |] eqn:Eu; [|done..]. split; [done|]. exists fp.
  split; [by exists b|done].
Qed.

Lemma proto_status fp sfp :
  protoFpToStoredFinalityProvider fp = Ok sfp →
  sfp_Status sfp = fp_Status fp ∧ sfp_LastVotedHeight sfp = fp_LastVotedHeight fp
  ∧ sfp_ChainID sfp = fp_ChainId fp ∧ schnorr_ParsePubKey (fp_BtcPk fp) = Ok (sfp_BtcPk sfp).
Proof.
  unfold protoFpToStoredFinalityProvider. intros HE.
  apply outcome_bind_ok in HE as (pk & Hpk%wrap_err_ok & HE).
  apply outcome_bind_ok in HE as (des & _ & HE). apply outcome_bind_ok in HE as (com & _ & HE).
  by injection HE as <-.
Qed.

(** A successful status change writes that status and nothing else. *)
Lemma SetFpStatus_stored pk s d d' :
  store_wf d → SetFpStatus pk s d = (Ok (), d') →
  (∃ fp, stored d (SerializePubKey pk) fp ∧ stored d' (SerializePubKey pk) (with_status fp s))
  ∧ ∀ k fp, k ≠ SerializePubKey pk → stored d' k fp ↔ stored d k fp.
Proof.
  intros Hwf (fp0 & fp1 & Hst0 & [= <-] & Hsave)%setState_ok.
  destruct (save_ok _ _ _ Hsave) as (Hnew & Hold & _). simpl in *.
  rewrite (Hwf _ _ Hst0) in Hnew, Hold. split; [by exists fp0|]. intros k fp Hk. by apply Hold.
Qed.

(** A successful edit writes the description and, when there is one, the rate. *)
Lemma SetFpDescription_stored now pk des rate d d' :
  store_wf d → SetFpDescription now pk des rate d = (Ok (), d') →
  (∃ fp fp', stored d (SerializePubKey pk) fp ∧ stored d' (SerializePubKey pk) fp'
     ∧ unmarshal (fp_Description fp') = Ok des
     ∧ fp_Commission fp' = match rate with Some r => Dec_String r | None => fp_Commission fp end
     ∧ fp_FpAddr fp' = fp_FpAddr fp ∧ fp_ChainId fp' = fp_ChainId fp ∧ fp_Status fp' = fp_Status fp
     ∧ fp_LastVotedHeight fp' = fp_LastVotedHeight fp)
  ∧ ∀ k fp, k ≠ SerializePubKey pk → stored d' k fp ↔ stored d k fp.
Proof.
  intros Hwf (fp0 & fp1 & Hst0 & Hf & Hsave)%setState_ok.
  apply outcome_bind_ok in Hf as (db & Hm%wrap_err_ok & [= <-]).
  destruct (save_ok _ _ _ Hsave) as (Hnew & Hold & _). pose proof (Hwf _ _ Hst0) as Hpk.
  pose proof (unmarshal_marshal _ _ Hm) as Hu. destruct rate; simpl in *; rewrite Hpk in Hnew, Hold.
  all: split; [|intros k fp Hk; by apply Hold].
  all: by eexists _, _; split_and!; [exact Hst0|exact Hnew|..].
Qed.

Lemma MustSetFpStatus_ok pk s d d' :
  MustSetFpStatus pk s d = (Ok (), d') → SetFpStatus pk s d = (Ok (), d').
Proof.
  unfold MustSetFpStatus. intros HE. inv_bind HE. apply go_try_ok in E. destruct a as [e|[]]; [done|].
  by injection HE as <-.
Qed.
End lemmas.

(** ** Properties *)

Section properties.
Context {D : Type} `{KvLaws D} `{CryptoLaws} `{SdkLaws} `{CodecLaws FinalityProvider}
  `{CodecLaws Description}.
Implicit Types d : D.

(** A finality provider that was created is read back with the x-only key
    and the data it was created with, REGISTERED and with no vote; creating it again is
    refused with [ErrDuplicateFinalityProvider] and changes nothing. *)
Theorem CreateFinalityProvider_roundtrip now addr pk des com chain d d'
    (Hrun : CreateFinalityProvider now addr pk des com chain d = (Ok (), d'))
    (Hopen : kv_begin d' = None) :
  (∃ pk', schnorr_ParsePubKey (SerializePubKey pk) = Ok pk' ∧ SerializePubKey pk' = SerializePubKey pk
    ∧ GetFinalityProvider pk d' = (Ok
    {| sfp_FPAddr := addr; sfp_BtcPk := pk'; sfp_Description := des; sfp_Commission := Rate com;
       sfp_ChainID := chain; sfp_LastVotedHeight := 0; sfp_Status := REGISTERED;
       sfp_CommissionInfo := Some (NewCommissionInfoWithTime (MaxRate com) (MaxChangeRate com) now) |},
    d'))
  ∧ ∀ now' addr' des' com' chain', is_Ok (marshal des') = true →
      ∃ e, CreateFinalityProvider now' addr' pk des' com' chain' d' = (Err e, d')
           ∧ errors_Is e "ErrDuplicateFinalityProvider" = true.
Proof.
  unfold CreateFinalityProvider in *. inv_bind Hrun.
  apply create_ok in Hrun as (_ & Hh & Hs). destruct (save_ok _ _ _ Hs) as (Hst & _ & Hhas). split.
  - destruct (schnorr_pk_parses pk) as [pk' Hpk']. exists pk'. split_and!; [done|by apply schnorr_pk_parsed|].
    apply (GetFinalityProvider_run _ _ _ _ Hopen Hst). unfold protoFpToStoredFinalityProvider. simpl.
    rewrite Hpk'. simpl. rewrite (unmarshal_marshal _ _ E). simpl.
    by rewrite dec_roundtrip.
  - intros now' addr' des' com' chain' Hm. destruct (marshal des') as [b| |] eqn:Em; [|done..].
    erewrite go_bind_run; [|reflexivity].
    unfold createFinalityProviderInternal, go_wrap, kv_update. simpl.
    rewrite Hopen, Hhas, Hh. simpl. destruct Hst as (b' & Hb' & _). simpl in Hb'.
    rewrite Hb'. by eexists.
Qed.

(** The store invariant: over any sequence of creations, status changes,
    votes and edits, with any database failures, every record stays under
    its own public key, none is lost, its chain and address never change and
    its last voted height never decreases. *)
Theorem fpstore_history (os : list fp_op) d (Hwf : store_wf d) :
  store_wf (apply_ops os d)
  ∧ ∀ k fp, stored d k fp → ∃ fp', stored (apply_ops os d) k fp'
      ∧ fp_BtcPk fp' = k ∧ fp_ChainId fp' = fp_ChainId fp ∧ fp_FpAddr fp' = fp_FpAddr fp
      ∧ (fp_LastVotedHeight fp ≤ fp_LastVotedHeight fp')%N.
Proof.
  destruct (apply_ops_le os d Hwf) as [Hwf' Hle]. split; [done|]. intros k fp Hs.
  destruct (Hle _ _ Hs) as (fp' & Hs' & _ & Hc & Ha & Hh). exists fp'.
  split_and!; [done|by apply Hwf'|done|done|done].
Qed.

(** Recording a vote stores the maximum of the stored and the new height
    and changes nothing else of the record; the memory of the running
    instance holds the height it was given, so memory and database agree
    exactly when the height is not below the stored one. *)
Theorem SetLastVotedHeight_max h (fps fps' : FpState D) fp
    (Hwf : store_wf (fps_s fps))
    (Hst : stored (fps_s fps) (SerializePubKey (GetBtcPk fps)) fp)
    (Hrun : SetLastVotedHeight h fps = (Ok (), fps')) :
  GetLastVotedHeight fps' = h
  ∧ stored (fps_s fps') (SerializePubKey (GetBtcPk fps))
      (with_height fp (N.max (fp_LastVotedHeight fp) h)).
Proof.
  pose proof (st_height_set (F := FpState D) h fps (Ok ()) fps') as Hmem.
  split; [by destruct (Hmem Hrun)|]. clear Hmem.
  unfold SetLastVotedHeight in Hrun. apply go_wrap_ok in Hrun. unfold on_s in Hrun. simpl in Hrun.
  destruct (SetFpLastVotedHeight _ _ _) as [r d'] eqn:E. injection Hrun as -> <-. simpl.
  apply setState_ok in E as (fp0 & fp1 & Hst0 & [= <-] & Hsave).
  rewrite (stored_det _ _ _ _ Hst0 Hst) in *. destruct (save_ok _ _ _ Hsave) as (Hnew & _).
  pose proof (Hwf _ _ Hst) as Hpk. destruct (_ <? _)%N eqn:El; btests.
  - rewrite N.max_r by lia. simpl in Hnew. by rewrite Hpk in Hnew.
  - rewrite N.max_l by lia. rewrite Hpk in Hnew. by destruct fp.
Qed.

(** The status computed from the voting power: SLASHED is absorbing,
    any other provider with power becomes ACTIVE, an ACTIVE one without
    power becomes INACTIVE and the others keep their status; when no error
    is reported the store holds the status that is returned. *)
Theorem UpdateFpStatusFromVotingPower_status hasPower (sfp : StoredFinalityProvider) fp d s d'
    (Hwf : store_wf d) (Hst : stored d (SerializePubKey (sfp_BtcPk sfp)) fp)
    (Hsame : fp_Status fp = sfp_Status sfp)
    (Hrun : UpdateFpStatusFromVotingPower hasPower sfp d = (Ok (s, None), d')) :
  s = match sfp_Status sfp, hasPower with
      | SLASHED, _ => SLASHED
      | _, true => ACTIVE
      | ACTIVE, false => INACTIVE
      | st, false => st
      end
  ∧ stored d' (SerializePubKey (sfp_BtcPk sfp)) (with_status fp s).
Proof.
  assert (∀ st d1, SetFpStatus (sfp_BtcPk sfp) st d = (Ok (), d1) →
            stored d1 (SerializePubKey (sfp_BtcPk sfp)) (with_status fp st)) as Hset.
  { intros st d1 [(fp0 & Hst0 & Hnew) _]%SetFpStatus_stored; [|done].
    by rewrite (stored_det _ _ _ _ Hst0 Hst) in Hnew. }
  assert (with_status fp (sfp_Status sfp) = fp) as Hid by (rewrite <- Hsame; by destruct fp).
  unfold UpdateFpStatusFromVotingPower in Hrun. go_unfold.
  case_bool_decide as Hsl.
  { simplify_eq. rewrite Hsl in *. split; [by destruct hasPower|]. by rewrite Hid. }
  destruct hasPower.
  - destruct (SetFpStatus _ ACTIVE d) as [[[]|e|w] d1] eqn:E; simplify_eq.
    split; [by destruct (sfp_Status sfp)|by apply Hset].
  - case_bool_decide as Hac.
    + destruct (SetFpStatus _ INACTIVE d) as [[[]|e|w] d1] eqn:E; simplify_eq.
      rewrite Hac. split; [done|by apply Hset].
    + simplify_eq. split; [by destruct (sfp_Status sfp)|]. by rewrite Hid.
Qed.
End properties.

(** ** A concrete store, for the witnesses *)

#[export] Instance CommissionInfo_eq_dec : EqDecision CommissionInfo.
Proof. solve_decision. Defined.
#[export] Program Instance CommissionInfo_countable : Countable CommissionInfo :=
  inj_countable' (λ c, (ci_MaxRate c, ci_MaxChangeRate c, ci_UpdateTime c))
    (λ '(a, b, c), mkCommissionInfo a b c) _.
Next Obligation. by intros []. Qed.
Definition status_N (s : FinalityProviderStatus) : N :=
  match s with REGISTERED => 0 | ACTIVE => 1 | INACTIVE => 2 | SLASHED => 3 | JAILED => 4 end.
Definition N_status (n : N) : FinalityProviderStatus :=
  match n with 0 => REGISTERED | 1 => ACTIVE | 2 => INACTIVE | 3 => SLASHED | _ => JAILED end%N.
#[export] Program Instance FinalityProviderStatus_countable : Countable FinalityProviderStatus :=
  inj_countable' status_N N_status _.
Next Obligation. by intros []. Qed.
#[export] Instance FinalityProvider_eq_dec : EqDecision FinalityProvider.
Proof. solve_decision. Defined.
#[export] Program Instance FinalityProvider_countable : Countable FinalityProvider :=
  inj_countable'
    (λ f, ((fp_FpAddr f, fp_BtcPk f, fp_Description f, fp_Commission f),
           (fp_ChainId f, fp_LastVotedHeight f, fp_Status f, fp_CommissionInfo f)))
    (λ '((a, b, c, d), (e, f, g, h)), mkFinalityProvider a b c d e f g h) _.
Next Obligation. by intros []. Qed.
#[export] Instance Description_eq_dec : EqDecision Description.
Proof. solve_decision. Defined.
#[export] Program Instance Description_countable : Countable Description :=
  inj_countable' (λ d, (Moniker d, Identity d, Website d, SecurityContact d, Details d))
    (λ '(a, b, c, d, e), mkDescription a b c d e) _.
Next Obligation. by intros []. Qed.

Module FpToy.
Export ToyInstances.
#[export] Instance fp_codec : Codec FinalityProvider := toy_codec.
#[export] Instance fp_codec_laws : CodecLaws FinalityProvider := toy_codec_laws.
#[export] Instance des_codec : Codec Description := toy_codec.
#[export] Instance des_codec_laws : CodecLaws Description := toy_codec_laws.

Definition toy_key : @PublicKey toy_crypto := true.
Definition toy_des : Description := mkDescription "fp" "" "" "" "".
Definition toy_com : CommissionRates := mkCommissionRates _ 1%N 2%N 3%N.
Definition toy_fp_db0 : MapDb.db := (fp_initBuckets MapDb.empty).2.
Definition toy_fp_db : MapDb.db :=
  (CreateFinalityProvider 7 "bbn1" toy_key toy_des toy_com "bbn-1" toy_fp_db0).2.
Definition toy_fp : FinalityProvider :=
  {| fp_FpAddr := "bbn1"; fp_BtcPk := toy_pk true;
     fp_Description := bits_of (encode toy_des); fp_Commission := toy_dec_string 1;
     fp_ChainId := "bbn-1"; fp_LastVotedHeight := 0; fp_Status := REGISTERED;
     fp_CommissionInfo := Some (mkCommissionInfo (toy_dec_string 2) (toy_dec_string 3) 7) |}.
Definition toy_sfp : StoredFinalityProvider :=
  mkStoredFp _ _ "bbn1" true toy_des 1%N "bbn-1" 0 REGISTERED
    (Some (mkCommissionInfo (toy_dec_string 2) (toy_dec_string 3) 7)).
Definition toy_fps : FpState MapDb.db := mkFpState toy_sfp toy_fp_db.

Lemma toy_fp_wf0 : store_wf toy_fp_db0.
Proof. intros k fp (b & Hb & _). vm_compute in Hb. done. Qed.
Lemma toy_fp_wf : store_wf toy_fp_db.
Proof. apply (apply_op_le (OpCreate 7 "bbn1" toy_key toy_des toy_com "bbn-1")), toy_fp_wf0. Qed.
Lemma toy_fp_stored : stored toy_fp_db (toy_pk true) toy_fp.
Proof. exists (bits_of (encode toy_fp)). split; vm_eq. Qed.
End FpToy.

(** ** Witnesses *)

Module FpStoreWitness.
Import FpToy.

Lemma CreateFinalityProvider_roundtrip_witness :
  GetFinalityProvider true toy_fp_db = (Ok toy_sfp, toy_fp_db).
Proof.
  destruct (CreateFinalityProvider_roundtrip 7 "bbn1" toy_key toy_des toy_com "bbn-1" toy_fp_db0 toy_fp_db)
    as [(pk' & Hpk & _ & Hget) _]; [vm_eq..|].
  assert (pk' = true) as -> by (vm_compute in Hpk; by injection Hpk as <-). exact Hget.
Defined.

Definition w_ops : list fp_op :=
  [OpSetLastVotedHeight toy_key 5; OpSetStatus toy_key ACTIVE; OpSetLastVotedHeight toy_key 3].

Lemma fpstore_history_witness :
  ∃ fp', stored (apply_ops w_ops toy_fp_db) (toy_pk true) fp' ∧ (0 ≤ fp_LastVotedHeight fp')%N.
Proof.
  destruct (fpstore_history w_ops toy_fp_db toy_fp_wf) as [_ Hk].
  destruct (Hk _ _ toy_fp_stored) as (fp' & Hs & _ & _ & _ & Hh). by exists fp'.
Defined.

Lemma SetLastVotedHeight_max_witness :
  let fps' := (SetLastVotedHeight 5 toy_fps).2 in
  GetLastVotedHeight fps' = 5%N ∧ stored (fps_s fps') (toy_pk true) (with_height toy_fp 5).
Proof.
  intros fps'. apply (SetLastVotedHeight_max 5 toy_fps fps' toy_fp).
  - apply toy_fp_wf.
  - apply toy_fp_stored.
  - vm_eq.
Defined.

Lemma UpdateFpStatusFromVotingPower_status_witness :
  let d' := (UpdateFpStatusFromVotingPower true toy_sfp toy_fp_db).2 in
  ACTIVE = ACTIVE ∧ stored d' (toy_pk true) (with_status toy_fp ACTIVE).
Proof.
  intros d'.
  apply (UpdateFpStatusFromVotingPower_status true toy_sfp toy_fp toy_fp_db ACTIVE d').
  - apply toy_fp_wf.
  - apply toy_fp_stored.
  - done.
  - vm_eq.
Defined.
End FpStoreWitness.
