(* ===== verification/ChainApi.v ===== *)
(** * Blocks, commitments and the consumer chain interface
      (src/types, src/clientcontroller/api, src/clientcontroller/retry_utils.go)

    What the finality provider asks of the consumer chain, as a class;
    [BbnConsumer.v] implements it for Babylon. *)

From Stdlib Require Import NArith Lia.
From stdpp Require Import base gmap strings list.
From S2P Require Import Prelude Kvdb External Toy EotsApi.

(** ** types/blockinfo.go *)

Record BlockInfo := NewBlockInfo {
  blk_height : N;
  blk_Hash : bytes;
  blk_Finalized : bool;
}.

Definition MsgToSign `{BigEndian} (b : BlockInfo) (signCtx : string) : bytes :=
  if (String.length signCtx =? 0)%nat then Uint64ToBigEndian (blk_height b) ++ blk_Hash b
  else bytes_of_string signCtx ++ (Uint64ToBigEndian (blk_height b) ++ blk_Hash b).

(** ** types/txresponse.go *)

(** [babylonclient.RelayerEvent] *)
Record RelayerEvent := mkRelayerEvent { EventType : string; Attributes : gmap string string }.
Record TxResponse := mkTxResponse { TxHash : string; Events : list RelayerEvent }.

(** ** types/pub_rand_commit.go *)

(** [types.PubRandCommit]: what its getters return *)
Record PubRandCommit := mkPubRandCommit {
  GetStartHeight : N;
  GetEndHeight : N;
  GetNumPubRand : N;
  GetCommitment : bytes;
  (** [Validate()] *)
  prc_Validate : outcome unit;
}.

Definition GetPubRandCommitAndProofs `{Crypto} `{Merkle} (pubRandList : list FieldVal)
    : bytes * list Proof :=
  ProofsFromByteSlices (FieldVal_Bytes <$> pubRandList).

(** ** clientcontroller/babylon/pubrand.go *)

Module BabylonPubRandCommit.
Record t := mk { StartHeight : N; NumPubRand : N; EpochNum : N; Commitment : bytes }.

Definition GetEndHeight (b : t) : N := u64_sub (u64_add (StartHeight b) (NumPubRand b)) 1.
Definition Validate (b : t) : outcome unit :=
  if (NumPubRand b <? 1)%N then
    Err (EText ("NumPubRand must be >= 1, got " +:+ fmt_d (NumPubRand b)))
  else Ok ().
Definition to_commit (b : t) : PubRandCommit :=
  mkPubRandCommit (StartHeight b) (GetEndHeight b) (NumPubRand b) (Commitment b) (Validate b).
End BabylonPubRandCommit.

(** ** clientcontroller/api/interface.go *)

Record SubmitBatchFinalitySigsRequest `{Crypto} := mkSubmitReq {
  sub_FpPk : PublicKey;
  sub_Blocks : list BlockInfo;
  sub_PubRandList : list FieldVal;
  sub_ProofList : list bytes;
  sub_Sigs : list ModNScalar;
}.

Record QueryBlocksRequest := mkQueryBlocksRequest {
  qb_StartHeight : N;
  qb_EndHeight : N;
  qb_Limit : N;
}.

Record CommitPubRandListRequest `{Crypto} := mkCommitReq {
  com_FpPk : PublicKey;
  com_StartHeight : N;
  com_NumPubRand : N;
  com_Commitment : bytes;
  com_Sig : SchnorrSignature;
}.

Record FinalityProviderStatusResponse := mkStatusResponse { sr_Slashed : bool; sr_Jailed : bool }.

(** [RandomnessCommitter], [BlockQuerier] and [FinalityOperator].  A nil
    response is [None]. *)
Class ConsumerController `{Crypto} (C : Type) := {
  cc_CommitPubRandList : CommitPubRandListRequest → M C (option TxResponse);
  cc_QueryLastPubRandCommit : PublicKey → M C (option PubRandCommit);
  cc_QueryPubRandCommitList : PublicKey → N → M C (list PubRandCommit);
  cc_QueryLatestFinalizedBlock : M C (option BlockInfo);
  cc_QueryBlock : N → M C BlockInfo;
  cc_QueryBlocks : QueryBlocksRequest → M C (list BlockInfo);
  cc_QueryLatestBlock : M C (option BlockInfo);
  cc_QueryFinalityActivationBlockHeight : M C N;
  cc_SubmitBatchFinalitySigs : SubmitBatchFinalitySigsRequest → M C (option TxResponse);
  cc_UnjailFinalityProvider : PublicKey → M C (option TxResponse);
  cc_QueryFinalityProviderHasPower : PublicKey → N → M C bool;
  cc_QueryFinalityProviderStatus : PublicKey → M C FinalityProviderStatusResponse;
  cc_QueryFinalityProviderHighestVotedHeight : PublicKey → M C N;
}.

(** *** The Babylon side *)

Record RegisterFinalityProviderRequest `{Crypto} `{Sdk} := mkRegisterReq {
  reg_ChainID : string;
  reg_FpPk : PublicKey;
  reg_Pop : bytes;
  reg_Commission : CommissionRates;
  reg_Description : bytes;
}.

Record EditFinalityProviderRequest `{Crypto} `{Sdk} := mkEditReq {
  edit_FpPk : PublicKey;
  edit_Commission : option LegacyDec;
  edit_Description : bytes;
}.

(** [btcstakingtypes.FinalityProviderResponse]; a nil pointer is [None], the
    commission information is the maximal rate and the maximal change. *)
Record FinalityProviderResponse `{Sdk} := mkFpResponse {
  fpr_Addr : string;
  fpr_BtcPk : bytes;
  fpr_Description : option Description;
  fpr_Commission : option LegacyDec;
  fpr_CommissionInfo : option (LegacyDec * LegacyDec);
  fpr_Height : N;
  fpr_SlashedBtcHeight : N;
  fpr_Jailed : bool;
  fpr_HighestVotedHeight : N;
}.

(** [btcstakingtypes.MsgEditFinalityProvider] *)
Record EditFpMsg `{Sdk} := mkEditFpMsg {
  efm_Addr : string;
  efm_BtcPk : bytes;
  efm_Description : Description;
  efm_Commission : option LegacyDec;
}.

Class BabylonController `{Crypto} `{Sdk} (B : Type) := {
  bcc_RegisterFinalityProvider : RegisterFinalityProviderRequest → M B (option TxResponse);
  bcc_QueryFinalityProvider : PublicKey → M B FinalityProviderResponse;
  bcc_EditFinalityProvider : EditFinalityProviderRequest → M B EditFpMsg;
}.

(** The service's own [proto.Description], which has the fields of the chain's. *)
Class ServiceDescription := {
  sd_marshal : Description → outcome bytes;
  sd_unmarshal : bytes → outcome Description;
}.
Class ServiceDescriptionLaws `{ServiceDescription} : Prop :=
  sd_roundtrip d b : sd_marshal d = Ok b → sd_unmarshal b = Ok d.

(** ** clientcontroller/retry_utils.go *)

(** The descriptions of the errors of babylon's btcstaking and finality
    modules. *)
Class BabylonErrors := {
  ErrBlockNotFound : string;
  ErrInvalidFinalitySig : string;
  ErrNoPubRandYet : string;
  ErrPubRandNotFound : string;
  ErrTooFewPubRand : string;
  ErrInvalidPubRand : string;
  ErrDuplicatedFinalitySig : string;
  ErrSigHeightOutdated : string;
  ErrVotingPowerTableNotUpdated : string;
  ErrFpAlreadySlashed : string;
  ErrFpAlreadyJailed : string;
  ErrFpNotFound : string;
  ErrFpNotJailed : string;
}.

Definition errorContained (err : error) (errList : list string) : bool :=
  existsb (λ e, Contains (Error err) e) errList.

Definition unrecoverableErrors `{BabylonErrors} : list string :=
  [ErrBlockNotFound; ErrInvalidFinalitySig; ErrNoPubRandYet; ErrPubRandNotFound;
   ErrTooFewPubRand; ErrFpAlreadySlashed; ErrFpAlreadyJailed].

Definition IsUnrecoverable `{BabylonErrors} (err : error) : bool :=
  errorContained err unrecoverableErrors.

Definition Expected (err : option error) : error :=
  match err with Some e => EExpected e | None => EExpectedNil end.

(** [errors.Is(err, ExpectedError{})] *)
Fixpoint IsExpected (err : error) : bool :=
  match err with
  | EExpected _ | EExpectedNil => true
  | EWrap _ e _ => IsExpected e
  | EWrap2 e1 _ e2 | EJoin e1 e2 => IsExpected e1 || IsExpected e2
  | EVar _ _ | EText _ | EWrapNil _ | EStatus _ _ => false
  end.

(** ** finality-provider/service/eots_manager_adapter.go *)

(** Writing to the hasher never fails. *)
Definition getHashToSignForCommitPubRandWithContext `{BigEndian} `{Merkle}
    (signingContext : string) (startHeight numPubRand : N) (commitment : bytes) : bytes :=
  tmhash_Sum ((if (0 <? String.length signingContext)%nat then bytes_of_string signingContext else [])
                ++ Uint64ToBigEndian startHeight ++ Uint64ToBigEndian numPubRand ++ commitment).

(** finality-provider/service/errors.go *)
Definition ErrFinalityProviderShutDown : error :=
  EVar "ErrFinalityProviderShutDown" "the finality provider instance is shutting down".
Definition ErrFinalityProviderJailed : error :=
  EVar "ErrFinalityProviderJailed" "the finality provider instance is jailed".
Definition ErrFinalityProviderSlashed : error :=
  EVar "ErrFinalityProviderSlashed" "the finality provider instance is slashed".
Definition ErrFailedPrecondition : error :=
  EVar "ErrFailedPrecondition" "FailedPrecondition error".
Definition failedPreconditionErrStr : string := "FailedPrecondition".

(** ** A concrete chain, for the witnesses *)

(** [tc_fail] submissions fail before one is accepted; [tc_log] keeps those
    that were accepted. *)
Record toy_consumer `{Crypto} := mkToyConsumer {
  tc_tip : N;
  tc_power : list N;
  tc_commits : list PubRandCommit;
  tc_activation : N;
  tc_finalized : N;
  tc_highest_voted : N;
  tc_fail : nat;
  tc_log : list SubmitBatchFinalitySigsRequest;
}.

Module ChainToy.
Export ToyInstances.
#[export] Instance toy_errors : BabylonErrors := {|
  ErrBlockNotFound := "block is not found";
  ErrInvalidFinalitySig := "finality signature is not valid";
  ErrNoPubRandYet := "the finality provider has not committed any public randomness yet";
  ErrPubRandNotFound := "public randomness is not found";
  ErrTooFewPubRand := "the request contains too few public randomness";
  ErrInvalidPubRand := "the public randomness list is invalid";
  ErrDuplicatedFinalitySig := "the finality signature has been submitted before";
  ErrSigHeightOutdated := "the voting block is already finalized and timestamped";
  ErrVotingPowerTableNotUpdated := "voting power table has not been updated";
  ErrFpAlreadySlashed := "the finality provider has already been slashed";
  ErrFpAlreadyJailed := "the finality provider has already been jailed";
  ErrFpNotFound := "the finality provider is not found";
  ErrFpNotJailed := "the finality provider is not jailed";
|}.

Definition toy_block (tc : toy_consumer) (h : N) : BlockInfo :=
  NewBlockInfo h [Byte.x07] (h <=? tc_finalized tc)%N.

#[export] Instance toy_controller : ConsumerController toy_consumer := {|
  cc_CommitPubRandList req tc :=
    (Ok (Some (mkTxResponse "commit" [])),
     mkToyConsumer _ (tc_tip tc) (tc_power tc)
       (tc_commits tc ++ [mkPubRandCommit (com_StartHeight req)
          (com_StartHeight req + com_NumPubRand req - 1) (com_NumPubRand req) (com_Commitment req) (Ok ())])
       (tc_activation tc) (tc_finalized tc) (tc_highest_voted tc) (tc_fail tc) (tc_log tc));
  cc_QueryLastPubRandCommit _ tc := (Ok (last (tc_commits tc)), tc);
  cc_QueryPubRandCommitList _ h tc :=
    (Ok (filter (λ c, (h ≤ GetEndHeight c)%N) (tc_commits tc)), tc);
  cc_QueryLatestFinalizedBlock tc :=
    (Ok (if (tc_finalized tc =? 0)%N then None else Some (toy_block tc (tc_finalized tc))), tc);
  cc_QueryBlock h tc :=
    (if (h <=? tc_tip tc)%N then Ok (toy_block tc h) else Err (EText "block is not found"), tc);
  cc_QueryBlocks req tc :=
    (Ok ((λ i : nat, toy_block tc (qb_StartHeight req + N.of_nat i))
           <$> seq 0 (N.to_nat (N.min (qb_EndHeight req + 1 - qb_StartHeight req) (qb_Limit req)))), tc);
  cc_QueryLatestBlock tc := (Ok (Some (toy_block tc (N.min (tc_tip tc) (MaxUint64 - 1)))), tc);
  cc_QueryFinalityActivationBlockHeight tc := (Ok (tc_activation tc), tc);
  cc_SubmitBatchFinalitySigs req tc :=
    match tc_fail tc with
    | S n => (Err (EText "timeout"),
              mkToyConsumer _ (tc_tip tc) (tc_power tc) (tc_commits tc) (tc_activation tc)
                (tc_finalized tc) (tc_highest_voted tc) n (tc_log tc))
    | O => (Ok (Some (mkTxResponse "vote" [])),
            mkToyConsumer _ (tc_tip tc) (tc_power tc) (tc_commits tc) (tc_activation tc)
              (tc_finalized tc) (tc_highest_voted tc) 0 (tc_log tc ++ [req]))
    end;
  cc_UnjailFinalityProvider _ tc := (Ok (Some (mkTxResponse "unjail" [])), tc);
  cc_QueryFinalityProviderHasPower _ h tc := (Ok (bool_decide (h ∈ tc_power tc)), tc);
  cc_QueryFinalityProviderStatus _ tc := (Ok (mkStatusResponse false (bool_decide (tc_power tc = []))), tc);
  cc_QueryFinalityProviderHighestVotedHeight _ tc := (Ok (tc_highest_voted tc), tc);
|}.

Definition toy_tc (power : list N) (fail : nat) : toy_consumer :=
  mkToyConsumer _ 120 power [] 5 0 0 fail [].
End ChainToy.
