(* ===== verification/FinalitySubmitter.v ===== *)
(** * The finality signature submitter
      (src/finality-provider/service/finality_submitter.go)

    Filters the blocks that can be voted for, has the EOTS manager sign them
    in one batch, submits the votes to the consumer chain and retries.  The
    state has one part per collaborator, so that a call of one of them leaves
    the others alone by construction. *)

From Stdlib Require Import NArith Lia.
From stdpp Require Import base gmap strings list sorting.
From S2P Require Import Prelude Kvdb External Toy EotsStore EotsApi LocalManager FpStore ChainApi.

(** [FinalitySubmitterConfig]; the retry interval only sets the timer *)
Record FinalitySubmitterConfig := mkSubmitterCfg {
  MaxSubmissionRetries : N;
  ContextSigningHeight : N;
}.

(** [DefaultFinalitySubmitter]: the provider's state, the EOTS manager, the
    consumer chain and the proof store *)
Record DefaultFinalitySubmitter (F E C P : Type) := mkDS {
  ds_State : F;
  ds_Em : E;
  ds_ConsumerCtrl : C;
  ds_Proofs : P;
}.
Arguments mkDS {F E C P}.
Arguments ds_State {F E C P}.
Arguments ds_Em {F E C P}.
Arguments ds_ConsumerCtrl {F E C P}.
Arguments ds_Proofs {F E C P}.


Section submitter.
Context `{Crypto} `{BigEndian} `{Retry} `{BabylonErrors}.
Context {F E C P : Type} `{!FinalityProviderState F} `{!EOTSManager E} `{!ConsumerController C}.
(** [ProofListGetterFunc] *)
Context (ProofListGetterFunc : N → N → M P (list bytes)).
Context (Cfg : FinalitySubmitterConfig).
Local Abbreviation ds := (DefaultFinalitySubmitter F E C P).

Definition on_State {A} (m : M F A) : M ds A := λ d,
  let '(r, f) := m (ds_State d) in (r, mkDS f (ds_Em d) (ds_ConsumerCtrl d) (ds_Proofs d)).
Definition on_Em {A} (m : M E A) : M ds A := λ d,
  let '(r, e) := m (ds_Em d) in (r, mkDS (ds_State d) e (ds_ConsumerCtrl d) (ds_Proofs d)).
Definition on_Ctrl {A} (m : M C A) : M ds A := λ d,
  let '(r, c) := m (ds_ConsumerCtrl d) in (r, mkDS (ds_State d) (ds_Em d) c (ds_Proofs d)).
Definition on_Proofs {A} (m : M P A) : M ds A := λ d,
  let '(r, p) := m (ds_Proofs d) in (r, mkDS (ds_State d) (ds_Em d) (ds_ConsumerCtrl d) p).

Definition ds_GetBtcPkBIP340 (d : ds) : bytes := BIP340FromBTCPK (st_GetBtcPk (ds_State d)).

Definition MustSetLastVotedHeight (height : N) : M ds unit :=
  r ← go_try (on_State (st_SetLastVotedHeight height));
  match r with
  | inr _ => mret ()
  | inl err =>
      if Contains (Error err) "database not open" then mret ()
      else go_crash "failed to update state after finality signature submitted"
  end.

Definition mustSetStatus (s : FinalityProviderStatus) : M ds unit :=
  r ← go_try (on_State (st_SetStatus s));
  match r with
  | inr _ => mret ()
  | inl _ => go_crash "failed to set finality-provider status"
  end.

(** ** Filtering *)

Definition getVotingPowerWithRetry (height : N) : M ds bool :=
  d ← go_get;
  go_wrap "failed to query the voting power"
    (retry_Do false RtyAttNum
       (go_wrap "failed to query the voting power"
          (on_Ctrl (cc_QueryFinalityProviderHasPower (st_GetBtcPk (ds_State d)) height)))).

(** The loop of [FilterBlocksForVoting]: [hasPower] of the last block that was
    queried, and the blocks kept. *)
Fixpoint filterLoop (hasPower : bool) (processedBlocks : list BlockInfo) (blocks : list BlockInfo)
    : M ds (bool * list BlockInfo) :=
  match blocks with
  | [] => mret (hasPower, processedBlocks)
  | blk :: rest =>
      d ← go_get;
      if (blk_height blk <=? st_GetLastVotedHeight (ds_State d))%N then
        filterLoop hasPower processedBlocks rest
      else
        hasPower' ← go_wrap ("failed to get voting power for height " +:+ fmt_d (blk_height blk))
                      (getVotingPowerWithRetry (blk_height blk));
        if negb hasPower' then filterLoop hasPower' processedBlocks rest
        else filterLoop hasPower' (processedBlocks ++ [blk]) rest
  end.

(** The status update at the end of [FilterBlocksForVoting]. *)
Definition updateStatus (hasPower : bool) : M ds unit :=
  d ← go_get;
  _ ← (if hasPower && negb (bool_decide (st_GetStatus (ds_State d) = ACTIVE))
       then mustSetStatus ACTIVE else mret ());
  d ← go_get;
  if negb hasPower && bool_decide (st_GetStatus (ds_State d) = ACTIVE)
  then mustSetStatus INACTIVE else mret ().

Definition FilterBlocksForVoting (blocks : list BlockInfo) : M ds (list BlockInfo) :=
  '(hasPower, processedBlocks) ← filterLoop false [] blocks;
  _ ← updateStatus hasPower;
  mret processedBlocks.

(** ** Signing *)

Definition sign_error {A} (err : error) : M ds A :=
  if Contains (Error err) failedPreconditionErrStr then go_fail ErrFailedPrecondition
  else go_fail (wrapf "failed to sign EOTS" err).

Definition SignFinalitySig (b : BlockInfo) : M ds bytes :=
  d ← go_get;
  r ← go_try (on_Em (em_SignEOTS (ds_GetBtcPkBIP340 d) (st_GetChainID (ds_State d))
                       (MsgToSign b "") (blk_height b)));
  match r with
  | inr sig => mret (NewSchnorrEOTSSigFromModNScalar sig)
  | inl err => sign_error err
  end.

Definition signRequests (blocks : list BlockInfo) : list SignDataRequest :=
  (λ b, mkSignDataRequest (MsgToSign b "") (blk_height b)) <$> blocks.

(** A later response for a height overwrites an earlier one. *)
Definition sigMap (resp : list SignDataResponse) : gmap N bytes :=
  fold_left (λ m sig, <[resp_Height sig := NewSchnorrEOTSSigFromModNScalar (resp_Signature sig)]> m)
    resp ∅.

Definition SignFinalitySigBatch (blocks : list BlockInfo) : M ds (gmap N bytes) :=
  d ← go_get;
  r ← go_try (on_Em (em_SignBatchEOTS
        {| sbr_UID := ds_GetBtcPkBIP340 d; sbr_ChainID := st_GetChainID (ds_State d);
           sbr_SignRequest := signRequests blocks |}));
  match r with
  | inr resp => mret (sigMap resp)
  | inl err => sign_error err
  end.

Definition GetPubRandList (startHeight numPubRand : N) : M ds (list FieldVal) :=
  d ← go_get;
  go_wrap "failed to create public randomness list"
    (on_Em (em_CreateRandomnessPairList (ds_GetBtcPkBIP340 d) (st_GetChainID (ds_State d))
              startHeight numPubRand [])).

(** ** One submission *)

(** The loop that drops the blocks without a signature: block, randomness,
    proof and signature of each kept block. *)
Fixpoint validLoop (batchSigMap : gmap N bytes) (prList : list FieldVal)
    (proofBytesList : list bytes) (i : nat) (blocks : list BlockInfo)
    : outcome (list (BlockInfo * FieldVal * bytes * ModNScalar)) :=
  match blocks with
  | [] => Ok []
  | block :: rest =>
      match batchSigMap !! blk_height block with
      | Some sig =>
          match prList !! i, proofBytesList !! i with
          | Some pr, Some proof =>
              l ← validLoop batchSigMap prList proofBytesList (S i) rest;
              Ok ((block, pr, proof, ToModNScalar sig) :: l)
          | _, _ => Crash "index out of range"
          end
      | None => validLoop batchSigMap prList proofBytesList (S i) rest
      end
  end.

Definition entries_request (pk : PublicKey) (l : list (BlockInfo * FieldVal * bytes * ModNScalar))
    : SubmitBatchFinalitySigsRequest :=
  mkSubmitReq _ pk ((λ x, x.1.1.1) <$> l) ((λ x, x.1.1.2) <$> l) ((λ x, x.1.2) <$> l)
    ((λ x, x.2) <$> l).

Definition proof_error (h : N) (err : error) : error :=
  EWrap ("failed to get public randomness inclusion proof for height " +:+ fmt_d h +:+ ": ") err
    (String (Ascii.ascii_of_N 10) "please recover the randomness proof from db").

(** Up to the construction of the request; [None]: every block was skipped. *)
Definition buildSubmission (blocks : list BlockInfo)
    : M ds (option SubmitBatchFinalitySigsRequest) :=
  match blocks with
  | [] => go_fail (EText "should not submit batch finality signature with zero block")
  | b0 :: _ =>
      if (MaxUint32 <? lenN blocks)%N then
        go_fail (EText "should not submit batch finality signature with too many blocks")
      else
        let numPubRand := lenN blocks in
        prList ← go_wrap ("failed to get public randomness for height " +:+ fmt_d (blk_height b0))
                   (GetPubRandList (blk_height b0) numPubRand);
        proofBytesList ← go_map_err (proof_error (blk_height b0))
                           (on_Proofs (ProofListGetterFunc (blk_height b0) numPubRand));
        batchSigMap ← SignFinalitySigBatch blocks;
        valid ← go_lift (validLoop batchSigMap prList proofBytesList 0 blocks);
        match valid with
        | [] => mret None
        | _ => d ← go_get; mret (Some (entries_request (st_GetBtcPk (ds_State d)) valid))
        end
  end.

Definition submitBatchFinalitySignaturesOnce (blocks : list BlockInfo) : M ds (option TxResponse) :=
  req ← buildSubmission blocks;
  match req with
  | None => mret None
  | Some req =>
      r ← go_try (on_Ctrl (cc_SubmitBatchFinalitySigs req));
      match r with
      | inl err =>
          if Contains (Error err) "jailed" then go_fail ErrFinalityProviderJailed
          else if Contains (Error err) "slashed" then go_fail ErrFinalityProviderSlashed
          else go_fail (wrapf "failed to submit finality signature to the consumer chain" err)
      | inr None => go_crash "nil pointer dereference"
      | inr (Some res) =>
          if bool_decide (TxHash res = "") then mret (Some res)
          else
            match last blocks with
            | None => go_crash "index out of range"
            | Some highBlock =>
                _ ← MustSetLastVotedHeight (blk_height highBlock);
                mret (Some res)
            end
      end
  end.

Definition CheckBlockFinalization (height : N) : M ds bool :=
  b ← go_wrap ("failed to query block at height " +:+ fmt_d height) (on_Ctrl (cc_QueryBlock height));
  mret (blk_Finalized b).

(** ** The retry loop

    [timer i] tells whether, after the [i]-th failed cycle, the timer fired
    before the context was cancelled.  [None]: the fuel ran out. *)
Fixpoint submitLoop (fuel : nat) (timer : nat → bool) (i : nat) (failedCycles targetHeight : N)
    (blocks : list BlockInfo) (d : ds) : option (outcome (option TxResponse) * ds) :=
  match fuel with
  | O => None
  | S fuel' =>
      match submitBatchFinalitySignaturesOnce blocks d with
      | (Ok res, d') => Some (Ok res, d')
      | (Crash w, d') => Some (Crash w, d')
      | (Err err, d') =>
          if IsUnrecoverable err then Some (Err err, d')
          else if IsExpected err then Some (Ok None, d')
          else
            let failedCycles' := u32_add failedCycles 1 in
            if (MaxSubmissionRetries Cfg <? failedCycles')%N then
              Some (Err (wrapf "reached max failed cycles with err" err), d')
            else
              match CheckBlockFinalization targetHeight d' with
              | (Err e, d1) =>
                  Some (Err (wrapf ("failed to query block finalization at height "
                                      +:+ fmt_d targetHeight) e), d1)
              | (Crash w, d1) => Some (Crash w, d1)
              | (Ok true, d1) => Some (Ok None, d1)
              | (Ok false, d1) =>
                  if timer i then submitLoop fuel' timer (S i) failedCycles' targetHeight blocks d1
                  else Some (Err ErrFinalityProviderShutDown, d1)
              end
      end
  end.

Definition SubmitBatchFinalitySignatures (fuel : nat) (timer : nat → bool)
    (blocks : list BlockInfo) (d : ds) : option (outcome (option TxResponse) * ds) :=
  if (length blocks =? 0)%nat then Some (Err (EText "cannot send signatures for empty blocks"), d)
  else
    match FilterBlocksForVoting blocks d with
    | (Err e, d') => Some (Err (wrapf "failed to filter blocks for voting" e), d')
    | (Crash w, d') => Some (Crash w, d')
    | (Ok blocks', d') =>
        match last blocks' with
        | None => Some (Ok None, d')
        | Some target => submitLoop fuel timer 0 0 (blk_height target) blocks' d'
        end
    end.
End submitter.

(** ** Lemmas *)

Section lemmas.
Context `{CryptoLaws} `{BigEndianLaws} `{RetryLaws} `{BabylonErrors}.
Context {F E C P : Type} `{!FinalityProviderState F} `{!FinalityProviderStateLaws F}
  `{!EOTSManager E} `{!ConsumerController C}.
Context (Getter : N → N → M P (list bytes)) (Cfg : FinalitySubmitterConfig).
Local Abbreviation ds := (DefaultFinalitySubmitter F E C P).
Implicit Types d : ds.

(** The provider's state is untouched; so is everything but the chain. *)
Definition same_State d d' : Prop := ds_State d' = ds_State d.
Definition only_Ctrl d d' : Prop :=
  ds_State d' = ds_State d ∧ ds_Em d' = ds_Em d ∧ ds_Proofs d' = ds_Proofs d.

#[export] Instance same_State_preorder : PreOrder same_State.
Proof. split; [done|]. intros ??? E1 E2. unfold same_State in *. congruence. Qed.
#[export] Instance only_Ctrl_preorder : PreOrder only_Ctrl.
Proof.
  split; [done|]. intros ??? (?&?&?) (?&?&?). unfold only_Ctrl. split_and!; congruence.
Qed.

Lemma on_Em_State {A} (m : M E A) : preserves same_State (on_Em (F:=F) (C:=C) (P:=P) m).
Proof. intros d r d'. unfold on_Em. destruct (m _). by intros [= _ <-]. Qed.
Lemma on_Ctrl_State {A} (m : M C A) : preserves same_State (on_Ctrl (F:=F) (E:=E) (P:=P) m).
Proof. intros d r d'. unfold on_Ctrl. destruct (m _). by intros [= _ <-]. Qed.
Lemma on_Proofs_State {A} (m : M P A) : preserves same_State (on_Proofs (F:=F) (E:=E) (C:=C) m).
Proof. intros d r d'. unfold on_Proofs. destruct (m _). by intros [= _ <-]. Qed.
Lemma on_Ctrl_only {A} (m : M C A) : preserves only_Ctrl (on_Ctrl (F:=F) (E:=E) (P:=P) m).
Proof. intros d r d'. unfold on_Ctrl. destruct (m _). by intros [= _ <-]. Qed.
Hint Resolve on_Em_State on_Ctrl_State on_Proofs_State on_Ctrl_only : preserves.

Lemma on_Em_inv {A} (m : M E A) d r d' :
  on_Em m d = (r, d') →
  m (ds_Em d) = (r, ds_Em d') ∧ ds_State d' = ds_State d.
Proof. unfold on_Em. destruct (m _) as [r1 e] eqn:Em. by intros [= <- <-]. Qed.
Lemma on_Ctrl_inv {A} (m : M C A) d r d' :
  on_Ctrl m d = (r, d') → m (ds_ConsumerCtrl d) = (r, ds_ConsumerCtrl d').
Proof. unfold on_Ctrl. destruct (m _) as [r1 c] eqn:Em. by intros [= <- <-]. Qed.
Lemma on_State_inv {A} (m : M F A) d r d' :
  on_State m d = (r, d') → m (ds_State d) = (r, ds_State d').
Proof. unfold on_State. destruct (m _) as [r1 f] eqn:Em. by intros [= <- <-]. Qed.

(** *** Voting power *)

Lemma getVotingPower_only h : preserves only_Ctrl (getVotingPowerWithRetry (F:=F) (E:=E) (C:=C) (P:=P) h).
Proof.
  unfold getVotingPowerWithRetry. apply preserves_get_bind. intros d r d'.
  apply preserves_wrap, preserves_retry; [apply _|]. solve_preserves.
Qed.

(** the chain answered [b] to the power query *)
Definition power_answer (pk : PublicKey) (h : N) (b : bool) : Prop :=
  ∃ c c' : C, cc_QueryFinalityProviderHasPower pk h c = (Ok b, c').

Lemma getVotingPower_ok h d b d' :
  getVotingPowerWithRetry (F:=F) (E:=E) (C:=C) (P:=P) h d = (Ok b, d') →
  power_answer (st_GetBtcPk (ds_State d)) h b.
Proof.
  unfold getVotingPowerWithRetry. intros HE. erewrite go_bind_run in HE; [|reflexivity].
  apply go_wrap_ok, retry_ok in HE as (d0 & HE). apply go_wrap_ok, on_Ctrl_inv in HE.
  by eexists _, _.
Qed.

Definition votable d (b : BlockInfo) : Prop :=
  (st_GetLastVotedHeight (ds_State d) < blk_height b)%N
  ∧ power_answer (st_GetBtcPk (ds_State d)) (blk_height b) true.
Definition skippable d (b : BlockInfo) : Prop :=
  (blk_height b ≤ st_GetLastVotedHeight (ds_State d))%N
  ∨ power_answer (st_GetBtcPk (ds_State d)) (blk_height b) false.

Lemma filterLoop_ok blocks : ∀ hp acc d hp' out d',
  filterLoop hp acc blocks d = (Ok (hp', out), d') →
  only_Ctrl d d' ∧ ∃ kept, out = acc ++ kept ∧ kept `sublist_of` blocks
    ∧ Forall (votable d) kept ∧ (∀ b, b ∈ blocks → b ∈ kept ∨ skippable d b)
    ∧ (Forall (λ b, (blk_height b ≤ st_GetLastVotedHeight (ds_State d))%N) blocks →
       hp' = hp ∧ d' = d).
Proof.
  induction blocks as [|b blocks IH]; intros hp acc d hp' out d' HE; simpl in HE.
  - injection HE as <- <- <-. split; [reflexivity|]. exists [].
    split_and!; [by rewrite app_nil_r|constructor|constructor| |done].
    intros b Hb. by apply elem_of_nil in Hb.
  - erewrite go_bind_run in HE; [|reflexivity].
    destruct (_ <=? _)%N eqn:El; btests.
    + destruct (IH _ _ _ _ _ _ HE) as (Ho & kept & -> & Hsub & Hv & Hall & Hst).
      split; [done|]. exists kept. split_and!; [done|by constructor|done| |].
      * intros b' [->|Hb]%elem_of_cons; [right; by left|by apply Hall].
      * intros [_ Hs]%Forall_cons. by apply Hst.
    + inv_bind HE. pose proof (getVotingPower_only _ _ _ _ E0) as Ho1.
      apply getVotingPower_ok in E0 as Hp. pose proof Ho1 as (Es & _ & _).
      assert (∀ x, votable d x ↔ votable s x) as Hve by (intros x; unfold votable; by rewrite Es).
      assert (∀ x, skippable d x ↔ skippable s x) as Hse by (intros x; unfold skippable; by rewrite Es).
      destruct a; simpl in HE;
        destruct (IH _ _ _ _ _ _ HE) as (Ho & kept & -> & Hsub & Hv & Hall & Hst).
      * split; [by etrans|]. exists (b :: kept). split_and!.
        -- by rewrite <- app_assoc.
        -- by constructor.
        -- constructor; [by split|]. eapply Forall_impl; [exact Hv|]. intros x. by rewrite Hve.
        -- intros b' [->|Hb]%elem_of_cons; [left; by left|].
           destruct (Hall b' Hb); [left; by right|right; by apply Hse].
        -- intros [Hle _]%Forall_cons. lia.
      * split; [by etrans|]. exists kept. split_and!.
        -- done.
        -- by constructor.
        -- eapply Forall_impl; [exact Hv|]. intros x. by rewrite Hve.
        -- intros b' [->|Hb]%elem_of_cons; [right; by right|].
           destruct (Hall b' Hb); [by left|right; by apply Hse].
        -- intros [Hle _]%Forall_cons. lia.
Qed.

(** *** Status and height *)

(** pk, chain and status are untouched and the height is as given *)
Definition height_set (h : N) d d' : Prop :=
  st_GetLastVotedHeight (ds_State d') = h
  ∧ st_GetStatus (ds_State d') = st_GetStatus (ds_State d)
  ∧ st_GetBtcPk (ds_State d') = st_GetBtcPk (ds_State d)
  ∧ st_GetChainID (ds_State d') = st_GetChainID (ds_State d).

Lemma MustSetLastVotedHeight_inv h d r d' :
  MustSetLastVotedHeight (E:=E) (C:=C) (P:=P) h d = (r, d') →
  height_set h d d' ∧ ds_Em d' = ds_Em d ∧ ds_ConsumerCtrl d' = ds_ConsumerCtrl d
  ∧ ∀ e, r ≠ Err e.
Proof.
  unfold MustSetLastVotedHeight. go_unfold. unfold on_State.
  destruct (st_SetLastVotedHeight h (ds_State d)) as [r1 f] eqn:Es.
  apply st_height_set in Es as (Eh & Est & Epk & Ec).
  destruct r1 as [[]|e|w]; [|destruct (Contains _ _)|];
    intros [= <- <-]; simpl; repeat split; done.
Qed.

Lemma mustSetStatus_inv s d r d' :
  mustSetStatus (E:=E) (C:=C) (P:=P) s d = (r, d') →
  st_GetStatus (ds_State d') = s
  ∧ st_GetLastVotedHeight (ds_State d') = st_GetLastVotedHeight (ds_State d)
  ∧ st_GetBtcPk (ds_State d') = st_GetBtcPk (ds_State d)
  ∧ st_GetChainID (ds_State d') = st_GetChainID (ds_State d)
  ∧ ds_Em d' = ds_Em d ∧ ds_ConsumerCtrl d' = ds_ConsumerCtrl d ∧ ds_Proofs d' = ds_Proofs d.
Proof.
  unfold mustSetStatus. go_unfold. unfold on_State.
  destruct (st_SetStatus s (ds_State d)) as [r1 f] eqn:Es.
  apply st_status_set in Es as (Est & Eh & Epk & Ec).
  destruct r1 as [[]|e|w]; intros [= <- <-]; simpl; repeat split; done.
Qed.

(** what a status update may touch *)
Definition status_only d d' : Prop :=
  st_GetLastVotedHeight (ds_State d') = st_GetLastVotedHeight (ds_State d)
  ∧ st_GetBtcPk (ds_State d') = st_GetBtcPk (ds_State d)
  ∧ st_GetChainID (ds_State d') = st_GetChainID (ds_State d)
  ∧ ds_Em d' = ds_Em d ∧ ds_Proofs d' = ds_Proofs d.

#[export] Instance status_only_preorder : PreOrder status_only.
Proof.
  split; [done|]. intros ??? (?&?&?&?&?) (?&?&?&?&?). unfold status_only. split_and!; congruence.
Qed.

Lemma mustSetStatus_only s : preserves status_only (mustSetStatus (E:=E) (C:=C) (P:=P) s).
Proof. intros d r d' (_&?&?&?&?&_&?)%mustSetStatus_inv. by split_and!. Qed.
Lemma only_Ctrl_status d d' : only_Ctrl d d' → status_only d d'.
Proof. intros (E1 & E2 & E3). unfold status_only. by rewrite E1. Qed.
Hint Resolve mustSetStatus_only : preserves.

Lemma updateStatus_only hp : preserves status_only (updateStatus (E:=E) (C:=C) (P:=P) hp).
Proof. unfold updateStatus. solve_preserves. Qed.

Lemma filterLoop_only blocks : ∀ hp acc,
  preserves only_Ctrl (filterLoop (F:=F) (E:=E) (C:=C) (P:=P) hp acc blocks).
Proof.
  induction blocks as [|b blocks IH]; intros hp acc; simpl; [solve_preserves|].
  apply preserves_bind; [apply _|apply preserves_get; apply _|intros d].
  destruct (_ <=? _)%N; [apply IH|].
  apply preserves_bind; [apply _|apply preserves_wrap, getVotingPower_only|].
  intros []; apply IH.
Qed.

Lemma Filter_only blocks : preserves status_only (FilterBlocksForVoting (E:=E) (C:=C) (P:=P) blocks).
Proof.
  unfold FilterBlocksForVoting. apply preserves_bind; [apply _| |intros [hp out]].
  - intros d r d' HE. eapply only_Ctrl_status, filterLoop_only, HE.
  - apply preserves_bind; [apply _|apply updateStatus_only|intros _]. apply preserves_ret; apply _.
Qed.

Lemma Filter_ok blocks d kept d' :
  FilterBlocksForVoting blocks d = (Ok kept, d') →
  kept `sublist_of` blocks ∧ Forall (votable d) kept
  ∧ (∀ b, b ∈ blocks → b ∈ kept ∨ skippable d b).
Proof.
  unfold FilterBlocksForVoting. intros HE. inv_bind HE. destruct a as [hp out].
  apply filterLoop_ok in E0 as (Ho & kept' & -> & Hsub & Hv & Hall & _).
  inv_bind HE. by injection HE as <- <-.
Qed.

(** *** Building a submission *)

Lemma GetPubRandList_State h n : preserves same_State (GetPubRandList (F:=F) (E:=E) (C:=C) (P:=P) h n).
Proof. unfold GetPubRandList. solve_preserves. Qed.
Lemma SignBatch_State bs : preserves same_State (SignFinalitySigBatch (F:=F) (E:=E) (C:=C) (P:=P) bs).
Proof. unfold SignFinalitySigBatch, sign_error. solve_preserves. Qed.
Hint Resolve GetPubRandList_State SignBatch_State : preserves.

Lemma build_State bs : preserves same_State (buildSubmission (F:=F) (E:=E) (C:=C) Getter bs).
Proof. unfold buildSubmission. solve_preserves. Qed.

Lemma sigMap_lookup (resp : list SignDataResponse) h b :
  sigMap resp !! h = Some b →
  ∃ r, r ∈ resp ∧ resp_Height r = h ∧ b = NewSchnorrEOTSSigFromModNScalar (resp_Signature r).
Proof.
  unfold sigMap.
  assert (∀ m : gmap N bytes,
    fold_left (λ m sig, <[resp_Height sig := NewSchnorrEOTSSigFromModNScalar (resp_Signature sig)]> m)
      resp m !! h = Some b →
    m !! h = Some b ∨ ∃ r, r ∈ resp ∧ resp_Height r = h
      ∧ b = NewSchnorrEOTSSigFromModNScalar (resp_Signature r)) as Hgen.
  { induction resp as [|r resp IH]; intros m Hm; simpl in Hm; [by left|].
    destruct (IH _ Hm) as [Hi|(r' & Hr' & Hh & Hb)].
    - destruct (decide (resp_Height r = h)) as [Eh|Hne].
      + rewrite Eh, lookup_insert_eq in Hi. injection Hi as <-. right. exists r.
        split; [by left|done].
      + rewrite lookup_insert_ne in Hi by done. by left.
    - right. exists r'. split; [by right|done]. }
  intros Hl. destruct (Hgen ∅ Hl) as [He|?]; [by rewrite lookup_empty in He|done].
Qed.

(** One kept block: its index in the batch gives randomness and proof. *)
Definition entry_ok (m : gmap N bytes) (prs : list FieldVal) (proofs : list bytes)
    (blocks : list BlockInfo) (i : nat) (x : BlockInfo * FieldVal * bytes * ModNScalar) : Prop :=
  ∃ j sig, blocks !! j = Some x.1.1.1 ∧ prs !! (i + j)%nat = Some x.1.1.2
    ∧ proofs !! (i + j)%nat = Some x.1.2 ∧ m !! blk_height x.1.1.1 = Some sig
    ∧ x.2 = ToModNScalar sig.

Lemma validLoop_ok m prs proofs blocks : ∀ i l,
  validLoop m prs proofs i blocks = Ok l →
  Forall (entry_ok m prs proofs blocks i) l
  ∧ (λ x : BlockInfo * FieldVal * bytes * ModNScalar, x.1.1.1) <$> l `sublist_of` blocks.
Proof.
  induction blocks as [|b blocks IH]; intros i l HE; simpl in HE.
  - simplify_eq. split; constructor.
  - assert (∀ l', Forall (entry_ok m prs proofs blocks (S i)) l' →
              Forall (entry_ok m prs proofs (b :: blocks) i) l') as Hshift.
    { intros l' Hl. eapply Forall_impl; [exact Hl|].
      intros x (j & sig & Hb & Hpr & Hp & Hm & Hs). exists (S j), sig.
      replace (i + S j)%nat with (S i + j)%nat by lia. done. }
    destruct (m !! blk_height b) as [sig|] eqn:Em.
    + destruct (prs !! i) as [pr|] eqn:Epr; [|done].
      destruct (proofs !! i) as [proof|] eqn:Ep; [|done].
      apply outcome_bind_ok in HE as (l' & HE & [= <-]).
      apply IH in HE as [Hall Hsub]. split; [|by constructor].
      constructor; [|by apply Hshift]. exists 0%nat, sig. by rewrite Nat.add_0_r.
    + apply IH in HE as [Hall Hsub]. split; [by apply Hshift|by constructor].
Qed.

Lemma SignBatch_ok bs d m d' :
  SignFinalitySigBatch bs d = (Ok m, d') →
  ∃ resp, m = sigMap resp ∧
    em_SignBatchEOTS (mkSignBatchEOTSRequest (ds_GetBtcPkBIP340 d) (st_GetChainID (ds_State d))
      (signRequests bs)) (ds_Em d) = (Ok resp, ds_Em d').
Proof.
  unfold SignFinalitySigBatch. intros HE. erewrite go_bind_run in HE; [|reflexivity].
  inv_bind HE. apply go_try_ok in E0. destruct a as [e|resp].
  - unfold sign_error in HE. by destruct (Contains _ _).
  - injection HE as <- <-. apply on_Em_inv in E0 as [E0 _]. eauto.
Qed.

(** Everything a request is made of. *)
Lemma build_ok bs d req d' :
  buildSubmission Getter bs d = (Ok (Some req), d') →
  ∃ b0 prs proofs resp l e1 e2,
    head bs = Some b0 ∧ (lenN bs ≤ MaxUint32)%N
    ∧ em_CreateRandomnessPairList (ds_GetBtcPkBIP340 d) (st_GetChainID (ds_State d))
        (blk_height b0) (lenN bs) [] (ds_Em d) = (Ok prs, e1)
    ∧ em_SignBatchEOTS (mkSignBatchEOTSRequest (ds_GetBtcPkBIP340 d) (st_GetChainID (ds_State d))
        (signRequests bs)) e2 = (Ok resp, ds_Em d')
    ∧ Forall (entry_ok (sigMap resp) prs proofs bs 0) l
    ∧ (λ x : BlockInfo * FieldVal * bytes * ModNScalar, x.1.1.1) <$> l `sublist_of` bs
    ∧ req = entries_request (st_GetBtcPk (ds_State d)) l ∧ l ≠ [].
Proof.
  intros HE. pose proof (build_State _ _ _ _ HE) as Hst. unfold buildSubmission in HE.
  destruct bs as [|b0 bs]; [done|]. set (bs0 := b0 :: bs) in *.
  destruct (_ <? _)%N eqn:El; [done|]. btests.
  inv_bind HE. pose proof (GetPubRandList_State _ _ _ _ _ E0) as S1.
  inv_bind HE. pose proof (on_Proofs_State _ _ _ _ E1) as S2.
  inv_bind HE. pose proof (SignBatch_State _ _ _ _ E2) as S3.
  inv_bind HE. apply SignBatch_ok in E2 as (resp & -> & Hsign).
  apply validLoop_ok in E3 as [Hall Hsub].
  unfold GetPubRandList in E0. erewrite go_bind_run in E0; [|reflexivity].
  apply go_wrap_ok, on_Em_inv in E0 as [E0 _]. unfold same_State, ds_GetBtcPkBIP340 in *.
  destruct a2 as [|x l]; [done|]. erewrite go_bind_run in HE; [|reflexivity].
  injection HE as <- <-. exists b0, a, a0, resp, (x :: l), (ds_Em s), (ds_Em s0).
  rewrite S2, S1 in Hsign. rewrite Hst. split_and!; try done.
Qed.

(** *** One submission and the loop *)

(** A submission leaves the provider's state alone, or sets the height of the
    last block; only a submission that was accepted with a hash sets it. *)
Definition once_effect (bs : list BlockInfo) d (r : outcome (option TxResponse)) d' : Prop :=
  (same_State d d' ∧ ∀ res, r = Ok (Some res) → TxHash res = "")
  ∨ ((∀ e, r ≠ Err e) ∧ ∃ hb, last bs = Some hb ∧ height_set (blk_height hb) d d').

Lemma once_effect_run bs d r d' :
  submitBatchFinalitySignaturesOnce Getter bs d = (r, d') → once_effect bs d r d'.
Proof.
  unfold submitBatchFinalitySignaturesOnce. unfold mbind at 1, M_bind at 1, go_bind at 1.
  destruct (buildSubmission Getter bs d) as [rb d1] eqn:Eb. pose proof (build_State _ _ _ _ Eb) as S1.
  destruct rb as [[req|]|e|w]; [|intros [= <- <-]; by left..].
  unfold mbind at 1, M_bind at 1, go_bind at 1, go_try.
  destruct (on_Ctrl (cc_SubmitBatchFinalitySigs req) d1) as [rs d2] eqn:Es.
  pose proof (on_Ctrl_State _ _ _ _ Es) as S2. assert (same_State d d2) as S by (by etrans).
  destruct rs as [[res|]|e|w]; [|intros [= <- <-]; by left| |intros [= <- <-]; by left].
  - case_bool_decide as Hh; [intros [= <- <-]; left; split; [done|]; by intros ? [= <-]|].
    destruct (last bs) as [hb|] eqn:El; [|intros [= <- <-]; by left].
    unfold mbind, M_bind, go_bind.
    destruct (MustSetLastVotedHeight (blk_height hb) d2) as [rm d3] eqn:Em.
    apply MustSetLastVotedHeight_inv in Em as (Hset & _ & _ & Hne). unfold height_set in Hset.
    rewrite S in Hset. destruct rm as [[]|e|w]; [|by destruct (Hne e)|];
      intros [= <- <-]; right; (split; [done|]); by exists hb.
  - destruct (Contains _ "jailed"); [intros [= <- <-]; by left|].
    destruct (Contains _ "slashed"); intros [= <- <-]; by left.
Qed.

Lemma check_State h : preserves same_State (CheckBlockFinalization (F:=F) (E:=E) (C:=C) (P:=P) h).
Proof. unfold CheckBlockFinalization. solve_preserves. Qed.

(** The loop has the effect of its last submission. *)
Lemma submitLoop_effect fuel timer bs : ∀ i fc target d r d',
  submitLoop Getter Cfg fuel timer i fc target bs d = Some (r, d') →
  (same_State d d' ∧ ∀ res, r = Ok (Some res) → TxHash res = "")
  ∨ ∃ hb, last bs = Some hb ∧ height_set (blk_height hb) d d'.
Proof.
  induction fuel as [|fuel IH]; intros i fc target d r d' HE; simpl in HE; [done|].
  destruct (submitBatchFinalitySignaturesOnce Getter bs d) as [r1 d1] eqn:E1.
  apply once_effect_run in E1. destruct r1 as [res|err|w].
  - injection HE as <- <-. destruct E1 as [?|[_ ?]]; [by left|by right].
  - destruct E1 as [[S1 _]|[Hne _]]; [|by destruct (Hne err)].
    destruct (IsUnrecoverable err); [injection HE as <- <-; by left|].
    destruct (IsExpected err); [injection HE as <- <-; by left|].
    destruct (_ <? _)%N; [injection HE as <- <-; by left|].
    destruct (CheckBlockFinalization target d1) as [rc d2] eqn:Ec.
    pose proof (check_State _ _ _ _ Ec) as S2. assert (same_State d d2) as S by (by etrans).
    destruct rc as [[]|e|w]; [injection HE as <- <-; by left| |injection HE as <- <-; by left..].
    destruct (timer i); [|injection HE as <- <-; by left].
    apply IH in HE as [[S3 Hr]|(hb & Hl & Hh)]; [left; split; [by etrans|done]|right].
    exists hb. split; [done|]. unfold height_set in *. by rewrite S in Hh.
  - injection HE as <- <-. destruct E1 as [?|[_ ?]]; [by left|by right].
Qed.

(** A whole submission: the height, the key and the chain are kept, or the
    height moves up to the one of a block. *)
Lemma Submit_cases fuel timer blocks d r d' :
  SubmitBatchFinalitySignatures Getter Cfg fuel timer blocks d = Some (r, d') →
  st_GetBtcPk (ds_State d') = st_GetBtcPk (ds_State d)
  ∧ st_GetChainID (ds_State d') = st_GetChainID (ds_State d)
  ∧ ((st_GetLastVotedHeight (ds_State d') = st_GetLastVotedHeight (ds_State d)
      ∧ ∀ res, r = Ok (Some res) → TxHash res = "")
     ∨ ∃ b, b ∈ blocks ∧ st_GetLastVotedHeight (ds_State d') = blk_height b
          ∧ (st_GetLastVotedHeight (ds_State d) < blk_height b)%N).
Proof.
  unfold SubmitBatchFinalitySignatures. intros Hrun.
  destruct (_ =? _)%nat; [injection Hrun as <- <-; split_and!; [done|done|by left]|].
  destruct (FilterBlocksForVoting blocks d) as [rf d1] eqn:Ef.
  pose proof (Filter_only _ _ _ _ Ef) as (Eh & Epk & Ec & _).
  destruct rf as [kept|e|w]; [|injection Hrun as <- <-; split_and!; [done|done|by left]..].
  apply Filter_ok in Ef as (Hsub & Hv & _).
  destruct (last kept) as [tb|] eqn:El;
    [|injection Hrun as <- <-; split_and!; [done|done|by left]].
  apply submitLoop_effect in Hrun as [[S Hr]|(hb & Hl & Hset)].
  - unfold same_State in S. rewrite S. split_and!; [done|done|by left].
  - rewrite El in Hl. injection Hl as <-. destruct Hset as (E1 & _ & E2 & E3).
    rewrite E1, E2, E3. split_and!; [done|done|]. right. exists tb.
    apply last_Some_elem_of in El. rewrite Forall_forall in Hv.
    destruct (Hv _ El) as [Hlt _]. split_and!; [|done|done].
    by eapply elem_of_submseteq, sublist_submseteq.
Qed.

(** Each cycle increments the counter, which stays below [2^32]. *)
Lemma submitLoop_some fuel timer bs : ∀ i fc target d,
  (MaxSubmissionRetries Cfg < MaxUint32)%N → (fc ≤ MaxSubmissionRetries Cfg)%N →
  (N.to_nat (MaxSubmissionRetries Cfg - fc) < fuel)%nat →
  is_Some (submitLoop Getter Cfg fuel timer i fc target bs d).
Proof.
  induction fuel as [|fuel IH]; intros i fc target d Hmax Hfc Hfuel; [lia|]. simpl.
  destruct (submitBatchFinalitySignaturesOnce Getter bs d) as [[res|err|w] d1]; [by eexists| |by eexists].
  destruct (IsUnrecoverable err); [by eexists|]. destruct (IsExpected err); [by eexists|].
  rewrite u32_add_small by (unfold MaxUint32, two32 in *; lia).
  destruct (_ <? _)%N eqn:El; [by eexists|]. btests.
  destruct (CheckBlockFinalization target d1) as [[[]|e|w] d2]; try by eexists.
  destruct (timer i); [|by eexists]. apply IH; [done|lia|lia].
Qed.
End lemmas.

(** ** What a submission preserves

    A relation that the calls of the submitter keep is kept by a whole
    submission; the call that sends the votes may use how they were built. *)
Section frame.
Context `{CryptoLaws} `{BigEndian} `{RetryLaws} `{BabylonErrors}.
Context {F E C P : Type} `{!FinalityProviderState F} `{!EOTSManager E} `{!ConsumerController C}.
Context (Getter : N → N → M P (list bytes)) (Cfg : FinalitySubmitterConfig).
Local Abbreviation ds := (DefaultFinalitySubmitter F E C P).
Context (R : relation ds) `{!PreOrder R}.
Context (Rstatus : ∀ s, preserves R (on_State (st_SetStatus s))).
Context (Rheight : ∀ h, preserves R (on_State (st_SetLastVotedHeight h))).
Context (Rrand : ∀ pk c h n, preserves R (on_Em (em_CreateRandomnessPairList pk c h n []))).
Context (Rsign : ∀ req, preserves R (on_Em (em_SignBatchEOTS req))).
Context (Rproof : ∀ h n, preserves R (on_Proofs (Getter h n))).
Context (Rpower : ∀ pk h, preserves R (on_Ctrl (cc_QueryFinalityProviderHasPower pk h))).
Context (Rblock : ∀ h, preserves R (on_Ctrl (cc_QueryBlock h))).
Context (Rsubmit : ∀ bs d req d1 r d2, buildSubmission Getter bs d = (Ok (Some req), d1) →
  on_Ctrl (cc_SubmitBatchFinalitySigs req) d1 = (r, d2) → R d1 d2).
#[local] Hint Resolve Rstatus Rheight Rrand Rsign Rproof Rpower Rblock : preserves.

Lemma frame_mustSetStatus s : preserves R (mustSetStatus s).
Proof. unfold mustSetStatus. solve_preserves. Qed.
Lemma frame_MustSetLastVotedHeight h : preserves R (MustSetLastVotedHeight h).
Proof. unfold MustSetLastVotedHeight. solve_preserves. Qed.
#[local] Hint Resolve frame_mustSetStatus frame_MustSetLastVotedHeight : preserves.

Lemma frame_getVotingPower h : preserves R (getVotingPowerWithRetry h).
Proof.
  unfold getVotingPowerWithRetry. apply preserves_get_bind. intros d r d'.
  apply preserves_wrap, preserves_retry; [apply _|]. solve_preserves.
Qed.
#[local] Hint Resolve frame_getVotingPower : preserves.

Lemma frame_filterLoop bs : ∀ hp acc, preserves R (filterLoop hp acc bs).
Proof. induction bs as [|b bs IH]; intros hp acc; simpl; solve_preserves. Qed.
#[local] Hint Resolve frame_filterLoop : preserves.

Lemma frame_Filter bs : preserves R (FilterBlocksForVoting bs).
Proof. unfold FilterBlocksForVoting, updateStatus. solve_preserves. Qed.

Lemma frame_build bs : preserves R (buildSubmission Getter bs).
Proof. unfold buildSubmission, GetPubRandList, SignFinalitySigBatch, sign_error. solve_preserves. Qed.

Lemma frame_once bs : preserves R (submitBatchFinalitySignaturesOnce Getter bs).
Proof.
  intros d r d'. unfold submitBatchFinalitySignaturesOnce. unfold mbind at 1, M_bind at 1, go_bind at 1.
  destruct (buildSubmission Getter bs d) as [rb d1] eqn:Eb. pose proof (frame_build _ _ _ _ Eb) as S1.
  destruct rb as [[req|]|e|w]; [|by intros [= _ <-]..].
  unfold mbind at 1, M_bind at 1, go_bind at 1, go_try.
  destruct (on_Ctrl (cc_SubmitBatchFinalitySigs req) d1) as [rs d2] eqn:Es.
  assert (R d d2) as S by (etrans; [exact S1|by eapply Rsubmit]).
  destruct rs as [res|e|w]; [| |by intros [= _ <-]]; intros HE; (etrans; [exact S|]);
    (refine ((_ : preserves R _) _ _ _ HE); clear HE; solve_preserves).
Qed.

Lemma frame_submitLoop fuel timer bs : ∀ i fc target d r d',
  submitLoop Getter Cfg fuel timer i fc target bs d = Some (r, d') → R d d'.
Proof.
  induction fuel as [|fuel IH]; intros i fc target d r d' HE; simpl in HE; [done|].
  destruct (submitBatchFinalitySignaturesOnce Getter bs d) as [r1 d1] eqn:E1.
  apply frame_once in E1. destruct r1 as [res|err|w]; [by simplify_eq| |by simplify_eq].
  destruct (IsUnrecoverable err); [by simplify_eq|]. destruct (IsExpected err); [by simplify_eq|].
  destruct (_ <? _)%N; [by simplify_eq|].
  destruct (CheckBlockFinalization target d1) as [rc d2] eqn:Ec.
  assert (R d d2) as S.
  { etrans; [exact E1|]. refine ((_ : preserves R _) _ _ _ Ec). unfold CheckBlockFinalization.
    solve_preserves. }
  destruct rc as [[]|e|w]; [by simplify_eq| |by simplify_eq..].
  destruct (timer i); [|by simplify_eq]. etrans; [exact S|by eapply IH].
Qed.

Lemma frame_Submit fuel timer blocks d r d' :
  SubmitBatchFinalitySignatures Getter Cfg fuel timer blocks d = Some (r, d') → R d d'.
Proof.
  unfold SubmitBatchFinalitySignatures. intros HE. destruct (_ =? _)%nat; [by simplify_eq|].
  destruct (FilterBlocksForVoting blocks d) as [rf d1] eqn:Ef. apply frame_Filter in Ef.
  destruct rf as [kept|e|w]; [|by simplify_eq..].
  destruct (last kept); [|by simplify_eq]. etrans; [exact Ef|by eapply frame_submitLoop].
Qed.
End frame.

(** ** Properties *)

Section properties.
Context `{CryptoLaws} `{BigEndianLaws} `{RetryLaws} `{BabylonErrors}.
Context {F E C P : Type} `{!FinalityProviderState F} `{!FinalityProviderStateLaws F}
  `{!EOTSManager E} `{!EOTSProtection E} `{!EOTSRandomness E} `{!ConsumerController C}.
Context (Getter : N → N → M P (list bytes)) (Cfg : FinalitySubmitterConfig).
Local Abbreviation ds := (DefaultFinalitySubmitter F E C P).
Implicit Types d : ds.

(** C23: the blocks kept for voting are, in their order, those above the last
    voted height for which the chain answered that the provider has power;
    every block that is dropped is at or below the last voted height or the
    chain answered that it has no power there.  Filtering changes neither
    the last voted height nor the EOTS manager. *)
Theorem FilterBlocksForVoting_exact blocks d kept d'
    (Hrun : FilterBlocksForVoting blocks d = (Ok kept, d')) :
  kept `sublist_of` blocks
  ∧ Forall (λ b, (st_GetLastVotedHeight (ds_State d) < blk_height b)%N
        ∧ power_answer (C:=C) (st_GetBtcPk (ds_State d)) (blk_height b) true) kept
  ∧ (∀ b, b ∈ blocks → b ∈ kept
        ∨ (blk_height b ≤ st_GetLastVotedHeight (ds_State d))%N
        ∨ power_answer (C:=C) (st_GetBtcPk (ds_State d)) (blk_height b) false)
  ∧ st_GetLastVotedHeight (ds_State d') = st_GetLastVotedHeight (ds_State d)
  ∧ ds_Em d' = ds_Em d.
Proof.
  pose proof (Filter_only _ _ _ _ Hrun) as (Hh & _ & _ & Hem & _).
  apply Filter_ok in Hrun as (Hsub & Hv & Hall). by split_and!.
Qed.

(** Every vote of a request is bound to its height in the EOTS manager. *)
Lemma build_protected blocks d req d' :
  buildSubmission Getter blocks d = (Ok (Some req), d') →
  sub_Blocks req `sublist_of` blocks ∧ NoDup (blk_height <$> blocks)
  ∧ sub_FpPk req = st_GetBtcPk (ds_State d)
  ∧ Forall2 (λ b s, em_signed (ds_Em d') (ds_GetBtcPkBIP340 d) (st_GetChainID (ds_State d))
                      (blk_height b) (MsgToSign b "") s) (sub_Blocks req) (sub_Sigs req).
Proof.
  intros (b0 & prs & proofs & resp & l & e1 & e2 & _ & _ & _ & Hsign & Hall & Hsub & -> & _)%build_ok.
  assert (NoDup (blk_height <$> blocks)) as Hheights.
  { apply em_SignBatchEOTS_nodup in Hsign. simpl in Hsign. unfold signRequests in Hsign.
    by rewrite <- list_fmap_compose in Hsign. }
  simpl. split_and!; [done|done|done|].
  apply em_SignBatchEOTS_signed in Hsign. simpl in Hsign. rewrite Forall_forall in Hsign.
  clear Hsub. induction Hall as [|x l Hx _ IH]; simpl; constructor; [|exact IH].
  destruct Hx as (j & sig & Hb & _ & _ & Hm & ->).
  apply sigMap_lookup in Hm as (r & Hr & Hh & ->). destruct (Hsign _ Hr) as (m & Hin & Hs).
  rewrite eots_sig_roundtrip.
  apply list_elem_of_fmap in Hin as (b' & [= -> Hb'] & Hin). rewrite Hh in *.
  apply list_elem_of_lookup in Hin as [j' Hj'].
  assert (j = j') as <-; [|by simplify_eq].
  eapply NoDup_lookup; [exact Hheights| |]; rewrite list_lookup_fmap;
    [by rewrite Hb|rewrite Hj'; simpl; by rewrite Hb'].
Qed.

(** What is submitted was signed under protection: every vote of a
    submission carries the signature the EOTS manager has bound to that
    height for the message of that very block, blocks and signatures are
    paired by position, and the submission is for a sub-list of the blocks,
    whose heights are distinct. *)
Theorem submission_is_protected blocks d req d'
    (Hbuild : buildSubmission Getter blocks d = (Ok (Some req), d')) :
  sub_Blocks req `sublist_of` blocks ∧ NoDup (blk_height <$> blocks)
  ∧ sub_FpPk req = st_GetBtcPk (ds_State d)
  ∧ Forall2 (λ b s, em_signed (ds_Em d') (ds_GetBtcPkBIP340 d) (st_GetChainID (ds_State d))
                      (blk_height b) (MsgToSign b "") s) (sub_Blocks req) (sub_Sigs req).
Proof. by apply build_protected. Qed.


(** C18: the submission loop terminates: with [MaxSubmissionRetries] below
    [2^32 - 1] it makes at most [MaxSubmissionRetries + 1] attempts, whatever
    the chain, the EOTS manager, the database and the timers do. *)
Theorem SubmitBatchFinalitySignatures_terminates fuel timer blocks d
    (Hmax : (MaxSubmissionRetries Cfg < MaxUint32)%N)
    (Hfuel : (N.to_nat (MaxSubmissionRetries Cfg) < fuel)%nat) :
  is_Some (SubmitBatchFinalitySignatures Getter Cfg fuel timer blocks d).
Proof.
  unfold SubmitBatchFinalitySignatures. destruct (_ =? _)%nat; [by eexists|].
  destruct (FilterBlocksForVoting blocks d) as [[kept|e|w] d1]; [|by eexists..].
  destruct (last kept); [|by eexists]. apply submitLoop_some; [done|lia|].
  by rewrite N.sub_0_r.
Qed.


(** Blocks at or below the last voted height are never voted for again:
    the EOTS manager and the chain are not called, and nothing is returned.
    An ACTIVE provider is set INACTIVE by such a call, without its power
    having been queried. *)
Theorem stale_blocks_not_voted fuel timer blocks d
    (Hne : blocks ≠ [])
    (Hstale : Forall (λ b, (blk_height b ≤ st_GetLastVotedHeight (ds_State d))%N) blocks) :
  ∃ r d', SubmitBatchFinalitySignatures Getter Cfg fuel timer blocks d = Some (r, d')
    ∧ ds_Em d' = ds_Em d ∧ ds_ConsumerCtrl d' = ds_ConsumerCtrl d
    ∧ (∀ res, r ≠ Ok (Some res))
    ∧ st_GetStatus (ds_State d') =
        (if decide (st_GetStatus (ds_State d) = ACTIVE) then INACTIVE
         else st_GetStatus (ds_State d)).
Proof.
  assert (filterLoop (F:=F) (E:=E) (C:=C) (P:=P) false [] blocks d = (Ok (false, []), d)) as Hloop.
  { clear Hne. induction Hstale as [|b blocks Hb _ IH]; [done|]. simpl.
    erewrite go_bind_run; [|reflexivity]. apply N.leb_le in Hb. by rewrite Hb. }
  unfold SubmitBatchFinalitySignatures. destruct blocks as [|b0 blocks]; [done|].
  cbn [length Nat.eqb]. unfold FilterBlocksForVoting. erewrite go_bind_run; [|exact Hloop].
  unfold updateStatus. cbn [negb andb].
  case_decide as Hac.
  - destruct (mustSetStatus INACTIVE d) as [rs d1] eqn:Em.
    pose proof (mustSetStatus_inv _ _ _ _ Em) as (Est & _ & _ & _ & Eem & Ectl & _).
    go_unfold. rewrite bool_decide_eq_true_2 by done. rewrite Em.
    destruct rs as [[]|e|w]; eexists _, d1; (split; [reflexivity|]); split_and!; done.
  - go_unfold. rewrite bool_decide_eq_false_2 by done. eexists _, d.
    split; [reflexivity|]. by split_and!.
Qed.
End properties.

(** ** Witnesses: the local EOTS manager, the finality provider store and the
    concrete chain, composed *)

Module SubmitterWitness.
Import LmToy FpToy ChainToy.

Definition w_getter (start n : N) : M unit (list bytes) := λ u,
  (Ok ((λ i : nat, N_bytes (start + N.of_nat i)) <$> seq 0 (N.to_nat n)), u).
Definition w_cfg : FinalitySubmitterConfig := mkSubmitterCfg 3 0.
Definition w_ds (power : list N) (fail : nat)
    : DefaultFinalitySubmitter (FpState MapDb.db) (LocalEOTSManager toy_keyring MapDb.db)
        toy_consumer unit :=
  mkDS toy_fps toy_lm (toy_tc power fail) ().
Definition w_block (h : N) : BlockInfo := NewBlockInfo h [Byte.x07] false.
Definition w_blocks : list BlockInfo := [w_block 10; w_block 11; w_block 12].
Definition w_timer : nat → bool := λ _, true.

Definition w_filtered := FilterBlocksForVoting w_blocks (w_ds [10; 12]%N 0).

Lemma FilterBlocksForVoting_exact_witness :
  w_filtered = (Ok [w_block 10; w_block 12], w_filtered.2)
  ∧ ([w_block 10; w_block 12] `sublist_of` w_blocks).
Proof.
  assert (E : w_filtered = (Ok [w_block 10; w_block 12], w_filtered.2)) by (apply run_eq; vm_eq).
  split; [exact E|].
  apply (FilterBlocksForVoting_exact w_blocks (w_ds [10; 12]%N 0) _ w_filtered.2 E).
Defined.

Definition w_build (blocks : list BlockInfo) := buildSubmission w_getter blocks (w_ds [10; 11; 12]%N 0).
Definition w_req (blocks : list BlockInfo) : SubmitBatchFinalitySigsRequest :=
  default (mkSubmitReq _ true [] [] [] []) (ok_or None (w_build blocks).1).

Lemma w_build_run : w_build w_blocks = (Ok (Some (w_req w_blocks)), (w_build w_blocks).2).
Proof. apply run_some. vm_eq. Qed.

Lemma submission_is_protected_witness :
  w_build w_blocks = (Ok (Some (w_req w_blocks)), (w_build w_blocks).2)
  ∧ (sub_Blocks (w_req w_blocks) `sublist_of` w_blocks)
  ∧ sub_FpPk (w_req w_blocks) = toy_key.
Proof.
  split; [exact w_build_run|].
  destruct (submission_is_protected w_getter w_blocks (w_ds [10; 11; 12]%N 0) (w_req w_blocks)
              (w_build w_blocks).2 w_build_run) as (Hsub & _ & Hpk & _). by split.
Defined.


Lemma SubmitBatchFinalitySignatures_terminates_witness :
  is_Some (SubmitBatchFinalitySignatures w_getter w_cfg 4 w_timer w_blocks (w_ds [10; 11; 12]%N 9)).
Proof.
  apply (SubmitBatchFinalitySignatures_terminates w_getter w_cfg 4 w_timer w_blocks
           (w_ds [10; 11; 12]%N 9)); [done|]. simpl. lia.
Defined.

Definition w_after := SubmitBatchFinalitySignatures w_getter w_cfg 4 w_timer w_blocks (w_ds [10; 11; 12]%N 1).
Definition w_ds' := default (w_ds [] 0) (snd <$> w_after).

Lemma w_after_run : w_after = Some (Ok (Some (mkTxResponse "vote" [])), w_ds').
Proof. apply run_fuel. vm_eq. Qed.


Lemma stale_blocks_not_voted_witness :
  ∃ r d', SubmitBatchFinalitySignatures w_getter w_cfg 4 w_timer w_blocks w_ds' = Some (r, d')
    ∧ ds_Em d' = ds_Em w_ds' ∧ ds_ConsumerCtrl d' = ds_ConsumerCtrl w_ds'
    ∧ (∀ res, r ≠ Ok (Some res))
    ∧ st_GetStatus (ds_State d') =
        (if decide (st_GetStatus (ds_State w_ds') = ACTIVE) then INACTIVE
         else st_GetStatus (ds_State w_ds')).
Proof.
  apply (stale_blocks_not_voted w_getter w_cfg 4 w_timer w_blocks w_ds'); [done|].
  apply (bool_decide_unpack _). by vm_compute.
Defined.

Definition w_sk : @PrivateKey toy_crypto := true.
Definition w_f11 : @ModNScalar toy_crypto * @FieldVal toy_crypto :=
  match getRandomnessPair w_sk toy_chain 11 with Ok p => p | _ => (0%N, 0%N) end.

(** With a gap in the voting power the randomness of a vote is not the one of
    its height: for blocks 10 and 12 the vote of height 12 carries the public
    randomness of height 11. *)
Theorem gap_misaligns_randomness :
  let req := w_req [w_block 10; w_block 12] in
  w_filtered.1 = Ok [w_block 10; w_block 12]
  ∧ sub_Blocks req = [w_block 10; w_block 12]
  ∧ ∃ f, sub_PubRandList req !! 1%nat = Some f
      ∧ em_pubrand toy_lm (toy_pk true) toy_chain 11 f
      ∧ ¬ em_pubrand toy_lm (toy_pk true) toy_chain 12 f.
Proof.
  split; [vm_eq|]. split; [vm_eq|]. exists w_f11.2. split; [vm_eq|]. split.
  - exists w_sk, w_f11.1. split; vm_eq.
  - intros (k & r & Hk & Hr). vm_compute in Hk. injection Hk as <-. vm_compute in Hr. injection Hr as _ Hf. discriminate Hf.
Qed.
End SubmitterWitness.
