(* ===== verification/RandCommitter.v ===== *)
(** * The randomness committer (src/finality-provider/service/rand_committer.go)

    Decides when public randomness has to be committed and from which height,
    generates it with the EOTS manager, stores the Merkle proofs and commits
    the root on the consumer chain. *)

From Stdlib Require Import NArith ZArith Lia.
From stdpp Require Import base gmap strings list.
From S2P Require Import Prelude Kvdb External Toy EotsStore EotsApi LocalManager PubRandStore ChainApi.

(** [RandomnessCommitterConfig]; [rcc_ChainID] is nil before [Init] *)
Record RandomnessCommitterConfig := mkRcCfg {
  NumPubRand : N;
  TimestampingDelayBlocks : Z;
  rcc_ContextSigningHeight : N;
  rcc_ChainID : option bytes;
}.

(** [DefaultRandomnessCommitter]: key, configuration, proof store, chain and
    EOTS manager *)
Record DefaultRandomnessCommitter (D C E : Type) := mkRC {
  rc_BtcPk : option bytes;
  rc_Cfg : RandomnessCommitterConfig;
  rc_PubRandState : D;
  rc_ConsumerCon : C;
  rc_Em : E;
}.
Arguments mkRC {D C E}.
Arguments rc_BtcPk {D C E}.
Arguments rc_Cfg {D C E}.
Arguments rc_PubRandState {D C E}.
Arguments rc_ConsumerCon {D C E}.
Arguments rc_Em {D C E}.

(** The [switch] of [ShouldCommit] and the activation bound: the start height,
    or [None] when the randomness is sufficient. *)
Definition commitStart (lastCommittedHeight tipHeightWithDelay numPubRand : N) : option N :=
  if (lastCommittedHeight <? tipHeightWithDelay)%N then Some tipHeightWithDelay
  else if (lastCommittedHeight <? u64_add tipHeightWithDelay numPubRand)%N then
    Some (u64_add lastCommittedHeight 1)
  else None.

Section committer.
Context `{Crypto} `{BigEndian} `{Merkle} `{Retry}.
Context {D C E : Type} `{!KvBackend D} `{!ConsumerController C} `{!EOTSManager E}.
Local Abbreviation rc := (DefaultRandomnessCommitter D C E).

Definition on_PubRand {A} (m : M D A) : M rc A := λ r,
  let '(o, d) := m (rc_PubRandState r) in
  (o, mkRC (rc_BtcPk r) (rc_Cfg r) d (rc_ConsumerCon r) (rc_Em r)).
Definition on_Con {A} (m : M C A) : M rc A := λ r,
  let '(o, c) := m (rc_ConsumerCon r) in
  (o, mkRC (rc_BtcPk r) (rc_Cfg r) (rc_PubRandState r) c (rc_Em r)).
Definition on_rcEm {A} (m : M E A) : M rc A := λ r,
  let '(o, e) := m (rc_Em r) in
  (o, mkRC (rc_BtcPk r) (rc_Cfg r) (rc_PubRandState r) (rc_ConsumerCon r) e).

Definition Init (btcPk : option bytes) (chainID : bytes) : M rc unit := λ r,
  match btcPk with
  | None => (Err (EText "BtcPk cannot be nil"), r)
  | Some _ =>
      if (length chainID =? 0)%nat then (Err (EText "chainID cannot be empty"), r)
      else if bool_decide (is_Some (rc_BtcPk r)) && bool_decide (is_Some (rcc_ChainID (rc_Cfg r))) then
        (Err (EText "randomness committer is already initialized with BtcPk and chainID"), r)
      else
        let cfg := rc_Cfg r in
        (Ok (), mkRC btcPk (mkRcCfg (NumPubRand cfg) (TimestampingDelayBlocks cfg)
                              (rcc_ContextSigningHeight cfg) (Some chainID))
                  (rc_PubRandState r) (rc_ConsumerCon r) (rc_Em r))
  end.

(** [rc.BtcPk.MustMarshal()] and [rc.Cfg.ChainID] *)
Definition rc_pk : M rc bytes := λ r,
  match rc_BtcPk r with
  | Some b => (Ok b, r)
  | None => (Crash "nil pointer dereference", r)
  end.
Definition rc_chain : M rc bytes := λ r, (Ok (default [] (rcc_ChainID (rc_Cfg r))), r).

(** One attempt of [lastCommittedPublicRandWithRetry]. *)
Definition queryLastCommit : M rc (option PubRandCommit) :=
  pk ← rc_pk;
  btcPk ← go_lift (MustToBTCPK pk);
  resp ← go_wrap "failed to query the last committed public randomness"
           (on_Con (cc_QueryLastPubRandCommit btcPk));
  match resp with
  | None => mret None
  | Some c =>
      _ ← go_lift (wrap_err "failed to validate the last committed public randomness" (prc_Validate c));
      mret (Some c)
  end.

Definition lastCommittedPublicRandWithRetry : M rc (option PubRandCommit) :=
  go_wrap "failed to query the last committed public randomness"
    (retry_Do true RtyAttNum queryLastCommit).

Definition GetLastCommittedHeight : M rc N :=
  pubRandCommit ← go_wrap "failed to query the last committed public randomness"
                    lastCommittedPublicRandWithRetry;
  mret (match pubRandCommit with None => 0%N | Some c => GetEndHeight c end).

Definition queryTip : M rc BlockInfo :=
  r ← go_try (on_Con cc_QueryLatestBlock);
  match r with
  | inl err => go_fail (wrapf "failed to query latest block height" err)
  | inr None => go_fail (EWrapNil "failed to query latest block height: ")
  | inr (Some b) => mret b
  end.

Definition getLatestBlockHeightWithRetry : M rc BlockInfo :=
  go_wrap "failed to get latest block height after retries" (retry_Do true RtyAttNum queryTip).

Definition ShouldCommit : M rc (bool * N) :=
  lastCommittedHeight ← go_wrap "failed to get last committed height" GetLastCommittedHeight;
  tipBlock ← go_wrap "failed to get the last block" getLatestBlockHeightWithRetry;
  r ← go_get;
  let delay := TimestampingDelayBlocks (rc_Cfg r) in
  if (delay <? 0)%Z then
    go_fail (EText "TimestampingDelayBlocks cannot be negative")
  else
    let tipHeightWithDelay := u64_add (blk_height tipBlock) (Z.to_N delay) in
    match commitStart lastCommittedHeight tipHeightWithDelay (NumPubRand (rc_Cfg r)) with
    | None => mret (false, 0%N)
    | Some startHeight =>
        activationBlkHeight ← go_wrap "failed to query finality activation block height"
                                (on_Con cc_QueryFinalityActivationBlockHeight);
        mret (true, N.max startHeight activationBlkHeight)
    end.

Definition rc_getPubRandList (startHeight numPubRand : N) : M rc (list FieldVal) :=
  pk ← rc_pk;
  chainID ← rc_chain;
  go_wrap "failed to create randomness pair list"
    (on_rcEm (em_CreateRandomnessPairList pk chainID startHeight numPubRand [])).

Definition SignPubRandCommit (startHeight numPubRand : N) (commitment : bytes)
    : M rc SchnorrSignature :=
  let hash := getHashToSignForCommitPubRandWithContext "" startHeight numPubRand commitment in
  pk ← rc_pk;
  go_wrap "failed to sign the commit public randomness message"
    (on_rcEm (em_SignSchnorrSig pk hash)).

Definition Commit (startHeight : N) : M rc (option TxResponse) :=
  r ← go_get;
  pubRandList ← go_wrap "failed to generate randomness"
                  (rc_getPubRandList startHeight (NumPubRand (rc_Cfg r)));
  let numPubRand := lenN pubRandList in
  let '(commitment, proofList) := GetPubRandCommitAndProofs pubRandList in
  pk ← rc_pk;
  chainID ← rc_chain;
  _ ← go_wrap "failed to save public randomness to DB"
        (on_PubRand (addPubRandProofList pk chainID startHeight (NumPubRand (rc_Cfg r)) proofList []));
  schnorrSig ← go_wrap "failed to sign the Schnorr signature"
                 (SignPubRandCommit startHeight numPubRand commitment);
  btcPk ← go_lift (MustToBTCPK pk);
  go_wrap "failed to commit public randomness to the consumer chain"
    (on_Con (cc_CommitPubRandList
       {| com_FpPk := btcPk; com_StartHeight := startHeight; com_NumPubRand := numPubRand;
          com_Commitment := commitment; com_Sig := schnorrSig |})).

Definition rc_GetPubRandProofList (height numPubRand : N) : M rc (list bytes) :=
  pk ← rc_pk;
  chainID ← rc_chain;
  proofList ← go_wrap "failed to get public randomness proof list"
                (on_PubRand (getPubRandProofList pk chainID height numPubRand));
  if (length proofList =? 0)%nat then
    go_fail (EText ("no public randomness proof found for height " +:+ fmt_d height
                      +:+ " and num " +:+ fmt_d numPubRand))
  else mret proofList.

Definition AddPubRandProofListWithInterval (startHeight numPubRand : N) (proofList : list Proof)
    (interval : N) : M rc unit :=
  pk ← rc_pk;
  chainID ← rc_chain;
  go_wrap "failed to add public randomness proof list with interval"
    (on_PubRand (addPubRandProofList pk chainID startHeight numPubRand proofList
                   [WithKeyInterval interval])).
End committer.

(** ** What the operations preserve *)

Section frame.
Context `{CryptoLaws} `{BigEndianLaws} `{Merkle} `{RetryLaws}.
Context {D C E : Type} `{!KvBackend D} `{!ConsumerController C} `{!EOTSManager E}.
Local Abbreviation rc := (DefaultRandomnessCommitter D C E).
Context (R : relation rc) `{!PreOrder R}.
Context (Rlast : ∀ pk, preserves R (on_Con (cc_QueryLastPubRandCommit pk))).
Context (Rtip : preserves R (on_Con cc_QueryLatestBlock)).
Context (Ractive : preserves R (on_Con cc_QueryFinalityActivationBlockHeight)).
Context (Rsend : ∀ req, preserves R (on_Con (cc_CommitPubRandList req))).
Context (Rpairs : ∀ pk c h n, preserves R (on_rcEm (em_CreateRandomnessPairList pk c h n []))).
Context (Rsign : ∀ pk m, preserves R (on_rcEm (em_SignSchnorrSig pk m))).
Context (Rsave : ∀ pk c h n ps, preserves R (on_PubRand (addPubRandProofList pk c h n ps []))).

Lemma frame_rc_pk : preserves R rc_pk.
Proof. intros r o r'. unfold rc_pk. destruct (rc_BtcPk r); by intros [= _ <-]. Qed.
Lemma frame_rc_chain : preserves R rc_chain.
Proof. by intros r o r' [= _ <-]. Qed.
#[local] Hint Resolve Rlast Rtip Ractive Rsend Rpairs Rsign Rsave frame_rc_pk frame_rc_chain : preserves.

Lemma frame_GetLastCommittedHeight : preserves R GetLastCommittedHeight.
Proof.
  unfold GetLastCommittedHeight, lastCommittedPublicRandWithRetry.
  apply preserves_bind; [apply _| |intros ?; solve_preserves].
  apply preserves_wrap, preserves_wrap, preserves_retry; [apply _|].
  unfold queryLastCommit. solve_preserves.
Qed.
Lemma frame_getTip : preserves R getLatestBlockHeightWithRetry.
Proof.
  unfold getLatestBlockHeightWithRetry. apply preserves_wrap, preserves_retry; [apply _|].
  unfold queryTip. solve_preserves.
Qed.
#[local] Hint Resolve frame_GetLastCommittedHeight frame_getTip : preserves.

Lemma frame_ShouldCommit : preserves R ShouldCommit.
Proof. unfold ShouldCommit. solve_preserves. Qed.

Lemma frame_Commit h : preserves R (Commit h).
Proof. unfold Commit, rc_getPubRandList, SignPubRandCommit. solve_preserves. Qed.
End frame.

(** ** Lemmas *)

Section lemmas.
Context `{CryptoLaws} `{BigEndianLaws} `{MerkleLaws} `{RetryLaws}.
Context {D C E : Type} `{!KvBackend D} `{!KvLaws D} `{!ConsumerController C} `{!EOTSManager E}.
Local Abbreviation rc := (DefaultRandomnessCommitter D C E).
Implicit Types r : rc.

(** Only the chain was called. *)
Definition only_Con r r' : Prop :=
  rc_BtcPk r' = rc_BtcPk r ∧ rc_Cfg r' = rc_Cfg r
  ∧ rc_PubRandState r' = rc_PubRandState r ∧ rc_Em r' = rc_Em r.

#[export] Instance only_Con_preorder : PreOrder only_Con.
Proof.
  split; [done|]. intros ??? (?&?&?&?) (?&?&?&?). unfold only_Con. split_and!; congruence.
Qed.

Lemma on_Con_only {A} (m : M C A) : preserves only_Con (on_Con (D:=D) (E:=E) m).
Proof. intros r o r'. unfold on_Con. destruct (m _). by intros [= _ <-]. Qed.
Lemma rc_pk_only : preserves only_Con (rc_pk (D:=D) (C:=C) (E:=E)).
Proof. intros r o r'. unfold rc_pk. destruct (rc_BtcPk r); by intros [= _ <-]. Qed.
Hint Resolve on_Con_only rc_pk_only : preserves.

Lemma on_Con_inv {A} (m : M C A) r o r' :
  on_Con m r = (o, r') → m (rc_ConsumerCon r) = (o, rc_ConsumerCon r').
Proof. unfold on_Con. destruct (m _) eqn:Em. by intros [= <- <-]. Qed.
Lemma on_PubRand_inv {A} (m : M D A) r o r' :
  on_PubRand m r = (o, r') → m (rc_PubRandState r) = (o, rc_PubRandState r')
    ∧ rc_BtcPk r' = rc_BtcPk r ∧ rc_Cfg r' = rc_Cfg r ∧ rc_Em r' = rc_Em r
    ∧ rc_ConsumerCon r' = rc_ConsumerCon r.
Proof. unfold on_PubRand. destruct (m _) eqn:Em. by intros [= <- <-]. Qed.
Lemma on_rcEm_inv {A} (m : M E A) r o r' :
  on_rcEm m r = (o, r') → m (rc_Em r) = (o, rc_Em r')
    ∧ rc_BtcPk r' = rc_BtcPk r ∧ rc_Cfg r' = rc_Cfg r ∧ rc_PubRandState r' = rc_PubRandState r
    ∧ rc_ConsumerCon r' = rc_ConsumerCon r.
Proof. unfold on_rcEm. destruct (m _) eqn:Em. by intros [= <- <-]. Qed.

Lemma rc_pk_ok r pk r' : rc_pk r = (Ok pk, r') → rc_BtcPk r = Some pk ∧ r' = r.
Proof. unfold rc_pk. destruct (rc_BtcPk r); [by intros [= -> <-]|done]. Qed.

Lemma queryLastCommit_only : preserves only_Con (queryLastCommit (D:=D) (C:=C) (E:=E)).
Proof. unfold queryLastCommit. solve_preserves. Qed.
Lemma queryTip_only : preserves only_Con (queryTip (D:=D) (C:=C) (E:=E)).
Proof. unfold queryTip. solve_preserves. Qed.

Lemma GetLastCommittedHeight_only : preserves only_Con (GetLastCommittedHeight (D:=D) (C:=C) (E:=E)).
Proof. apply frame_GetLastCommittedHeight; [apply _|intros; apply on_Con_only]. Qed.
Lemma getTip_only : preserves only_Con (getLatestBlockHeightWithRetry (D:=D) (C:=C) (E:=E)).
Proof. apply frame_getTip; [apply _|apply on_Con_only]. Qed.

(** What the chain answered. *)
Definition last_answer (pk : option bytes) (h : N) : Prop :=
  ∃ b btcPk (c c' : C) resp, pk = Some b ∧ MustToBTCPK b = Ok btcPk
    ∧ cc_QueryLastPubRandCommit btcPk c = (Ok resp, c')
    ∧ h = match resp with None => 0%N | Some x => GetEndHeight x end.
Definition tip_answer (b : BlockInfo) : Prop :=
  ∃ c c' : C, cc_QueryLatestBlock c = (Ok (Some b), c').
Definition activation_answer (h : N) : Prop :=
  ∃ c c' : C, cc_QueryFinalityActivationBlockHeight c = (Ok h, c').

Lemma queryLastCommit_ok r resp r' :
  queryLastCommit r = (Ok resp, r') →
  last_answer (rc_BtcPk r) (match resp with None => 0%N | Some x => GetEndHeight x end).
Proof.
  unfold queryLastCommit. intros HE. inv_bind HE. apply rc_pk_ok in E0 as [Ep ->].
  inv_bind HE. inv_bind HE. apply on_Con_inv in E1.
  exists a, a0, (rc_ConsumerCon r), (rc_ConsumerCon s), a1. split_and!; [done|done|done|].
  destruct a1 as [c|]; [|by injection HE as <- _].
  inv_bind HE. by injection HE as <- _.
Qed.

Lemma retry_pk {A} (f : M rc A) ctx n r a r' :
  preserves only_Con f → retry_Do ctx n f r = (Ok a, r') →
  ∃ r0, only_Con r r0 ∧ f r0 = (Ok a, r').
Proof.
  intros Hf HE%retry_sound. remember (Ok a) as o eqn:Eo.
  induction HE; simplify_eq; try (eexists; split; [|done]; reflexivity).
  destruct IHHE as (r0 & Ho & Hr); [done|]. exists r0. split; [|done].
  etrans; [by eapply Hf|done].
Qed.

Lemma GetLast_ok r h r' :
  GetLastCommittedHeight r = (Ok h, r') → last_answer (rc_BtcPk r) h.
Proof.
  unfold GetLastCommittedHeight, lastCommittedPublicRandWithRetry. intros HE. inv_bind HE.
  apply retry_pk in E0 as (r0 & (Epk & _) & Hq); [|apply queryLastCommit_only].
  apply queryLastCommit_ok in Hq. rewrite Epk in Hq. by injection HE as <- _.
Qed.

Lemma getTip_ok r b r' : getLatestBlockHeightWithRetry r = (Ok b, r') → tip_answer b.
Proof.
  unfold getLatestBlockHeightWithRetry. intros (r0 & HE)%go_wrap_ok%retry_ok.
  unfold queryTip in HE. inv_bind HE. apply go_try_ok in E0.
  destruct a as [e|[b'|]]; [done| |done]. injection HE as <- _.
  apply on_Con_inv in E0. by eexists _, _.
Qed.

(** The decision on numbers. *)
Lemma commitStart_some last tipd num start :
  (last + 1 < two64)%N → (tipd + num < two64)%N →
  commitStart last tipd num = Some start →
  (last < start ∧ tipd ≤ start ∧ last < tipd + num)%N
  ∧ start = (if (last <? tipd)%N then tipd else last + 1)%N.
Proof.
  unfold commitStart. intros Hl Ht. rewrite !u64_add_small by lia.
  destruct (last <? tipd)%N eqn:E1; btests; [intros [= <-]; lia|].
  destruct (last <? tipd + num)%N eqn:E2; btests; [intros [= <-]; lia|done].
Qed.

Lemma commitStart_none last tipd num :
  (tipd + num < two64)%N → commitStart last tipd num = None ↔ (tipd + num ≤ last)%N.
Proof.
  unfold commitStart. intros Ht. rewrite u64_add_small by lia.
  destruct (last <? tipd)%N eqn:E1; btests; [split; [done|lia]|].
  destruct (last <? tipd + num)%N eqn:E2; btests; split; [done|lia|lia|done].
Qed.
End lemmas.

(** ** Properties *)

Section properties.
Context `{CryptoLaws} `{BigEndianLaws} `{MerkleLaws} `{RetryLaws}.
Context {D C E : Type} `{!KvBackend D} `{!KvLaws D} `{!ConsumerController C} `{!EOTSManager E}.
Local Abbreviation rc := (DefaultRandomnessCommitter D C E).
Implicit Types r : rc.

(** C24: a new commitment never overlaps an old one.  When [ShouldCommit] asks
    for a commitment it starts above the last committed height the chain
    reported, at or above the finality activation height and at or above the
    tip plus the timestamping delay; it asks for none exactly when the
    committed randomness reaches the tip plus the delay plus the size of a
    commitment. *)
Theorem ShouldCommit_no_overlap r should start r'
    (Hrun : ShouldCommit r = (Ok (should, start), r')) :
  ∃ last tip, last_answer (C:=C) (rc_BtcPk r) last ∧ tip_answer (C:=C) tip ∧
    let tipd := (blk_height tip + Z.to_N (TimestampingDelayBlocks (rc_Cfg r)))%N in
    (last + 1 < two64)%N → (tipd + NumPubRand (rc_Cfg r) < two64)%N →
    if should then
      (last < start ∧ tipd ≤ start ∧ last < tipd + NumPubRand (rc_Cfg r))%N
      ∧ ∃ act, activation_answer (C:=C) act ∧ (act ≤ start)%N
    else (tipd + NumPubRand (rc_Cfg r) ≤ last)%N.
Proof.
  unfold ShouldCommit in Hrun. inv_bind Hrun. inv_bind Hrun.
  pose proof (GetLastCommittedHeight_only _ _ _ E0) as (_ & Ec1 & _).
  pose proof (getTip_only _ _ _ E1) as (_ & Ec2 & _).
  apply GetLast_ok in E0. apply getTip_ok in E1. exists a, a0. split_and!; [done|done|].
  intros tipd Hl Ht. erewrite go_bind_run in Hrun; [|reflexivity]. rewrite Ec2, Ec1 in Hrun.
  destruct (_ <? 0)%Z; [done|]. rewrite u64_add_small in Hrun by (fold tipd; lia). fold tipd in Hrun.
  destruct (commitStart a tipd (NumPubRand (rc_Cfg r))) as [st|] eqn:Es.
  - inv_bind Hrun. apply on_Con_inv in E2. injection Hrun as <- <- _.
    apply commitStart_some in Es as [(H1' & H2' & H3') _]; [|done..].
    split; [lia|]. exists a1. split; [by eexists _, _|lia].
  - injection Hrun as <- <- _. by apply commitStart_none in Es.
Qed.

(** Committing catches up: at a fixed tip two commitments of [num >= 1]
    heights are always enough, after which no further one is asked for,
    whatever was committed before and wherever finality activates. *)
Theorem commits_catch_up last tipd num act (Hnum : (1 ≤ num)%N)
    (Hb : (last + tipd + act + 3 * num + 3 < two64)%N) :
  let next l := match commitStart l tipd num with
                | Some s => (N.max s act + num - 1)%N
                | None => l
                end in
  commitStart (next (next last)) tipd num = None.
Proof.
  intros next. apply commitStart_none; [lia|]. unfold next.
  destruct (commitStart last tipd num) as [s1|] eqn:E1.
  - apply commitStart_some in E1 as [(Hl & Ht & _) Es]; [|lia|lia].
    assert (s1 ≤ N.max tipd (last + 1))%N by (destruct (last <? tipd)%N; lia).
    destruct (commitStart _ tipd num) as [s2|] eqn:E2.
    + apply commitStart_some in E2 as [(Hl2 & Ht2 & _) _]; lia.
    + apply commitStart_none in E2; lia.
  - pose proof E1 as Hn. apply commitStart_none in Hn; [|lia]. rewrite E1. lia.
Qed.

(** C25: what a commitment contains: [Commit] sends the chain the Merkle root
    of exactly the [NumPubRand] public randomness values of the heights from
    [start] on, signed over the start height, the number and the root, and
    the proof of every one of these heights is in the store before the
    transaction is sent. *)
Theorem Commit_content r start res r' pk (Hpk : rc_BtcPk r = Some pk)
    (Hrange : (start + NumPubRand (rc_Cfg r) < two64)%N)
    (Hopen : kv_begin (rc_PubRandState r') = None)
    (Hrun : Commit start r = (Ok res, r')) :
  ∃ prs e1 e2 btcPk sig c, let '(root, proofs) := GetPubRandCommitAndProofs prs in
    let chain := default [] (rcc_ChainID (rc_Cfg r)) in
    em_CreateRandomnessPairList pk chain start (NumPubRand (rc_Cfg r)) [] (rc_Em r) = (Ok prs, e1)
    ∧ length prs = N.to_nat (NumPubRand (rc_Cfg r))
    ∧ em_SignSchnorrSig pk (getHashToSignForCommitPubRandWithContext "" start (lenN prs) root) e1
      = (Ok sig, e2)
    ∧ MustToBTCPK pk = Ok btcPk
    ∧ cc_CommitPubRandList (mkCommitReq _ btcPk start (lenN prs) root sig) c
      = (Ok res, rc_ConsumerCon r')
    ∧ ∃ bs, GetPubRandProofList chain pk start (NumPubRand (rc_Cfg r)) (rc_PubRandState r')
            = (Ok bs, rc_PubRandState r')
          ∧ Forall2 (λ p b, Proof_Marshal p = Ok b) proofs bs.
Proof.
  unfold Commit in Hrun. erewrite go_bind_run in Hrun; [|reflexivity]. inv_bind Hrun.
  unfold rc_getPubRandList in E0. inv_bind E0. apply rc_pk_ok in E1 as [Epk ->].
  rewrite Hpk in Epk. injection Epk as <-. erewrite go_bind_run in E0; [|reflexivity].
  apply go_wrap_ok, on_rcEm_inv in E0 as (Hrand & B1 & C1 & P1 & _).
  destruct (GetPubRandCommitAndProofs a) as [root proofs] eqn:Eg.
  inv_bind Hrun. apply rc_pk_ok in E0 as [Epk ->]. rewrite B1, Hpk in Epk. injection Epk as <-.
  erewrite go_bind_run in Hrun; [|reflexivity]. rewrite C1 in Hrun.
  inv_bind Hrun. apply on_PubRand_inv in E0 as (Hadd & B2 & C2 & M2 & _).
  unfold addPubRandProofList in Hadd. apply go_wrap_ok in Hadd. destruct a0.
  inv_bind Hrun. unfold SignPubRandCommit in E0. inv_bind E0. apply rc_pk_ok in E1 as [Epk ->].
  rewrite B2, B1, Hpk in Epk. injection Epk as <-.
  apply go_wrap_ok, on_rcEm_inv in E0 as (Hsig & B3 & C3 & P3 & _).
  inv_bind Hrun. pose proof (on_Con_only _ _ _ _ (go_wrap_ok _ _ _ _ _ Hrun)) as (_ & _ & P4 & _).
  apply go_wrap_ok, on_Con_inv in Hrun.
  exists a, (rc_Em s), (rc_Em s1), a1, a0, (rc_ConsumerCon s1). rewrite Eg.
  rewrite M2 in Hsig. rewrite P4, P3 in *.
  pose proof (AddPubRandProofList_ok _ _ _ _ _ _ _ _ Hadd) as (Hl & bs & Hm & Hhas & Hp).
  assert (length proofs = length a) as Hlen.
  { pose proof (proofs_length (FieldVal_Bytes <$> a)) as Hpl. rewrite length_fmap in Hpl.
    unfold GetPubRandCommitAndProofs in Eg. by rewrite Eg in Hpl. }
  split_and!; [done|lia|done|done|done|].
  rewrite buildKeys_default in Hp.
  destruct (putProofs_ok _ _ _ _ Hp) as (Hget & _ & Hh'); [apply buildKeys_NoDup; lia|].
  apply marshalProofs_ok in Hm. exists bs. split; [|done].
  unfold GetPubRandProofList, go_wrap. rewrite kv_view_run by done. rewrite Hh', Hhas. simpl.
  rewrite (getProofs_run _ _ bs); [done|]. rewrite buildKeys_default.
  apply Forall2_same_length_lookup_2.
  - rewrite buildKeys_length, <- (Forall2_length _ _ _ Hm). lia.
  - intros i k v. apply Hget.
Qed.
End properties.

(** ** Witnesses *)

Module CommitterWitness.
Import LmToy ChainToy.

Definition w_pk : bytes := toy_pk true.
Definition w_cfg : RandomnessCommitterConfig := mkRcCfg 3 2 0 (Some toy_chain).
Definition w_rc : DefaultRandomnessCommitter MapDb.db toy_consumer (LocalEOTSManager toy_keyring MapDb.db) :=
  mkRC (Some w_pk) w_cfg (pr_initBuckets MapDb.empty).2 (toy_tc [] 0) toy_lm.

Lemma ShouldCommit_no_overlap_witness :
  (ShouldCommit w_rc).1 = Ok (true, 122%N)
  ∧ ∃ last tip, last_answer (C:=toy_consumer) (Some w_pk) last ∧ tip_answer (C:=toy_consumer) tip.
Proof.
  split; [vm_eq|].
  destruct (ShouldCommit_no_overlap w_rc true 122 (ShouldCommit w_rc).2) as (last & tip & Hl & Ht & _);
    [apply run_eq; vm_eq|]. by exists last, tip.
Defined.

Lemma commits_catch_up_witness :
  let next l := match commitStart l 10 3 with Some s => (N.max s 5 + 3 - 1)%N | None => l end in
  commitStart (next (next 0%N)) 10 3 = None.
Proof. apply (commits_catch_up 0 10 3 5); done. Defined.

Definition w_committed := Commit 122 w_rc.

Lemma w_committed_run : w_committed = (Ok (Some (mkTxResponse "commit" [])), w_committed.2).
Proof. apply run_eq. vm_eq. Qed.

Lemma Commit_content_witness :
  w_committed = (Ok (Some (mkTxResponse "commit" [])), w_committed.2)
  ∧ ∃ prs, length prs = 3%nat
      ∧ (em_CreateRandomnessPairList w_pk toy_chain 122 3 [] toy_lm).1 = Ok prs.
Proof.
  split; [exact w_committed_run|].
  destruct (Commit_content w_rc 122 (Some (mkTxResponse "commit" [])) w_committed.2 w_pk)
    as (prs & e1 & e2 & btcPk & sig & c & Hall); [done|done|done|exact w_committed_run|].
  destruct (GetPubRandCommitAndProofs prs) as [root proofs].
  destruct Hall as (Hc & Hl & _). exists prs. split; [exact Hl|].
  change (default [] (rcc_ChainID (rc_Cfg w_rc))) with toy_chain in Hc.
  change (NumPubRand (rc_Cfg w_rc)) with 3%N in Hc. change (rc_Em w_rc) with toy_lm in Hc.
  by rewrite Hc.
Defined.
End CommitterWitness.
