(* ===== verification/Bootstrap.v ===== *)
(** * The start height (src/finality-provider/service/bootstrap.go)

    Where a finality provider instance begins to process blocks. *)

From Stdlib Require Import NArith Lia.
From stdpp Require Import base gmap strings list.
From S2P Require Import Prelude Kvdb External Config Toy EotsApi FpStore ChainApi.

Section determiner.
Context `{Crypto} `{Retry} {C : Type} `{!ConsumerController C}.
Context (cfg : ChainPollerConfig).

Definition highestVotedHeightWithRetry (btcPk : bytes) : M C N :=
  go_wrap "failed to query the highest voted height"
    (retry_Do true RtyAttNum
       (pk ← go_lift (MustToBTCPK btcPk);
        go_wrap "failed to query the highest voted height"
          (cc_QueryFinalityProviderHighestVotedHeight pk))).

(** no finalized block: the height stays 0 *)
Definition latestFinalizedHeightWithRetry : M C N :=
  go_wrap "failed to query the latest finalized height"
    (retry_Do true RtyAttNum
       (block ← go_wrap "failed to query the latest finalized height" cc_QueryLatestFinalizedBlock;
        mret (match block with None => 0%N | Some b => blk_height b end))).

Definition getFinalityActivationHeightWithRetry : M C N :=
  go_wrap "failed to query the finality activation height"
    (retry_Do true RtyAttNum
       (go_wrap "failed to query the finality activation height"
          cc_QueryFinalityActivationBlockHeight)).

(** A nil public key or function is [None]; the last voted height comes from
    local state and does not touch the chain. *)
Definition DetermineStartHeight (btcPk : option bytes) (lastVotedHeightFunc : option (outcome N))
    : M C N :=
  match btcPk, lastVotedHeightFunc with
  | None, _ => go_fail (EText "BIP340 public key cannot be nil")
  | Some _, None => go_fail (EText "lastVotedHeightFunc cannot be nil")
  | Some btcPk, Some lastVoted =>
      if negb (AutoChainScanningMode cfg) then mret (StaticChainScanningStartHeight cfg)
      else
        highestVotedHeight ← go_wrap "failed to get the highest voted height"
                               (highestVotedHeightWithRetry btcPk);
        lastFinalizedHeight ← go_wrap "failed to get the last finalized height"
                                latestFinalizedHeightWithRetry;
        lastVotedHeight ← go_lift (wrap_err "failed to get last voted height" lastVoted);
        let startHeight :=
          u64_add (N.max (N.max lastVotedHeight highestVotedHeight) lastFinalizedHeight) 1 in
        finalityActivationHeight ← go_wrap "failed to get finality activation height"
                                     getFinalityActivationHeightWithRetry;
        mret (N.max startHeight finalityActivationHeight)
  end.
End determiner.

(** ** What the determiner preserves *)

Section frame.
Context `{Crypto} `{RetryLaws} {C : Type} `{!ConsumerController C}.
Context (cfg : ChainPollerConfig) (R : relation C) `{!PreOrder R}.
Context (Rvoted : ∀ pk, preserves R (cc_QueryFinalityProviderHighestVotedHeight pk)).
Context (Rfinal : preserves R cc_QueryLatestFinalizedBlock).
Context (Ractive : preserves R cc_QueryFinalityActivationBlockHeight).
#[local] Hint Resolve Rvoted Rfinal Ractive : preserves.

Lemma frame_DetermineStartHeight pk f : preserves R (DetermineStartHeight cfg pk f).
Proof.
  unfold DetermineStartHeight, highestVotedHeightWithRetry, latestFinalizedHeightWithRetry,
    getFinalityActivationHeightWithRetry.
  solve_preserves; apply preserves_retry; [apply _|solve_preserves|apply _|solve_preserves|apply _|].
  solve_preserves.
Qed.
End frame.

(** ** Properties *)

Section properties.
Context `{Crypto} `{RetryLaws} {C : Type} `{!ConsumerController C}.
Context (cfg : ChainPollerConfig).

(** what the chain answered to the three queries *)
Definition voted_answer (pk : PublicKey) (h : N) : Prop :=
  ∃ c c' : C, cc_QueryFinalityProviderHighestVotedHeight pk c = (Ok h, c').
Definition finalized_answer (h : N) : Prop :=
  ∃ (c c' : C) b, cc_QueryLatestFinalizedBlock c = (Ok b, c')
    ∧ h = match b with None => 0%N | Some b => blk_height b end.
Definition activated_answer (h : N) : Prop :=
  ∃ c c' : C, cc_QueryFinalityActivationBlockHeight c = (Ok h, c').

(** The start height, in terms of the answers of the chain. *)
Lemma DetermineStartHeight_ok btcPk lastVoted c start c' :
  DetermineStartHeight cfg (Some btcPk) (Some (Ok lastVoted)) c = (Ok start, c') →
  if AutoChainScanningMode cfg then
    ∃ pk voted final act, MustToBTCPK btcPk = Ok pk ∧ voted_answer pk voted
      ∧ finalized_answer final ∧ activated_answer act
      ∧ start = N.max (u64_add (N.max (N.max lastVoted voted) final) 1) act
  else start = StaticChainScanningStartHeight cfg.
Proof.
  unfold DetermineStartHeight. intros Hrun. destruct (AutoChainScanningMode cfg); simpl in Hrun;
    [|by injection Hrun as <- _].
  inv_bind Hrun. inv_bind Hrun. inv_bind Hrun. inv_bind Hrun. injection Hrun as <- _.
  unfold highestVotedHeightWithRetry in E. apply go_wrap_ok, retry_ok in E as (c1 & E).
  inv_bind E. unfold latestFinalizedHeightWithRetry in E0.
  apply go_wrap_ok, retry_ok in E0 as (c2 & E0). inv_bind E0. injection E0 as <- _.
  unfold getFinalityActivationHeightWithRetry in E2.
  apply go_wrap_ok, retry_ok in E2 as (c3 & E2). apply go_wrap_ok in E2, E.
  injection E1 as <-. exists a3, a, (match a4 with None => 0%N | Some b => blk_height b end), a2.
  split_and!; [done|by eexists _, _|by eexists _, _, _|by eexists _, _|done].
Qed.

(** In auto scanning mode the start height is the least height that is
    above the local last voted height, above the highest voted height and
    the last finalized height the chain reported, and not below the finality
    activation height, so a provider never restarts on a block it voted for
    or one that is final; in static mode it is the configured height. *)
Theorem DetermineStartHeight_safe btcPk lastVoted c start c'
    (Hrun : DetermineStartHeight cfg (Some btcPk) (Some (Ok lastVoted)) c = (Ok start, c')) :
  if AutoChainScanningMode cfg then
    ∃ pk voted final act, MustToBTCPK btcPk = Ok pk ∧ voted_answer pk voted
      ∧ finalized_answer final ∧ activated_answer act
      ∧ ((N.max (N.max lastVoted voted) final + 1 < two64)%N →
         (lastVoted < start ∧ voted < start ∧ final < start ∧ act ≤ start)%N
         ∧ ∀ h, (lastVoted < h → voted < h → final < h → act ≤ h → start ≤ h)%N)
  else start = StaticChainScanningStartHeight cfg.
Proof.
  apply DetermineStartHeight_ok in Hrun. destruct (AutoChainScanningMode cfg); [|done].
  destruct Hrun as (pk & voted & final & act & Hpk & Hv & Hf & Ha & ->).
  exists pk, voted, final, act. split_and!; [done..|].
  intros Hb. rewrite u64_add_small by done. split; [lia|]. intros h. lia.
Qed.
End properties.

(** ** Witnesses *)

Module BootstrapWitness.
Import ChainToy.

Definition w_cfg : ChainPollerConfig := DefaultChainPollerConfig.
Definition w_tc : toy_consumer := mkToyConsumer _ 120 [] [] 5 8 11 0 [].

Lemma DetermineStartHeight_safe_witness :
  DetermineStartHeight w_cfg (Some (toy_pk true)) (Some (Ok 3%N)) w_tc = (Ok 12%N, w_tc)
  ∧ ∃ pk voted final act, MustToBTCPK (toy_pk true) = Ok pk ∧ voted_answer (C:=toy_consumer) pk voted
      ∧ finalized_answer (C:=toy_consumer) final ∧ activated_answer (C:=toy_consumer) act.
Proof.
  split; [vm_eq|].
  destruct (DetermineStartHeight_safe w_cfg (toy_pk true) 3 w_tc 12 w_tc)
    as (pk & voted & final & act & H1 & H2 & H3 & H4 & _); [vm_eq|].
  by exists pk, voted, final, act.
Defined.
End BootstrapWitness.
