(* ===== verification/ChainPoller.v ===== *)
(** * The chain poller (src/finality-provider/service/chain_poller.go)

    A goroutine that waits for finality to be activated, then polls the chain
    at every tick and hands the blocks over through a bounded channel.  The
    operations are functions on the poller's state; the goroutine, its select
    statements and the reader of the channel are the step relation
    [poller_step], one rule per blocking point. *)

From Stdlib Require Import NArith Lia.
From stdpp Require Import base gmap strings list relations.
From S2P Require Import Prelude Kvdb External Config Toy EotsApi ChainApi Bootstrap.

Definition maxFailedCycles : N := 20.
Definition defaultBufferSize : N := 100.

(** Where the goroutine is: not started, waiting for activation, waiting for a
    tick, sending the blocks of a cycle ([last] being the last of them),
    stopped by [logger.Fatal], or returned. *)
Inductive phase :=
| PIdle
| PWaiting
| PTicking (failedCycles : N)
| PSending (failedCycles : N) (rest : list BlockInfo) (lastBlock : BlockInfo)
| PFatal
| PReturned.

Record ChainPoller (C : Type) := mkCP {
  cp_isStarted : bool;
  cp_quit : bool;  (** the quit channel is closed *)
  cp_consumerCon : C;
  cp_nextHeight : N;
  cp_blockChan : list BlockInfo;
  cp_chanClosed : bool;
  cp_blockChanSize : N;
  cp_phase : phase;
}.
Arguments mkCP {C}.
Arguments cp_isStarted {C}.
Arguments cp_quit {C}.
Arguments cp_consumerCon {C}.
Arguments cp_nextHeight {C}.
Arguments cp_blockChan {C}.
Arguments cp_chanClosed {C}.
Arguments cp_blockChanSize {C}.
Arguments cp_phase {C}.

Section poller.
Context `{Crypto} `{Retry} {C : Type} `{!ConsumerController C}.
Context (cfg : ChainPollerConfig).
Local Abbreviation cp := (ChainPoller C).

Definition NewChainPoller (con : C) : cp :=
  let bufferSize := if (0 <? BufferSize cfg)%N then BufferSize cfg else defaultBufferSize in
  mkCP false false con 0 [] false bufferSize PIdle.

Definition with_phase (p : cp) (ph : phase) : cp :=
  mkCP (cp_isStarted p) (cp_quit p) (cp_consumerCon p) (cp_nextHeight p) (cp_blockChan p)
    (cp_chanClosed p) (cp_blockChanSize p) ph.
Definition with_con (p : cp) (c : C) : cp :=
  mkCP (cp_isStarted p) (cp_quit p) c (cp_nextHeight p) (cp_blockChan p)
    (cp_chanClosed p) (cp_blockChanSize p) (cp_phase p).
Definition with_chan (p : cp) (l : list BlockInfo) : cp :=
  mkCP (cp_isStarted p) (cp_quit p) (cp_consumerCon p) (cp_nextHeight p) l
    (cp_chanClosed p) (cp_blockChanSize p) (cp_phase p).
Definition setNextHeight (p : cp) (h : N) : cp :=
  mkCP (cp_isStarted p) (cp_quit p) (cp_consumerCon p) h (cp_blockChan p)
    (cp_chanClosed p) (cp_blockChanSize p) (cp_phase p).
Definition getNextHeight (p : cp) : N := cp_nextHeight p.

(** ** Reading *)

(** A receive from an empty closed channel yields the nil block. *)
Definition TryNextBlock (p : cp) : option BlockInfo * cp :=
  if negb (cp_isStarted p) then (None, p)
  else match cp_blockChan p with
       | b :: rest => (Some b, with_chan p rest)
       | [] => (None, p)
       end.

(** Which case of the [select] was taken. *)
Inductive next_case := NextRecv | NextCtxDone | NextQuit.

(** [None]: the chosen case is not ready. *)
Definition NextBlock (sel : next_case) (p : cp) : option (outcome BlockInfo * cp) :=
  if negb (cp_isStarted p) then Some (Err (EText "chain poller is not running"), p)
  else match sel with
       | NextRecv =>
           match cp_blockChan p with
           | b :: rest => Some (Ok b, with_chan p rest)
           | [] => if cp_chanClosed p then Some (Err (EText "received nil block from channel"), p)
                   else None
           end
       | NextCtxDone => Some (Err (EText "context done: context canceled"), p)
       | NextQuit => if cp_quit p then Some (Err (EText "chain poller is shutting down"), p) else None
       end.

(** ** Starting and stopping *)

Definition SetStartHeight (height : N) (p : cp) : outcome unit * cp :=
  if cp_isStarted p then (Err (EText "the chain poller has already started"), p)
  else (Ok (), mkCP true false (cp_consumerCon p) height [] false (cp_blockChanSize p) PWaiting).

(** [Stop] up to [cp.wg.Wait()]: closing a closed channel panics. *)
Definition Stop_begin (p : cp) : outcome unit * cp :=
  if negb (cp_isStarted p) then (Err (EText "the chain poller has already stopped"), p)
  else if cp_quit p then (Crash "close of closed channel", p)
  else (Ok (), mkCP false true (cp_consumerCon p) (cp_nextHeight p) (cp_blockChan p)
                 (cp_chanClosed p) (cp_blockChanSize p) (cp_phase p)).

(** The rest of [Stop], once the goroutine has returned. *)
Definition Stop_end (p : cp) : cp :=
  mkCP (cp_isStarted p) (cp_quit p) (cp_consumerCon p) (cp_nextHeight p) (cp_blockChan p)
    true (cp_blockChanSize p) (cp_phase p).

(** ** The goroutine *)

(** One tick of [waitForActivation]. *)
Definition activationTick (p : cp) : cp :=
  match cc_QueryFinalityActivationBlockHeight (cp_consumerCon p) with
  | (Ok activatedHeight, c) =>
      let p1 := with_con p c in
      let p2 := if (cp_nextHeight p1 <? activatedHeight)%N then setNextHeight p1 activatedHeight else p1 in
      with_phase p2 (PTicking 0)
  | (_, c) => with_con p c
  end.

Definition blocksWithRetry (start fin limit : N) : M C (list BlockInfo) :=
  go_wrap "failed to query blocks"
    (retry_Do false RtyAttNum
       (go_wrap "failed to query blocks" (cc_QueryBlocks (mkQueryBlocksRequest start fin limit)))).

Definition latestBlockHeightWithRetry : M C N :=
  b ← go_wrap "failed to query latest block height"
        (retry_Do true RtyAttNum
           (r ← go_try cc_QueryLatestBlock;
            match r with
            | inl err => go_fail (wrapf "failed to query latest block height" err)
            | inr None => go_fail (EWrapNil "failed to query latest block height: ")
            | inr (Some b) => mret b
            end));
  mret (blk_height b).

(** The queries of [tryPollChain]. *)
Definition fetchBlocks (latestBlockHeight blockToRetrieve : N) : M C (list BlockInfo) :=
  if (latestBlockHeight <? blockToRetrieve)%N then mret []
  else if (blockToRetrieve =? latestBlockHeight)%N then
    latestBlock ← go_wrap "failed to query latest block" (cc_QueryBlock latestBlockHeight);
    mret [latestBlock]
  else go_wrap "failed to query block range"
         (blocksWithRetry blockToRetrieve latestBlockHeight (PollSize cfg)).

(** [pollCycle] up to the sending of the blocks. *)
Definition pollFetch (blockToRetrieve : N) : M C (list BlockInfo) :=
  latestBlockHeight ← go_wrap "failed to get latest block height" latestBlockHeightWithRetry;
  fetchBlocks latestBlockHeight blockToRetrieve.

(** A failed cycle. *)
Definition cycleFailed (failedCycles : N) : phase :=
  let failedCycles' := u32_add failedCycles 1 in
  if (maxFailedCycles <? failedCycles')%N then PFatal else PTicking failedCycles'.

(** A tick of [pollChain]: fetch, and start sending when there are blocks. *)
Definition pollTick (failedCycles : N) (p : cp) : cp :=
  match pollFetch (getNextHeight p) (cp_consumerCon p) with
  | (Ok blocks, c) =>
      let p1 := with_con p c in
      match last blocks with
      | None => with_phase p1 (PTicking 0)
      | Some lastBlock => with_phase p1 (PSending failedCycles blocks lastBlock)
      end
  | (Err _, c) => with_phase (with_con p c) (cycleFailed failedCycles)
  | (Crash _, c) => with_phase (with_con p c) PFatal
  end.

(** The channel accepts the next block. *)
Definition sendBlock (p : cp) : option (BlockInfo * cp) :=
  match cp_phase p with
  | PSending fc (b :: rest) lastBlock =>
      if (lenN (cp_blockChan p) <? cp_blockChanSize p)%N then
        Some (b, with_phase (with_chan p (cp_blockChan p ++ [b])) (PSending fc rest lastBlock))
      else None
  | _ => None
  end.

(** All the blocks were sent. *)
Definition cycleDone (p : cp) : option cp :=
  match cp_phase p with
  | PSending fc [] lastBlock =>
      Some (with_phase (setNextHeight p (u64_add (blk_height lastBlock) 1)) (PTicking 0))
  | _ => None
  end.

(** Why sending was given up: quit, context, or a channel that stayed full. *)
Inductive abort_case := AbortQuit | AbortCtx | AbortFull.

Definition abortSend (why : abort_case) (p : cp) : option cp :=
  match cp_phase p with
  | PSending fc (_ :: _) _ =>
      let ready := match why with
                   | AbortQuit => cp_quit p
                   | AbortCtx => true
                   | AbortFull => negb (lenN (cp_blockChan p) <? cp_blockChanSize p)%N
                   end in
      if ready then Some (with_phase p (cycleFailed fc)) else None
  | _ => None
  end.

(** ** Steps

    The poller with what was ever sent to and received from the current
    channel, and the height polling started from. *)
Record pworld := mkPW {
  pw_cp : cp;
  pw_sent : list BlockInfo;
  pw_recv : list BlockInfo;
  pw_start : N;
}.

Inductive poller_step : pworld → pworld → Prop :=
| step_start h w p' :
    SetStartHeight h (pw_cp w) = (Ok (), p') →
    cp_phase (pw_cp w) = PIdle ∨ cp_phase (pw_cp w) = PReturned →
    poller_step w (mkPW p' [] [] h)
| step_activation w :
    cp_phase (pw_cp w) = PWaiting →
    poller_step w (mkPW (activationTick (pw_cp w)) (pw_sent w) (pw_recv w)
                     (cp_nextHeight (activationTick (pw_cp w))))
| step_tick w fc :
    cp_phase (pw_cp w) = PTicking fc →
    poller_step w (mkPW (pollTick fc (pw_cp w)) (pw_sent w) (pw_recv w) (pw_start w))
| step_send w b p' :
    sendBlock (pw_cp w) = Some (b, p') →
    poller_step w (mkPW p' (pw_sent w ++ [b]) (pw_recv w) (pw_start w))
| step_done w p' :
    cycleDone (pw_cp w) = Some p' →
    poller_step w (mkPW p' (pw_sent w) (pw_recv w) (pw_start w))
| step_abort why w p' :
    abortSend why (pw_cp w) = Some p' →
    poller_step w (mkPW p' (pw_sent w) (pw_recv w) (pw_start w))
| step_return w ph :
    cp_phase (pw_cp w) = ph → (ph = PWaiting ∨ ∃ fc, ph = PTicking fc) →
    poller_step w (mkPW (with_phase (pw_cp w) PReturned) (pw_sent w) (pw_recv w) (pw_start w))
| step_try w b p' :
    TryNextBlock (pw_cp w) = (Some b, p') →
    poller_step w (mkPW p' (pw_sent w) (pw_recv w ++ [b]) (pw_start w))
| step_next w b p' :
    NextBlock NextRecv (pw_cp w) = Some (Ok b, p') →
    poller_step w (mkPW p' (pw_sent w) (pw_recv w ++ [b]) (pw_start w))
| step_stop w p' :
    Stop_begin (pw_cp w) = (Ok (), p') →
    poller_step w (mkPW p' (pw_sent w) (pw_recv w) (pw_start w))
| step_stopped w :
    cp_quit (pw_cp w) = true → cp_phase (pw_cp w) = PReturned →
    poller_step w (mkPW (Stop_end (pw_cp w)) (pw_sent w) (pw_recv w) (pw_start w)).

Definition poller_init (con : C) : pworld := mkPW (NewChainPoller con) [] [] 0.
End poller.

(** ** The contract of the chain queries

    A block query answers with the block of that height; a range query answers
    with consecutive blocks from the start of the range, not beyond its end;
    heights stay below the top of the uint64 range. *)
Class BlockQuerierLaws `{Crypto} (C : Type) `{!ConsumerController C} : Prop := {
  bq_block h c b c' : cc_QueryBlock h c = (Ok b, c') → blk_height b = h;
  bq_blocks req c bs c' : is_u64 (qb_EndHeight req) → cc_QueryBlocks req c = (Ok bs, c') →
    ∀ i b, bs !! i = Some b →
      blk_height b = (qb_StartHeight req + N.of_nat i)%N ∧ (blk_height b ≤ qb_EndHeight req)%N;
  bq_tip c b c' : cc_QueryLatestBlock c = (Ok (Some b), c') → (blk_height b + 1 < two64)%N;
}.

(** ** Invariant *)

Section invariant.
Context `{Crypto} `{RetryLaws} {C : Type} `{!ConsumerController C} `{!BlockQuerierLaws C}.
Context (cfg : ChainPollerConfig).
Local Abbreviation cp := (ChainPoller C).
Local Abbreviation pw := (pworld (C := C)).

(** blocks of consecutive heights from [h] on *)
Definition consecutive (h : N) (l : list BlockInfo) : Prop :=
  ∀ i b, l !! i = Some b → blk_height b = (h + N.of_nat i)%N ∧ (blk_height b + 1 < two64)%N.

Lemma latest_ok c h c' : latestBlockHeightWithRetry c = (Ok h, c') → (h + 1 < two64)%N.
Proof.
  unfold latestBlockHeightWithRetry. intros HE. inv_bind HE. injection HE as <- <-.
  apply retry_ok in E as (c0 & E). inv_bind E. apply go_try_ok in E0.
  destruct a0 as [e|[b|]]; [done| |done]. injection E as <- _. by eapply bq_tip.
Qed.

Lemma latest_is_u64 (h : N) : (h + 1 < two64)%N → is_u64 h.
Proof. unfold is_u64. lia. Qed.

Lemma pollFetch_ok h c bs c' : pollFetch cfg h c = (Ok bs, c') → consecutive h bs.
Proof.
  unfold pollFetch. intros HE. inv_bind HE. apply latest_ok in E. unfold fetchBlocks in HE.
  destruct (a <? h)%N eqn:E1; [injection HE as <- _; intros i b Hi; by rewrite lookup_nil in Hi|].
  destruct (h =? a)%N eqn:E2; btests.
  - inv_bind HE. injection HE as <- _. apply bq_block in E0. intros [|i] b Hi; [|done].
    injection Hi as <-. rewrite E0. lia.
  - apply go_wrap_ok in HE. unfold blocksWithRetry in HE. apply go_wrap_ok, retry_ok in HE as (c0 & HE).
    apply go_wrap_ok in HE. pose proof (bq_blocks (mkQueryBlocksRequest h a (PollSize cfg)) _ _ _ (latest_is_u64 _ E) HE) as Hb. intros i b Hi.
    destruct (Hb _ _ Hi) as [Hh Hle]. simpl in *. lia.
Qed.

(** everything between the start and the next height was sent *)
Definition covered (start next : N) (sent : list BlockInfo) : Prop :=
  (start ≤ next)%N ∧ ∀ h, (start ≤ h < next)%N → h ∈ blk_height <$> sent.

Definition phase_inv (w : pw) : Prop :=
  let p := pw_cp w in
  match cp_phase p with
  | PIdle => pw_sent w = []
  | PWaiting => pw_sent w = [] ∧ pw_start w = cp_nextHeight p
  | PTicking fc => covered (pw_start w) (cp_nextHeight p) (pw_sent w) ∧ (fc ≤ maxFailedCycles)%N
  | PSending fc rest lastBlock =>
      covered (pw_start w) (cp_nextHeight p) (pw_sent w) ∧ (fc ≤ maxFailedCycles)%N
      ∧ ∃ sent_now, last (sent_now ++ rest) = Some lastBlock
          ∧ consecutive (cp_nextHeight p) (sent_now ++ rest)
          ∧ ∀ b, b ∈ sent_now → b ∈ pw_sent w
  | PFatal | PReturned => covered (pw_start w) (cp_nextHeight p) (pw_sent w)
  end.

Definition poller_inv (w : pw) : Prop :=
  pw_sent w = pw_recv w ++ cp_blockChan (pw_cp w)
  ∧ (lenN (cp_blockChan (pw_cp w)) ≤ cp_blockChanSize (pw_cp w))%N
  ∧ phase_inv w.

Lemma covered_nil s : covered s s [].
Proof. split; [done|]. intros h. lia. Qed.
Lemma covered_app s n sent l : covered s n sent → covered s n (sent ++ l).
Proof.
  intros [Hle Hc]. split; [done|]. intros h Hh. rewrite fmap_app. apply elem_of_app. left. auto.
Qed.

(** A finished batch extends the covered range. *)
Lemma covered_batch s n sent batch lastBlock :
  covered s n sent → consecutive n batch → last batch = Some lastBlock →
  (∀ b, b ∈ batch → b ∈ sent) → covered s (u64_add (blk_height lastBlock) 1) sent.
Proof.
  intros [Hle Hc] Hcons Hlast Hsub.
  rewrite last_lookup in Hlast. destruct (Hcons _ _ Hlast) as [Hh Hr].
  pose proof (lookup_lt_Some _ _ _ Hlast) as Hlt.
  rewrite u64_add_small by done. split; [lia|]. intros h Hin.
  destruct (decide (h < n)%N) as [Hn|Hn]; [apply Hc; lia|].
  destruct (lookup_lt_is_Some_2 batch (N.to_nat (h - n))) as [b Hb]; [lia|].
  apply list_elem_of_fmap. exists b. destruct (Hcons _ _ Hb) as [Hbh _]. split; [lia|].
  by eapply Hsub, list_elem_of_lookup_2.
Qed.

Lemma cycleFailed_inv fc :
  (fc ≤ maxFailedCycles)%N →
  cycleFailed fc = PFatal ∨ ∃ fc', cycleFailed fc = PTicking fc' ∧ (fc' ≤ maxFailedCycles)%N.
Proof.
  unfold cycleFailed. intros Hle. destruct (_ <? _)%N eqn:El; [by left|btests; right; eauto].
Qed.

(** The phase of a state after a failed cycle. *)
Lemma phase_failed (p : cp) sent recv start fc :
  covered start (cp_nextHeight p) sent → (fc ≤ maxFailedCycles)%N →
  phase_inv (mkPW (with_phase p (cycleFailed fc)) sent recv start).
Proof.
  intros Hc Hfc. unfold phase_inv. simpl.
  destruct (cycleFailed_inv fc Hfc) as [->|(fc' & -> & Hle)]; [done|by split].
Qed.

Lemma pollTick_inv fc (w : pw) :
  cp_phase (pw_cp w) = PTicking fc → poller_inv w →
  poller_inv (mkPW (pollTick cfg fc (pw_cp w)) (pw_sent w) (pw_recv w) (pw_start w)).
Proof.
  intros Hph (Hfifo & Hcap & Hp). unfold phase_inv in Hp. rewrite Hph in Hp. destruct Hp as [Hc Hfc].
  unfold pollTick, poller_inv. simpl.
  destruct (pollFetch cfg _ (cp_consumerCon (pw_cp w))) as [[bs|e|wh] c] eqn:Ef; simpl.
  - apply pollFetch_ok in Ef. destruct (last bs) as [lb|] eqn:El; simpl.
    + split_and!; [done|done|]. unfold phase_inv. simpl. split_and!; [done|done|].
      exists []. simpl. split_and!; [done|done|]. intros b Hb. by apply elem_of_nil in Hb.
    + split_and!; [done|done|]. unfold phase_inv. simpl. split; [done|]. unfold maxFailedCycles. lia.
  - split_and!; [done|done|]. by apply phase_failed.
  - by split_and!.
Qed.

Lemma activation_inv (w : pw) :
  cp_phase (pw_cp w) = PWaiting → poller_inv w →
  poller_inv (mkPW (activationTick (pw_cp w)) (pw_sent w) (pw_recv w)
                (cp_nextHeight (activationTick (pw_cp w)))).
Proof.
  intros Hph (Hfifo & Hcap & Hp). unfold phase_inv in Hp. rewrite Hph in Hp. destruct Hp as [Hs Hst].
  assert (phase_inv (mkPW (activationTick (pw_cp w)) (pw_sent w) (pw_recv w)
            (cp_nextHeight (activationTick (pw_cp w))))) as Hpi.
  { unfold phase_inv, activationTick. simpl. rewrite Hs.
    destruct (cc_QueryFinalityActivationBlockHeight _) as [[h|e|x] c]; simpl;
      [|rewrite Hph; by split..].
    split; [apply covered_nil|unfold maxFailedCycles; lia]. }
  split_and!; [..|exact Hpi]; simpl; unfold activationTick;
    destruct (cc_QueryFinalityActivationBlockHeight _) as [[h|e|x] c]; simpl; try done;
    by destruct (_ <? _)%N.
Qed.

Lemma send_inv (w : pw) b p' :
  sendBlock (pw_cp w) = Some (b, p') → poller_inv w →
  poller_inv (mkPW p' (pw_sent w ++ [b]) (pw_recv w) (pw_start w)).
Proof.
  unfold sendBlock. intros HE (Hfifo & Hcap & Hp). unfold phase_inv in Hp.
  destruct (cp_phase (pw_cp w)) as [| |fc|fc rest lb| |] eqn:Eph; try done.
  destruct rest as [|b0 rest]; [done|]. destruct (_ <? _)%N eqn:El; [|done]. btests.
  injection HE as <- <-. unfold poller_inv. simpl. split_and!.
  - by rewrite Hfifo, app_assoc.
  - unfold lenN in *. rewrite length_app. simpl. lia.
  - unfold phase_inv. simpl. destruct Hp as (Hc & Hfc & now & Hl & Hcons & Hsub).
    split_and!; [by apply covered_app|done|]. exists (now ++ [b0]). rewrite <- app_assoc. simpl.
    split_and!; [done|done|]. intros b. rewrite !elem_of_app. intros [?|?]; [left; auto|by right].
Qed.

Lemma poller_step_inv w w' : poller_step cfg w w' → poller_inv w → poller_inv w'.
Proof.
  intros Hstep Hinv. pose proof Hinv as (Hfifo & Hcap & Hp). destruct Hstep as
    [h w p' HE Hph|w Hph|w fc Hph|w b p' HE|w p' HE|why w p' HE|w ph Hph Hph'|w b p' HE|w b p' HE|w p' HE|w Hq Hph].
  - unfold SetStartHeight in HE. destruct (cp_isStarted _); [done|]. injection HE as <-.
    split_and!; [done|simpl; unfold lenN; simpl; lia|]. by split.
  - by apply activation_inv.
  - by apply pollTick_inv.
  - by eapply send_inv.
  - unfold cycleDone in HE. unfold phase_inv in Hp.
    destruct (cp_phase (pw_cp w)) as [| |fc|fc rest lb| |] eqn:Eph; try done.
    destruct rest; [|done]. injection HE as <-. destruct Hp as (Hc & Hfc & now & Hl & Hcons & Hsub).
    rewrite app_nil_r in *. split_and!; [done|done|]. unfold phase_inv. simpl.
    split; [by eapply covered_batch|unfold maxFailedCycles; lia].
  - unfold abortSend in HE. unfold phase_inv in Hp.
    destruct (cp_phase (pw_cp w)) as [| |fc|fc rest lb| |] eqn:Eph; try done.
    destruct rest; [done|]. destruct Hp as (Hc & Hfc & _).
    assert (p' = with_phase (pw_cp w) (cycleFailed fc)) as ->
      by (destruct why; repeat case_match; congruence).
    split_and!; [done|done|]. by apply phase_failed.
  - split_and!; [done|done|]. unfold phase_inv in *. simpl. rewrite Hph in Hp.
    destruct Hph' as [->|[fc ->]]; simpl in Hp; [|by destruct Hp].
    destruct Hp as [-> ->]. apply covered_nil.
  - unfold TryNextBlock in HE. destruct (negb _); [done|].
    destruct (cp_blockChan (pw_cp w)) as [|b0 rest] eqn:Ec; [done|]. injection HE as <- <-.
    split_and!; simpl; [by rewrite Hfifo, <- app_assoc|unfold lenN in *; simpl in *; lia|done].
  - unfold NextBlock in HE. destruct (negb _); [done|].
    destruct (cp_blockChan (pw_cp w)) as [|b0 rest] eqn:Ec; [by destruct (cp_chanClosed _)|].
    injection HE as <- <-.
    split_and!; simpl; [by rewrite Hfifo, <- app_assoc|unfold lenN in *; simpl in *; lia|done].
  - unfold Stop_begin in HE. destruct (negb _); [done|]. destruct (cp_quit _); [done|].
    injection HE as <-. by split_and!.
  - by split_and!.
Qed.

Lemma poller_reachable_inv con w : rtc (poller_step cfg) (poller_init cfg con) w → poller_inv w.
Proof.
  intros Hr. remember (poller_init cfg con) as w0 eqn:E0.
  assert (poller_inv w0) as Hinv.
  { subst w0. split_and!; [done|simpl; unfold lenN; simpl; lia|done]. }
  clear E0. induction Hr as [|w1 w2 w3 Hstep _ IH]; [done|]. apply IH. by eapply poller_step_inv.
Qed.
End invariant.

(** ** Properties *)

Section properties.
Context `{Crypto} `{RetryLaws} {C : Type} `{!ConsumerController C} `{!BlockQuerierLaws C}.
Context (cfg : ChainPollerConfig).

(** C9: the poller skips no block and loses none: in every reachable state,
    every height from where polling started up to the next height to poll was
    sent to the channel, the reader has received exactly the blocks sent so
    far, in order, except those still in the channel, and the channel never
    holds more than its capacity. *)
Theorem poller_no_gap (con : C) w
    (Hreach : rtc (poller_step cfg) (poller_init cfg con) w) :
  pw_sent w = pw_recv w ++ cp_blockChan (pw_cp w)
  ∧ (lenN (cp_blockChan (pw_cp w)) ≤ cp_blockChanSize (pw_cp w))%N
  ∧ (cp_phase (pw_cp w) ≠ PIdle → cp_phase (pw_cp w) ≠ PWaiting →
     ∀ h, (pw_start w ≤ h < cp_nextHeight (pw_cp w))%N → h ∈ blk_height <$> pw_sent w).
Proof.
  apply poller_reachable_inv in Hreach as (Hfifo & Hcap & Hp). split_and!; [done|done|].
  intros Hni Hnw. unfold phase_inv in Hp. destruct (cp_phase (pw_cp w)); try done;
    destruct Hp as [Hc Hp']; first [apply Hc|exact Hp'].
Qed.

End properties.

(** ** Witnesses *)

Module PollerWitness.
Import ChainToy.

#[local] Instance toy_querier_laws : BlockQuerierLaws toy_consumer.
Proof.
  split.
  - intros h c b c'. simpl. destruct (_ <=? _)%N; by intros [= <- _].
  - intros req c bs c' _ [= <- _] i b Hi. rewrite list_lookup_fmap in Hi.
    destruct (seq 0 _ !! i) as [j|] eqn:Ej; [|done]. injection Hi as <-.
    apply lookup_seq in Ej as [-> Hj]. simpl. lia.
  - intros c b c' [= <- _]. simpl. unfold MaxUint64, two64. lia.
Qed.

Definition w_cfg : ChainPollerConfig := mkPollerCfg 1 1000000000 1 true 1000.
Definition w0 := poller_init w_cfg (toy_tc [] 0).
Definition w1 := mkPW (SetStartHeight 119 (pw_cp w0)).2 [] [] 119.
Definition w2 := mkPW (activationTick (pw_cp w1)) [] [] (cp_nextHeight (activationTick (pw_cp w1))).
Definition w3 := mkPW (pollTick w_cfg 0 (pw_cp w2)) [] [] (pw_start w2).
Definition w_b (h : N) : BlockInfo := NewBlockInfo h [Byte.x07] false.
Definition next_of (o : option (BlockInfo * ChainPoller toy_consumer)) (d : ChainPoller toy_consumer) :=
  match o with Some (_, p) => p | None => d end.
Definition w4 := mkPW (next_of (sendBlock (pw_cp w3)) (pw_cp w3)) [w_b 119] [] (pw_start w3).
Definition w5 := mkPW (default (pw_cp w4) (abortSend AbortFull (pw_cp w4))) [w_b 119] [] (pw_start w4).
Definition w6 := mkPW (TryNextBlock (pw_cp w5)).2 [w_b 119] [w_b 119] (pw_start w5).
Definition w7 := mkPW (pollTick w_cfg 1 (pw_cp w6)) [w_b 119] [w_b 119] (pw_start w6).
Definition w8 :=
  mkPW (next_of (sendBlock (pw_cp w7)) (pw_cp w7)) [w_b 119; w_b 119] [w_b 119] (pw_start w7).

Lemma w2_reached : rtc (poller_step w_cfg) w0 w2.
Proof.
  eapply rtc_l; [apply (step_start w_cfg 119 w0 (pw_cp w1)); [vm_eq|by left]|].
  apply rtc_once. apply (step_activation w_cfg w1). vm_eq.
Qed.

Lemma w8_reached : rtc (poller_step w_cfg) w0 w8.
Proof.
  etrans; [apply w2_reached|].
  eapply rtc_l; [apply (step_tick w_cfg w2 0); vm_eq|].
  eapply rtc_l; [apply (step_send w_cfg w3 (w_b 119) (pw_cp w4)); vm_eq|].
  eapply rtc_l; [apply (step_abort w_cfg AbortFull w4 (pw_cp w5)); vm_eq|].
  eapply rtc_l; [apply (step_try w_cfg w5 (w_b 119) (pw_cp w6)); vm_eq|].
  eapply rtc_l; [apply (step_tick w_cfg w6 1); vm_eq|].
  apply rtc_once. apply (step_send w_cfg w7 (w_b 119) (pw_cp w8)). vm_eq.
Qed.

Lemma poller_no_gap_witness : pw_sent w8 = pw_recv w8 ++ cp_blockChan (pw_cp w8).
Proof. apply (poller_no_gap w_cfg (toy_tc [] 0) w8). apply w8_reached. Defined.


(** A batch that was sent in part is sent again from its first block once the
    channel has room: the reader receives height 119 twice. *)
Theorem poller_resends_after_backpressure :
  rtc (poller_step w_cfg) (poller_init w_cfg (toy_tc [] 0)) w8
  ∧ blk_height <$> pw_sent w8 = [119; 119]%N.
Proof. split; [apply w8_reached|vm_eq]. Qed.
End PollerWitness.
