(* ===== verification/BbnConsumer.v ===== *)
(** * The Babylon controllers (src/clientcontroller/babylon)

    [BabylonConsumerController] (consumer.go) and the registration calls of
    [ClientWrapper] (babylon.go) on top of babylon's client, which is the
    parameter [BbnClient].  The consumer controller implements
    [ConsumerController] of [ChainApi.v] and keeps the contract
    [BlockQuerierLaws] the poller relies on. *)

From Stdlib Require Import NArith ZArith Lia.
From stdpp Require Import base gmap strings list pretty.
From S2P Require Import Prelude Kvdb External Config Toy Util EotsApi ChainApi Bootstrap ChainPoller.

(** ** Messages and responses of the client *)

(** Babylon and CometBFT types the messages carry without looking inside. *)
Class BbnTypes := {
  CmtProof : Type;
  CmtProof_Unmarshal : bytes → outcome CmtProof;
}.

Inductive sdkMsg `{Crypto} `{Sdk} `{BbnTypes} :=
| MsgCommitPubRandList (Signer : string) (FpBtcPk : bytes) (StartHeight NumPubRand : N)
    (Commitment Sig : bytes)
| MsgAddFinalitySig (Signer : string) (FpBtcPk : bytes) (BlockHeight : N) (PubRand : bytes)
    (Proof : CmtProof) (BlockAppHash FinalitySig : bytes)
| MsgUnjailFinalityProvider (Signer : string) (FpBtcPk : bytes)
| MsgCreateFinalityProvider (Addr : string) (BtcPk : bytes) (Pop : ProofOfPossessionBTC)
    (Commission : CommissionRates) (Desc : Description)
| MsgEditFinalityProvider (msg : EditFpMsg).

Record RelayerTxResponse := mkRelayerTxResponse { rtr_TxHash : string; rtr_Events : list RelayerEvent }.

Inductive QueriedBlockStatus := STATUS_FINALIZED | STATUS_ANY.
Record PageRequest := mkPageRequest { pg_Key : option bytes; pg_Limit : N; pg_Reverse : bool }.
Record IndexedBlock := mkIndexedBlock { ib_Height : N; ib_AppHash : bytes; ib_Finalized : bool }.
Record PubRandCommitResponse := mkCommitResponse {
  pcr_NumPubRand : N; pcr_Commitment : bytes; pcr_EpochNum : N;
}.
(** [lpr_NextKey] is [None] when the pagination or its next key is nil. *)
Record ListPubRandCommitResponse := mkListCommitResponse {
  lpr_Map : gmap N PubRandCommitResponse; lpr_NextKey : option bytes;
}.

(** The calls on [*bbnclient.Client]. *)
Class BbnClient `{Crypto} `{Sdk} `{BbnTypes} (B : Type) := {
  (** [GetKeyring().Key(name)]: the record, as what its [GetAddress()] returns *)
  bbn_Key : string → M B (outcome bytes);
  bbn_ReliablySendMsgs : list sdkMsg → list string → list string → M B (option RelayerTxResponse);
  bbn_FinalityProviderPowerAtHeight : string → N → M B N;
  bbn_ListBlocks : QueriedBlockStatus → PageRequest → M B (list IndexedBlock);
  bbn_Block : N → M B IndexedBlock;
  bbn_ListPubRandCommit : string → PageRequest → M B ListPubRandCommitResponse;
  bbn_FinalityParams : M B N;
  bbn_FinalityProvider : string → M B FinalityProviderResponse;
  (** [RPCClient.BlockchainInfo(ctx, 0, 0)]: height and app hash of the headers *)
  bbn_BlockchainInfo : M B (list (Z * bytes));
  bbn_IsRunning : B → bool;
  bbn_Stop : M B unit;
}.

(** [sdk.MustBech32ifyAddressBytes(prefix, addr)] *)
Class Bech32 := MustBech32ifyAddressBytes : string → bytes → outcome string.

Record BabylonConsumerController (B : Type) := mkBCC { bc_bbnClient : B; bc_cfg : BBNConfig }.
Arguments mkBCC {B}.
Arguments bc_bbnClient {B}.
Arguments bc_cfg {B}.

(** ** The index of a failed message

    [messageIndexRegex] is [message index:\s*(\d+)]; the leftmost match is
    taken, and [\s] and [\d] are ASCII classes. *)

Definition is_space (c : Ascii.ascii) : bool :=
  let n := Ascii.N_of_ascii c in
  (n =? 9)%N || (n =? 10)%N || (n =? 12)%N || (n =? 13)%N || (n =? 32)%N.
Definition is_digit (c : Ascii.ascii) : bool :=
  let n := Ascii.N_of_ascii c in (48 <=? n)%N && (n <=? 57)%N.

Fixpoint skip_spaces (s : string) : string :=
  match s with
  | String c s' => if is_space c then skip_spaces s' else s
  | EmptyString => EmptyString
  end.
Fixpoint take_digits (s : string) : string :=
  match s with
  | String c s' => if is_digit c then String c (take_digits s') else EmptyString
  | EmptyString => EmptyString
  end.
Fixpoint strip_prefix (p s : string) : option string :=
  match p, s with
  | EmptyString, _ => Some s
  | String a p', String b s' => if bool_decide (a = b) then strip_prefix p' s' else None
  | String _ _, EmptyString => None
  end.

Definition messageIndex_here (s : string) : option string :=
  match strip_prefix "message index:" s with
  | None => None
  | Some rest =>
      match take_digits (skip_spaces rest) with
      | EmptyString => None
      | digits => Some digits
      end
  end.
Fixpoint messageIndexRegex_find (s : string) : option string :=
  match messageIndex_here s with
  | Some digits => Some digits
  | None =>
      match s with
      | String _ s' => messageIndexRegex_find s'
      | EmptyString => None
      end
  end.

(** [strconv.Atoi] of a string of digits: an int is 64 bits wide. *)
Fixpoint digits_value (acc : N) (s : string) : N :=
  match s with
  | String c s' => digits_value (10 * acc + (Ascii.N_of_ascii c - 48)) s'
  | EmptyString => acc
  end.
Definition MaxInt64 : N := 9223372036854775807.
Definition Atoi_digits (s : string) : option N :=
  let n := digits_value 0 s in if (n <=? MaxInt64)%N then Some n else None.

Definition FailedMessageIndex (err : error) : option N :=
  match messageIndexRegex_find (Error err) with
  | Some digits => Atoi_digits digits
  | None => None
  end.

(** [append(msgs[:index], msgs[index+1:]...)] *)
Definition RemoveMsgAtIndex {A} (msgs : list A) (index : Z) : list A :=
  if (index <? 0)%Z || (Z.of_nat (length msgs) <=? index)%Z then msgs
  else take (Z.to_nat index) msgs ++ drop (S (Z.to_nat index)) msgs.

Definition BatchRetries {A} (msgs : list A) (maxRetriesBatchRemovingMsgs : N) : N :=
  let maxRetriesByMsgLen := lenN msgs in
  if (maxRetriesBatchRemovingMsgs =? 0)%N then maxRetriesByMsgLen
  else if (maxRetriesByMsgLen <? maxRetriesBatchRemovingMsgs)%N then maxRetriesByMsgLen
  else maxRetriesBatchRemovingMsgs.

(** [strings.EqualFold] of ASCII strings, such as bech32 addresses *)
Definition to_lower (c : Ascii.ascii) : Ascii.ascii :=
  let n := Ascii.N_of_ascii c in
  if (65 <=? n)%N && (n <=? 90)%N then Ascii.ascii_of_N (n + 32) else c.
Fixpoint EqualFold (s t : string) : bool :=
  match s, t with
  | EmptyString, EmptyString => true
  | String a s', String b t' => bool_decide (to_lower a = to_lower b) && EqualFold s' t'
  | _, _ => false
  end.

(** [errors.Join(err, e)] for an [err] that may be nil *)
Definition errors_Join (err : option error) (e : error) : error :=
  match err with Some e0 => EJoin e0 e | None => e end.

(** ** The consumer controller *)

Section consumer.
Context `{Crypto} `{Sdk} `{BbnTypes} `{BigEndian} `{BabylonErrors} `{Bech32}.
Context {B : Type} `{!BbnClient B}.
#[local] Abbreviation bcc := (BabylonConsumerController B).

Definition on_client {A} (m : M B A) : M bcc A := λ bc,
  let '(r, b') := m (bc_bbnClient bc) in (r, mkBCC b' (bc_cfg bc)).

Definition GetKeyAddress : M bcc bytes :=
  bc ← go_get;
  keyRec ← go_try (on_client (bbn_Key (bbn_cfg_Key (bc_cfg bc))));
  match keyRec with
  | inl err => go_crash ("Failed to get key address: " +:+ Error err)
  | inr (Ok addr) => mret addr
  | inr (Err err) => go_crash ("Failed to get key address: " +:+ Error err)
  | inr (Crash w) => go_crash w
  end.

Definition MustGetTxSigner : M bcc string :=
  signer ← GetKeyAddress;
  bc ← go_get;
  go_lift (MustBech32ifyAddressBytes (bbn_cfg_AccountPrefix (bc_cfg bc)) signer).

Definition reliablySendMsgs (msgs : list sdkMsg) (expectedErrs unrecoverableErrs : list string)
    : M bcc (option RelayerTxResponse) :=
  go_wrap "failed to reliably send messages"
    (on_client (bbn_ReliablySendMsgs msgs expectedErrs unrecoverableErrs)).

Definition reliablySendMsg (msg : sdkMsg) (expectedErrs unrecoverableErrs : list string)
    : M bcc (option RelayerTxResponse) :=
  reliablySendMsgs [msg] expectedErrs unrecoverableErrs.

(** [res.TxHash] of a nil response *)
Definition deref_res (res : option RelayerTxResponse) : M bcc RelayerTxResponse :=
  match res with Some r => mret r | None => go_crash "nil pointer dereference" end.

Definition CommitPubRandList (req : CommitPubRandListRequest) : M bcc (option TxResponse) :=
  signer ← MustGetTxSigner;
  let msg := MsgCommitPubRandList signer (BIP340FromBTCPK (com_FpPk req)) (com_StartHeight req)
               (com_NumPubRand req) (com_Commitment req)
               (NewBIP340SignatureFromBTCSig (com_Sig req)) in
  let unrecoverableErrs := [ErrInvalidPubRand; ErrTooFewPubRand; ErrNoPubRandYet; ErrFpNotFound] in
  res ← reliablySendMsg msg [] unrecoverableErrs;
  res ← deref_res res;
  mret (Some (mkTxResponse (rtr_TxHash res) [])).

(** The loop that builds one [MsgAddFinalitySig] per block. *)
Fixpoint buildMsgs (req : SubmitBatchFinalitySigsRequest) (i : nat) (blocks : list BlockInfo)
    : M bcc (list sdkMsg) :=
  match blocks with
  | [] => mret []
  | b :: rest =>
      match sub_ProofList req !! i with
      | None => go_crash "index out of range"
      | Some proofBytes =>
          cmtProof ← go_wrap "failed to unmarshal proof" (go_lift (CmtProof_Unmarshal proofBytes));
          signer ← MustGetTxSigner;
          match sub_PubRandList req !! i, sub_Sigs req !! i with
          | Some pr, Some sig =>
              let msg := MsgAddFinalitySig signer (BIP340FromBTCPK (sub_FpPk req)) (blk_height b)
                           (NewSchnorrPubRandFromFieldVal pr) cmtProof (blk_Hash b)
                           (NewSchnorrEOTSSigFromModNScalar sig) in
              msgs ← buildMsgs req (S i) rest;
              mret (msg :: msgs)
          | _, _ => go_crash "index out of range"
          end
      end
  end.

(** One iteration of the loop of [reliablySendMsgsResendingOnMsgErr] per
    [n]; [err] joins the errors of the iterations before. *)
Fixpoint resendLoop (n : nat) (msgs : list sdkMsg) (expectedErrs unrecoverableErrs : list string)
    (err : option error) : M bcc (option TxResponse) :=
  match n with
  | O =>
      match err with
      | Some err =>
          if errorContained err expectedErrs then mret (Some (mkTxResponse "" []))
          else go_fail (wrapf "failed to send batch of msgs" err)
      | None => go_fail (EWrapNil "failed to send batch of msgs: ")
      end
  | S n' =>
      let allUnrecoverable := unrecoverableErrs ++ expectedErrs in
      r ← go_try (on_client (bbn_ReliablySendMsgs msgs [] allUnrecoverable));
      match r with
      | inl errSendMsg =>
          let err := errors_Join err errSendMsg in
          match FailedMessageIndex errSendMsg with
          | Some failedIndex =>
              if errorContained errSendMsg expectedErrs then
                resendLoop n' (RemoveMsgAtIndex msgs (Z.of_N failedIndex)) expectedErrs
                  unrecoverableErrs (Some err)
              else go_fail (wrapf "failed to send batch of msgs" errSendMsg)
          | None => go_fail (wrapf "failed to send batch of msgs" errSendMsg)
          end
      | inr None => mret None
      | inr (Some res) => mret (Some (mkTxResponse (rtr_TxHash res) (rtr_Events res)))
      end
  end.

Definition reliablySendMsgsResendingOnMsgErr (msgs : list sdkMsg)
    (expectedErrs unrecoverableErrs : list string) : M bcc (option TxResponse) :=
  bc ← go_get;
  let maxRetries := BatchRetries msgs (MaxRetriesBatchRemovingMsgs (bc_cfg bc)) in
  resendLoop (N.to_nat maxRetries) msgs expectedErrs unrecoverableErrs None.

Definition sig_unrecoverableErrs : list string :=
  [ErrInvalidFinalitySig; ErrPubRandNotFound; ErrFpAlreadySlashed].
Definition sig_expectedErrs : list string := [ErrDuplicatedFinalitySig; ErrSigHeightOutdated].

Definition SubmitBatchFinalitySigs (req : SubmitBatchFinalitySigsRequest)
    : M bcc (option TxResponse) :=
  if negb (length (sub_Blocks req) =? length (sub_Sigs req))%nat then
    go_fail (EText ("the number of blocks " +:+ fmt_d (lenN (sub_Blocks req))
      +:+ " should match the number of finality signatures " +:+ fmt_d (lenN (sub_Sigs req))))
  else
    msgs ← buildMsgs req 0 (sub_Blocks req);
    res ← reliablySendMsgsResendingOnMsgErr msgs sig_expectedErrs sig_unrecoverableErrs;
    match res with
    | None => mret (Some (mkTxResponse "" []))
    | Some res => mret (Some res)
    end.

Definition pk_hex (fpPk : PublicKey) : string := MarshalHex (BIP340FromBTCPK fpPk).

Definition QueryFinalityProviderHasPower (fpPk : PublicKey) (blockHeight : N) : M bcc bool :=
  r ← go_try (on_client (bbn_FinalityProviderPowerAtHeight (pk_hex fpPk) blockHeight));
  match r with
  | inl err =>
      if Contains (Error err) ErrVotingPowerTableNotUpdated then mret false
      else go_fail (wrapf ("failed to query the finality provider's voting power at height "
                             +:+ fmt_d blockHeight) err)
  | inr power => mret (0 <? power)%N
  end.

Definition queryLatestBlocks (startKey : option bytes) (count : N) (status : QueriedBlockStatus)
    (reverse : bool) : M bcc (list BlockInfo) :=
  res ← go_wrap "failed to query finalized blocks"
          (on_client (bbn_ListBlocks status (mkPageRequest startKey count reverse)));
  let heights := ib_Height <$> res in
  let blocks := (λ b, NewBlockInfo (ib_Height b) (ib_AppHash b) (ib_Finalized b)) <$> res in
  _ ← go_wrap "RPC returned invalid block list" (go_lift (ValidateNoDuplicateHeights heights));
  mret blocks.

(** [blocks == nil]: no block was appended. *)
Definition QueryLatestFinalizedBlock : M bcc (option BlockInfo) :=
  blocks ← queryLatestBlocks None 1 STATUS_FINALIZED true;
  mret (head blocks).

Definition QueryBlocks (req : QueryBlocksRequest) : M bcc (list BlockInfo) :=
  if (qb_EndHeight req <? qb_StartHeight req)%N then
    go_fail (EText ("the startHeight " +:+ fmt_d (qb_StartHeight req)
      +:+ " should not be higher than the endHeight " +:+ fmt_d (qb_EndHeight req)))
  else
    let count := u64_add (u64_sub (qb_EndHeight req) (qb_StartHeight req)) 1 in
    let count := if (qb_Limit req <? count)%N then qb_Limit req else count in
    queryLatestBlocks (Some (Uint64ToBigEndian (qb_StartHeight req))) count STATUS_ANY false.

Definition indexed_block_error (height : N) : string :=
  "failed to query indexed block at height " +:+ fmt_d height.

Definition QueryBlock (height : N) : M bcc BlockInfo :=
  res ← go_wrap (indexed_block_error height) (on_client (bbn_Block height));
  mret (NewBlockInfo height (ib_AppHash res) (ib_Finalized res)).

Definition QueryIsBlockFinalized (height : N) : M bcc bool :=
  res ← go_wrap (indexed_block_error height) (on_client (bbn_Block height));
  mret (ib_Finalized res).

(** The one commit of a response of length 1. *)
Definition commit_of (h : N) (c : PubRandCommitResponse) : BabylonPubRandCommit.t :=
  BabylonPubRandCommit.mk h (pcr_NumPubRand c) (pcr_EpochNum c) (pcr_Commitment c).
Definition first_commit (m : gmap N PubRandCommitResponse) : option BabylonPubRandCommit.t :=
  match map_to_list m with
  | [] => None
  | (h, c) :: _ => Some (commit_of h c)
  end.

Definition too_many_commits (m : gmap N PubRandCommitResponse) : error :=
  EText ("expected length to be 1, but get :" +:+ fmt_d (N.of_nat (size m))).

Definition QueryLastPubRandCommit (fpPk : PublicKey) : M bcc (option PubRandCommit) :=
  res ← go_wrap "failed to query committed public randomness"
          (on_client (bbn_ListPubRandCommit (pk_hex fpPk) (mkPageRequest None 1 true)));
  if (size (lpr_Map res) =? 0)%nat then mret None
  else if (1 <? size (lpr_Map res))%nat then go_fail (too_many_commits (lpr_Map res))
  else
    match first_commit (lpr_Map res) with
    | None => go_fail (EText ("no public randomness commitment found for finality provider "
                                +:+ pk_hex fpPk))
    | Some commit =>
        _ ← go_wrap "failed to validate public randomness commitment"
              (go_lift (BabylonPubRandCommit.Validate commit));
        mret (Some (BabylonPubRandCommit.to_commit commit))
    end.

(** The paging loop of [QueryPubRandCommitList]; [None] when [fuel] pages were
    not enough. *)
Fixpoint commitPages (fuel : nat) (hex : string) (startHeight : N) (key : option bytes)
    (commitList : list BabylonPubRandCommit.t) (bc : bcc)
    : option (outcome (list BabylonPubRandCommit.t) * bcc) :=
  match fuel with
  | O => None
  | S fuel' =>
      match on_client (bbn_ListPubRandCommit hex (mkPageRequest key 1 false)) bc with
      | (Err err, bc') => Some (Err (wrapf "failed to query committed public randomness" err), bc')
      | (Crash w, bc') => Some (Crash w, bc')
      | (Ok res, bc') =>
          if (size (lpr_Map res) =? 0)%nat then Some (Ok [], bc')
          else if (1 <? size (lpr_Map res))%nat then Some (Err (too_many_commits (lpr_Map res)), bc')
          else
            match first_commit (lpr_Map res) with
            | None => Some (Crash "nil pointer dereference", bc')
            | Some commit =>
                match BabylonPubRandCommit.Validate commit with
                | Err err =>
                    Some (Err (wrapf "failed to validate public randomness commitment" err), bc')
                | Crash w => Some (Crash w, bc')
                | Ok _ =>
                    let commitList :=
                      if (startHeight <=? BabylonPubRandCommit.GetEndHeight commit)%N
                      then commitList ++ [commit] else commitList in
                    match lpr_NextKey res with
                    | None => Some (Ok commitList, bc')
                    | Some key' => commitPages fuel' hex startHeight (Some key') commitList bc'
                    end
                end
            end
      end
  end.

Definition QueryPubRandCommitList (fuel : nat) (fpPk : PublicKey) (startHeight : N) (bc : bcc)
    : option (outcome (list PubRandCommit) * bcc) :=
  match commitPages fuel (pk_hex fpPk) startHeight None [] bc with
  | None => None
  | Some (r, bc') => Some (fmap (M := outcome) (fmap (M := list) BabylonPubRandCommit.to_commit) r, bc')
  end.

Definition QueryFinalityActivationBlockHeight : M bcc N :=
  go_wrap "failed to query finality params to get finality activation block height"
    (on_client bbn_FinalityParams).

Definition QueryFinalityProviderHighestVotedHeight (fpPk : PublicKey) : M bcc N :=
  res ← go_wrap ("failed to query highest voted height for finality provider " +:+ pk_hex fpPk)
          (on_client (bbn_FinalityProvider (pk_hex fpPk)));
  mret (fpr_HighestVotedHeight res).

(** [uint64(h)] of an int64 *)
Definition u64_of_Z (z : Z) : N := Z.to_N (z mod Z.of_N two64).

Definition queryCometBestBlock : M bcc BlockInfo :=
  chainInfo ← go_wrap "failed to query comet best block" (on_client bbn_BlockchainInfo);
  match chainInfo with
  | [] => go_crash "index out of range"
  | (h, appHash) :: _ => mret (NewBlockInfo (u64_of_Z h) appHash false)
  end.

Definition QueryLatestBlock : M bcc (option BlockInfo) :=
  r ← go_try (queryLatestBlocks None 1 STATUS_ANY true);
  match r with
  | inr [b] => mret (Some b)
  | _ => b ← queryCometBestBlock; mret (Some b)
  end.

Definition QueryFinalityProviderStatus (fpPk : PublicKey) : M bcc FinalityProviderStatusResponse :=
  res ← go_wrap ("failed to query the finality provider " +:+ pk_hex fpPk)
          (on_client (bbn_FinalityProvider (pk_hex fpPk)));
  mret (mkStatusResponse (0 <? fpr_SlashedBtcHeight res)%N (fpr_Jailed res)).

Definition Close : M bcc unit :=
  bc ← go_get;
  if negb (bbn_IsRunning (bc_bbnClient bc)) then mret ()
  else go_wrap "failed to stop babylon client" (on_client bbn_Stop).

Definition UnjailFinalityProvider (fpPk : PublicKey) : M bcc (option TxResponse) :=
  signer ← MustGetTxSigner;
  let msg := MsgUnjailFinalityProvider signer (BIP340FromBTCPK fpPk) in
  let unrecoverableErrs := [ErrFpNotFound; ErrFpNotJailed; ErrFpAlreadySlashed] in
  res ← reliablySendMsg msg [] unrecoverableErrs;
  res ← deref_res res;
  mret (Some (mkTxResponse (rtr_TxHash res) (rtr_Events res))).

(** ** Registration: babylon.go

    [ClientWrapper] has the fields and the helper methods of the consumer
    controller. *)

Definition RegisterFinalityProvider `{Codec Description} `{Codec ProofOfPossessionBTC} (req : RegisterFinalityProviderRequest)
    : M bcc (option TxResponse) :=
  bbnPop ← go_wrap "invalid proof-of-possession" (go_lift (unmarshal (reg_Pop req)));
  sdkDescription ← go_wrap "invalid description" (go_lift (unmarshal (reg_Description req)));
  fpAddr ← MustGetTxSigner;
  let msg := MsgCreateFinalityProvider fpAddr (BIP340FromBTCPK (reg_FpPk req)) bbnPop
               (reg_Commission req) sdkDescription in
  res ← reliablySendMsg msg [] [];
  res ← deref_res res;
  mret (Some (mkTxResponse (rtr_TxHash res) [])).

Definition QueryFinalityProvider (fpPk : PublicKey) : M bcc FinalityProviderResponse :=
  go_wrap ("failed to query the finality provider " +:+ pk_hex fpPk)
    (on_client (bbn_FinalityProvider (pk_hex fpPk))).

Definition getValueOrDefault (reqValue defaultValue : string) : string :=
  if negb (bool_decide (reqValue = "")) then reqValue else defaultValue.

Definition mergeDescription (reqDesc resDesc : Description) : Description :=
  mkDescription (getValueOrDefault (Moniker reqDesc) (Moniker resDesc))
    (getValueOrDefault (Identity reqDesc) (Identity resDesc))
    (getValueOrDefault (Website reqDesc) (Website resDesc))
    (getValueOrDefault (SecurityContact reqDesc) (SecurityContact resDesc))
    (getValueOrDefault (Details reqDesc) (Details resDesc)).

Definition EditFinalityProvider `{ServiceDescription} (req : EditFinalityProviderRequest)
    : M bcc EditFpMsg :=
  reqDesc ← go_wrap "failed to unmarshal description" (go_lift (sd_unmarshal (edit_Description req)));
  fpRes ← QueryFinalityProvider (edit_FpPk req);
  signer ← MustGetTxSigner;
  if negb (EqualFold (fpr_Addr fpRes) signer) then
    signer ← MustGetTxSigner;
    go_fail (EText ("the signer does not correspond to the finality provider's "
      +:+ "Babylon address, expected " +:+ signer +:+ " got " +:+ fpr_Addr fpRes))
  else
    match fpr_Description fpRes with
    | None => go_crash "nil pointer dereference"
    | Some resDesc =>
        let desc := mergeDescription reqDesc resDesc in
        signer ← MustGetTxSigner;
        let msg := mkEditFpMsg _ signer (BIP340FromBTCPK (edit_FpPk req)) desc (edit_Commission req) in
        _ ← go_wrap ("failed to query the finality provider "
                       +:+ string_of_bytes (SerializeCompressed (edit_FpPk req)))
              (reliablySendMsg (MsgEditFinalityProvider msg) [] []);
        mret msg
    end.

#[export] Instance bbn_babylon `{Codec Description} `{Codec ProofOfPossessionBTC} `{ServiceDescription}
    : BabylonController bcc := {|
  bcc_RegisterFinalityProvider := RegisterFinalityProvider;
  bcc_QueryFinalityProvider := QueryFinalityProvider;
  bcc_EditFinalityProvider := EditFinalityProvider;
|}.

(** ** The consumer interface *)

(** The number of commit pages that are followed. *)
Definition QueryPubRandCommitList_run (fuel : nat) (fpPk : PublicKey) (startHeight : N)
    : M bcc (list PubRandCommit) := λ bc,
  default (Crash "out of pages", bc) (QueryPubRandCommitList fuel fpPk startHeight bc).

#[export] Instance bbn_controller (fuel : nat) : ConsumerController bcc := {|
  cc_CommitPubRandList := CommitPubRandList;
  cc_QueryLastPubRandCommit := QueryLastPubRandCommit;
  cc_QueryPubRandCommitList := QueryPubRandCommitList_run fuel;
  cc_QueryLatestFinalizedBlock := QueryLatestFinalizedBlock;
  cc_QueryBlock := QueryBlock;
  cc_QueryBlocks := QueryBlocks;
  cc_QueryLatestBlock := QueryLatestBlock;
  cc_QueryFinalityActivationBlockHeight := QueryFinalityActivationBlockHeight;
  cc_SubmitBatchFinalitySigs := SubmitBatchFinalitySigs;
  cc_UnjailFinalityProvider := UnjailFinalityProvider;
  cc_QueryFinalityProviderHasPower := QueryFinalityProviderHasPower;
  cc_QueryFinalityProviderStatus := QueryFinalityProviderStatus;
  cc_QueryFinalityProviderHighestVotedHeight := QueryFinalityProviderHighestVotedHeight;
|}.
End consumer.

(** ** What the client promises

    A transaction executes all its messages or none; [bbn_delivered] is the
    sequence of messages the chain has executed.  A send that expects no error
    answers with a response or an error, and an error that names a message
    names one of the transaction.  Blocks are indexed by height without gaps
    and heights are non-negative int64 values. *)
Class BbnClientLaws `{Crypto} `{Sdk} `{BbnTypes} `{BigEndian} (B : Type) `{!BbnClient B} := {
  bbn_delivered : B → list sdkMsg;
  bbn_send_ok msgs ex un b res b' : bbn_ReliablySendMsgs msgs ex un b = (Ok (Some res), b') →
    bbn_delivered b' = bbn_delivered b ++ msgs;
  bbn_send_fail msgs ex un b r b' : bbn_ReliablySendMsgs msgs ex un b = (r, b') →
    is_Ok r = false → bbn_delivered b' = bbn_delivered b;
  bbn_send_response msgs un b b' : bbn_ReliablySendMsgs msgs [] un b ≠ (Ok None, b');
  bbn_send_index msgs ex un b e i b' : bbn_ReliablySendMsgs msgs ex un b = (Err e, b') →
    FailedMessageIndex e = Some i → (i < lenN msgs)%N;
  bbn_key_quiet name b r b' : bbn_Key name b = (r, b') → bbn_delivered b' = bbn_delivered b;
  bbn_list_blocks start count b l b' : is_u64 start →
    bbn_ListBlocks STATUS_ANY (mkPageRequest (Some (Uint64ToBigEndian start)) count false) b
      = (Ok l, b') →
    (lenN l ≤ count)%N ∧ ∀ i x, l !! i = Some x → ib_Height x = (start + N.of_nat i)%N;
  bbn_list_height status page b l b' x : bbn_ListBlocks status page b = (Ok l, b') → x ∈ l →
    (ib_Height x ≤ MaxInt64)%N;
  bbn_comet_height b l b' h a : bbn_BlockchainInfo b = (Ok l, b') → (h, a) ∈ l →
    (0 ≤ h ≤ Z.of_N MaxInt64)%Z;
}.

(** ** Lemmas *)

Lemma RemoveMsgAtIndex_in {A} (msgs : list A) (i : N) :
  (i < lenN msgs)%N →
  ∃ x, msgs !! N.to_nat i = Some x
    ∧ RemoveMsgAtIndex msgs (Z.of_N i) `sublist_of` msgs
    ∧ msgs ≡ₚ x :: RemoveMsgAtIndex msgs (Z.of_N i).
Proof.
  intros Hi. unfold lenN in Hi.
  destruct (lookup_lt_is_Some_2 msgs (N.to_nat i)) as [x Hx]; [lia|]. exists x. split; [done|].
  unfold RemoveMsgAtIndex. destruct (_ || _) eqn:Eb.
  { apply orb_true_iff in Eb as [Eb|Eb]; [apply Z.ltb_lt in Eb|apply Z.leb_le in Eb]; lia. }
  replace (Z.to_nat (Z.of_N i)) with (N.to_nat i) by lia.
  pose proof (take_drop_middle msgs (N.to_nat i) x Hx) as E. split.
  - transitivity (take (N.to_nat i) msgs ++ x :: drop (S (N.to_nat i)) msgs); [|by rewrite E].
    apply sublist_app; [done|]. by apply sublist_cons.
  - by rewrite <-E at 1; rewrite <-Permutation_middle.
Qed.

(** Decimal digits: [strconv.Atoi] inverts [%d]. *)
Lemma digit_char (m : N) :
  (m < 10)%N →
  is_digit (pretty_N_char m) = true ∧ Ascii.N_of_ascii (pretty_N_char m) = (m + 48)%N.
Proof.
  intros Hm. assert (m ∈ [0; 1; 2; 3; 4; 5; 6; 7; 8; 9]%N) as Hin by (rewrite !list_elem_of_In; simpl; lia).
  rewrite !list_elem_of_In in Hin. simpl in Hin. by repeat destruct Hin as [<-|Hin].
Qed.

Lemma digits_value_go (x : N) : ∀ s, digits_value 0 (pretty_N_go x s) = digits_value x s.
Proof.
  induction (N.lt_wf_0 x) as [x _ IH]. intros s.
  destruct (decide (x = 0)%N) as [->|Hx]; [by rewrite pretty_N_go_0|].
  rewrite pretty_N_go_step by lia. rewrite IH by (apply N.div_lt; lia).
  simpl. assert (x `mod` 10 < 10)%N as Hm by (apply N.mod_lt; lia).
  destruct (digit_char _ Hm) as [_ ->]. f_equal.
  rewrite N.add_sub. symmetry. apply N.div_mod'.
Qed.

Fixpoint all_digits (s : string) : bool :=
  match s with String c s' => is_digit c && all_digits s' | EmptyString => true end.

Lemma all_digits_go (x : N) : ∀ s, all_digits s = true → all_digits (pretty_N_go x s) = true.
Proof.
  induction (N.lt_wf_0 x) as [x _ IH]. intros s Hs.
  destruct (decide (x = 0)%N) as [->|Hx]; [by rewrite pretty_N_go_0|].
  rewrite pretty_N_go_step by lia. apply IH; [apply N.div_lt; lia|].
  simpl. rewrite Hs, andb_true_r. apply digit_char. apply N.mod_lt. lia.
Qed.

Lemma fmt_d_digits n : all_digits (fmt_d n) = true ∧ digits_value 0 (fmt_d n) = n ∧ fmt_d n ≠ "".
Proof.
  unfold fmt_d, pretty, pretty_N. case_decide as Hn; [by subst|].
  rewrite digits_value_go. split; [by apply all_digits_go|]. split; [done|].
  intros He. pose proof (digits_value_go n "") as Hv. rewrite He in Hv. simpl in Hv. done.
Qed.

Lemma take_digits_app s c rest :
  all_digits s = true → is_digit c = false → take_digits (s +:+ String c rest) = s.
Proof.
  intros Hs Hc. induction s as [|a s IH]; simpl in *; [by rewrite Hc|].
  apply andb_true_iff in Hs as [-> Hs]. by rewrite IH.
Qed.

(** The text cosmos-sdk gives an error of message [n]. *)
Definition message_error (n : N) (rest : string) : string :=
  "rpc error: code = Unknown desc = failed to execute message; message index: "
    +:+ fmt_d n +:+ String (Ascii.ascii_of_N 58) rest.

Lemma digits_tail n rest :
  take_digits (skip_spaces (fmt_d n +:+ String (Ascii.ascii_of_N 58) rest)) = fmt_d n.
Proof.
  destruct (fmt_d_digits n) as (Hd & _ & Hne).
  assert (∀ t, skip_spaces (fmt_d n +:+ t) = fmt_d n +:+ t) as ->.
  { intros t. destruct (fmt_d n) as [|c s]; [done|]. simpl in Hd. apply andb_true_iff in Hd as [Hc _].
    unfold is_digit in Hc. apply andb_true_iff in Hc as [Hc1 Hc2]. simpl. unfold is_space.
    destruct (_ || _) eqn:Eb; [|done]. rewrite !orb_true_iff, !N.eqb_eq in Eb. btests. lia. }
  by apply take_digits_app.
Qed.

Lemma messageIndex_find_app t d : take_digits (skip_spaces t) = d → d ≠ "" →
  messageIndexRegex_find ("message index: " +:+ t) = Some d.
Proof.
  intros Hd Hne. simpl. unfold messageIndex_here. simpl. change ("" +:+ t) with t.
  rewrite Hd. by destruct d.
Qed.

Lemma FailedMessageIndex_text n rest :
  FailedMessageIndex (EText (message_error n rest)) = Atoi_digits (fmt_d n).
Proof.
  unfold FailedMessageIndex. simpl Error.
  assert (messageIndexRegex_find (message_error n rest) = messageIndexRegex_find
    ("message index: " +:+ (fmt_d n +:+ String (Ascii.ascii_of_N 58) rest))) as -> by reflexivity.
  rewrite (messageIndex_find_app _ (fmt_d n)); [done|apply digits_tail|apply fmt_d_digits].
Qed.

Section lemmas.
Context `{Crypto} `{Sdk} `{BbnTypes} `{BigEndian} `{BabylonErrors} `{Bech32}.
Context {B : Type} `{!BbnClient B} `{!BbnClientLaws B}.
#[local] Abbreviation bcc := (BabylonConsumerController B).
Implicit Types (bc : bcc) (msgs : list sdkMsg).

Definition delivered bc : list sdkMsg := bbn_delivered (bc_bbnClient bc).
Definition quiet bc bc' : Prop := delivered bc' = delivered bc ∧ bc_cfg bc' = bc_cfg bc.

#[export] Instance quiet_preorder : PreOrder quiet.
Proof. split; [done|]. intros ??? [??] [??]. split; congruence. Qed.

Lemma on_client_inv {A} (m : M B A) bc r bc' :
  on_client m bc = (r, bc') →
  ∃ b', m (bc_bbnClient bc) = (r, b') ∧ bc' = mkBCC b' (bc_cfg bc).
Proof. unfold on_client. destruct (m _) as [r1 b1]. intros [= <- <-]. eauto. Qed.

Lemma preserves_Key name : preserves quiet (on_client (bbn_Key name)).
Proof.
  intros bc r bc' (b' & E & ->)%on_client_inv. split; [|done]. by apply bbn_key_quiet in E.
Qed.
#[local] Hint Resolve preserves_Key : preserves.

Lemma preserves_MustGetTxSigner : preserves quiet MustGetTxSigner.
Proof.
  unfold MustGetTxSigner, GetKeyAddress. solve_preserves.
Qed.
#[local] Hint Resolve preserves_MustGetTxSigner : preserves.

Lemma preserves_buildMsgs req blocks : ∀ i, preserves quiet (buildMsgs req i blocks).
Proof. induction blocks as [|b rest IH]; intros i; simpl; solve_preserves. Qed.

(** One message per block, built from the entries of its index. *)
Definition vote_msg (req : SubmitBatchFinalitySigsRequest) (i : nat) (b : BlockInfo) (m : sdkMsg)
    : Prop :=
  ∃ signer pr proofBytes proof sig,
    sub_PubRandList req !! i = Some pr ∧ sub_ProofList req !! i = Some proofBytes
    ∧ CmtProof_Unmarshal proofBytes = Ok proof ∧ sub_Sigs req !! i = Some sig
    ∧ m = MsgAddFinalitySig signer (BIP340FromBTCPK (sub_FpPk req)) (blk_height b)
            (NewSchnorrPubRandFromFieldVal pr) proof (blk_Hash b)
            (NewSchnorrEOTSSigFromModNScalar sig).

Lemma buildMsgs_ok req blocks : ∀ i bc msgs bc',
  buildMsgs req i blocks bc = (Ok msgs, bc') →
  length msgs = length blocks
  ∧ ∀ j b, blocks !! j = Some b → ∃ m, msgs !! j = Some m ∧ vote_msg req (i + j) b m.
Proof.
  induction blocks as [|b rest IH]; intros i bc msgs bc' HE; simpl in HE.
  { injection HE as <- _. by split. }
  destruct (sub_ProofList req !! i) as [pb|] eqn:Eproof; [|done].
  inv_bind HE. inv_bind HE.
  destruct (sub_PubRandList req !! i) as [pr|] eqn:Epr; [|done].
  destruct (sub_Sigs req !! i) as [sig|] eqn:Esig; [|done].
  inv_bind HE. injection HE as <- _. apply IH in E1 as [Hlen Hall]. split; [simpl; by rewrite Hlen|].
  intros [|j] b' Hb.
  - injection Hb as <-. eexists. split; [done|]. rewrite Nat.add_0_r.
    repeat eexists; eauto.
  - apply Hall in Hb as (m & Hm & Hv). exists m. split; [done|].
    by replace (i + S j)%nat with (S i + j)%nat by lia.
Qed.

(** The chain refused this message of a transaction with an expected error. *)
Definition refused (expectedErrs : list string) (m : sdkMsg) : Prop :=
  ∃ ms ex un b e i b',
    bbn_ReliablySendMsgs ms ex un b = (Err e, b') ∧ FailedMessageIndex e = Some i
    ∧ ms !! N.to_nat i = Some m ∧ errorContained e expectedErrs = true.

(** Every message was executed, was refused, or is in the rest that was given
    up after [n] removals. *)
Lemma resendLoop_ok ex un n : ∀ msgs err bc r bc',
  (n ≤ length msgs)%nat →
  resendLoop n msgs ex un err bc = (Ok r, bc') →
  ∃ kept rej rest,
    msgs ≡ₚ kept ++ rej ++ rest ∧ kept `sublist_of` msgs
    ∧ delivered bc' = delivered bc ++ kept ∧ Forall (refused ex) rej
    ∧ ((rest = [] ∧ kept ≠ [] ∧ is_Some r)
       ∨ (kept = [] ∧ length rej = n ∧ r = Some (mkTxResponse "" []))).
Proof.
  induction n as [|n IH]; intros msgs err bc r bc' Hn HE; simpl in HE.
  - destruct err as [e|]; [|done]. destruct (errorContained e ex); [|done].
    injection HE as <- <-. exists [], [], msgs. rewrite !app_nil_r.
    split_and!; [done|apply sublist_nil_l|done|done|]. by right.
  - inv_bind HE. apply go_try_ok in E. destruct a as [e|[res|]].
    + destruct (FailedMessageIndex e) as [i|] eqn:Ei; [|done].
      destruct (errorContained e ex) eqn:Eex; [|done].
      apply on_client_inv in E as (b1 & E & ->).
      pose proof (bbn_send_index _ _ _ _ _ _ _ E Ei) as Hi.
      pose proof (bbn_send_fail _ _ _ _ _ _ E eq_refl) as Hd.
      destruct (RemoveMsgAtIndex_in msgs i Hi) as (m & Hm & Hsub & Hperm).
      assert (n ≤ length (RemoveMsgAtIndex msgs (Z.of_N i)))%nat as Hn'.
      { apply Permutation_length in Hperm. simpl in Hperm. lia. }
      apply (IH _ _ _ _ _ Hn') in HE as (kept & rej & rest & Hp & Hs & Hdel & Hrej & Hcase).
      exists kept, (m :: rej), rest. split_and!.
      * rewrite Hperm, Hp. simpl. by rewrite <-Permutation_middle.
      * by etrans.
      * rewrite Hdel. unfold delivered. simpl. by rewrite Hd.
      * constructor; [|done]. repeat eexists; eauto.
      * destruct Hcase as [?|(? & ? & ?)]; [by left|]. right. simpl. auto.
    + injection HE as <- <-. apply on_client_inv in E as (b1 & E & ->).
      apply bbn_send_ok in E. exists msgs, [], []. rewrite !app_nil_r.
      split_and!; [done|done|done|done|]. left. split_and!; [done|intros ->; simpl in Hn; lia|done].
    + apply on_client_inv in E as (b1 & E & _). by apply bbn_send_response in E.
Qed.

Lemma resendLoop_fail ex un n : ∀ msgs err bc r bc',
  resendLoop n msgs ex un err bc = (r, bc') → is_Ok r = false → delivered bc' = delivered bc.
Proof.
  induction n as [|n IH]; intros msgs err bc r bc' HE Hr; simpl in HE.
  - destruct err as [e|]; [destruct (errorContained e ex)|]; injection HE as _ <-; done.
  - unfold mbind, M_bind, go_bind, go_try in HE.
    destruct (on_client _ bc) as [[res|e|w] bc1] eqn:E.
    + destruct res; injection HE as <- _; done.
    + apply on_client_inv in E as (b1 & E & ->). apply bbn_send_fail in E; [|done].
      destruct (FailedMessageIndex e); [destruct (errorContained e ex)|].
      * apply IH in HE; [|done]. rewrite HE. exact E.
      * injection HE as _ <-. exact E.
      * injection HE as _ <-. exact E.
    + injection HE as _ <-. apply on_client_inv in E as (b1 & E & ->).
      by apply bbn_send_fail in E.
Qed.

Lemma resend_cfg0 {A} (msgs : list A) : N.to_nat (BatchRetries msgs 0) = length msgs.
Proof. unfold BatchRetries, lenN. simpl. lia. Qed.

(** *** Block queries *)

Lemma queryLatestBlocks_ok key count status rev bc bs bc' :
  queryLatestBlocks key count status rev bc = (Ok bs, bc') →
  ∃ l b', bbn_ListBlocks status (mkPageRequest key count rev) (bc_bbnClient bc) = (Ok l, b')
    ∧ bs = (λ b, NewBlockInfo (ib_Height b) (ib_AppHash b) (ib_Finalized b)) <$> l
    ∧ NoDup (ib_Height <$> l).
Proof.
  unfold queryLatestBlocks. intros HE. inv_bind HE. inv_bind HE. injection HE as <- _.
  apply on_client_inv in E as (b' & E & _). exists a, b'. split_and!; [done|done|].
  apply Validate_ok_iff. by destruct a0.
Qed.

Lemma QueryBlocks_ok req bc bs bc' :
  is_u64 (qb_EndHeight req) → QueryBlocks req bc = (Ok bs, bc') →
  NoDup (blk_height <$> bs) ∧ (lenN bs ≤ qb_Limit req)%N
  ∧ ∀ i b, bs !! i = Some b →
      blk_height b = (qb_StartHeight req + N.of_nat i)%N ∧ (blk_height b ≤ qb_EndHeight req)%N.
Proof.
  unfold QueryBlocks. intros Hu. destruct (_ <? _)%N eqn:Elt; btests; [done|]. intros Hrun.
  set (count := (if (_ <? _)%N then _ else _)) in Hrun.
  assert (count ≤ qb_Limit req ∧ count ≤ qb_EndHeight req - qb_StartHeight req + 1)%N as [Hc1 Hc2].
  { subst count. pose proof (u64_sub_le (qb_EndHeight req) (qb_StartHeight req) Elt).
    pose proof (u64_add_le (u64_sub (qb_EndHeight req) (qb_StartHeight req)) 1).
    destruct (_ <? _)%N eqn:El; btests; lia. }
  apply queryLatestBlocks_ok in Hrun as (l & b' & El & -> & Hnd).
  apply bbn_list_blocks in El as [Hlen Hall]; [|unfold is_u64 in *; lia]. split_and!.
  - by rewrite <-list_fmap_compose.
  - unfold lenN in *. rewrite length_fmap. lia.
  - intros i b Hb. rewrite list_lookup_fmap in Hb.
    destruct (l !! i) as [x|] eqn:Ex; [|done]. injection Hb as <-. simpl.
    pose proof (lookup_lt_Some _ _ _ Ex). rewrite (Hall i x Ex). unfold lenN in *. lia.
Qed.

Lemma QueryLatestBlock_height bc b bc' :
  QueryLatestBlock bc = (Ok (Some b), bc') → (blk_height b ≤ MaxInt64)%N.
Proof.
  unfold QueryLatestBlock. intros HE. inv_bind HE. apply go_try_ok in E.
  assert (∀ bc1, (b1 ← queryCometBestBlock; mret (Some b1)) bc1 = (Ok (Some b), bc') →
    (blk_height b ≤ MaxInt64)%N) as Hcomet.
  { intros bc1 Hc. inv_bind Hc. injection Hc as -> _. unfold queryCometBestBlock in E0. inv_bind E0.
    apply on_client_inv in E1 as (b2 & E1 & _).
    destruct a0 as [|[h ah] l]; [done|]. injection E0 as <- _. simpl.
    pose proof (bbn_comet_height _ _ _ h ah E1 (list_elem_of_here _ _)) as Hh.
    unfold u64_of_Z. unfold MaxInt64, two64 in *. rewrite Z.mod_small by lia. lia. }
  destruct a as [e|[|x [|]]]; try (by eapply Hcomet).
  injection HE as -> _. apply queryLatestBlocks_ok in E as (l & b2 & El & Hx & _).
  destruct l as [|x [|]]; [done| |done]. injection Hx as ->. simpl.
  by apply (bbn_list_height _ _ _ _ _ _ El), list_elem_of_here.
Qed.
(** An edit ends with its message executed by the chain. *)
Lemma EditFinalityProvider_ok `{ServiceDescription} req bc msg bc' :
  EditFinalityProvider req bc = (Ok msg, bc') →
  ∃ reqDesc resDesc fpRes bc1 bc2, sd_unmarshal (edit_Description req) = Ok reqDesc
    ∧ QueryFinalityProvider (edit_FpPk req) bc = (Ok fpRes, bc1)
    ∧ fpr_Description fpRes = Some resDesc
    ∧ efm_BtcPk msg = BIP340FromBTCPK (edit_FpPk req)
    ∧ efm_Description msg = mergeDescription reqDesc resDesc ∧ efm_Commission msg = edit_Commission req
    ∧ delivered bc' = delivered bc2 ++ [MsgEditFinalityProvider msg].
Proof.
  unfold EditFinalityProvider. intros HE. inv_bind HE. inv_bind HE. inv_bind HE.
  destruct (negb _); [by inv_bind HE|]. destruct (fpr_Description a0) as [resDesc|] eqn:Ed; [|done].
  inv_bind HE. inv_bind HE. injection HE as <- <-.
  apply go_wrap_ok, on_client_inv in E3 as (b & Es & ->).
  exists a, resDesc, a0. do 2 eexists. split_and!; [done..|].
  destruct a3 as [res|]; [by apply bbn_send_ok in Es|by apply bbn_send_response in Es].
Qed.
End lemmas.

(** ** Properties *)

Section properties.
Context `{Crypto} `{Sdk} `{BbnTypes} `{BigEndian} `{BabylonErrors} `{Bech32}.
Context {B : Type} `{!BbnClient B} `{!BbnClientLaws B}.
#[local] Abbreviation bcc := (BabylonConsumerController B).
Implicit Types (bc : bcc).


(** A range query of blocks answers with pairwise different heights, which
    start at the requested height, follow each other without a gap, do not go
    beyond the requested end and are at most [Limit] many.  A range that ends
    before it starts is refused. *)
Theorem QueryBlocks_exact req bc r bc' (Hend : is_u64 (qb_EndHeight req))
    (Hrun : QueryBlocks req bc = (r, bc')) :
  match r with
  | Ok bs => NoDup (blk_height <$> bs) ∧ (lenN bs ≤ qb_Limit req)%N
      ∧ ∀ i b, bs !! i = Some b →
          blk_height b = (qb_StartHeight req + N.of_nat i)%N ∧ (blk_height b ≤ qb_EndHeight req)%N
  | _ => True
  end
  ∧ ((qb_EndHeight req < qb_StartHeight req)%N → ∃ e, r = Err e ∧ bc' = bc).
Proof.
  split.
  - destruct r as [bs|e|w]; [|done..]. by apply QueryBlocks_ok in Hrun.
  - intros Hlt. unfold QueryBlocks in Hrun. rewrite (proj2 (N.ltb_lt _ _) Hlt) in Hrun.
    injection Hrun as <- <-. eauto.
Qed.

(** The server lists these commits from page [key] on, one per page. *)
Inductive pages (hex : string) : option bytes → B → list BabylonPubRandCommit.t → Prop :=
| pages_last key b b' h c :
    bbn_ListPubRandCommit hex (mkPageRequest key 1 false) b
      = (Ok (mkListCommitResponse {[h := c]} None), b') →
    pages hex key b [commit_of h c]
| pages_next key b b' h c key' l :
    bbn_ListPubRandCommit hex (mkPageRequest key 1 false) b
      = (Ok (mkListCommitResponse {[h := c]} (Some key')), b') →
    pages hex (Some key') b' l → pages hex key b (commit_of h c :: l).

Lemma commitPages_ok hex start key b l : pages hex key b l →
  Forall (λ c, (1 ≤ BabylonPubRandCommit.NumPubRand c)%N) l →
  ∀ fuel acc cfg, (length l ≤ fuel)%nat →
  ∃ bc', commitPages fuel hex start key acc (mkBCC b cfg)
    = Some (Ok (acc ++ filter (λ c, (start ≤ BabylonPubRandCommit.GetEndHeight c)%N) l), bc').
Proof.
  induction 1 as [key b b' h c E|key b b' h c key' l E _ IH]; intros Hv [|fuel] acc cfg Hf;
    simpl in Hf; try lia; apply Forall_cons in Hv as [Hc Hv]; simpl in Hc; simpl;
    unfold on_client; simpl; rewrite E; simpl; rewrite map_size_singleton; simpl;
    unfold first_commit; rewrite map_to_list_singleton; simpl;
    unfold BabylonPubRandCommit.Validate, commit_of; simpl;
    rewrite (proj2 (N.ltb_ge _ _)) by done.
  - eexists. f_equal. f_equal. f_equal. rewrite filter_cons, filter_nil.
    destruct (_ <=? _)%N eqn:El; btests; case_decide; try done; try lia. by rewrite app_nil_r.
  - destruct (IH Hv fuel (if (start <=? BabylonPubRandCommit.GetEndHeight (commit_of h c))%N
      then acc ++ [commit_of h c] else acc) cfg) as [bc' Hbc]; [lia|].
    exists bc'. unfold commit_of in Hbc. rewrite Hbc. f_equal. f_equal. f_equal. rewrite filter_cons.
    destruct (_ <=? _)%N eqn:El; btests; case_decide; try done; try lia. by rewrite <-app_assoc.
Qed.

(** The paging loop ends and is complete: when the server lists the commits
    [l] one per page, all of them valid, following as many pages as there are
    commits returns exactly those that end at or after [startHeight], in
    order. *)
Theorem QueryPubRandCommitList_complete fpPk start b cfg l fuel
    (Hpages : pages (pk_hex fpPk) None b l)
    (Hvalid : Forall (λ c, (1 ≤ BabylonPubRandCommit.NumPubRand c)%N) l)
    (Hfuel : (length l ≤ fuel)%nat) :
  ∃ bc', QueryPubRandCommitList fuel fpPk start (mkBCC b cfg)
    = Some (Ok (BabylonPubRandCommit.to_commit
                  <$> filter (λ c, (start ≤ BabylonPubRandCommit.GetEndHeight c)%N) l), bc').
Proof.
  destruct (commitPages_ok _ start _ _ _ Hpages Hvalid fuel [] cfg Hfuel) as [bc' E].
  exists bc'. unfold QueryPubRandCommitList. by rewrite E.
Qed.

(** The contract the chain poller relies on. *)
#[export] Instance bbn_querier_laws (fuel : nat) :
  @BlockQuerierLaws _ bcc (bbn_controller fuel).
Proof.
  split.
  - intros h bc b bc' HE. simpl in HE. unfold QueryBlock in HE. inv_bind HE. by injection HE as <- _.
  - intros req bc bs bc' Hu HE. by apply QueryBlocks_ok in HE as (_ & _ & Hall).
  - intros bc b bc' HE. apply QueryLatestBlock_height in HE. unfold MaxInt64, two64 in *. lia.
Qed.
End properties.

(** The index of a failed message is read back from the error text: for the
    text cosmos-sdk builds for message [n], whatever follows it, the result is
    [n]; a number beyond the int range is no index. *)
Theorem FailedMessageIndex_reads n rest :
  FailedMessageIndex (EText (message_error n rest)) = if (n <=? MaxInt64)%N then Some n else None.
Proof.
  rewrite FailedMessageIndex_text. unfold Atoi_digits. by destruct (fmt_d_digits n) as (_ & -> & _).
Qed.

(** ** A concrete client, for the witnesses

    The chain refuses a vote for a height in [tb_voted] as a duplicate. *)
Module BbnToy.
Export ChainToy.

#[export] Instance toy_bbn_types : BbnTypes := {|
  CmtProof := bytes;
  CmtProof_Unmarshal := Ok;
|}.
#[export] Instance toy_bech32 : Bech32 := λ prefix _, Ok (prefix +:+ "1fp").

Record toy_bbn := mkToyBbn {
  tb_delivered : list sdkMsg;
  tb_voted : list N;
  tb_commits : list (N * PubRandCommitResponse);
}.

Definition toy_tip : N := 120.
Definition is_duplicate (voted : list N) (m : sdkMsg) : bool :=
  match m with MsgAddFinalitySig _ _ h _ _ _ _ => bool_decide (h ∈ voted) | _ => false end.

Fixpoint first_duplicate (voted : list N) (msgs : list sdkMsg) : option nat :=
  match msgs with
  | [] => None
  | m :: rest => if is_duplicate voted m then Some 0%nat else S <$> first_duplicate voted rest
  end.

Definition toy_send (msgs : list sdkMsg) : M toy_bbn (option RelayerTxResponse) := λ b,
  match first_duplicate (tb_voted b) msgs with
  | Some i => (Err (EText (message_error (N.of_nat i mod 256) ErrDuplicatedFinalitySig)), b)
  | None => (Ok (Some (mkRelayerTxResponse "tx" [])),
             mkToyBbn (tb_delivered b ++ msgs) (tb_voted b) (tb_commits b))
  end.

Definition toy_page (page : PageRequest) (b : toy_bbn) : ListPubRandCommitResponse :=
  let i := match pg_Key page with Some k => N.to_nat (bytes_N k) | None => 0%nat end in
  match tb_commits b !! i with
  | Some (h, c) =>
      mkListCommitResponse {[h := c]}
        (if (S i <? length (tb_commits b))%nat then Some (N_bytes (N.of_nat (S i))) else None)
  | None => mkListCommitResponse ∅ None
  end.

Definition toy_blocks (page : PageRequest) : list IndexedBlock :=
  match pg_Key page with
  | Some k =>
      let start := BigEndianToUint64 k in
      (λ i, mkIndexedBlock (start + N.of_nat i) [Byte.x07] false)
        <$> seq 0 (N.to_nat (N.min (pg_Limit page) (toy_tip + 1 - start)))
  | None => [mkIndexedBlock toy_tip [Byte.x07] false]
  end.

#[export] Instance toy_client : BbnClient toy_bbn := {|
  bbn_Key _ b := (Ok (Ok [Byte.x01]), b);
  bbn_ReliablySendMsgs msgs _ _ := toy_send msgs;
  bbn_FinalityProviderPowerAtHeight _ h b := (Ok h, b);
  bbn_ListBlocks _ page b := (Ok (toy_blocks page), b);
  bbn_Block h b := (Ok (mkIndexedBlock h [Byte.x07] false), b);
  bbn_ListPubRandCommit _ page b := (Ok (toy_page page b), b);
  bbn_FinalityParams b := (Ok 5%N, b);
  bbn_FinalityProvider _ b := 
    (Ok (mkFpResponse _ "bbn1fp" (toy_pk true) (Some (mkDescription "fp" "id" "" "" "")) None None 0 0 false 0), b);
  bbn_BlockchainInfo b := (Ok [(120%Z, [Byte.x07])], b);
  bbn_IsRunning _ := true;
  bbn_Stop b := (Ok (), b);
|}.

Lemma first_duplicate_lt voted msgs i :
  first_duplicate voted msgs = Some i → (i < length msgs)%nat.
Proof.
  revert i. induction msgs as [|m msgs IH]; intros i; simpl; [done|].
  destruct (is_duplicate voted m); [intros [= <-]; lia|].
  destruct (first_duplicate voted msgs); [|done]. intros [= <-]. specialize (IH _ eq_refl). lia.
Qed.

Lemma toy_blocks_from start count : is_u64 start →
  let l := toy_blocks (mkPageRequest (Some (Uint64ToBigEndian start)) count false) in
  (lenN l ≤ count)%N ∧ ∀ i x, l !! i = Some x → ib_Height x = (start + N.of_nat i)%N.
Proof.
  intros Hu l. subst l. unfold toy_blocks. cbn [pg_Key pg_Limit]. rewrite be_roundtrip by done. split.
  - unfold lenN. rewrite length_fmap, length_seq. lia.
  - intros i x Hx. rewrite list_lookup_fmap in Hx.
    destruct (seq 0 _ !! i) as [j|] eqn:Ej; [|done]. injection Hx as <-.
    by apply lookup_seq in Ej as [-> _].
Qed.

#[export] Instance toy_client_laws : BbnClientLaws toy_bbn.
Proof.
  unshelve econstructor; [exact tb_delivered|..].
  - intros msgs ex un b res b'. simpl. unfold toy_send. destruct (first_duplicate _ _); [done|].
    by intros [= _ <-].
  - intros msgs ex un b r b'. simpl. unfold toy_send.
    destruct (first_duplicate _ _); intros [= <- <-]; done.
  - intros msgs un b b'. simpl. unfold toy_send. by destruct (first_duplicate _ _).
  - intros msgs ex un b e i b'. simpl. unfold toy_send.
    destruct (first_duplicate _ _) as [j|] eqn:E; [|done]. intros [= <- _].
    rewrite FailedMessageIndex_text. unfold Atoi_digits.
    destruct (fmt_d_digits (N.of_nat j mod 256)) as (_ & -> & _). destruct (_ <=? _)%N; [|done].
    intros [= <-]. apply first_duplicate_lt in E. unfold lenN.
    pose proof (N.Div0.mod_le (N.of_nat j) 256). lia.
  - by intros name b r b' [= _ <-].
  - intros start count b l b' Hu HE. assert (l = toy_blocks
      (mkPageRequest (Some (Uint64ToBigEndian start)) count false)) as ->.
    { pose proof (f_equal (λ p, ok_or [] p.1) HE) as Hl. exact (eq_sym Hl). }
    by apply toy_blocks_from.
  - intros status page b l b' x [= <- _] Hx. unfold toy_blocks in Hx.
    destruct (pg_Key page) as [k|].
    + apply list_elem_of_fmap in Hx as (i & -> & Hi). apply elem_of_seq in Hi. cbn [ib_Height].
      generalize dependent (BigEndianToUint64 k). intros s Hi. unfold toy_tip, MaxInt64 in *. lia.
    + apply list_elem_of_singleton in Hx as ->. simpl. unfold toy_tip, MaxInt64. lia.
  - intros b l b' h a [= <- _] Hx. apply list_elem_of_singleton in Hx as [= -> ->].
    unfold MaxInt64. lia.
Defined.
End BbnToy.

(** ** Witnesses *)

Module BbnWitness.
Import BbnToy.

Definition w_cfg (maxRetries : N) : BBNConfig := 
  toy_bbn_cfg "fp" maxRetries.
Definition w_bc (maxRetries : N) : BabylonConsumerController toy_bbn :=
  mkBCC (mkToyBbn [] [10]%N
    [(5%N, mkCommitResponse 10 [Byte.x01] 0); (15%N, mkCommitResponse 10 [Byte.x02] 1)])
    (w_cfg maxRetries).
Definition w_key : @PublicKey toy_crypto := true.
Definition w_scalars : list (@ModNScalar toy_crypto) := [1; 2; 3]%N.
Definition w_rands : list (@FieldVal toy_crypto) := [4; 5; 6]%N.
Definition w_req : SubmitBatchFinalitySigsRequest :=
  mkSubmitReq _ w_key ((λ h, NewBlockInfo h [Byte.x07] false) <$> [9; 10; 11]%N) w_rands
    [[Byte.x01]; [Byte.x02]; [Byte.x03]] w_scalars.
Definition w_run := SubmitBatchFinalitySigs w_req (w_bc 0).

Definition msg_height (m : sdkMsg) : N :=
  match m with MsgAddFinalitySig _ _ h _ _ _ _ => h | _ => 0%N end.


(** With [MaxRetriesBatchRemovingMsgs = 1] the batch is given up after the
    duplicate was removed: success is reported and no vote was delivered. *)
Theorem batch_retries_drop_votes :
  (SubmitBatchFinalitySigs w_req (w_bc 1)).1 = Ok (Some (mkTxResponse "" []))
  ∧ delivered (SubmitBatchFinalitySigs w_req (w_bc 1)).2 = [].
Proof. split; vm_eq. Qed.

Definition w_blocks := QueryBlocks (mkQueryBlocksRequest 118 150 10) (w_bc 0).

Lemma QueryBlocks_exact_witness :
  blk_height <$> ok_or [] w_blocks.1 = [118; 119; 120]%N
  ∧ NoDup (blk_height <$> ok_or [] w_blocks.1).
Proof.
  split; [vm_eq|].
  destruct (QueryBlocks_exact (mkQueryBlocksRequest 118 150 10) (w_bc 0) (Ok (ok_or [] w_blocks.1))
    w_blocks.2) as [(Hnd & _) _]; [done|apply run_ok; vm_eq|exact Hnd].
Defined.

Definition w_c1 := commit_of 5 (mkCommitResponse 10 [Byte.x01] 0).
Definition w_c2 := commit_of 15 (mkCommitResponse 10 [Byte.x02] 1).

Lemma QueryPubRandCommitList_complete_witness :
  ∃ bc', QueryPubRandCommitList 2 w_key 16 (w_bc 0)
    = Some (Ok [BabylonPubRandCommit.to_commit w_c2], bc').
Proof.
  change [BabylonPubRandCommit.to_commit w_c2] with (BabylonPubRandCommit.to_commit
    <$> filter (λ c, (16 ≤ BabylonPubRandCommit.GetEndHeight c)%N) [w_c1; w_c2]).
  apply (QueryPubRandCommitList_complete w_key 16 (bc_bbnClient (w_bc 0)) (w_cfg 0) [w_c1; w_c2] 2).
  - eapply pages_next; [vm_compute; reflexivity|]. eapply pages_last. vm_compute. reflexivity.
  - repeat constructor; by vm_compute.
  - done.
Defined.
End BbnWitness.
