(* ===== verification/BbnWrapper.v ===== *)
(** * The rest of the Babylon controller (src/clientcontroller/babylon/babylon.go)

    [ClientWrapper] beyond registration and editing: its start and close, and
    the calls on staking, checkpoints and the light client that end-to-end
    tests use.  The wrapper has the fields of the consumer controller, whose
    record it shares; the additional calls of the client are the class
    [BbnStaking].  types/stakingparams.go is here too. *)

From Stdlib Require Import NArith ZArith Lia.
From stdpp Require Import base gmap strings list.
From S2P Require Import Prelude Kvdb External Config Toy Util EotsApi ChainApi Bootstrap ChainPoller BbnConsumer.

(** ** Messages and responses *)

(** Types the messages carry without looking inside. *)
Class StakingTypes := {
  BTCSlashingTx : Type;
  TransactionKey : Type;
  InclusionProof : Type;
  BTCHeaderBytes : Type;
  BTCSpvProof : Type;
  BTCHeaderInfo : Type;
  BTCDelegation : Type;
  (** [btcstakingtypes.NewInclusionProof(key, proof)] *)
  NewInclusionProof : TransactionKey → bytes → InclusionProof;
}.

(** [btcctypes.TransactionInfo] *)
Record TransactionInfo `{StakingTypes} := mkTransactionInfo {
  txi_Key : TransactionKey; txi_Transaction : bytes; txi_Proof : bytes
}.

(** [MsgCreateBTCDelegation] *)
Record DelegationMsg `{Sdk} `{StakingTypes} := mkDelegationMsg {
  dlg_StakerAddr : string;
  dlg_Pop : ProofOfPossessionBTC;
  dlg_BtcPk : bytes;
  dlg_FpBtcPkList : list bytes;
  dlg_StakingTime : N;
  dlg_StakingValue : Z;
  dlg_StakingTx : bytes;
  dlg_StakingTxInclusionProof : InclusionProof;
  dlg_SlashingTx : BTCSlashingTx;
  dlg_DelegatorSlashingSig : bytes;
  dlg_UnbondingTx : bytes;
  dlg_UnbondingTime : N;
  dlg_UnbondingValue : Z;
  dlg_UnbondingSlashingTx : BTCSlashingTx;
  dlg_DelegatorUnbondingSlashingSig : bytes
}.

Inductive stakingMsg `{Sdk} `{StakingTypes} :=
| MsgCreateBTCDelegation (msg : DelegationMsg)
| MsgInsertHeaders (Signer : string) (Headers : list BTCHeaderBytes)
| MsgAddCovenantSigs (Signer : string) (Pk : bytes) (StakingTxHash : string) (SlashingTxSigs : list bytes)
    (UnbondingTxSig : bytes) (SlashingUnbondingTxSigs : list bytes)
| MsgInsertBTCSpvProof (Submitter : string) (Proofs : list BTCSpvProof).

Inductive BTCDelegationStatus := DELEGATION_PENDING | DELEGATION_ACTIVE.

Record CheckpointParams := mkCheckpointParams {
  ckp_BtcConfirmationDepth : N; ckp_CheckpointFinalizationTimeout : N
}.
Record BtcStakingParams `{Sdk} := mkBtcStakingParams {
  bsp_CovenantPks : list bytes;
  bsp_CovenantQuorum : N;
  bsp_SlashingPkScript : bytes;
  bsp_MinSlashingTxFeeSat : Z;
  bsp_SlashingRate : LegacyDec;
  bsp_UnbondingTimeBlocks : N
}.

(** types/stakingparams.go *)
Record StakingParams `{Crypto} `{Sdk} := mkStakingParams {
  ComfirmationTimeBlocks : N;
  FinalizationTimeoutBlocks : N;
  MinSlashingTxFeeSat : Z;
  CovenantPks : list PublicKey;
  SlashingPkScript : bytes;
  CovenantQuorum : N;
  SlashingRate : LegacyDec;
  UnbondingTime : N
}.

(** A page of finality providers; [fpg_NextKey] is [None] when the pagination
    or its next key is nil. *)
Record FinalityProvidersResponse `{Sdk} := mkFpPage {
  fpg_FinalityProviders : list FinalityProviderResponse; fpg_NextKey : option bytes
}.

(** More calls on [*bbnclient.Client]; [bbn_SendStaking] is [ReliablySendMsgs]
    for one message of staking, with no expected and no unrecoverable errors. *)
Class BbnStaking `{Crypto} `{Sdk} `{StakingTypes} (B : Type) := {
  bbn_GetAddr : M B string;
  bbn_TxIndexEnabled : M B bool;
  bbn_SendStaking : stakingMsg → M B (option RelayerTxResponse);
  bbn_FinalityProviders : PageRequest → M B FinalityProvidersResponse;
  bbn_BTCHeaderChainTip : M B BTCHeaderInfo;
  bbn_CurrentEpoch : M B N;
  bbn_VotesAtHeight : N → M B (list bytes);
  bbn_BTCDelegations : BTCDelegationStatus → PageRequest → M B (list BTCDelegation);
  bbn_BTCCheckpointParams : M B CheckpointParams;
  bbn_BTCStakingParams : M B BtcStakingParams;
}.

Section wrapper.
Context `{Crypto} `{Sdk} `{BbnTypes} `{StakingTypes} `{Bech32} `{BabylonErrors}.
Context {B : Type} `{!BbnClient B} `{!BbnStaking B}.
#[local] Abbreviation wrapper := (BabylonConsumerController B).

(** [NewBabylonController]: it cannot fail. *)
Definition NewClientWrapper (bbnClient : B) (cfg : BBNConfig) : outcome wrapper := Ok (mkBCC bbnClient cfg).

Definition NodeTxIndexEnabled : M wrapper bool :=
  go_wrap "failed to query node status" (on_client bbn_TxIndexEnabled).

Definition Wrapper_Start : M wrapper unit :=
  _ ← go_wrap "failed to get addr" (on_client bbn_GetAddr);
  enabled ← NodeTxIndexEnabled;
  if negb enabled then go_fail (EText "tx indexing in the babylon node must be enabled") else mret ().

Definition Wrapper_Close : M wrapper unit :=
  bc ← go_get;
  if negb (bbn_IsRunning (bc_bbnClient bc)) then mret ()
  else go_wrap "failed to stop Babylon client" (on_client bbn_Stop).

(** [bc.reliablySendMsg(context.Background(), msg, emptyErrs, emptyErrs)] *)
Definition sendStaking (msg : stakingMsg) : M wrapper (option RelayerTxResponse) :=
  go_wrap "failed to reliably send messages" (on_client (bbn_SendStaking msg)).

Definition CreateBTCDelegation (delBtcPk : bytes) (fpPks : list PublicKey) (pop : ProofOfPossessionBTC)
    (stakingTime : N) (stakingValue : Z) (stakingTxInfo : TransactionInfo) (slashingTx : BTCSlashingTx)
    (delSlashingSig unbondingTx : bytes) (unbondingTime : N) (unbondingValue : Z)
    (unbondingSlashingTx : BTCSlashingTx) (delUnbondingSlashingSig : bytes) : M wrapper (option TxResponse) :=
  let fpBtcPks := BIP340FromBTCPK <$> fpPks in
  signer ← MustGetTxSigner;
  let msg :=
    mkDelegationMsg _ _ signer pop delBtcPk fpBtcPks stakingTime stakingValue (txi_Transaction stakingTxInfo)
      (NewInclusionProof (txi_Key stakingTxInfo) (txi_Proof stakingTxInfo)) slashingTx delSlashingSig
      unbondingTx unbondingTime unbondingValue unbondingSlashingTx delUnbondingSlashingSig in
  res ← sendStaking (MsgCreateBTCDelegation msg);
  res ← deref_res res;
  mret (Some (mkTxResponse (rtr_TxHash res) [])).

Definition InsertBtcBlockHeaders (headers : list BTCHeaderBytes) : M wrapper (option RelayerTxResponse) :=
  signer ← MustGetTxSigner;
  sendStaking (MsgInsertHeaders signer headers).

Definition SubmitCovenantSigs (covPk : PublicKey) (stakingTxHash : string) (slashingSigs : list bytes)
    (unbondingSig : SchnorrSignature) (unbondingSlashingSigs : list bytes) : M wrapper (option TxResponse) :=
  let bip340UnbondingSig := NewBIP340SignatureFromBTCSig unbondingSig in
  signer ← MustGetTxSigner;
  res ← sendStaking (MsgAddCovenantSigs signer (BIP340FromBTCPK covPk) stakingTxHash slashingSigs
                       bip340UnbondingSig unbondingSlashingSigs);
  res ← deref_res res;
  mret (Some (mkTxResponse (rtr_TxHash res) [])).

Definition InsertSpvProofs (submitter : string) (proofs : list BTCSpvProof) : M wrapper (option RelayerTxResponse) :=
  sendStaking (MsgInsertBTCSpvProof submitter proofs).

(** The paging loop: [None] when [fuel] pages were read and the server had
    more. *)
Fixpoint providerPages (fuel : nat) (key : option bytes) (fps : list FinalityProviderResponse) (bc : wrapper)
    : option (outcome (list FinalityProviderResponse) * wrapper) :=
  match fuel with
  | O => None
  | S fuel' =>
      match go_wrap "failed to query finality providers"
              (on_client (bbn_FinalityProviders (mkPageRequest key 100 false))) bc with
      | (Err e, bc') => Some (Err e, bc')
      | (Crash w, bc') => Some (Crash w, bc')
      | (Ok res, bc') =>
          let fps := fps ++ fpg_FinalityProviders res in
          match fpg_NextKey res with
          | None => Some (Ok fps, bc')
          | Some key' => providerPages fuel' (Some key') fps bc'
          end
      end
  end.
Definition QueryFinalityProviders (fuel : nat) (bc : wrapper) := providerPages fuel None [] bc.
(** The body of [QueryConsumerFinalityProviders] is the same. *)
Definition QueryConsumerFinalityProviders (fuel : nat) (bc : wrapper) := providerPages fuel None [] bc.

Definition QueryBtcLightClientTip : M wrapper BTCHeaderInfo :=
  go_wrap "failed to query BTC tip" (on_client bbn_BTCHeaderChainTip).
Definition QueryCurrentEpoch : M wrapper N := go_wrap "failed to query BTC tip" (on_client bbn_CurrentEpoch).
Definition QueryVotesAtHeight (height : N) : M wrapper (list bytes) :=
  go_wrap "failed to query BTC delegations" (on_client (bbn_VotesAtHeight height)).

Definition queryDelegationsWithStatus (status : BTCDelegationStatus) (limit : N)
    : M wrapper (list BTCDelegation) :=
  go_wrap "failed to query BTC delegations"
    (on_client (bbn_BTCDelegations status (mkPageRequest None limit false))).
Definition QueryPendingDelegations (limit : N) := queryDelegationsWithStatus DELEGATION_PENDING limit.
Definition QueryActiveDelegations (limit : N) := queryDelegationsWithStatus DELEGATION_ACTIVE limit.

(** The loop over the covenant keys *)
Fixpoint covenantKeys (pks : list bytes) : outcome (list PublicKey) :=
  match pks with
  | [] => Ok []
  | pk :: rest =>
      match BIP340ToBTCPK pk with
      | Ok covPk => covs ← covenantKeys rest; Ok (covPk :: covs)
      | Err _ => Err (EText "invalid covenant public key")
      | Crash w => Crash w
      end
  end.

Definition QueryStakingParams : M wrapper StakingParams :=
  ckpt ← go_wrap "failed to query params of the btccheckpoint module" (on_client bbn_BTCCheckpointParams);
  staking ← go_wrap "failed to query staking params" (on_client bbn_BTCStakingParams);
  covenantPks ← go_lift (covenantKeys (bsp_CovenantPks staking));
  mret (mkStakingParams _ _ (ckp_BtcConfirmationDepth ckpt) (ckp_CheckpointFinalizationTimeout ckpt)
          (bsp_MinSlashingTxFeeSat staking) covenantPks (bsp_SlashingPkScript staking)
          (bsp_CovenantQuorum staking) (bsp_SlashingRate staking) (bsp_UnbondingTimeBlocks staking)).

(** ** Facts *)

(** A controller that has started has an address of its own and a node with an
    index of transactions. *)
Lemma Wrapper_Start_ok bc u bc' :
  Wrapper_Start bc = (Ok u, bc') →
  ∃ addr b1, bbn_GetAddr (bc_bbnClient bc) = (Ok addr, b1) ∧ bbn_TxIndexEnabled b1 = (Ok true, bc_bbnClient bc').
Proof.
  unfold Wrapper_Start. intros HE. inv_bind HE. apply on_client_inv in E as (b1 & E & ->).
  inv_bind HE. apply go_wrap_ok, on_client_inv in E0 as (b2 & E0 & ->). destruct a0; [|done].
  injection HE as _ <-. by exists a, b1.
Qed.

(** The server lists these providers from page [key] on. *)
Inductive provider_pages : option bytes → B → list FinalityProviderResponse → nat → Prop :=
| provider_pages_last key b b' fps :
    bbn_FinalityProviders (mkPageRequest key 100 false) b = (Ok (mkFpPage _ fps None), b') →
    provider_pages key b fps 1
| provider_pages_next key b b' fps key' rest n :
    bbn_FinalityProviders (mkPageRequest key 100 false) b = (Ok (mkFpPage _ fps (Some key')), b') →
    provider_pages (Some key') b' rest n → provider_pages key b (fps ++ rest) (S n).

Lemma providerPages_ok key b fps n :
  provider_pages key b fps n → ∀ fuel acc cfg, n ≤ fuel →
  ∃ bc', providerPages fuel key acc (mkBCC b cfg) = Some (Ok (acc ++ fps), bc').
Proof.
  induction 1 as [key b b' fps E|key b b' fps key' rest n E _ IH]; intros [|fuel] acc cfg Hf; try lia;
    simpl; unfold go_wrap, on_client; simpl; rewrite E; simpl.
  - eauto.
  - destruct (IH fuel (acc ++ fps) cfg) as [bc' ->]; [lia|]. rewrite <-app_assoc. eauto.
Qed.

(** Reading the finality providers ends after as many pages as the server has,
    with all of them in order. *)
Lemma QueryFinalityProviders_complete b cfg fps n fuel :
  provider_pages None b fps n → n ≤ fuel →
  ∃ bc', QueryFinalityProviders fuel (mkBCC b cfg) = Some (Ok fps, bc').
Proof. intros Hp Hf. by eapply (providerPages_ok _ _ _ _ Hp fuel []). Qed.

Lemma covenantKeys_ok pks covs :
  covenantKeys pks = Ok covs ↔ Forall2 (λ pk c, BIP340ToBTCPK pk = Ok c) pks covs.
Proof.
  revert covs. induction pks as [|pk pks IH]; intros covs; simpl.
  - split; [by intros [= <-]|by intros ->%Forall2_nil_inv_l].
  - split.
    + destruct (BIP340ToBTCPK pk) as [c|e|w] eqn:E; [|done..].
      intros (cs & Hcs & [= <-])%outcome_bind_ok. constructor; [done|]. by apply IH.
    + intros (c & cs & E & Hcs & ->)%Forall2_cons_inv_l. rewrite E. by rewrite (proj2 (IH cs) Hcs).
Qed.

(** The parameters of staking hold every covenant key of the chain, in its
    order, or the query fails. *)
Lemma QueryStakingParams_covenants bc p bc' :
  QueryStakingParams bc = (Ok p, bc') →
  ∃ b1 b2 sp, bbn_BTCStakingParams b1 = (Ok sp, b2)
    ∧ Forall2 (λ pk c, BIP340ToBTCPK pk = Ok c) (bsp_CovenantPks sp) (CovenantPks p)
    ∧ CovenantQuorum p = bsp_CovenantQuorum sp.
Proof.
  unfold QueryStakingParams. intros HE. inv_bind HE. inv_bind HE.
  apply on_client_inv in E0 as (b2 & E0 & ->). inv_bind HE. injection HE as <- _.
  eexists _, b2, a0. split_and!; [done|by apply covenantKeys_ok|done].
Qed.

(** A delegation is one message, signed by the configured key, that names the
    finality providers in their order. *)
Lemma CreateBTCDelegation_sends pk fps pop t v txi sl sig utx ut uv usl usig bc res bc' :
  CreateBTCDelegation pk fps pop t v txi sl sig utx ut uv usl usig bc = (Ok res, bc') →
  ∃ msg bc1 r, bbn_SendStaking (MsgCreateBTCDelegation msg) (bc_bbnClient bc1) = (Ok (Some r), bc_bbnClient bc')
    ∧ MustGetTxSigner bc = (Ok (dlg_StakerAddr msg), bc1)
    ∧ dlg_FpBtcPkList msg = BIP340FromBTCPK <$> fps ∧ dlg_BtcPk msg = pk ∧ dlg_StakingValue msg = v
    ∧ res = Some (mkTxResponse (rtr_TxHash r) []).
Proof.
  unfold CreateBTCDelegation. intros HE. inv_bind HE. inv_bind HE.
  apply go_wrap_ok, on_client_inv in E0 as (b1 & E0 & ->). destruct a0 as [r|]; [|by inv_bind HE].
  inv_bind HE. injection E1 as <- <-. injection HE as <- <-. by eexists _, s, r.
Qed.
End wrapper.
