(* ===== verification/FpInstance.v ===== *)
(** * The finality provider instance
      (src/finality-provider/service/fp_instance.go)

    The instance composes the poller, the submitter, the randomness committer
    and the start height determiner over one provider state, one EOTS manager
    and one chain connection, which the components share by pointer: the
    record below holds each once and lends it to the component that runs. *)

From Stdlib Require Import NArith ZArith Lia.
From stdpp Require Import base gmap strings list relations.
From S2P Require Import Prelude Kvdb External Config Toy EotsStore EotsApi LocalManager PubRandStore.
From S2P Require Import FpStore ChainApi FinalitySubmitter RandCommitter Bootstrap ChainPoller.

(** [types.BlockPoller], as far as the instance uses it *)
Class BlockPoller (Pl : Type) := {
  bp_TryNextBlock : Pl → option BlockInfo * Pl;
  bp_SetStartHeight : N → M Pl unit;
  bp_Stop : M Pl unit;
}.

(** The chain poller: its [Stop] waits for the goroutine in between. *)
#[export] Instance chain_block_poller {C : Type} : BlockPoller (ChainPoller C) := {|
  bp_TryNextBlock := TryNextBlock;
  bp_SetStartHeight := SetStartHeight;
  bp_Stop p := match Stop_begin p with (Ok _, p') => (Ok (), Stop_end p') | rp => rp end;
|}.

(** [fi_quit] is [None] while the channel is nil, then whether it is closed;
    [fi_reported] are the critical errors the monitor has received.  The two
    stores work on disjoint buckets of one database. *)
Record FinalityProviderInstance (D E C Pl : Type) `{Crypto} `{Sdk} := mkFPI {
  fi_btcPk : bytes;
  fi_fpState : FpState D;
  fi_pubRandState : D;
  fi_em : E;
  fi_consumerCon : C;
  fi_poller : Pl;
  fi_rcPk : option bytes;
  fi_rcCfg : RandomnessCommitterConfig;
  fi_isStarted : bool;
  fi_quit : option bool;
  fi_reported : list error;
}.
Arguments mkFPI {D E C Pl _ _}.
Arguments fi_btcPk {D E C Pl _ _}.
Arguments fi_fpState {D E C Pl _ _}.
Arguments fi_pubRandState {D E C Pl _ _}.
Arguments fi_em {D E C Pl _ _}.
Arguments fi_consumerCon {D E C Pl _ _}.
Arguments fi_poller {D E C Pl _ _}.
Arguments fi_rcPk {D E C Pl _ _}.
Arguments fi_rcCfg {D E C Pl _ _}.
Arguments fi_isStarted {D E C Pl _ _}.
Arguments fi_quit {D E C Pl _ _}.
Arguments fi_reported {D E C Pl _ _}.

Section instance.
Context `{Crypto} `{Sdk} `{BigEndian} `{Merkle} `{Retry} `{BabylonErrors}.
Context {D E C Pl : Type} `{!KvBackend D} `{!Codec FinalityProvider} `{!Codec Description}.
Context `{!EOTSManager E} `{!ConsumerController C} `{!BlockPoller Pl}.
Context (cfg : Config) (pollerCfg : ChainPollerConfig).
#[local] Abbreviation fpi := (FinalityProviderInstance D E C Pl).
#[local] Abbreviation rcT := (DefaultRandomnessCommitter D C E).

(** ** The parts of the instance, lent to the components *)

Definition on_fpState {A} (m : M (FpState D) A) : M fpi A := λ fi,
  let '(r, st) := m (fi_fpState fi) in
  (r, mkFPI (fi_btcPk fi) st (fi_pubRandState fi) (fi_em fi) (fi_consumerCon fi) (fi_poller fi)
        (fi_rcPk fi) (fi_rcCfg fi) (fi_isStarted fi) (fi_quit fi) (fi_reported fi)).

Definition on_consumerCon {A} (m : M C A) : M fpi A := λ fi,
  let '(r, c) := m (fi_consumerCon fi) in
  (r, mkFPI (fi_btcPk fi) (fi_fpState fi) (fi_pubRandState fi) (fi_em fi) c (fi_poller fi)
        (fi_rcPk fi) (fi_rcCfg fi) (fi_isStarted fi) (fi_quit fi) (fi_reported fi)).

Definition on_poller {A} (m : M Pl A) : M fpi A := λ fi,
  let '(r, p) := m (fi_poller fi) in
  (r, mkFPI (fi_btcPk fi) (fi_fpState fi) (fi_pubRandState fi) (fi_em fi) (fi_consumerCon fi) p
        (fi_rcPk fi) (fi_rcCfg fi) (fi_isStarted fi) (fi_quit fi) (fi_reported fi)).

Definition fi_rc (fi : fpi) : rcT :=
  mkRC (fi_rcPk fi) (fi_rcCfg fi) (fi_pubRandState fi) (fi_consumerCon fi) (fi_em fi).
Definition on_rndCommitter {A} (m : M rcT A) : M fpi A := λ fi,
  let '(r, rc) := m (fi_rc fi) in
  (r, mkFPI (fi_btcPk fi) (fi_fpState fi) (rc_PubRandState rc) (rc_Em rc) (rc_ConsumerCon rc)
        (fi_poller fi) (rc_BtcPk rc) (rc_Cfg rc) (fi_isStarted fi) (fi_quit fi) (fi_reported fi)).

Definition fi_ds (fi : fpi) : DefaultFinalitySubmitter (FpState D) E C D :=
  mkDS (fi_fpState fi) (fi_em fi) (fi_consumerCon fi) (fi_pubRandState fi).
Definition fi_with_ds (fi : fpi) (d : DefaultFinalitySubmitter (FpState D) E C D) : fpi :=
  mkFPI (fi_btcPk fi) (ds_State d) (ds_Proofs d) (ds_Em d) (ds_ConsumerCtrl d) (fi_poller fi)
    (fi_rcPk fi) (fi_rcCfg fi) (fi_isStarted fi) (fi_quit fi) (fi_reported fi).
Definition fi_with_poller (fi : fpi) (p : Pl) : fpi :=
  mkFPI (fi_btcPk fi) (fi_fpState fi) (fi_pubRandState fi) (fi_em fi) (fi_consumerCon fi) p
    (fi_rcPk fi) (fi_rcCfg fi) (fi_isStarted fi) (fi_quit fi) (fi_reported fi).
Definition fi_with_run (fi : fpi) (started : bool) (quit : option bool) : fpi :=
  mkFPI (fi_btcPk fi) (fi_fpState fi) (fi_pubRandState fi) (fi_em fi) (fi_consumerCon fi)
    (fi_poller fi) (fi_rcPk fi) (fi_rcCfg fi) started quit (fi_reported fi).

(** [rndCommiter.GetPubRandProofList], the submitter's [ProofListGetterFunc] *)
Definition proofListGetter (fi : fpi) (height num : N) : M D (list bytes) := λ p,
  let '(r, rc) := rc_GetPubRandProofList height num
    (mkRC (fi_rcPk fi) (fi_rcCfg fi) p (fi_consumerCon fi) (fi_em fi)) in
  (r, rc_PubRandState rc).

Definition submitterCfg : FinalitySubmitterConfig :=
  mkSubmitterCfg (cfg_MaxSubmissionRetries cfg) (cfg_ContextSigningHeight cfg).

(** ** Construction *)

(** What the application hands to a new instance: the store, the committer, the
    poller and whether the submitter already has a state. *)
Record instance_deps := mkDeps {
  dp_s : D;
  dp_rndCommitter : rcT;
  dp_poller : Pl;
  dp_stateSet : bool;
}.

Definition on_dp_s {A} (m : M D A) : M instance_deps A := λ dp,
  let '(r, s) := m (dp_s dp) in
  (r, mkDeps s (dp_rndCommitter dp) (dp_poller dp) (dp_stateSet dp)).
Definition on_dp_rc {A} (m : M rcT A) : M instance_deps A := λ dp,
  let '(r, rc) := m (dp_rndCommitter dp) in
  (r, mkDeps (dp_s dp) rc (dp_poller dp) (dp_stateSet dp)).

(** [finalitySubmitter.InitState(fpState)] *)
Definition InitState : M instance_deps unit := λ dp,
  if dp_stateSet dp then (Err (EText "finality provider state is already set"), dp)
  else (Ok (), mkDeps (dp_s dp) (dp_rndCommitter dp) (dp_poller dp) true).

Definition newFinalityProviderInstanceFromStore (sfp : StoredFinalityProvider)
    : M instance_deps fpi :=
  let btcPk := GetBIP340BTCPK sfp in
  _ ← go_wrap "failed to initialize randomness committer"
        (on_dp_rc (Init (Some btcPk) (bytes_of_string (sfp_ChainID sfp))));
  _ ← go_wrap "failed to initialize finality submitter state" InitState;
  dp ← go_get;
  let rc := dp_rndCommitter dp in
  mret (mkFPI btcPk (mkFpState sfp (dp_s dp)) (rc_PubRandState rc) (rc_Em rc) (rc_ConsumerCon rc)
          (dp_poller dp) (rc_BtcPk rc) (rc_Cfg rc) false None []).

Definition NewFinalityProviderInstance (fpPk : bytes) : M instance_deps fpi :=
  btcPk ← go_lift (MustToBTCPK fpPk);
  sfp ← go_wrap ("failed to retrieve the finality provider " +:+ MarshalHex fpPk +:+ " from DB")
          (on_dp_s (GetFinalityProvider btcPk));
  if bool_decide (sfp_Status sfp = SLASHED) then
    go_fail (EText "the finality provider instance is already slashed")
  else newFinalityProviderInstanceFromStore sfp.

(** ** Status *)

Definition fi_mustSetStatus (s : FinalityProviderStatus) : M fpi unit :=
  r ← go_try (on_fpState (SetStatus s));
  match r with
  | inl _ => go_crash "failed to set finality-provider status"
  | inr _ => mret ()
  end.

Definition IsJailed : M fpi bool :=
  fi ← go_get;
  r ← go_try (on_fpState (on_s (GetFinalityProvider (GetBtcPk (fi_fpState fi)))));
  match r with
  | inl _ => go_crash "failed to retrieve the finality provider from db"
  | inr storedFp =>
      fi ← go_get;
      _ ← (if negb (bool_decide (sfp_Status storedFp = GetStatus (fi_fpState fi)))
           then fi_mustSetStatus (sfp_Status storedFp) else mret ());
      fi ← go_get;
      mret (bool_decide (GetStatus (fi_fpState fi) = JAILED))
  end.

(** ** Starting and stopping *)

Definition fi_DetermineStartHeight : M fpi N :=
  fi ← go_get;
  go_wrap "failed to determine start height"
    (on_consumerCon (DetermineStartHeight pollerCfg (Some (fi_btcPk fi))
       (Some (Ok (GetLastVotedHeight (fi_fpState fi)))))).

(** The flag is swapped first and is not put back when a later step fails. *)
Definition Start : M fpi unit :=
  fi ← go_get;
  if fi_isStarted fi then
    go_fail (EText ("the finality-provider instance " +:+ GetBtcPkHex (fi_fpState fi)
                      +:+ " is already started"))
  else
    _ ← go_put (fi_with_run fi true (fi_quit fi));
    _ ← IsJailed;
    startHeight ← go_wrap "failed to get the start height" fi_DetermineStartHeight;
    _ ← go_wrap ("failed to start the poller with start height " +:+ fmt_d startHeight)
          (on_poller (bp_SetStartHeight startHeight));
    _ ← (if cfg_AdvancedResetLastVotedHeight cfg then
           go_wrap ("failed to overwrite finality provider state with last voted height "
                      +:+ fmt_d (u64_sub startHeight 1))
             (on_fpState (SetLastVotedHeight (u64_sub startHeight 1)))
         else mret ());
    fi ← go_get;
    go_put (fi_with_run fi (fi_isStarted fi) (Some false)).

(** [close(fp.quit)] panics on a nil channel. *)
Definition Stop : M fpi unit :=
  fi ← go_get;
  if negb (fi_isStarted fi) then
    go_fail (EText ("the finality-provider " +:+ GetBtcPkHex (fi_fpState fi)
                      +:+ " has already stopped"))
  else
    _ ← go_put (fi_with_run fi false (fi_quit fi));
    _ ← go_wrap "failed to stop the poller" (on_poller bp_Stop);
    fi ← go_get;
    match fi_quit fi with
    | None => go_crash "close of nil channel"
    | Some true => go_crash "close of closed channel"
    | Some false => go_put (fi_with_run fi (fi_isStarted fi) (Some true))
    end.

Definition IsRunning (fi : fpi) : bool := fi_isStarted fi.

(** ** Voting *)

(** [ready]: the monitor is waiting on the unbuffered channel; otherwise the
    error is only logged. *)
Definition reportCriticalErr (ready : bool) (err : error) : M fpi unit := λ fi,
  (Ok (), if ready then
            mkFPI (fi_btcPk fi) (fi_fpState fi) (fi_pubRandState fi) (fi_em fi) (fi_consumerCon fi)
              (fi_poller fi) (fi_rcPk fi) (fi_rcCfg fi) (fi_isStarted fi) (fi_quit fi)
              (fi_reported fi ++ [err])
          else fi).

(** [None] when [fuel] reads were not enough. *)
Fixpoint getBatchBlocksFromPoller (fuel : nat) (pollerBlocks : list BlockInfo) (p : Pl)
    : option (list BlockInfo * Pl) :=
  match fuel with
  | O => None
  | S fuel' =>
      match bp_TryNextBlock p with
      | (None, p') => Some (pollerBlocks, p')
      | (Some block, p') =>
          let pollerBlocks := pollerBlocks ++ [block] in
          if (lenN pollerBlocks =? cfg_BatchSubmissionSize cfg)%N then Some (pollerBlocks, p')
          else getBatchBlocksFromPoller fuel' pollerBlocks p'
      end
  end.

(** What [processAndSubmitSignatures] does with the result of the submission. *)
Definition handleSubmission (ready : bool) (r : outcome (option TxResponse)) : M fpi unit :=
  match r with
  | Ok _ => mret ()
  | Crash w => go_crash w
  | Err err =>
      if errors_Is err "ErrFinalityProviderJailed" then fi_mustSetStatus JAILED
      else if negb (errors_Is err "ErrFinalityProviderShutDown") then reportCriticalErr ready err
      else mret ()
  end.

(** [bfuel] bounds the reads from the poller, [fuel] the submission cycles. *)
Definition processAndSubmitSignatures (bfuel fuel : nat) (timer : nat → bool) (ready : bool)
    (fi : fpi) : option (outcome unit * fpi) :=
  if bool_decide (fi_quit fi = Some true) then Some (Ok (), fi)
  else
    match getBatchBlocksFromPoller bfuel [] (fi_poller fi) with
    | None => None
    | Some (pollerBlocks, p) =>
        let fi := fi_with_poller fi p in
        match pollerBlocks with
        | [] => Some (Ok (), fi)
        | _ =>
            match IsJailed fi with
            | (Err e, fi') => Some (Err e, fi')
            | (Crash w, fi') => Some (Crash w, fi')
            | (Ok true, fi') => Some (Ok (), fi')
            | (Ok false, fi') =>
                match SubmitBatchFinalitySignatures (proofListGetter fi') submitterCfg fuel timer
                        pollerBlocks (fi_ds fi') with
                | None => None
                | Some (r, d) => Some (handleSubmission ready r (fi_with_ds fi' d))
                end
            end
        end
    end.

(** ** Randomness *)

Definition processRandomnessCommitment (ready : bool) : M fpi unit :=
  r ← go_try (on_rndCommitter ShouldCommit);
  match r with
  | inl err => reportCriticalErr ready err
  | inr (should, startHeight) =>
      if negb should then mret ()
      else
        r ← go_try (on_rndCommitter (Commit startHeight));
        match r with
        | inl err => reportCriticalErr ready err
        | inr _ => mret ()
        end
  end.

Definition CommitPubRand (startHeight : N) : M fpi (option TxResponse) :=
  go_wrap "failed to commit public randomness" (on_rndCommitter (Commit startHeight)).

Definition fi_GetLastCommittedHeight : M fpi N :=
  go_wrap "failed to get last committed height" (on_rndCommitter GetLastCommittedHeight).

Definition GetVotingPowerWithRetry (height : N) : M fpi bool :=
  fi ← go_get;
  go_wrap "failed to get voting power after retries"
    (retry_Do false RtyAttNum
       (go_wrap "failed to query finality provider voting power"
          (on_consumerCon (cc_QueryFinalityProviderHasPower (GetBtcPk (fi_fpState fi)) height)))).
End instance.

(** ** Lemmas *)

Section lemmas.
Context `{CryptoLaws} `{Sdk} `{BigEndianLaws} `{Merkle} `{RetryLaws} `{BabylonErrors}.
Context {D E C Pl : Type} `{!KvBackend D} `{!Codec FinalityProvider} `{!Codec Description}.
Context `{!EOTSManager E} `{!ConsumerController C} `{!BlockPoller Pl}.
Context (cfg : Config) (pollerCfg : ChainPollerConfig).
#[local] Abbreviation fpi := (FinalityProviderInstance D E C Pl).
Implicit Types fi : fpi.

Definition fi_height fi : N := GetLastVotedHeight (fi_fpState fi).
Definition fi_pk fi : PublicKey := GetBtcPk (fi_fpState fi).

(** Only the status, in memory or in the store, may have changed. *)
Definition status_step fi fi' : Prop :=
  fi_height fi' = fi_height fi ∧ fi_pk fi' = fi_pk fi
  ∧ GetChainID (fi_fpState fi') = GetChainID (fi_fpState fi)
  ∧ fi_em fi' = fi_em fi ∧ fi_consumerCon fi' = fi_consumerCon fi
  ∧ fi_pubRandState fi' = fi_pubRandState fi ∧ fi_poller fi' = fi_poller fi
  ∧ fi_isStarted fi' = fi_isStarted fi ∧ fi_quit fi' = fi_quit fi
  ∧ fi_reported fi' = fi_reported fi ∧ fi_btcPk fi' = fi_btcPk fi.

#[export] Instance status_step_preorder : PreOrder status_step.
Proof.
  split; [done|]. intros f1 f2 f3 (?&?&?&?&?&?&?&?&?&?&?) (?&?&?&?&?&?&?&?&?&?&?).
  unfold status_step. split_and!; congruence.
Qed.

(** The height does not go back, the provider stays the same. *)
Definition fi_le fi fi' : Prop :=
  (fi_height fi ≤ fi_height fi')%N ∧ fi_pk fi' = fi_pk fi
  ∧ GetChainID (fi_fpState fi') = GetChainID (fi_fpState fi).

#[export] Instance fi_le_preorder : PreOrder fi_le.
Proof.
  split; [done|]. intros f1 f2 f3 (?&?&?) (?&?&?). unfold fi_le. split_and!; [lia|congruence..].
Qed.

Lemma status_fi_le fi fi' : status_step fi fi' → fi_le fi fi'.
Proof. intros (Hh & Hp & Hc & _). unfold fi_le. by rewrite Hh. Qed.

Lemma SetStatus_step s : preserves status_step (on_fpState (E:=E) (C:=C) (Pl:=Pl) (SetStatus (D:=D) s)).
Proof.
  intros fi r fi'. unfold on_fpState. destruct (SetStatus s (fi_fpState fi)) as [r1 st] eqn:Es.
  pose proof (st_status_set s (fi_fpState fi) r1 st Es) as (_ & Hh & Hp & Hc).
  intros [= _ <-]. unfold status_step, fi_height, fi_pk. simpl in *. by split_and!.
Qed.
Lemma read_step {A} (m : M D A) : preserves status_step (on_fpState (E:=E) (C:=C) (Pl:=Pl) (on_s m)).
Proof.
  intros fi r fi'. unfold on_fpState, on_s. destruct (m _). intros [= _ <-]. by repeat split.
Qed.
#[local] Hint Resolve SetStatus_step read_step : preserves.

Lemma mustSetStatus_step s : preserves status_step (fi_mustSetStatus (E:=E) (C:=C) (Pl:=Pl) (D:=D) s).
Proof. unfold fi_mustSetStatus. solve_preserves. Qed.
#[local] Hint Resolve mustSetStatus_step : preserves.

Lemma IsJailed_step : preserves status_step (IsJailed (E:=E) (C:=C) (Pl:=Pl) (D:=D)).
Proof. unfold IsJailed. solve_preserves. Qed.

Lemma mustSetStatus_ok s fi u fi' :
  fi_mustSetStatus s fi = (Ok u, fi') → GetStatus (fi_fpState fi') = s.
Proof.
  unfold fi_mustSetStatus. intros HE. inv_bind HE. apply go_try_ok in E0.
  destruct a as [e|[]]; [done|]. injection HE as _ <-. unfold on_fpState in E0.
  destruct (SetStatus s (fi_fpState fi)) as [r1 st] eqn:Es. injection E0 as -> <-. simpl.
  by pose proof (st_status_set s (fi_fpState fi) _ _ Es) as (Hs & _).
Qed.

(** [IsJailed] answers with the status of the store and brings the status in
    memory up to date. *)
Lemma IsJailed_ok fi j fi' :
  IsJailed fi = (Ok j, fi') →
  ∃ sfp, (GetFinalityProvider (fi_pk fi) (fps_s (fi_fpState fi))).1 = Ok sfp
    ∧ GetStatus (fi_fpState fi') = sfp_Status sfp ∧ j = bool_decide (sfp_Status sfp = JAILED).
Proof.
  unfold IsJailed. intros HE. inv_bind HE. inv_bind HE. apply go_try_ok in E0.
  destruct a as [e|sfp]; [done|]. inv_bind HE. inv_bind HE. inv_bind HE. injection HE as <- <-.
  exists sfp. unfold on_fpState, on_s, fi_pk in *.
  destruct (GetFinalityProvider _ _) as [r1 d1]. injection E0 as -> <-.
  case_bool_decide as Hst; simpl in E1.
  - injection E1 as _ <-. simpl in *. by rewrite <-Hst.
  - apply mustSetStatus_ok in E1. by rewrite E1.
Qed.

Lemma handleSubmission_step ready r fi r' fi' :
  handleSubmission ready r fi = (r', fi') → fi_le fi fi'.
Proof.
  unfold handleSubmission. destruct r as [a|err|w]; [by intros [= _ <-]| |by intros [= _ <-]].
  destruct (errors_Is _ _).
  - intros HE. by eapply status_fi_le, mustSetStatus_step.
  - destruct (negb _); [|by intros [= _ <-]]. unfold reportCriticalErr.
    destruct ready; by intros [= _ <-].
Qed.

Lemma process_le bfuel fuel timer ready fi r fi' :
  processAndSubmitSignatures cfg bfuel fuel timer ready fi = Some (r, fi') → fi_le fi fi'.
Proof.
  unfold processAndSubmitSignatures. case_bool_decide; [by intros [= _ <-]|].
  destruct (getBatchBlocksFromPoller _ _ _ _) as [[bs p]|]; [|done].
  destruct bs as [|b bs]; [by intros [= _ <-]|].
  destruct (IsJailed (fi_with_poller fi p)) as [rj fj] eqn:Ej.
  assert (fi_le fi fj) as Hj by exact (status_fi_le _ _ (IsJailed_step _ _ _ Ej)).
  destruct rj as [[]|e|w]; [by intros [= _ <-]| |by intros [= _ <-]..].
  destruct (SubmitBatchFinalitySignatures _ _ _ _ _ _) as [[rs d]|] eqn:Es; [|done].
  intros [= HE%handleSubmission_step]. transitivity fj; [done|].
  transitivity (fi_with_ds fj d); [|done].
  apply Submit_cases in Es as (Hpk & Hc & Hcase). simpl in *.
  unfold fi_le, fi_height, fi_pk. simpl. split_and!; [|done|done].
  destruct Hcase as [[-> _]|(b' & _ & -> & Hlt)]; lia.
Qed.

Lemma on_rndCommitter_le {A} (m : M _ A) : preserves fi_le (on_rndCommitter (Pl:=Pl) (D:=D) (E:=E) (C:=C) m).
Proof. intros fi r fi'. unfold on_rndCommitter. destruct (m _). by intros [= _ <-]. Qed.
Lemma report_le ready e : preserves fi_le (reportCriticalErr (D:=D) (E:=E) (C:=C) (Pl:=Pl) ready e).
Proof. intros fi r fi'. unfold reportCriticalErr. destruct ready; by intros [= _ <-]. Qed.
#[local] Hint Resolve on_rndCommitter_le report_le : preserves.

Lemma processRandomness_le ready :
  preserves fi_le (processRandomnessCommitment (D:=D) (E:=E) (C:=C) (Pl:=Pl) ready).
Proof. unfold processRandomnessCommitment. solve_preserves. Qed.

Lemma on_poller_le {A} (m : M Pl A) : preserves fi_le (on_poller (D:=D) (E:=E) (C:=C) m).
Proof. intros fi r fi'. unfold on_poller. destruct (m _). by intros [= _ <-]. Qed.
Lemma on_con_le {A} (m : M C A) : preserves fi_le (on_consumerCon (D:=D) (E:=E) (Pl:=Pl) m).
Proof. intros fi r fi'. unfold on_consumerCon. destruct (m _). by intros [= _ <-]. Qed.
Lemma IsJailed_le : preserves fi_le (IsJailed (E:=E) (C:=C) (Pl:=Pl) (D:=D)).
Proof. intros fi r fi' HE. by eapply status_fi_le, IsJailed_step. Qed.
#[local] Hint Resolve on_poller_le on_con_le IsJailed_le : preserves.

(** The steps of [Start] once the flag is set. *)
Lemma Start_begin fi :
  fi_isStarted fi = false →
  Start cfg pollerCfg fi =
    (_ ← IsJailed;
     startHeight ← go_wrap "failed to get the start height" (fi_DetermineStartHeight pollerCfg);
     _ ← go_wrap ("failed to start the poller with start height " +:+ fmt_d startHeight)
           (on_poller (bp_SetStartHeight startHeight));
     _ ← (if cfg_AdvancedResetLastVotedHeight cfg then
            go_wrap ("failed to overwrite finality provider state with last voted height "
                       +:+ fmt_d (u64_sub startHeight 1))
              (on_fpState (SetLastVotedHeight (u64_sub startHeight 1)))
          else mret ());
     fi ← go_get;
     go_put (fi_with_run fi (fi_isStarted fi) (Some false))) (fi_with_run fi true (fi_quit fi)).
Proof. intros Hs. unfold Start. erewrite go_bind_run; [|reflexivity]. by rewrite Hs. Qed.

(** The key, the flag and the quit channel are left as they are. *)
Definition same_run fi fi' : Prop :=
  fi_btcPk fi' = fi_btcPk fi ∧ fi_isStarted fi' = fi_isStarted fi ∧ fi_quit fi' = fi_quit fi.
#[export] Instance same_run_preorder : PreOrder same_run.
Proof. split; [done|]. intros f1 f2 f3 (?&?&?) (?&?&?). unfold same_run. split_and!; congruence. Qed.

Lemma IsJailed_run : preserves same_run (IsJailed (E:=E) (C:=C) (Pl:=Pl) (D:=D)).
Proof. intros fi r fi' HE%IsJailed_step. unfold status_step in HE. unfold same_run. tauto. Qed.
Lemma on_poller_run {A} (m : M Pl A) : preserves same_run (on_poller (D:=D) (E:=E) (C:=C) m).
Proof. intros fi r fi'. unfold on_poller. destruct (m _). by intros [= _ <-]. Qed.
Lemma on_con_run {A} (m : M C A) : preserves same_run (on_consumerCon (D:=D) (E:=E) (Pl:=Pl) m).
Proof. intros fi r fi'. unfold on_consumerCon. destruct (m _). by intros [= _ <-]. Qed.
Lemma on_fpState_run {A} (m : M _ A) : preserves same_run (on_fpState (D:=D) (E:=E) (C:=C) (Pl:=Pl) m).
Proof. intros fi r fi'. unfold on_fpState. destruct (m _). by intros [= _ <-]. Qed.
Lemma put_atomic (f : fpi) : atomic same_run (go_put f).
Proof. by intros s r s' [= <- <-]. Qed.
#[local] Hint Resolve IsJailed_run on_poller_run on_con_run on_fpState_run put_atomic : preserves.

Lemma DetermineStart_run :
  preserves same_run (fi_DetermineStartHeight (D:=D) (E:=E) (C:=C) (Pl:=Pl) pollerCfg).
Proof. unfold fi_DetermineStartHeight. solve_preserves. Qed.
#[local] Hint Resolve DetermineStart_run : preserves.

(** The started flag of an instance is not put back when [Start] fails:
    after a failed [Start] the instance counts as running although neither of
    its loops runs, every further [Start] is refused, and a [Stop] does not
    return normally: the poller was not started, or the quit channel is nil
    and closing it panics. *)
Theorem Start_failure_sticks fi r fi'
    (Hidle : fi_isStarted fi = false) (Hquit : fi_quit fi = None)
    (Hrun : Start cfg pollerCfg fi = (r, fi')) (Hfail : is_Ok r = false) :
  IsRunning fi' = true ∧ fi_quit fi' = None
  ∧ is_Ok (Start cfg pollerCfg fi').1 = false
  ∧ is_Ok (Stop fi').1 = false.
Proof.
  rewrite Start_begin in Hrun by done.
  assert (same_run (fi_with_run fi true (fi_quit fi)) fi') as (_ & Hs & Hq).
  { refine ((_ : atomic same_run _) _ _ _ Hrun Hfail). clear Hrun. solve_atomic. }
  simpl in Hs, Hq. unfold IsRunning. rewrite Hquit in Hq. split_and!; [done|done| |].
  - unfold Start. erewrite go_bind_run; [|reflexivity]. by rewrite Hs.
  - unfold Stop. erewrite go_bind_run; [|reflexivity]. rewrite Hs. simpl.
    erewrite go_bind_run; [|reflexivity]. unfold mbind at 1, M_bind at 1, go_bind at 1.
    destruct (go_wrap _ _ _) as [rs f1] eqn:E1.
    pose proof (preserves_wrap same_run _ _ (on_poller_run _) _ _ _ E1) as (_ & _ & Hq1).
    destruct rs as [u|e|w]; [|done..]. erewrite go_bind_run; [|reflexivity].
    simpl in Hq1. by rewrite Hq1, Hq.
Qed.

(** C10: a finality provider that the store marks as jailed does not vote,
    whatever status the instance holds in memory: the blocks are taken from the
    poller, and neither the EOTS manager nor the chain is called, the last
    voted height and the randomness stay, and no error is reported. *)
Theorem jailed_does_not_vote bfuel fuel timer ready fi sfp blocks p
    (Hjail : (GetFinalityProvider (fi_pk fi) (fps_s (fi_fpState fi))).1 = Ok sfp)
    (Hst : sfp_Status sfp = JAILED)
    (Hread : getBatchBlocksFromPoller cfg bfuel [] (fi_poller fi) = Some (blocks, p)) :
  ∃ r fi', processAndSubmitSignatures cfg bfuel fuel timer ready fi = Some (r, fi')
    ∧ fi_em fi' = fi_em fi ∧ fi_consumerCon fi' = fi_consumerCon fi
    ∧ fi_pubRandState fi' = fi_pubRandState fi
    ∧ fi_height fi' = fi_height fi ∧ fi_reported fi' = fi_reported fi
    ∧ (fi_quit fi ≠ Some true → fi_poller fi' = p).
Proof.
  unfold processAndSubmitSignatures. case_bool_decide as Hq; [by eexists _, _; split_and!|].
  rewrite Hread. destruct blocks as [|b bs]; [by eexists _, _; split_and!|].
  destruct (IsJailed (fi_with_poller fi p)) as [rj fj] eqn:Ej.
  pose proof (IsJailed_step _ _ _ Ej) as (Hh & _ & _ & He & Hc & Hp & Hpl & _ & _ & Hrep & _).
  simpl in *. destruct rj as [[]|e|w]; [by eexists _, _; split_and!| |by eexists _, _; split_and!..].
  apply IsJailed_ok in Ej as (sfp' & Hg & _ & Hj). unfold fi_pk in Hg, Hjail. simpl in Hg.
  rewrite Hjail in Hg. injection Hg as <-. by rewrite Hst in Hj.
Qed.
End lemmas.

(** ** What the operations preserve

    As for the submitter: a relation kept by the calls on the parts is kept by
    every operation of the instance. *)
Section frame.
Context `{CryptoLaws} `{Sdk} `{BigEndianLaws} `{Merkle} `{RetryLaws} `{BabylonErrors}.
Context {D E C Pl : Type} `{!KvBackend D} `{!Codec FinalityProvider} `{!Codec Description}.
Context `{!EOTSManager E} `{!ConsumerController C} `{!BlockPoller Pl}.
Context (cfg : Config) (pollerCfg : ChainPollerConfig).
#[local] Abbreviation fpi := (FinalityProviderInstance D E C Pl).
Implicit Types fi : fpi.
Context (R : relation fpi) `{!PreOrder R}.
Context (Rstatus : ∀ s, preserves R (on_fpState (SetStatus s))).
Context (Rheight : ∀ h, preserves R (on_fpState (SetLastVotedHeight h))).
Context (Rget : ∀ pk, preserves R (on_fpState (on_s (GetFinalityProvider pk)))).
Context (Rpoller : ∀ A (m : M Pl A), preserves R (on_poller m)).
Context (Rreport : ∀ ready e, preserves R (reportCriticalErr ready e)).
Context (Rrun : ∀ fi started quit, R fi (fi_with_run fi started quit)).
Context (Rstart : ∀ pk h,
  preserves R (on_consumerCon (DetermineStartHeight pollerCfg (Some pk) (Some (Ok h))))).
Context (Rshould : preserves R (on_rndCommitter ShouldCommit)).
Context (Rcommit : ∀ h, preserves R (on_rndCommitter (Commit h))).
Context (Rsubmit : ∀ fuel timer bs fi r d,
  SubmitBatchFinalitySignatures (proofListGetter fi) (submitterCfg cfg) fuel timer bs (fi_ds fi)
    = Some (r, d) → R fi (fi_with_ds fi d)).
#[local] Hint Resolve Rstatus Rheight Rget Rpoller Rreport Rshould Rcommit : preserves.

Lemma frame_fi_mustSetStatus s : preserves R (fi_mustSetStatus s).
Proof. unfold fi_mustSetStatus. solve_preserves. Qed.
#[local] Hint Resolve frame_fi_mustSetStatus : preserves.

Lemma frame_IsJailed : preserves R IsJailed.
Proof. unfold IsJailed. solve_preserves. Qed.
#[local] Hint Resolve frame_IsJailed : preserves.

Lemma frame_randomness ready : preserves R (processRandomnessCommitment ready).
Proof. unfold processRandomnessCommitment. solve_preserves. Qed.

Lemma frame_handleSubmission ready r : preserves R (handleSubmission ready r).
Proof. unfold handleSubmission. solve_preserves. Qed.

Lemma frame_process bfuel fuel timer ready fi r fi' :
  processAndSubmitSignatures cfg bfuel fuel timer ready fi = Some (r, fi') → R fi fi'.
Proof.
  unfold processAndSubmitSignatures. case_bool_decide; [by intros [= _ <-]|].
  destruct (getBatchBlocksFromPoller _ _ _ _) as [[bs p]|]; [|done].
  assert (R fi (fi_with_poller fi p)) as Rp.
  { apply (Rpoller unit (λ _, (Ok (), p)) fi (Ok ())). done. }
  destruct bs as [|b bs]; [by intros [= _ <-]|].
  destruct (IsJailed (fi_with_poller fi p)) as [rj fj] eqn:Ej.
  assert (R fi fj) as Hj by (etrans; [exact Rp|by eapply frame_IsJailed]).
  destruct rj as [[]|e|w]; [by intros [= _ <-]| |by intros [= _ <-]..].
  destruct (SubmitBatchFinalitySignatures _ _ _ _ _ _) as [[rs d]|] eqn:Es; [|done].
  apply Rsubmit in Es. intros [= HE%frame_handleSubmission]. etrans; [exact Hj|]. by etrans.
Qed.

Lemma frame_run (a : fpi → bool) (b : option bool) :
  preserves R (go_get ≫= λ fi, go_put (fi_with_run fi (a fi) b)).
Proof. intros fi r fi' [= _ <-]. apply Rrun. Qed.

Lemma frame_Stop : preserves R Stop.
Proof.
  unfold Stop. apply preserves_get_bind. intros fi r fi'. destruct (negb _); [by intros [= _ <-]|].
  erewrite go_bind_run; [|reflexivity]. intros HE. etrans; [apply (Rrun fi false (fi_quit fi))|].
  refine ((_ : preserves R _) _ _ _ HE). clear HE.
  apply preserves_bind; [apply _|solve_preserves|intros _]. apply preserves_get_bind.
  intros f r1 f1. destruct (fi_quit f) as [[]|]; intros [= _ <-]; [done| |done]. apply Rrun.
Qed.

Lemma frame_DetermineStart : preserves R (fi_DetermineStartHeight pollerCfg).
Proof.
  unfold fi_DetermineStartHeight. apply preserves_bind; [apply _|solve_preserves|intros fi].
  apply preserves_wrap, Rstart.
Qed.
#[local] Hint Resolve frame_DetermineStart : preserves.

Lemma frame_Start : preserves R (Start cfg pollerCfg).
Proof.
  intros fi r fi' HE. destruct (fi_isStarted fi) eqn:Hs.
  { unfold Start in HE. erewrite go_bind_run in HE; [|reflexivity]. rewrite Hs in HE.
    by injection HE as _ <-. }
  rewrite Start_begin in HE by done. etrans; [apply (Rrun fi true (fi_quit fi))|].
  refine ((_ : preserves R _) _ _ _ HE). clear HE.
  do 4 (apply preserves_bind; [apply _|solve [solve_preserves]|intros ?]). apply frame_run.
Qed.
End frame.

(** ** Histories of an instance *)

Section histories.
Context `{CryptoLaws} `{Sdk} `{BigEndianLaws} `{Merkle} `{RetryLaws} `{BabylonErrors}.
Context {D E C Pl : Type} `{!KvBackend D} `{!Codec FinalityProvider} `{!Codec Description}.
Context `{!EOTSManager E} `{!ConsumerController C} `{!BlockPoller Pl}.
Context (cfg : Config) (pollerCfg : ChainPollerConfig).
#[local] Abbreviation fpi := (FinalityProviderInstance D E C Pl).
Implicit Types fi : fpi.

(** The two loops, the public operations, and what happens around them: the
    poller's goroutine, other writers of the database (the status loops of the
    application), other users of the EOTS manager, and the chain. *)
Inductive inst_step : fpi → fpi → Prop :=
| inst_sigs bfuel fuel timer ready fi r fi' :
    processAndSubmitSignatures cfg bfuel fuel timer ready fi = Some (r, fi') → inst_step fi fi'
| inst_rand ready fi r fi' : processRandomnessCommitment ready fi = (r, fi') → inst_step fi fi'
| inst_commit h fi r fi' : CommitPubRand h fi = (r, fi') → inst_step fi fi'
| inst_committed fi r fi' : fi_GetLastCommittedHeight fi = (r, fi') → inst_step fi fi'
| inst_power h fi r fi' : GetVotingPowerWithRetry h fi = (r, fi') → inst_step fi fi'
| inst_jailed fi r fi' : IsJailed fi = (r, fi') → inst_step fi fi'
| inst_start fi r fi' : Start cfg pollerCfg fi = (r, fi') → inst_step fi fi'
| inst_stop fi r fi' : Stop fi = (r, fi') → inst_step fi fi'
| inst_env s ps em con pl fi :
    inst_step fi (mkFPI (fi_btcPk fi) (mkFpState (fps_sfp (fi_fpState fi)) s) ps em con pl
      (fi_rcPk fi) (fi_rcCfg fi) (fi_isStarted fi) (fi_quit fi) (fi_reported fi)).

#[local] Hint Resolve on_poller_le on_con_le IsJailed_le : preserves.

Lemma DetermineStart_le :
  preserves fi_le (fi_DetermineStartHeight (D:=D) (E:=E) (C:=C) (Pl:=Pl) pollerCfg).
Proof. unfold fi_DetermineStartHeight. solve_preserves. Qed.
#[local] Hint Resolve DetermineStart_le : preserves.

Lemma run_le a b : preserves fi_le (go_get ≫= λ fi, go_put (fi_with_run (D:=D) (E:=E) (C:=C) (Pl:=Pl) fi (a fi) b)).
Proof. intros fi r fi' [= _ <-]. by repeat split. Qed.
#[local] Hint Resolve run_le : preserves.

Lemma Start_le fi r fi' :
  cfg_AdvancedResetLastVotedHeight cfg = false →
  Start cfg pollerCfg fi = (r, fi') → fi_le fi fi'.
Proof.
  intros Hreset HE. destruct (fi_isStarted fi) eqn:Hs.
  { unfold Start in HE. erewrite go_bind_run in HE; [|reflexivity]. rewrite Hs in HE.
    by injection HE as _ <-. }
  rewrite Start_begin in HE by done. rewrite Hreset in HE.
  change (fi_le (fi_with_run fi true (fi_quit fi)) fi').
  revert HE. generalize (fi_with_run fi true (fi_quit fi)). clear fi Hs. intros fi HE.
  refine ((_ : preserves fi_le _) _ _ _ HE). clear HE.
  do 4 (apply preserves_bind; [apply _|solve [solve_preserves]|intros ?]). apply run_le.
Qed.

#[local] Hint Resolve on_rndCommitter_le : preserves.

Lemma Stop_le : preserves fi_le (Stop (D:=D) (E:=E) (C:=C) (Pl:=Pl)).
Proof. apply frame_Stop; [apply _|intros; apply on_poller_le|done]. Qed.

Lemma inst_step_le fi fi' :
  cfg_AdvancedResetLastVotedHeight cfg = false → inst_step fi fi' → fi_le fi fi'.
Proof.
  intros Hreset. destruct 1 as [? ? ? ? ? ? ? HE|? ? ? ? HE|? ? ? ? HE|? ? ? HE|? ? ? ? HE
    |? ? ? HE|? ? ? HE|? ? ? HE|].
  - by eapply process_le.
  - by eapply processRandomness_le.
  - refine ((_ : preserves fi_le _) _ _ _ HE). unfold CommitPubRand. solve_preserves.
  - refine ((_ : preserves fi_le _) _ _ _ HE). unfold fi_GetLastCommittedHeight. solve_preserves.
  - refine ((_ : preserves fi_le _) _ _ _ HE). clear HE. unfold GetVotingPowerWithRetry.
    apply preserves_bind; [apply _|solve_preserves|intros ?]. apply preserves_wrap.
    apply preserves_retry; [apply _|]. solve_preserves.
  - by eapply IsJailed_le.
  - by eapply Start_le.
  - by eapply Stop_le.
  - by repeat split.
Qed.

(** Over any history of an instance, its two loops, its public operations
    and whatever happens to the database, the EOTS manager, the chain and the
    poller in between, the last voted height the instance works with never goes
    down and the provider's key and chain stay the same, as long as the
    operator has not asked for a reset. *)
Theorem instance_height_monotone fi fi'
    (Hreset : cfg_AdvancedResetLastVotedHeight cfg = false) (Hrun : rtc inst_step fi fi') :
  (fi_height fi ≤ fi_height fi')%N ∧ fi_pk fi' = fi_pk fi
  ∧ GetChainID (fi_fpState fi') = GetChainID (fi_fpState fi).
Proof.
  change (fi_le fi fi'). induction Hrun as [|f1 f2 f3 Hs _ IH]; [done|].
  transitivity f2; [by apply inst_step_le|done].
Qed.
End histories.

(** ** The instance over the chain poller *)

Section chain_instance.
Context `{CryptoLaws} `{Sdk} `{BigEndianLaws} `{Merkle} `{RetryLaws} `{BabylonErrors} `{NetParsers}.
Context {D E C : Type} `{!KvBackend D} `{!Codec FinalityProvider} `{!Codec Description}.
Context `{!EOTSManager E} `{!ConsumerController C}.
Context (cfg : Config) (pollerCfg : ChainPollerConfig).
#[local] Abbreviation fpi := (FinalityProviderInstance D E C (ChainPoller C)).
Implicit Types (fi : fpi) (p : ChainPoller C).

Lemma getBatch_gen fuel : ∀ acc p,
  cp_isStarted p = true → (lenN acc < cfg_BatchSubmissionSize cfg)%N →
  (length (cp_blockChan p) < fuel)%nat →
  let n := (N.to_nat (cfg_BatchSubmissionSize cfg) - length acc)%nat in
  getBatchBlocksFromPoller cfg fuel acc p =
    Some (acc ++ take n (cp_blockChan p), with_chan p (drop n (cp_blockChan p))).
Proof.
  induction fuel as [|fuel IH]; intros acc p Hs Hacc Hf n; [lia|]. simpl. unfold TryNextBlock.
  rewrite Hs. simpl. destruct (cp_blockChan p) as [|b ch] eqn:Ec.
  { rewrite take_nil, drop_nil, app_nil_r. destruct p. simpl in *. by rewrite Ec. }
  assert (n = S (n - 1)) as Hn by (unfold n, lenN in *; lia).
  assert (lenN (acc ++ [b]) = (lenN acc + 1)%N) as Hl by (unfold lenN; rewrite length_app; simpl; lia).
  destruct (_ =? _)%N eqn:Eq.
  - apply N.eqb_eq in Eq. assert (n = 1)%nat as -> by (unfold n, lenN in *; lia). simpl. by rewrite drop_0, take_0.
  - apply N.eqb_neq in Eq. rewrite IH; [|done|lia|simpl in *; lia]. simpl.
    assert (N.to_nat (cfg_BatchSubmissionSize cfg) - length (acc ++ [b]) = n - 1)%nat as ->
      by (rewrite length_app; unfold n; simpl; lia).
    rewrite Hn at 3 4. simpl. by rewrite <-app_assoc.
Qed.

(** With a validated configuration a batch read from a running poller
    terminates and takes exactly the oldest blocks of the channel, in order,
    at most [BatchSubmissionSize] of them, and leaves the rest in the channel. *)
Theorem getBatchBlocks_exact fuel p
    (Hcfg : Config_Validate cfg = Ok ()) (Hs : cp_isStarted p = true)
    (Hfuel : (length (cp_blockChan p) < fuel)%nat) :
  let n := N.to_nat (cfg_BatchSubmissionSize cfg) in
  getBatchBlocksFromPoller cfg fuel [] p =
    Some (take n (cp_blockChan p), with_chan p (drop n (cp_blockChan p))).
Proof.
  intros n. apply Config_Validate_ok in Hcfg as [Hsize _].
  rewrite getBatch_gen by done. simpl. by rewrite Nat.sub_0_r.
Qed.

Lemma determine_ok fi start fi' :
  fi_DetermineStartHeight pollerCfg fi = (Ok start, fi') →
  ∃ con', DetermineStartHeight pollerCfg (Some (fi_btcPk fi)) (Some (Ok (fi_height fi)))
            (fi_consumerCon fi) = (Ok start, con')
    ∧ fi_isStarted fi' = fi_isStarted fi ∧ fi_height fi' = fi_height fi.
Proof.
  unfold fi_DetermineStartHeight. intros HE. inv_bind HE. apply go_wrap_ok in HE.
  unfold on_consumerCon in HE.
  unfold fi_height. destruct (DetermineStartHeight _ _ _ _) as [r con']. injection HE as -> <-.
  by exists con'.
Qed.

Lemma start_poller_ok h fi u fi' :
  on_poller (bp_SetStartHeight h) fi = (Ok u, fi') →
  fi_isStarted fi' = fi_isStarted fi ∧ fi_height fi' = fi_height fi
  ∧ cp_isStarted (fi_poller fi') = true ∧ cp_nextHeight (fi_poller fi') = h
  ∧ cp_blockChan (fi_poller fi') = [].
Proof.
  unfold on_poller. simpl. unfold SetStartHeight.
  destruct (cp_isStarted _); intros [= _ <-]. done.
Qed.

Lemma reset_height h fi r fi' :
  on_fpState (SetLastVotedHeight h) fi = (r, fi') →
  fi_isStarted fi' = fi_isStarted fi ∧ fi_poller fi' = fi_poller fi ∧ fi_height fi' = h.
Proof.
  unfold on_fpState. destruct (SetLastVotedHeight h (fi_fpState fi)) as [r1 st] eqn:Es.
  pose proof (st_height_set h (fi_fpState fi) r1 st Es) as (Hh & _). by intros [= _ <-].
Qed.

(** A successful [Start]: what it went through. *)
Lemma Start_ok fi u fi' :
  Start cfg pollerCfg fi = (Ok u, fi') →
  ∃ start con con', DetermineStartHeight pollerCfg (Some (fi_btcPk fi))
        (Some (Ok (fi_height fi))) con = (Ok start, con')
    ∧ IsRunning fi' = true ∧ fi_quit fi' = Some false
    ∧ cp_isStarted (fi_poller fi') = true ∧ cp_nextHeight (fi_poller fi') = start
    ∧ cp_blockChan (fi_poller fi') = []
    ∧ fi_height fi' = (if cfg_AdvancedResetLastVotedHeight cfg then u64_sub start 1 else fi_height fi).
Proof.
  intros HE. destruct (fi_isStarted fi) eqn:Hs.
  { unfold Start in HE. erewrite go_bind_run in HE; [|reflexivity]. by rewrite Hs in HE. }
  rewrite Start_begin in HE by done. inv_bind HE. inv_bind HE. inv_bind HE. inv_bind HE. inv_bind HE.
  injection HE as _ <-.
  apply IsJailed_step in E0 as (Hh & _ & _ & _ & _ & _ & _ & Hst & _ & _ & Hpk).
  apply determine_ok in E1 as (c' & Hd & Hs0 & Hh0). rewrite Hpk, Hh in Hd.
  apply start_poller_ok in E2 as (Hs1 & Hh1 & Hps & Hpn & Hpc).
  assert (fi_isStarted s2 = fi_isStarted s1 ∧ fi_poller s2 = fi_poller s1
          ∧ fi_height s2 = if cfg_AdvancedResetLastVotedHeight cfg then u64_sub a0 1
                           else fi_height s1) as (Hst2 & Hp2 & Hh2).
  { destruct (cfg_AdvancedResetLastVotedHeight cfg).
    - apply go_wrap_ok in E3. by apply reset_height in E3.
    - by injection E3 as _ <-. }
  exists a0, (fi_consumerCon s), c'. unfold IsRunning. simpl. rewrite Hp2.
  split_and!; [done|by rewrite Hst2, Hs1, Hs0, Hst|done..|].
  change (fi_height s2 = if cfg_AdvancedResetLastVotedHeight cfg then u64_sub a0 1 else fi_height fi).
  rewrite Hh2, Hh1, Hh0, Hh. done.
Qed.

(** C19: a successful [Start] with a validated configuration leaves the instance
    running with an open quit channel, and the poller running on an empty
    channel.  In auto scanning mode the poller starts above the last voted
    height of the instance, above the highest voted and the last finalized
    height the chain reported, and not below the activation height; in static
    mode at the configured height.  A reset sets the last voted height to just
    below the configured height, which does not wrap around; without it the
    last voted height stays. *)
Theorem Start_positions fi u fi'
    (Hcfg : Config_Validate cfg = Ok ()) (Hpoll : cfg_PollerConfig cfg = Some pollerCfg)
    (Hu64 : is_u64 (StaticChainScanningStartHeight pollerCfg))
    (Hrun : Start cfg pollerCfg fi = (Ok u, fi')) :
  let next := cp_nextHeight (fi_poller fi') in
  IsRunning fi' = true ∧ fi_quit fi' = Some false
  ∧ cp_isStarted (fi_poller fi') = true ∧ cp_blockChan (fi_poller fi') = []
  ∧ (if AutoChainScanningMode pollerCfg then
       fi_height fi' = fi_height fi
       ∧ ∃ pk voted final act, MustToBTCPK (fi_btcPk fi) = Ok pk ∧ voted_answer (C:=C) pk voted
           ∧ finalized_answer (C:=C) final ∧ activated_answer (C:=C) act
           ∧ ((N.max (N.max (fi_height fi) voted) final + 1 < two64)%N →
              (fi_height fi' < next ∧ voted < next ∧ final < next ∧ act ≤ next)%N)
     else next = StaticChainScanningStartHeight pollerCfg
       ∧ if cfg_AdvancedResetLastVotedHeight cfg then (fi_height fi' + 1)%N = next
         else fi_height fi' = fi_height fi).
Proof.
  intros next. apply Config_Validate_ok in Hcfg as (_ & p & Hp & _ & Hreset).
  rewrite Hpoll in Hp. injection Hp as <-.
  apply Start_ok in Hrun as (start & con & con' & Hd & Hr & Hq & Hps & Hn & Hc & Hh).
  apply DetermineStartHeight_ok in Hd. unfold next. rewrite Hn.
  split_and!; [done..|]. destruct (AutoChainScanningMode pollerCfg) eqn:Ea.
  - destruct (cfg_AdvancedResetLastVotedHeight cfg); [by destruct (Hreset eq_refl)|].
    split; [done|]. destruct Hd as (pk & voted & final & act & Hpk & Hv & Hf & Ha & ->).
    exists pk, voted, final, act. split_and!; [done..|]. intros Hb.
    rewrite Hh, u64_add_small by done. lia.
  - split; [done|]. destruct (cfg_AdvancedResetLastVotedHeight cfg); [|done].
    destruct (Hreset eq_refl) as [Hpos _]. rewrite Hh, Hd, u64_sub_small by (done || lia). lia.
Qed.
End chain_instance.

(** ** Witnesses *)

Module InstanceWitness.
Import LmToy FpToy ChainToy.

#[local] Instance w_net : NetParsers := {|
  ResolveTCPAddr s := if bool_decide (s = "") then Err (EText "missing address") else Ok ();
  ParseIP s := bool_decide (s = "127.0.0.1");
  url_Parse _ := Ok ();
|}.

Definition w_poller (auto : bool) : ChainPollerConfig := mkPollerCfg 10 1000 50 auto 10.
Definition w_config (auto reset : bool) : Config :=
  mkConfig "debug" 3 0 3 "127.0.0.1:12582" "" 2 1 1 1 (Some (w_poller auto)) None
    (Some (toy_bbn_cfg "node0" 3)) "127.0.0.1:12581" (Some (mkMetricsCfg "127.0.0.1" 2112 1)) 0 1 reset.

Definition w_block (h : N) : BlockInfo := NewBlockInfo h [Byte.x07] false.
Definition w_cp (started : bool) : ChainPoller toy_consumer :=
  mkCP started false (toy_tc [] 0) 10 [w_block 10; w_block 11; w_block 12] false 10 (PTicking 0).
Definition w_inst (d : MapDb.db) (p : ChainPoller toy_consumer)
    : FinalityProviderInstance MapDb.db (LocalEOTSManager toy_keyring MapDb.db) toy_consumer
        (ChainPoller toy_consumer) :=
  mkFPI (toy_pk true) (mkFpState toy_sfp d) (pr_initBuckets MapDb.empty).2 toy_lm
    (toy_tc [10; 11; 12]%N 0) p (Some (toy_pk true)) (mkRcCfg 3 2 0 (Some toy_chain)) false None [].

Definition w_jailed : MapDb.db := (SetFpStatus toy_key JAILED toy_fp_db).2.
Definition w_timer : nat → bool := λ _, true.

Lemma getBatchBlocks_exact_witness :
  getBatchBlocksFromPoller (w_config true false) 4 [] (w_cp true)
    = Some ([w_block 10; w_block 11], with_chan (w_cp true) [w_block 12]).
Proof. apply (getBatchBlocks_exact (w_config true false) 4 (w_cp true)); [vm_eq|done|simpl; lia]. Defined.

Lemma jailed_does_not_vote_witness :
  GetStatus (fi_fpState (w_inst w_jailed (w_cp true))) = REGISTERED
  ∧ ∃ r fi', processAndSubmitSignatures (w_config true false) 4 4 w_timer true
               (w_inst w_jailed (w_cp true)) = Some (r, fi')
      ∧ fi_em fi' = toy_lm ∧ fi_height fi' = 0%N
      ∧ cp_blockChan (fi_poller fi') = [w_block 12].
Proof.
  split; [done|].
  destruct (jailed_does_not_vote (w_config true false) 4 4 w_timer true (w_inst w_jailed (w_cp true))
              (sfp_with_status toy_sfp JAILED) [w_block 10; w_block 11] (with_chan (w_cp true) [w_block 12]))
    as (r & fi' & Hrun & He & _ & _ & Hh & _ & Hp); [vm_eq|done|vm_eq|].
  exists r, fi'. split_and!; [done|done|done|]. by rewrite Hp.
Defined.

(** The poller of [w_inst] already runs, so that it cannot be started. *)
Definition w_failed := Start (w_config true false) (w_poller true) (w_inst toy_fp_db (w_cp true)).

Lemma Start_failure_sticks_witness :
  is_Ok w_failed.1 = false ∧ IsRunning w_failed.2 = true ∧ is_Ok (Stop w_failed.2).1 = false.
Proof.
  split; [vm_eq|].
  destruct (Start_failure_sticks (w_config true false) (w_poller true) (w_inst toy_fp_db (w_cp true))
              w_failed.1 w_failed.2) as (Hr & _ & _ & Hs);
    [reflexivity|reflexivity|exact (surjective_pairing w_failed)|vm_eq|exact (conj Hr Hs)].
Defined.

Definition w_fi := w_inst toy_fp_db (w_cp false).

Definition w_reset := Start (w_config false true) (w_poller false) w_fi.

Lemma Start_positions_witness :
  w_reset = (Ok (), w_reset.2) ∧ cp_nextHeight (fi_poller w_reset.2) = 50%N
  ∧ (fi_height w_reset.2 + 1)%N = cp_nextHeight (fi_poller w_reset.2).
Proof.
  assert (E : w_reset = (Ok (), w_reset.2)) by (apply run_eq; vm_eq).
  assert (V : Config_Validate (w_config false true) = Ok ()) by vm_eq.
  exact (conj E (proj2 (proj2 (proj2 (proj2
    (Start_positions (w_config false true) (w_poller false) w_fi () w_reset.2 V eq_refl eq_refl E)))))).
Defined.

Definition w_started := Start (w_config true false) (w_poller true) w_fi.
Definition w_stopped := Stop w_started.2.

Lemma instance_height_monotone_witness :
  is_Ok w_started.1 = true ∧ is_Ok w_stopped.1 = true
  ∧ (fi_height w_fi ≤ fi_height w_stopped.2)%N.
Proof.
  split_and!; [vm_eq|vm_eq|].
  apply (instance_height_monotone (w_config true false) (w_poller true) w_fi w_stopped.2); [done|].
  apply (rtc_l _ _ w_started.2); [|apply rtc_once].
  - apply (inst_start _ _ _ w_started.1). exact (surjective_pairing w_started).
  - apply (inst_stop _ _ _ w_stopped.1). exact (surjective_pairing w_stopped).
Defined.
End InstanceWitness.
