(* ===== verification/InstanceLoops.v ===== *)
(** * The two loops of an instance and its Start and Stop
      (finalitySigSubmissionLoop, randomnessCommitmentLoop, Start, Stop and
       Shutdown of src/finality-provider/service/fp_instance.go)

    [Start] launches two goroutines that run their body once and then select
    between a ticker and the quit channel; [Stop] stops the poller, closes the
    channel and waits until both have returned.  The theorems follow every
    interleaving of the loops with the calls, the poller's goroutine, the chain
    and the other users of the databases. *)

From Stdlib Require Import NArith ZArith Lia.
From stdpp Require Import base gmap strings list relations.
From S2P Require Import Prelude Kvdb External Config Toy EotsStore EotsApi LocalManager PubRandStore FpStore ChainApi.
From S2P Require Import FinalitySubmitter RandCommitter Bootstrap ChainPoller FpInstance.

(** ** What the instance needs of its poller *)

(** A poller that was started can be stopped, and reading from it does not
    stop it. *)
Class PollerRun (Pl : Type) `{!BlockPoller Pl} := {
  bp_running : Pl → bool;
  bp_start_runs h p u p' : bp_SetStartHeight h p = (Ok u, p') → bp_running p' = true;
  bp_try_runs p o p' : bp_TryNextBlock p = (o, p') → bp_running p' = bp_running p;
  bp_stop_ok p : bp_running p = true → ∃ p', bp_Stop p = (Ok (), p');
}.

#[export] Program Instance chain_poller_run {C : Type} : PollerRun (ChainPoller C) := {|
  bp_running p := cp_isStarted p && negb (cp_quit p);
|}.
Next Obligation.
  intros C h p u p'. simpl. unfold SetStartHeight. destruct (cp_isStarted p); by intros [= _ <-].
Qed.
Next Obligation.
  intros C p o p'. simpl. unfold TryNextBlock. destruct (negb (cp_isStarted p)); [by intros [= _ <-]|].
  destruct (cp_blockChan p); by intros [= _ <-].
Qed.
Next Obligation.
  intros C p. simpl. unfold Stop_begin. intros [-> Hq]%andb_prop. apply negb_true_iff in Hq as ->.
  simpl. by eexists.
Qed.

(** ** The system *)

Inductive loop_kind := SigLoop | RandLoop.
#[export] Instance loop_kind_eq_dec : EqDecision loop_kind.
Proof. solve_decision. Defined.
(** A goroutine runs its body, is at its [select], or has returned. *)
Inductive goroutine := LBody | LSelect | LExited.

Record isys (D E C Pl : Type) `{Crypto} `{Sdk} := mkISys {
  is_fi : FinalityProviderInstance D E C Pl;
  is_loops : list (loop_kind * goroutine);
  (** a [Stop] waits for the loops *)
  is_wait : bool
}.
Arguments mkISys {D E C Pl _ _}.
Arguments is_fi {D E C Pl _ _}.
Arguments is_loops {D E C Pl _ _}.
Arguments is_wait {D E C Pl _ _}.

Section system.
Context `{Crypto} `{Sdk} `{BigEndian} `{Merkle} `{Retry} `{BabylonErrors}.
Context {D E C Pl : Type} `{!KvBackend D} `{!Codec FinalityProvider} `{!Codec Description}.
Context `{!EOTSManager E} `{!ConsumerController C} `{!BlockPoller Pl} `{!PollerRun Pl}.
Context (cfg : Config) (pollerCfg : ChainPollerConfig).
#[local] Abbreviation fpi := (FinalityProviderInstance D E C Pl).
#[local] Abbreviation system := (isys D E C Pl).
Implicit Types (fi : fpi) (s : system).

Definition with_fi fi s : system := mkISys fi (is_loops s) (is_wait s).
Definition set_loop (i : nat) (k : loop_kind) (g : goroutine) s : system :=
  mkISys (is_fi s) (<[i := (k, g)]> (is_loops s)) (is_wait s).

(** [wg.Add(2)] and the two [go] statements *)
Definition launch s : system :=
  mkISys (is_fi s) (is_loops s ++ [(SigLoop, LBody); (RandLoop, LBody)]) (is_wait s).

Definition alive (l : loop_kind * goroutine) : bool :=
  match l.2 with LExited => false | _ => true end.
(** The counter of the wait group *)
Definition wg s : nat := length (List.filter alive (is_loops s)).
Definition wg_of (k : loop_kind) s : nat :=
  length (List.filter (λ l, bool_decide (l.1 = k) && alive l) (is_loops s)).

Definition is_crash {A} (r : outcome A) : bool := match r with Crash _ => true | _ => false end.

(** The body of a loop that returns; a panic ends the process. *)
Definition loop_body (k : loop_kind) fi fi' : Prop :=
  match k with
  | SigLoop => ∃ bfuel fuel timer ready r,
      processAndSubmitSignatures cfg bfuel fuel timer ready fi = Some (r, fi') ∧ is_crash r = false
  | RandLoop => ∃ ready r, processRandomnessCommitment ready fi = (r, fi') ∧ is_crash r = false
  end.

(** What others do in between: they leave the flag, the quit channel and the
    running of the poller alone.  [Start] and [Stop] are called one at a time. *)
Definition environment fi fi' : Prop :=
  same_run fi fi' ∧ bp_running (fi_poller fi') = bp_running (fi_poller fi).

Inductive loops_step : system → system → Prop :=
| ls_start s fi' :
    is_wait s = false → Start cfg pollerCfg (is_fi s) = (Ok (), fi') →
    loops_step s (launch (with_fi fi' s))
| ls_start_fails s e fi' :
    is_wait s = false → Start cfg pollerCfg (is_fi s) = (Err e, fi') → loops_step s (with_fi fi' s)
| ls_body s i k fi' :
    is_loops s !! i = Some (k, LBody) → loop_body k (is_fi s) fi' →
    loops_step s (set_loop i k LSelect (with_fi fi' s))
| ls_tick s i k : is_loops s !! i = Some (k, LSelect) → loops_step s (set_loop i k LBody s)
| ls_quit s i k :
    is_loops s !! i = Some (k, LSelect) → fi_quit (is_fi s) = Some true →
    loops_step s (set_loop i k LExited s)
| ls_stop s fi' :
    is_wait s = false → Stop (is_fi s) = (Ok (), fi') →
    loops_step s (mkISys fi' (is_loops s) true)
| ls_stop_fails s e fi' :
    is_wait s = false → Stop (is_fi s) = (Err e, fi') → loops_step s (with_fi fi' s)
| ls_stopped s :
    is_wait s = true → wg s = 0 → loops_step s (mkISys (is_fi s) (is_loops s) false)
| ls_env s fi' : environment (is_fi s) fi' → loops_step s (with_fi fi' s).

(** An instance that has just been made *)
Definition initial s : Prop := fi_isStarted (is_fi s) = false ∧ is_loops s = [] ∧ is_wait s = false.

(** [Shutdown]; closing the store is the callee's *)
Definition Shutdown (close : M D unit) : M fpi unit :=
  _ ← go_wrap "failed to stop finality provider instance" Stop;
  go_wrap "failed to close the pub rand state"
    (zoom fi_pubRandState (λ d fi, mkFPI (fi_btcPk fi) (fi_fpState fi) d (fi_em fi) (fi_consumerCon fi)
       (fi_poller fi) (fi_rcPk fi) (fi_rcCfg fi) (fi_isStarted fi) (fi_quit fi) (fi_reported fi)) close).

(** A missing block without an error is an error too. *)
Definition LatestBlockHeightWithRetry : M C N :=
  b ← go_wrap "failed to query latest block height"
        (retry_Do true RtyAttNum
           (r ← go_try cc_QueryLatestBlock;
            match r with
            | inr (Some b) => mret b
            | inr None => go_fail (EText "failed to query latest block height: %!w(<nil>)")
            | inl err => go_fail (wrapf "failed to query latest block height" err)
            end));
  mret (blk_height b).
End system.

(** The height is one that the chain has answered. *)
Lemma LatestBlockHeight_answered `{RetryLaws} {C : Type} `{Crypto} `{Sdk} `{Merkle} `{!ConsumerController C}
    (c : C) h c' :
  LatestBlockHeightWithRetry c = (Ok h, c') →
  ∃ c0 b, cc_QueryLatestBlock c0 = (Ok (Some b), c') ∧ blk_height b = h.
Proof.
  intros HE. unfold LatestBlockHeightWithRetry in HE. inv_bind HE. injection HE as <- <-.
  apply retry_sound, attempts_ok in E as (c0 & E). exists c0, a. split; [|done].
  inv_bind E. apply go_try_ok in E0. destruct a0 as [err|[b|]]; [done| |done]. injection E as <- <-. exact E0.
Qed.

(** ** The invariant *)

Section invariant.
Context `{CryptoLaws} `{Sdk} `{BigEndianLaws} `{Merkle} `{RetryLaws} `{BabylonErrors}.
Context {D E C Pl : Type} `{!KvBackend D} `{!Codec FinalityProvider} `{!Codec Description}.
Context `{!EOTSManager E} `{!ConsumerController C} `{!BlockPoller Pl} `{!PollerRun Pl}.
Context (cfg : Config) (pollerCfg : ChainPollerConfig).
#[local] Abbreviation fpi := (FinalityProviderInstance D E C Pl).
#[local] Abbreviation system := (isys D E C Pl).
Implicit Types (fi : fpi) (s : system).

(** Which loops there are, by the flag of the instance and a waiting [Stop].
    An instance whose [Start] has failed counts as started and has no loop. *)
Definition loops_inv s : Prop :=
  (∀ k, wg_of k s ≤ 1)
  ∧ (is_wait s = true → fi_isStarted (is_fi s) = false ∧ fi_quit (is_fi s) = Some true)
  ∧ (is_wait s = false → fi_isStarted (is_fi s) = false → wg s = 0)
  ∧ (0 < wg s → is_wait s = false →
       fi_quit (is_fi s) = Some false ∧ bp_running (fi_poller (is_fi s)) = true).

(** *** The operations and the running of the poller *)

Lemma same_run_on_fps {A} (m : M (FpState D) A) : preserves same_run (on_fpState (E:=E) (C:=C) (Pl:=Pl) m).
Proof. intros fi r fi'. unfold on_fpState. destruct (m _). by intros [= _ <-]. Qed.
Lemma same_run_report ready e : preserves same_run (reportCriticalErr (D:=D) (E:=E) (C:=C) (Pl:=Pl) ready e).
Proof. intros fi r fi'. unfold reportCriticalErr. intros [= _ <-]. by destruct ready. Qed.
Lemma same_run_rc {A} (m : M _ A) : preserves same_run (on_rndCommitter (D:=D) (E:=E) (C:=C) (Pl:=Pl) m).
Proof. intros fi r fi'. unfold on_rndCommitter. destruct (m _). by intros [= _ <-]. Qed.

(** The poller is not touched. *)
Definition same_poller fi fi' : Prop := fi_poller fi' = fi_poller fi.
#[local] Instance same_poller_preorder : PreOrder same_poller.
Proof. split; [done|]. intros f1 f2 f3. unfold same_poller. congruence. Qed.
Lemma same_poller_on_fps {A} (m : M (FpState D) A) : preserves same_poller (on_fpState (E:=E) (C:=C) (Pl:=Pl) m).
Proof. intros fi r fi'. unfold on_fpState. destruct (m _). by intros [= _ <-]. Qed.
Lemma same_poller_con {A} (m : M C A) : preserves same_poller (on_consumerCon (D:=D) (E:=E) (Pl:=Pl) m).
Proof. intros fi r fi'. unfold on_consumerCon. destruct (m _). by intros [= _ <-]. Qed.
Lemma same_poller_report ready e : preserves same_poller (reportCriticalErr (D:=D) (E:=E) (C:=C) (Pl:=Pl) ready e).
Proof. intros fi r fi'. unfold reportCriticalErr. intros [= _ <-]. by destruct ready. Qed.
Lemma same_poller_rc {A} (m : M _ A) : preserves same_poller (on_rndCommitter (D:=D) (E:=E) (C:=C) (Pl:=Pl) m).
Proof. intros fi r fi'. unfold on_rndCommitter. destruct (m _). by intros [= _ <-]. Qed.

Lemma getBatch_running fuel : ∀ bs p bs' p',
  getBatchBlocksFromPoller cfg fuel bs p = Some (bs', p') → bp_running p' = bp_running p.
Proof.
  induction fuel as [|fuel IH]; intros bs p bs' p' HE; simpl in HE; [done|].
  destruct (bp_TryNextBlock p) as [[b|] p1] eqn:Et; apply bp_try_runs in Et.
  - destruct (_ =? _)%N; [by injection HE as _ <-|]. rewrite <-Et. by eapply IH.
  - by injection HE as _ <-.
Qed.

Lemma rand_environment ready fi r fi' :
  processRandomnessCommitment ready fi = (r, fi') → environment fi fi'.
Proof.
  intros HE. split.
  - refine ((_ : preserves same_run _) _ _ _ HE).
    apply frame_randomness; eauto using same_run_report, same_run_rc, same_run_preorder.
  - assert (same_poller fi fi') as ->; [|done]. refine ((_ : preserves same_poller _) _ _ _ HE).
    apply frame_randomness; eauto using same_poller_report, same_poller_rc, same_poller_preorder.
Qed.

Lemma sig_environment bfuel fuel timer ready fi r fi' :
  processAndSubmitSignatures cfg bfuel fuel timer ready fi = Some (r, fi') → environment fi fi'.
Proof.
  intros HE. split.
  - revert HE. apply frame_process; eauto using same_run_on_fps, same_run_report, on_poller_run, same_run_preorder.
    by intros fuel0 timer0 bs fi0 r0 d _.
  - revert HE. unfold processAndSubmitSignatures. case_bool_decide; [by intros [= _ <-]|].
    destruct (getBatchBlocksFromPoller _ _ _ _) as [[bs p]|] eqn:Eg; [|done]. apply getBatch_running in Eg.
    destruct bs as [|b bs]; [by intros [= _ <-]|].
    destruct (IsJailed (fi_with_poller fi p)) as [rj fj] eqn:Ej.
    assert (fi_poller fj = p) as Hj.
    { pose proof (IsJailed_step _ _ _ Ej) as Hst. unfold status_step in Hst. simpl in Hst. tauto. }
    destruct rj as [[]|e|w]; [intros [= _ <-]; by rewrite Hj| |intros [= _ <-]; by rewrite Hj..].
    destruct (SubmitBatchFinalitySignatures _ _ _ _ _ _) as [[rs d]|]; [|done].
    intros [= HE]. assert (same_poller (fi_with_ds fj d) fi') as Hp.
    { refine ((_ : preserves same_poller _) _ _ _ HE).
      apply frame_handleSubmission; eauto using same_poller_on_fps, same_poller_report, same_poller_preorder. }
    rewrite Hp. simpl. by rewrite Hj.
Qed.

Lemma body_environment k fi fi' : loop_body cfg k fi fi' → environment fi fi'.
Proof.
  destruct k; [intros (? & ? & ? & ? & ? & HE & _)|intros (? & ? & HE & _)];
    eauto using sig_environment, rand_environment.
Qed.

(** Once the quit channel is closed the voting loop does nothing. *)
Lemma sig_body_quit fi fi' : fi_quit fi = Some true → loop_body cfg SigLoop fi fi' → fi' = fi.
Proof.
  intros Hq (bfuel & fuel & timer & ready & r & HE & _). unfold processAndSubmitSignatures in HE.
  rewrite bool_decide_true in HE by done. by injection HE as _ <-.
Qed.

(** *** Start and Stop *)

#[local] Hint Resolve IsJailed_run on_poller_run on_fpState_run put_atomic DetermineStart_run : preserves.

Lemma Start_ok_run fi u fi' :
  Start cfg pollerCfg fi = (Ok u, fi') →
  fi_isStarted fi = false ∧ fi_isStarted fi' = true ∧ fi_quit fi' = Some false
  ∧ bp_running (fi_poller fi') = true.
Proof.
  intros HE. destruct (fi_isStarted fi) eqn:Hs.
  { unfold Start in HE. erewrite go_bind_run in HE; [|reflexivity]. by rewrite Hs in HE. }
  rewrite Start_begin in HE by done. split; [done|].
  inv_bind HE. inv_bind HE. inv_bind HE. inv_bind HE. inv_bind HE. injection HE as _ <-. simpl.
  apply IsJailed_run in E0 as (_ & Hs1 & _). apply DetermineStart_run in E1 as (_ & Hs2 & _).
  pose proof (on_poller_run _ _ _ _ E2) as (_ & Hs3 & _).
  assert (same_run s1 s2 ∧ same_poller s1 s2) as [(_ & Hs4 & _) Hp].
  { destruct (cfg_AdvancedResetLastVotedHeight cfg); [|by injection E3 as _ <-].
    apply go_wrap_ok in E3.
    split; [exact (same_run_on_fps _ _ _ _ E3)|exact (same_poller_on_fps _ _ _ _ E3)]. }
  split_and!; [|done|].
  - rewrite Hs4, Hs3, Hs2, Hs1. done.
  - rewrite Hp. unfold on_poller in E2. destruct (bp_SetStartHeight a0 (fi_poller s0)) as [r p] eqn:Ep.
    injection E2 as -> <-. simpl. by apply bp_start_runs in Ep.
Qed.

Lemma Start_err_run fi e fi' :
  Start cfg pollerCfg fi = (Err e, fi') →
  fi_isStarted fi = true ∧ fi' = fi ∨ fi_isStarted fi = false ∧ fi_isStarted fi' = true.
Proof.
  intros HE. destruct (fi_isStarted fi) eqn:Hs.
  { left. unfold Start in HE. erewrite go_bind_run in HE; [|reflexivity]. rewrite Hs in HE.
    by injection HE as _ <-. }
  right. split; [done|]. rewrite Start_begin in HE by done.
  assert (same_run (fi_with_run fi true (fi_quit fi)) fi') as (_ & -> & _); [|done].
  refine ((_ : atomic same_run _) _ _ _ HE eq_refl). clear HE.
  solve_atomic.
Qed.

Lemma Stop_ok_run fi u fi' :
  Stop fi = (Ok u, fi') →
  fi_isStarted fi = true ∧ fi_isStarted fi' = false ∧ fi_quit fi' = Some true.
Proof.
  unfold Stop. erewrite go_bind_run; [|reflexivity]. destruct (fi_isStarted fi); simpl; [|done].
  erewrite go_bind_run; [|reflexivity]. intros HE. inv_bind HE.
  erewrite go_bind_run in HE; [|reflexivity].
  apply on_poller_run in E0 as (_ & Hs & _). simpl in Hs.
  destruct (fi_quit s) as [[]|]; [done| |done]. injection HE as _ <-. simpl. by rewrite Hs.
Qed.

Lemma Stop_err_run fi e fi' :
  Stop fi = (Err e, fi') →
  fi_isStarted fi = false ∧ fi' = fi
  ∨ fi_isStarted fi = true ∧ fi_isStarted fi' = false ∧ bp_running (fi_poller fi) = false.
Proof.
  unfold Stop. erewrite go_bind_run; [|reflexivity]. destruct (fi_isStarted fi) eqn:Hs; simpl.
  2: { intros [= _ <-]. by left. }
  erewrite go_bind_run; [|reflexivity]. intros HE. right. split; [done|].
  apply go_bind_inv in HE as [(u & f1 & E0 & HE)|[(x & E0 & _)|(w & _ & [=])]].
  { erewrite go_bind_run in HE; [|reflexivity]. by destruct (fi_quit f1) as [[]|]. }
  apply go_wrap_inv in E0 as (r0 & E0 & Hr). pose proof (on_poller_run _ _ _ _ E0) as (_ & Hs1 & _).
  split; [by rewrite Hs1|]. destruct (bp_running (fi_poller fi)) eqn:Hb; [|done].
  destruct (bp_stop_ok _ Hb) as [p' Hp]. unfold on_poller in E0. simpl in E0. rewrite Hp in E0.
  injection E0 as <- _. done.
Qed.

(** *** Counting loops *)

Lemma filter_insert {A} (f : A → bool) (l : list A) i x y :
  l !! i = Some x →
  length (List.filter f (<[i := y]> l)) + Nat.b2n (f x) = length (List.filter f l) + Nat.b2n (f y).
Proof.
  revert i. induction l as [|z l IH]; intros [|i] Hi; simpl in *; [done..| |].
  - injection Hi as ->. destruct (f x), (f y); simpl; lia.
  - specialize (IH _ Hi). destruct (f z); simpl; lia.
Qed.

Lemma wg_split s : wg s = wg_of SigLoop s + wg_of RandLoop s.
Proof.
  unfold wg, wg_of. induction (is_loops s) as [|[[] g] l IH]; simpl; [done|..];
    destruct (alive _); simpl; lia.
Qed.

Lemma wg_of_launch k s : wg_of k (launch s) = S (wg_of k s).
Proof.
  unfold wg_of, launch. simpl. rewrite List.filter_app, length_app. destruct k; simpl; lia.
Qed.

Lemma wg_of_set s i k k' g g' :
  is_loops s !! i = Some (k, g) →
  wg_of k' (set_loop i k g' s) + Nat.b2n (bool_decide (k = k') && alive (k, g))
  = wg_of k' s + Nat.b2n (bool_decide (k = k') && alive (k, g')).
Proof. intros Hi. unfold wg_of, set_loop. simpl. exact (filter_insert _ _ i (k, g) (k, g') Hi). Qed.

(** A loop that goes on *)
Lemma wg_of_move s i k k' g g' :
  is_loops s !! i = Some (k, g) → alive (k, g) = alive (k, g') → wg_of k' (set_loop i k g' s) = wg_of k' s.
Proof. intros Hi Ha. pose proof (wg_of_set s i k k' g g' Hi) as Hw. rewrite Ha in Hw. lia. Qed.

(** *** Steps keep the invariant *)

(** The counters stay, and so do the flag, the channel and the poller. *)
Lemma loops_inv_same s s' :
  loops_inv s → (∀ k, wg_of k s' = wg_of k s) → is_wait s' = is_wait s → environment (is_fi s) (is_fi s') →
  loops_inv s'.
Proof.
  intros (I1 & I2 & I3 & I4) Hw Hwait ((_ & Hs & Hq) & Hp).
  assert (wg s' = wg s) as Hwg by by rewrite !wg_split, !Hw.
  unfold loops_inv. rewrite Hwg, Hwait, Hs, Hq, Hp. split_and!; [intros k; by rewrite Hw|done..].
Qed.

Lemma environment_refl fi : environment fi fi.
Proof. done. Qed.

Lemma inv_quit s i k :
  loops_inv s → is_loops s !! i = Some (k, LSelect) → loops_inv (set_loop i k LExited s).
Proof.
  intros (I1 & I2 & I3 & I4) Hi.
  assert (∀ k', wg_of k' (set_loop i k LExited s) ≤ wg_of k' s) as Hw.
  { intros k'. pose proof (wg_of_set s i k k' _ LExited Hi) as E0. simpl in E0. rewrite andb_false_r in E0. simpl in E0. lia. }
  assert (wg (set_loop i k LExited s) ≤ wg s) as Hwg.
  { rewrite !wg_split. pose proof (Hw SigLoop). pose proof (Hw RandLoop). lia. }
  split_and!.
  - intros k'. etrans; [apply Hw|apply I1].
  - exact I2.
  - intros Ha Hb. specialize (I3 Ha Hb). lia.
  - intros Ha Hb. apply I4; [lia|done].
Qed.

Lemma inv_start s fi' :
  loops_inv s → is_wait s = false → Start cfg pollerCfg (is_fi s) = (Ok (), fi') →
  loops_inv (launch (with_fi fi' s)).
Proof.
  intros (I1 & I2 & I3 & I4) Hw HS. apply Start_ok_run in HS as (Hs & Hs' & Hq & Hp).
  specialize (I3 Hw Hs). rewrite wg_split in I3.
  split_and!; simpl; [|congruence|congruence|done].
  intros k. rewrite wg_of_launch. change (wg_of k (with_fi fi' s)) with (wg_of k s). destruct k; lia.
Qed.

Lemma loops_inv_step s s' : loops_inv s → loops_step cfg pollerCfg s s' → loops_inv s'.
Proof.
  intros Hinv Hstep. pose proof Hinv as (I1 & I2 & I3 & I4).
  destruct Hstep as [s fi' Hw HS|s e fi' Hw HS|s i k fi' Hi HB|s i k Hi|s i k Hi Hq|s fi' Hw HS|s e fi' Hw HS|s Hw I0|s fi' HE].
  - by apply inv_start.
  - apply Start_err_run in HS as [[Hs ->]|[Hs Hs']]; [by apply (loops_inv_same s)|].
    specialize (I3 Hw Hs). split_and!; [exact I1|simpl; congruence|simpl; congruence|].
    change (wg (with_fi fi' s)) with (wg s). lia.
  - apply (loops_inv_same s); [done| |done|by eapply body_environment].
    intros k'. change (set_loop i k LSelect (with_fi fi' s)) with (with_fi fi' (set_loop i k LSelect s)).
    by apply (wg_of_move s i k k' LBody LSelect).
  - apply (loops_inv_same s); [done| |done|done]. intros k'. by apply (wg_of_move s i k k' LSelect LBody).
  - by apply inv_quit.
  - apply Stop_ok_run in HS as (Hs & Hs' & Hq'). split_and!; [exact I1|done|done|done].
  - apply Stop_err_run in HS as [[Hs ->]|(Hs & Hs' & Hp)]; [by apply (loops_inv_same s)|].
    assert (wg s = 0) as I0.
    { destruct (wg s) as [|n] eqn:En; [done|]. destruct (I4 ltac:(lia) Hw). congruence. }
    split_and!; [exact I1|simpl; congruence|done|]. change (wg (with_fi fi' s)) with (wg s). lia.
  - destruct (I2 Hw) as [Hs Hq]. split_and!; [exact I1|done|done|]. simpl.
    change (wg {| is_fi := is_fi s; is_loops := is_loops s; is_wait := false |}) with (wg s). lia.
  - by apply (loops_inv_same s).
Qed.

Lemma loops_inv_reachable s0 s :
  initial s0 → rtc (loops_step cfg pollerCfg) s0 s → loops_inv s.
Proof.
  intros (Hs & Hl & Hw) Hr. assert (loops_inv s0) as I0.
  { unfold loops_inv, wg, wg_of. rewrite Hl. simpl. split_and!; [intros _; lia|congruence|done|lia]. }
  clear Hs Hl Hw. induction Hr as [s|s1 s2 s3 Hstep _ IH]; [done|]. by apply IH, (loops_inv_step s1).
Qed.


Definition at_select (l : loop_kind * goroutine) : Prop := l.2 ≠ LBody.

Lemma quit_all s n :
  wg s = n → fi_quit (is_fi s) = Some true → Forall at_select (is_loops s) →
  ∃ s', nsteps (loops_step cfg pollerCfg) n s s' ∧ wg s' = 0 ∧ is_fi s' = is_fi s ∧ is_wait s' = is_wait s.
Proof.
  revert s. induction n as [|n IH]; intros s Hn Hq Hall.
  { exists s. split_and!; [constructor|done..]. }
  assert (∃ i k, is_loops s !! i = Some (k, LSelect)) as (i & k & Hi).
  { unfold wg in Hn. clear Hq IH. induction (is_loops s) as [|[k g] l IHl]; simpl in Hn; [done|].
    inversion_clear Hall as [|? ? Hg Hl]. destruct g; [by destruct Hg|by exists 0, k|].
    destruct (IHl Hn Hl) as (i & k' & Hi). by exists (S i), k'. }
  destruct (IH (set_loop i k LExited s)) as (s' & Hs' & H0' & Hfi & Hw).
  - pose proof (filter_insert alive (is_loops s) i (k, LSelect) (k, LExited) Hi) as Hc.
    unfold wg in *. simpl in *. lia.
  - done.
  - unfold set_loop. simpl. by apply Forall_insert.
  - exists s'. split_and!; [|done..]. econstructor; [|done]. by apply ls_quit.
Qed.

(** [Stop] comes back.  While it waits and the loops are out of their
    bodies, each loop can leave at once, and after as many steps as there are
    loops [Stop] returns, with no loop left and the instance as it was. *)
Theorem stop_completes s0 s (Hinit : initial s0) (Hrun : rtc (loops_step cfg pollerCfg) s0 s)
    (Hwait : is_wait s = true) (Hbodies : Forall at_select (is_loops s)) :
  wg s ≤ 2 ∧ ∃ s', nsteps (loops_step cfg pollerCfg) (S (wg s)) s s'
    ∧ is_wait s' = false ∧ wg s' = 0 ∧ is_fi s' = is_fi s.
Proof.
  pose proof (loops_inv_reachable s0 s Hinit Hrun) as (I1 & I2 & _).
  destruct (I2 Hwait) as [Hs Hq]. split.
  { rewrite wg_split. pose proof (I1 SigLoop). pose proof (I1 RandLoop). lia. }
  destruct (quit_all s _ eq_refl Hq Hbodies) as (s1 & Hsteps & Hwg & Hfi & Hw).
  exists (mkISys (is_fi s1) (is_loops s1) false). split_and!; [|done|exact Hwg|done].
  eapply nsteps_r; [done|]. apply ls_stopped; [congruence|done].
Qed.
End invariant.

(** ** Witnesses *)

Module InstanceLoopsWitness.
Import LmToy FpToy ChainToy InstanceWitness.
Definition w_c : Config := w_config true false.
Definition w_p : ChainPollerConfig := w_poller true.
Definition w_s0 := mkISys w_fi [] false.
(** Both loops run their body once, then [Stop] is called. *)
Definition w_sig := default (Ok (), w_started.2) (processAndSubmitSignatures w_c 4 4 w_timer true w_started.2).
Definition w_rand := processRandomnessCommitment true w_sig.2.
Definition w_stop := Stop w_rand.2.
Definition w_loops : list (loop_kind * goroutine) := [(SigLoop, LSelect); (RandLoop, LSelect)].
Definition w_s1 := mkISys w_rand.2 w_loops false.
Definition w_s2 := mkISys w_stop.2 w_loops true.

Lemma w_run1 : rtc (loops_step w_c w_p) w_s0 w_s1.
Proof.
  assert (E1 : w_started = (Ok (), w_started.2)) by (apply run_eq; vm_eq).
  assert (E2 : processAndSubmitSignatures w_c 4 4 w_timer true w_started.2 = Some w_sig)
    by (apply some_default; vm_eq).
  unfold w_started at 1 in E1.
  pose (sa := launch (with_fi w_started.2 w_s0)).
  pose (sb := set_loop 0 SigLoop LSelect (with_fi w_sig.2 sa)).
  assert (loops_step w_c w_p w_s0 sa) as S1 by exact (ls_start w_c w_p w_s0 w_started.2 eq_refl E1).
  assert (loop_body w_c SigLoop w_started.2 w_sig.2) as B2.
  { exists 4, 4, w_timer, true, w_sig.1. split; [|vm_eq].
    exact (eq_trans E2 (f_equal Some (surjective_pairing w_sig))). }
  assert (loop_body w_c RandLoop w_sig.2 w_rand.2) as B3.
  { exists true, w_rand.1. split; [exact (surjective_pairing w_rand)|vm_eq]. }
  assert (loops_step w_c w_p sa sb) as S2 by exact (ls_body w_c w_p sa 0 SigLoop w_sig.2 eq_refl B2).
  assert (loops_step w_c w_p sb w_s1) as S3 by exact (ls_body w_c w_p sb 1 RandLoop w_rand.2 eq_refl B3).
  exact (rtc_l _ _ _ _ S1 (rtc_l _ _ _ _ S2 (rtc_once _ _ S3))).
Qed.

Lemma w_run2 : rtc (loops_step w_c w_p) w_s0 w_s2.
Proof.
  assert (E : w_stop = (Ok (), w_stop.2)) by (apply run_eq; vm_eq). unfold w_stop at 1 in E.
  exact (rtc_r _ _ _ w_run1 (ls_stop w_c w_p w_s1 w_stop.2 eq_refl E)).
Qed.


Lemma stop_completes_witness :
  is_wait w_s2 = true ∧ ∃ s', nsteps (loops_step w_c w_p) 3 w_s2 s' ∧ is_wait s' = false ∧ wg s' = 0.
Proof.
  split; [reflexivity|].
  destruct (stop_completes w_c w_p w_s0 w_s2 (conj eq_refl (conj eq_refl eq_refl)) w_run2 eq_refl)
    as (_ & s' & Hs & Hw & Hwg & _).
  { repeat constructor; discriminate. }
  exists s'. exact (conj Hs (conj Hw Hwg)).
Defined.
End InstanceLoopsWitness.
