(* ===== verification/ManualOps.v ===== *)
(** * Manual operations on an instance
      (src/finality-provider/service/fp_test_helper.go, benchmark_helper.go,
       eots_manager_adapter.go, src/finality-provider/cmd/fpd/daemon/recover_proof.go)

    What operators can trigger by hand: committing public randomness up to a
    height, voting for one block or a batch, the benchmark's commitment, and
    the recovery of the Merkle proofs of earlier commitments.  The commands
    around them are in [FpdHome]. *)

From Stdlib Require Import NArith ZArith Lia.
From stdpp Require Import base gmap strings list relations.
From S2P Require Import Prelude Encoding Kvdb External Config Toy EotsStore EotsApi LocalManager PubRandStore.
From S2P Require Import FpStore ChainApi FinalitySubmitter RandCommitter Bootstrap ChainPoller FpInstance.

(** [jsonpb.UnmarshalString] into [ftypes.Evidence] and [evidence.ExtractBTCSK()] *)
Class SlashingEvidence `{Crypto} := {
  Evidence : Type;
  Evidence_UnmarshalString : string → outcome Evidence;
  ExtractBTCSK : Evidence → outcome PrivateKey;
}.

Section manual.
Context `{Crypto} `{Sdk} `{BigEndian} `{Merkle} `{Retry} `{BabylonErrors} `{!SlashingEvidence}.
Context {D E C Pl : Type} `{!KvBackend D} `{!Codec FinalityProvider} `{!Codec Description}.
Context `{!EOTSManager E} `{!ConsumerController C} `{!BlockPoller Pl}.
Context (cfg : Config).
#[local] Abbreviation fpi := (FinalityProviderInstance D E C Pl).

Definition fi_with_em (e : E) (fi : fpi) : fpi :=
  mkFPI (fi_btcPk fi) (fi_fpState fi) (fi_pubRandState fi) e (fi_consumerCon fi) (fi_poller fi)
    (fi_rcPk fi) (fi_rcCfg fi) (fi_isStarted fi) (fi_quit fi) (fi_reported fi).
Definition fi_with_pubRand (d : D) (fi : fpi) : fpi :=
  mkFPI (fi_btcPk fi) (fi_fpState fi) d (fi_em fi) (fi_consumerCon fi) (fi_poller fi)
    (fi_rcPk fi) (fi_rcCfg fi) (fi_isStarted fi) (fi_quit fi) (fi_reported fi).
Definition on_fi_em {A} : M E A → M fpi A := zoom fi_em fi_with_em.
Definition on_pubRandState {A} : M D A → M fpi A := zoom fi_pubRandState fi_with_pubRand.

(** ** eots_manager_adapter.go *)

Definition fi_GetPubRandList (startHeight numPubRand : N) : M fpi (list FieldVal) :=
  fi ← go_get;
  go_wrap "failed to create randomness pair list"
    (on_fi_em (em_CreateRandomnessPairList (fi_btcPk fi) (GetChainID (fi_fpState fi))
       startHeight numPubRand [])).

Definition fi_SignPubRandCommit (startHeight numPubRand : N) (commitment : bytes)
    : M fpi SchnorrSignature :=
  let hash := getHashToSignForCommitPubRandWithContext "" startHeight numPubRand commitment in
  fi ← go_get;
  go_wrap "failed to sign the commit public randomness message"
    (on_fi_em (em_SignSchnorrSig (fi_btcPk fi) hash)).

Definition sign_eots_error (err : error) : error :=
  if Contains (Error err) failedPreconditionErrStr then ErrFailedPrecondition
  else wrapf "failed to sign EOTS" err.

Definition fi_SignFinalitySig (b : BlockInfo) : M fpi bytes :=
  fi ← go_get;
  sig ← go_map_err sign_eots_error
          (on_fi_em (em_SignEOTS (fi_btcPk fi) (GetChainID (fi_fpState fi)) (MsgToSign b "")
             (blk_height b)));
  mret (NewSchnorrEOTSSigFromModNScalar sig).

(** ** Manual commitments: fp_test_helper.go *)

(** The loop of [CommitPubRandWithStartHeight]; [None]: the fuel ran out. *)
Fixpoint commitLoop (fuel : nat) (startHeight targetBlockHeight : N) (fi : fpi)
    : option (outcome unit * fpi) :=
  match fuel with
  | O => None
  | S fuel' =>
      if (startHeight <=? targetBlockHeight)%N then
        match CommitPubRand startHeight fi with
        | (Ok _, fi') =>
            let lastCommittedHeight := u64_sub (u64_add startHeight (cfg_NumPubRand cfg)) 1 in
            commitLoop fuel' (u64_add lastCommittedHeight 1) targetBlockHeight fi'
        | (Err e, fi') => Some (Err e, fi')
        | (Crash w, fi') => Some (Crash w, fi')
        end
      else Some (Ok (), fi)
  end.

Definition CommitPubRandWithStartHeight (fuel : nat) (startHeight targetBlockHeight : N) (fi : fpi)
    : option (outcome unit * fpi) :=
  if (targetBlockHeight <? startHeight)%N then
    Some (Err (EText "start height should not be greater than target block height"), fi)
  else
    match fi_GetLastCommittedHeight fi with
    | (Err e, fi') => Some (Err e, fi')
    | (Crash w, fi') => Some (Crash w, fi')
    | (Ok lastCommittedHeight, fi') =>
        if (startHeight <=? lastCommittedHeight)%N then
          Some (Err (EText ("finality provider has already committed pubrand at the start height (pk: "
            +:+ GetBtcPkHex (fi_fpState fi') +:+ ", startHeight: " +:+ fmt_d startHeight
            +:+ ", lastCommittedHeight: " +:+ fmt_d lastCommittedHeight +:+ ")")), fi')
        else commitLoop fuel startHeight targetBlockHeight fi'
    end.

Definition manual_CommitPubRand (fuel : nat) (targetBlockHeight : N) (fi : fpi)
    : option (outcome unit * fpi) :=
  match fi_GetLastCommittedHeight fi with
  | (Err e, fi') => Some (Err e, fi')
  | (Crash w, fi') => Some (Crash w, fi')
  | (Ok lastCommittedHeight, fi') =>
      if (targetBlockHeight <=? lastCommittedHeight)%N then
        Some (Err (EText ("finality provider has already committed pubrand to target block height (pk: "
          +:+ GetBtcPkHex (fi_fpState fi') +:+ ", target: " +:+ fmt_d targetBlockHeight
          +:+ ", last committed: " +:+ fmt_d lastCommittedHeight +:+ ")")), fi')
      else
        let startHeight := if (lastCommittedHeight =? 0)%N then 0%N else u64_add lastCommittedHeight 1 in
        CommitPubRandWithStartHeight fuel startHeight targetBlockHeight fi'
  end.

(** ** Manual votes: fp_test_helper.go *)

(** The signer: protected, or the unsafe one. *)
Definition eotsSigner (useSafeEOTSFunc : bool) (b : BlockInfo) : M fpi bytes :=
  if useSafeEOTSFunc then fi_SignFinalitySig b
  else
    fi ← go_get;
    sig ← go_wrap "failed to sign EOTS"
            (on_fi_em (em_UnsafeSignEOTS (fi_btcPk fi) (GetChainID (fi_fpState fi)) (MsgToSign b "")
               (blk_height b)));
    mret (NewSchnorrEOTSSigFromModNScalar sig).

(** The loop over the events of a response: the key of the first slashing event. *)
Fixpoint extractKey (events : list RelayerEvent) : outcome (option PrivateKey) :=
  match events with
  | [] => Ok None
  | ev :: rest =>
      if Contains (EventType ev) "EventSlashedFinalityProvider" then
        let evidenceStr := default "" (Attributes ev !! "evidence") in
        match Evidence_UnmarshalString evidenceStr with
        | Err e => Err (EText ("failed to decode evidence bytes to evidence: " +:+ Error e))
        | Crash w => Crash w
        | Ok evidence =>
            match ExtractBTCSK evidence with
            | Err e => Err (EText ("failed to extract private key: " +:+ Error e))
            | Crash w => Crash w
            | Ok k => Ok (Some k)
            end
        end
      else extractKey rest
  end.

(** The end of both manual votes: submission and key extraction. *)
Definition submitAndExtract (pre : string) (req : SubmitBatchFinalitySigsRequest)
    : M fpi (TxResponse * option PrivateKey) :=
  res ← go_wrap pre (on_consumerCon (cc_SubmitBatchFinalitySigs req));
  match res with
  | None => go_crash "nil pointer dereference"
  | Some res =>
      if bool_decide (TxHash res = "") then mret (res, None)
      else privKey ← go_lift (extractKey (Events res)); mret (res, privKey)
  end.

Definition getProofOf (b : BlockInfo) : M fpi bytes :=
  fi ← go_get;
  go_wrap "failed to get public randomness inclusion proof"
    (on_pubRandState (getPubRandProof (fi_btcPk fi) (GetChainID (fi_fpState fi)) (blk_height b))).

Definition SubmitFinalitySignatureAndExtractPrivKey (b : BlockInfo) (useSafeEOTSFunc : bool)
    : M fpi (TxResponse * option PrivateKey) :=
  prList ← go_wrap "failed to get public randomness list" (fi_GetPubRandList (blk_height b) 1);
  match prList with
  | [] => go_crash "index out of range"
  | pubRand :: _ =>
      proofBytes ← getProofOf b;
      eotsSig ← eotsSigner useSafeEOTSFunc b;
      fi ← go_get;
      submitAndExtract "failed to send finality signature to the consumer chain"
        (mkSubmitReq _ (GetBtcPk (fi_fpState fi)) [b] [pubRand] [proofBytes] [ToModNScalar eotsSig])
  end.

Definition SubmitBatchFinalitySignaturesAndExtractPrivKey (blocks : list BlockInfo)
    (useSafeEOTSFunc : bool) : M fpi (TxResponse * option PrivateKey) :=
  match blocks with
  | [] => go_fail (EText "should not submit batch finality signature with zero blocks")
  | b0 :: _ =>
      if (MaxUint32 <? lenN blocks)%N then
        go_fail (EText "should not submit batch finality signature with too many blocks")
      else
        prList ← go_wrap "failed to get public randomness list"
                   (fi_GetPubRandList (blk_height b0) (lenN blocks));
        proofBytesList ← go_fold (λ l b, p ← getProofOf b; mret (l ++ [p])) [] blocks;
        sigList ← go_fold (λ l b, s ← eotsSigner useSafeEOTSFunc b; mret (l ++ [ToModNScalar s])) [] blocks;
        fi ← go_get;
        submitAndExtract "failed to send batch finality signatures to the consumer chain"
          (mkSubmitReq _ (GetBtcPk (fi_fpState fi)) blocks prList proofBytesList sigList)
  end.

(** ** The benchmark: benchmark_helper.go *)

(** The times that are measured are left out.  The chain identifier is passed
    where the store expects the key. *)
Definition commitPubRandPairsWithTiming (startHeight : N) : M fpi (option TxResponse) :=
  activationBlkHeight ← go_wrap "failed to query the finality activation block height"
                          (on_consumerCon cc_QueryFinalityActivationBlockHeight);
  let startHeight := N.max startHeight activationBlkHeight in
  pubRandList ← go_wrap "failed to generate randomness"
                  (fi_GetPubRandList startHeight (cfg_NumPubRand cfg));
  let numPubRand := lenN pubRandList in
  let '(commitment, proofList) := GetPubRandCommitAndProofs pubRandList in
  fi ← go_get;
  _ ← go_wrap "failed to save public randomness to DB"
        (on_pubRandState (addPubRandProofList (GetChainID (fi_fpState fi)) (fi_btcPk fi) startHeight
           (cfg_NumPubRand cfg) proofList []));
  schnorrSig ← go_wrap "failed to sign the Schnorr signature"
                 (fi_SignPubRandCommit startHeight numPubRand commitment);
  go_wrap "failed to commit public randomness to the consumer chain"
    (on_consumerCon (cc_CommitPubRandList
       (mkCommitReq _ (GetBtcPk (fi_fpState fi)) startHeight numPubRand commitment schnorrSig))).

(** [None] when there is enough randomness. *)
Definition HelperCommitPubRand (tipHeight : N) : M fpi (option (option TxResponse)) :=
  lastCommittedHeight ← fi_GetLastCommittedHeight;
  if (lastCommittedHeight =? 0)%N then
    res ← commitPubRandPairsWithTiming (u64_add tipHeight 1); mret (Some res)
  else if (lastCommittedHeight <? u64_add (cfg_TimestampingDelayBlocks cfg) tipHeight)%N then
    res ← commitPubRandPairsWithTiming (u64_add lastCommittedHeight 1); mret (Some res)
  else mret None.
End manual.

(** ** Recovering proofs: recover_proof.go *)

(** What the command works on: the chain, the EOTS manager and the proof store. *)
Record RecoverEnv (D E C : Type) := mkRecoverEnv { re_ctrl : C; re_em : E; re_store : D }.
Arguments mkRecoverEnv {D E C}.
Arguments re_ctrl {D E C}.
Arguments re_em {D E C}.
Arguments re_store {D E C}.

Section recover.
Context `{Crypto} `{Sdk} `{BigEndian} `{Merkle}.
Context {D E C : Type} `{!KvBackend D} `{!EOTSManager E} `{!ConsumerController C}.
#[local] Abbreviation env := (RecoverEnv D E C).

Definition on_re_ctrl {A} : M C A → M env A :=
  zoom re_ctrl (λ c s, mkRecoverEnv c (re_em s) (re_store s)).
Definition on_re_em {A} : M E A → M env A :=
  zoom re_em (λ e s, mkRecoverEnv (re_ctrl s) e (re_store s)).
Definition on_re_store {A} : M D A → M env A :=
  zoom re_store (λ d s, mkRecoverEnv (re_ctrl s) (re_em s) d).

(** The two functions [runCommandRecoverProof] passes on. *)
Definition createRandomnessFunc (fpPk chainID : bytes) (commit : PubRandCommit) : M env (list FieldVal) :=
  on_re_em (em_CreateRandomnessPairList fpPk chainID (GetStartHeight commit)
              (GetNumPubRand commit mod two32) []).
Definition addPubRandProofListFunc (chainID pk : bytes) (commit : PubRandCommit)
    (proofList : list Proof) : M env unit :=
  go_wrap "failed to save public randomness to DB"
    (on_re_store (AddPubRandProofList chainID pk (GetStartHeight commit) (GetNumPubRand commit)
       proofList [])).

(** One commitment of the loop. *)
Definition recoverCommit (chainID fpPk : bytes) (commit : PubRandCommit) : M env unit :=
  if (MaxUint32 <? GetNumPubRand commit)%N then
    go_fail (EText ("NumPubRand " +:+ fmt_d (GetNumPubRand commit) +:+ " exceeds maximum uint32 value"))
  else
    pubRandList ← go_wrap ("failed to get randomness from height " +:+ fmt_d (GetStartHeight commit)
                             +:+ " to height " +:+ fmt_d (GetEndHeight commit))
                    (createRandomnessFunc fpPk chainID commit);
    let '(commitRoot, proofList) := GetPubRandCommitAndProofs pubRandList in
    if negb (bool_decide (commitRoot = GetCommitment commit)) then
      go_fail (EText ("the commit root on Babylon does not match the local one, expected: "
                        +:+ fmt_x (GetCommitment commit) +:+ ", got: " +:+ fmt_x commitRoot))
    else
      go_wrap "failed to save public randomness to DB"
        (addPubRandProofListFunc chainID fpPk commit proofList).

(** [connect] connects to the EOTS manager; [chainID], [fpPkHex] and
    [startHeight] are the flags and the argument. *)
Definition RunCommandRecoverProofWithConfig (connect : M E unit) (chainID fpPkHex : string) (startHeight : N)
    : M env unit :=
  if bool_decide (chainID = "") then go_fail (EText "please specify chain-id")
  else
    fpPk ← go_wrap "failed to parse EOTS public key" (go_lift (NewBIP340PubKeyFromHex fpPkHex));
    _ ← go_wrap "failed to create EOTS manager client" (on_re_em connect);
    btcPk ← go_lift (MustToBTCPK fpPk);
    commitList ← go_wrap ("failed to query randomness commit list for fp " +:+ MarshalHex fpPk)
                   (on_re_ctrl (cc_QueryPubRandCommitList btcPk startHeight));
    go_fold (λ _ commit, recoverCommit (bytes_of_string chainID) fpPk commit) () commitList.
End recover.

(** ** Lemmas *)

Section commit_lemmas.
Context `{Crypto} `{Sdk} `{BigEndian} `{Merkle} `{Retry} `{BabylonErrors}.
Context {D E C Pl : Type} `{!KvBackend D} `{!Codec FinalityProvider} `{!Codec Description}.
Context `{!EOTSManager E} `{!ConsumerController C} `{!BlockPoller Pl}.
Context (cfg : Config).
#[local] Abbreviation fpi := (FinalityProviderInstance D E C Pl).
#[local] Abbreviation n := (cfg_NumPubRand cfg).
Implicit Types fi : fpi.

(** The start heights of the commitments, and how many there are. *)
Fixpoint heights_from (start : N) (k : nat) : list N :=
  match k with O => [] | S k' => start :: heights_from (start + n)%N k' end.
Definition commit_count (start target : N) : nat := N.to_nat ((target - start) / n + 1).

Definition commit_all (hs : list N) : M fpi unit :=
  go_fold (λ _ h, _ ← CommitPubRand h; mret ()) () hs.

Lemma commitLoop_run k : ∀ fuel start target fi,
  (0 < n)%N → (target + n < two64)%N → (target < start + N.of_nat k * n)%N →
  (k = 0%nat ∨ start + N.of_nat (k - 1) * n ≤ target)%N → (k < fuel)%nat →
  commitLoop cfg fuel start target fi = Some (commit_all (heights_from start k) fi).
Proof.
  induction k as [|k IH]; intros fuel start target fi Hn Hb Hlt Hge Hf;
    (destruct fuel as [|fuel]; [lia|]); simpl.
  - destruct (start <=? target)%N eqn:El; btests; [lia|done].
  - destruct Hge as [|Hge]; [done|].
    assert (start ≤ target)%N as Hst by nia. rewrite (proj2 (N.leb_le _ _) Hst).
    unfold commit_all. simpl. unfold mbind, M_bind, go_bind.
    destruct (CommitPubRand start fi) as [[r|e|w] fi1]; [|done..]. simpl.
    rewrite (u64_add_small start n) by lia. rewrite u64_sub_small by (unfold is_u64; lia).
    rewrite u64_add_small by lia. replace (start + n - 1 + 1)%N with (start + n)%N by lia.
    apply IH; [done|done|nia| |lia]. destruct k as [|k]; [by left|right]. nia.
Qed.

Lemma heights_from_spec k : ∀ start s,
  s ∈ heights_from start k ↔ ∃ i, (i < k)%nat ∧ s = (start + N.of_nat i * n)%N.
Proof.
  induction k as [|k IH]; intros start s; simpl.
  - rewrite elem_of_nil. split; [done|]. intros (i & Hi & _). lia.
  - rewrite elem_of_cons, IH. split.
    + intros [->|(i & Hi & ->)]; [exists 0%nat; split; lia|exists (S i); split; lia].
    + intros ([|i] & Hi & ->); [left; lia|right; exists i; split; lia].
Qed.

Lemma commitLoop_exact fuel start target fi :
  (0 < n)%N → (start ≤ target)%N → (target + n < two64)%N → (commit_count start target < fuel)%nat →
  commitLoop cfg fuel start target fi = Some (commit_all (heights_from start (commit_count start target)) fi).
Proof.
  intros Hn Hle Hb Hf. unfold commit_count in *. pose proof (N.div_mod' (target - start) n) as Hd.
  pose proof (N.mod_lt (target - start) n ltac:(lia)) as Hm.
  remember ((target - start) / n)%N as q eqn:Eq. remember ((target - start) mod n)%N as m. clear Eq.
  apply commitLoop_run; [done|done|rewrite N2Nat.id; nia| |done]. right.
  replace (N.to_nat (q + 1) - 1)%nat with (N.to_nat q) by lia. rewrite N2Nat.id. nia.
Qed.

(** Every height from the start to the target is held by exactly one of the
    commitments. *)
Lemma heights_cover start target h :
  (0 < n)%N → (start ≤ h ≤ target)%N →
  ∃ s, s ∈ heights_from start (commit_count start target) ∧ (s ≤ h < s + n)%N
    ∧ ∀ s', s' ∈ heights_from start (commit_count start target) → (s' ≤ h < s' + n)%N → s' = s.
Proof.
  intros Hn Hh. pose proof (N.div_mod' (h - start) n) as Hd.
  pose proof (N.mod_lt (h - start) n ltac:(lia)) as Hm.
  assert ((h - start) / n ≤ (target - start) / n)%N as Hq by (apply N.Div0.div_le_mono; lia).
  unfold commit_count. remember ((h - start) / n)%N as q eqn:Eq.
  remember ((h - start) mod n)%N as m. clear Eq.
  exists (start + q * n)%N. split_and!; [|nia|nia|].
  - apply heights_from_spec. exists (N.to_nat q). split; lia.
  - intros s' (i & _ & ->)%heights_from_spec Hs'. assert (N.of_nat i = q) as <- by nia. done.
Qed.

(** A manual commitment from a start height up to a target ends, and makes
    exactly the commitments at [start], [start + NumPubRand], ... in this order
    until one fails: together they hold every height from the start to the
    target, each exactly once, and nothing is committed when the chain already
    has a commitment at or above the start. *)
Theorem manual_commit_covers fuel start target last fi fi1
    (Hn : (0 < n)%N) (Hle : (start ≤ target)%N) (Hb : (target + n < two64)%N)
    (Hlast : fi_GetLastCommittedHeight fi = (Ok last, fi1))
    (Hfuel : (commit_count start target < fuel)%nat) :
  let hs := heights_from start (commit_count start target) in
  (if (last <? start)%N then
     CommitPubRandWithStartHeight cfg fuel start target fi = Some (commit_all hs fi1)
   else ∃ e, CommitPubRandWithStartHeight cfg fuel start target fi = Some (Err e, fi1))
  ∧ ∀ h, (start ≤ h ≤ target)%N →
      ∃ s, s ∈ hs ∧ (s ≤ h < s + n)%N ∧ ∀ s', s' ∈ hs → (s' ≤ h < s' + n)%N → s' = s.
Proof.
  intros hs. split.
  - unfold CommitPubRandWithStartHeight. rewrite (proj2 (N.ltb_ge _ _) Hle), Hlast.
    destruct (last <? start)%N eqn:El; btests.
    + rewrite (proj2 (N.leb_gt _ _) El). by apply commitLoop_exact.
    + rewrite (proj2 (N.leb_le _ _) El). by eexists.
  - intros h Hh. by apply heights_cover.
Qed.

(** Fuel for the commitments from 0 is enough for either helper. *)
Lemma manual_commit_returns fuel start target fi :
  (0 < n)%N → (target + n < two64)%N → (commit_count 0 target < fuel)%nat →
  is_Some (CommitPubRandWithStartHeight cfg fuel start target fi)
  ∧ is_Some (manual_CommitPubRand cfg fuel target fi).
Proof.
  intros Hn Hb Hf.
  assert (∀ start fi, is_Some (CommitPubRandWithStartHeight cfg fuel start target fi)) as Hall.
  { clear start fi. intros start fi. unfold CommitPubRandWithStartHeight.
    destruct (target <? start)%N eqn:El; [by eexists|]. btests.
    destruct (fi_GetLastCommittedHeight fi) as [[last|e|w] fi1]; [|by eexists..].
    destruct (start <=? last)%N; [by eexists|]. rewrite commitLoop_exact; [by eexists|done..|].
    unfold commit_count in *.
    assert ((target - start) / n ≤ (target - 0) / n)%N as Hq by (apply N.Div0.div_le_mono; lia). lia. }
  split; [apply Hall|]. unfold manual_CommitPubRand.
  destruct (fi_GetLastCommittedHeight fi) as [[last|e|w] fi1]; [|by eexists..].
  destruct (target <=? last)%N; [by eexists|]. apply Hall.
Qed.

(** For a provider without commitments the helper starts at height 0, which
    counts as committed: it fails whatever the target is. *)
Lemma manual_commit_fresh_fails fuel target fi fi1 fi2 :
  fi_GetLastCommittedHeight fi = (Ok 0%N, fi1) → fi_GetLastCommittedHeight fi1 = (Ok 0%N, fi2) →
  ∃ e fi', manual_CommitPubRand cfg fuel target fi = Some (Err e, fi').
Proof.
  intros H1' H2'. unfold manual_CommitPubRand. rewrite H1'. destruct (target <=? 0)%N eqn:Et; [by eexists _, _|].
  btests. simpl. unfold CommitPubRandWithStartHeight. rewrite H2'.
  destruct (target <? 0)%N eqn:E0; btests; [lia|]. by eexists _, _.
Qed.
End commit_lemmas.

(** A relation that the calls of a manual vote keep. *)
Section vote_frame.
Context `{Crypto} `{Sdk} `{BigEndian} `{Merkle} `{Retry} `{BabylonErrors} `{!SlashingEvidence}.
Context {D E C Pl : Type} `{!KvBackend D} `{!Codec FinalityProvider} `{!Codec Description}.
Context `{!EOTSManager E} `{!ConsumerController C} `{!BlockPoller Pl}.
#[local] Abbreviation fpi := (FinalityProviderInstance D E C Pl).
Context (R : relation fpi) `{!PreOrder R}.
Context (Rem : ∀ A (m : M E A), preserves R (on_fi_em m)).
Context (Rproofs : ∀ A (m : M D A), preserves R (on_pubRandState m)).
Context (Rcon : ∀ A (m : M C A), preserves R (on_consumerCon m)).
#[local] Hint Resolve Rem Rproofs Rcon : preserves.

Lemma frame_submitAndExtract p req : preserves R (submitAndExtract p req).
Proof. unfold submitAndExtract. solve_preserves. Qed.
#[local] Hint Resolve frame_submitAndExtract : preserves.

Lemma frame_manual_vote b safe : preserves R (SubmitFinalitySignatureAndExtractPrivKey b safe).
Proof.
  unfold SubmitFinalitySignatureAndExtractPrivKey, fi_GetPubRandList, getProofOf, eotsSigner,
    fi_SignFinalitySig. solve_preserves.
Qed.
End vote_frame.

Section recover_lemmas.
Context `{CryptoLaws} `{Sdk} `{BigEndianLaws} `{Merkle}.
Context {D E C : Type} `{!KvBackend D} `{!KvLaws D} `{!EOTSManager E} `{!ConsumerController C}.
#[local] Abbreviation env := (RecoverEnv D E C).
Implicit Types s : env.

Definition commit_end (c : PubRandCommit) : N := (GetStartHeight c + GetNumPubRand c)%N.
Definition commit_bounded (c : PubRandCommit) : Prop := (commit_end c < two64)%N.
Definition disjoint_commits (c1 c2 : PubRandCommit) : Prop :=
  (commit_end c1 ≤ GetStartHeight c2 ∨ commit_end c2 ≤ GetStartHeight c1)%N.

(** The proofs of a commitment are in the store: those of the tree over the
    randomness of its heights, whose root is the commitment. *)
Definition proofs_stored (chain pk : bytes) (c : PubRandCommit) (d : D) : Prop :=
  ∃ prs (e e1 : E),
    em_CreateRandomnessPairList pk chain (GetStartHeight c) (GetNumPubRand c) [] e = (Ok prs, e1)
    ∧ (GetPubRandCommitAndProofs prs).1 = GetCommitment c
    ∧ ∀ i, (i < GetNumPubRand c)%N → ∃ p b, (GetPubRandCommitAndProofs prs).2 !! N.to_nat i = Some p
        ∧ Proof_Marshal p = Ok b
        ∧ kv_get d pubRandProofBucketName (getKey chain pk (GetStartHeight c + i)) = Some b.

Lemma recoverCommit_ok chain pk c s u s' :
  commit_bounded c → recoverCommit chain pk c s = (Ok u, s') →
  proofs_stored chain pk c (re_store s')
  ∧ ∀ h, is_u64 h → (h < GetStartHeight c ∨ commit_end c ≤ h)%N →
      kv_get (re_store s') pubRandProofBucketName (getKey chain pk h)
      = kv_get (re_store s) pubRandProofBucketName (getKey chain pk h).
Proof.
  unfold commit_bounded, commit_end, recoverCommit. intros Hb HE.
  destruct (MaxUint32 <? GetNumPubRand c)%N eqn:Em; [done|]. btests.
  inv_bind HE. unfold createRandomnessFunc in E0. apply zoom_inv in E0 as (e1 & Hr & ->).
  rewrite N.mod_small in Hr by (unfold MaxUint32 in Em; unfold two32; lia).
  destruct (GetPubRandCommitAndProofs a) as [root proofs] eqn:Eg.
  case_bool_decide as Hroot; simpl in HE; [|done].
  unfold addPubRandProofListFunc in HE. apply go_wrap_ok, go_wrap_ok, zoom_inv in HE as (d & Ha & ->).
  destruct u. simpl in *. apply AddPubRandProofList_ok in Ha as (Hl & bs & Hm & _ & Hp).
  rewrite buildKeys_default in Hp.
  apply putProofs_ok in Hp as (Hget & Hframe & _); [|apply buildKeys_NoDup; lia].
  apply marshalProofs_ok in Hm. split.
  - exists a, (re_em s), e1. rewrite Eg. split_and!; [done|done|]. intros i Hi. simpl.
    destruct (lookup_lt_is_Some_2 proofs (N.to_nat i)) as [p Hpi]; [lia|].
    destruct (Forall2_lookup_l _ _ _ _ _ Hm Hpi) as (b & Hbi & Hpb).
    exists p, b. split_and!; [done|done|].
    pose proof (buildKeys_lookup chain pk (GetStartHeight c) (GetNumPubRand c) 1 i) as Hk.
    rewrite !N.mul_1_r in Hk. by eapply Hget; [apply Hk; lia|].
  - intros h Hh Hout. apply Hframe. right. intros (i & Hi)%list_elem_of_lookup_1.
    pose proof (lookup_lt_Some _ _ _ Hi) as Hlen. rewrite buildKeys_length in Hlen.
    pose proof (buildKeys_lookup chain pk (GetStartHeight c) (GetNumPubRand c) 1 (N.of_nat i)) as Hk.
    rewrite Nat2N.id, Hi, !N.mul_1_r in Hk. specialize (Hk ltac:(lia) ltac:(lia)). injection Hk as Hk.
    apply getKey_inj in Hk; [lia|done|unfold is_u64; lia].
Qed.

Lemma proofs_stored_frame chain pk c d d' :
  proofs_stored chain pk c d →
  (∀ i, (i < GetNumPubRand c)%N →
     kv_get d' pubRandProofBucketName (getKey chain pk (GetStartHeight c + i))
     = kv_get d pubRandProofBucketName (getKey chain pk (GetStartHeight c + i))) →
  proofs_stored chain pk c d'.
Proof.
  intros (prs & e & e1 & Hr & Hroot & Hp) Heq. exists prs, e, e1. split_and!; [done|done|].
  intros i Hi. destruct (Hp i Hi) as (p & b & ? & ? & Hk). exists p, b. by rewrite Heq.
Qed.

Lemma recover_fold_ok chain pk commits : ∀ s u s',
  Forall commit_bounded commits → List.ForallOrdPairs disjoint_commits commits →
  go_fold (λ _ c, recoverCommit chain pk c) () commits s = (Ok u, s') →
  Forall (λ c, proofs_stored chain pk c (re_store s')) commits
  ∧ ∀ h, is_u64 h → Forall (λ c, h < GetStartHeight c ∨ commit_end c ≤ h)%N commits →
      kv_get (re_store s') pubRandProofBucketName (getKey chain pk h)
      = kv_get (re_store s) pubRandProofBucketName (getKey chain pk h).
Proof.
  induction commits as [|c commits IH]; intros s u s' Hb Hd HE; simpl in HE.
  { by injection HE as _ <-. }
  apply Forall_cons in Hb as [Hc Hb]. inversion Hd as [|c' l Hcd Hd' Ec]. subst.
  inv_bind HE. destruct a. destruct (recoverCommit_ok _ _ _ _ _ _ Hc E0) as [Hst Hk].
  destruct (IH _ _ _ Hb Hd' HE) as [Hall Hframe]. split.
  - constructor; [|done]. eapply proofs_stored_frame; [exact Hst|]. intros i Hi. apply Hframe.
    + unfold commit_bounded, commit_end in Hc. unfold is_u64. lia.
    + eapply List.Forall_impl; [|exact Hcd]. unfold disjoint_commits, commit_end. intros c2 ?. lia.
  - intros h Hh Hout. apply Forall_cons in Hout as [Ho Hout]. by rewrite Hframe, Hk.
Qed.

(** From [d] to [d'] the proofs of the commitments came back: the root of each
    is the root over the randomness the EOTS manager derives for its heights,
    and the proof of each of these heights is read back from the store; proofs
    of other heights are as they were. *)
Definition restored (chain pk : bytes) (commits : list PubRandCommit) (d d' : D) : Prop :=
  (∀ c, c ∈ commits → ∃ prs (e e1 : E),
     em_CreateRandomnessPairList pk chain (GetStartHeight c) (GetNumPubRand c) [] e = (Ok prs, e1)
     ∧ (GetPubRandCommitAndProofs prs).1 = GetCommitment c
     ∧ ∀ i, (i < GetNumPubRand c)%N → ∃ p b, (GetPubRandCommitAndProofs prs).2 !! N.to_nat i = Some p
         ∧ Proof_Marshal p = Ok b
         ∧ (kv_begin d' = None → GetPubRandProof chain pk (GetStartHeight c + i) d' = (Ok b, d')))
  ∧ ∀ h, is_u64 h → (∀ c, c ∈ commits → (h < GetStartHeight c ∨ commit_end c ≤ h)%N) →
      kv_get d' pubRandProofBucketName (getKey chain pk h) = kv_get d pubRandProofBucketName (getKey chain pk h).

Lemma recover_restores connect chainID hex start s u s' commits c' fpPk btcPk :
  NewBIP340PubKeyFromHex hex = Ok fpPk → MustToBTCPK fpPk = Ok btcPk →
  cc_QueryPubRandCommitList btcPk start (re_ctrl s) = (Ok commits, c') →
  Forall commit_bounded commits → List.ForallOrdPairs disjoint_commits commits →
  RunCommandRecoverProofWithConfig connect chainID hex start s = (Ok u, s') →
  restored (bytes_of_string chainID) fpPk commits (re_store s) (re_store s').
Proof.
  intros Hpk Hbtc Hlist Hbound Hdisj Hrun. unfold RunCommandRecoverProofWithConfig in Hrun.
  case_bool_decide; [done|].
  inv_bind Hrun. rewrite Hpk in E0. injection E0 as <-. inv_bind Hrun. apply zoom_inv in E0 as (e0 & _ & ->).
  inv_bind Hrun. rewrite Hbtc in E0.
  injection E0 as <-. inv_bind Hrun. apply zoom_inv in E0 as (c1 & Hq & ->). simpl in Hq.
  rewrite Hlist in Hq. injection Hq as <- <-.
  destruct (recover_fold_ok _ _ _ _ _ _ Hbound Hdisj Hrun) as [Hall Hframe]. split.
  - intros c Hc. rewrite Forall_forall in Hall. destruct (Hall c Hc) as (prs & e & e1 & Hr & Hroot & Hp).
    exists prs, e, e1. split_and!; [done|done|]. intros i Hi. destruct (Hp i Hi) as (p & b & Hpi & Hm & Hg).
    exists p, b. split_and!; [done|done|]. intros Hopen. unfold GetPubRandProof, go_wrap.
    rewrite kv_view_run by done. by rewrite (kv_get_has _ _ _ _ Hg), Hg.
  - intros h Hh Hout. rewrite Hframe; [done..|]. by apply Forall_forall.
Qed.
End recover_lemmas.

(** ** Witnesses *)

Module ManualWitness.
Import LmToy FpToy ChainToy InstanceWitness.

Definition w_cfg : Config := w_config true false.
Definition w_fi := w_inst toy_fp_db (w_cp false).
Definition w_commits := commit_all [20; 23]%N w_fi.

(** Two commitments of three heights reach height 25. *)
Lemma manual_commit_covers_witness :
  is_Ok w_commits.1 = true
  ∧ CommitPubRandWithStartHeight w_cfg 3 20 25 w_fi = Some w_commits.
Proof.
  split; [vm_eq|].
  destruct (manual_commit_covers w_cfg 3 20 25 0 w_fi w_fi) as [Hrun _]; [done|done|done|vm_eq|vm_compute; lia|].
  exact Hrun.
Defined.
End ManualWitness.
