(* ===== verification/App.v ===== *)
(** * The application and its event loops
      (src/finality-provider/service/app.go, event_loops.go)

    The daemon holds the stores, the chain connections, the EOTS manager and at
    most one finality provider instance.  Requests that talk to the chain are
    handed to an event loop through a channel: the part of the caller before
    the hand-over, the handler of the loop and the part after the response are
    separate operations here, so that histories may interleave them. *)

From Stdlib Require Import NArith ZArith Lia.
From stdpp Require Import base gmap strings list relations.
From S2P Require Import Prelude Kvdb External Config Toy EotsStore EotsApi LocalManager PubRandStore.
From S2P Require Import FpStore ChainApi FinalitySubmitter RandCommitter Bootstrap ChainPoller FpInstance.

(** ** Requests and responses (event_loops.go) *)

Record CreateFinalityProviderRequest `{Sdk} := mkCreateReq {
  cfr_chainID : string;
  cfr_fpAddr : bytes;
  cfr_btcPubKey : bytes;
  cfr_pop : ProofOfPossessionBTC;
  cfr_description : Description;
  cfr_commission : CommissionRates;
}.

Record CreateFinalityProviderResult := mkCreateResult {
  cfres_FpInfo : FinalityProviderInfo;
  cfres_TxHash : string;
}.

(** ** The state *)

(** What belongs to the instance alone; it shares the rest with the
    application. *)
Record fp_own `{Crypto} `{Sdk} := mkOwn {
  own_btcPk : bytes;
  own_sfp : StoredFinalityProvider;
  own_isStarted : bool;
  own_quit : option bool;
  own_reported : list error;
}.

(** [app_rcPk] and [app_rcCfg] are the fields of the randomness committer and
    [app_stateSet] whether the submitter has its state; [app_started] and
    [app_stopped] are the [sync.Once] values, [app_loops] whether the event
    loops run. *)
Record FinalityProviderApp (D E C Pl B K : Type) `{Crypto} `{Sdk} := mkApp {
  app_cc : B;
  app_consumerCon : C;
  app_kr : K;
  app_stdin : string;
  app_fps : D;
  app_pubRandStore : D;
  app_poller : Pl;
  app_rcPk : option bytes;
  app_rcCfg : RandomnessCommitterConfig;
  app_stateSet : bool;
  app_eotsManager : E;
  app_fpIns : option fp_own;
  app_started : bool;
  app_stopped : bool;
  app_loops : bool;
}.
Arguments mkApp {D E C Pl B K _ _}.
Arguments app_cc {D E C Pl B K _ _}.
Arguments app_consumerCon {D E C Pl B K _ _}.
Arguments app_kr {D E C Pl B K _ _}.
Arguments app_stdin {D E C Pl B K _ _}.
Arguments app_fps {D E C Pl B K _ _}.
Arguments app_pubRandStore {D E C Pl B K _ _}.
Arguments app_poller {D E C Pl B K _ _}.
Arguments app_rcPk {D E C Pl B K _ _}.
Arguments app_rcCfg {D E C Pl B K _ _}.
Arguments app_stateSet {D E C Pl B K _ _}.
Arguments app_eotsManager {D E C Pl B K _ _}.
Arguments app_fpIns {D E C Pl B K _ _}.
Arguments app_started {D E C Pl B K _ _}.
Arguments app_stopped {D E C Pl B K _ _}.
Arguments app_loops {D E C Pl B K _ _}.

Section app.
Context `{Crypto} `{Sdk} `{BigEndian} `{Merkle} `{Retry} `{BabylonErrors} `{AccAddress}.
Context {D E C Pl B K : Type} `{!KvBackend D} `{!Codec FinalityProvider} `{!Codec Description}.
Context `{!Codec ProofOfPossessionBTC}.
Context `{!EOTSManager E} `{!ConsumerController C} `{!BlockPoller Pl} `{!BabylonController B}.
Context `{!Keyring K}.
Context (cfg : Config) (pollerCfg : ChainPollerConfig).
#[local] Abbreviation fpi := (FinalityProviderInstance D E C Pl).
#[local] Abbreviation app := (FinalityProviderApp D E C Pl B K).
#[local] Abbreviation deps := (instance_deps (D:=D) (E:=E) (C:=C) (Pl:=Pl)).
Implicit Types a : app.

(** ** Parts of the state *)

Definition app_with_cc (b : B) a : app :=
  mkApp b (app_consumerCon a) (app_kr a) (app_stdin a) (app_fps a) (app_pubRandStore a)
    (app_poller a) (app_rcPk a) (app_rcCfg a) (app_stateSet a) (app_eotsManager a) (app_fpIns a)
    (app_started a) (app_stopped a) (app_loops a).
Definition app_with_con (c : C) a : app :=
  mkApp (app_cc a) c (app_kr a) (app_stdin a) (app_fps a) (app_pubRandStore a)
    (app_poller a) (app_rcPk a) (app_rcCfg a) (app_stateSet a) (app_eotsManager a) (app_fpIns a)
    (app_started a) (app_stopped a) (app_loops a).
Definition app_with_stdin (s : string) a : app :=
  mkApp (app_cc a) (app_consumerCon a) (app_kr a) s (app_fps a) (app_pubRandStore a)
    (app_poller a) (app_rcPk a) (app_rcCfg a) (app_stateSet a) (app_eotsManager a) (app_fpIns a)
    (app_started a) (app_stopped a) (app_loops a).
Definition app_with_fps (d : D) a : app :=
  mkApp (app_cc a) (app_consumerCon a) (app_kr a) (app_stdin a) d (app_pubRandStore a)
    (app_poller a) (app_rcPk a) (app_rcCfg a) (app_stateSet a) (app_eotsManager a) (app_fpIns a)
    (app_started a) (app_stopped a) (app_loops a).
Definition app_with_pubRand (d : D) a : app :=
  mkApp (app_cc a) (app_consumerCon a) (app_kr a) (app_stdin a) (app_fps a) d
    (app_poller a) (app_rcPk a) (app_rcCfg a) (app_stateSet a) (app_eotsManager a) (app_fpIns a)
    (app_started a) (app_stopped a) (app_loops a).
Definition app_with_em (e : E) a : app :=
  mkApp (app_cc a) (app_consumerCon a) (app_kr a) (app_stdin a) (app_fps a) (app_pubRandStore a)
    (app_poller a) (app_rcPk a) (app_rcCfg a) (app_stateSet a) e (app_fpIns a)
    (app_started a) (app_stopped a) (app_loops a).
Definition app_with_ins (i : option fp_own) a : app :=
  mkApp (app_cc a) (app_consumerCon a) (app_kr a) (app_stdin a) (app_fps a) (app_pubRandStore a)
    (app_poller a) (app_rcPk a) (app_rcCfg a) (app_stateSet a) (app_eotsManager a) i
    (app_started a) (app_stopped a) (app_loops a).
Definition app_with_once (started stopped loops : bool) a : app :=
  mkApp (app_cc a) (app_consumerCon a) (app_kr a) (app_stdin a) (app_fps a) (app_pubRandStore a)
    (app_poller a) (app_rcPk a) (app_rcCfg a) (app_stateSet a) (app_eotsManager a) (app_fpIns a)
    started stopped loops.

Definition on_cc {A} : M B A → M app A := zoom app_cc app_with_cc.
Definition on_con {A} : M C A → M app A := zoom app_consumerCon app_with_con.
Definition on_fps {A} : M D A → M app A := zoom app_fps app_with_fps.
Definition on_pubRandStore {A} : M D A → M app A := zoom app_pubRandStore app_with_pubRand.
Definition on_em {A} : M E A → M app A := zoom app_eotsManager app_with_em.

(** The dependencies of a new instance. *)
Definition app_deps a : deps :=
  mkDeps (app_fps a)
    (mkRC (app_rcPk a) (app_rcCfg a) (app_pubRandStore a) (app_consumerCon a) (app_eotsManager a))
    (app_poller a) (app_stateSet a).
Definition app_with_deps (dp : deps) a : app :=
  let rc := dp_rndCommitter dp in
  mkApp (app_cc a) (rc_ConsumerCon rc) (app_kr a) (app_stdin a) (dp_s dp) (rc_PubRandState rc)
    (dp_poller dp) (rc_BtcPk rc) (rc_Cfg rc) (dp_stateSet dp) (rc_Em rc) (app_fpIns a)
    (app_started a) (app_stopped a) (app_loops a).
Definition on_deps {A} : M deps A → M app A := zoom app_deps app_with_deps.

(** The instance, with what it shares with the application. *)
Definition ins_view a (o : fp_own) : fpi :=
  mkFPI (own_btcPk o) (mkFpState (own_sfp o) (app_fps a)) (app_pubRandStore a) (app_eotsManager a)
    (app_consumerCon a) (app_poller a) (app_rcPk a) (app_rcCfg a) (own_isStarted o) (own_quit o)
    (own_reported o).
Definition own_of (fi : fpi) : fp_own :=
  mkOwn _ _ (fi_btcPk fi) (fps_sfp (fi_fpState fi)) (fi_isStarted fi) (fi_quit fi) (fi_reported fi).
Definition app_with_fi (fi : fpi) a : app :=
  mkApp (app_cc a) (fi_consumerCon fi) (app_kr a) (app_stdin a) (fps_s (fi_fpState fi))
    (fi_pubRandState fi) (fi_poller fi) (fi_rcPk fi) (fi_rcCfg fi) (app_stateSet a) (fi_em fi)
    (Some (own_of fi)) (app_started a) (app_stopped a) (app_loops a).
Definition on_ins {A} (m : M fpi A) : M app A := λ a,
  match app_fpIns a with
  | None => (Crash "nil pointer dereference", a)
  | Some o => zoom (λ a, ins_view a o) app_with_fi m a
  end.

(** ** Construction *)

(** [kr] is what [CreateKeyring] returns. *)
Definition NewFinalityProviderApp (cc : B) (con : C) (em : E) (poller : Pl)
    (rcCfg : RandomnessCommitterConfig) (kr : outcome K) (stdin : string) (fpDb prDb : D) : outcome app :=
  match fp_initBuckets fpDb with
  | (Err e, _) => Err (wrapf "failed to initiate finality provider store" e)
  | (Crash w, _) => Crash w
  | (Ok _, fpDb) =>
      match pr_initBuckets prDb with
      | (Err e, _) => Err (wrapf "failed to initiate public randomness store" e)
      | (Crash w, _) => Crash w
      | (Ok _, prDb) =>
          kr ← wrap_err "failed to create keyring" kr;
          Ok (mkApp cc con kr stdin fpDb prDb poller None rcCfg false em None false false false)
      end
  end.

(** ** Queries *)

Definition GetFinalityProviderInstance : M app fp_own :=
  a ← go_get;
  match app_fpIns a with
  | None => go_fail (EText "finality provider does not exist")
  | Some o => mret o
  end.

Definition own_hex (o : fp_own) : string := MarshalHex (GetBIP340BTCPK (own_sfp o)).

Definition IsFinalityProviderRunning (fpPk : bytes) a : bool :=
  match app_fpIns a with
  | None => false
  | Some o =>
      if negb (bool_decide (own_hex o = MarshalHex fpPk)) then false else own_isStarted o
  end.

Definition info_with_running (running : bool) (i : FinalityProviderInfo) : FinalityProviderInfo :=
  if running then
    mkFinalityProviderInfo (fpi_FpAddr i) (fpi_BtcPkHex i) (fpi_Description i) (fpi_Commission i)
      (fpi_LastVotedHeight i) (fpi_Status i) true (fpi_CommissionInfo i) (fpi_ChainId i)
  else i.

Definition GetFinalityProviderInfo (fpPk : bytes) : M app FinalityProviderInfo :=
  btcPk ← go_lift (MustToBTCPK fpPk);
  storedFp ← go_wrap "failed to get finality provider" (on_fps (GetFinalityProvider btcPk));
  a ← go_get;
  mret (info_with_running (IsFinalityProviderRunning fpPk a) (ToFinalityProviderInfo storedFp)).

Definition ListAllFinalityProvidersInfo : M app (list FinalityProviderInfo) :=
  storedFps ← go_wrap "failed to get all stored finality providers"
                (on_fps GetAllStoredFinalityProviders);
  a ← go_get;
  mret ((λ fp, info_with_running (IsFinalityProviderRunning (GetBIP340BTCPK fp) a)
                 (ToFinalityProviderInfo fp)) <$> storedFps).

(** ** Instance management *)

(** [app.fpIns = fpIns]: the parts the instance shares are those of the
    application already. *)
Definition set_fpIns (fi : fpi) : M app unit := λ a, (Ok (), app_with_ins (Some (own_of fi)) a).

Definition startFinalityProviderInstance (pk : bytes) : M app unit :=
  a ← go_get;
  _ ← match app_fpIns a with
      | None =>
          fpIns ← go_wrap ("failed to create finality provider instance " +:+ MarshalHex pk)
                    (on_deps (NewFinalityProviderInstance pk));
          set_fpIns fpIns
      | Some o =>
          if negb (bool_decide (pk = own_btcPk o)) then
            go_fail (EText ("the finality provider daemon is already bonded with the finality provider "
              +:+ MarshalHex (own_btcPk o)
              +:+ ",please restart the daemon to switch to another instance"))
          else mret ()
      end;
  on_ins (Start cfg pollerCfg).

Definition StartFinalityProvider (fpPk : bytes) : M app unit := startFinalityProviderInstance fpPk.

Definition clear_fpIns : M app unit := λ a, (Ok (), app_with_ins None a).

Definition removeFinalityProviderInstance : M app unit :=
  a ← go_get;
  match app_fpIns a with
  | None => go_fail (EText "the finality provider instance does not exist")
  | Some o =>
      _ ← (if own_isStarted o then
             r ← go_try (on_ins Stop);
             match r with
             | inl _ => go_fail (EText ("failed to stop the finality provider instance " +:+ own_hex o))
             | inr _ => mret ()
             end
           else mret ());
      clear_fpIns
  end.

Definition setFinalityProviderSlashed : M app unit :=
  _ ← on_ins (fi_mustSetStatus SLASHED);
  r ← go_try removeFinalityProviderInstance;
  match r with
  | inl _ => go_crash "failed to terminate a slashed finality-provider"
  | inr _ => mret ()
  end.

(** ** Starting and stopping the daemon *)

(** One finality provider of [syncAllFinalityProvidersStatus]. *)
Definition syncStatus (fp : StoredFinalityProvider) : M app unit :=
  r ← go_try (on_con cc_QueryLatestBlock);
  match r with
  | inl err => go_fail (wrapf "failed to query latest block height" err)
  | inr None => go_fail (EWrapNil "failed to query latest block height: ")
  | inr (Some latestBlock) =>
      hasPower ← go_wrap ("failed to query voting power for finality provider "
                            +:+ MarshalHex (GetBIP340BTCPK fp) +:+ " at height "
                            +:+ fmt_d (blk_height latestBlock))
                   (on_con (cc_QueryFinalityProviderHasPower (sfp_BtcPk fp) (blk_height latestBlock)));
      if (hasPower : bool) then
        if negb (bool_decide (sfp_Status fp = ACTIVE)) then
          on_fps (MustSetFpStatus (sfp_BtcPk fp) ACTIVE)
        else mret ()
      else
        status ← go_wrap "failed to query finality provider status"
                   (on_con (cc_QueryFinalityProviderStatus (sfp_BtcPk fp)));
        if sr_Slashed status then on_fps (MustSetFpStatus (sfp_BtcPk fp) SLASHED)
        else if sr_Jailed status then on_fps (MustSetFpStatus (sfp_BtcPk fp) JAILED)
        else on_fps (MustSetFpStatus (sfp_BtcPk fp) INACTIVE)
  end.

Definition syncAllFinalityProvidersStatus : M app unit :=
  fps ← go_wrap "failed to get all stored finality providers" (on_fps GetAllStoredFinalityProviders);
  go_fold (λ _ fp, syncStatus fp) () fps.

(** [startOnce.Do]: a second call does nothing and returns nil, also after a
    first one that failed. *)
Definition app_Start : M app unit :=
  a ← go_get;
  if app_started a then mret ()
  else
    _ ← go_put (app_with_once true (app_stopped a) (app_loops a) a);
    _ ← syncAllFinalityProvidersStatus;
    a ← go_get;
    go_put (app_with_once (app_started a) (app_stopped a) true a).

(** [stopOnce.Do], once the event loops have returned; [emClose] is what
    [eotsManager.Close()] returns. *)
Definition app_Stop (emClose : E → outcome unit) : M app unit :=
  a ← go_get;
  if app_stopped a then mret ()
  else
    _ ← go_put (app_with_once (app_started a) true false a);
    _ ← match app_fpIns a with
        | Some o => if own_isStarted o then go_wrap "failed to close the fp instance" (on_ins Stop)
                    else mret ()
        | None => mret ()
        end;
    a ← go_get;
    go_wrap "failed to close the EOTS manager" (go_lift (emClose (app_eotsManager a))).

(** ** Registration *)

(** keyring/keyringcontroller.go: [NewChainKeyringControllerWithKeyring] and
    [Address] *)
Definition NewChainKeyringControllerWithKeyring (name : string) : outcome string :=
  if bool_decide (name = "") then Err (EText "the key name should not be empty") else Ok name.

Definition Address (fpName : string) : M app bytes := λ a,
  let '(r, rest) := kr_Key (app_kr a) (app_stdin a) fpName in
  ((k ← wrap_err "failed to get address" r;
    wrap_err "failed to get address from key" (rec_Address k)), app_with_stdin rest a).

Definition CreatePop (fpAddress fpPk : bytes) : M app ProofOfPossessionBTC :=
  sig ← go_wrap "failed to get schnorr signature from the EOTS manager"
          (on_em (em_SignSchnorrSig fpPk (tmhash_Sum fpAddress)));
  mret (mkPop BTCSigType_BIP340 (NewBIP340SignatureFromBTCSig sig)).

(** The status of a finality provider the chain knows. *)
Definition response_status (hasPower : bool) (fp : FinalityProviderResponse) : FinalityProviderStatus :=
  if hasPower then ACTIVE
  else if (0 <? fpr_SlashedBtcHeight fp)%N then SLASHED
  else if fpr_Jailed fp then JAILED
  else INACTIVE.

(** A nil description panics in its [Marshal]; [now] is the time of the write. *)
Definition putFpFromResponse (now : Z) (fp : FinalityProviderResponse) (chainID : string)
    : M app unit :=
  btcPk ← go_lift (MustToBTCPK (fpr_BtcPk fp));
  r ← go_try (on_fps (GetFinalityProvider btcPk));
  match r with
  | inl err =>
      if errors_Is err "ErrFinalityProviderNotFound" then
        addr ← go_wrap "err converting fp addr" (go_lift (AccAddressFromBech32 (fpr_Addr fp)));
        match fpr_Commission fp, fpr_CommissionInfo fp with
        | None, _ => go_fail (EText "nil Commission in FinalityProviderResponse")
        | Some _, None => go_fail (EText "nil CommissionInfo in FinalityProviderResponse")
        | Some rate, Some (maxRate, maxChangeRate) =>
            let commRates := mkCommissionRates _ rate maxRate maxChangeRate in
            match fpr_Description fp with
            | None => go_crash "nil pointer dereference"
            | Some des =>
                go_wrap "failed to save finality-provider"
                  (on_fps (CreateFinalityProvider now (AccAddress_String addr) btcPk des commRates chainID))
            end
        end
      else go_fail (wrapf "failed to get finality provider" err)
  | inr _ =>
      match fpr_Description fp with
      | None => go_crash "nil pointer dereference"
      | Some des =>
          _ ← go_wrap "failed to set finality provider description"
                (on_fps (SetFpDescription now btcPk des (fpr_Commission fp)));
          _ ← go_wrap "failed to set finality provider last voted height"
                (on_fps (SetFpLastVotedHeight btcPk (fpr_HighestVotedHeight fp)));
          hasPower ← go_wrap ("failed to query voting power for finality provider "
                                +:+ MarshalHex (fpr_BtcPk fp))
                       (on_con (cc_QueryFinalityProviderHasPower btcPk (fpr_Height fp)));
          go_wrap ("failed to update status for finality provider " +:+ MarshalHex (fpr_BtcPk fp))
            (on_fps (SetFpStatus btcPk (response_status hasPower fp)))
      end
  end.

(** [CreateFinalityProvider] up to the hand-over: the result when the chain
    already knows the finality provider, or the request for the loop.  A nil
    EOTS key is [None]. *)
Definition CreateFinalityProvider_request (now : Z) (keyName chainID : string) (eotsPk : option bytes)
    (description : Description) (commission : CommissionRates)
    : M app (CreateFinalityProviderResult + CreateFinalityProviderRequest) :=
  kr ← go_wrap "failed to create keyring controller"
         (go_lift (NewChainKeyringControllerWithKeyring keyName));
  fpAddr ← go_wrap ("the keyname " +:+ keyName +:+ " does not exist, add the key first") (Address kr);
  match eotsPk with
  | None => go_fail (EText "eots pk cannot be nil")
  | Some eotsPk =>
      pop ← go_wrap "failed to create proof-of-possession of the finality-provider"
              (CreatePop fpAddr eotsPk);
      btcPk ← go_lift (MustToBTCPK eotsPk);
      r ← go_try (on_cc (bcc_QueryFinalityProvider btcPk));
      match r with
      | inl err =>
          if negb (Contains (Error err) "the finality provider is not found") then
            go_fail (wrapf "err getting finality provider" err)
          else mret (inr (mkCreateReq _ chainID fpAddr eotsPk pop description commission))
      | inr resp =>
          _ ← putFpFromResponse now resp chainID;
          storedFp ← go_wrap "failed to get finality provider" (on_fps (GetFinalityProvider btcPk));
          mret (inl (mkCreateResult (ToFinalityProviderInfo storedFp) ""))
      end
  end.

(** The handler of [registrationLoop]: the hash it sends to [successResponse],
    or the error it sends to [errResponse]. *)
Definition registrationLoop_handle (req : CreateFinalityProviderRequest) : M app string :=
  popBytes ← go_lift (marshal (cfr_pop req));
  desBytes ← go_lift (marshal (cfr_description req));
  fpPk ← go_lift (MustToBTCPK (cfr_btcPubKey req));
  res ← on_cc (bcc_RegisterFinalityProvider
                 (mkRegisterReq _ _ (cfr_chainID req) fpPk popBytes (cfr_commission req) desBytes));
  match res with
  | None => go_crash "nil pointer dereference"
  | Some res => mret (TxHash res)
  end.

(** The rest of [CreateFinalityProvider], after a successful response. *)
Definition CreateFinalityProvider_finish (now : Z) (req : CreateFinalityProviderRequest)
    (txHash : string) : M app CreateFinalityProviderResult :=
  btcPk ← go_lift (MustToBTCPK (cfr_btcPubKey req));
  _ ← go_wrap "failed to save finality-provider"
        (on_fps (CreateFinalityProvider now (AccAddress_String (cfr_fpAddr req)) btcPk
                   (cfr_description req) (cfr_commission req) (cfr_chainID req)));
  storedFp ← go_wrap "failed to get finality provider" (on_fps (GetFinalityProvider btcPk));
  mret (mkCreateResult (ToFinalityProviderInfo storedFp) txHash).

(** The whole call, with nothing in between. *)
Definition app_CreateFinalityProvider (now : Z) (keyName chainID : string) (eotsPk : option bytes)
    (description : Description) (commission : CommissionRates) : M app CreateFinalityProviderResult :=
  r ← CreateFinalityProvider_request now keyName chainID eotsPk description commission;
  match r with
  | inl result => mret result
  | inr req => txHash ← registrationLoop_handle req; CreateFinalityProvider_finish now req txHash
  end.

(** ** Unjailing *)

(** The handler of [unjailFpLoop]. *)
Definition unjailFpLoop_handle (btcPubKey : bytes) : M app string :=
  let pkHex := MarshalHex btcPubKey in
  btcPk ← go_lift (MustToBTCPK btcPubKey);
  status ← go_wrap ("failed to query jailing status of the finality provider " +:+ pkHex)
             (on_con (cc_QueryFinalityProviderStatus btcPk));
  if sr_Slashed status then
    go_fail (EText ("the finality provider " +:+ pkHex +:+ " is already slashed"))
  else if negb (sr_Jailed status) then
    go_fail (EText ("the finality provider " +:+ pkHex +:+ " is not jailed"))
  else
    res ← on_con (cc_UnjailFinalityProvider btcPk);
    match res with
    | None => go_crash "nil pointer dereference"
    | Some res =>
        _ ← on_fps (MustSetFpStatus btcPk INACTIVE);
        mret (TxHash res)
    end.

(** [UnjailFinalityProvider] after a successful response. *)
Definition UnjailFinalityProvider_finish (fpPk : bytes) (txHash : string) : M app string :=
  btcPk ← go_lift (MustToBTCPK fpPk);
  _ ← go_wrap "failed to get finality provider from db" (on_fps (GetFinalityProvider btcPk));
  _ ← go_wrap "failed to update finality-provider status after unjailing"
        (on_fps (SetFpStatus btcPk INACTIVE));
  mret txHash.

Definition app_UnjailFinalityProvider (fpPk : bytes) : M app string :=
  txHash ← unjailFpLoop_handle fpPk; UnjailFinalityProvider_finish fpPk txHash.

(** ** Critical errors *)

(** [monitorCriticalErr] on an error it received. *)
Definition monitorCriticalErr_handle (err : error) : M app unit :=
  r ← go_try GetFinalityProviderInstance;
  match r with
  | inl _ => mret ()
  | inr _ =>
      if errors_Is err "ErrFinalityProviderSlashed" then setFinalityProviderSlashed
      else go_crash "terminating the finality-provider instance due to critical error"
  end.
End app.

(** ** A concrete daemon, for the witnesses *)

#[export] Instance BTCSigType_eq_dec : EqDecision BTCSigType.
Proof. solve_decision. Defined.
Definition sigType_N (t : BTCSigType) : N :=
  match t with BTCSigType_BIP340 => 0 | BTCSigType_BIP322 => 1 | BTCSigType_ECDSA => 2 end.
Definition N_sigType (n : N) : BTCSigType :=
  match n with 0 => BTCSigType_BIP340 | 1 => BTCSigType_BIP322 | _ => BTCSigType_ECDSA end%N.
#[export] Program Instance BTCSigType_countable : Countable BTCSigType :=
  inj_countable' sigType_N N_sigType _.
Next Obligation. by intros []. Qed.
#[export] Instance Pop_eq_dec : EqDecision ProofOfPossessionBTC.
Proof. solve_decision. Defined.
#[export] Program Instance Pop_countable : Countable ProofOfPossessionBTC :=
  inj_countable' (λ p, (pop_BtcSigType p, pop_BtcSig p)) (λ '(t, s), mkPop t s) _.
Next Obligation. by intros []. Qed.

Module AppToy.
Export LmToy FpToy ChainToy.
#[export] Instance toy_pop_codec : Codec ProofOfPossessionBTC := toy_codec.
#[export] Instance toy_acc : AccAddress := {|
  AccAddress_String b := "bbn1" +:+ string_of_bytes b;
  AccAddressFromBech32 s := Ok (bytes_of_string s);
|}.

(** Babylon knows the keys that were registered. *)
Definition toy_response (pk : @PublicKey toy_crypto) : FinalityProviderResponse :=
  mkFpResponse _ "bbn1" (toy_pk pk) (Some toy_des) (Some 1%N) (Some (2%N, 3%N)) 7 0 false 0.
#[export] Instance toy_babylon : BabylonController (list bool) := {|
  bcc_RegisterFinalityProvider req b := (Ok (Some (mkTxResponse "register" [])), reg_FpPk req :: b);
  bcc_QueryFinalityProvider pk b :=
    (if bool_decide (pk ∈ b) then Ok (toy_response pk)
     else Err (EText "the finality provider is not found"), b);
  bcc_EditFinalityProvider req b := (Err (EText "unsupported"), b);
|}.

Definition toy_poller_cfg : ChainPollerConfig := mkPollerCfg 10 1000 50 true 10.
Definition toy_config : Config :=
  mkConfig "debug" 3 0 3 "127.0.0.1:12582" "" 2 1 1 1 (Some toy_poller_cfg) None
    (Some (toy_bbn_cfg "node0" 3)) "127.0.0.1:12581" (Some (mkMetricsCfg "127.0.0.1" 2112 1)) 0 1 false.
Definition toy_cp (started : bool) (bs : list BlockInfo) : ChainPoller toy_consumer :=
  mkCP started false (toy_tc [] 0) 10 bs false 10 (PTicking 0).
Definition toy_rc_cfg : RandomnessCommitterConfig := mkRcCfg 3 2 0 None.
Definition toy_fp_keyring : toy_keyring := {| tk_backend := BackendTest; tk_names := ["fp"] |}.

(** A daemon on the database [fps], right after its construction. *)
Definition toy_app {C : Type} (con : C) (fps : MapDb.db)
    : FinalityProviderApp MapDb.db (LocalEOTSManager toy_keyring MapDb.db) C (ChainPoller toy_consumer)
        (list bool) toy_keyring :=
  mkApp [] con toy_fp_keyring "" fps (pr_initBuckets MapDb.empty).2 (toy_cp false []) None toy_rc_cfg
    false toy_lm None false false false.
End AppToy.
