(* ===== verification/AppRpc.v ===== *)
(** * The RPC service of the finality provider daemon
      (src/finality-provider/service/rpcserver.go, client/rpcclient.go)

    The handlers over the application and the client that calls them.  The
    client sees the status of a handler's error; a handler that panics takes
    the daemon down. *)

From Stdlib Require Import NArith ZArith Lia.
From stdpp Require Import base gmap strings list relations.
From S2P Require Import Prelude Kvdb External Config Toy EotsStore EotsApi LocalManager EotsRpc PubRandStore.
From S2P Require Import FpStore ChainApi FinalitySubmitter RandCommitter Bootstrap ChainPoller BbnConsumer FpInstance ManualOps App.

Section service.
Context `{Crypto} `{Sdk} `{BigEndian} `{Merkle} `{Retry} `{BabylonErrors} `{AccAddress}.
Context `{!SlashingEvidence} `{ServiceDescription} `{Grpc}.
Context {D E C Pl B K : Type} `{!KvBackend D} `{!Codec FinalityProvider} `{!Codec Description}.
Context `{!Codec ProofOfPossessionBTC}.
Context `{!EOTSManager E} `{!ConsumerController C} `{!BlockPoller Pl} `{!BabylonController B}.
Context `{!Keyring K}.
#[local] Abbreviation app := (FinalityProviderApp D E C Pl B K).

(** ** The server *)

(** [Start] and [Stop] count their calls; only the first [Stop] closes the
    quit channel. *)
Record rpcServer := mkRpcServer { rs_started : Z; rs_shutdown : Z; rs_quit_closed : bool }.
Definition newRPCServer : rpcServer := mkRpcServer 0 0 false.
Definition i32_add (x y : Z) : Z := ((x + y + 2 ^ 31) mod 2 ^ 32 - 2 ^ 31)%Z.
Definition rpc_Start : M rpcServer unit := λ r,
  (Ok (), mkRpcServer (i32_add (rs_started r) 1) (rs_shutdown r) (rs_quit_closed r)).
Definition rpc_Stop : M rpcServer unit := λ r,
  let shutdown := i32_add (rs_shutdown r) 1 in
  if negb (shutdown =? 1)%Z then (Ok (), mkRpcServer (rs_started r) shutdown (rs_quit_closed r))
  else if rs_quit_closed r then
    (Crash "close of closed channel", mkRpcServer (rs_started r) shutdown true)
  else (Ok (), mkRpcServer (rs_started r) shutdown true).

Definition parseEotsPk (eotsPkHex : string) : outcome bytes :=
  if bool_decide (eotsPkHex = "") then Err (EText "eots-pk cannot be empty")
  else wrap_err "failed to parse EOTS public key" (NewBIP340PubKeyFromHex eotsPkHex).

(** [commission] is nil or the three rates of the request; [now] is the time
    of the write. *)
Definition srv_CreateFinalityProvider (now : Z) (keyName chainId : string) (descBytes : bytes)
    (commission : option (string * string * string)) (eotsPkHex : string)
    : M app CreateFinalityProviderResult :=
  commissionRates ← go_wrap "failed to get commission rates" (go_lift (GetCommissionRates commission));
  description ← go_wrap "failed to unmarshal description" (go_lift (unmarshal (A:=Description) descBytes));
  eotsPk ← go_wrap "failed to parse EOTS public key" (go_lift (parseEotsPk eotsPkHex));
  go_wrap "failed to create finality provider"
    (app_CreateFinalityProvider now keyName chainId (Some eotsPk) description commissionRates).

(** The hash and the extracted key, as a number in hex, of a manual vote; [done]
    is whether the context is cancelled. *)
Definition srv_AddFinalitySignature (done : bool) (btcPk : string) (height : N) (appHash : bytes)
    (checkDoubleSign : bool) : M app (option (string * option PrivateKey)) :=
  if done then mret None
  else
    fpi ← go_wrap "failed to get finality provider instance" GetFinalityProviderInstance;
    if negb (bool_decide (own_hex fpi = btcPk)) then
      go_fail (EText ("the finality provider running does not match the request, got: " +:+ btcPk
                        +:+ ", expected: " +:+ own_hex fpi))
    else
      let b := NewBlockInfo height appHash false in
      '(txRes, privKey) ← go_wrap "failed to submit finality signature"
                            (on_ins (SubmitFinalitySignatureAndExtractPrivKey b checkDoubleSign));
      mret (Some (TxHash txRes, privKey)).

Definition srv_UnjailFinalityProvider (btcPk : string) : M app string :=
  fpPk ← go_wrap "failed to parse BTC public key" (go_lift (NewBIP340PubKeyFromHex btcPk));
  go_wrap "failed to unjail the finality-provider" (app_UnjailFinalityProvider fpPk).

Definition srv_QueryFinalityProvider (btcPk : string) : M app FinalityProviderInfo :=
  fpPk ← go_wrap "failed to parse BTC public key" (go_lift (NewBIP340PubKeyFromHex btcPk));
  go_wrap "failed to get finality provider info" (GetFinalityProviderInfo fpPk).

(** An empty commission leaves the rate as it is. *)
Definition srv_EditFinalityProvider (now : Z) (btcPk : string) (description : Description)
    (commission : string) : M app unit :=
  fpPk ← go_wrap "failed to parse BTC public key" (go_lift (NewBIP340PubKeyFromHex btcPk));
  rate ← (if bool_decide (commission = "") then mret None
          else
            value ← go_wrap "failed to parse commission" (go_lift (LegacyNewDecFromStr commission));
            mret (Some value));
  descBytes ← go_wrap "failed to marshal description" (go_lift (sd_marshal description));
  fpPub ← go_lift (MustToBTCPK fpPk);
  updatedMsg ← go_wrap "failed to edit finality provider"
                 (on_cc (bcc_EditFinalityProvider (mkEditReq _ _ fpPub rate descBytes)));
  go_wrap "failed to set finality provider description"
    (on_fps (SetFpDescription now fpPub (efm_Description updatedMsg) (efm_Commission updatedMsg))).

Definition srv_QueryFinalityProviderList : M app (list FinalityProviderInfo) :=
  go_wrap "failed to list all finality providers info" ListAllFinalityProvidersInfo.

Definition srv_UnsafeRemoveMerkleProof (btcPkHex chainId : string) (targetHeight : N) : M app unit :=
  fpPk ← go_wrap "failed to parse EOTS public key" (go_lift (parseEotsPk btcPkHex));
  go_wrap "failed to remove merkle proof list"
    (on_pubRandStore (RemovePubRandProofList (bytes_of_string chainId) fpPk targetHeight)).

(** ** The client *)

(** A unary call over a connection that delivers. *)
Definition fpd_call {A} (handler : M app A) : M app A := go_map_err grpc_status handler.

Definition clt_CreateFinalityProvider (now : Z) (keyName chainID eotsPkHex : string)
    (description : Description) (commission : option (string * string * string))
    : M app CreateFinalityProviderResult :=
  descBytes ← go_wrap "failed to marshal description" (go_lift (marshal description));
  go_wrap "failed to create finality provider"
    (fpd_call (srv_CreateFinalityProvider now keyName chainID descBytes commission eotsPkHex)).

Definition clt_AddFinalitySignature (done : bool) (fpPk : string) (height : N) (appHash : bytes)
    (checkDoubleSign : bool) : M app (option (string * option PrivateKey)) :=
  go_wrap "failed to add finality signature"
    (fpd_call (srv_AddFinalitySignature done fpPk height appHash checkDoubleSign)).

Definition clt_UnjailFinalityProvider (fpPk : string) : M app string :=
  go_wrap "failed to unjail finality provider" (fpd_call (srv_UnjailFinalityProvider fpPk)).

Definition clt_QueryFinalityProviderList : M app (list FinalityProviderInfo) :=
  go_wrap "failed to query finality provider list" (fpd_call srv_QueryFinalityProviderList).

Definition clt_QueryFinalityProviderInfo (fpPk : bytes) : M app FinalityProviderInfo :=
  go_wrap "failed to query finality provider" (fpd_call (srv_QueryFinalityProvider (MarshalHex fpPk))).

Definition clt_EditFinalityProvider (now : Z) (fpPk : bytes) (desc : Description) (rate : string)
    : M app unit :=
  go_wrap "failed to edit finality provider"
    (fpd_call (srv_EditFinalityProvider now (MarshalHex fpPk) desc rate)).

Definition clt_UnsafeRemoveMerkleProof (fpPk : bytes) (chainID : string) (targetHeight : N) : M app unit :=
  go_wrap "failed to remove merkle proof"
    (fpd_call (srv_UnsafeRemoveMerkleProof (MarshalHex fpPk) chainID targetHeight)).
End service.

(** ** Editing a finality provider on Babylon *)

Section edit.
Context `{CryptoLaws} `{SdkLaws} `{BigEndian} `{Merkle} `{Retry} `{BabylonErrors} `{AccAddress}.
Context `{ServiceDescriptionLaws} `{!BbnTypes} `{Bech32}.
Context {D E C Pl Cl K : Type} `{!KvBackend D} `{!KvLaws D}.
Context `{!Codec FinalityProvider} `{!CodecLaws FinalityProvider}.
Context `{!Codec Description} `{!CodecLaws Description} `{!Codec ProofOfPossessionBTC}.
Context `{!EOTSManager E} `{!ConsumerController C} `{!BlockPoller Pl} `{!Keyring K}.
Context `{!BbnClient Cl} `{!BbnClientLaws Cl}.
#[local] Abbreviation app := (FinalityProviderApp D E C Pl (BabylonConsumerController Cl) K).

(** An edit request that succeeds leaves chain and store in agreement: the
    last message the chain executed is an edit of that key, whose description
    is the chain's own one with the non-empty fields of the request put in and
    whose rate is the requested one or none; the stored record has exactly
    this description and rate, or its old rate when none was requested, its
    address, chain, status and last voted height are unchanged, and so are the
    records of other keys. *)
Theorem edit_effect now hex des com (a : app) u a'
    (Hwf : store_wf (app_fps a))
    (Hrun : srv_EditFinalityProvider now hex des com a = (Ok u, a')) :
  ∃ fpPk pk fpRes resDesc cl msg before fp fp',
    NewBIP340PubKeyFromHex hex = Ok fpPk ∧ MustToBTCPK fpPk = Ok pk
    ∧ QueryFinalityProvider pk (app_cc a) = (Ok fpRes, cl) ∧ fpr_Description fpRes = Some resDesc
    ∧ delivered (app_cc a') = before ++ [MsgEditFinalityProvider msg]
    ∧ efm_BtcPk msg = BIP340FromBTCPK pk
    ∧ efm_Description msg = mergeDescription des resDesc
    ∧ match efm_Commission msg with
      | None => com = ""
      | Some r => com ≠ "" ∧ LegacyNewDecFromStr com = Ok r
      end
    ∧ stored (app_fps a) (SerializePubKey pk) fp ∧ stored (app_fps a') (SerializePubKey pk) fp'
    ∧ unmarshal (fp_Description fp') = Ok (efm_Description msg)
    ∧ fp_Commission fp' = match efm_Commission msg with Some r => Dec_String r | None => fp_Commission fp end
    ∧ fp_FpAddr fp' = fp_FpAddr fp ∧ fp_ChainId fp' = fp_ChainId fp ∧ fp_Status fp' = fp_Status fp
    ∧ fp_LastVotedHeight fp' = fp_LastVotedHeight fp
    ∧ ∀ k p, k ≠ SerializePubKey pk → stored (app_fps a') k p ↔ stored (app_fps a) k p.
Proof.
  unfold srv_EditFinalityProvider in Hrun. inv_bind Hrun. inv_bind Hrun.
  assert (s = a ∧ match a1 with
      | None => com = ""
      | Some r => com ≠ "" ∧ LegacyNewDecFromStr com = Ok r
      end) as [-> Hrate].
  { case_bool_decide as Hc; [by injection E1 as <- <-|]. inv_bind E1. by injection E1 as <- <-. }
  inv_bind Hrun. inv_bind Hrun. inv_bind Hrun.
  apply zoom_inv in E4 as (cl & Hedit & ->). apply EditFinalityProvider_ok in Hedit.
  destruct Hedit as (reqDesc & resDesc & fpRes & bc1 & bc2 & Hreq & Hq & Hres & Hpk & Hdes & Hcom & Hdel).
  simpl in *. rewrite (sd_roundtrip _ _ E2) in Hreq. injection Hreq as <-.
  apply go_wrap_ok, zoom_inv in Hrun as (d & Hset & ->). destruct u.
  destruct (SetFpDescription_stored _ _ _ _ _ _ Hwf Hset) as [(fp & fp' & Hf) Hold].
  rewrite Hcom in *.
  exists a0, a3, fpRes, resDesc, bc1, a4, (delivered bc2), fp, fp'. rewrite Hcom. by split_and!; try apply Hf.
Qed.
End edit.

(** ** Witness *)

Module FpdRpcToy.
Export AppToy BbnToy.
#[export] Instance toy_service_des : ServiceDescription :=
  {| sd_marshal := marshal (A:=Description); sd_unmarshal := unmarshal (A:=Description) |}.
#[export] Instance toy_service_des_laws : ServiceDescriptionLaws.
Proof. intros d b Hb. by apply unmarshal_marshal. Qed.
End FpdRpcToy.

Module FpdRpcWitness.
Import FpdRpcToy.

Definition w_app : FinalityProviderApp MapDb.db (LocalEOTSManager toy_keyring MapDb.db) toy_consumer
    (ChainPoller toy_consumer) (BabylonConsumerController toy_bbn) toy_keyring :=
  mkApp (BbnWitness.w_bc 0) (toy_tc [] 0) toy_fp_keyring "" toy_fp_db (pr_initBuckets MapDb.empty).2
    (toy_cp false []) None toy_rc_cfg false toy_lm None false false false.
Definition w_hex : string := toy_hex (toy_pk true).
Definition w_edit :=
  srv_EditFinalityProvider 9 w_hex (mkDescription "new" "" "" "" "") (toy_dec_string 2) w_app.

(** The moniker and the rate change, the identity of the chain is kept. *)
Lemma edit_effect_witness :
  w_edit = (Ok (), w_edit.2) ∧ ∃ fp', stored (app_fps w_edit.2) (toy_pk true) fp'
    ∧ fp_ChainId fp' = "bbn-1" ∧ fp_Commission fp' = toy_dec_string 2.
Proof.
  assert (E : w_edit = (Ok (), w_edit.2)) by (apply run_eq; vm_eq).
  split; [exact E|]. unfold w_edit at 1 in E.
  destruct (edit_effect 9 w_hex (mkDescription "new" "" "" "" "") (toy_dec_string 2) w_app () w_edit.2
              toy_fp_wf E)
    as (fpPk & pk & fpRes & res & cl & msg & before & fp & fp' & [= <-] & Hpk & _ & _ & _ & _ & _ & Hr
        & Hst & Hst' & _ & Hcom & _ & Hch & _).
  assert (pk = true) as ->.
  { change (toy_parse_pk (toy_pk true) = Ok pk) in Hpk. by injection Hpk as <-. }
  exists fp'. rewrite (stored_det _ _ _ _ Hst toy_fp_stored) in Hch. split_and!; [done|done|].
  destruct (efm_Commission msg) as [r|]; [|vm_compute in Hr; discriminate Hr].
  destruct Hr as [_ Hr]. vm_compute in Hr. injection Hr as <-. exact Hcom.
Defined.
End FpdRpcWitness.
