(* ===== verification/Backup.v ===== *)
(** * Hot backups of the two databases
      (BackupDB of src/eotsmanager/store/eotsstore.go and
       src/finality-provider/store/pub_rand.go, the Backup requests of both RPC
       servers and clients, cmd/eotsd/daemon/backup.go,
       cmd/fpd/common/backup.go)

    The command asks a running daemon to copy its database into a new file of a
    directory.  The copy is a function of the database (bbolt writes it within
    a read-only transaction); the file system is that of [Paths]. *)

From Stdlib Require Import NArith ZArith Lia.
From stdpp Require Import base gmap strings list relations.
From S2P Require Import Prelude Encoding Kvdb External Config Toy Paths EotsStore EotsApi LocalManager EotsRpc.
From S2P Require Import PubRandStore FpStore ChainApi FinalitySubmitter RandCommitter Bootstrap ChainPoller.
From S2P Require Import FpInstance App AppRpc.

(** ** The name of a backup *)

(** The wall clock; years have four digits. *)
Record Time := mkTime { year : N; month : N; day : N; hour : N; minute : N; second : N }.

Definition digit (n : N) : string := String (Ascii.ascii_of_N (48 + n mod 10)) "".
Definition two (n : N) : string := digit (n / 10) +:+ digit n.
(** [t.Format("20060102_150405")] *)
Definition Format (t : Time) : string :=
  two (year t / 100) +:+ two (year t) +:+ two (month t) +:+ two (day t) +:+ "_"
  +:+ two (hour t) +:+ two (minute t) +:+ two (second t).

Example Format_ex : Format (mkTime 2026 3 9 7 5 42) = "20260309_070542".
Proof. by vm_compute. Qed.

(** ** Copying a database *)

(** [db.Copy(w)]: what has been written to [w] and whether it worked.  Stores
    that share a database are copied together. *)
Class DbCopy (D : Type) := {
  db_Copy : list D → bytes * outcome unit;
  (** opening a database file *)
  db_Open : bytes → option (list D);
}.
Class DbCopyLaws (D : Type) `{!DbCopy D} : Prop :=
  db_copy_open (ds : list D) b : db_Copy ds = (b, Ok ()) → db_Open b = Some ds.

Definition os_MkdirAll (path : string) : M os unit := λ w,
  let '(e, w') := MkdirAll path w in
  (match e with None => Ok () | Some err => Err (PathError_err err) end, w').

(** Writing to a file that has been created. *)
Definition fill_file (path : string) (b : bytes) : M os unit := λ w,
  (Ok (), with_nodes (<[resolve w path := NFile b]> (os_nodes w)) w).

Section store.
Context {D : Type} `{!DbCopy D}.

(** [BackupDB]; [dbPath] is only checked to be given. *)
Definition BackupDB (prefix : string) (now : Time) (ds : list D) (dbPath backupDir : string)
    : M os string :=
  if bool_decide (dbPath = "") then go_fail (EText "database path must be provided")
  else if bool_decide (backupDir = "") then go_fail (EText "backup dir path must be provided")
  else
    let backupName := prefix +:+ Format now +:+ ".db" in
    let backupPath := Join [backupDir; backupName] in
    _ ← go_wrap "failed to create backup directory" (os_MkdirAll backupDir);
    _ ← go_wrap "failed to create backup file" (write_file backupPath []);
    let '(b, r) := db_Copy ds in
    _ ← fill_file backupPath b;
    _ ← go_wrap "failed to copy database contents" (go_lift r);
    mret backupName.
End store.

(** ** The daemons *)

(** A process and the files of its machine. *)
Record host (X : Type) := mkHost { h_proc : X; h_os : os }.
Arguments mkHost {X}.
Arguments h_proc {X}.
Arguments h_os {X}.

Definition on_proc {X A} : M X A → M (host X) A := zoom h_proc (λ x h, mkHost x (h_os h)).
Definition on_fs {X A} (m : X → M os A) : M (host X) A := λ h,
  let '(r, w) := m (h_proc h) (h_os h) in (r, mkHost (h_proc h) w).

Section eotsd.
Context {K D : Type} `{Keyring K} `{KvBackend D} `{!DbCopy D} `{BigEndian} `{Codec pSigningRecord}
  `{Crypto} `{Bip39} `{RandFuel} `{Grpc} `{Codec rpc_request}.
#[local] Abbreviation lm := (LocalEOTSManager K D).
#[local] Abbreviation client := (EOTSManagerGRPCClient K D).

Definition eots_BackupDB (now : Time) (dbPath backupDir : string) : M (host lm) string :=
  on_fs (λ l, BackupDB "eots_" now [lm_es l] dbPath backupDir).

Definition em_Backup (now : Time) (dbPath backupDir : string) : M (host lm) string :=
  go_wrap "failed to backup database" (eots_BackupDB now dbPath backupDir).

Definition srv_Backup (now : Time) (dbPath backupDir : string) : M (host lm) string :=
  go_wrap "failed to backup" (em_Backup now dbPath backupDir).

(** [EotsRpc.unary] for a handler that also works on files. *)
Definition host_unary {A} (method : string) (req : rpc_request) (handler : client → M (host lm) A)
    : M (host client) A := λ h,
  let c := h_proc h in
  match HMACUnaryClientInterceptor (c_key c) method req with
  | Err e => (Err e, h)
  | Crash w => (Crash w, h)
  | Ok md =>
      let link' := tail (c_link c) in
      let with_em l w := mkHost (mkClient l (c_serverKey c) (c_cfg c) (c_key c) link') w in
      match default Delivered (head (c_link c)) with
      | RequestLost => (Err ErrUnavailable, with_em (c_em c) (h_os h))
      | ev =>
          match HMACUnaryServerInterceptor (c_serverKey c) method (Some md) req (handler c)
                  (mkHost (c_em c) (h_os h)) with
          | (Crash _, l') => (Err ErrUnavailable, with_em (restarted (h_proc l')) (h_os l'))
          | (Err e, l') => (lost ev (Err (grpc_status e)), with_em (h_proc l') (h_os l'))
          | (Ok a, l') => (lost ev (Ok a), with_em (h_proc l') (h_os l'))
          end
      end
  end.

Definition rpc_Backup (now : Time) (dbPath backupDir : string) : M (host client) string :=
  go_wrap "failed to backup"
    (host_unary "/proto.EOTSManager/Backup" (BackupRequest dbPath backupDir)
       (λ _, srv_Backup now dbPath backupDir)).

(** [backup] of eotsd: no HMAC key is given to the client.  The result is the
    path that is printed. *)
Definition eotsd_backup (now : Time) (dbPath backupDir : string) : M (host client) string :=
  _ ← go_wrap "failed to create eotsd client" (on_proc (NewEOTSManagerGRPCClient ""));
  backupName ← go_wrap "failed to do backup" (rpc_Backup now dbPath backupDir);
  mret (backupDir +:+ "/" +:+ backupName).
End eotsd.

Section fpd.
Context `{Crypto} `{Sdk} `{BigEndian} `{Merkle} `{Retry} `{BabylonErrors} `{AccAddress} `{Grpc}.
Context {D E C Pl B K : Type} `{!KvBackend D} `{!DbCopy D}.
#[local] Abbreviation app := (FinalityProviderApp D E C Pl B K).

(** The two stores of the application share one database. *)
Definition pubRand_BackupDB (now : Time) (dbPath backupDir : string) : M (host app) string :=
  on_fs (λ a, BackupDB "fp_" now [app_fps a; app_pubRandStore a] dbPath backupDir).

Definition fpd_srv_Backup (now : Time) (dbPath backupDir : string) : M (host app) string :=
  go_wrap "failed to backup fpd database" (pubRand_BackupDB now dbPath backupDir).

Definition clt_Backup (now : Time) (dbPath backupDir : string) : M (host app) string :=
  go_wrap "failed to backup database" (go_map_err grpc_status (fpd_srv_Backup now dbPath backupDir)).

(** [backup] of fpd *)
Definition fpd_backup (now : Time) (dbPath backupDir : string) : M (host app) string :=
  backupName ← go_wrap "failed to backup database" (clt_Backup now dbPath backupDir);
  mret (backupDir +:+ "/" +:+ backupName).
End fpd.

(** ** What a backup leaves behind *)

Lemma digit_no_slash n : no_slash (digit n) = true.
Proof.
  unfold digit. generalize (N.mod_lt n 10 ltac:(done)). generalize (n mod 10)%N. intros k Hk.
  unfold no_slash. rewrite andb_true_r.
  apply negb_true_iff, Ascii.eqb_neq. intros E. apply (f_equal Ascii.N_of_ascii) in E.
  change (Ascii.N_of_ascii slash) with 47%N in E.
  rewrite Ascii.N_ascii_embedding in E by lia. lia.
Qed.

Lemma Format_no_slash t : no_slash (Format t) = true.
Proof. unfold Format, two. by rewrite !no_slash_app, !digit_no_slash. Qed.

Lemma backup_name_ok c prefix t :
  no_slash (String c prefix) = true → c ≠ Ascii.ascii_of_N 46 →
  is_name (String c prefix +:+ Format t +:+ ".db") = true.
Proof.
  intros Hs Hc. apply is_name_spec. split; [by rewrite !no_slash_app, Hs, Format_no_slash|].
  change (String c prefix +:+ Format t +:+ ".db") with (String c (prefix +:+ Format t +:+ ".db")).
  split_and!; [done|..]; intros [= -> _]; done.
Qed.

(** Every node but the one at [k] is as before, or is a new directory. *)
Definition only_new (k : list string) (n n' : gmap (list string) node) : Prop :=
  ∀ k', k' ≠ k → n' !! k' = n !! k' ∨ n !! k' = None ∧ n' !! k' = Some NDir.

Section backup_facts.
Context {D : Type} `{!DbCopy D}.

Lemma only_new_dirs k n n' : dirs_added n n' → only_new k n n'.
Proof. intros Hd k' _. apply Hd. Qed.

Lemma only_new_insert k n n' x : dirs_added n n' → only_new k n (<[k := x]> n').
Proof. intros Hd k' Hk. rewrite lookup_insert_ne by done. apply Hd. Qed.

Lemma os_MkdirAll_os dir w r w' :
  os_MkdirAll dir w = (r, w') →
  ∃ n, w' = with_nodes n w ∧ dirs_added (os_nodes w) n
    ∧ (r = Ok () → walk n [] (resolve w dir) = inr NDir).
Proof.
  unfold os_MkdirAll. destruct (MkdirAll dir w) as [e w1] eqn:HE.
  apply MkdirAll_os in HE as (n & -> & Hd & Hw). destruct e as [e|]; intros [= <- <-]; exists n.
  - by split_and!.
  - split_and!; [done..|]. intros _. by apply Hw.
Qed.

Lemma write_file_fails path b w r w' :
  write_file path b w = (r, w') → is_Ok r = false → w' = w.
Proof.
  unfold write_file. case_bool_decide; [by intros [= _ <-]|].
  destruct (walk _ _ _) as [e|[]]; [by intros [= _ <-]| |by intros [= _ <-]..].
  destruct (_ !! _) as [[]|]; [by intros [= _ <-]|by intros [= <- _]|by intros [= _ <-]|].
  case_bool_decide; [by intros [= _ <-]|by intros [= <- _]].
Qed.

Lemma fill_file_run path b m w :
  fill_file path b (with_nodes m w) = (Ok (), with_nodes (<[resolve w path := NFile b]> m) w).
Proof. done. Qed.

Lemma BackupDB_run prefix now (ds : list D) dbPath dir w r w' :
  let name := prefix +:+ Format now +:+ ".db" in
  BackupDB prefix now ds dbPath dir w = (r, w') → is_name name = true → IsAbs dir = true →
  ∃ n, w' = with_nodes n w ∧ only_new (resolve w dir ++ [name]) (os_nodes w) n
    ∧ ∀ s, r = Ok s → s = name
        ∧ ∃ b, db_Copy ds = (b, Ok ()) ∧ Stat w' (dir +:+ "/" +:+ name) = inr (NFile b).
Proof.
  intros name HE Hname Habs. destruct (resolve_last w dir name Habs Hname) as [Hr1 Hr2].
  assert (∀ e, (Err e, w) = (r, w') → ∃ n, w' = with_nodes n w ∧ only_new (resolve w dir ++ [name]) (os_nodes w) n
    ∧ ∀ s, r = Ok s → s = name
        ∧ ∃ b, db_Copy ds = (b, Ok ()) ∧ Stat w' (dir +:+ "/" +:+ name) = inr (NFile b)) as Hearly.
  { intros e [= <- <-]. exists (os_nodes w). split_and!; [by destruct w|by apply only_new_dirs|done]. }
  unfold BackupDB in HE. do 2 (case_bool_decide; [by eapply Hearly|]). clear Hearly. fold name in HE.
  apply go_bind_inv in HE as [(u & w1 & E1 & HE)|HE].
  2: { destruct HE as [(x & E1 & ->)|(x & E1 & ->)];
         apply go_wrap_inv in E1 as (r1 & E1 & _); apply os_MkdirAll_os in E1 as (n & -> & Hd & _);
         exists n; (split_and!; [done|by apply only_new_dirs|done]). }
  apply go_wrap_ok, os_MkdirAll_os in E1 as (n & -> & Hd & Hw).
  apply go_bind_inv in HE as [(u2 & w2 & E2 & HE)|HE].
  2: { destruct HE as [(x & E2 & ->)|(x & E2 & ->)];
         apply go_wrap_inv in E2 as (r2 & E2 & Hr); apply write_file_fails in E2 as ->;
         try (by destruct r2); exists n; (split_and!; [done|by apply only_new_dirs|done]). }
  apply go_wrap_ok, write_file_ok in E2 as (-> & _ & _ & Hold).
  change (resolve (with_nodes n w)) with (resolve w) in *. rewrite Hr2 in Hold.
  destruct (db_Copy ds) as [b r3] eqn:Ecopy.
  assert (w' = with_nodes (<[resolve w dir ++ [name] := NFile b]> n) w
    ∧ ∀ s, r = Ok s → s = name ∧ r3 = Ok ()) as [-> Hok].
  { unfold mbind at 1, M_bind at 1, go_bind at 1 in HE.
    rewrite with_nodes_with, fill_file_run, Hr2, insert_insert_eq in HE.
    unfold mbind, M_bind, go_bind, go_wrap, go_lift in HE.
    destruct r3 as [[]|x|x]; injection HE as <- <-; (split; [done|]); intros s Hs; by simplify_eq. }
  exists (<[resolve w dir ++ [name] := NFile b]> n). split_and!; [done|by apply only_new_insert|].
  intros s Hs. destruct (Hok s Hs) as [-> ->]. split; [done|]. exists b. split; [done|].
  unfold Stat. change (resolve (with_nodes ?m w)) with (resolve w). simpl. rewrite Hr1.
  apply walk_file; [|apply lookup_insert_eq].
  apply walk_insert_file; [done|]. by apply Hw; destruct u.
Qed.
End backup_facts.

Section eotsd_facts.
Context {K D : Type} `{Keyring K} `{KvBackend D} `{!DbCopy D} `{!DbCopyLaws D} `{BigEndian}
  `{Codec pSigningRecord} `{Crypto} `{Bip39} `{RandFuel} `{Grpc} `{Codec rpc_request}.
#[local] Abbreviation lm := (LocalEOTSManager K D).
#[local] Abbreviation client := (EOTSManagerGRPCClient K D).
Implicit Types h : host client.

(** A request without an HMAC that succeeds reached a daemon that asks for
    none, and ran the handler there. *)
Lemma host_unary_ok {A} method req (handler : client → M (host lm) A) h a h' :
  c_key (h_proc h) = "" → method ≠ PingMethod → method ≠ SaveEOTSKeyNameMethod →
  host_unary method req handler h = (Ok a, h') →
  c_serverKey (h_proc h) = ""
  ∧ handler (h_proc h) (mkHost (c_em (h_proc h)) (h_os h)) = (Ok a, mkHost (c_em (h_proc h')) (h_os h')).
Proof.
  intros Hkey Hm1 Hm2 HE. unfold host_unary, HMACUnaryClientInterceptor, HMACUnaryServerInterceptor in HE.
  rewrite (bool_decide_false _ Hm1), (bool_decide_false _ Hm2), (bool_decide_true _ Hkey) in HE.
  simpl in HE.
  destruct (decide (c_serverKey (h_proc h) = "")) as [Hs|Hs];
    [rewrite (bool_decide_true _ Hs) in HE|rewrite (bool_decide_false _ Hs) in HE].
  - split; [done|].
    destruct (handler _ _) as [[x|x|x] [l w]]; destruct (default _ _); by simplify_eq/=.
  - destruct (default _ _); by simplify_eq/=.
Qed.

Lemma NewClient_serverKey key (c c' : client) r :
  NewEOTSManagerGRPCClient key c = (r, c') → c_serverKey c' = c_serverKey c.
Proof.
  unfold NewEOTSManagerGRPCClient, rpc_Ping. intros HE.
  apply go_wrap_inv in HE as (r1 & HE & _). apply go_wrap_inv in HE as (r2 & HE & _). revert HE. unfold unary.
  destruct (HMACUnaryClientInterceptor _ _ _) as [md|e|w]; [|by intros [= _ <-]..].
  destruct (default _ _); [|by intros [= _ <-]|];
    destruct (HMACUnaryServerInterceptor _ _ _ _ _ _) as [[]]; by intros [= _ <-].
Qed.

Lemma read_file_run path w b : Stat w path = inr (NFile b) → read_file path w = (Ok b, w).
Proof. intros E. unfold read_file. by rewrite E. Qed.

(** C28: a backup that [eotsd backup] reports restores the EOTS database.  The
    printed path names a file of the daemon's machine which opens as exactly
    the database the daemon has; the daemon is as before, no other file has
    changed (directories may be new); and since the command sends no HMAC, the
    daemon does not ask for one. *)
Theorem eots_backup_restores now dbPath dir h path h'
    (Hrun : eotsd_backup now dbPath dir h = (Ok path, h')) (Habs : IsAbs dir = true) :
  path = dir +:+ "/" +:+ "eots_" +:+ Format now +:+ ".db"
  ∧ (∃ b, read_file path (h_os h') = (Ok b, h_os h') ∧ db_Open b = Some [lm_es (c_em (h_proc h))])
  ∧ c_em (h_proc h') = c_em (h_proc h) ∧ c_serverKey (h_proc h) = ""
  ∧ only_new (resolve (h_os h) path) (os_nodes (h_os h)) (os_nodes (h_os h')).
Proof.
  unfold eotsd_backup in Hrun. inv_bind Hrun. apply zoom_inv in E as (c1 & E & ->).
  pose proof (NewClient_serverKey _ _ _ _ E) as Hsk. apply NewClient_ok in E as [Hem Hkey].
  inv_bind Hrun. injection Hrun as <- <-. unfold rpc_Backup in E. apply go_wrap_ok in E.
  apply host_unary_ok in E as [Hs HE]; [|done..]. simpl in Hs, HE.
  do 2 apply go_wrap_ok in HE. unfold eots_BackupDB, on_fs in HE. simpl in HE.
  destruct (BackupDB _ _ _ _ _ _) as [r w'] eqn:EB. injection HE as -> Hem' <-.
  apply BackupDB_run in EB as (n & Hw & Hn & Hok); [|by apply backup_name_ok|done].
  destruct (Hok _ eq_refl) as [-> (b & Hcopy & Hst)].
  destruct (resolve_last (h_os h) dir ("eots_" +:+ Format now +:+ ".db") Habs) as [Hr _];
    [by apply backup_name_ok|].
  split_and!; [done| |congruence|congruence|rewrite Hr; by rewrite Hw].
  exists b. split; [by apply read_file_run|]. rewrite <-Hem. by apply db_copy_open.
Qed.
End eotsd_facts.

Section fpd_facts.
Context `{Crypto} `{Sdk} `{BigEndian} `{Merkle} `{Retry} `{BabylonErrors} `{AccAddress} `{Grpc}.
Context {D E C Pl B K : Type} `{!KvBackend D} `{!DbCopy D} `{!DbCopyLaws D}.
#[local] Abbreviation app := (FinalityProviderApp D E C Pl B K).
Implicit Types h : host app.

(** The same of [fpd backup], whose file has both stores. *)
Lemma fpd_backup_restores now dbPath dir h path h' :
  fpd_backup now dbPath dir h = (Ok path, h') → IsAbs dir = true →
  path = dir +:+ "/" +:+ "fp_" +:+ Format now +:+ ".db"
  ∧ (∃ b, read_file path (h_os h') = (Ok b, h_os h')
      ∧ db_Open b = Some [app_fps (h_proc h); app_pubRandStore (h_proc h)])
  ∧ h_proc h' = h_proc h
  ∧ only_new (resolve (h_os h) path) (os_nodes (h_os h)) (os_nodes (h_os h')).
Proof.
  intros Hrun Habs. unfold fpd_backup in Hrun. inv_bind Hrun. injection Hrun as <- <-.
  unfold clt_Backup in E0. apply go_wrap_ok, go_map_err_ok, go_wrap_ok in E0.
  unfold pubRand_BackupDB, on_fs in E0.
  destruct (BackupDB _ _ _ _ _ _) as [r w'] eqn:EB. injection E0 as -> <-.
  apply BackupDB_run in EB as (n & Hw & Hn & Hok); [|by apply backup_name_ok|done].
  destruct (Hok _ eq_refl) as [-> (b & Hcopy & Hst)].
  destruct (resolve_last (h_os h) dir ("fp_" +:+ Format now +:+ ".db") Habs) as [Hr _];
    [by apply backup_name_ok|].
  split_and!; [done| |done|simpl; rewrite Hr; by rewrite Hw].
  exists b. split; [by apply read_file_run|]. by apply db_copy_open.
Qed.
End fpd_facts.

(** ** Witnesses *)

Module BackupWitness.
Import RpcToy.
Definition w_copy (ds : list MapDb.db) : bytes := bits_of (encode (map MapDb.buckets ds)).
#[local] Instance w_dbcopy : DbCopy MapDb.db := {|
  db_Copy ds := (w_copy ds, Ok ());
  db_Open b :=
    match decode (A := list (gmap bytes (gmap bytes bytes))) (of_bits b) with
    | Some l => Some (map MapDb.Build_db l)
    | None => None
    end;
|}.
#[local] Instance w_dbcopy_laws : DbCopyLaws MapDb.db.
Proof.
  intros ds b [= <-]. unfold db_Open, w_dbcopy, w_copy. rewrite of_bits_of, decode_encode. simpl.
  f_equal. rewrite map_map. rewrite <-(map_id ds) at 2. apply map_ext. by intros [d].
Qed.
(** A disk that is full after the header. *)
Definition full_disk : DbCopy MapDb.db := {|
  db_Copy ds := (take 2 (w_copy ds), Err (EText "no space left on device"));
  db_Open _ := None;
|}.

Definition w_time : Time := mkTime 2026 3 9 7 5 42.
Definition w_h (key : string) : host (EOTSManagerGRPCClient toy_keyring MapDb.db) :=
  mkHost (mkClient toy_lm key toy_eots_cfg "" []) (mkOs ∅ ∅ "/" None (λ _, "")).
Definition w_run := eotsd_backup w_time "/data/eots.db" "/backup" (w_h "").

Lemma eots_backup_restores_witness :
  w_run = (Ok "/backup/eots_20260309_070542.db", w_run.2)
  ∧ ∃ b, read_file "/backup/eots_20260309_070542.db" (h_os w_run.2) = (Ok b, h_os w_run.2)
      ∧ db_Open b = Some [lm_es toy_lm].
Proof.
  assert (E : w_run = (Ok "/backup/eots_20260309_070542.db", w_run.2)) by (apply run_eq; vm_eq).
  split; [exact E|]. unfold w_run at 1 in E.
  exact (proj1 (proj2 (eots_backup_restores w_time "/data/eots.db" "/backup" (w_h "") _ w_run.2 E eq_refl))).
Defined.

(** A daemon that asks for an HMAC refuses, and no path is checked. *)
Example backup_refused :
  Error (default (EText "") (match (eotsd_backup w_time "/data/eots.db" "/backup" (w_h "secret")).1 with
    Err e => Some e | _ => None end))
  = "failed to do backup: failed to backup: rpc error: code = Unauthenticated desc = HMAC not provided".
Proof. vm_eq. Qed.

(** A copy that fails leaves a part of it in the file. *)
Example failed_backup_leaves_part :
  let '(r, w) := BackupDB (DbCopy0 := full_disk) "eots_" w_time [lm_es toy_lm] "x" "/backup" (h_os (w_h "")) in
  is_Ok r = false ∧ Stat w "/backup/eots_20260309_070542.db" = inr (NFile (take 2 (w_copy [lm_es toy_lm]))).
Proof. by vm_compute. Qed.

(** A second backup within the same second replaces the first. *)
Example same_second_overwrites :
  let w1 := (BackupDB "eots_" w_time [lm_es toy_lm] "x" "/backup" (h_os (w_h ""))).2 in
  let w2 := (BackupDB (DbCopy0 := full_disk) "eots_" w_time [lm_es toy_lm] "x" "/backup" w1).2 in
  Stat w1 "/backup/eots_20260309_070542.db" = inr (NFile (w_copy [lm_es toy_lm]))
  ∧ Stat w2 "/backup/eots_20260309_070542.db" = inr (NFile (take 2 (w_copy [lm_es toy_lm]))).
Proof. by vm_compute. Qed.
End BackupWitness.
