(* ===== verification/Metrics.v ===== *)
(** * Metrics, version and daemon information
      (src/metrics/fp_collectors.go, eots_collectors.go, src/version/version.go,
       metricsUpdateLoop of src/finality-provider/service/event_loops.go, the
       GetInfo request of the daemon)

    A collector is a table of values by their labels.  The daemon talks to its
    metrics at the places listed in [mevent]; the theorems say what a scrape
    shows after any sequence of such calls.  A number is a whole number that
    was converted to a float, or a duration that [Seconds] has converted. *)

From Stdlib Require Import NArith ZArith Lia.
From stdpp Require Import base gmap strings list functions pretty.
From S2P Require Import Prelude Encoding Kvdb External Config Toy EotsStore EotsApi LocalManager PubRandStore FpStore.
From S2P Require Import ChainApi FinalitySubmitter RandCommitter Bootstrap ChainPoller BbnConsumer FpInstance App AppRpc.
From S2P Require Import EotsRpc.

(** ** version/version.go *)

(** The settings of [debug.ReadBuildInfo]; [None] when there are none. *)
Definition build_info := option (list (string * string)).

Fixpoint commit_scan (hashLen : nat) (hash timestamp : string) (settings : list (string * string))
    : string * string :=
  match settings with
  | [] => (hash, timestamp)
  | (key, value) :: rest =>
      if bool_decide (key = "vcs.revision") then
        let hashLen := if (String.length value <? hashLen)%nat then String.length value else hashLen in
        commit_scan hashLen (String.substring 0 hashLen value) timestamp rest
      else if bool_decide (key = "vcs.time") then commit_scan hashLen hash value rest
      else commit_scan hashLen hash timestamp rest
  end.

Definition CommitInfo (info : build_info) : string * string :=
  match info with
  | None => ("unknown", "unknown")
  | Some settings => commit_scan 7 "unknown" "unknown" settings
  end.

(** [version] is set when the binary is built. *)
Definition version_RPC (version : string) (info : build_info) : string :=
  let '(commit, ts) := CommitInfo info in
  "version: " +:+ version +:+ ", commit: " +:+ commit +:+ ", timestamp: " +:+ ts +:+ " ".

Example version_ex :
  version_RPC "v2" (Some [("vcs", "git"); ("vcs.revision", "0123456789"); ("vcs.time", "noon")])
  = "version: v2, commit: 0123456, timestamp: noon ".
Proof. by vm_compute. Qed.

(** ** Numbers *)

Inductive number := Num (z : Z) | Secs (ns : Z).
#[export] Instance number_eq_dec : EqDecision number.
Proof. solve_decision. Defined.

(** The float64 nearest to a uint64, ties to the even significand. *)
Definition f64 (n : N) : Z :=
  (if n <? 2 ^ 53 then Z.of_N n
   else
     let e := N.log2 n - 52 in
     let q := N.shiftr n e in
     let r := n mod 2 ^ e in
     let half := 2 ^ (e - 1) in
     let q' := if r <? half then q else if r =? half then (if N.even q then q else q + 1) else q + 1 in
     Z.of_N (q' * 2 ^ e))%N.

Example f64_ex :
  f64 12345 = 12345%Z ∧ f64 (2 ^ 53 + 1) = (2 ^ 53)%Z ∧ f64 (2 ^ 53 + 3) = (2 ^ 53 + 4)%Z
  ∧ f64 (2 ^ 64 - 1) = (2 ^ 64)%Z.
Proof. by vm_compute. Qed.

Definition second_ns : Z := 1000000000.
Definition number_add (x y : number) : number :=
  match x, y with
  | Num a, Num b => Num (a + b)
  | Num a, Secs b => Secs (second_ns * a + b)
  | Secs a, Num b => Secs (a + second_ns * b)
  | Secs a, Secs b => Secs (a + b)
  end.
Definition number_neg (x : number) : bool := match x with Num z | Secs z => (z <? 0)%Z end.

(** ** Collectors *)

Inductive collector_kind := Gauge | Counter.
Record Desc := mkDesc { d_kind : collector_kind; d_Name : string; d_Help : string; d_labels : list string }.

Definition fp_label : list string := ["fp_btc_pk_hex"].

(** The collectors of [FpMetrics] *)
Inductive fp_field :=
| versionInfo | babylonTipHeight | lastPolledHeight | pollerStartingHeight | fpStatus
| fpSecondsSinceLastVote | fpSecondsSinceLastRandomness | fpLastVotedHeight | fpVotedHeight
| fpLastProcessedHeight | fpLastCommittedRandomnessHeight | fpTotalBlocksWithoutVotingPower
| fpTotalVotedBlocks | fpTotalCommittedRandomness | fpTotalFailedVotes | fpTotalFailedRandomness.
#[export] Instance fp_field_eq_dec : EqDecision fp_field.
Proof. solve_decision. Defined.

Definition fp_desc (f : fp_field) : Desc :=
  match f with
  | versionInfo => mkDesc Gauge "fp_version_info" "Version information of the finality provider binary"
      ["version"; "commit"; "timestamp"]
  | fpStatus => mkDesc Gauge "fp_status" "Current status of a finality provider" fp_label
  | babylonTipHeight => mkDesc Gauge "babylon_tip_height" "The current tip height of the Babylon network" []
  | lastPolledHeight => mkDesc Gauge "last_polled_height" "The most recent block height checked by the poller" []
  | pollerStartingHeight => mkDesc Gauge "poller_starting_height"
      "The initial block height when the poller started operation" []
  | fpSecondsSinceLastVote => mkDesc Gauge "fp_seconds_since_last_vote"
      "Seconds since the last finality sig vote by a finality provider." fp_label
  | fpSecondsSinceLastRandomness => mkDesc Gauge "fp_seconds_since_last_randomness"
      "Seconds since the last public randomness commitment by a finality provider." fp_label
  | fpLastVotedHeight => mkDesc Gauge "fp_last_voted_height"
      "The last block height voted by a finality provider." fp_label
  | fpVotedHeight => mkDesc Gauge "fp_voted_height" "The block height voted by a finality provider."
      ["fp_btc_pk_hex"; "height"]
  | fpLastProcessedHeight => mkDesc Gauge "fp_last_processed_height"
      "The last block height processed by a finality provider." fp_label
  | fpTotalBlocksWithoutVotingPower => mkDesc Counter "fp_total_blocks_without_voting_power"
      "The total number of blocks without voting power for a finality provider." fp_label
  | fpTotalVotedBlocks => mkDesc Counter "fp_total_voted_blocks"
      "The total number of blocks voted by a finality provider." fp_label
  | fpTotalCommittedRandomness => mkDesc Counter "fp_total_committed_randomness"
      "The total number of randomness commitments by a finality provider." fp_label
  | fpLastCommittedRandomnessHeight => mkDesc Gauge "fp_last_committed_randomness_height"
      "The last block height with randomness commitment by a finality provider." fp_label
  | fpTotalFailedVotes => mkDesc Counter "fp_total_failed_votes"
      "The total number of failed votes by a finality provider." fp_label
  | fpTotalFailedRandomness => mkDesc Counter "fp_total_failed_randomness"
      "The total number of failed randomness commitments by a finality provider." fp_label
  end.

(** The order of registration: [fpVotedHeight] is not among them. *)
Definition fp_registered : list fp_field :=
  [versionInfo; fpStatus; babylonTipHeight; lastPolledHeight; pollerStartingHeight;
   fpSecondsSinceLastVote; fpSecondsSinceLastRandomness; fpLastVotedHeight; fpLastProcessedHeight;
   fpTotalBlocksWithoutVotingPower; fpTotalVotedBlocks; fpTotalCommittedRandomness;
   fpLastCommittedRandomnessHeight; fpTotalFailedVotes; fpTotalFailedRandomness].

(** The collectors of [EotsMetrics] *)
Inductive eots_field :=
| EotsCreatedKeysCounter | EotsFpTotalGeneratedRandomnessCounter | EotsFpLastGeneratedRandomnessHeight
| EotsFpTotalEotsSignCounter | EotsFpLastEotsSignHeight | EotsFpTotalSchnorrSignCounter.
#[export] Instance eots_field_eq_dec : EqDecision eots_field.
Proof. solve_decision. Defined.

Definition eots_desc (f : eots_field) : Desc :=
  match f with
  | EotsCreatedKeysCounter => mkDesc Counter "eots_created_keys_counter" "Total number of EOTS keys created" []
  | EotsFpTotalGeneratedRandomnessCounter => mkDesc Counter "eots_fp_total_generated_randomness_counter"
      "Total number of generated randomness pairs by EOTS" fp_label
  | EotsFpLastGeneratedRandomnessHeight => mkDesc Gauge "eots_fp_last_generated_randomness_height"
      "Height of the last generated randomness pair by EOTS" fp_label
  | EotsFpTotalEotsSignCounter => mkDesc Counter "eots_fp_total_eots_sign_counter"
      "Total number of EOTS signatures made" fp_label
  | EotsFpLastEotsSignHeight => mkDesc Gauge "eots_fp_last_eots_sign_height"
      "Height of the last EOTS signature made" fp_label
  | EotsFpTotalSchnorrSignCounter => mkDesc Counter "eots_fp_total_schnorr_sign_counter"
      "Total number of Schnorr signatures made by EOTS" fp_label
  end.
Definition eots_registered : list eots_field :=
  [EotsCreatedKeysCounter; EotsFpTotalGeneratedRandomnessCounter; EotsFpLastGeneratedRandomnessHeight;
   EotsFpTotalEotsSignCounter; EotsFpLastEotsSignHeight; EotsFpTotalSchnorrSignCounter].

(** *** Operations of a set of collectors *)

Section collectors.
Context {F : Type} `{!EqDecision F} (desc : F → Desc).

Definition tables := F → gmap (list string) number.
Implicit Types t : tables.

(** A collector without labels has its value from the start. *)
Definition fresh_tables : tables := λ f,
  if bool_decide (d_labels (desc f) = []) then {[ [] := Num 0 ]} else ∅.

Definition child t (f : F) (lvs : list string) : number := default (Num 0) (t f !! lvs).
Definition set_child (f : F) (lvs : list string) (v : number) t : tables := <[f := <[lvs := v]> (t f)]> t.

Lemma set_child_same f lvs v t : set_child f lvs v t f = <[lvs := v]> (t f).
Proof. apply fn_lookup_insert. Qed.
Lemma set_child_ne f g lvs v t : f ≠ g → set_child f lvs v t g = t g.
Proof. intros Hne. by apply fn_lookup_insert_ne. Qed.

(** [c.WithLabelValues(lvs...)] panics unless there is a value for each label. *)
Definition with_labels {A} (f : F) (lvs : list string) (k : M tables A) : M tables A :=
  if (length lvs =? length (d_labels (desc f)))%nat then k else go_crash "inconsistent label cardinality".

Definition WithLabelValues (f : F) (lvs : list string) : M tables unit :=
  with_labels f lvs (λ t, (Ok (), set_child f lvs (child t f lvs) t)).
Definition Set_ (f : F) (lvs : list string) (v : number) : M tables unit :=
  with_labels f lvs (λ t, (Ok (), set_child f lvs v t)).
(** [Add] of a counter panics for a negative value. *)
Definition Add_ (f : F) (lvs : list string) (v : number) : M tables unit :=
  with_labels f lvs (λ t,
    if number_neg v then (Crash "counter cannot decrease in value", t)
    else (Ok (), set_child f lvs (number_add (child t f lvs) v) t)).
Definition Inc_ (f : F) (lvs : list string) : M tables unit := Add_ f lvs (Num 1).
End collectors.
Arguments tables : clear implicits.

(** ** fp_collectors.go *)

(** The maps of times are nil at first. *)
Record FpMetrics := mkFpMetrics {
  fm_tables : tables fp_field;
  previousVoteByFp : option (gmap string Z);
  previousRandomnessByFp : option (gmap string Z)
}.

Definition on_tables {A} : M (tables fp_field) A → M FpMetrics A :=
  zoom fm_tables (λ t m, mkFpMetrics t (previousVoteByFp m) (previousRandomnessByFp m)).

Definition InitializeFpMetrics (pk : string) : M FpMetrics unit :=
  _ ← on_tables (Set_ fp_desc fpSecondsSinceLastVote [pk] (Num 0));
  _ ← on_tables (Set_ fp_desc fpSecondsSinceLastRandomness [pk] (Num 0));
  _ ← on_tables (WithLabelValues fp_desc fpTotalFailedVotes [pk]);
  on_tables (WithLabelValues fp_desc fpTotalFailedRandomness [pk]).

(** The numbers of the protobuf enumeration *)
Definition status_number (s : FinalityProviderStatus) : Z :=
  match s with REGISTERED => 0 | ACTIVE => 1 | INACTIVE => 2 | SLASHED => 3 | JAILED => 4 end.

Definition RecordFpStatus (pk : string) (s : FinalityProviderStatus) : M FpMetrics unit :=
  on_tables (Set_ fp_desc fpStatus [pk] (Num (status_number s))).
Definition RecordBabylonTipHeight (height : N) : M FpMetrics unit :=
  on_tables (Set_ fp_desc babylonTipHeight [] (Num (f64 height))).
Definition RecordLastPolledHeight (height : N) : M FpMetrics unit :=
  on_tables (Set_ fp_desc lastPolledHeight [] (Num (f64 height))).
Definition RecordPollerStartingHeight (height : N) : M FpMetrics unit :=
  on_tables (Set_ fp_desc pollerStartingHeight [] (Num (f64 height))).
Definition RecordFpSecondsSinceLastVote (pk : string) (seconds : number) : M FpMetrics unit :=
  on_tables (Set_ fp_desc fpSecondsSinceLastVote [pk] seconds).
Definition RecordFpSecondsSinceLastRandomness (pk : string) (seconds : number) : M FpMetrics unit :=
  on_tables (Set_ fp_desc fpSecondsSinceLastRandomness [pk] seconds).
Definition RecordFpLastVotedHeight (pk : string) (height : N) : M FpMetrics unit :=
  on_tables (Set_ fp_desc fpLastVotedHeight [pk] (Num (f64 height))).
(** [SetToCurrentTime]; [now] is in nanoseconds. *)
Definition RecordFpVotedHeight (now : Z) (pk : string) (height : N) : M FpMetrics unit :=
  on_tables (Set_ fp_desc fpVotedHeight [pk; pretty height] (Secs now)).
Definition RecordFpLastProcessedHeight (pk : string) (height : N) : M FpMetrics unit :=
  on_tables (Set_ fp_desc fpLastProcessedHeight [pk] (Num (f64 height))).
Definition RecordFpLastCommittedRandomnessHeight (pk : string) (height : N) : M FpMetrics unit :=
  on_tables (Set_ fp_desc fpLastCommittedRandomnessHeight [pk] (Num (f64 height))).
Definition IncrementFpTotalBlocksWithoutVotingPower (pk : string) : M FpMetrics unit :=
  on_tables (Inc_ fp_desc fpTotalBlocksWithoutVotingPower [pk]).
Definition IncrementFpTotalVotedBlocks (pk : string) : M FpMetrics unit :=
  on_tables (Inc_ fp_desc fpTotalVotedBlocks [pk]).
Definition AddToFpTotalVotedBlocks (pk : string) (num : number) : M FpMetrics unit :=
  on_tables (Add_ fp_desc fpTotalVotedBlocks [pk] num).
Definition AddToFpTotalCommittedRandomness (pk : string) (num : number) : M FpMetrics unit :=
  on_tables (Add_ fp_desc fpTotalCommittedRandomness [pk] num).
Definition IncrementFpTotalFailedVotes (pk : string) : M FpMetrics unit :=
  on_tables (Inc_ fp_desc fpTotalFailedVotes [pk]).
Definition IncrementFpTotalFailedRandomness (pk : string) : M FpMetrics unit :=
  on_tables (Inc_ fp_desc fpTotalFailedRandomness [pk]).

Definition RecordFpVoteTime (now : Z) (pk : string) : M FpMetrics unit := λ m,
  (Ok (), mkFpMetrics (fm_tables m) (Some (<[pk := now]> (default ∅ (previousVoteByFp m))))
            (previousRandomnessByFp m)).
Definition RecordFpRandomnessTime (now : Z) (pk : string) : M FpMetrics unit := λ m,
  (Ok (), mkFpMetrics (fm_tables m) (previousVoteByFp m)
            (Some (<[pk := now]> (default ∅ (previousRandomnessByFp m))))).

(** Reading a nil map finds nothing. *)
Definition time_of (times : option (gmap string Z)) (pk : string) : option Z := default ∅ times !! pk.

Definition when {S A} (x : option A) (k : A → M S unit) : M S unit :=
  match x with Some a => k a | None => mret () end.

Section update.
Context `{Crypto} `{Sdk}.

Definition UpdateFpMetrics (now : Z) (fp : StoredFinalityProvider) : M FpMetrics unit :=
  let pk := MarshalHex (GetBIP340BTCPK fp) in
  _ ← RecordFpStatus pk (sfp_Status fp);
  m ← go_get;
  _ ← when (time_of (previousVoteByFp m) pk) (λ t, RecordFpSecondsSinceLastVote pk (Secs (now - t)));
  when (time_of (previousRandomnessByFp m) pk)
    (λ t, RecordFpSecondsSinceLastRandomness pk (Secs (now - t))).
End update.

(** ** Registration *)

(** The default registry and the two package variables with their [sync.Once] *)
Record registry := mkRegistry {
  r_names : list string;
  r_fp : option FpMetrics;
  r_eots : option (tables eots_field)
}.

Fixpoint MustRegister (descs : list Desc) : M registry unit :=
  match descs with
  | [] => mret ()
  | d :: rest => λ r,
      if bool_decide (d_Name d ∈ r_names r) then
        (Crash "duplicate metrics collector registration attempted", r)
      else MustRegister rest (mkRegistry (r_names r ++ [d_Name d]) (r_fp r) (r_eots r))
  end.

Definition fresh_fp (version commit timestamp : string) : FpMetrics :=
  mkFpMetrics (set_child versionInfo [version; commit; timestamp] (Num 1) (fresh_tables fp_desc)) None None.

Definition NewFpMetrics (version : string) (info : build_info) : M registry FpMetrics := λ r,
  match r_fp r with
  | Some m => (Ok m, r)
  | None =>
      match MustRegister (fp_desc <$> fp_registered) r with
      | (Ok _, r') =>
          let '(commit, timestamp) := CommitInfo info in
          let m := fresh_fp version commit timestamp in
          (Ok m, mkRegistry (r_names r') (Some m) (r_eots r'))
      | (Err e, r') => (Err e, r')
      | (Crash w, r') => (Crash w, r')
      end
  end.

Definition NewEotsMetrics : M registry (tables eots_field) := λ r,
  match r_eots r with
  | Some m => (Ok m, r)
  | None =>
      match MustRegister (eots_desc <$> eots_registered) r with
      | (Ok _, r') =>
          let m := fresh_tables eots_desc in (Ok m, mkRegistry (r_names r') (r_fp r') (Some m))
      | (Err e, r') => (Err e, r')
      | (Crash w, r') => (Crash w, r')
      end
  end.

(** ** eots_collectors.go *)

Definition IncrementEotsCreatedKeysCounter : M (tables eots_field) unit :=
  Inc_ eots_desc EotsCreatedKeysCounter [].
Definition IncrementEotsFpTotalGeneratedRandomnessCounter (pk : string) : M (tables eots_field) unit :=
  Inc_ eots_desc EotsFpTotalGeneratedRandomnessCounter [pk].
Definition SetEotsFpLastGeneratedRandomnessHeight (pk : string) (height : number)
    : M (tables eots_field) unit :=
  Set_ eots_desc EotsFpLastGeneratedRandomnessHeight [pk] height.
Definition IncrementEotsFpTotalEotsSignCounter (pk : string) : M (tables eots_field) unit :=
  Inc_ eots_desc EotsFpTotalEotsSignCounter [pk].
Definition SetEotsFpLastEotsSignHeight (pk : string) (height : number) : M (tables eots_field) unit :=
  Set_ eots_desc EotsFpLastEotsSignHeight [pk] height.
Definition IncrementEotsFpTotalSchnorrSignCounter (pk : string) : M (tables eots_field) unit :=
  Inc_ eots_desc EotsFpTotalSchnorrSignCounter [pk].

(** ** The daemon and its metrics *)

Section daemon.
Context `{Crypto} `{Sdk}.
Context {D E C Pl B K : Type}.
#[local] Abbreviation app := (FinalityProviderApp D E C Pl B K).
Implicit Types a : app.

(** A copy of the record of the instance *)
Definition GetStoreFinalityProvider (o : fp_own) : StoredFinalityProvider := own_sfp o.

(** A tick of [metricsUpdateLoop] *)
Definition metricsUpdateLoop (now : Z) a : M FpMetrics unit :=
  match app_fpIns a with
  | None => mret ()
  | Some o =>
      _ ← InitializeFpMetrics (MarshalHex (own_btcPk o));
      UpdateFpMetrics now (GetStoreFinalityProvider o)
  end.

(** The places at which the daemon reports to its metrics: a status (the
    registration, in the loop and in the request, and an unjailing), a height
    that [SetLastVotedHeight] has saved, a failed vote and a failed commitment
    of the instance, the start and the progress of the poller, and a tick. *)
Inductive mevent :=
| MStatus (pk : string) (s : FinalityProviderStatus)
| MVoted (now : Z) (pk : string) (height : N)
| MFailedVote (pk : string)
| MFailedRandomness (pk : string)
| MPollerStart (height : N)
| MPolled (height : N)
| MTick (now : Z) (a : app).

Definition report (e : mevent) : M FpMetrics unit :=
  match e with
  | MStatus pk s => RecordFpStatus pk s
  | MVoted now pk height =>
      _ ← RecordFpVoteTime now pk;
      _ ← RecordFpLastVotedHeight pk height;
      RecordFpLastProcessedHeight pk height
  | MFailedVote pk => IncrementFpTotalFailedVotes pk
  | MFailedRandomness pk => IncrementFpTotalFailedRandomness pk
  | MPollerStart height => RecordPollerStartingHeight height
  | MPolled height => RecordLastPolledHeight height
  | MTick now a => metricsUpdateLoop now a
  end.

Fixpoint report_all (evs : list mevent) : M FpMetrics unit :=
  match evs with
  | [] => mret ()
  | e :: evs' => _ ← report e; report_all evs'
  end.

(** *** What a history says *)

(** Time and height of the last vote *)
Definition vote_of (pk : string) (acc : option (Z * N)) (e : mevent) : option (Z * N) :=
  match e with
  | MVoted now pk' height => if bool_decide (pk = pk') then Some (now, height) else acc
  | _ => acc
  end.
Definition last_vote (pk : string) (evs : list mevent) : option (Z * N) := foldl (vote_of pk) None evs.
Definition is_failed_vote (pk : string) (e : mevent) : bool :=
  match e with MFailedVote pk' => bool_decide (pk = pk') | _ => false end.
Definition failed_votes (pk : string) (evs : list mevent) : Z :=
  Z.of_nat (length (List.filter (is_failed_vote pk) evs)).
Definition polled (acc : Z) (e : mevent) : Z := match e with MPolled h => f64 h | _ => acc end.

(** Collectors no place of the daemon writes to *)
Definition silent : list fp_field :=
  [babylonTipHeight; fpVotedHeight; fpLastCommittedRandomnessHeight; fpTotalBlocksWithoutVotingPower;
   fpTotalVotedBlocks; fpTotalCommittedRandomness].

(** *** The collectors follow the history *)

Record follows (evs : list mevent) (m : FpMetrics) : Prop := {
  fol_time pk : time_of (previousVoteByFp m) pk = fst <$> last_vote pk evs;
  fol_height pk : fm_tables m fpLastVotedHeight !! [pk] = (λ v, Num (f64 v.2)) <$> last_vote pk evs;
  fol_failed pk : child (fm_tables m) fpTotalFailedVotes [pk] = Num (failed_votes pk evs);
  fol_polled : child (fm_tables m) lastPolledHeight [] = Num (foldl polled 0%Z evs);
  fol_rand : previousRandomnessByFp m = None;
  fol_silent f : f ∈ silent → fm_tables m f = fresh_tables fp_desc f;
}.

Ltac table_step := first [ rewrite set_child_same | rewrite set_child_ne by discriminate ].
Ltac tables_tac := unfold child; repeat table_step.

Lemma init_ok pk m :
  InitializeFpMetrics pk m = (Ok (), mkFpMetrics
    (set_child fpTotalFailedRandomness [pk] (child (fm_tables m) fpTotalFailedRandomness [pk])
      (set_child fpTotalFailedVotes [pk] (child (fm_tables m) fpTotalFailedVotes [pk])
        (set_child fpSecondsSinceLastRandomness [pk] (Num 0)
          (set_child fpSecondsSinceLastVote [pk] (Num 0) (fm_tables m)))))
    (previousVoteByFp m) (previousRandomnessByFp m)).
Proof.
  unfold InitializeFpMetrics. cbn -[set_child]. by f_equal.
Qed.

(** The value a tick leaves in the gauge of the seconds since the last vote *)
Definition seconds_shown (now : Z) (t : option Z) : number :=
  match t with Some t => Secs (now - t) | None => Num 0 end.

Lemma update_ok now fp m :
  previousRandomnessByFp m = None →
  let pk := MarshalHex (GetBIP340BTCPK fp) in
  UpdateFpMetrics now fp m = (Ok (), mkFpMetrics
    (let t := set_child fpStatus [pk] (Num (status_number (sfp_Status fp))) (fm_tables m) in
     match time_of (previousVoteByFp m) pk with
     | Some t0 => set_child fpSecondsSinceLastVote [pk] (Secs (now - t0)) t
     | None => t
     end) (previousVoteByFp m) None).
Proof.
  intros Hr pk. destruct m as [t v r]. simpl in Hr. subst r. unfold UpdateFpMetrics. fold pk.
  unfold mbind, M_bind, go_bind. cbn -[set_child time_of].
  destruct (time_of v pk) as [t0|]; reflexivity.
Qed.

Lemma last_vote_snoc pk evs e : last_vote pk (evs ++ [e]) = vote_of pk (last_vote pk evs) e.
Proof. unfold last_vote. by rewrite foldl_snoc. Qed.
Lemma failed_votes_snoc pk evs e :
  failed_votes pk (evs ++ [e]) = (failed_votes pk evs + if is_failed_vote pk e then 1 else 0)%Z.
Proof.
  unfold failed_votes. rewrite List.filter_app, length_app. simpl.
  destruct (is_failed_vote pk e); simpl; lia.
Qed.

(** The tables a history is read from *)
Definition watched : list fp_field := fpLastVotedHeight :: lastPolledHeight :: silent.

Ltac each_field :=
  let f := fresh "f" in let Hf := fresh "Hf" in
  intros f Hf; unfold watched, silent in Hf;
  repeat (apply elem_of_cons in Hf as [->|Hf]); [by tables_tac..|by apply elem_of_nil in Hf].

Lemma follows_quiet evs e m m' :
  follows evs m →
  (∀ pk acc, vote_of pk acc e = acc) → (∀ pk, is_failed_vote pk e = false) → (∀ z, polled z e = z) →
  previousVoteByFp m' = previousVoteByFp m → previousRandomnessByFp m' = previousRandomnessByFp m →
  (∀ f, f ∈ watched → fm_tables m' f = fm_tables m f) →
  (∀ pk, child (fm_tables m') fpTotalFailedVotes [pk] = child (fm_tables m) fpTotalFailedVotes [pk]) →
  follows (evs ++ [e]) m'.
Proof.
  intros [Ht Hh Hf Hp Hr Hs] Hv Hfe Hpe Hvote Hrand Hw Hc. split.
  - intros pk. by rewrite last_vote_snoc, Hv, Hvote.
  - intros pk. by rewrite last_vote_snoc, Hv, Hw by (by left).
  - intros pk. by rewrite failed_votes_snoc, Hfe, Hc, Hf, Z.add_0_r.
  - unfold child. rewrite foldl_snoc, Hpe, Hw by (by right; left). exact Hp.
  - by rewrite Hrand.
  - intros f Hf'. rewrite Hw by (by right; right). by apply Hs.
Qed.

Lemma voted_follows evs now pk h m m' :
  follows evs m → report (MVoted now pk h) m = (Ok (), m') → follows (evs ++ [MVoted now pk h]) m'.
Proof.
  intros [Ht Hh Hf Hp Hr Hs] [= <-]. split; cbn -[set_child time_of].
  - intros pk'. rewrite last_vote_snoc. unfold vote_of, time_of. simpl. case_bool_decide as Hpk.
    + subst pk'. by rewrite lookup_insert_eq.
    + rewrite lookup_insert_ne by congruence. apply Ht.
  - intros pk'. rewrite last_vote_snoc. unfold vote_of. tables_tac. case_bool_decide as Hpk.
    + subst pk'. by rewrite lookup_insert_eq.
    + rewrite lookup_insert_ne by congruence. apply Hh.
  - intros pk'. rewrite failed_votes_snoc, Z.add_0_r, <-Hf. by tables_tac.
  - rewrite foldl_snoc. simpl. rewrite <-Hp. by tables_tac.
  - done.
  - intros f Hf'. rewrite <-Hs by done. revert f Hf'. each_field.
Qed.

Lemma failed_follows evs pk m m' :
  follows evs m → report (MFailedVote pk) m = (Ok (), m') → follows (evs ++ [MFailedVote pk]) m'.
Proof.
  intros [Ht Hh Hf Hp Hr Hs] [= <-]. split; cbn -[set_child].
  - intros pk'. by rewrite last_vote_snoc.
  - intros pk'. rewrite last_vote_snoc. simpl. rewrite <-Hh. by tables_tac.
  - intros pk'. rewrite failed_votes_snoc. unfold is_failed_vote. rewrite Hf. simpl.
    pose proof (Hf pk') as Hf'. revert Hf'. tables_tac. case_bool_decide as Hpk.
    + subst pk'. intros _. by rewrite lookup_insert_eq.
    + rewrite lookup_insert_ne by congruence. by rewrite Z.add_0_r.
  - rewrite foldl_snoc. simpl. rewrite <-Hp. by tables_tac.
  - done.
  - intros f Hf'. rewrite <-Hs by done. revert f Hf'. each_field.
Qed.

Lemma polled_follows evs h m m' :
  follows evs m → report (MPolled h) m = (Ok (), m') → follows (evs ++ [MPolled h]) m'.
Proof.
  intros [Ht Hh Hf Hp Hr Hs] [= <-]. split; cbn -[set_child].
  - intros pk'. by rewrite last_vote_snoc.
  - intros pk'. rewrite last_vote_snoc. simpl. rewrite <-Hh. by tables_tac.
  - intros pk'. rewrite failed_votes_snoc, Z.add_0_r, <-Hf. by tables_tac.
  - rewrite foldl_snoc. tables_tac. by rewrite lookup_insert_eq.
  - done.
  - intros f Hf'. rewrite <-Hs by done. revert f Hf'. each_field.
Qed.

(** The tick of an instance, as one state *)
Definition ticked (now : Z) (o : fp_own) (m : FpMetrics) : FpMetrics :=
  let m1 := (InitializeFpMetrics (MarshalHex (own_btcPk o)) m).2 in
  (UpdateFpMetrics now (own_sfp o) m1).2.

Lemma tick_ok now a o m :
  app_fpIns a = Some o → previousRandomnessByFp m = None →
  metricsUpdateLoop now a m = (Ok (), ticked now o m).
Proof.
  intros Ho Hr. unfold metricsUpdateLoop. rewrite Ho. unfold ticked, GetStoreFinalityProvider.
  unfold mbind, M_bind, go_bind. rewrite init_ok. simpl snd. by rewrite update_ok.
Qed.

Lemma child_kept (t : tables fp_field) f (l l' : list string) :
  child (set_child f l (child t f l) t) f l' = child t f l'.
Proof.
  tables_tac. destruct (decide (l = l')) as [->|Hne]; [by rewrite lookup_insert_eq|].
  by rewrite lookup_insert_ne.
Qed.

Lemma ticked_shows now o m :
  own_btcPk o = GetBIP340BTCPK (own_sfp o) → previousRandomnessByFp m = None →
  let pk := MarshalHex (own_btcPk o) in let t := fm_tables (ticked now o m) in
  child t fpStatus [pk] = Num (status_number (sfp_Status (own_sfp o)))
  ∧ child t fpSecondsSinceLastVote [pk] = seconds_shown now (time_of (previousVoteByFp m) pk)
  ∧ child t fpSecondsSinceLastRandomness [pk] = Num 0.
Proof.
  intros Hkey Hr pk t. unfold t, ticked. rewrite init_ok. simpl snd. rewrite update_ok by done.
  rewrite <-Hkey. fold pk. cbn -[set_child time_of].
  destruct (time_of (previousVoteByFp m) pk) as [t0|]; tables_tac; by rewrite ?lookup_insert_eq.
Qed.

Lemma tick_follows evs now a m :
  follows evs m →
  ∃ m', metricsUpdateLoop now a m = (Ok (), m') ∧ follows (evs ++ [MTick now a]) m'.
Proof.
  intros Hm. pose proof (fol_rand _ _ Hm) as Hr. destruct (app_fpIns a) as [o|] eqn:Ho.
  2: { exists m. unfold metricsUpdateLoop. rewrite Ho. split; [done|]. by apply (follows_quiet _ _ m). }
  exists (ticked now o m). split; [by apply tick_ok|].
  assert (ticked now o m = (UpdateFpMetrics now (own_sfp o) (InitializeFpMetrics (MarshalHex (own_btcPk o)) m).2).2)
    as -> by done.
  rewrite init_ok. simpl snd. rewrite update_ok by done. simpl snd.
  apply (follows_quiet _ _ m); [done..| |]; cbn -[set_child time_of].
  - destruct (time_of _ _); each_field.
  - intros pk. set (h := MarshalHex (own_btcPk o)). set (h' := MarshalHex (GetBIP340BTCPK (own_sfp o))).
    rewrite <-(child_kept (fm_tables m) fpTotalFailedVotes [h] [pk]).
    by destruct (time_of _ _); tables_tac.
Qed.

Lemma report_follows evs e m :
  follows evs m → ∃ m', report e m = (Ok (), m') ∧ follows (evs ++ [e]) m'.
Proof.
  intros Hm. destruct e as [pk s|now pk h|pk|pk|h|h|now a]; [..|by apply tick_follows].
  all: eexists; (split; [reflexivity|]).
  - apply (follows_quiet _ _ m); [done..|each_field|]. intros pk'. by tables_tac.
  - by eapply voted_follows.
  - by eapply failed_follows.
  - apply (follows_quiet _ _ m); [done..|each_field|]. intros pk'. by tables_tac.
  - apply (follows_quiet _ _ m); [done..|each_field|]. intros pk'. by tables_tac.
  - by eapply polled_follows.
Qed.

Lemma report_all_follows past evs m :
  follows past m → ∃ m', report_all evs m = (Ok (), m') ∧ follows (past ++ evs) m'.
Proof.
  revert past m. induction evs as [|e evs IH]; intros past m Hm.
  { exists m. by rewrite app_nil_r. }
  destruct (report_follows past e m Hm) as (m1 & E1 & H1).
  destruct (IH _ _ H1) as (m' & E' & H'). exists m'. split.
  - simpl. unfold mbind, M_bind, go_bind. by rewrite E1.
  - by rewrite <-app_assoc in H'.
Qed.

Lemma follows_fresh version commit timestamp : follows [] (fresh_fp version commit timestamp).
Proof.
  split; try done. intros f Hf. unfold fresh_fp. simpl. revert f Hf. each_field.
Qed.

End daemon.

(** ** Registration *)

Definition empty_registry : registry := mkRegistry [] None None.

(** Both daemons' metrics can be made in one process, in either order; making
    them again returns the first ones and registers nothing. *)
Lemma metrics_register_once version info :
  let '(r1, w1) := NewFpMetrics version info empty_registry in
  let '(r2, w2) := NewEotsMetrics w1 in
  is_Ok r1 = true ∧ is_Ok r2 = true
  ∧ r_names w2 = (d_Name <$> (fp_desc <$> fp_registered)) ++ (d_Name <$> (eots_desc <$> eots_registered))
  ∧ NewFpMetrics version info w2 = (r1, w2) ∧ NewEotsMetrics w2 = (r2, w2).
Proof.
  assert (MustRegister (fp_desc <$> fp_registered) empty_registry
    = (Ok (), mkRegistry (d_Name <$> (fp_desc <$> fp_registered)) None None)) as E by vm_eq.
  unfold NewFpMetrics at 1. simpl r_fp. cbv iota beta. rewrite E. destruct (CommitInfo info) as [c ts] eqn:Ec.
  unfold NewEotsMetrics at 1.
  assert (∀ m, MustRegister (eots_desc <$> eots_registered)
      (mkRegistry (d_Name <$> (fp_desc <$> fp_registered)) (Some m) None)
    = (Ok (), mkRegistry ((d_Name <$> (fp_desc <$> fp_registered)) ++ (d_Name <$> (eots_desc <$> eots_registered)))
                (Some m) None)) as E2 by (intros m; vm_compute; reflexivity).
  simpl r_eots. simpl r_names. cbv iota beta. rewrite E2. split_and!; reflexivity.
Qed.

(** The heights a provider has voted for are kept but no scrape shows them. *)
Lemma voted_height_not_exported : fpVotedHeight ∉ fp_registered.
Proof. unfold fp_registered. set_solver. Qed.

(** Every float below [2 ^ 53] is the height itself. *)
Lemma f64_exact n : (n < 2 ^ 53)%N → f64 n = Z.of_N n.
Proof. intros Hn. unfold f64. by apply N.ltb_lt in Hn as ->. Qed.

(** ** Daemon information *)

Section info.
Context `{Crypto} `{Sdk} `{Grpc} {D E C Pl B K : Type}.
#[local] Abbreviation app := (FinalityProviderApp D E C Pl B K).

Definition srv_GetInfo (version : string) (info : build_info) : M app string :=
  mret (version_RPC version info).
Definition clt_GetInfo (version : string) (info : build_info) : M app string :=
  go_wrap "failed to get info" (go_map_err grpc_status (srv_GetInfo version info)).
Definition runCommandGetDaemonInfo (version : string) (info : build_info) : M app string :=
  go_wrap "failed to get daemon info" (clt_GetInfo version info).
End info.

(** ** Witnesses *)

Module MetricsWitness.
Import FpToy.
Definition w_own : fp_own := mkOwn _ _ (GetBIP340BTCPK toy_sfp) toy_sfp true (Some true) [].
Definition w_app : FinalityProviderApp unit unit unit unit unit unit :=
  mkApp tt tt tt "" tt tt tt None (mkRcCfg 1 1 1 None) true tt (Some w_own) true false true.
Definition w_hex : string := MarshalHex (own_btcPk w_own).
Definition w_evs : list (mevent (D := unit) (E := unit) (C := unit) (Pl := unit) (B := unit) (K := unit)) :=
  [MStatus w_hex REGISTERED; MTick 5 w_app; MVoted 1000 w_hex 7; MFailedVote w_hex; MVoted 3000 w_hex 8;
   MFailedVote "other"; MPolled 9].

End MetricsWitness.
