(* ===== verification/AppSteps.v ===== *)
(** * Histories of the daemon: steps and frames

    [app_step] interleaves the loops of the instance, the event loops of the
    application, its public operations and RPC requests, split at the channels,
    and its environment.  [AppFrame] lists the calls these are made of: a
    relation that every one of them keeps is kept by every history. *)

From Stdlib Require Import NArith ZArith Lia.
From stdpp Require Import base gmap strings list relations.
From S2P Require Import Prelude Kvdb External Config Toy EotsStore EotsApi LocalManager EotsRpc PubRandStore.
From S2P Require Import FpStore ChainApi FinalitySubmitter RandCommitter Bootstrap ChainPoller FpInstance ManualOps App AppRpc.

Section steps.
Context `{CryptoLaws} `{Sdk} `{BigEndianLaws} `{Merkle} `{RetryLaws} `{BabylonErrors} `{AccAddress}.
Context `{!SlashingEvidence} `{ServiceDescription}.
Context {D E C Pl B K : Type} `{!KvBackend D} `{!Codec FinalityProvider} `{!Codec Description}.
Context `{!Codec ProofOfPossessionBTC}.
Context `{!EOTSManager E} `{!ConsumerController C} `{!BlockPoller Pl} `{!BabylonController B}.
Context `{!Keyring K}.
Context (cfg : Config) (pollerCfg : ChainPollerConfig).
(** What the other users of the EOTS manager may do to it, and what the chain
    may do between two calls. *)
Context (em_env : relation E) (con_env : relation C).
#[local] Abbreviation fpi := (FinalityProviderInstance D E C Pl).
#[local] Abbreviation app := (FinalityProviderApp D E C Pl B K).
Implicit Types a : app.

Definition own_with_reported (l : list error) (o : fp_own) : fp_own :=
  mkOwn _ _ (own_btcPk o) (own_sfp o) (own_isStarted o) (own_quit o) l.

(** The loops of the instance, the event loops of the application, its public
    operations split at the channels, the remaining RPC requests, and the
    environment.  A vote that is requested by hand is made with the protected
    signer. *)
Inductive app_step : app → app → Prop :=
| as_sigs bfuel fuel timer ready o a r fi' :
    app_fpIns a = Some o →
    processAndSubmitSignatures cfg bfuel fuel timer ready (ins_view a o) = Some (r, fi') →
    app_step a (app_with_fi fi' a)
| as_rand ready a r a' : on_ins (processRandomnessCommitment ready) a = (r, a') → app_step a a'
| as_critical o e l a r a' :
    app_fpIns a = Some o → own_reported o = e :: l →
    monitorCriticalErr_handle e (app_with_ins (Some (own_with_reported l o)) a) = (r, a') →
    app_step a a'
| as_start_fp pk a r a' : StartFinalityProvider cfg pollerCfg pk a = (r, a') → app_step a a'
| as_start a r a' : app_Start a = (r, a') → app_step a a'
| as_stop emClose a r a' : app_Stop emClose a = (r, a') → app_step a a'
| as_create now keyName chainID eotsPk des com a r a' :
    CreateFinalityProvider_request now keyName chainID eotsPk des com a = (r, a') → app_step a a'
| as_register req a r a' : registrationLoop_handle req a = (r, a') → app_step a a'
| as_created now req txHash a r a' :
    CreateFinalityProvider_finish now req txHash a = (r, a') → app_step a a'
| as_unjail pk a r a' : unjailFpLoop_handle pk a = (r, a') → app_step a a'
| as_unjailed pk txHash a r a' : UnjailFinalityProvider_finish pk txHash a = (r, a') → app_step a a'
| as_info pk a r a' : GetFinalityProviderInfo pk a = (r, a') → app_step a a'
| as_list a r a' : ListAllFinalityProvidersInfo a = (r, a') → app_step a a'
| as_edit now btcPk des com a r a' :
    srv_EditFinalityProvider now btcPk des com a = (r, a') → app_step a a'
| as_prune btcPk chainId h a r a' :
    srv_UnsafeRemoveMerkleProof btcPk chainId h a = (r, a') → app_step a a'
| as_vote done btcPk h hash a r a' :
    srv_AddFinalitySignature done btcPk h hash true a = (r, a') → app_step a a'
| as_chain con cc pl stdin a :
    con_env (app_consumerCon a) con →
    app_step a (mkApp cc con (app_kr a) stdin (app_fps a) (app_pubRandStore a) pl (app_rcPk a)
                  (app_rcCfg a) (app_stateSet a) (app_eotsManager a) (app_fpIns a)
                  (app_started a) (app_stopped a) (app_loops a))
| as_em em a : em_env (app_eotsManager a) em → app_step a (app_with_em em a).

(** A relation that the calls of the application keep, votes by hand aside. *)
Class AppFrame (R : relation app) : Prop := {
  af_cc A (m : M B A) : preserves R (on_cc m);
  af_stdin name : preserves R (Address name);
  af_latest : preserves R (on_con cc_QueryLatestBlock);
  af_power pk h : preserves R (on_con (cc_QueryFinalityProviderHasPower pk h));
  af_status pk : preserves R (on_con (cc_QueryFinalityProviderStatus pk));
  af_unjail pk : preserves R (on_con (cc_UnjailFinalityProvider pk));
  af_schnorr pk m : preserves R (on_em (em_SignSchnorrSig pk m));
  af_get pk : preserves R (on_fps (GetFinalityProvider pk));
  af_all : preserves R (on_fps GetAllStoredFinalityProviders);
  af_set pk s : preserves R (on_fps (SetFpStatus pk s));
  af_must pk s : preserves R (on_fps (MustSetFpStatus pk s));
  af_new now addr pk des com c : preserves R (on_fps (CreateFinalityProvider now addr pk des com c));
  af_des now pk des rate : preserves R (on_fps (SetFpDescription now pk des rate));
  af_height pk h : preserves R (on_fps (SetFpLastVotedHeight pk h));
  af_prune c pk h : preserves R (on_pubRandStore (RemovePubRandProofList c pk h));
  af_bind p pk a r a' : app_fpIns a = None →
    (fpIns ← go_wrap p (on_deps (NewFinalityProviderInstance pk)); set_fpIns fpIns) a = (r, a') → R a a';
  af_ins_start : preserves R (on_ins (Start cfg pollerCfg));
  af_ins_stop : preserves R (on_ins Stop);
  af_ins_status s : preserves R (on_ins (fi_mustSetStatus s));
  af_ins_rand ready : preserves R (on_ins (processRandomnessCommitment ready));
  af_ins_sigs bfuel fuel timer ready o a r fi' : app_fpIns a = Some o →
    processAndSubmitSignatures cfg bfuel fuel timer ready (ins_view a o) = Some (r, fi') →
    R a (app_with_fi fi' a);
  af_reported o l a : app_fpIns a = Some o → R a (app_with_ins (Some (own_with_reported l o)) a);
  af_clear a : R a (app_with_ins None a);
  af_once x y z a : R a (app_with_once x y z a);
  af_chain con cc pl stdin a : con_env (app_consumerCon a) con →
    R a (mkApp cc con (app_kr a) stdin (app_fps a) (app_pubRandStore a) pl (app_rcPk a)
           (app_rcCfg a) (app_stateSet a) (app_eotsManager a) (app_fpIns a)
           (app_started a) (app_stopped a) (app_loops a));
  af_em em a : em_env (app_eotsManager a) em → R a (app_with_em em a);
}.

Class AppVoteFrame (R : relation app) : Prop :=
  af_vote b : preserves R (on_ins (SubmitFinalitySignatureAndExtractPrivKey b true)).

(** What two kept relations imply together is kept. *)
Lemma app_frame_both (R1 R2 R : relation app) :
  AppFrame R1 → AppFrame R2 → (∀ a a', R1 a a' → R2 a a' → R a a') → AppFrame R.
Proof.
  intros [] [] HR.
  assert (∀ A (m : M app A), preserves R1 m → preserves R2 m → preserves R m) as Hboth
    by (intros A m P1 P2 s r s' Em; apply HR; [by eapply P1|by eapply P2]).
  split; intros; solve [apply Hboth; auto 2|apply HR; eauto 2].
Qed.

Section frame.
Context (R : relation app) `{!PreOrder R} `{!AppFrame R} `{!AppVoteFrame R}.
#[local] Hint Resolve af_cc af_stdin af_latest af_power af_status af_unjail af_schnorr af_get af_all
  af_set af_must af_new af_des af_height af_prune af_vote af_ins_start af_ins_stop af_ins_status af_ins_rand : preserves.

Lemma frame_GetInstance : preserves R GetFinalityProviderInstance.
Proof. unfold GetFinalityProviderInstance. solve_preserves. Qed.
Lemma frame_clear : preserves R clear_fpIns.
Proof. intros a r a' [= _ <-]. apply af_clear. Qed.
#[local] Hint Resolve frame_GetInstance frame_clear : preserves.

Lemma frame_remove : preserves R removeFinalityProviderInstance.
Proof. unfold removeFinalityProviderInstance. solve_preserves. Qed.
#[local] Hint Resolve frame_remove : preserves.

Lemma frame_monitor e : preserves R (monitorCriticalErr_handle e).
Proof. unfold monitorCriticalErr_handle, setFinalityProviderSlashed. solve_preserves. Qed.

Lemma frame_start_fp pk : preserves R (StartFinalityProvider cfg pollerCfg pk).
Proof.
  unfold StartFinalityProvider, startFinalityProviderInstance. apply preserves_get_bind.
  intros a r a' HE. unfold mbind at 1, M_bind at 1, go_bind at 1 in HE.
  destruct (app_fpIns a) as [o|] eqn:Eo.
  - destruct (negb _); [by injection HE as _ <-|]. by eapply af_ins_start.
  - destruct ((fpIns ← _; set_fpIns fpIns) a) as [r1 a1] eqn:E1.
    pose proof (af_bind _ _ _ _ _ Eo E1) as R1.
    destruct r1 as [[]|e|w]; [|by injection HE as _ <-..]. etrans; [exact R1|by eapply af_ins_start].
Qed.

Lemma frame_sync : preserves R syncAllFinalityProvidersStatus.
Proof. unfold syncAllFinalityProvidersStatus, syncStatus. solve_preserves. Qed.

Lemma frame_once_put (f : app → app) :
  (∀ a, R a (f a)) → preserves R (go_get ≫= λ a, go_put (f a)).
Proof. intros Hf a r a' [= _ <-]. apply Hf. Qed.

Lemma frame_app_Start : preserves R app_Start.
Proof.
  unfold app_Start. apply preserves_get_bind. intros a r a'. destruct (app_started a); [by intros [= _ <-]|].
  erewrite go_bind_run; [|reflexivity]. intros HE.
  etrans; [apply (af_once true (app_stopped a) (app_loops a) a)|].
  refine ((_ : preserves R _) _ _ _ HE). clear HE.
  apply preserves_bind; [apply _|apply frame_sync|intros _].
  apply (frame_once_put (λ a, app_with_once (app_started a) (app_stopped a) true a)).
  intros ?. apply af_once.
Qed.

Lemma frame_app_Stop emClose : preserves R (app_Stop emClose).
Proof.
  unfold app_Stop. apply preserves_get_bind. intros a r a'. destruct (app_stopped a); [by intros [= _ <-]|].
  erewrite go_bind_run; [|reflexivity]. intros HE.
  etrans; [apply (af_once (app_started a) true false a)|].
  refine ((_ : preserves R _) _ _ _ HE). clear HE. solve_preserves.
Qed.

Lemma frame_put_response now fp chainID : preserves R (putFpFromResponse now fp chainID).
Proof. unfold putFpFromResponse. solve_preserves. Qed.
#[local] Hint Resolve frame_put_response : preserves.

Lemma frame_create now keyName chainID eotsPk des com :
  preserves R (CreateFinalityProvider_request now keyName chainID eotsPk des com).
Proof. unfold CreateFinalityProvider_request, CreatePop. solve_preserves. Qed.

Lemma app_step_frame a a' : app_step a a' → R a a'.
Proof.
  destruct 1 as [|ready a r a' HE|o e l a r a' Ho _ HE|pk a r a' HE|a r a' HE|c a r a' HE
    |now k c p des com a r a' HE|req a r a' HE|now req h a r a' HE|pk a r a' HE|pk h a r a' HE
    |pk a r a' HE|a r a' HE|now p des com a r a' HE|p c h a r a' HE|d p h hash a r a' HE| |].
  - by eapply af_ins_sigs.
  - by eapply af_ins_rand.
  - etrans; [by apply (af_reported o l a)|by eapply frame_monitor].
  - by eapply frame_start_fp.
  - by eapply frame_app_Start.
  - by eapply frame_app_Stop.
  - by eapply frame_create.
  - refine ((_ : preserves R _) _ _ _ HE). unfold registrationLoop_handle. solve_preserves.
  - refine ((_ : preserves R _) _ _ _ HE). unfold CreateFinalityProvider_finish. solve_preserves.
  - refine ((_ : preserves R _) _ _ _ HE). unfold unjailFpLoop_handle. solve_preserves.
  - refine ((_ : preserves R _) _ _ _ HE). unfold UnjailFinalityProvider_finish. solve_preserves.
  - refine ((_ : preserves R _) _ _ _ HE). unfold GetFinalityProviderInfo. solve_preserves.
  - refine ((_ : preserves R _) _ _ _ HE). unfold ListAllFinalityProvidersInfo. solve_preserves.
  - refine ((_ : preserves R _) _ _ _ HE). unfold srv_EditFinalityProvider. solve_preserves.
  - refine ((_ : preserves R _) _ _ _ HE). unfold srv_UnsafeRemoveMerkleProof. solve_preserves.
  - refine ((_ : preserves R _) _ _ _ HE). unfold srv_AddFinalitySignature. solve_preserves.
  - by apply af_chain.
  - by apply af_em.
Qed.

Lemma app_steps_frame a a' : rtc app_step a a' → R a a'.
Proof. induction 1 as [|a1 a2 a3 Hs _ IH]; [done|]. etrans; [by apply app_step_frame|done]. Qed.
End frame.

(** ** Relations that only look at the instance *)

Lemma on_ins_preserves {A} (R : relation app) `{!Reflexive R} (Ri : relation fpi) (m : M fpi A) :
  (∀ a o fi', app_fpIns a = Some o → Ri (ins_view a o) fi' → R a (app_with_fi fi' a)) →
  preserves Ri m → preserves R (on_ins m).
Proof.
  intros HR Hm a r a'. unfold on_ins. destruct (app_fpIns a) as [o|] eqn:Eo; [|by intros [= _ <-]].
  intros (fi' & Em & ->)%zoom_inv. by eapply HR, Hm.
Qed.
End steps.

(** ** Concrete services *)

Module StepsToy.
Export FpdRpcToy.
#[export] Instance toy_evidence : SlashingEvidence := {|
  Evidence := string;
  Evidence_UnmarshalString s := if bool_decide (s = "") then Err (EText "EOF") else Ok s;
  ExtractBTCSK _ := Ok true;
|}.
End StepsToy.
