(* ===== verification/AppHistory.v ===== *)
(** * Histories of the daemon (src/finality-provider/service/app.go, event_loops.go)

    What the stored records, the instance and the chain connections of the
    daemon satisfy over arbitrary interleavings of its loops, its public
    operations and its environment, as [app_step] of the application has them. *)

From Stdlib Require Import NArith ZArith Lia.
From stdpp Require Import base gmap strings list relations.
From S2P Require Import Prelude Kvdb External Config Toy EotsStore EotsApi LocalManager PubRandStore.
From S2P Require Import FpStore ChainApi FinalitySubmitter RandCommitter Bootstrap ChainPoller FpInstance ManualOps App AppRpc AppSteps.

(** ** The records of the daemon over its histories *)

Section store_history.
Context `{CryptoLaws} `{SdkLaws} `{BigEndianLaws} `{Merkle} `{RetryLaws} `{BabylonErrors} `{AccAddress}.
Context `{!SlashingEvidence} `{ServiceDescription}.
Context {D E C Pl B K : Type} `{!KvBackend D} `{!KvLaws D}.
Context `{!Codec FinalityProvider} `{!CodecLaws FinalityProvider}.
Context `{!Codec Description} `{!CodecLaws Description} `{!Codec ProofOfPossessionBTC}.
Context `{!EOTSManager E} `{!ConsumerController C} `{!BlockPoller Pl} `{!BabylonController B}.
Context `{!Keyring K}.
Context (cfg : Config) (pollerCfg : ChainPollerConfig).
#[local] Abbreviation fpi := (FinalityProviderInstance D E C Pl).
#[local] Abbreviation app := (FinalityProviderApp D E C Pl B K).

(** Well-formedness is kept and records only move forward. *)
Definition wf_le (d d' : D) : Prop := store_wf d → store_wf d' ∧ store_le d d'.
#[export] Instance wf_le_preorder : PreOrder wf_le.
Proof.
  split; [by intros d Hd; split|]. intros d1 d2 d3 H12 H23 Hd.
  destruct (H12 Hd) as [Hd2 L12]. destruct (H23 Hd2) as [Hd3 L23]. split; [done|by etrans].
Qed.

Lemma op_wf_le {A} (m : M D A) (o : fp_op) :
  (∀ d, (m d).2 = apply_op o d) → preserves wf_le m.
Proof.
  intros Ho d r d' Em. assert (d' = apply_op o d) as -> by by rewrite <- Ho, Em.
  intros Hd. by apply apply_op_le.
Qed.

Lemma wf_le_get pk : preserves wf_le (GetFinalityProvider (D:=D) pk).
Proof. unfold GetFinalityProvider. apply preserves_wrap, preserves_view, _. Qed.
Lemma wf_le_all : preserves wf_le (GetAllStoredFinalityProviders (D:=D)).
Proof. unfold GetAllStoredFinalityProviders. apply preserves_wrap, preserves_view, _. Qed.
Lemma wf_le_status pk s : preserves wf_le (SetFpStatus (D:=D) pk s).
Proof. by apply (op_wf_le _ (OpSetStatus pk s)). Qed.
Lemma wf_le_height pk h : preserves wf_le (SetFpLastVotedHeight (D:=D) pk h).
Proof. by apply (op_wf_le _ (OpSetLastVotedHeight pk h)). Qed.
Lemma wf_le_des now pk des rate : preserves wf_le (SetFpDescription (D:=D) now pk des rate).
Proof. by apply (op_wf_le _ (OpSetDescription now pk des rate)). Qed.
Lemma wf_le_create now addr pk des com c :
  preserves wf_le (CreateFinalityProvider (D:=D) now addr pk des com c).
Proof. by apply (op_wf_le _ (OpCreate now addr pk des com c)). Qed.
#[local] Hint Resolve wf_le_get wf_le_all wf_le_status wf_le_height wf_le_des wf_le_create : preserves.
Lemma wf_le_must pk s : preserves wf_le (MustSetFpStatus (D:=D) pk s).
Proof. unfold MustSetFpStatus. solve_preserves. Qed.

(** The record in memory does not matter to the store. *)
Definition st_le (f f' : FpState D) : Prop := wf_le (fps_s f) (fps_s f').
Lemma on_s_st_le {A} (m : M D A) : preserves wf_le m → preserves st_le (on_s m).
Proof.
  intros Hm f r f'. unfold on_s. destruct (m (fps_s f)) as [r1 d] eqn:Em. intros [= _ <-].
  by apply (Hm _ _ _ Em).
Qed.
Lemma SetStatus_st_le s : preserves st_le (SetStatus (D:=D) s).
Proof.
  intros f r f' HE. eapply (preserves_wrap st_le) in HE; [exact HE|]. apply on_s_st_le, wf_le_status.
Qed.
Lemma SetLastVotedHeight_st_le h : preserves st_le (SetLastVotedHeight (D:=D) h).
Proof.
  intros f r f' HE. eapply (preserves_wrap st_le) in HE; [exact HE|]. apply on_s_st_le, wf_le_height.
Qed.

Definition fi_st_le (fi fi' : fpi) : Prop := st_le (fi_fpState fi) (fi_fpState fi').
#[export] Instance fi_st_le_preorder : PreOrder fi_st_le.
Proof.
  unfold fi_st_le, st_le. split; [intros fi; reflexivity|]. intros f1 f2 f3 ? ?. by etrans.
Qed.
Lemma on_fpState_st {A} (m : M (FpState D) A) :
  preserves st_le m → preserves fi_st_le (on_fpState (E:=E) (C:=C) (Pl:=Pl) m).
Proof.
  intros Hm fi r fi'. unfold on_fpState. destruct (m _) as [r1 f] eqn:Em. intros [= _ <-].
  by apply (Hm _ _ _ Em).
Qed.

Definition ds_st_le (d d' : DefaultFinalitySubmitter (FpState D) E C D) : Prop :=
  st_le (ds_State d) (ds_State d').
#[export] Instance ds_st_le_preorder : PreOrder ds_st_le.
Proof.
  unfold ds_st_le, st_le. split; [intros fi; reflexivity|]. intros f1 f2 f3 ? ?. by etrans.
Qed.

Lemma ds_same d d' : same_State d d' → ds_st_le d d'.
Proof. unfold same_State, ds_st_le. by intros ->. Qed.
Lemma ds_on_State {A} (m : M (FpState D) A) :
  preserves st_le m → preserves ds_st_le (on_State (E:=E) (C:=C) (P:=D) m).
Proof.
  intros Hm d r d' HE. apply on_State_inv in HE. by apply (Hm _ _ _ HE).
Qed.

Lemma Submit_st_le getter scfg fuel timer bs (d d' : DefaultFinalitySubmitter (FpState D) E C D) r :
  SubmitBatchFinalitySignatures getter scfg fuel timer bs d = Some (r, d') → ds_st_le d d'.
Proof.
  apply frame_Submit; [apply _|..].
  - intros s. apply ds_on_State, SetStatus_st_le.
  - intros h. apply ds_on_State, SetLastVotedHeight_st_le.
  - intros pk c h n d1 r1 d2 HE. by eapply ds_same, on_Em_State.
  - intros req d1 r1 d2 HE. by eapply ds_same, on_Em_State.
  - intros h n d1 r1 d2 HE. by eapply ds_same, on_Proofs_State.
  - intros pk h d1 r1 d2 HE. by eapply ds_same, on_Ctrl_State.
  - intros h d1 r1 d2 HE. by eapply ds_same, on_Ctrl_State.
  - intros bs' d0 req d1 r1 d2 _ HE. by eapply ds_same, on_Ctrl_State.
Qed.
Lemma on_s_get_st pk : preserves st_le (on_s (GetFinalityProvider (D:=D) pk)).
Proof. apply on_s_st_le, wf_le_get. Qed.

Lemma fi_rest {A} (m : M fpi A) :
  (∀ fi r fi', m fi = (r, fi') → fi_fpState fi' = fi_fpState fi) → preserves fi_st_le m.
Proof. intros Hm fi r fi' HE. unfold fi_st_le, st_le. by rewrite (Hm _ _ _ HE). Qed.
Lemma fi_rest_poller {A} (m : M Pl A) : preserves fi_st_le (on_poller (D:=D) (E:=E) (C:=C) m).
Proof. apply fi_rest. intros fi r fi'. unfold on_poller. destruct (m _). by intros [= _ <-]. Qed.
Lemma fi_rest_con {A} (m : M C A) : preserves fi_st_le (on_consumerCon (D:=D) (E:=E) (Pl:=Pl) m).
Proof. apply fi_rest. intros fi r fi'. unfold on_consumerCon. destruct (m _). by intros [= _ <-]. Qed.
Lemma fi_rest_rc {A} (m : M (DefaultRandomnessCommitter D C E) A) :
  preserves fi_st_le (on_rndCommitter (Pl:=Pl) m).
Proof. apply fi_rest. intros fi r fi'. unfold on_rndCommitter. destruct (m _). by intros [= _ <-]. Qed.
Lemma fi_rest_report ready e : preserves fi_st_le (reportCriticalErr ready e : M fpi unit).
Proof. apply fi_rest. intros fi r fi' [= _ <-]. by destruct ready. Qed.

Lemma fi_submit fuel timer bs (fi : fpi) r d :
  SubmitBatchFinalitySignatures (proofListGetter fi) (submitterCfg cfg) fuel timer bs (fi_ds fi)
    = Some (r, d) → fi_st_le fi (fi_with_ds fi d).
Proof. apply Submit_st_le. Qed.
#[local] Hint Resolve fi_rest_poller fi_rest_con fi_rest_rc fi_rest_report : preserves.

Lemma fi_status s : preserves fi_st_le (on_fpState (SetStatus s) : M fpi unit).
Proof. apply on_fpState_st, SetStatus_st_le. Qed.
Lemma fi_lastVoted h : preserves fi_st_le (on_fpState (SetLastVotedHeight h) : M fpi unit).
Proof. apply on_fpState_st, SetLastVotedHeight_st_le. Qed.
Lemma fi_get pk : preserves fi_st_le (on_fpState (on_s (GetFinalityProvider pk)) : M fpi _).
Proof. apply on_fpState_st, on_s_get_st. Qed.
#[local] Hint Resolve fi_status fi_lastVoted fi_get : preserves.

(** *** The application *)

Context (em_env : relation E) (con_env : relation C).
Definition app_wf_le (a a' : app) : Prop := wf_le (app_fps a) (app_fps a').
#[export] Instance app_wf_le_preorder : PreOrder app_wf_le.
Proof. unfold app_wf_le. split; [intros a; reflexivity|]. intros a1 a2 a3 ? ?. by etrans. Qed.

Lemma app_on_fps {A} (m : M D A) : preserves wf_le m → preserves app_wf_le (on_fps m).
Proof. by apply preserves_zoom. Qed.
Lemma app_on_ins {A} (m : M fpi A) : preserves fi_st_le m → preserves app_wf_le (on_ins m).
Proof. by apply on_ins_preserves; [apply _|]. Qed.

(** Binding a new instance only reads the store. *)
Definition dp_wf_le (dp dp' : instance_deps (D:=D) (E:=E) (C:=C) (Pl:=Pl)) : Prop :=
  wf_le (dp_s dp) (dp_s dp').
#[export] Instance dp_wf_le_preorder : PreOrder dp_wf_le.
Proof. unfold dp_wf_le. split; [intros a; reflexivity|]. intros a1 a2 a3 ? ?. by etrans. Qed.

Lemma dp_get pk : preserves dp_wf_le (on_dp_s (GetFinalityProvider pk)).
Proof.
  intros dp r dp'. unfold on_dp_s. destruct (GetFinalityProvider _ _) as [r1 d] eqn:Em.
  intros [= _ <-]. by apply (wf_le_get _ _ _ _ Em).
Qed.
Lemma dp_init p c : preserves dp_wf_le (on_dp_rc (Init p c)).
Proof. intros dp r dp'. unfold on_dp_rc. destruct (Init _ _ _). by intros [= _ <-]. Qed.
Lemma dp_initState : preserves dp_wf_le InitState.
Proof. intros dp r dp'. unfold InitState. by destruct (dp_stateSet dp); intros [= _ <-]. Qed.
#[local] Hint Resolve dp_get dp_init dp_initState : preserves.

Lemma dp_new pk : preserves dp_wf_le (NewFinalityProviderInstance pk).
Proof. unfold NewFinalityProviderInstance, newFinalityProviderInstanceFromStore. solve_preserves. Qed.
Lemma app_set_fpIns fi : preserves app_wf_le (set_fpIns fi).
Proof. by intros a r a' [= _ <-]. Qed.
Lemma app_new pk : preserves app_wf_le (on_deps (NewFinalityProviderInstance pk)).
Proof. apply (preserves_zoom _ dp_wf_le); [done|apply dp_new]. Qed.
#[local] Hint Resolve app_set_fpIns app_new : preserves.

#[export] Instance app_wf_le_frame : AppFrame cfg pollerCfg em_env con_env app_wf_le.
Proof.
  split; intros; try done.
  all: try (by apply app_on_fps; eauto using wf_le_must with preserves).
  all: try (by apply preserves_zoom_any).
  all: try (apply app_on_ins).
  - intros a r a'. unfold Address. destruct (kr_Key _ _ _). by intros [= _ <-].
  - match goal with HE : _ = (_, _) |- _ => refine ((_ : preserves app_wf_le _) _ _ _ HE) end.
    solve_preserves.
  - apply frame_Start; eauto with preserves; [apply _|done].
  - apply frame_Stop; eauto with preserves; [apply _|done].
  - apply frame_fi_mustSetStatus; eauto with preserves; apply _.
  - apply frame_randomness; eauto with preserves; apply _.
  - change (fi_st_le (ins_view a o) fi').
    by eapply frame_process; eauto using fi_submit with preserves; apply _.
Qed.
#[export] Instance app_wf_le_vote : AppVoteFrame app_wf_le.
Proof.
  intros b. apply app_on_ins, frame_manual_vote; [apply _|intros..].
  - by apply preserves_zoom_any.
  - by apply preserves_zoom_any.
  - apply fi_rest_con.
Qed.

(** C7: over any history of the daemon (its loops, its requests in any
    interleaving, a chain that answers anything, database failures), every
    stored record stays under its own public key, none is lost, its chain and
    address never change and its last voted height never decreases. *)
Theorem daemon_store_history (a a' : app)
    (Hwf : store_wf (app_fps a)) (Hsteps : rtc (app_step cfg pollerCfg em_env con_env) a a') :
  store_wf (app_fps a')
  ∧ ∀ k fp, stored (app_fps a) k fp → ∃ fp', stored (app_fps a') k fp'
      ∧ fp_BtcPk fp' = k ∧ fp_ChainId fp' = fp_ChainId fp ∧ fp_FpAddr fp' = fp_FpAddr fp
      ∧ (fp_LastVotedHeight fp ≤ fp_LastVotedHeight fp')%N.
Proof.
  destruct (app_steps_frame _ _ _ _ app_wf_le _ _ Hsteps Hwf) as [Hwf' Hle]. split; [done|].
  intros k fp Hs. destruct (Hle _ _ Hs) as (fp' & Hs' & _ & Hc & Ha & Hh). exists fp'.
  split_and!; [done|by apply Hwf'|done|done|done].
Qed.

(** *** Slashing *)

Definition own_key (o : fp_own) : bytes := SerializePubKey (sfp_BtcPk (own_sfp o)).

Lemma Stop_store a r a' :
  on_ins (B:=B) (K:=K) (Stop (D:=D) (E:=E) (C:=C) (Pl:=Pl)) a = (r, a') → app_fps a' = app_fps a.
Proof.
  assert (preserves (λ fi fi' : fpi, fi_fpState fi' = fi_fpState fi) Stop) as Hst.
  { apply frame_Stop; [by split; [|intros ??? -> ->]|intros A m fi r1 fi'|done].
    unfold on_poller. destruct (m _). by intros [= _ <-]. }
  revert a r a'. change (preserves (λ a a' : app, app_fps a' = app_fps a) (on_ins Stop)).
  eapply on_ins_preserves; [done| |exact Hst]. intros a o fi' _ Hf. simpl. by rewrite Hf.
Qed.

Lemma remove_ok a u a' :
  removeFinalityProviderInstance (D:=D) (E:=E) (C:=C) (Pl:=Pl) (B:=B) (K:=K) a = (Ok u, a') →
  app_fpIns a' = None ∧ app_fps a' = app_fps a.
Proof.
  unfold removeFinalityProviderInstance. intros HE. inv_bind HE.
  destruct (app_fpIns a) as [o|]; [|done]. inv_bind HE. injection HE as _ <-. simpl. split; [done|].
  destruct (own_isStarted o); [|by injection E0 as _ <-]. inv_bind E0. apply go_try_ok in E1.
  destruct a1; [done|]. injection E0 as _ <-. by eapply Stop_store.
Qed.

Lemma setSlashed_ok a o u a' :
  app_fpIns a = Some o →
  setFinalityProviderSlashed (D:=D) (E:=E) (C:=C) (Pl:=Pl) (B:=B) (K:=K) a = (Ok u, a') →
  app_fpIns a' = None
  ∧ SetFpStatus (sfp_BtcPk (own_sfp o)) SLASHED (app_fps a) = (Ok (), app_fps a').
Proof.
  intros Ho. unfold setFinalityProviderSlashed. intros HE. inv_bind HE. inv_bind HE.
  apply go_try_ok in E1. destruct a1 as [|[]]; [done|]. injection HE as _ <-.
  apply remove_ok in E1 as [Hn Hs]. split; [done|]. rewrite Hs.
  unfold on_ins in E0. rewrite Ho in E0. apply zoom_inv in E0 as (fi' & Em & ->). simpl.
  unfold fi_mustSetStatus in Em. inv_bind Em. apply go_try_ok in E0.
  destruct a1 as [|[]]; [done|]. injection Em as _ <-.
  unfold on_fpState, SetStatus, on_s, go_wrap, go_map_err in E0. simpl in E0.
  destruct (SetFpStatus _ _ _) as [[[]|e|w] d]; [|done..]. by injection E0 as <-.
Qed.

End store_history.

(** ** The daemon is bound to one finality provider *)

Section binding.
Context `{CryptoLaws} `{Sdk} `{BigEndianLaws} `{Merkle} `{RetryLaws} `{BabylonErrors} `{AccAddress}.
Context `{!SlashingEvidence} `{ServiceDescription}.
Context {D E C Pl B K : Type} `{!KvBackend D} `{!Codec FinalityProvider}.
Context `{!Codec Description} `{!Codec ProofOfPossessionBTC}.
Context `{!EOTSManager E} `{!ConsumerController C} `{!BlockPoller Pl} `{!BabylonController B}.
Context `{!Keyring K}.
Context (cfg : Config) (pollerCfg : ChainPollerConfig).
Context (em_env : relation E) (con_env : relation C).
#[local] Abbreviation fpi := (FinalityProviderInstance D E C Pl).
#[local] Abbreviation app := (FinalityProviderApp D E C Pl B K).
#[local] Abbreviation step := (app_step cfg pollerCfg em_env con_env).
Implicit Types (a : app) (fi : fpi).

Definition own_chain (o : fp_own) : bytes := bytes_of_string (sfp_ChainID (own_sfp o)).

(** *** What the loops of the instance leave alone *)

Definition same_binding fi fi' : Prop :=
  fi_btcPk fi' = fi_btcPk fi ∧ GetBtcPk (fi_fpState fi') = GetBtcPk (fi_fpState fi)
  ∧ GetChainID (fi_fpState fi') = GetChainID (fi_fpState fi)
  ∧ fi_rcPk fi' = fi_rcPk fi ∧ fi_rcCfg fi' = fi_rcCfg fi.
#[export] Instance same_binding_preorder : PreOrder same_binding.
Proof.
  split; [done|]. intros f1 f2 f3 (?&?&?&?&?) (?&?&?&?&?). unfold same_binding. split_and!; congruence.
Qed.

Definition st_binding (f f' : FpState D) : Prop :=
  GetBtcPk f' = GetBtcPk f ∧ GetChainID f' = GetChainID f.

Lemma on_fpState_binding {A} (m : M (FpState D) A) :
  preserves st_binding m → preserves same_binding (on_fpState (E:=E) (C:=C) (Pl:=Pl) m).
Proof.
  intros Hm fi r fi'. unfold on_fpState. destruct (m _) as [r1 f] eqn:Em. intros [= _ <-].
  destruct (Hm _ _ _ Em). by split_and!.
Qed.
Lemma binding_status s : preserves same_binding (on_fpState (SetStatus s) : M fpi unit).
Proof.
  apply on_fpState_binding. intros f r f' HE.
  by pose proof (st_status_set (F:=FpState D) s f r f' HE) as (_ & _ & Hp & Hc).
Qed.
Lemma binding_height h : preserves same_binding (on_fpState (SetLastVotedHeight h) : M fpi unit).
Proof.
  apply on_fpState_binding. intros f r f' HE.
  by pose proof (st_height_set (F:=FpState D) h f r f' HE) as (_ & _ & Hp & Hc).
Qed.
Lemma binding_get pk : preserves same_binding (on_fpState (on_s (GetFinalityProvider pk)) : M fpi _).
Proof.
  apply on_fpState_binding. intros f r f'. unfold on_s. destruct (GetFinalityProvider _ _).
  by intros [= _ <-].
Qed.
Lemma binding_poller A (m : M Pl A) : preserves same_binding (on_poller (D:=D) (E:=E) (C:=C) m).
Proof. intros fi r fi'. unfold on_poller. destruct (m _). by intros [= _ <-]. Qed.
Lemma binding_con A (m : M C A) : preserves same_binding (on_consumerCon (D:=D) (E:=E) (Pl:=Pl) m).
Proof. intros fi r fi'. unfold on_consumerCon. destruct (m _). by intros [= _ <-]. Qed.
Lemma binding_report ready e : preserves same_binding (reportCriticalErr ready e : M fpi unit).
Proof. intros fi r fi' [= _ <-]. by destruct ready. Qed.

Definition rc_binding (rc rc' : DefaultRandomnessCommitter D C E) : Prop :=
  rc_BtcPk rc' = rc_BtcPk rc ∧ rc_Cfg rc' = rc_Cfg rc.
#[export] Instance rc_binding_preorder : PreOrder rc_binding.
Proof. split; [done|]. intros ??? (?&?) (?&?). unfold rc_binding. split; congruence. Qed.

Lemma on_rc_binding {A} (m : M (DefaultRandomnessCommitter D C E) A) :
  preserves rc_binding m → preserves same_binding (on_rndCommitter (Pl:=Pl) m).
Proof.
  intros Hm fi r fi'. unfold on_rndCommitter. destruct (m _) as [r1 rc] eqn:Em. intros [= _ <-].
  destruct (Hm _ _ _ Em). by split_and!.
Qed.
Lemma on_Con_binding A (m : M C A) : preserves rc_binding (on_Con (D:=D) (E:=E) m).
Proof. intros r o r'. unfold on_Con. destruct (m _). by intros [= _ <-]. Qed.
Lemma on_rcEm_binding A (m : M E A) : preserves rc_binding (on_rcEm (D:=D) (C:=C) m).
Proof. intros r o r'. unfold on_rcEm. destruct (m _). by intros [= _ <-]. Qed.
Lemma on_PubRand_binding A (m : M D A) : preserves rc_binding (on_PubRand (C:=C) (E:=E) m).
Proof. intros r o r'. unfold on_PubRand. destruct (m _). by intros [= _ <-]. Qed.
Lemma binding_should : preserves same_binding (on_rndCommitter ShouldCommit : M fpi _).
Proof. apply on_rc_binding, frame_ShouldCommit; [apply _|intros; apply on_Con_binding..]. Qed.
Lemma binding_commit h : preserves same_binding (on_rndCommitter (Commit h) : M fpi _).
Proof.
  apply on_rc_binding, frame_Commit;
    [apply _|intros; first [apply on_Con_binding|apply on_rcEm_binding|apply on_PubRand_binding]..].
Qed.
Lemma binding_submit fuel timer bs fi r d :
  SubmitBatchFinalitySignatures (proofListGetter fi) (submitterCfg cfg) fuel timer bs (fi_ds fi)
    = Some (r, d) → same_binding fi (fi_with_ds fi d).
Proof. intros (Hpk & Hc & _)%Submit_cases. by split_and!. Qed.
#[local] Hint Resolve binding_status binding_height binding_get binding_poller binding_con
  binding_report binding_should binding_commit : preserves.
(** *** The application *)

(** The committer has a key and a chain. *)
Definition bound a : Prop := is_Some (app_rcPk a) ∧ is_Some (rcc_ChainID (app_rcCfg a)).

(** The instance, the committer and the stored record name the same provider. *)
Definition bind_inv a : Prop := ∀ o, app_fpIns a = Some o →
  app_rcPk a = Some (own_btcPk o) ∧ rcc_ChainID (app_rcCfg a) = Some (own_chain o)
  ∧ GetBIP340BTCPK (own_sfp o) = own_btcPk o.

Definition bind_le a a' : Prop := bind_inv a → bind_inv a' ∧ (bound a →
  app_rcPk a' = app_rcPk a ∧ app_rcCfg a' = app_rcCfg a ∧ (app_fpIns a = None → app_fpIns a' = None)).
#[export] Instance bind_le_preorder : PreOrder bind_le.
Proof.
  split; [by intros a Ha|]. intros a1 a2 a3 H12 H23 Ha1. destruct (H12 Ha1) as [Ha2 L12].
  destruct (H23 Ha2) as [Ha3 L23]. split; [done|]. intros Hb. destruct (L12 Hb) as (P1 & C1 & N1).
  destruct L23 as (P2 & C2 & N2); [by unfold bound in *; rewrite P1, C1|].
  split_and!; [congruence..|tauto].
Qed.

Lemma bind_same a a' :
  app_rcPk a' = app_rcPk a → app_rcCfg a' = app_rcCfg a → app_fpIns a' = app_fpIns a → bind_le a a'.
Proof. intros Hp Hc Hi. unfold bind_le, bind_inv, bound. by rewrite Hp, Hc, Hi. Qed.

Lemma bind_ins a o fi' :
  app_fpIns a = Some o → same_binding (ins_view a o) fi' → bind_le a (app_with_fi fi' a).
Proof.
  intros Ho (Hk & Hp & Hc & Hrp & Hrc) Hinv. destruct (Hinv _ Ho) as (Ik & Ic & Ig). simpl in *.
  assert (sfp_BtcPk (fps_sfp (fi_fpState fi')) = sfp_BtcPk (own_sfp o)) as Hp' by exact Hp.
  assert (bytes_of_string (sfp_ChainID (fps_sfp (fi_fpState fi'))) = own_chain o) as Hc' by exact Hc.
  split; [|intros _; simpl; rewrite Hrp, Hrc, Ho; by split_and!].
  intros o' [= <-]. unfold own_chain, GetBIP340BTCPK in *. simpl.
  by rewrite Hk, Hp', Hc', Hrp, Hrc.
Qed.
Lemma bind_on_ins {A} (m : M fpi A) : preserves same_binding m → preserves bind_le (on_ins m).
Proof. apply on_ins_preserves; [apply _|apply bind_ins]. Qed.

(** A new instance: the committer takes its key and chain, or refuses. *)
#[local] Abbreviation deps := (instance_deps (D:=D) (E:=E) (C:=C) (Pl:=Pl)).
Definition rc_bound (rc : DefaultRandomnessCommitter D C E) : Prop :=
  is_Some (rc_BtcPk rc) ∧ is_Some (rcc_ChainID (rc_Cfg rc)).
Definition dp_keep (dp dp' : deps) : Prop :=
  rc_bound (dp_rndCommitter dp) → rc_binding (dp_rndCommitter dp) (dp_rndCommitter dp').
#[export] Instance dp_keep_preorder : PreOrder dp_keep.
Proof.
  split; [by intros dp _; split|]. intros d1 d2 d3 H12 H23 Hb. specialize (H12 Hb).
  etrans; [exact H12|]. apply H23. unfold rc_bound in *. destruct H12 as [-> ->]. done.
Qed.

Lemma Init_bound p c (rc : DefaultRandomnessCommitter D C E) :
  rc_bound rc → ∃ e, Init p c rc = (Err e, rc).
Proof.
  intros [Hp Hc]. unfold Init. destruct p; [|by eexists]. destruct (_ =? 0)%nat; [by eexists|].
  rewrite !bool_decide_true by done. by eexists.
Qed.
Lemma keep_init p c : preserves dp_keep (on_dp_rc (Init p c)).
Proof.
  intros dp r dp'. unfold on_dp_rc. intros HE Hb. destruct (Init_bound p c _ Hb) as [e Ee].
  rewrite Ee in HE. by injection HE as _ <-.
Qed.
Lemma keep_get pk : preserves dp_keep (on_dp_s (GetFinalityProvider pk)).
Proof.
  intros dp r dp'. unfold on_dp_s. destruct (GetFinalityProvider _ _). intros [= _ <-] _. by split.
Qed.
Lemma keep_state : preserves dp_keep InitState.
Proof. intros dp r dp'. unfold InitState. destruct (dp_stateSet dp); intros [= _ <-] _; by split. Qed.
#[local] Hint Resolve keep_init keep_get keep_state : preserves.

Lemma keep_new pk : preserves dp_keep (NewFinalityProviderInstance pk).
Proof. unfold NewFinalityProviderInstance, newFinalityProviderInstanceFromStore. solve_preserves. Qed.

Lemma new_instance_ok pk (dp dp' : deps) fi :
  NewFinalityProviderInstance pk dp = (Ok fi, dp') →
  ¬ rc_bound (dp_rndCommitter dp) ∧ rc_BtcPk (dp_rndCommitter dp') = Some (fi_btcPk fi)
  ∧ rcc_ChainID (rc_Cfg (dp_rndCommitter dp')) = Some (GetChainID (fi_fpState fi))
  ∧ GetBIP340BTCPK (fps_sfp (fi_fpState fi)) = fi_btcPk fi.
Proof.
  unfold NewFinalityProviderInstance, newFinalityProviderInstanceFromStore. intros HE.
  inv_bind HE. inv_bind HE. unfold on_dp_s in E1. destruct (GetFinalityProvider _ _).
  injection E1 as -> <-. case_bool_decide; [done|]. inv_bind HE. unfold on_dp_rc in E1.
  cbn [dp_rndCommitter] in E1. destruct (Init (D:=D) (C:=C) (E:=E) _ _ _) as [ri rc] eqn:Ei.
  injection E1 as -> <-.
  inv_bind HE. inv_bind HE. injection HE as <- <-.
  unfold InitState in E1. simpl in E1. destruct (dp_stateSet dp); [done|]. injection E1 as _ <-. simpl.
  split; [intros Hb; destruct (Init_bound (Some (GetBIP340BTCPK a0))
    (bytes_of_string (sfp_ChainID a0)) _ Hb); congruence|].
  unfold Init in Ei. destruct (_ =? 0)%nat; [done|]. destruct (_ && _); [done|].
  by injection Ei as _ <-.
Qed.

Lemma bind_new p pk a r a' : app_fpIns a = None →
  (fpIns ← go_wrap p (on_deps (NewFinalityProviderInstance pk)); set_fpIns fpIns) a = (r, a') →
  bind_le a a'.
Proof.
  intros Hn. unfold mbind, M_bind, go_bind, go_wrap, go_map_err, on_deps, zoom.
  destruct (NewFinalityProviderInstance pk (app_deps a)) as [rn dp] eqn:En.
  pose proof (keep_new _ _ _ _ En) as Hk. destruct rn as [fi|e|w]; simpl.
  - intros [= _ <-] _. apply new_instance_ok in En as (Hnb & Hp & Hc & Hg).
    split; [intros o [= <-]; simpl|intros Hb; by destruct Hnb]. by split_and!.
  - intros [= _ <-] _. split; [intros o; simpl; by rewrite Hn|]. intros [Hpk Hc] . by destruct Hk.
  - intros [= _ <-] _. split; [intros o; simpl; by rewrite Hn|]. intros [Hpk Hc] . by destruct Hk.
Qed.

#[export] Instance bind_le_frame : AppFrame cfg pollerCfg em_env con_env bind_le.
Proof.
  split; intros; try (by apply bind_same).
  all: try (by apply preserves_zoom_any; intros; apply bind_same).
  all: try (apply bind_on_ins).
  - intros a r a'. unfold Address. destruct (kr_Key _ _ _). intros [= _ <-]. by apply bind_same.
  - by eapply bind_new.
  - apply frame_Start; eauto with preserves; [apply _|done].
  - apply frame_Stop; eauto with preserves; [apply _|done].
  - apply frame_fi_mustSetStatus; eauto with preserves; apply _.
  - apply frame_randomness; eauto with preserves; apply _.
  - eapply bind_ins; [done|].
    by eapply frame_process; eauto using binding_submit with preserves; apply _.
  - intros Hinv. split; [|intros _; split_and!; [done|done|congruence]].
    intros o' [= <-]. by apply (Hinv o).
  - intros Hinv. by split.
Qed.

#[export] Instance bind_le_vote : AppVoteFrame bind_le.
Proof.
  intros b. apply bind_on_ins, frame_manual_vote; [apply _|intros..].
  - by apply preserves_zoom_any.
  - by apply preserves_zoom_any.
  - apply binding_con.
Qed.

Lemma new_bind_inv cc con em poller rcCfg kr stdin fpDb prDb a :
  NewFinalityProviderApp cc con em poller rcCfg kr stdin fpDb prDb = Ok a → bind_inv a.
Proof.
  unfold NewFinalityProviderApp. destruct (fp_initBuckets fpDb) as [[]?]; [|done..].
  destruct (pr_initBuckets prDb) as [[]?]; [|done..]. by intros (k & _ & [= <-])%outcome_bind_ok.
Qed.

(** C6: the daemon serves one finality provider: from the start of the process,
    whatever the loops, the requests, the chain and the other users of the EOTS
    manager do, once an instance is bound every later instance has the same
    key and chain, the randomness committer works for that key and chain, and
    when the instance was removed (its provider was slashed) no other
    instance is created before the process is restarted. *)
Theorem daemon_single_binding cc con em poller rcCfg kr stdin fpDb prDb a0 a1 a2 o1
    (Hnew : NewFinalityProviderApp cc con em poller rcCfg kr stdin fpDb prDb = Ok a0)
    (H01 : rtc step a0 a1) (Hbound : app_fpIns a1 = Some o1) (H12 : rtc step a1 a2) :
  app_rcPk a2 = Some (own_btcPk o1) ∧ rcc_ChainID (app_rcCfg a2) = Some (own_chain o1)
  ∧ (∀ o2, app_fpIns a2 = Some o2 → own_btcPk o2 = own_btcPk o1 ∧ own_chain o2 = own_chain o1)
  ∧ (app_fpIns a2 = None → ∀ a3, rtc step a2 a3 → app_fpIns a3 = None).
Proof.
  destruct (app_steps_frame _ _ _ _ bind_le _ _ H01 (new_bind_inv _ _ _ _ _ _ _ _ _ _ Hnew)) as [I1 _].
  destruct (I1 _ Hbound) as (Hp & Hc & _).
  destruct (app_steps_frame _ _ _ _ bind_le _ _ H12 I1) as [I2 L2].
  destruct L2 as (Hp2 & Hc2 & _); [by split; rewrite ?Hp, ?Hc|]. rewrite Hp in Hp2. rewrite <- Hc2 in Hc.
  split_and!; [done|done| |].
  - intros o2 Ho2. destruct (I2 _ Ho2) as (Hp' & Hc' & _). by split; congruence.
  - intros Hn a3 H23. destruct (app_steps_frame _ _ _ _ bind_le _ _ H23 I2) as [_ L3].
    apply L3; [|done]. by split; rewrite ?Hp2, ?Hc.
Qed.
End binding.

(** ** Witnesses *)

Module HistoryWitness.
Import StepsToy.

Definition w_con := toy_tc [122; 123]%N 0.
Definition w_a0 := toy_app w_con toy_fp_db.
Definition w_em : relation (LocalEOTSManager toy_keyring MapDb.db) := eq.
Definition w_env : relation toy_consumer := λ _ _, True.
Definition w_started := StartFinalityProvider toy_config toy_poller_cfg (toy_pk true) w_a0.
Definition w_o : fp_own := default (mkOwn _ _ [] toy_sfp false None []) (app_fpIns w_started.2).

Lemma w_start_step : app_step toy_config toy_poller_cfg w_em w_env w_a0 w_started.2.
Proof. apply (as_start_fp _ _ _ _ (toy_pk true) _ w_started.1). exact (surjective_pairing w_started). Qed.
Lemma w_bound : app_fpIns w_started.2 = Some w_o.
Proof. apply some_default. vm_eq. Qed.

Lemma daemon_store_history_witness :
  is_Ok w_started.1 = true
  ∧ ∃ fp', stored (app_fps w_started.2) (toy_pk true) fp' ∧ fp_ChainId fp' = "bbn-1".
Proof.
  split; [vm_eq|].
  destruct (daemon_store_history toy_config toy_poller_cfg w_em w_env w_a0 w_started.2) as [_ Hk];
    [exact toy_fp_wf|exact (rtc_once _ _ w_start_step)|].
  destruct (Hk _ _ toy_fp_stored) as (fp' & Hs & _ & Hc & _). by exists fp'.
Defined.

(** Handling a slashing error of the running instance. *)
Definition w_slashed := monitorCriticalErr_handle ErrFinalityProviderSlashed w_started.2.
Definition w_reported := app_with_ins (Some (own_with_reported [ErrFinalityProviderSlashed] w_o)) w_started.2.


Lemma daemon_single_binding_witness :
  app_rcPk w_started.2 = Some (toy_pk true) ∧ app_fpIns w_started.2 = Some w_o
  ∧ ∀ o2, app_fpIns w_started.2 = Some o2 → own_btcPk o2 = own_btcPk w_o.
Proof.
  split; [vm_eq|]. split; [exact w_bound|].
  destruct (daemon_single_binding toy_config toy_poller_cfg w_em w_env [] w_con toy_lm (toy_cp false [])
              toy_rc_cfg (Ok toy_fp_keyring) "" toy_fp_db (pr_initBuckets MapDb.empty).2 w_a0 w_started.2
              w_started.2 w_o)
    as (_ & _ & Ho & _); [vm_eq|exact (rtc_once _ _ w_start_step)|exact w_bound|apply rtc_refl|].
  intros o2 Ho2. exact (proj1 (Ho o2 Ho2)).
Defined.
End HistoryWitness.
