(* ===== verification/AppRequests.v ===== *)
(** * Requests to the daemon (src/finality-provider/service/app.go, event_loops.go)

    What registration, unjailing and the synchronisation at start do: the calls
    the chain saw and the records in the store afterwards. *)

From Stdlib Require Import NArith ZArith Lia.
From stdpp Require Import base gmap strings list relations sorting.
From S2P Require Import Prelude Kvdb External Config Toy EotsStore EotsApi LocalManager PubRandStore.
From S2P Require Import FpStore ChainApi FinalitySubmitter RandCommitter Bootstrap ChainPoller FpInstance App.

Section requests.
Context `{CryptoLaws} `{SdkLaws} `{BigEndianLaws} `{Merkle} `{RetryLaws} `{BabylonErrors} `{AccAddress}.
Context {D E C Pl B K : Type} `{!KvBackend D} `{!KvLaws D}.
Context `{!Codec FinalityProvider} `{!CodecLaws FinalityProvider}.
Context `{!Codec Description} `{!CodecLaws Description} `{!Codec ProofOfPossessionBTC}.
Context `{!EOTSManager E} `{!ConsumerController C} `{!BlockPoller Pl} `{!BabylonController B}.
Context `{!Keyring K}.
#[local] Abbreviation app := (FinalityProviderApp D E C Pl B K).
Implicit Types a : app.

(** *** Inversion of the calls on a part of the state *)

Lemma on_con_ok {A} (m : M C A) a r a' :
  on_con m a = (r, a') → ∃ c, m (app_consumerCon a) = (r, c) ∧ a' = app_with_con c a.
Proof. apply zoom_inv. Qed.
Lemma on_cc_ok {A} (m : M B A) a r a' :
  on_cc m a = (r, a') → ∃ b, m (app_cc a) = (r, b) ∧ a' = app_with_cc b a.
Proof. apply zoom_inv. Qed.
Lemma on_em_ok {A} (m : M E A) a r a' :
  on_em m a = (r, a') → ∃ e, m (app_eotsManager a) = (r, e) ∧ a' = app_with_em e a.
Proof. apply zoom_inv. Qed.
Lemma on_fps_ok {A} (m : M D A) a r a' :
  on_fps m a = (r, a') → ∃ d, m (app_fps a) = (r, d) ∧ a' = app_with_fps d a.
Proof. apply zoom_inv. Qed.

(** *** Unjailing *)

Lemma unjail_loop_ok pk h a a1 :
  unjailFpLoop_handle pk a = (Ok h, a1) →
  ∃ btcPk st c1 res c2 d, MustToBTCPK pk = Ok btcPk
    ∧ cc_QueryFinalityProviderStatus btcPk (app_consumerCon a) = (Ok st, c1)
    ∧ sr_Slashed st = false ∧ sr_Jailed st = true
    ∧ cc_UnjailFinalityProvider btcPk c1 = (Ok (Some res), c2) ∧ TxHash res = h
    ∧ SetFpStatus btcPk INACTIVE (app_fps a) = (Ok (), d)
    ∧ a1 = app_with_fps d (app_with_con c2 a).
Proof.
  unfold unjailFpLoop_handle. intros HE. inv_bind HE. inv_bind HE.
  apply on_con_ok in E1 as (c1 & Est & ->).
  destruct (sr_Slashed a2) eqn:Esl; [done|]. destruct (sr_Jailed a2) eqn:Ej; [|done]. simpl in HE.
  inv_bind HE. apply on_con_ok in E1 as (c2 & Eu & ->). destruct a3 as [res|]; [|done].
  inv_bind HE. injection HE as <- <-. apply on_fps_ok in E1 as (d & Es & ->).
  destruct a3. apply MustSetFpStatus_ok in Es. exists a0, a2, c1, res, c2, d. by split_and!.
Qed.

Lemma unjail_finish_ok pk h h' a a' :
  UnjailFinalityProvider_finish pk h a = (Ok h', a') →
  ∃ btcPk d, MustToBTCPK pk = Ok btcPk ∧ h' = h
    ∧ SetFpStatus btcPk INACTIVE (app_fps a) = (Ok (), d) ∧ a' = app_with_fps d a.
Proof.
  unfold UnjailFinalityProvider_finish. intros HE. inv_bind HE. inv_bind HE.
  apply on_fps_ok in E1 as (d1 & Eg & ->). apply GetFinalityProvider_ok in Eg as [-> _].
  inv_bind HE. injection HE as <- <-. apply on_fps_ok in E1 as (d & Es & ->). destruct a2.
  exists a0, d. by split_and!.
Qed.

(** The instance reads the status of the store. *)
Lemma IsJailed_stored a o fp j fi' :
  stored (app_fps a) (SerializePubKey (sfp_BtcPk (own_sfp o))) fp →
  IsJailed (ins_view a o) = (Ok j, fi') → j = bool_decide (fp_Status fp = JAILED).
Proof.
  intros Hst (sfp & Hg & _ & ->)%IsJailed_ok. unfold fi_pk, GetBtcPk in Hg. simpl in Hg.
  destruct (GetFinalityProvider _ _) as [r d] eqn:Eg. simpl in Hg. subst r.
  apply GetFinalityProvider_ok in Eg as (_ & fp' & Hst' & Hp).
  rewrite (stored_det _ _ _ _ Hst' Hst) in Hp. by destruct (proto_status _ _ Hp) as (-> & _).
Qed.

(** C22: a successful unjailing: the chain had answered that the provider is
    jailed and not slashed, one unjail transaction was accepted and its hash is
    returned, and the stored record differs from the old one in its status,
    INACTIVE, alone; the other records, the EOTS manager and the instance are
    as before.  The loops of an instance for that key see the new status: it
    no longer counts as jailed. *)
Theorem unjail_effect pk txHash a a'
    (Hwf : store_wf (app_fps a))
    (Hrun : app_UnjailFinalityProvider pk a = (Ok txHash, a')) :
  ∃ btcPk st c1 res fp, MustToBTCPK pk = Ok btcPk
    ∧ cc_QueryFinalityProviderStatus btcPk (app_consumerCon a) = (Ok st, c1)
    ∧ sr_Slashed st = false ∧ sr_Jailed st = true
    ∧ cc_UnjailFinalityProvider btcPk c1 = (Ok (Some res), app_consumerCon a') ∧ TxHash res = txHash
    ∧ stored (app_fps a) (SerializePubKey btcPk) fp
    ∧ stored (app_fps a') (SerializePubKey btcPk) (with_status fp INACTIVE)
    ∧ (∀ k p, k ≠ SerializePubKey btcPk → stored (app_fps a') k p ↔ stored (app_fps a) k p)
    ∧ a' = app_with_fps (app_fps a') (app_with_con (app_consumerCon a') a)
    ∧ ∀ o j fi', app_fpIns a' = Some o → sfp_BtcPk (own_sfp o) = btcPk →
        IsJailed (ins_view a' o) = (Ok j, fi') → j = false.
Proof.
  unfold app_UnjailFinalityProvider in Hrun. inv_bind Hrun.
  apply unjail_loop_ok in E0 as (btcPk & st & c1 & res & c2 & d1 & Hpk & Hst & Hsl & Hj & Hu & Hh & Hs1 & ->).
  apply unjail_finish_ok in Hrun as (btcPk' & d2 & Hpk' & -> & Hs2 & ->). simpl in *.
  rewrite Hpk in Hpk'. injection Hpk' as <-. destruct (SetFpStatus_le _ _ _ _ _ Hwf Hs1) as [Hwf1 _].
  destruct (SetFpStatus_stored _ _ _ _ Hwf Hs1) as [(fp & Hfp & Hfp1) Hold1].
  destruct (SetFpStatus_stored _ _ _ _ Hwf1 Hs2) as [(fp' & Hfp' & Hfp2) Hold2].
  rewrite (stored_det _ _ _ _ Hfp' Hfp1) in Hfp2.
  exists btcPk, st, c1, res, fp. split_and!; try done.
  - intros k p Hk. by rewrite Hold2, Hold1.
  - intros o j fi' _ <- HJ.
    by rewrite (IsJailed_stored (app_with_fps d2 _) _ (with_status fp INACTIVE) _ _ Hfp2 HJ).
Qed.
(** *** Registration *)

Lemma CreatePop_ok addr pk pop a a' :
  CreatePop addr pk a = (Ok pop, a') →
  ∃ sig e, em_SignSchnorrSig pk (tmhash_Sum addr) (app_eotsManager a) = (Ok sig, e)
    ∧ pop = mkPop BTCSigType_BIP340 (NewBIP340SignatureFromBTCSig sig) ∧ a' = app_with_em e a.
Proof.
  unfold CreatePop. intros HE. inv_bind HE. injection HE as <- <-.
  apply on_em_ok in E0 as (e & He & ->). by exists a0, e.
Qed.

Lemma Address_ok name addr a a' :
  Address name a = (Ok addr, a') →
  ∃ k rest, kr_Key (app_kr a) (app_stdin a) name = (Ok k, rest) ∧ rec_Address k = Ok addr
    ∧ a' = app_with_stdin rest a.
Proof.
  unfold Address. destruct (kr_Key _ _ _) as [r rest]. intros [= HE <-].
  apply outcome_bind_ok in HE as (k & ->%wrap_err_ok & Ha%wrap_err_ok). by exists k, rest.
Qed.

(** What reading a record back says about the store. *)
Definition reads_back (btcPk : PublicKey) (i : FinalityProviderInfo) (d : D) : Prop :=
  ∃ sfp, GetFinalityProvider btcPk d = (Ok sfp, d) ∧ i = ToFinalityProviderInfo sfp.

(** Saving what the chain knows calls neither Babylon nor the EOTS manager. *)
Definition same_cc_em a a' : Prop :=
  app_cc a' = app_cc a ∧ app_eotsManager a' = app_eotsManager a.
#[export] Instance same_cc_em_preorder : PreOrder same_cc_em.
Proof. split; [done|]. intros a1 a2 a3 (?&?) (?&?). unfold same_cc_em. split; congruence. Qed.
Lemma on_fps_cc {A} (m : M D A) : preserves same_cc_em (on_fps m).
Proof. by apply preserves_zoom_any. Qed.
Lemma on_con_cc {A} (m : M C A) : preserves same_cc_em (on_con m).
Proof. by apply preserves_zoom_any. Qed.
#[local] Hint Resolve on_fps_cc on_con_cc : preserves.
Lemma putFp_cc now fp chainID : preserves same_cc_em (putFpFromResponse now fp chainID).
Proof. unfold putFpFromResponse. solve_preserves. Qed.

Lemma read_back_ok btcPk sfp a a' :
  on_fps (GetFinalityProvider btcPk) a = (Ok sfp, a') →
  a' = app_with_fps (app_fps a) a ∧ reads_back btcPk (ToFinalityProviderInfo sfp) (app_fps a').
Proof.
  intros (d & Eg & ->)%on_fps_ok. destruct (GetFinalityProvider_ok _ _ _ _ Eg) as [-> _].
  split; [done|]. by exists sfp.
Qed.

Lemma request_ok now keyName chainID eotsPk des com a r a' :
  CreateFinalityProvider_request now keyName chainID (Some eotsPk) des com a = (Ok r, a') →
  ∃ k rest addr sig e btcPk, kr_Key (app_kr a) (app_stdin a) keyName = (Ok k, rest)
    ∧ rec_Address k = Ok addr
    ∧ em_SignSchnorrSig eotsPk (tmhash_Sum addr) (app_eotsManager a) = (Ok sig, e)
    ∧ MustToBTCPK eotsPk = Ok btcPk ∧ app_eotsManager a' = e
    ∧ match r with
      | inl res => (∃ resp, bcc_QueryFinalityProvider btcPk (app_cc a) = (Ok resp, app_cc a'))
          ∧ cfres_TxHash res = "" ∧ reads_back btcPk (cfres_FpInfo res) (app_fps a')
      | inr req => (∃ err, bcc_QueryFinalityProvider btcPk (app_cc a) = (Err err, app_cc a')
            ∧ Contains (Error err) "the finality provider is not found" = true)
          ∧ req = mkCreateReq _ chainID addr eotsPk
                    (mkPop BTCSigType_BIP340 (NewBIP340SignatureFromBTCSig sig)) des com
          ∧ app_fps a' = app_fps a
      end.
Proof.
  unfold CreateFinalityProvider_request. intros HE. inv_bind HE. inv_bind HE.
  apply Address_ok in E1 as (k & rest & Hk & Ha & ->).
  unfold NewChainKeyringControllerWithKeyring in E0. case_bool_decide; [done|]. injection E0 as <-.
  inv_bind HE. apply CreatePop_ok in E0 as (sig & e & He & -> & ->). inv_bind HE. inv_bind HE.
  exists k, rest, a1, sig, e, a0. apply go_try_ok in E1. destruct a2 as [err|resp].
  - apply on_cc_ok in E1 as (b & Hq & ->). destruct (Contains _ _) eqn:Ec; [|done].
    injection HE as <- <-. split_and!; try done. by exists err.
  - apply on_cc_ok in E1 as (b & Hq & ->). inv_bind HE. apply putFp_cc in E1 as [Hb Hem].
    inv_bind HE. apply read_back_ok in E1 as [-> Hr]. injection HE as <- <-. simpl in *.
    split_and!; try done. exists resp. by rewrite Hb.
Qed.

(** What the loop sends to Babylon. *)
Lemma register_ok req h a a' :
  registrationLoop_handle req a = (Ok h, a') →
  ∃ popBytes desBytes btcPk tx b, marshal (cfr_pop req) = Ok popBytes
    ∧ marshal (cfr_description req) = Ok desBytes ∧ MustToBTCPK (cfr_btcPubKey req) = Ok btcPk
    ∧ bcc_RegisterFinalityProvider
        (mkRegisterReq _ _ (cfr_chainID req) btcPk popBytes (cfr_commission req) desBytes) (app_cc a)
      = (Ok (Some tx), b)
    ∧ TxHash tx = h ∧ a' = app_with_cc b a.
Proof.
  unfold registrationLoop_handle. intros HE. inv_bind HE. inv_bind HE. inv_bind HE. inv_bind HE.
  apply on_cc_ok in E3 as (b & Hr & ->). destruct a3 as [tx|]; [|done]. injection HE as <- <-.
  by exists a0, a1, a2, tx, b.
Qed.

Lemma finish_ok now req h res a a' :
  CreateFinalityProvider_finish now req h a = (Ok res, a') →
  ∃ btcPk, MustToBTCPK (cfr_btcPubKey req) = Ok btcPk ∧ cfres_TxHash res = h
    ∧ CreateFinalityProvider now (AccAddress_String (cfr_fpAddr req)) btcPk (cfr_description req)
        (cfr_commission req) (cfr_chainID req) (app_fps a) = (Ok (), app_fps a')
    ∧ reads_back btcPk (cfres_FpInfo res) (app_fps a')
    ∧ app_cc a' = app_cc a ∧ app_eotsManager a' = app_eotsManager a.
Proof.
  unfold CreateFinalityProvider_finish. intros HE. inv_bind HE. inv_bind HE.
  apply on_fps_ok in E1 as (d & Hc & ->). inv_bind HE. apply read_back_ok in E1 as [-> Hr].
  injection HE as <- <-. destruct a1. by exists a0.
Qed.

(** *** The statuses at start *)

(** The status the chain's answers imply. *)
Definition sync_answer (btcPk : PublicKey) (st : FinalityProviderStatus) : Prop :=
  ∃ (c c1 c2 : C) blk p, cc_QueryLatestBlock c = (Ok (Some blk), c1)
    ∧ cc_QueryFinalityProviderHasPower btcPk (blk_height blk) c1 = (Ok p, c2)
    ∧ if (p : bool) then st = ACTIVE
      else ∃ s c3, cc_QueryFinalityProviderStatus btcPk c2 = (Ok s, c3)
             ∧ st = if sr_Slashed s then SLASHED else if sr_Jailed s then JAILED else INACTIVE.

Definition sfp_key (sfp : StoredFinalityProvider) : bytes := SerializePubKey (sfp_BtcPk sfp).

(** The record of one provider was brought up to date. *)
Definition synced (sfp : StoredFinalityProvider) (fp : FinalityProvider) (d' : D) : Prop :=
  ∃ st, sync_answer (sfp_BtcPk sfp) st ∧ stored d' (sfp_key sfp) (with_status fp st).

Lemma sync_set sfp fp st a a1 u a' :
  store_wf (app_fps a) → stored (app_fps a) (sfp_key sfp) fp → app_fps a1 = app_fps a →
  on_fps (MustSetFpStatus (sfp_BtcPk sfp) st) a1 = (Ok u, a') → sync_answer (sfp_BtcPk sfp) st →
  store_wf (app_fps a') ∧ synced sfp fp (app_fps a')
  ∧ ∀ k p, k ≠ sfp_key sfp → stored (app_fps a') k p ↔ stored (app_fps a) k p.
Proof.
  intros Hwf Hst Ha (d & Hm & ->)%on_fps_ok Hans. rewrite Ha in Hm. destruct u.
  apply MustSetFpStatus_ok in Hm. destruct (SetFpStatus_le _ _ _ _ _ Hwf Hm) as [Hwf' _].
  destruct (SetFpStatus_stored _ _ _ _ Hwf Hm) as [(fp' & H1' & H2') Hold].
  rewrite (stored_det _ _ _ _ H1' Hst) in H2'. split_and!; [done|by exists st|done].
Qed.

Lemma syncStatus_ok sfp fp a u a' :
  store_wf (app_fps a) → stored (app_fps a) (sfp_key sfp) fp → sfp_Status sfp = fp_Status fp →
  syncStatus sfp a = (Ok u, a') →
  store_wf (app_fps a') ∧ synced sfp fp (app_fps a')
  ∧ ∀ k p, k ≠ sfp_key sfp → stored (app_fps a') k p ↔ stored (app_fps a) k p.
Proof.
  intros Hwf Hst Hs. unfold syncStatus. intros HE. inv_bind HE. apply go_try_ok in E0.
  destruct a0 as [e|[blk|]]; [done| |done]. apply on_con_ok in E0 as (c1 & Hl & ->).
  inv_bind HE. apply on_con_ok in E0 as (c2 & Hp & ->).
  destruct a0.
  - assert (sync_answer (sfp_BtcPk sfp) ACTIVE) as Hans by (by exists (app_consumerCon a), c1, c2, blk, true).
    case_bool_decide as Hac; simpl in HE.
    + injection HE as _ <-. split_and!; [done| |done]. exists ACTIVE. split; [done|]. simpl.
      rewrite <- Hac, Hs. by destruct fp.
    + by eapply (sync_set _ _ ACTIVE); [..|exact HE|exact Hans].
  - inv_bind HE. apply on_con_ok in E0 as (c3 & Hst3 & ->).
    assert (sync_answer (sfp_BtcPk sfp) (if sr_Slashed a0 then SLASHED
      else if sr_Jailed a0 then JAILED else INACTIVE)) as Hans
      by (exists (app_consumerCon a), c1, c2, blk, false; split_and!; [done..|by exists a0, c3]).
    destruct (sr_Slashed a0); [|destruct (sr_Jailed a0)]; by eapply sync_set; [..|exact HE|exact Hans].
Qed.

Lemma sync_fold_ok l a u a' :
  store_wf (app_fps a) → NoDup (sfp_key <$> l) →
  Forall (λ sfp, ∃ fp, stored (app_fps a) (sfp_key sfp) fp ∧ sfp_Status sfp = fp_Status fp) l →
  go_fold (λ _ fp, syncStatus fp) u l a = (Ok u, a') →
  (∀ sfp fp, sfp ∈ l → stored (app_fps a) (sfp_key sfp) fp → synced sfp fp (app_fps a'))
  ∧ ∀ k p, k ∉ sfp_key <$> l → stored (app_fps a') k p ↔ stored (app_fps a) k p.
Proof.
  revert a. induction l as [|sfp l IH]; intros a Hwf Hnd Hall HE; simpl in HE.
  { injection HE as <-. split; [by intros ?? []%not_elem_of_nil|done]. }
  inv_bind HE. apply Forall_cons in Hall as [(fp & Hst & Hs) Hall]. destruct u, a0.
  apply NoDup_cons in Hnd as [Hni Hnd].
  destruct (syncStatus_ok _ _ _ _ _ Hwf Hst Hs E0) as (Hwf1 & Hsy & Hold).
  destruct (IH s Hwf1 Hnd) as [Hsync Hrest]; [|done|].
  { apply Forall_forall. intros x Hx. rewrite Forall_forall in Hall.
    destruct (Hall x Hx) as (fpx & Hfx & Hsx). exists fpx. split; [|done]. apply Hold; [|done].
    intros Heq. apply Hni. rewrite <- Heq. by apply list_elem_of_fmap_2. }
  split.
  - intros x fpx Hx Hfx. apply elem_of_cons in Hx as [->|Hx].
    + rewrite (stored_det _ _ _ _ Hfx Hst). destruct Hsy as (st & Hans & Hst').
      exists st. split; [done|]. by apply Hrest.
    + apply Hsync; [done|]. apply Hold; [|done]. intros Heq. apply Hni. rewrite <- Heq.
      by apply list_elem_of_fmap_2.
  - intros k p [Hk1 Hk2]%not_elem_of_cons. by rewrite Hrest, Hold.
Qed.
Definition entry_sfp (kv : bytes * bytes) (sfp : StoredFinalityProvider) : Prop :=
  ∃ fp, unmarshal kv.2 = Ok fp ∧ protoFpToStoredFinalityProvider fp = Ok sfp.

Lemma storedFps_ok entries l : storedFps entries = Ok l → Forall2 entry_sfp entries l.
Proof.
  revert l. induction entries as [|[k v] rest IH]; intros l HE; simpl in HE.
  { injection HE as <-. constructor. }
  apply outcome_bind_ok in HE as (fp & Hu & HE). apply outcome_bind_ok in HE as (sfp & Hp & HE).
  apply outcome_bind_ok in HE as (l' & Hl & [= <-]). constructor; [|by apply IH].
  exists fp. split; [|done]. simpl. by destruct (unmarshal v).
Qed.

Lemma GetAll_ok d l d' :
  store_wf d → GetAllStoredFinalityProviders d = (Ok l, d') →
  d' = d ∧ NoDup (sfp_key <$> l)
  ∧ Forall (λ sfp, ∃ fp, stored d (sfp_key sfp) fp ∧ sfp_Status sfp = fp_Status fp) l
  ∧ ∀ k fp, stored d k fp → ∃ sfp, sfp ∈ l ∧ sfp_key sfp = k.
Proof.
  intros Hk. unfold GetAllStoredFinalityProviders. intros [HE ->]%go_wrap_ok%kv_view_ok.
  destruct (kv_has d _); [|done]. apply storedFps_ok in HE.
  assert (Forall2 (λ kv sfp, sfp_key sfp = kv.1 ∧ ∃ fp, stored d kv.1 fp
    ∧ sfp_Status sfp = fp_Status fp) (kv_entries d finalityProviderBucketName) l) as Hall.
  { apply Forall2_same_length_lookup_2; [by eapply Forall2_length|].
    intros i [k v] sfp Hkv Hsfp. destruct (Forall2_lookup_lr _ _ _ _ _ _ HE Hkv Hsfp) as (fp & Hu & Hp).
    apply list_elem_of_lookup_2, kv_entries_get in Hkv.
    assert (stored d k fp) as Hst by (by exists v). pose proof (Hk _ _ Hst) as Hb.
    destruct (proto_status _ _ Hp) as (Hs & _ & _ & Hpk). rewrite Hb in Hpk.
    unfold sfp_key. rewrite (schnorr_pk_parsed _ _ Hpk). split; [done|]. by exists fp. }
  split; [done|]. split_and!.
  - assert (sfp_key <$> l = (kv_entries d finalityProviderBucketName).*1) as ->.
    { clear HE. induction Hall as [|kv sfp es l [He _] _ IH]; [done|]. csimpl. by rewrite He, IH. }
    apply sorted_keys_NoDup, kv_entries_sorted.
  - apply Forall_forall. intros sfp (i & Hi)%list_elem_of_lookup_1.
    destruct (Forall2_lookup_r _ _ _ _ _ Hall Hi) as (kv & _ & -> & fp & Hst). by exists fp.
  - intros k fp (v & Hv & _). apply kv_entries_get, list_elem_of_lookup_1 in Hv as [i Hi].
    destruct (Forall2_lookup_l _ _ _ _ _ Hall Hi) as (sfp & Hs & Hkey & _).
    exists sfp. split; [by eapply list_elem_of_lookup_2|done].
Qed.

(** C21: a start of the daemon that succeeds has asked the chain about every
    stored finality provider, and the stored status of each is the one the
    answers imply (ACTIVE with voting power; else SLASHED, JAILED or INACTIVE),
    the rest of its record unchanged, no record being added or removed; the
    event loops run then. *)
Theorem startup_sync a u a'
    (Hwf : store_wf (app_fps a)) (Hfirst : app_started a = false)
    (Hrun : app_Start a = (Ok u, a')) :
  app_loops a' = true
  ∧ (∀ k fp, stored (app_fps a) k fp → ∃ pk st, k = SerializePubKey pk
       ∧ sync_answer pk st ∧ stored (app_fps a') k (with_status fp st))
  ∧ ∀ k fp', stored (app_fps a') k fp' → ∃ fp, stored (app_fps a) k fp.
Proof.
  unfold app_Start in Hrun. inv_bind Hrun. rewrite Hfirst in Hrun. inv_bind Hrun.
  injection E0 as _ <-. inv_bind Hrun. inv_bind Hrun. injection Hrun as _ <-.
  unfold syncAllFinalityProvidersStatus in E0. inv_bind E0. apply on_fps_ok in E1 as (d & Hall & ->).
  apply GetAll_ok in Hall as (-> & Hnd & Hl & Hin); [|done]. destruct a1.
  destruct (sync_fold_ok _ (app_with_fps _ (app_with_once _ _ _ a)) _ _ Hwf Hnd Hl E0) as [Hsync Hrest]. simpl in *.
  split_and!; [done| |].
  - intros k fp Hst. destruct (Hin _ _ Hst) as (sfp & Hsl & <-).
    destruct (Hsync _ _ Hsl Hst) as (st & Hans & Hst'). by exists (sfp_BtcPk sfp), st.
  - intros k fp' Hst. destruct (decide (k ∈ sfp_key <$> a2)) as [Hk|Hk].
    + apply list_elem_of_fmap in Hk as (sfp & -> & Hs). rewrite Forall_forall in Hl.
      destruct (Hl _ Hs) as (fp & Hfp & _). by exists fp.
    + exists fp'. by apply Hrest.
Qed.
End requests.

(** ** Witnesses *)

Module RequestsWitness.
Import AppToy.

(** A provider the chain has jailed. *)
Definition w_jailed : MapDb.db := (SetFpStatus toy_key JAILED toy_fp_db).2.
Definition w_a := toy_app (toy_tc [] 0) w_jailed.
Definition w_unjail := app_UnjailFinalityProvider (toy_pk true) w_a.

Lemma w_jailed_wf : store_wf w_jailed.
Proof. apply (SetFpStatus_le toy_key JAILED _ _ _ toy_fp_wf (surjective_pairing _)). Qed.

Lemma unjail_effect_witness :
  w_unjail = (Ok "unjail", w_unjail.2)
  ∧ ∃ fp, stored (app_fps w_unjail.2) (toy_pk true) (with_status fp INACTIVE).
Proof.
  assert (E : w_unjail = (Ok "unjail", w_unjail.2)) by (apply run_eq; vm_eq).
  split; [exact E|]. unfold w_unjail at 1 in E.
  destruct (unjail_effect (toy_pk true) "unjail" w_a w_unjail.2 w_jailed_wf E)
    as (btcPk & st & c1 & res & fp & Hpk & _ & _ & _ & _ & _ & _ & Hst & _).
  injection Hpk as <-. exists fp. exact Hst.
Defined.

(** A new provider. *)
Definition w_new := toy_app (toy_tc [] 0) toy_fp_db0.
Definition w_created :=
  app_CreateFinalityProvider 7 "fp" "bbn-1" (Some (toy_pk true)) toy_des toy_com w_new.
Definition w_res : CreateFinalityProviderResult :=
  ok_or (mkCreateResult (ToFinalityProviderInfo toy_sfp) "") w_created.1.


Definition w_sync := app_Start w_a.

Lemma startup_sync_witness :
  w_sync = (Ok (), w_sync.2) ∧ app_loops w_sync.2 = true.
Proof.
  assert (E : w_sync = (Ok (), w_sync.2)) by (apply run_eq; vm_eq).
  split; [exact E|]. unfold w_sync at 1 in E.
  exact (proj1 (startup_sync w_a () w_sync.2 w_jailed_wf eq_refl E)).
Defined.
End RequestsWitness.
