(* ===== verification/RequestLoops.v ===== *)
(** * The request loops of the daemon (src/finality-provider/service/app.go, event_loops.go)

    [registrationLoop] and [unjailFpLoop] are goroutines that take requests
    from an unbuffered channel; the caller ([CreateFinalityProvider],
    [UnjailFinalityProvider]) hands its request over and waits on two response
    channels of capacity one that belong to the request.  This file models
    both as one protocol over the three parts of a call: up to the hand-over
    ([prepare]), in the loop ([handle]) and after the response ([finish]).
    An event is one scheduling choice; a run is a list of events.

    The protocol is generic in the three parts; the last section is the
    protocol of the two loops of [App].  A panic of a caller or of the loop
    ends the process. *)

From Stdlib Require Import NArith ZArith Lia.
From stdpp Require Import base gmap strings list relations sorting.
From S2P Require Import Prelude Kvdb External Config Toy EotsStore EotsApi LocalManager PubRandStore.
From S2P Require Import FpStore ChainApi FinalitySubmitter RandCommitter Bootstrap ChainPoller FpInstance App.

(** ** The protocol *)

(** Where a caller is.  The two response channels of its request hold at most
    one value together: [answer] is an error or a response. *)
Inductive caller_pc (Req Resp Out : Type) : Type :=
| Calling
| Sending (req : Req)
| Waiting (req : Req) (answer : option (error + Resp))
| Returned (result : outcome Out).
Arguments Calling {Req Resp Out}.
Arguments Sending {Req Resp Out} req.
Arguments Waiting {Req Resp Out} req answer.
Arguments Returned {Req Resp Out} result.

(** Where the loop is: [Start] has not launched it, it is at its [select], it
    works on the request of a caller, it has returned. *)
Inductive loop_pc (Req : Type) : Type :=
| NotStarted
| Selecting
| Handling (i : nat) (req : Req)
| Exited.
Arguments NotStarted {Req}.
Arguments Selecting {Req}.
Arguments Handling {Req} i req.
Arguments Exited {Req}.

(** [served] is the history of the requests that the loop has finished. *)
Record sys (St Arg Req Resp Out : Type) := mkSys {
  sys_state : St;
  sys_callers : list (Arg * caller_pc Req Resp Out);
  sys_loop : loop_pc Req;
  sys_cancelled : bool;
  sys_crashed : bool;
  sys_served : list (nat * Req * (error + Resp))
}.
Arguments mkSys {St Arg Req Resp Out}.
Arguments sys_state {St Arg Req Resp Out}.
Arguments sys_callers {St Arg Req Resp Out}.
Arguments sys_loop {St Arg Req Resp Out}.
Arguments sys_cancelled {St Arg Req Resp Out}.
Arguments sys_crashed {St Arg Req Resp Out}.
Arguments sys_served {St Arg Req Resp Out}.

Inductive event :=
| EvStart             (* Start launches the loop *)
| EvCall (i : nat)    (* a caller runs up to its send *)
| EvHandOver (i : nat) (* the loop takes the request of a caller *)
| EvHandle            (* the loop handles it and answers *)
| EvReceive (i : nat) (* a caller takes its answer and returns *)
| EvAbandon (i : nat) (err : error) (* the context of a waiting caller ends *)
| EvCancel            (* the context of the loops ends *)
| EvExit.             (* the loop sees that and returns *)

Section protocol.
Context {St Arg Req Resp Out : Type}.
Variable prepare : Arg → M St (Out + Req).
Variable handle : Req → M St Resp.
Variable finish : Arg → Req → Resp → M St Out.
(** Whether the [select] of the caller has a branch for its context. *)
Variable listens : bool.

#[local] Abbreviation pc := (caller_pc Req Resp Out).
#[local] Abbreviation system := (sys St Arg Req Resp Out).
Implicit Types s : system.

Definition with_caller (i : nat) (c : Arg * pc) s : system :=
  mkSys (sys_state s) (<[i := c]> (sys_callers s)) (sys_loop s) (sys_cancelled s) (sys_crashed s)
    (sys_served s).
Definition with_loop (l : loop_pc Req) s : system :=
  mkSys (sys_state s) (sys_callers s) l (sys_cancelled s) (sys_crashed s) (sys_served s).
Definition with_state (st : St) s : system :=
  mkSys st (sys_callers s) (sys_loop s) (sys_cancelled s) (sys_crashed s) (sys_served s).
Definition crash s : system :=
  mkSys (sys_state s) (sys_callers s) (sys_loop s) (sys_cancelled s) true (sys_served s).

(** The caller goes on to [pc'] with an outcome that is not a panic. *)
Definition caller_step (i : nat) (a : Arg) (st : St) (o : outcome pc) s : system :=
  match o with
  | Ok pc' => with_caller i (a, pc') (with_state st s)
  | Err e => with_caller i (a, Returned (Err e)) (with_state st s)
  | Crash _ => crash (with_state st s)
  end.

Definition after_prepare (r : Out + Req) : pc :=
  match r with inl out => Returned (Ok out) | inr req => Sending req end.

(** The answer of the loop: into the channel of a caller that waits, into a
    channel that nobody reads any more otherwise. *)
Definition deliver (i : nat) (ans : error + Resp) s : system :=
  match sys_callers s !! i with
  | Some (a, Waiting req None) => with_caller i (a, Waiting req (Some ans)) s
  | _ => s
  end.

Definition log_served (i : nat) (req : Req) (ans : error + Resp) s : system :=
  mkSys (sys_state s) (sys_callers s) (sys_loop s) (sys_cancelled s) (sys_crashed s)
    (sys_served s ++ [(i, req, ans)]).

Definition answer_with (i : nat) (req : Req) (ans : error + Resp) (st : St) s : system :=
  deliver i ans (log_served i req ans (with_loop Selecting (with_state st s))).

(** What an event does, if the code allows it there. *)
Definition proto_step (e : event) s : option system :=
  if sys_crashed s then None else
  match e with
  | EvStart => if sys_loop s is NotStarted then Some (with_loop Selecting s) else None
  | EvCall i =>
      match sys_callers s !! i with
      | Some (a, Calling) =>
          let '(r, st) := prepare a (sys_state s) in Some (caller_step i a st (after_prepare <$> r) s)
      | _ => None
      end
  | EvHandOver i =>
      match sys_callers s !! i, sys_loop s with
      | Some (a, Sending req), Selecting =>
          Some (with_caller i (a, Waiting req None) (with_loop (Handling i req) s))
      | _, _ => None
      end
  | EvHandle =>
      match sys_loop s with
      | Handling i req =>
          match handle req (sys_state s) with
          | (Ok resp, st) => Some (answer_with i req (inr resp) st s)
          | (Err err, st) => Some (answer_with i req (inl err) st s)
          | (Crash _, st) => Some (crash (with_state st s))
          end
      | _ => None
      end
  | EvReceive i =>
      match sys_callers s !! i with
      | Some (a, Waiting req (Some (inl err))) => Some (with_caller i (a, Returned (Err err)) s)
      | Some (a, Waiting req (Some (inr resp))) =>
          let '(r, st) := finish a req resp (sys_state s) in
          Some (caller_step i a st ((λ out, Returned (Ok out)) <$> r) s)
      | _ => None
      end
  | EvAbandon i err =>
      match sys_callers s !! i with
      | Some (a, Waiting _ _) =>
          if listens then
            Some (with_caller i
                    (a, Returned (Err (wrapf "finality-provider app is shutting down" err))) s)
          else None
      | _ => None
      end
  | EvCancel =>
      if sys_cancelled s then None
      else Some (mkSys (sys_state s) (sys_callers s) (sys_loop s) true (sys_crashed s) (sys_served s))
  | EvExit =>
      if sys_loop s is Selecting then
        if sys_cancelled s then Some (with_loop Exited s) else None
      else None
  end.

Fixpoint run (evs : list event) s : option system :=
  match evs with
  | [] => Some s
  | e :: evs' => s' ← proto_step e s; run evs' s'
  end.

(** Callers with the given arguments, before the daemon starts. *)
Definition init (st : St) (args : list Arg) : system :=
  mkSys st ((λ a, (a, Calling)) <$> args) NotStarted false false [].

(** The call as one sequence, with nothing in between. *)
Definition call_alone (a : Arg) : M St Out :=
  r ← prepare a;
  match r with
  | inl out => mret out
  | inr req => resp ← handle req; finish a req resp
  end.

Definition returned (c : Arg * pc) : bool :=
  match c.2 with Returned _ => true | _ => false end.

(** *** Every run is finite *)

Definition rank (c : Arg * pc) : nat :=
  match c.2 with Calling => 5 | Sending _ => 4 | Waiting _ _ => 1 | Returned _ => 0 end.
Definition loop_rank (l : loop_pc Req) : nat :=
  match l with NotStarted => 2 | Selecting => 1 | Handling _ _ => 2 | Exited => 0 end.
(** The events that are left at most. *)
Definition left_over s : nat :=
  if sys_crashed s then 0
  else 1 + sum_list_with rank (sys_callers s) + loop_rank (sys_loop s)
       + (if sys_cancelled s then 0 else 1).

Lemma sum_list_with_insert {A} (f : A → nat) (l : list A) i x y :
  l !! i = Some x → sum_list_with f (<[i := y]> l) + f x = sum_list_with f l + f y.
Proof.
  revert i. induction l as [|z l IH]; intros [|i] Hi; simplify_eq/=; [lia|].
  specialize (IH _ Hi). lia.
Qed.

Lemma left_over_deliver i ans s : left_over (deliver i ans s) = left_over s.
Proof.
  unfold deliver. destruct (_ !! i) as [[a [|req|req [x|]|r]]|] eqn:Hi; try done.
  unfold left_over. simpl. destruct (sys_crashed s); [done|].
  pose proof (sum_list_with_insert rank _ _ _ (a, Waiting req (Some ans)) Hi) as Hs.
  unfold rank at 2 4 in Hs. simpl in Hs. lia.
Qed.

(** Moving a caller on uses up its rank. *)
Lemma left_over_caller i c c' s :
  sys_callers s !! i = Some c → sys_crashed s = false →
  left_over (with_caller i c' s) + rank c = left_over s + rank c'.
Proof.
  intros Hi Hc. unfold left_over. simpl. rewrite Hc.
  pose proof (sum_list_with_insert rank _ _ _ c' Hi). lia.
Qed.

Lemma left_over_caller_step i a c st (o : outcome pc) s :
  sys_callers s !! i = Some (a, c) → sys_crashed s = false →
  (∀ pc', o = Ok pc' → rank (a, pc') < rank (a, c)) → 0 < rank (a, c) →
  left_over (caller_step i a st o s) < left_over s.
Proof.
  intros Hi Hc Ho H0. assert (left_over (with_state st s) = left_over s) as Hst by done.
  destruct o as [pc'|e|w]; simpl.
  - specialize (Ho _ eq_refl). pose proof (left_over_caller i _ (a, pc') (with_state st s) Hi Hc). lia.
  - pose proof (left_over_caller i _ (a, Returned (Err e)) (with_state st s) Hi Hc) as Hl.
    change (rank (a, Returned (Err e))) with 0 in Hl. lia.
  - unfold left_over. simpl. rewrite Hc. lia.
Qed.

Lemma step_decreases e s s' : proto_step e s = Some s' → left_over s' < left_over s.
Proof.
  unfold proto_step. destruct (sys_crashed s) eqn:Hc; [done|].
  destruct e as [|i|i| |i|i err| |].
  - destruct (sys_loop s) eqn:Hl; intros [= <-]. unfold left_over. simpl. rewrite Hc, Hl. simpl. lia.
  - destruct (_ !! i) as [[a []]|] eqn:Hi; try done. destruct (prepare _ _) as [r st].
    intros [= <-]. eapply left_over_caller_step; [done..| |unfold rank; simpl; lia].
    intros pc' Hpc. destruct r as [[out|req]|?|?]; simplify_eq/=; unfold rank; simpl; lia.
  - destruct (_ !! i) as [[a [|req| |]]|] eqn:Hi; try done. destruct (sys_loop s) eqn:Hl; try done.
    intros [= <-].
    pose proof (left_over_caller i _ (a, Waiting req None) (with_loop (Handling i req) s) Hi Hc) as H1.
    assert (left_over (with_loop (Handling i req) s) = left_over s + 1) as H2.
    { unfold left_over. simpl. rewrite Hc, Hl. simpl. lia. }
    unfold rank in H1. simpl in H1. lia.
  - destruct (sys_loop s) as [| |i req|] eqn:Hl; try done.
    destruct (handle _ _) as [[resp|err|w] st]; intros [= <-].
    1,2: unfold answer_with; rewrite left_over_deliver; unfold left_over; simpl; rewrite Hc, Hl; simpl; lia.
    unfold left_over. simpl. rewrite Hc. lia.
  - destruct (_ !! i) as [[a [| |req [[err|resp]|]|]]|] eqn:Hi; try done.
    + intros [= <-]. pose proof (left_over_caller i _ (a, Returned (Err err)) s Hi Hc) as H1.
      unfold rank in H1. simpl in H1. lia.
    + destruct (finish _ _ _ _) as [r st]. intros [= <-].
      eapply left_over_caller_step; [done..| |unfold rank; simpl; lia].
      intros pc' Hpc. destruct r; simplify_eq/=; unfold rank; simpl; lia.
  - destruct (_ !! i) as [[a [| |req ans|]]|] eqn:Hi; try done. destruct listens; [|done].
    intros [= <-].
    match goal with |- left_over (with_caller _ ?c _) < _ =>
      pose proof (left_over_caller i _ c s Hi Hc) as H1 end.
    unfold rank in H1. simpl in H1. lia.
  - destruct (sys_cancelled s) eqn:Hx; intros [= <-].
    unfold left_over. simpl. rewrite Hc, Hx. lia.
  - destruct (sys_loop s) eqn:Hl; try done. destruct (sys_cancelled s); intros [= <-].
    unfold left_over. simpl. rewrite Hc, Hl. simpl. lia.
Qed.

Lemma run_bounded evs s s' : run evs s = Some s' → length evs + left_over s' ≤ left_over s.
Proof.
  revert s. induction evs as [|e evs IH]; intros s HE; simplify_eq/=; [lia|].
  apply bind_Some in HE as (s1 & H1%step_decreases & H2%IH). lia.
Qed.

Lemma left_over_init st args : left_over (init st args) = 5 * length args + 4.
Proof.
  unfold left_over, init. simpl.
  assert (sum_list_with rank ((λ a, (a, Calling : pc)) <$> args) = 5 * length args) as ->; [|lia].
  induction args as [|a args IH]; [done|]. rewrite fmap_cons. simpl sum_list_with. rewrite IH.
  unfold rank. simpl. lia.
Qed.

(** *** Whose answer a caller gets *)

Definition from (a : Arg) (req : Req) : Prop := ∃ st st', prepare a st = (Ok (inr req), st').
Definition answer_of (ans : error + Resp) : outcome Resp :=
  match ans with inl err => Err err | inr resp => Ok resp end.
Definition handled (req : Req) (ans : error + Resp) : Prop :=
  ∃ st st', handle req st = (answer_of ans, st').
Definition ids s : list nat := (λ x, x.1.1) <$> sys_served s.

(** What a caller that has returned was given: the result of its own
    [prepare], the answer of the loop to its own request, or the end of its
    context. *)
Definition result_of s (i : nat) (a : Arg) (r : outcome Out) : Prop :=
  (∃ st st' r', prepare a st = (r', st')
     ∧ ((∃ out, r' = Ok (inl out) ∧ r = Ok out) ∨ (∃ err, r' = Err err ∧ r = Err err)))
  ∨ (∃ req err, (i, req, inl err) ∈ sys_served s ∧ r = Err err)
  ∨ (∃ req resp st st', (i, req, inr resp) ∈ sys_served s ∧ finish a req resp st = (r, st'))
  ∨ (listens = true ∧ ∃ err, r = Err (wrapf "finality-provider app is shutting down" err)).

Definition untaken s (i : nat) : Prop := (i ∉ ids s) ∧ ∀ req, sys_loop s ≠ Handling i req.

Definition caller_inv s (i : nat) (a : Arg) (c : pc) : Prop :=
  match c with
  | Calling => untaken s i
  | Sending req => untaken s i ∧ from a req
  | Waiting req None => from a req ∧ sys_loop s = Handling i req
  | Waiting req (Some ans) => from a req ∧ (i, req, ans) ∈ sys_served s
  | Returned r => result_of s i a r
  end.

Record protocol_inv s : Prop := mkPInv {
  pi_once : NoDup (ids s);
  pi_caller i a c : sys_callers s !! i = Some (a, c) → caller_inv s i a c;
  pi_loop i req : sys_loop s = Handling i req →
    (i ∉ ids s) ∧ ∃ a c, sys_callers s !! i = Some (a, c) ∧ from a req;
  pi_served i req ans : (i, req, ans) ∈ sys_served s →
    handled req ans ∧ ∃ a c, sys_callers s !! i = Some (a, c) ∧ from a req
}.

Lemma init_inv st args : protocol_inv (init st args).
Proof.
  split; simpl; [constructor| |done|by intros ????%elem_of_nil].
  intros i a c Hi. apply list_lookup_fmap_Some in Hi as (a' & ? & ?). simplify_eq.
  split; [apply not_elem_of_nil|done].
Qed.

(** The invariant reads the callers, the loop and the history only, and the
    callers that are mentioned by the loop and the history only by number and
    argument. *)
Lemma inv_move_caller s s' i a c c' :
  protocol_inv s → sys_callers s !! i = Some (a, c) →
  sys_callers s' = <[i := (a, c')]> (sys_callers s) → sys_loop s' = sys_loop s →
  sys_served s' = sys_served s → caller_inv s i a c' → protocol_inv s'.
Proof.
  intros [H1 H2 H3 H4] Hi Hcs Hl Hs Hc'.
  assert (∀ j b d, caller_inv s j b d → caller_inv s' j b d) as Hsame.
  { intros j b d. destruct d as [|req|req [ans|]|r]; simpl; unfold untaken, ids, result_of;
      rewrite ?Hl, ?Hs; done. }
  assert (∀ j b req, (∃ d, sys_callers s !! j = Some (b, d) ∧ from b req) →
    ∃ d, sys_callers s' !! j = Some (b, d) ∧ from b req) as Hkeep.
  { intros j b req (d & Hj & Hf). rewrite Hcs. destruct (decide (i = j)) as [<-|Hne].
    - exists c'. rewrite Hi in Hj. simplify_eq. split; [|done].
      apply list_lookup_insert_eq, lookup_lt_is_Some. by eexists.
    - exists d. by rewrite list_lookup_insert_ne. }
  split; unfold ids; rewrite ?Hl, ?Hs; [done| | |].
  - intros j b d. rewrite Hcs. intros [(<- & E & _)|(_ & Hj)]%list_lookup_insert_Some.
    + simplify_eq. by apply Hsame.
    + apply Hsame. by apply H2.
  - intros j req Hj. destruct (H3 j req Hj) as (Hn & b & Hb). eauto.
  - intros j req ans Hj. destruct (H4 j req ans Hj) as (Hh & b & Hb). eauto.
Qed.

Lemma inv_same s s' :
  protocol_inv s → sys_callers s' = sys_callers s → sys_loop s' = sys_loop s →
  sys_served s' = sys_served s → protocol_inv s'.
Proof.
  intros [H1 H2 H3 H4] Hcs Hl Hs.
  split; unfold ids; rewrite ?Hcs, ?Hl, ?Hs; [done| |done..].
  intros j b d Hj%H2. destruct d as [|req|req [ans|]|r]; simpl in *; unfold untaken, ids, result_of in *;
    by rewrite ?Hl, ?Hs.
Qed.

Lemma inv_caller_step s i a c st o :
  protocol_inv s → sys_callers s !! i = Some (a, c) →
  (∀ pc', o = Ok pc' → caller_inv s i a pc') → (∀ e, o = Err e → result_of s i a (Err e)) →
  protocol_inv (caller_step i a st o s).
Proof.
  intros HI Hi Hok Herr. destruct o as [pc'|e|w]; simpl.
  - by eapply inv_move_caller; [done|done|..]; try done; apply Hok.
  - by eapply inv_move_caller; [done|done|..]; try done; apply Herr.
  - by eapply inv_same.
Qed.

(** The loop takes a request. *)
Lemma inv_hand_over s i a req :
  protocol_inv s → sys_callers s !! i = Some (a, Sending req) → sys_loop s = Selecting →
  protocol_inv (with_caller i (a, Waiting req None) (with_loop (Handling i req) s)).
Proof.
  intros [H1 H2 H3 H4] Hi Hl. destruct (H2 _ _ _ Hi) as [[Hid _] Hf].
  assert (i < length (sys_callers s)) as Hlt by (apply lookup_lt_is_Some; by eexists).
  split; simpl; [done| | |].
  - intros j b d [(<- & E & _)|(Hne & Hj)]%list_lookup_insert_Some; [by simplify_eq|].
    apply H2 in Hj. destruct d as [|req'|req' [ans|]|r]; simpl in *; unfold untaken in *; simpl in *;
      try done; [| |by rewrite Hl in Hj; destruct Hj].
    + destruct Hj as [? _]. split; [done|congruence].
    + destruct Hj as [[? _] ?]. split; [split; [done|congruence]|done].
  - intros j req' [= <- <-]. split; [done|]. exists a. eexists.
    by rewrite list_lookup_insert_eq.
  - intros j req' ans Hs. destruct (H4 _ _ _ Hs) as (Hh & b & d & Hb & Hfb). split; [done|].
    exists b. destruct (decide (i = j)) as [<-|Hne].
    + rewrite list_lookup_insert_eq by done. simplify_eq. eauto.
    + rewrite list_lookup_insert_ne by done. eauto.
Qed.

(** The loop answers it. *)
Lemma served_result s i req ans j a r st :
  result_of s j a r → result_of (log_served i req ans (with_loop Selecting (with_state st s))) j a r.
Proof.
  intros [H|[(q & e & Hq & He)|[(q & x & st1 & st2 & Hq & Hf)|H]]].
  - by left.
  - right; left. exists q, e. split; [|done]. apply elem_of_app. by left.
  - right; right; left. exists q, x, st1, st2. split; [|done]. apply elem_of_app. by left.
  - by right; right; right.
Qed.

Lemma inv_log s i req ans st st1 :
  protocol_inv s → sys_loop s = Handling i req → handle req (sys_state s) = (answer_of ans, st1) →
  let s1 := log_served i req ans (with_loop Selecting (with_state st s)) in
  NoDup (ids s1)
  ∧ (∀ j a c, sys_callers s !! j = Some (a, c) → c ≠ Waiting req None → caller_inv s1 j a c)
  ∧ (∀ j q x, (j, q, x) ∈ sys_served s1 →
       handled q x ∧ ∃ a c, sys_callers s !! j = Some (a, c) ∧ from a q).
Proof.
  intros [H1 H2 H3 H4] Hl Hh s1. destruct (H3 _ _ Hl) as (Hid & b & d & Hb & Hf).
  assert (ids s1 = ids s ++ [i]) as Hids by (unfold ids; simpl; by rewrite fmap_app).
  split_and!.
  - rewrite Hids. apply NoDup_app. split_and!; [done| |apply NoDup_singleton].
    intros x Hx ->%list_elem_of_singleton. done.
  - intros j a c Hj Hne. pose proof (H2 _ _ _ Hj) as Hc.
    assert (untaken s j → untaken s1 j) as Hun.
    { intros [Hn Hloop]. split; [|done]. rewrite Hids. rewrite elem_of_app, list_elem_of_singleton.
      intros [?| ->]; [done|]. by eapply Hloop. }
    destruct c as [|q|q [x|]|r]; simpl in Hc |- *.
    + by apply Hun.
    + destruct Hc. split; [by apply Hun|done].
    + destruct Hc. split; [done|]. apply elem_of_app. by left.
    + destruct Hc as [_ Hq]. rewrite Hl in Hq. by simplify_eq.
    + by apply served_result.
  - intros j q x [Hq|Hq]%elem_of_app; [by apply H4|]. apply list_elem_of_singleton in Hq. simplify_eq.
    split; [by exists (sys_state s), st1|]. by exists b, d.
Qed.

Lemma inv_answer s i req ans st st1 :
  protocol_inv s → sys_loop s = Handling i req → handle req (sys_state s) = (answer_of ans, st1) →
  protocol_inv (answer_with i req ans st s).
Proof.
  intros HI Hl Hh. destruct (inv_log s i req ans st st1 HI Hl Hh) as (Hnd & Hcs & Hsv).
  assert (∀ j a, sys_callers s !! j = Some (a, Waiting req None) → j = i) as Hown.
  { intros j a Hj%(pi_caller _ HI). destruct Hj as [_ Hj]. congruence. }
  unfold answer_with, deliver. simpl. destruct (sys_callers s !! i) as [[a c]|] eqn:Hi.
  2: { destruct (pi_loop _ HI _ _ Hl) as (_ & a & c & Hac & _). congruence. }
  destruct c as [|q|q [x|]|r]; try (split; try done; simpl; intros j b d Hj; apply Hcs; [done|];
    intros ->; apply Hown in Hj as Hji; subst j; congruence).
  destruct (pi_caller _ HI _ _ _ Hi) as [Hf Hq]. rewrite Hl in Hq. simplify_eq.
  assert (i < length (sys_callers s)) as Hlt by (apply lookup_lt_is_Some; by eexists).
  split; try done; simpl.
  - intros j b d [(<- & E & _)|(Hne & Hj)]%list_lookup_insert_Some.
    + simplify_eq. split; [done|]. apply elem_of_app. right. by apply list_elem_of_singleton.
    + apply Hcs; [done|]. intros ->. apply Hne. symmetry. by eapply Hown.
  - intros j q' x' Hj. destruct (Hsv _ _ _ Hj) as (Hh' & b & d & Hb & Hfb). split; [done|].
    exists b. destruct (decide (i = j)) as [<-|Hne].
    + rewrite list_lookup_insert_eq by done. simplify_eq. eauto.
    + rewrite list_lookup_insert_ne by done. eauto.
Qed.

Lemma inv_prepare s i a r st :
  protocol_inv s → sys_callers s !! i = Some (a, Calling) → prepare a (sys_state s) = (r, st) →
  protocol_inv (caller_step i a st (after_prepare <$> r) s).
Proof.
  intros HI Hi Hp. eapply inv_caller_step; [done|done| |].
  - intros pc' Hpc. destruct r as [[out|req]|?|?]; simplify_eq/=.
    + left. eexists _, _, _. split; [done|]. left. eauto.
    + split; [by apply (pi_caller _ HI) in Hi|by eexists _, _].
  - intros e He. destruct r as [x|?|?]; simplify_eq/=. left. eexists _, _, _. split; [done|].
    right. eauto.
Qed.

Lemma inv_finish s i a req resp r st :
  protocol_inv s → sys_callers s !! i = Some (a, Waiting req (Some (inr resp))) →
  finish a req resp (sys_state s) = (r, st) →
  protocol_inv (caller_step i a st ((λ out, Returned (Ok out)) <$> r) s).
Proof.
  intros HI Hi Hf. destruct (pi_caller _ HI _ _ _ Hi) as [_ Hs].
  eapply inv_caller_step; [done|done| |].
  - intros pc' Hpc. destruct r as [out|?|?]; simplify_eq/=.
    right; right; left. by exists req, resp, (sys_state s), st.
  - intros e He. destruct r as [out|?|?]; simplify_eq/=.
    right; right; left. by exists req, resp, (sys_state s), st.
Qed.

Lemma inv_loop_pc s l :
  protocol_inv s → (∀ i req, sys_loop s ≠ Handling i req) → (∀ i req, l ≠ Handling i req) →
  protocol_inv (with_loop l s).
Proof.
  intros [H1 H2 H3 H4] Hn Hl. split; simpl; [done| | |done].
  - intros j b d Hj%H2. destruct d as [|req|req [ans|]|r]; simpl in *; unfold untaken in *; simpl; try done.
    + by destruct Hj.
    + by destruct Hj as [[? _] ?].
    + destruct Hj as [_ Hj]. by apply Hn in Hj.
  - intros j req Hj. by apply Hl in Hj.
Qed.

Lemma step_inv e s s' : protocol_inv s → proto_step e s = Some s' → protocol_inv s'.
Proof.
  intros HI. unfold proto_step. destruct (sys_crashed s) eqn:Hc; [done|].
  destruct e as [|i|i| |i|i err| |].
  - destruct (sys_loop s) eqn:Hl; intros [= <-]. apply inv_loop_pc; [done|by rewrite Hl|done].
  - destruct (_ !! i) as [[a []]|] eqn:Hi; try done. destruct (prepare _ _) as [r st] eqn:Hp.
    intros [= <-]. by eapply inv_prepare.
  - destruct (_ !! i) as [[a [|req| |]]|] eqn:Hi; try done. destruct (sys_loop s) eqn:Hl; try done.
    intros [= <-]. by apply inv_hand_over.
  - destruct (sys_loop s) as [| |i req|] eqn:Hl; try done.
    destruct (handle _ _) as [[resp|err|w] st] eqn:Hh; intros [= <-].
    + by eapply inv_answer.
    + by eapply inv_answer.
    + by eapply inv_same.
  - destruct (_ !! i) as [[a [| |req [[err|resp]|]|]]|] eqn:Hi; try done.
    + intros [= <-]. eapply inv_move_caller; try done. right; left.
      exists req, err. split; [|done]. apply (pi_caller _ HI) in Hi. apply Hi.
    + destruct (finish _ _ _ _) as [r st] eqn:Hf. intros [= <-]. by eapply inv_finish.
  - destruct (_ !! i) as [[a [| |req ans|]]|] eqn:Hi; try done. destruct listens eqn:Hls; [|done].
    intros [= <-]. eapply inv_move_caller; try done. right; right; right. eauto.
  - destruct (sys_cancelled s); intros [= <-]. by eapply inv_same.
  - destruct (sys_loop s) eqn:Hl; try done. destruct (sys_cancelled s); intros [= <-].
    apply inv_loop_pc; [done|by rewrite Hl|done].
Qed.

Lemma run_inv evs s s' : protocol_inv s → run evs s = Some s' → protocol_inv s'.
Proof.
  revert s. induction evs as [|e evs IH]; intros s HI HE; simplify_eq/=; [done|].
  apply bind_Some in HE as (s1 & H1 & H2). eapply IH; [by eapply step_inv|done].
Qed.

(** The arguments of the callers never change. *)
Lemma insert_args (l : list (Arg * pc)) i a c c' :
  l !! i = Some (a, c) → (<[i := (a, c')]> l).*1 = l.*1.
Proof.
  intros Hi. rewrite list_fmap_insert. apply list_insert_id. by rewrite list_lookup_fmap, Hi.
Qed.

Lemma caller_step_args i a c st o s :
  sys_callers s !! i = Some (a, c) →
  (sys_callers (caller_step i a st o s)).*1 = (sys_callers s).*1.
Proof.
  intros Hi. destruct o; simpl; [|..|done];
    by eapply insert_args.
Qed.

Lemma deliver_args i ans s : (sys_callers (deliver i ans s)).*1 = (sys_callers s).*1.
Proof.
  unfold deliver. destruct (_ !! i) as [[a [|req|req [x|]|r]]|] eqn:Hi; try done.
  by eapply insert_args.
Qed.

Lemma step_args e s s' : proto_step e s = Some s' → (sys_callers s').*1 = (sys_callers s).*1.
Proof.
  unfold proto_step. destruct (sys_crashed s); [done|]. intros HE.
  repeat case_match; simplify_eq/=; try done;
    first [by eapply caller_step_args | etrans; [apply deliver_args|done] | by eapply insert_args].
Qed.

Lemma run_args evs s s' : run evs s = Some s' → (sys_callers s').*1 = (sys_callers s).*1.
Proof.
  revert s. induction evs as [|e evs IH]; intros s HE; simplify_eq/=; [done|].
  apply bind_Some in HE as (s1 & H1%step_args & H2%IH). congruence.
Qed.

Lemma run_result evs st args s i a r :
  run evs (init st args) = Some s → sys_callers s !! i = Some (a, Returned r) →
  args !! i = Some a ∧ result_of s i a r.
Proof.
  intros HE Hi. split.
  - apply run_args in HE. simpl in HE.
    assert (((λ a, (a, Calling : pc)) <$> args).*1 = args) as Hargs.
    { rewrite <-list_fmap_compose. apply list_fmap_id. }
    rewrite Hargs in HE. rewrite <-HE, list_lookup_fmap, Hi. done.
  - apply run_inv in HE; [|apply init_inv]. by apply (pi_caller _ HE) in Hi.
Qed.

(** *** Progress *)

(** The moves of the callers and of the loop, as opposed to what the
    environment may do at any time. *)
Definition is_move (e : event) : bool :=
  match e with EvCancel | EvAbandon _ _ | EvExit => false | _ => true end.
(** No caller and no loop can go on. *)
Definition quiet s : Prop := ∀ e, is_move e = true → proto_step e s = None.

Lemma quiet_returned s :
  protocol_inv s → sys_crashed s = false → sys_loop s ≠ Exited → quiet s →
  ∀ i c, sys_callers s !! i = Some c → returned c = true.
Proof.
  intros HI Hc Hex Hq.
  assert (sys_loop s = Selecting) as Hl.
  { destruct (sys_loop s) as [| |j req|] eqn:Hl; [| |exfalso|]; [|done| |done].
    - specialize (Hq EvStart eq_refl). unfold proto_step in Hq. by rewrite Hc, Hl in Hq.
    - specialize (Hq EvHandle eq_refl). unfold proto_step in Hq. rewrite Hc, Hl in Hq.
      by destruct (handle _ _) as [[] ?]. }
  intros i [a c] Hi. destruct c as [|req|req [[err|resp]|]|r]; [exfalso..|done].
  - specialize (Hq (EvCall i) eq_refl). unfold proto_step in Hq. rewrite Hc, Hi in Hq.
    by destruct (prepare _ _).
  - specialize (Hq (EvHandOver i) eq_refl). unfold proto_step in Hq. by rewrite Hc, Hi, Hl in Hq.
  - specialize (Hq (EvReceive i) eq_refl). unfold proto_step in Hq. by rewrite Hc, Hi in Hq.
  - specialize (Hq (EvReceive i) eq_refl). unfold proto_step in Hq. rewrite Hc, Hi in Hq.
    by destruct (finish _ _ _ _).
  - destruct (pi_caller _ HI _ _ _ Hi) as [_ Hh]. congruence.
Qed.

Lemma quiet_intro s :
  forallb returned (sys_callers s) = true → sys_loop s = Selecting → quiet s.
Proof.
  intros Hall Hl e He. unfold proto_step. destruct (sys_crashed s); [done|]. rewrite Hl.
  assert (∀ i a c, sys_callers s !! i = Some (a, c) → ∃ r, c = Returned r) as Hr.
  { intros i a c Hi%list_elem_of_lookup_2. rewrite forallb_forall in Hall.
    apply list_elem_of_In in Hi. apply Hall in Hi. destruct c; simplify_eq/=; eauto. }
  destruct e as [|i|i| |i|i err| |]; try done;
    (destruct (sys_callers s !! i) as [[a c]|] eqn:Hi; [|done]);
    by destruct (Hr _ _ _ Hi) as [r ->].
Qed.

Lemma caller_step_loop i a st o s :
  sys_loop (caller_step i a st o s) = sys_loop s
  ∧ sys_cancelled (caller_step i a st o s) = sys_cancelled s.
Proof. by destruct o. Qed.

Lemma deliver_loop i ans s :
  sys_loop (deliver i ans s) = sys_loop s ∧ sys_cancelled (deliver i ans s) = sys_cancelled s.
Proof. unfold deliver. by destruct (_ !! i) as [[a [|req|req [x|]|r]]|]. Qed.

Lemma step_running e s s' :
  e ≠ EvCancel → proto_step e s = Some s' → sys_cancelled s = false → sys_loop s ≠ Exited →
  sys_cancelled s' = false ∧ sys_loop s' ≠ Exited.
Proof.
  intros He HE Hx Hl. unfold proto_step in HE. destruct (sys_crashed s); [done|].
  repeat case_match; simplify_eq/=; try done;
    try (match goal with |- context [caller_step ?i ?a ?st ?o ?s] =>
           destruct (caller_step_loop i a st o s) as [-> ->] end; try done; congruence);
    try (unfold answer_with; match goal with |- context [deliver ?i ?x ?s] =>
           destruct (deliver_loop i x s) as [-> ->] end; done).
  all: split; congruence.
Qed.

Lemma run_running evs s s' :
  EvCancel ∉ evs → run evs s = Some s' → sys_cancelled s = false → sys_loop s ≠ Exited →
  sys_loop s' ≠ Exited.
Proof.
  revert s. induction evs as [|e evs IH]; intros s Hn HE Hx Hl; simplify_eq/=; [done|].
  apply not_elem_of_cons in Hn as [He Hn]. apply bind_Some in HE as (s1 & H1 & H2).
  edestruct step_running as [Hx1 Hl1]; [|done..|]; [done|]. by eapply IH.
Qed.

(** Runs end, and when they end without a shutdown everybody has an answer. *)
Lemma run_answers evs st args s :
  run evs (init st args) = Some s →
  length evs ≤ 5 * length args + 4
  ∧ (EvCancel ∉ evs → quiet s → sys_crashed s = false →
     ∀ i c, sys_callers s !! i = Some c → returned c = true).
Proof.
  intros HE. split.
  - apply run_bounded in HE. rewrite left_over_init in HE. lia.
  - intros Hn Hq Hc. eapply quiet_returned; [|done| |done].
    + eapply run_inv; [apply init_inv|done].
    + by eapply run_running.
Qed.

(** *** After the loop has returned *)

Lemma caller_step_other i j a st o s :
  i ≠ j → sys_callers (caller_step i a st o s) !! j = sys_callers s !! j.
Proof. intros Hne. destruct o; simpl; by rewrite ?list_lookup_insert_ne. Qed.

Lemma step_blocked e s s' i a req :
  sys_loop s = Exited → sys_callers s !! i = Some (a, Sending req) → proto_step e s = Some s' →
  sys_loop s' = Exited ∧ sys_callers s' !! i = Some (a, Sending req).
Proof.
  intros Hl Hi HE. unfold proto_step in HE. destruct (sys_crashed s); [done|].
  repeat case_match; simplify_eq/=; try done;
    try (match goal with |- context [caller_step ?j ?b ?st ?o ?s] =>
           destruct (caller_step_loop j b st o s) as [-> _];
           rewrite (caller_step_other j i) by (intros ->; congruence) end; done).
  all: rewrite list_lookup_insert_ne by (intros ->; congruence); done.
Qed.

(** A caller that has not handed its request over stays there for ever. *)
Lemma run_blocked evs s s' i a req :
  sys_loop s = Exited → sys_callers s !! i = Some (a, Sending req) → run evs s = Some s' →
  sys_callers s' !! i = Some (a, Sending req).
Proof.
  revert s. induction evs as [|e evs IH]; intros s Hl Hi HE; simplify_eq/=; [done|].
  apply bind_Some in HE as (s1 & H1 & H2).
  destruct (step_blocked _ _ _ _ _ _ Hl Hi H1). by eapply IH.
Qed.

(** A caller that does not listen to its context is not abandoned. *)
Lemma run_no_abandon evs s s' i err :
  listens = false → run evs s = Some s' → EvAbandon i err ∉ evs.
Proof.
  intros Hls. revert s. induction evs as [|e evs IH]; intros s HE; [apply not_elem_of_nil|].
  simpl in HE. apply bind_Some in HE as (s1 & H1 & H2).
  intros [<-|Hin]%elem_of_cons; [|by eapply IH].
  unfold proto_step in H1. rewrite Hls in H1. by repeat case_match.
Qed.

(** *** One caller *)

Definition idle s : Prop := ∀ i req, sys_loop s ≠ Handling i req.

(** What the state holds when one call with argument [a] has got to [c],
    having begun in [st0]. *)
Definition alone_inv (st0 : St) (a : Arg) s : Prop :=
  sys_crashed s = true ∨
  ∃ c, sys_callers s = [(a, c)] ∧
  match c with
  | Calling => sys_state s = st0 ∧ idle s
  | Sending req => prepare a st0 = (Ok (inr req), sys_state s) ∧ idle s
  | Waiting req None => prepare a st0 = (Ok (inr req), sys_state s) ∧ sys_loop s = Handling 0 req
  | Waiting req (Some ans) =>
      (∃ st1, prepare a st0 = (Ok (inr req), st1) ∧ handle req st1 = (answer_of ans, sys_state s))
      ∧ idle s
  | Returned r => call_alone a st0 = (r, sys_state s) ∧ idle s
  end.

Lemma call_alone_prepare a st0 r st :
  prepare a st0 = (r, st) → (∀ req, r ≠ Ok (inr req)) →
  call_alone a st0 = (match r with Ok (inl out) => Ok out | Ok (inr _) => Crash ""
                      | Err e => Err e | Crash w => Crash w end, st).
Proof.
  intros Hp Hr. unfold call_alone, mbind, M_bind, go_bind. rewrite Hp.
  destruct r as [[out|req]|e|w]; try done. by destruct (Hr req).
Qed.

Lemma call_alone_handle a st0 req st1 ans st2 :
  prepare a st0 = (Ok (inr req), st1) → handle req st1 = (answer_of ans, st2) →
  call_alone a st0 = match ans with inl e => (Err e, st2) | inr resp => finish a req resp st2 end.
Proof.
  intros Hp Hh. unfold call_alone, mbind, M_bind, go_bind. rewrite Hp, Hh. by destruct ans.
Qed.

Lemma alone_prepare st0 a s r st :
  sys_callers s = [(a, Calling)] → sys_state s = st0 → idle s → prepare a st0 = (r, st) →
  alone_inv st0 a (caller_step 0 a st (after_prepare <$> r) s).
Proof.
  intros Hcs <- Hid Hp. pose proof (call_alone_prepare _ _ _ _ Hp) as Hal.
  destruct r as [[out|req]|e|w]; simpl; [right..|by left]; eexists; simpl; rewrite Hcs;
    (split; [done|]); (split; [|done]).
  - by apply Hal.
  - done.
  - by apply Hal.
Qed.

Lemma alone_finish st0 a s req resp st1 r st :
  sys_callers s = [(a, Waiting req (Some (inr resp)))] → idle s →
  prepare a st0 = (Ok (inr req), st1) → handle req st1 = (Ok resp, sys_state s) →
  finish a req resp (sys_state s) = (r, st) →
  alone_inv st0 a (caller_step 0 a st ((λ out, Returned (Ok out)) <$> r) s).
Proof.
  intros Hcs Hid Hp Hh Hf.
  pose proof (call_alone_handle _ _ _ _ (inr resp) _ Hp Hh) as Hal. simpl in Hal. rewrite Hf in Hal.
  destruct r as [out|e|w]; simpl; [right..|by left]; eexists; simpl; rewrite Hcs; by split.
Qed.

Lemma alone_answer st0 a s req ans st :
  sys_callers s = [(a, Waiting req None)] → prepare a st0 = (Ok (inr req), sys_state s) →
  handle req (sys_state s) = (answer_of ans, st) → alone_inv st0 a (answer_with 0 req ans st s).
Proof.
  intros Hcs Hp Hh. right. unfold answer_with, deliver. simpl. rewrite Hcs. simpl.
  eexists. split; [by rewrite Hcs|]. simpl. split; [|done]. eauto.
Qed.

Lemma singleton_lookup {A} (x : A) i y : [x] !! i = Some y → i = 0 ∧ y = x.
Proof. by destruct i; intros; simplify_eq/=. Qed.

Lemma step_alone e st0 a s s' :
  (∀ i err, e ≠ EvAbandon i err) → alone_inv st0 a s → proto_step e s = Some s' → alone_inv st0 a s'.
Proof.
  intros Hab HI. unfold proto_step. destruct (sys_crashed s) eqn:Hc; [done|].
  destruct HI as [HI|(c & Hcs & Hpc)]; [congruence|].
  destruct e as [|i|i| |i|i err| |].
  - destruct (sys_loop s) eqn:Hl; intros [= <-]. right. exists c. split; [done|].
    destruct c as [|req|req [ans|]|r]; simpl in *; unfold idle in *; simpl; try (split; [apply Hpc|done]).
    destruct Hpc; congruence.
  - rewrite Hcs. destruct ([_] !! i) as [[b d]|] eqn:Hi; [|done].
    apply singleton_lookup in Hi as [-> [= -> ->]]. destruct c; try done. destruct Hpc as [Hst Hid].
    destruct (prepare _ _) as [r st] eqn:Hp. intros [= <-]. apply alone_prepare; try done.
    by rewrite <-Hst.
  - rewrite Hcs. destruct ([_] !! i) as [[b d]|] eqn:Hi; [|done].
    apply singleton_lookup in Hi as [-> [= -> ->]]. destruct c as [|req| |]; try done.
    destruct (sys_loop s) eqn:Hl; try done. intros [= <-]. right. eexists. simpl. rewrite Hcs.
    split; [done|]. simpl. by destruct Hpc.
  - destruct (sys_loop s) as [| |i req|] eqn:Hl; try done.
    destruct c as [|req'|req' [ans|]|r]; try (destruct Hpc as [_ Hid]; by apply Hid in Hl).
    destruct Hpc as [Hp Hl']. injection Hl' as -> ->.
    destruct (handle _ _) as [[resp|err|w] st] eqn:Hh; intros [= <-];
      [by eapply alone_answer..|by left].
  - rewrite Hcs. destruct ([_] !! i) as [[b d]|] eqn:Hi; [|done].
    apply singleton_lookup in Hi as [-> [= -> ->]].
    destruct c as [| |req [[err|resp]|]|]; try done; destruct Hpc as [(st1 & Hp & Hh) Hid].
    + intros [= <-]. right. eexists. simpl. rewrite Hcs. split; [done|]. simpl. split; [|done].
      by rewrite (call_alone_handle _ _ _ _ (inl err) _ Hp Hh).
    + destruct (finish _ _ _ _) as [r st] eqn:Hf. intros [= <-]. by eapply alone_finish.
  - by destruct (Hab i err).
  - destruct (sys_cancelled s); intros [= <-]. right. by exists c.
  - destruct (sys_loop s) eqn:Hl; try done. destruct (sys_cancelled s); intros [= <-].
    right. exists c. split; [done|].
    destruct c as [|req|req [ans|]|r]; simpl in *; unfold idle in *; simpl; try (split; [apply Hpc|done]).
    destruct Hpc; congruence.
Qed.

Lemma run_alone evs st0 a s s' :
  (∀ i err, EvAbandon i err ∉ evs) → alone_inv st0 a s → run evs s = Some s' → alone_inv st0 a s'.
Proof.
  revert s. induction evs as [|e evs IH]; intros s Hn HI HE; simplify_eq/=; [done|].
  apply bind_Some in HE as (s1 & H1 & H2). eapply IH; [| |done].
  - intros i err Hin. by apply (Hn i err), elem_of_cons; right.
  - eapply step_alone; [|done..]. intros i err ->. by apply (Hn i err), elem_of_cons; left.
Qed.

Lemma run_alone_result evs st0 a s r :
  run evs (init st0 [a]) = Some s → (∀ i err, EvAbandon i err ∉ evs) → sys_crashed s = false →
  sys_callers s !! 0 = Some (a, Returned r) → call_alone a st0 = (r, sys_state s).
Proof.
  intros HE Hn Hc Hr. apply (run_alone evs st0 a) in HE as [HE|(c & Hcs & Hpc)]; [congruence| |done|].
  - rewrite Hcs in Hr. injection Hr as ->. by destruct Hpc.
  - right. exists Calling. split; [done|]. split; [done|]. by intros i req.
Qed.
End protocol.

(** ** The two loops of the daemon *)

(** The arguments of [CreateFinalityProvider]. *)
Record create_args `{Sdk} := mkCreateArgs {
  ca_now : Z;
  ca_keyName : string;
  ca_chainID : string;
  ca_eotsPk : option bytes;
  ca_description : Description;
  ca_commission : CommissionRates
}.

Section loops.
Context `{CryptoLaws} `{SdkLaws} `{BigEndianLaws} `{Merkle} `{RetryLaws} `{BabylonErrors} `{AccAddress}.
Context {D E C Pl B K : Type} `{!KvBackend D} `{!KvLaws D}.
Context `{!Codec FinalityProvider} `{!CodecLaws FinalityProvider}.
Context `{!Codec Description} `{!CodecLaws Description} `{!Codec ProofOfPossessionBTC}.
Context `{!EOTSManager E} `{!ConsumerController C} `{!BlockPoller Pl} `{!BabylonController B}.
Context `{!Keyring K}.
#[local] Abbreviation app := (FinalityProviderApp D E C Pl B K).
Implicit Types a : app.

Definition create_prepare (x : create_args) : M app (CreateFinalityProviderResult + CreateFinalityProviderRequest) :=
  CreateFinalityProvider_request (ca_now x) (ca_keyName x) (ca_chainID x) (ca_eotsPk x)
    (ca_description x) (ca_commission x).
Definition create_finish (x : create_args) (req : CreateFinalityProviderRequest) (txHash : string)
    : M app CreateFinalityProviderResult :=
  CreateFinalityProvider_finish (ca_now x) req txHash.

(** [registrationLoop] and the callers of [CreateFinalityProvider].  Nobody
    closes the channel [app.quit], so that its branch of the [select] is never
    taken. *)
Definition registrationLoop : event → sys app _ _ _ _ → option (sys app _ _ _ _) :=
  proto_step create_prepare registrationLoop_handle create_finish false.
Definition registration_run : list event → sys app _ _ _ _ → option (sys app _ _ _ _) :=
  run create_prepare registrationLoop_handle create_finish false.

(** [unjailFpLoop] and the callers of [UnjailFinalityProvider], whose [select]
    listens to the context of the caller. *)
Definition unjail_prepare (pk : bytes) : M app (string + bytes) := mret (inr pk).
Definition unjail_finish (pk req : bytes) (txHash : string) : M app string :=
  UnjailFinalityProvider_finish pk txHash.
Definition unjailFpLoop : event → sys app bytes bytes string string → option (sys app _ _ _ _) :=
  proto_step unjail_prepare unjailFpLoop_handle unjail_finish true.
Definition unjail_run : list event → sys app bytes bytes string string → option (sys app _ _ _ _) :=
  run unjail_prepare unjailFpLoop_handle unjail_finish true.

(** The calls of [App] are the calls with nothing in between. *)
Lemma create_alone x :
  call_alone create_prepare registrationLoop_handle create_finish x
  = app_CreateFinalityProvider (ca_now x) (ca_keyName x) (ca_chainID x) (ca_eotsPk x)
      (ca_description x) (ca_commission x).
Proof. done. Qed.

Lemma unjail_alone pk a :
  call_alone unjail_prepare unjailFpLoop_handle unjail_finish pk a = app_UnjailFinalityProvider pk a.
Proof. done. Qed.

(** C13: concurrent registrations: whatever the schedule, it has boundedly many
    steps, no request is handled twice, and a caller that has returned was
    given what its own arguments and the answer to its own request entail.
    When nothing can move any more and the daemon has neither been shut down
    nor crashed, every caller has returned. *)
Theorem registrations_answered (args : list create_args) evs a s
    (Hrun : registration_run evs (init a args) = Some s) :
  length evs ≤ 5 * length args + 4
  ∧ NoDup (ids s)
  ∧ (∀ i x r, sys_callers s !! i = Some (x, Returned r) →
       args !! i = Some x
       ∧ result_of create_prepare create_finish false s i x r)
  ∧ (∀ i req ans, (i, req, ans) ∈ sys_served s → handled (St := app) registrationLoop_handle req ans)
  ∧ (EvCancel ∉ evs → (∀ e, is_move e = true → registrationLoop e s = None) → sys_crashed s = false →
     ∀ i c, sys_callers s !! i = Some c → returned c = true).
Proof.
  pose proof (run_answers _ _ _ _ _ _ _ _ Hrun) as [Hb Hl].
  assert (Hinv := Hrun). apply run_inv in Hinv; [|apply init_inv].
  split_and!; [done|apply Hinv| |by intros i req ans [? _]%(pi_served _ _ _ _ _ Hinv)|done].
  intros i x r Hi. by eapply run_result.
Qed.

(** The same for unjailing, where a caller may also leave with the end of its
    context. *)
Lemma unjails_answered (args : list bytes) evs a s (Hrun : unjail_run evs (init a args) = Some s) :
  length evs ≤ 5 * length args + 4
  ∧ NoDup (ids s)
  ∧ (∀ i x r, sys_callers s !! i = Some (x, Returned r) →
       args !! i = Some x ∧ result_of unjail_prepare unjail_finish true s i x r)
  ∧ (EvCancel ∉ evs → (∀ e, is_move e = true → unjailFpLoop e s = None) → sys_crashed s = false →
     ∀ i c, sys_callers s !! i = Some c → returned c = true).
Proof.
  pose proof (run_answers _ _ _ _ _ _ _ _ Hrun) as [Hb Hl].
  assert (Hinv := Hrun). apply run_inv in Hinv; [|apply init_inv].
  split_and!; [done|apply Hinv| |done]. intros i x r Hi. by eapply run_result.
Qed.


(** After the loop has returned on the end of its context, a caller that has
    not handed its request over is blocked for ever: no sequence of events
    brings it further, neither for registration nor for unjailing, although
    the latter has a context of its own. *)
Theorem request_blocked_after_shutdown evs :
  (∀ s s' i (x : create_args) req, sys_loop s = Exited →
     sys_callers s !! i = Some (x, Sending req) → registration_run evs s = Some s' →
     sys_callers s' !! i = Some (x, Sending req))
  ∧ (∀ s s' i (pk req : bytes), sys_loop s = Exited →
     sys_callers s !! i = Some (pk, Sending req) → unjail_run evs s = Some s' →
     sys_callers s' !! i = Some (pk, Sending req)).
Proof. split; intros; by eapply run_blocked. Qed.
End loops.

Module LoopsWitness.
Import AppToy.
Definition w_app := toy_app (toy_tc [] 0) toy_fp_db0.
Definition w_arg : create_args := mkCreateArgs _ 7 "fp" "bbn-1" (Some (toy_pk true)) toy_des toy_com.

(** Two registrations of one key at the same time. *)
Definition w_evs : list event :=
  [EvCall 0; EvStart; EvCall 1; EvHandOver 1; EvHandle; EvHandOver 0; EvReceive 1; EvHandle; EvReceive 0].
Definition w_end := default (init w_app []) (registration_run w_evs (init w_app [w_arg; w_arg])).

Lemma w_evs_live : EvCancel ∉ w_evs.
Proof. unfold w_evs. rewrite !not_elem_of_cons. split_and!; try done. apply not_elem_of_nil. Qed.

Lemma registrations_answered_witness :
  registration_run w_evs (init w_app [w_arg; w_arg]) = Some w_end
  ∧ length (sys_served w_end) = 2 ∧ length (sys_callers w_end) = 2
  ∧ ∀ i c, sys_callers w_end !! i = Some c → returned c = true.
Proof.
  assert (E : registration_run w_evs (init w_app [w_arg; w_arg]) = Some w_end)
    by (apply some_default; vm_eq).
  split; [exact E|]. split; [vm_eq|]. split; [vm_eq|].
  destruct (registrations_answered [w_arg; w_arg] w_evs w_app w_end E) as (_ & _ & _ & _ & Hall).
  apply Hall; [| |vm_eq].
  - exact w_evs_live.
  - apply (quiet_intro create_prepare registrationLoop_handle create_finish false w_end); vm_eq.
Defined.

(** One registration, the daemon being shut down while the loop works on it. *)
Definition w_one : list event := [EvStart; EvCall 0; EvHandOver 0; EvCancel; EvHandle; EvExit; EvReceive 0].
Definition w_end1 := default (init w_app []) (registration_run w_one (init w_app [w_arg])).
Definition w_seq := app_CreateFinalityProvider 7 "fp" "bbn-1" (Some (toy_pk true)) toy_des toy_com w_app.


(** A caller that comes when the loop has gone. *)
Definition w_late : list event := [EvStart; EvCancel; EvExit; EvCall 0].
Definition w_end2 := default (init w_app []) (registration_run w_late (init w_app [w_arg])).
Definition w_req : CreateFinalityProviderRequest :=
  match (create_prepare w_arg w_app).1 with
  | Ok (inr req) => req
  | _ => mkCreateReq _ "" [] [] (mkPop BTCSigType_BIP340 []) toy_des toy_com
  end.

Lemma request_blocked_after_shutdown_witness :
  sys_loop w_end2 = Exited
  ∧ sys_callers w_end2 !! 0 = Some (w_arg, Sending w_req)
  ∧ ∀ evs s', registration_run evs w_end2 = Some s' → sys_callers s' !! 0 = Some (w_arg, Sending w_req).
Proof.
  assert (Hl : sys_loop w_end2 = Exited) by vm_eq.
  assert (Hi : sys_callers w_end2 !! 0 = Some (w_arg, Sending w_req)) by vm_eq.
  split; [exact Hl|]. split; [exact Hi|]. intros evs s' E.
  exact (proj1 (request_blocked_after_shutdown evs) w_end2 s' 0 w_arg w_req Hl Hi E).
Defined.
End LoopsWitness.
