(* ===== verification/FpdCmd.v ===== *)
(** * Commands of the finality provider daemon
      (src/finality-provider/cmd/fpd/daemon/create_fp.go, start.go)

    Creating a finality provider: the values of the command, their checks and
    the request to the daemon; the whole command is in [CreateCmd].  Starting
    the daemon: which finality provider it serves; the start command around
    [StartApp] is in [FpdStart]. *)

From Stdlib Require Import NArith ZArith Lia.
From stdpp Require Import base gmap strings list relations.
From S2P Require Import Prelude Kvdb External Config Toy EotsStore EotsApi LocalManager EotsRpc PubRandStore.
From S2P Require Import FpStore ChainApi FinalitySubmitter RandCommitter Bootstrap ChainPoller BbnConsumer FpInstance.
From S2P Require Import ManualOps App AppRpc AppSteps AppHistory AppRequests.

(** cosmos-sdk's [description.EnsureLength()] *)
Class DescriptionLength := EnsureLength : Description → outcome Description.

(** ** Parsing *)

(** [proto.CommissionRates] is three decimal strings. *)
Definition ProtoCommissionRates : Type := string * string * string.
Record ParsedFinalityProvider := mkParsedFp {
  pfp_KeyName : string;
  pfp_ChainID : string;
  pfp_EotsPK : string;
  pfp_Description : Description;
  pfp_CommissionRates : ProtoCommissionRates;
}.

(** The fields of the JSON file; its [Passphrase] is not used. *)
Record internalFpJSON := mkFpJSON {
  js_KeyName : string;
  js_ChainID : string;
  js_Passphrase : string;
  js_CommissionRate : string;
  js_CommissionMaxRate : string;
  js_CommissionMaxChangeRate : string;
  js_Moniker : string;
  js_Identity : string;
  js_Website : string;
  js_SecurityContract : string;
  js_Details : string;
  js_EotsPK : string;
}.

(** The values of the flags. *)
Record CreateFlags := mkCreateFlags {
  fl_KeyName : string;
  fl_ChainID : string;
  fl_CommissionRate : string;
  fl_CommissionMaxRate : string;
  fl_CommissionMaxChangeRate : string;
  fl_Moniker : string;
  fl_Identity : string;
  fl_Website : string;
  fl_SecurityContact : string;
  fl_Details : string;
  fl_FpEotsPk : string;
}.

Section parsing.
Context `{Sdk} `{DescriptionLength}.

Definition NewCommissionRates (rate maxRate maxChangeRate : LegacyDec) : ProtoCommissionRates :=
  (Dec_String rate, Dec_String maxRate, Dec_String maxChangeRate).

Definition getCommissionRates (rateStr maxRateStr maxChangeRateStr : string)
    : outcome ProtoCommissionRates :=
  rate ← wrap_err "invalid commission rate" (LegacyNewDecFromStr rateStr);
  maxRate ← wrap_err "invalid commission max rate" (LegacyNewDecFromStr maxRateStr);
  maxRateChange ← wrap_err "invalid commission max change rate" (LegacyNewDecFromStr maxChangeRateStr);
  Ok (NewCommissionRates rate maxRate maxRateChange).

Definition required (value message : string) : outcome unit :=
  if bool_decide (value = "") then Err (EText message) else Ok ().

(** [ParseFinalityProviderJSON] on the decoded file *)
Definition parse_fpJSON (fp : internalFpJSON) : outcome ParsedFinalityProvider :=
  _ ← required (js_ChainID fp) "chainID is required";
  _ ← required (js_Moniker fp) "moniker is required";
  _ ← required (js_CommissionRate fp) "commissionRate is required";
  _ ← required (js_CommissionMaxRate fp) "CommissionMaxRate is required";
  _ ← required (js_CommissionMaxChangeRate fp) "CommissionMaxChangeRate is required";
  _ ← required (js_EotsPK fp) "eotsPK is required";
  commRates ← getCommissionRates (js_CommissionRate fp) (js_CommissionMaxRate fp)
                (js_CommissionMaxChangeRate fp);
  description ← wrap_err "failed to ensure description length"
                  (EnsureLength (mkDescription (js_Moniker fp) (js_Identity fp) (js_Website fp)
                     (js_SecurityContract fp) (js_Details fp)));
  Ok (mkParsedFp (js_KeyName fp) (js_ChainID fp) (js_EotsPK fp) description commRates).
End parsing.

(** ** Starting the daemon: start.go *)

Section command.
Context `{Crypto} `{Sdk} `{BigEndian} `{Merkle} `{Retry} `{BabylonErrors} `{AccAddress} `{Grpc}.
Context `{DescriptionLength}.
Context {D E C Pl B K : Type} `{!KvBackend D} `{!Codec FinalityProvider} `{!Codec Description}.
Context `{!Codec ProofOfPossessionBTC}.
Context `{!EOTSManager E} `{!ConsumerController C} `{!BlockPoller Pl} `{!BabylonController B}.
Context `{!Keyring K}.
#[local] Abbreviation app := (FinalityProviderApp D E C Pl B K).

Context (cfg : Config) (pollerCfg : ChainPollerConfig).

Definition StartApp (fpPkStr : string) : M app unit :=
  _ ← go_wrap "failed to start the finality provider app" app_Start;
  if negb (bool_decide (fpPkStr = "")) then
    fpPk ← go_wrap ("invalid finality provider public key " +:+ fpPkStr)
             (go_lift (NewBIP340PubKeyFromHex fpPkStr));
    go_wrap "failed to start finality provider" (StartFinalityProvider cfg pollerCfg fpPk)
  else
    storedFps ← go_wrap "failed to get all stored finality providers"
                  (on_fps GetAllStoredFinalityProviders);
    match storedFps with
    | [] => mret ()
    | [fp] => go_wrap "failed to start finality provider"
                (StartFinalityProvider cfg pollerCfg (BIP340FromBTCPK (sfp_BtcPk fp)))
    | _ => go_fail (EText (fmt_d (lenN storedFps)
             +:+ " finality providers found in DB. Please specify the EOTS public key"))
    end.
End command.

(** ** Lemmas *)

Section lemmas.
Context `{CryptoLaws} `{SdkLaws} `{BigEndian} `{Merkle} `{Retry} `{BabylonErrors} `{AccAddress} `{Grpc}.
Context `{DescriptionLength}.
Context {D E C Pl B K : Type} `{!KvBackend D} `{!Codec FinalityProvider}.
Context `{!Codec Description} `{!CodecLaws Description} `{!Codec ProofOfPossessionBTC}.
Context `{!EOTSManager E} `{!ConsumerController C} `{!BlockPoller Pl} `{!BabylonController B}.
Context `{!Keyring K}.
#[local] Abbreviation app := (FinalityProviderApp D E C Pl B K).
Implicit Types a : app.

(** Two runs that end in the same state, with the same result or each without
    one. *)
Definition same_outcome {A} (x y : outcome A * app) : Prop :=
  x.2 = y.2 ∧ ∀ v, x.1 = Ok v ↔ y.1 = Ok v.
#[export] Instance same_outcome_equiv A : Equivalence (@same_outcome A).
Proof.
  split.
  - by intros x.
  - intros x y [Hs Hr]. split; [done|]. intros v. by rewrite Hr.
  - intros x y z [Hs Hr] [Hs' Hr']. split; [congruence|]. intros v. by rewrite Hr, Hr'.
Qed.

Lemma same_outcome_map_err {A} f (m : M app A) a : same_outcome (go_map_err f m a) (m a).
Proof. unfold go_map_err. by destruct (m a) as [[v|e|w] a']. Qed.
Lemma same_outcome_wrap {A} p (m : M app A) a : same_outcome (go_wrap p m a) (m a).
Proof. unfold go_wrap. by destruct (m a) as [[v|e|w] a']. Qed.

Lemma same_outcome_wrap_state {A} p (m : M app A) a : (go_wrap p m a).2 = (m a).2.
Proof. apply same_outcome_wrap. Qed.
Lemma same_outcome_wrap_ok {A} p (m : M app A) a : is_Ok (go_wrap p m a).1 = is_Ok (m a).1.
Proof. unfold go_wrap. by destruct (m a) as [[v|e|w] a']. Qed.

(** The daemon parses back the rates the command printed. *)
Lemma GetCommissionRates_printed rate maxRate maxChangeRate :
  GetCommissionRates (Some (NewCommissionRates rate maxRate maxChangeRate))
  = Ok (mkCommissionRates _ rate maxRate maxChangeRate).
Proof. unfold GetCommissionRates, NewCommissionRates. by rewrite !dec_roundtrip. Qed.

Lemma getCommissionRates_ok r m c rates :
  getCommissionRates r m c = Ok rates →
  ∃ rate maxRate maxChange, LegacyNewDecFromStr r = Ok rate ∧ LegacyNewDecFromStr m = Ok maxRate
    ∧ LegacyNewDecFromStr c = Ok maxChange ∧ rates = NewCommissionRates rate maxRate maxChange.
Proof.
  unfold getCommissionRates. intros HE. apply outcome_bind_ok in HE as (rate & Hr%wrap_err_ok & HE).
  apply outcome_bind_ok in HE as (mr & Hm%wrap_err_ok & HE).
  apply outcome_bind_ok in HE as (mc & Hc%wrap_err_ok & [= <-]). by exists rate, mr, mc.
Qed.

(** The RPC request for values that decode. *)
Lemma client_create now keyName chainID hex eotsPk des db rate maxRate maxChange a :
  hex ≠ "" → NewBIP340PubKeyFromHex hex = Ok eotsPk → marshal des = Ok db →
  same_outcome (clt_CreateFinalityProvider now keyName chainID hex des
              (Some (NewCommissionRates rate maxRate maxChange)) a)
    (app_CreateFinalityProvider now keyName chainID (Some eotsPk) des
       (mkCommissionRates _ rate maxRate maxChange) a).
Proof.
  intros Hne Hpk Hdes. unfold clt_CreateFinalityProvider. rewrite Hdes.
  erewrite go_bind_run; [|reflexivity]. rewrite same_outcome_wrap. unfold fpd_call. rewrite same_outcome_map_err.
  unfold srv_CreateFinalityProvider. rewrite GetCommissionRates_printed.
  erewrite go_bind_run; [|reflexivity]. rewrite (unmarshal_marshal _ _ Hdes).
  erewrite go_bind_run; [|reflexivity]. unfold parseEotsPk. rewrite bool_decide_false by done.
  rewrite Hpk. erewrite go_bind_run; [|reflexivity]. by rewrite same_outcome_wrap.
Qed.

Lemma client_create_bad now keyName chainID hex des db rate maxRate maxChange a :
  hex ≠ "" → is_Ok (NewBIP340PubKeyFromHex hex) = false → marshal des = Ok db →
  let run := clt_CreateFinalityProvider now keyName chainID hex des
               (Some (NewCommissionRates rate maxRate maxChange)) a in
  run.2 = a ∧ is_Ok run.1 = false.
Proof.
  intros Hne Hpk Hdes. unfold clt_CreateFinalityProvider. rewrite Hdes.
  erewrite go_bind_run; [|reflexivity]. unfold fpd_call, srv_CreateFinalityProvider.
  rewrite GetCommissionRates_printed. unfold go_wrap at 1, go_map_err.
  erewrite go_bind_run; [|reflexivity]. rewrite (unmarshal_marshal _ _ Hdes).
  erewrite go_bind_run; [|reflexivity]. unfold parseEotsPk. rewrite bool_decide_false by done.
  by destruct (NewBIP340PubKeyFromHex hex).
Qed.
End lemmas.

(** ** Which finality provider a daemon serves *)

Section start.
Context `{CryptoLaws} `{SdkLaws} `{BigEndianLaws} `{Merkle} `{RetryLaws} `{BabylonErrors} `{AccAddress}.
Context {D E C Pl B K : Type} `{!KvBackend D} `{!KvLaws D}.
Context `{!Codec FinalityProvider} `{!CodecLaws FinalityProvider}.
Context `{!Codec Description} `{!CodecLaws Description} `{!Codec ProofOfPossessionBTC}.
Context `{!EOTSManager E} `{!ConsumerController C} `{!BlockPoller Pl} `{!BabylonController B}.
Context `{!Keyring K}.
Context (cfg : Config) (pollerCfg : ChainPollerConfig).
#[local] Abbreviation app := (FinalityProviderApp D E C Pl B K).
#[local] Abbreviation fpi := (FinalityProviderInstance D E C Pl).
Implicit Types a : app.

(** The instance serves the record stored under [pk], which is not slashed. *)
Definition serves pk a0 a : Prop :=
  ∃ o fp, app_fpIns a = Some o ∧ own_btcPk o = pk ∧ own_isStarted o = true
    ∧ stored (app_fps a0) pk fp ∧ fp_Status fp ≠ SLASHED.

Lemma Start_runs (fi : fpi) u fi' :
  Start cfg pollerCfg fi = (Ok u, fi') → fi_btcPk fi' = fi_btcPk fi ∧ fi_isStarted fi' = true.
Proof.
  intros HE. destruct (fi_isStarted fi) eqn:Hs.
  { unfold Start in HE. erewrite go_bind_run in HE; [|reflexivity]. by rewrite Hs in HE. }
  rewrite Start_begin in HE by done. inv_bind HE. inv_bind HE. inv_bind HE. inv_bind HE. inv_bind HE.
  injection HE as _ <-.
  apply IsJailed_run in E0 as (P0 & S0 & _). apply DetermineStart_run in E1 as (P1 & S1 & _).
  apply on_poller_run in E2 as (P2 & S2 & _). simpl in *.
  assert (fi_btcPk s2 = fi_btcPk s1 ∧ fi_isStarted s2 = fi_isStarted s1) as [P3 S3].
  { destruct (cfg_AdvancedResetLastVotedHeight cfg); [|by injection E3 as _ <-].
    apply go_wrap_ok, on_fpState_run in E3 as (? & ? & _). done. }
  split; congruence.
Qed.

Lemma new_instance_key pk (dp dp' : instance_deps (D:=D) (E:=E) (C:=C) (Pl:=Pl)) fi :
  store_wf (dp_s dp) → NewFinalityProviderInstance pk dp = (Ok fi, dp') →
  fi_btcPk fi = pk ∧ ∃ fp, stored (dp_s dp) pk fp ∧ fp_Status fp ≠ SLASHED.
Proof.
  intros Hwf. unfold NewFinalityProviderInstance, newFinalityProviderInstanceFromStore. intros HE.
  inv_bind HE. inv_bind HE. unfold on_dp_s in E1. destruct (GetFinalityProvider _ _) as [r d] eqn:Eg.
  injection E1 as -> <-. apply GetFinalityProvider_ok in Eg as (-> & fp & Hst & Hp).
  case_bool_decide as Hs; [done|]. inv_bind HE. inv_bind HE. inv_bind HE. injection HE as <- _.
  destruct (proto_status _ _ Hp) as (Hs' & _ & _ & Hpk). rewrite (Hwf _ _ Hst) in Hpk.
  apply schnorr_pk_parsed in Hpk. unfold MustToBTCPK in E0. rewrite bip340_parse in E0.
  destruct (schnorr_ParsePubKey pk) as [P| |] eqn:EP; [|done..]. injection E0 as ->.
  apply schnorr_pk_parsed in EP. rewrite EP in *. simpl. unfold GetBIP340BTCPK.
  rewrite bip340_serialize, Hpk. split; [done|]. exists fp. by rewrite <- Hs'.
Qed.

Lemma start_serves pk a u a' :
  store_wf (app_fps a) → app_fpIns a = None →
  StartFinalityProvider cfg pollerCfg pk a = (Ok u, a') → serves pk a a'.
Proof.
  intros Hwf Hn. unfold StartFinalityProvider, startFinalityProviderInstance. intros HE. inv_bind HE.
  rewrite Hn in HE. inv_bind HE. inv_bind E0. apply zoom_inv in E1 as (dp & Hnew & ->).
  injection E0 as _ <-. apply new_instance_key in Hnew as (Hpk & fp & Hst & Hs); [|done].
  unfold on_ins in HE. simpl in HE. apply zoom_inv in HE as (fi' & Hstart & ->).
  apply Start_runs in Hstart as [Hk Hr]. simpl in Hk. exists (own_of fi'), fp. simpl.
  by rewrite Hk.
Qed.

(** Synchronising the statuses keeps the store well formed and binds nothing. *)
Definition quiet_start a a' : Prop :=
  wf_le (app_fps a) (app_fps a') ∧ app_fpIns a' = app_fpIns a.
#[export] Instance quiet_start_preorder : PreOrder quiet_start.
Proof. split; [done|]. intros ??? [??] [??]. split; [by etrans|congruence]. Qed.
Lemma quiet_con {A} (m : M C A) : preserves quiet_start (on_con m).
Proof. by apply preserves_zoom_any. Qed.
Lemma quiet_fps {A} (m : M D A) : preserves wf_le m → preserves quiet_start (on_fps m).
Proof. by apply preserves_zoom. Qed.
#[local] Hint Resolve quiet_con quiet_fps wf_le_must wf_le_all : preserves.

Lemma app_Start_quiet : preserves quiet_start app_Start.
Proof.
  unfold app_Start. apply preserves_get_bind. intros a r a'. destruct (app_started a); [by intros [= _ <-]|].
  erewrite go_bind_run; [|reflexivity]. intros HE.
  trans (app_with_once true (app_stopped a) (app_loops a) a); [done|].
  refine ((_ : preserves quiet_start _) _ _ _ HE). clear HE.
  unfold syncAllFinalityProvidersStatus, syncStatus.
  apply preserves_bind; [apply _|solve_preserves|intros _]. by intros ? ? ? [= _ <-].
Qed.

(** A daemon that was started serves the finality provider of the given key,
    or, without a key, the only one it has stored, and runs its instance; that
    record is not slashed.  It starts without an instance only when the store
    is empty; with several records and no key it refuses to start. *)
Theorem StartApp_selects str a u a'
    (Hwf : store_wf (app_fps a)) (Hidle : app_fpIns a = None)
    (Hrun : StartApp cfg pollerCfg str a = (Ok u, a')) :
  ∃ a1, app_Start a = (Ok (), a1) ∧
  if bool_decide (str = "") then
    (app_fpIns a' = None ∧ ∀ k fp, ¬ stored (app_fps a1) k fp)
    ∨ ∃ pk, serves pk a1 a' ∧ ∀ k fp, stored (app_fps a1) k fp → k = pk
  else ∃ pk, NewBIP340PubKeyFromHex str = Ok pk ∧ serves pk a1 a'.
Proof.
  unfold StartApp in Hrun. inv_bind Hrun. destruct a0. exists s. split; [done|].
  destruct (app_Start_quiet _ _ _ E0) as [Hwf1 Hi]. destruct (Hwf1 Hwf) as [Hwf2 _]. rewrite Hidle in Hi.
  case_bool_decide as Hstr; simpl in Hrun.
  - inv_bind Hrun. apply zoom_inv in E1 as (d & Hall & ->).
    apply GetAll_ok in Hall as (-> & Hnd & Hl & Hin); [|done].
    destruct a0 as [|fp [|fp2 l]]; [left|right|done].
    + injection Hrun as _ <-. split; [done|]. intros k p Hst.
      by destruct (Hin _ _ Hst) as (x & []%not_elem_of_nil & _).
    + apply go_wrap_ok, start_serves in Hrun; [|done|done]. exists (BIP340FromBTCPK (sfp_BtcPk fp)).
      split; [exact Hrun|]. intros k p Hst. destruct (Hin _ _ Hst) as (x & Hx & <-).
      apply list_elem_of_singleton in Hx as ->. by rewrite bip340_serialize.
  - inv_bind Hrun. apply go_wrap_ok, start_serves in Hrun; [|done|done]. by exists a0.
Qed.
End start.

(** ** Witness *)

Module CmdWitness.
Import AppToy.
(** The only stored provider is served. *)
Definition w_idle := toy_app (toy_tc [122; 123]%N 0) toy_fp_db.
Definition w_up := StartApp toy_config toy_poller_cfg "" w_idle.
Definition w_synced := app_Start w_idle.

Lemma StartApp_selects_witness :
  w_up = (Ok (), w_up.2) ∧ is_Some (app_fpIns w_up.2)
  ∧ ∃ pk, serves pk w_synced.2 w_up.2.
Proof.
  assert (E : w_up = (Ok (), w_up.2)) by (apply run_eq; vm_eq).
  assert (Hi : is_Some (app_fpIns w_up.2)).
  { assert (Hb : bool_decide (is_Some (app_fpIns w_up.2)) = true) by vm_eq.
    by apply bool_decide_eq_true in Hb. }
  split; [exact E|]. split; [exact Hi|]. unfold w_up at 1 in E.
  destruct (StartApp_selects toy_config toy_poller_cfg "" w_idle () w_up.2 toy_fp_wf eq_refl E)
    as (a1 & Ha1 & Hcase).
  assert (Ha : a1 = w_synced.2) by exact (eq_sym (f_equal snd Ha1)).
  rewrite bool_decide_true in Hcase by reflexivity. rewrite Ha in Hcase. clear Ha Ha1 E.
  destruct Hcase as [[Hn _]|(pk & Hs & _)].
  - exfalso. rewrite Hn in Hi. exact (is_Some_None Hi).
  - exists pk. exact Hs.
Defined.
End CmdWitness.
