(* ===== verification/FpdTools.v ===== *)
(** * Commands that act on a running daemon
      (src/finality-provider/cmd/fpd/common/common_cmd.go)

    Each command parses its arguments and calls the daemon through the RPC
    client; its flags are arguments here.  What is printed is the result. *)

From Stdlib Require Import NArith ZArith Lia.
From stdpp Require Import base gmap strings list relations.
From S2P Require Import Prelude Encoding Kvdb External Config Toy EotsStore EotsApi LocalManager EotsRpc PubRandStore.
From S2P Require Import FpStore ChainApi FinalitySubmitter RandCommitter Bootstrap ChainPoller BbnConsumer FpInstance.
From S2P Require Import ManualOps App AppRpc AppSteps AppHistory AppRequests.

Section commands.
Context `{Crypto} `{Sdk} `{BigEndian} `{Merkle} `{Retry} `{BabylonErrors} `{AccAddress}.
Context `{!SlashingEvidence} `{ServiceDescription} `{Grpc}.
Context {D E C Pl B K : Type} `{!KvBackend D} `{!Codec FinalityProvider} `{!Codec Description}.
Context `{!Codec ProofOfPossessionBTC}.
Context `{!EOTSManager E} `{!ConsumerController C} `{!BlockPoller Pl} `{!BabylonController B}.
Context `{!Keyring K}.
#[local] Abbreviation app := (FinalityProviderApp D E C Pl B K).

Definition runCommandUnjailFP (arg : string) : M app unit :=
  _ ← go_wrap "failed to unjail finality provider" (clt_UnjailFinalityProvider arg);
  mret ().

Definition runCommandLsFP : M app (list FinalityProviderInfo) :=
  go_wrap "failed to query finality provider list" clt_QueryFinalityProviderList.

(** The error for a key that does not parse names the wrong flag. *)
Definition runCommandInfoFP (arg : string) : M app FinalityProviderInfo :=
  fpPk ← go_wrap "failed to read flag daemon-address" (go_lift (NewBIP340PubKeyFromHex arg));
  go_wrap "failed to query finality provider info" (clt_QueryFinalityProviderInfo fpPk).

(** [tmhash.Size] *)
Definition tmhash_Size : nat := 32.

(** [done] is whether the request was cancelled when the daemon reads it. *)
Definition runCommandAddFinalitySig (done : bool) (arg0 arg1 appHashHex : string)
    (checkDoubleSign : bool) : M app (option (string * option PrivateKey)) :=
  fpPk ← go_wrap "failed to parse BIP340 public key from hex" (go_lift (NewBIP340PubKeyFromHex arg0));
  blkHeight ← go_wrap "failed to parse block height" (go_lift (ParseUint arg1));
  if bool_decide (appHashHex = "") then go_fail (EText "app hash is required")
  else
    appHash ← go_wrap "failed to decode app hash" (go_lift (hex_DecodeString appHashHex));
    if negb (length appHash =? tmhash_Size)%nat then
      go_fail (EText ("invalid app hash length: got " +:+ fmt_d (lenN appHash)
                        +:+ " bytes, expected 32 bytes"))
    else
      go_wrap "failed to add finality signature"
        (clt_AddFinalitySignature done (MarshalHex fpPk) blkHeight appHash checkDoubleSign).

Definition runCommandEditFinalityDescription (now : Z) (arg : string) (desc : Description)
    (rate : string) : M app unit :=
  fpPk ← go_wrap "failed to parse BIP340 public key from hex" (go_lift (NewBIP340PubKeyFromHex arg));
  go_map_err (λ err, EWrap ("failed to edit finality provider " +:+ MarshalHex fpPk +:+ " err ") err "")
    (clt_EditFinalityProvider now fpPk desc rate).

Definition runCommandUnsafePruneMerkleProof (arg chainID : string) (targetHeight : N) : M app unit :=
  fpPk ← go_wrap "failed to parse BIP340 public key from hex" (go_lift (NewBIP340PubKeyFromHex arg));
  go_map_err (λ err, EWrap ("failed to remove merkle proof " +:+ MarshalHex fpPk +:+ " err ") err "")
    (clt_UnsafeRemoveMerkleProof fpPk chainID targetHeight).
End commands.

(** ** Pruning *)

Section prune.
Context `{Crypto} `{HexKeyLaws} `{BigEndianLaws} `{Merkle} `{Retry} `{BabylonErrors} `{AccAddress}.
Context `{!SlashingEvidence} `{ServiceDescription} `{Grpc}.
Context {D E C Pl B K : Type} `{!KvBackend D} `{!KvLaws D} `{!Codec FinalityProvider} `{!Codec Description}.
Context `{!Codec ProofOfPossessionBTC}.
Context `{!EOTSManager E} `{!ConsumerController C} `{!BlockPoller Pl} `{!BabylonController B}.
Context `{!Keyring K}.
#[local] Abbreviation app := (FinalityProviderApp D E C Pl B K).

(** The prune command, when it succeeds, has removed exactly the proofs of
    the given key and chain up to the target height from the store of the
    daemon: every other proof, and everything else of the daemon, is as
    before. *)
Theorem prune_command_exact arg chainID target fpPk (a : app) u a'
    (Hpk : NewBIP340PubKeyFromHex arg = Ok fpPk)
    (Hwf : keys_wf (app_pubRandStore a) (bytes_of_string chainID) fpPk)
    (Hrun : runCommandUnsafePruneMerkleProof arg chainID target a = (Ok u, a')) :
  let chain := bytes_of_string chainID in
  a' = app_with_pubRand (app_pubRandStore a') a
  ∧ (∀ h, is_u64 h → kv_get (app_pubRandStore a') pubRandProofBucketName (getKey chain fpPk h)
       = if (h <=? target)%N then None
         else kv_get (app_pubRandStore a) pubRandProofBucketName (getKey chain fpPk h))
  ∧ ∀ b k, b ≠ pubRandProofBucketName ∨ bytes_HasPrefix k (getPrefixKey chain fpPk) = false →
      kv_get (app_pubRandStore a') b k = kv_get (app_pubRandStore a) b k.
Proof.
  unfold runCommandUnsafePruneMerkleProof, clt_UnsafeRemoveMerkleProof, fpd_call in Hrun.
  inv_bind Hrun. rewrite Hpk in E0. injection E0 as <-.
  apply go_map_err_ok, go_wrap_ok, go_map_err_ok in Hrun.
  destruct (hex_key_roundtrip _ _ Hpk) as [Hne Hrt].
  unfold srv_UnsafeRemoveMerkleProof, parseEotsPk in Hrun. rewrite bool_decide_false, Hrt in Hrun by done.
  inv_bind Hrun. injection E0 as <-. apply go_wrap_ok, zoom_inv in Hrun as (d & Hrem & ->).
  destruct u. simpl. split_and!; [done| |].
  - intros h Hh. by apply RemovePubRandProofList_exact.
  - intros b k. by eapply RemovePubRandProofList_other.
Qed.
End prune.

(** ** Votes by hand *)

Section vote.
Context `{CryptoLaws} `{Sdk} `{BigEndian} `{Merkle} `{Retry} `{BabylonErrors} `{AccAddress}.
Context `{!SlashingEvidence} `{ServiceDescription} `{Grpc}.
Context {D E C Pl B K : Type} `{!KvBackend D} `{!Codec FinalityProvider} `{!Codec Description}.
Context `{!Codec ProofOfPossessionBTC}.
Context `{!EOTSManager E} `{!EOTSProtection E} `{!ConsumerController C} `{!BlockPoller Pl}.
Context `{!BabylonController B} `{!Keyring K}.
#[local] Abbreviation app := (FinalityProviderApp D E C Pl B K).
#[local] Abbreviation fpi := (FinalityProviderInstance D E C Pl).

(** A manual vote that was accepted: one request was sent, for this block, with
    the signature the manager now protects. *)
Lemma protected_vote b (fi : fpi) tx key fi' :
  SubmitFinalitySignatureAndExtractPrivKey b true fi = (Ok (tx, key), fi') →
  ∃ pr proof s,
    em_signed (fi_em fi') (fi_btcPk fi) (GetChainID (fi_fpState fi)) (blk_height b) (MsgToSign b "") s
    ∧ cc_SubmitBatchFinalitySigs (mkSubmitReq _ (GetBtcPk (fi_fpState fi)) [b] [pr] [proof] [s])
        (fi_consumerCon fi) = (Ok (Some tx), fi_consumerCon fi').
Proof.
  unfold SubmitFinalitySignatureAndExtractPrivKey. intros HE. inv_bind HE. destruct a as [|pr prs]; [done|].
  unfold fi_GetPubRandList in E0. inv_bind E0. apply go_wrap_ok, zoom_inv in E0 as (e & _ & ->).
  inv_bind HE. unfold getProofOf in E0. inv_bind E0. apply go_wrap_ok, zoom_inv in E0 as (d & _ & ->).
  inv_bind HE. unfold eotsSigner, fi_SignFinalitySig in E0. inv_bind E0. inv_bind E0.
  injection E0 as <- <-. apply zoom_inv in E1 as (e2 & Hs & ->). inv_bind HE. unfold submitAndExtract in HE.
  inv_bind HE. unfold on_consumerCon in E0. rewrite eots_sig_roundtrip in E0.
  destruct (cc_SubmitBatchFinalitySigs _ _) as [r c] eqn:Hc. injection E0 as -> <-. exists pr, a, a1.
  destruct a0 as [res|]; [|done].
  set (fi2 := mkFPI _ _ _ _ _ _ _ _ _ _ _) in *.
  assert (res = tx ∧ fi' = fi2) as [-> ->].
  { case_bool_decide; [by injection HE as -> _ <-|]. inv_bind HE. by injection HE as -> _ <-. }
  split; [|exact Hc]. by apply em_SignEOTS_signed in Hs.
Qed.

(** A vote by hand with the double-sign check, when the command succeeds:
    its arguments are a key, a height and a 32-byte hash, the daemon runs an
    instance of that key, exactly one request was sent to the chain, for the
    block of that height and hash, its hash is returned, and the signature in
    it is one the EOTS manager now protects: the height is bound to this
    message for the key and chain of the instance. *)
Theorem vote_command_protected arg0 arg1 hashHex (a : app) res a'
    (Hrun : runCommandAddFinalitySig false arg0 arg1 hashHex true a = (Ok res, a')) :
  ∃ pk h hash o pr proof s tx key,
    NewBIP340PubKeyFromHex arg0 = Ok pk ∧ ParseUint arg1 = Ok h
    ∧ hex_DecodeString hashHex = Ok hash ∧ length hash = tmhash_Size
    ∧ app_fpIns a = Some o ∧ own_hex o = MarshalHex pk
    ∧ em_signed (app_eotsManager a') (own_btcPk o) (own_chain o) h
        (MsgToSign (NewBlockInfo h hash false) "") s
    ∧ cc_SubmitBatchFinalitySigs
        (mkSubmitReq _ (sfp_BtcPk (own_sfp o)) [NewBlockInfo h hash false] [pr] [proof] [s])
        (app_consumerCon a) = (Ok (Some tx), app_consumerCon a')
    ∧ res = Some (TxHash tx, key).
Proof.
  unfold runCommandAddFinalitySig in Hrun. inv_bind Hrun. inv_bind Hrun.
  case_bool_decide; [done|]. inv_bind Hrun.
  destruct (length _ =? tmhash_Size)%nat eqn:Hl; simpl in Hrun; [|done].
  apply go_wrap_ok in Hrun. unfold clt_AddFinalitySignature, fpd_call in Hrun.
  apply go_wrap_ok, go_map_err_ok in Hrun. unfold srv_AddFinalitySignature in Hrun. inv_bind Hrun.
  unfold GetFinalityProviderInstance in E3. inv_bind E3. destruct (app_fpIns a) as [o|] eqn:Ho; [|done].
  injection E3 as <- <-. case_bool_decide as Hk; simpl in Hrun; [|done]. inv_bind Hrun.
  destruct a3 as [tx key]. injection Hrun as <- <-. unfold on_ins in E3. rewrite Ho in E3.
  apply zoom_inv in E3 as (fi & Hv & ->). apply protected_vote in Hv as (pr & proof & s & Hs & Hc).
  exists a0, a1, a2, o, pr, proof, s, tx, key. btests. by split_and!.
Qed.
End vote.

(** ** Witnesses *)

Module ToolsWitness.
Import StepsToy.
#[local] Instance w_grpc : Grpc := λ e, EWrap "rpc error: code = Unknown desc = " e "".
Import PubRandWitness.

(** Three proofs are stored, the first two are pruned. *)
Definition w_app := app_with_pubRand w_d1 (toy_app (toy_tc [] 0) toy_fp_db).
Definition w_hex : string := toy_hex (toy_pk true).
Definition w_prune := runCommandUnsafePruneMerkleProof w_hex "bbn-1" 101 w_app.

Lemma prune_command_exact_witness :
  w_prune = (Ok (), w_prune.2)
  ∧ kv_get (app_pubRandStore w_prune.2) pubRandProofBucketName (getKey w_c w_pk 101) = None
  ∧ kv_get (app_pubRandStore w_prune.2) pubRandProofBucketName (getKey w_c w_pk 102) = Some (N_bytes 6).
Proof.
  assert (E : w_prune = (Ok (), w_prune.2)) by (apply run_eq; vm_eq).
  assert (Hwf : keys_wf w_d1 w_c w_pk).
  { apply (AddPubRandProofList_wf w_c w_pk 100 3 w_ps [] w_d0 w_d1); [|vm_eq].
    intros k v Hk. vm_compute in Hk. done. }
  split; [exact E|]. unfold w_prune at 1 in E.
  destruct (prune_command_exact w_hex "bbn-1" 101 w_pk w_app () w_prune.2 ltac:(vm_eq) Hwf E)
    as (_ & Hall & _).
  split; [exact (Hall 101%N eq_refl)|]. etrans; [exact (Hall 102%N eq_refl)|vm_eq].
Defined.

(** A daemon that runs an instance with committed randomness votes for height
    122 by hand. *)
Definition w_start := StartFinalityProvider toy_config toy_poller_cfg (toy_pk true)
  (toy_app (toy_tc [122; 123]%N 0) toy_fp_db).
Definition w_commit := on_ins (processRandomnessCommitment true) w_start.2.
Definition w_hash : bytes := replicate 32 Byte.x07.
Definition w_vote := runCommandAddFinalitySig false w_hex "122" (fmt_x w_hash) true w_commit.2.
Definition w_res : option (string * option PrivateKey) := ok_or None w_vote.1.

Lemma vote_command_protected_witness :
  w_vote = (Ok w_res, w_vote.2)
  ∧ ∃ o s, app_fpIns w_commit.2 = Some o
      ∧ em_signed (app_eotsManager w_vote.2) (own_btcPk o) (own_chain o) 122
          (MsgToSign (NewBlockInfo 122 w_hash false) "") s.
Proof.
  assert (E : w_vote = (Ok w_res, w_vote.2)) by (apply run_eq; vm_eq).
  split; [exact E|]. unfold w_vote at 1 in E.
  destruct (vote_command_protected w_hex "122" (fmt_x w_hash) w_commit.2 w_res w_vote.2 E)
    as (pk & h & hash & o & pr & proof & s & tx & key & _ & Hh & Hhash & _ & Ho & _ & Hs & _).
  vm_compute in Hh. injection Hh as <-. rewrite hex_roundtrip in Hhash. injection Hhash as <-.
  exists o, s. split; [exact Ho|exact Hs].
Defined.
End ToolsWitness.
