(* ===== verification/FpdStart.v ===== *)
(** * Assembling and starting the finality provider daemon
      (src/finality-provider/cmd/fpd/daemon/start.go, src/finality-provider/service/app.go:
       NewFinalityProviderAppFromConfig, src/clientcontroller/factory.go,
       src/clientcontroller/babylon/consumer.go: NewBabylonConsumerController,
       src/finality-provider/service/eots_manager_adapter.go: InitEOTSManagerClient,
       src/keyring/keyring.go)

    The daemon with its real parts: the Babylon controllers on a client of
    Babylon, the gRPC client of the EOTS manager, the chain poller and the
    stores; and the start command around it. *)

From Stdlib Require Import NArith ZArith Lia.
From stdpp Require Import base gmap strings list relations.
From S2P Require Import Prelude Kvdb External Config Toy Paths ConfigFiles EotsStore EotsApi LocalManager EotsRpc.
From S2P Require Import PubRandStore FpStore ChainApi FinalitySubmitter RandCommitter Bootstrap ChainPoller.
From S2P Require Import BbnConsumer BbnWrapper FpInstance App AppRpc FpdCmd Lifecycle.

(** ** Stores and configurations of the parts *)

Section parts.
Context {D : Type} `{!KvBackend D}.

(** A store is its database once the buckets are there. *)
Definition store_of (r : outcome unit * D) : outcome D :=
  match r with
  | (Ok _, d) => Ok d
  | (Err e, _) => Err e
  | (Crash w, _) => Crash w
  end.
Definition NewFinalityProviderStore (db : D) : outcome D := store_of (fp_initBuckets db).
Definition NewPubRandProofStore (db : D) : outcome D := store_of (pr_initBuckets db).
End parts.

Definition NewRandomnessCommitterConfig (numPubRand : N) (timestampingDelayBlocks : Z)
    (contextSigningHeight : N) : RandomnessCommitterConfig :=
  mkRcCfg numPubRand timestampingDelayBlocks contextSigningHeight None.
(** Without the interval of the retries, which is only waited for. *)
Definition NewDefaultFinalitySubmitterConfig (maxSubmissionRetries contextSigningHeight : N)
    : FinalitySubmitterConfig := mkSubmitterCfg maxSubmissionRetries contextSigningHeight.

(** ** keyring/keyring.go *)

(** [os.UserHomeDir] *)
Definition UserHomeDir (w : os) : outcome string :=
  let h := os_Getenv w "HOME" in
  if bool_decide (h = "") then Err (EText "$HOME is not defined") else Ok h.

(** The chain id and the keyring directory of the client context. *)
Definition CreateClientCtx (w : os) (keyringDir chainID : string) : outcome (string * string) :=
  dir ← (if bool_decide (keyringDir = "") then
           homeDir ← wrap_err "failed to get user home directory" (UserHomeDir w);
           Ok (Join [homeDir; ".finality-provider"])
         else Ok keyringDir);
  Ok (chainID, dir).

Section keyring.
Context {K : Type} (keyring_New : string → string → string → outcome K).

Definition CreateKeyring (w : os) (keyringDir chainID backend : string) : outcome K :=
  ctx ← CreateClientCtx w keyringDir chainID;
  if bool_decide (backend = "") then Err (EText "the keyring backend should not be empty")
  else wrap_err "failed to create keyring" (keyring_New ctx.1 backend ctx.2).
End keyring.

Section daemon.
Context `{Crypto} `{Sdk} `{BigEndian} `{Merkle} `{Retry} `{BabylonErrors} `{AccAddress} `{Grpc}.
Context `{DescriptionLength} `{NetParsers} `{ConfigDefaults} `{!Ini Config}.
Context `{BbnTypes} `{Bech32} `{StakingTypes} `{ServiceDescription}.
Context `{!Codec FinalityProvider} `{!Codec Description} `{!Codec ProofOfPossessionBTC}.
Context `{!Codec pSigningRecord} `{Bip39} `{RandFuel} `{!Codec rpc_request}.
(** The store and the keyring of [fpd], those of the EOTS manager, and the
    client of Babylon. *)
Context {D K DR KR B0 : Type} `{!KvBackend D} `{!Keyring K} `{!KvBackend DR} `{!Keyring KR}.
Context `{!BbnClient B0} `{!BbnStaking B0}.
(** The pages of commitments that a query follows. *)
Context (pages : nat).
#[local] Abbreviation bcc := (BabylonConsumerController B0).
#[local] Abbreviation remote := (EOTSManagerGRPCClient KR DR).
#[local] Instance consumer : ConsumerController bcc := bbn_controller pages.
#[local] Abbreviation app := (FinalityProviderApp D remote bcc (ChainPoller bcc) bcc K).

(** [bbnclient.New], [bbnConfig.Validate()], what answers at an address,
    [kvdb.GetBoltBackend], [keyring.New] and [net.Listen] *)
Variable bbnclient_New : BabylonConfig → outcome B0.
Variable BabylonConfig_Validate : BabylonConfig → outcome unit.
Variable eots_at : string → remote.
Variable GetBoltBackend : BoltBackendConfig → M os D.
Variable keyring_New : string → string → string → outcome K.
Variable net_Listen : string → outcome unit.

(** clientcontroller/factory.go *)
Definition NewBabylonController (bbnConfig : BBNConfig) : outcome bcc :=
  bbnClient ← wrap_err "failed to create Babylon rpc client" (bbnclient_New (ToBabylonConfig bbnConfig));
  wrap_err "failed to create Babylon rpc client" (NewClientWrapper bbnClient bbnConfig).

Definition NewBabylonConsumerController (cfg : BBNConfig) : outcome bcc :=
  let bbnConfig := ToBabylonConfig cfg in
  _ ← wrap_err "invalid config for Babylon client" (BabylonConfig_Validate bbnConfig);
  bc ← wrap_err "failed to create Babylon client" (bbnclient_New bbnConfig);
  Ok (mkBCC bc cfg).

(** The limits of messages are options of the calls and not represented. *)
Definition InitEOTSManagerClient (address hmacKey : string) : outcome remote :=
  match NewEOTSManagerGRPCClient hmacKey (eots_at address) with
  | (Ok _, c) => Ok c
  | (Err e, _) => Err (wrapf "failed to create EOTS manager client" e)
  | (Crash w, _) => Crash w
  end.

(** [cc.Start()]: the controller after it. *)
Definition started_controller (cc : bcc) : outcome bcc :=
  match Wrapper_Start cc with
  | (Ok _, cc') => Ok cc'
  | (Err e, _) => Err e
  | (Crash w, _) => Crash w
  end.

(** A nil part of the configuration is dereferenced. *)
Definition deref {A} (x : option A) : outcome A :=
  match x with Some a => Ok a | None => Crash "nil pointer dereference" end.

Definition NewFinalityProviderAppFromConfig (w : os) (cfg : Config) (db : D) : outcome app :=
  bbn ← deref (cfg_BabylonConfig cfg);
  cc ← wrap_err "failed to create rpc client for the Babylon chain" (NewBabylonController bbn);
  cc ← wrap_err "failed to start rpc client for the Babylon chain" (started_controller cc);
  consumerCon ← wrap_err "failed to create rpc client for the consumer chain babylon"
                  (NewBabylonConsumerController bbn);
  em ← wrap_err "failed to create EOTS manager client"
         (InitEOTSManagerClient (cfg_EOTSManagerAddress cfg) (cfg_HMACKey cfg));
  pollerCfg ← deref (cfg_PollerConfig cfg);
  let poller := NewChainPoller pollerCfg consumerCon in
  pubRandDb ← wrap_err "failed to initiate public randomness store" (NewPubRandProofStore db);
  let rcCfg := NewRandomnessCommitterConfig (cfg_NumPubRand cfg)
                 (Z.of_N (cfg_TimestampingDelayBlocks cfg)) (cfg_ContextSigningHeight cfg) in
  NewFinalityProviderApp cc consumerCon em poller rcCfg
    (CreateKeyring keyring_New w (bbn_cfg_KeyDirectory bbn) (bbn_cfg_ChainID bbn)
       (bbn_cfg_KeyringBackend bbn)) "" db pubRandDb.

(** *** cmd/fpd/daemon/start.go *)

Definition cfg_with_listener (addr : string) (c : Config) : Config :=
  mkConfig (cfg_LogLevel c) (cfg_NumPubRand c) (cfg_TimestampingDelayBlocks c) (cfg_MaxSubmissionRetries c)
    (cfg_EOTSManagerAddress c) (cfg_HMACKey c) (cfg_BatchSubmissionSize c) (cfg_RandomnessCommitInterval c)
    (cfg_SubmissionRetryInterval c) (cfg_SignatureSubmissionInterval c) (cfg_PollerConfig c)
    (cfg_DatabaseConfig c) (cfg_BabylonConfig c) addr (cfg_Metrics c) (cfg_ContextSigningHeight c)
    (cfg_GRPCMaxContentLength c) (cfg_AdvancedResetLastVotedHeight c).

Definition runStartCmd (homeDir fpStr rpcListener : string) (serve : M app unit) : M (proc app) unit :=
  p ← go_get;
  let homePath := getCleanPath (p_os p) homeDir in
  cfg ← go_wrap "failed to load configuration" (on_os (LoadConfig homePath));
  bbn ← go_lift (deref (cfg_BabylonConfig cfg));
  if negb (bool_decide (bbn_cfg_KeyringBackend bbn = "test")) then
    go_fail (EText ("the keyring backend in config must be `test` for automatic signing, got "
                      +:+ bbn_cfg_KeyringBackend bbn))
  else
    addr ← listener_flag ", " (cfg_RPCListener cfg) rpcListener;
    let cfg := cfg_with_listener addr cfg in
    _ ← go_wrap "failed to initialize the logger"
          (on_os (NewRootLoggerWithFile (LogFile homePath) (cfg_LogLevel cfg)));
    db ← open_database GetBoltBackend (cfg_DatabaseConfig cfg);
    pollerCfg ← go_lift (deref (cfg_PollerConfig cfg));
    p ← go_get;
    fpApp ← go_wrap "failed to create finality-provider app"
              (go_lift (NewFinalityProviderAppFromConfig (p_os p) cfg db));
    _ ← set_app fpApp;
    _ ← go_wrap "failed to start app" (on_app (StartApp cfg pollerCfg fpStr));
    go_wrap "failed to run finality provider server" (fpd_RunUntilShutdown net_Listen cfg serve).

(** *** What the command leaves behind *)

Lemma Config_Validate_metrics cfg :
  Config_Validate cfg = Ok () → ∃ m addr, cfg_Metrics cfg = Some m ∧ Metrics_Address m = Ok addr.
Proof.
  unfold Config_Validate. case_bool_decide; [done|]. destruct (ResolveTCPAddr _); [|done..].
  intros (m & [Hm Hv]%validate_part_ok & _)%outcome_bind_ok. eexists m, _. split; [done|].
  unfold Metrics_Address. by rewrite Hv.
Qed.

Lemma on_app_run {X A} (m : M X A) (p : proc X) x r p' :
  p_app p = Some x → on_app m p = (r, p') → ∃ x', m x = (r, x') ∧ p' = with_app (Some x') p.
Proof. intros Hx. unfold on_app. rewrite Hx. destruct (m x) as [r0 x'] eqn:E. intros [= <- <-]. eauto. Qed.

(** The daemon is up: made from the configuration and started. *)
Definition brought_up (w : os) (cfg : Config) (fpStr : string) (a1 : app) : Prop :=
  ∃ db pollerCfg a0, cfg_PollerConfig cfg = Some pollerCfg
    ∧ NewFinalityProviderAppFromConfig w cfg db = Ok a0 ∧ StartApp cfg pollerCfg fpStr a0 = (Ok (), a1).

(** The part of the command after the database was opened. *)
Lemma start_opened cfg fpStr serve pollerCfg db m prom p r p' :
  p_started p = 0%Z → p_trace p = [DbOpened] → cfg_PollerConfig cfg = Some pollerCfg →
  cfg_Metrics cfg = Some m → Metrics_Address m = Ok prom →
  (p0 ← go_get;
   fpApp ← go_wrap "failed to create finality-provider app"
             (go_lift (NewFinalityProviderAppFromConfig (p_os p0) cfg db));
   _ ← set_app fpApp;
   _ ← go_wrap "failed to start app" (on_app (StartApp cfg pollerCfg fpStr));
   go_wrap "failed to run finality provider server" (fpd_RunUntilShutdown net_Listen cfg serve)) p = (r, p') →
  match r with
  | Ok _ =>
      p_db_open p' = false
      ∧ p_trace p' = DbOpened :: full_run prom (cfg_RPCListener cfg) (mkGrpcOptions None None None)
      ∧ ∃ a1 a2, brought_up (p_os p) cfg fpStr a1 ∧ serve a1 = (Ok (), a2) ∧ p_app p' = Some a2
  | Err _ => p_db_open p' = false ∨ p_trace p' = [DbOpened]
  | Crash _ => True
  end.
Proof.
  intros Hst Htr Hpc Hm Hprom Hrun. rewrite (go_bind_run _ _ _ p p) in Hrun by done.
  apply go_bind_inv in Hrun as [(a0 & p1 & E & Hrun)|[(e & E & ->)|(w & E & ->)]]; [|right|done].
  2: { by apply go_wrap_inv in E as (r0 & [= <- <-] & _). }
  apply go_wrap_ok in E. injection E as Ha0 <-.
  rewrite (go_bind_run _ _ _ () (with_app (Some a0) p)) in Hrun by done.
  apply go_bind_inv in Hrun as [([] & p2 & E & Hrun)|[(e & E & ->)|(w & E & ->)]]; [|right|done].
  2: { apply go_wrap_inv in E as (r0 & E & _). by apply on_app_frame in E as (_ & _ & _ & ->). }
  apply go_wrap_ok, (on_app_run _ _ a0) in E as (a1 & Ha1 & ->); [|done].
  apply go_wrap_inv in Hrun as (r0 & Hrun & ->). unfold fpd_RunUntilShutdown in Hrun. rewrite Hm in Hrun.
  pose proof Hrun as Happ. eapply run_server_first in Hrun as [_ Hr]; [|done|done].
  simpl in Hr. rewrite Htr in Hr. destruct r0 as [u|e|w]; simpl; [|by left; apply Hr|done].
  destruct Hr as [-> ->]. split; [done|]. split; [done|].
  eapply run_server_app in Happ as (a2 & Hs & Ha2); [|done|done]. exists a1, a2. destruct u.
  split; [by exists db, pollerCfg, a0|done].
Qed.

(** C33: the start command of [fpd] on a fresh process.  If it returns without an
    error, the configuration was valid with a keyring for automatic signing,
    the daemon was assembled from it and started, served its requests and was
    then left as serving left it: [Stop] is not called, so that loops that run
    still do when the database is closed.  If it returns an error, the
    database is closed, or was opened and nothing else was acquired. *)
Theorem fpd_start_command homeDir fpStr rpcListener (serve : M app unit) p r p'
    (Hfresh : fresh p)
    (Hrun : runStartCmd homeDir fpStr rpcListener serve p = (r, p')) :
  match r with
  | Ok _ =>
      ∃ cfg w bbn prom a1 a2, LoadConfig (getCleanPath (p_os p) homeDir) (p_os p) = (Ok cfg, w)
        ∧ cfg_BabylonConfig cfg = Some bbn ∧ bbn_cfg_KeyringBackend bbn = "test"
        ∧ p_db_open p' = false
        ∧ (let addr := if bool_decide (rpcListener = "") then cfg_RPCListener cfg else rpcListener in
           (∃ w', brought_up w' (cfg_with_listener addr cfg) fpStr a1)
           ∧ p_trace p' = DbOpened :: full_run prom addr (mkGrpcOptions None None None))
        ∧ serve a1 = (Ok (), a2) ∧ p_app p' = Some a2
  | Err _ => p_db_open p' = false ∨ p_trace p' = [DbOpened]
  | Crash _ => True
  end.
Proof.
  unfold runStartCmd in Hrun. rewrite (go_bind_run _ _ _ p p) in Hrun by done.
  set (home := getCleanPath _ _) in *.
  apply go_bind_inv in Hrun as [(cfg & p1 & E & Hrun)|[(e & E & ->)|(w & E & ->)]]; [|left|done].
  2: { apply go_wrap_inv in E as (r0 & E & _). apply (on_os_fresh _ _ _ _ Hfresh) in E. by apply fresh_closed. }
  apply go_wrap_ok in E. pose proof (on_os_fresh _ _ _ _ Hfresh E) as Hf1.
  apply zoom_inv in E as (w1 & Eload & ->). pose proof (load_config_ok _ _ _ _ _ Eload) as Hv.
  apply go_bind_inv in Hrun as [(bbn & p2 & E & Hrun)|[(e & E & ->)|(w & E & ->)]]; [|left|done].
  2: { injection E as _ <-. by apply fresh_closed. }
  injection E as Hbbn <-. destruct (cfg_BabylonConfig cfg) as [b|] eqn:Eb; [|done]. injection Hbbn as ->.
  case_bool_decide as Hbk; simpl in Hrun; [|injection Hrun as <- <-; left; by apply fresh_closed].
  apply go_bind_inv in Hrun as [(addr & p2 & E & Hrun)|[(e & E & ->)|(w & E & ->)]]; [|left|done].
  2: { apply listener_flag_ok in E as [-> _]. by apply fresh_closed. }
  apply listener_flag_ok in E as [-> Haddr]. specialize (Haddr _ eq_refl).
  apply go_bind_inv in Hrun as [(lg & p3 & E & Hrun)|[(e & E & ->)|(w & E & ->)]]; [|left|done].
  2: { apply go_wrap_inv in E as (r0 & E & _). apply (on_os_fresh _ _ _ _ Hf1) in E. by apply fresh_closed. }
  apply go_wrap_ok, (on_os_fresh _ _ _ _ Hf1) in E as Hf3.
  apply go_bind_inv in Hrun as [(db & p4 & E4 & Hrun)|[(e & E4 & ->)|(w & E4 & ->)]]; [|left|done];
    apply (open_database_cases _ _ _ _ _ Hf3) in E4 as Ho; [|by apply fresh_closed].
  destruct Ho as (Hs4 & Hd4 & Ht4).
  apply go_bind_inv in Hrun as [(pc & p5 & E5 & Hrun)|[(e & E5 & ->)|(w & E5 & ->)]]; [|right|done].
  2: { by injection E5 as _ <-. }
  injection E5 as Hpc <-. simpl in Hpc. destruct (cfg_PollerConfig cfg) as [pc0|] eqn:Epc; [|done].
  injection Hpc as ->. destruct (Config_Validate_metrics cfg Hv) as (m & prom & Hm & Hprom).
  eapply (start_opened (cfg_with_listener addr cfg) fpStr serve pc db m prom) in Hrun; try done.
  destruct r as [u|e|w]; [|done..]. destruct Hrun as (Hd & Ht & a1 & a2 & Hup & Hsv & Ha2).
  exists cfg, w1, bbn, prom, a1, a2. rewrite <-Haddr. split_and!; try done; eauto.
Qed.
End daemon.

Module StartWitness.
Import CfgToy FpdRpcToy RpcToy.
#[local] Instance w_length : DescriptionLength := λ d, Ok d.
#[local] Instance w_staking_types : StakingTypes := {|
  BTCSlashingTx := bytes; TransactionKey := N; InclusionProof := N * bytes; BTCHeaderBytes := bytes;
  BTCSpvProof := bytes; BTCHeaderInfo := N; BTCDelegation := bytes; NewInclusionProof := pair;
|}.
#[local] Instance w_staking : BbnStaking toy_bbn := {|
  bbn_GetAddr b := (Ok "bbn1fp", b);
  bbn_TxIndexEnabled b := (Ok true, b);
  bbn_SendStaking _ b := (Ok (Some (mkRelayerTxResponse "tx" [])), b);
  bbn_FinalityProviders page b := (Ok (mkFpPage _ [] None), b);
  bbn_BTCHeaderChainTip b := (Ok 100%N, b);
  bbn_CurrentEpoch b := (Ok 4%N, b);
  bbn_VotesAtHeight _ b := (Ok [toy_pk true], b);
  bbn_BTCDelegations _ _ b := (Ok [], b);
  bbn_BTCCheckpointParams b := (Ok (mkCheckpointParams 6 100), b);
  bbn_BTCStakingParams b := (Ok (mkBtcStakingParams _ [toy_pk true; toy_pk false] 2 [] 1000 3%N 101), b);
|}.

(** A machine after [fpd init], a chain and an EOTS manager that answer. *)
Definition w_os : os := (runInitCmd "f" false toy_os).2.
Definition w_chain (c : BabylonConfig) : outcome toy_bbn := Ok (mkToyBbn [] [] []).
Definition w_valid (c : BabylonConfig) : outcome unit := Ok ().
Definition w_eots (addr : string) := toy_remote "" "" [Delivered].
Definition w_open (c : BoltBackendConfig) : M os MapDb.db := mret MapDb.empty.
Definition w_keyring (service backend dir : string) : outcome toy_keyring :=
  Ok {| tk_backend := backend; tk_names := [] |}.
Definition w_listen (addr : string) : outcome unit := Ok ().
Definition w_serve {X} : M X unit := mret ().
Definition w_proc : proc (FinalityProviderApp MapDb.db (EOTSManagerGRPCClient toy_keyring MapDb.db)
    (BabylonConsumerController toy_bbn) (ChainPoller (BabylonConsumerController toy_bbn))
    (BabylonConsumerController toy_bbn) toy_keyring) := mkProc w_os None false 0 [].

Definition w_start := runStartCmd 3 w_chain w_valid w_eots w_open w_keyring w_listen "f" "" "" w_serve w_proc.

(** The database is closed while the loops of the daemon still run. *)
Lemma fpd_start_command_witness :
  w_start = (Ok (), w_start.2) ∧ p_db_open w_start.2 = false
  ∧ match p_app w_start.2 with Some a => app_loops a = true | None => False end.
Proof.
  assert (E : w_start = (Ok (), w_start.2)) by (apply run_eq; vm_eq).
  split; [exact E|]. split.
  - unfold w_start at 1 in E.
    destruct (fpd_start_command 3 w_chain w_valid w_eots w_open w_keyring w_listen "f" "" "" w_serve w_proc
      (Ok ()) w_start.2 (conj eq_refl (conj eq_refl eq_refl)) E)
      as (cfg & w & bbn & prom & a1 & a2 & _ & _ & _ & Hd & _).
    exact Hd.
  - vm_cast_no_check (eq_refl true).
Defined.
End StartWitness.
