(* ===== verification/FpdHome.v ===== *)
(** * fpd commands on a home directory
      (src/finality-provider/cmd/fpd/daemon/commit_pr.go, recover_proof.go)

    Committing public randomness and recovering lost proofs without a running
    daemon: the commands load the configuration, open the database and the
    connections themselves, and then do what [ManualOps] has.  Whether the
    database is closed again is part of the state ([Lifecycle]). *)

From Stdlib Require Import NArith ZArith Lia.
From stdpp Require Import base gmap strings list relations.
From S2P Require Import Prelude Encoding Kvdb External Config Toy Paths ConfigFiles EotsStore EotsApi LocalManager.
From S2P Require Import EotsRpc PubRandStore FpStore ChainApi FinalitySubmitter RandCommitter ChainPoller.
From S2P Require Import BbnConsumer BbnWrapper FpInstance ManualOps App AppRpc FpdCmd Lifecycle EotsOffline FpdStart.

Section commands.
Context `{Crypto} `{Sdk} `{BigEndian} `{Merkle} `{Retry} `{BabylonErrors} `{AccAddress} `{Grpc}.
Context `{NetParsers} `{!Ini Config} `{BbnTypes} `{Bech32} `{StakingTypes}.
Context `{!Codec FinalityProvider} `{!Codec Description} `{!Codec pSigningRecord}.
Context `{Bip39} `{RandFuel} `{!Codec rpc_request}.
Context {D DR KR B0 : Type} `{!KvBackend D} `{!KvBackend DR} `{!Keyring KR}.
Context `{!BbnClient B0} `{!BbnStaking B0}.
Context (pages : nat).
#[local] Abbreviation bcc := (BabylonConsumerController B0).
#[local] Abbreviation remote := (EOTSManagerGRPCClient KR DR).
#[local] Instance home_consumer : ConsumerController bcc := bbn_controller pages.
#[local] Abbreviation fpi := (FinalityProviderInstance D remote bcc (ChainPoller bcc)).
#[local] Abbreviation env := (RecoverEnv D remote bcc).

(** As in [FpdStart]; [db_Close] is the answer of [db.Close()]. *)
Variable bbnclient_New : BabylonConfig → outcome B0.
Variable BabylonConfig_Validate : BabylonConfig → outcome unit.
Variable eots_at : string → remote.
Variable GetBoltBackend : BoltBackendConfig → M os D.
Variable db_Close : outcome unit.

(** ** commit_pr.go *)

(** The stores, the connections and the instance, which the process holds then.
    The stores are the buckets of one database. *)
Definition commit_instance (cfg : Config) (fpPk : bytes) (db : D) : M (proc fpi) unit :=
  fpStore ← go_wrap "failed to initiate finality provider store" (go_lift (NewFinalityProviderStore db));
  pubRandStore ← go_wrap "failed to initiate public randomness store" (go_lift (NewPubRandProofStore fpStore));
  bbn ← go_lift (deref (cfg_BabylonConfig cfg));
  cc ← go_wrap "failed to create rpc client for the Babylon chain"
         (go_lift (NewBabylonController bbnclient_New bbn));
  _ ← go_wrap "failed to start client controller" (go_lift (started_controller cc));
  consumerCon ← go_wrap "failed to create rpc client for the consumer chain"
                  (go_lift (NewBabylonConsumerController bbnclient_New BabylonConfig_Validate bbn));
  em ← go_lift (InitEOTSManagerClient eots_at (cfg_EOTSManagerAddress cfg) (cfg_HMACKey cfg));
  pollerCfg ← go_lift (deref (cfg_PollerConfig cfg));
  let poller := NewChainPoller pollerCfg consumerCon in
  let rcCfg := NewRandomnessCommitterConfig (cfg_NumPubRand cfg)
                 (Z.of_N (cfg_TimestampingDelayBlocks cfg)) (cfg_ContextSigningHeight cfg) in
  fp ← go_wrap ("failed to create finality-provider " +:+ MarshalHex fpPk +:+ " instance")
         (go_lift (NewFinalityProviderInstance fpPk
            (mkDeps fpStore (mkRC None rcCfg pubRandStore consumerCon em) poller false)).1);
  set_app fp.

(** Up to the commitments; the result is the target height. *)
Definition commit_setup (homePath : string) (cfg : Config) (fpPkHex targetArg : string) : M (proc fpi) N :=
  fpPk ← go_wrap "failed to parse BIP340 public key from hex" (go_lift (NewBIP340PubKeyFromHex fpPkHex));
  targetHeight ← go_wrap "failed to parse target height" (go_lift (ParseUint targetArg));
  _ ← go_wrap "failed to initialize the logger"
        (on_os (NewRootLoggerWithFile (LogFile homePath) (cfg_LogLevel cfg)));
  db ← open_database GetBoltBackend (cfg_DatabaseConfig cfg);
  _ ← commit_instance cfg fpPk db;
  mret targetHeight.

(** The commitments; the largest [uint64] stands for a start height that was not
    given. *)
Definition commit_up_to (cfg : Config) (fuel : nat) (startHeight targetHeight : N) (fp : fpi)
    : option (outcome unit * fpi) :=
  if (startHeight =? MaxUint64)%N then
    prod_map (wrap_err "failed to commit pubrand") id <$> manual_CommitPubRand cfg fuel targetHeight fp
  else
    prod_map (wrap_err "failed to commit pubrand with start height") id
      <$> CommitPubRandWithStartHeight cfg fuel startHeight targetHeight fp.

Definition RunCommandCommitPubRandWithConfig (fuel : nat) (homePath : string) (cfg : Config)
    (fpPkHex targetArg : string) (startHeight : N) (p : proc fpi) : option (outcome unit * proc fpi) :=
  match commit_setup homePath cfg fpPkHex targetArg p with
  | (Err e, p') => Some (Err e, p')
  | (Crash w, p') => Some (Crash w, p')
  | (Ok targetHeight, p') =>
      match p_app p' with
      | None => Some (Crash "nil pointer dereference", p')
      | Some fp => prod_map id (λ fp', with_app (Some fp') p') <$> commit_up_to cfg fuel startHeight targetHeight fp
      end
  end.

Definition runCommandCommitPubRand (fuel : nat) (homeDir fpPkHex targetArg : string) (startHeight : N)
    (p : proc fpi) : option (outcome unit * proc fpi) :=
  let homePath := getCleanPath (p_os p) homeDir in
  match go_wrap "failed to load configuration" (on_os (LoadConfig homePath)) p with
  | (Err e, p') => Some (Err e, p')
  | (Crash w, p') => Some (Crash w, p')
  | (Ok cfg, p') => RunCommandCommitPubRandWithConfig fuel homePath cfg fpPkHex targetArg startHeight p'
  end.

(** ** recover_proof.go *)

(** The deferred function panics when the database cannot be closed. *)
Definition defer_close {A} (m : M (proc env) A) : M (proc env) A := λ p,
  match m p with
  | (Crash w, p') => (Crash w, p')
  | (r, p') =>
      match db_Close with
      | Ok _ => (r, close_database p')
      | Err e => (Crash ("failed to close db: " +:+ Error e), p')
      | Crash w => (Crash w, p')
      end
  end.

Definition runCommandRecoverProof (homeDir chainID fpPkHex : string) (startHeight : N) : M (proc env) unit :=
  p ← go_get;
  let homePath := getCleanPath (p_os p) homeDir in
  cfg ← go_wrap "failed to load configuration" (on_os (LoadConfig homePath));
  _ ← go_wrap "failed to initialize the logger"
        (on_os (NewRootLoggerWithFile (LogFile homePath) (cfg_LogLevel cfg)));
  bbn ← go_lift (deref (cfg_BabylonConfig cfg));
  bcc ← go_wrap "failed to create Babylon rpc client"
          (go_lift (NewBabylonConsumerController bbnclient_New BabylonConfig_Validate bbn));
  db ← open_database GetBoltBackend (cfg_DatabaseConfig cfg);
  defer_close
    (pubRandStore ← go_wrap "failed to initiate public randomness store" (go_lift (NewPubRandProofStore db));
     _ ← set_app (mkRecoverEnv bcc (eots_at (cfg_EOTSManagerAddress cfg)) pubRandStore);
     on_app (RunCommandRecoverProofWithConfig (NewEOTSManagerGRPCClient (cfg_HMACKey cfg)) chainID fpPkHex
       startHeight)).

(** ** What the commands leave behind *)

(** The database stays open or closed and nothing is acquired. *)
Definition same_db {X} (p p' : proc X) : Prop := p_db_open p' = p_db_open p ∧ p_trace p' = p_trace p.
#[local] Instance same_db_order {X} : PreOrder (same_db (X := X)).
Proof. split; [by intros p|]. intros p1 p2 p3 [Hd Ht] [Hd' Ht']. split; congruence. Qed.

Lemma set_app_same {X} (x : X) : preserves same_db (set_app x).
Proof. by intros p r p' [= <- <-]. Qed.
Lemma on_app_same {X A} (m : M X A) : preserves same_db (on_app m).
Proof. intros p r p' E. by apply on_app_frame in E as (_ & ? & _ & ?). Qed.
#[local] Hint Resolve set_app_same on_app_same : preserves.

(** The instance of the command *)
Definition made_instance (fpPk : bytes) (fp : fpi) : Prop :=
  ∃ deps, (NewFinalityProviderInstance fpPk deps).1 = Ok fp.

Lemma commit_instance_ok cfg fpPk db p r p' :
  commit_instance cfg fpPk db p = (r, p') →
  same_db p p' ∧ (r = Ok () → ∃ fp, p_app p' = Some fp ∧ made_instance fpPk fp).
Proof.
  intros HE. split.
  { revert HE. cut (preserves same_db (commit_instance cfg fpPk db)); [by eauto|].
    unfold commit_instance. solve_preserves. }
  intros ->. unfold commit_instance in HE. repeat (inv_bind HE; try discriminate).
  injection HE as <-. simpl. eexists. split; [done|]. by eexists.
Qed.

Definition opened_only {X} (p : proc X) : Prop := p_db_open p = true ∧ p_trace p = [DbOpened].

Lemma same_opened {X} (p p' : proc X) : same_db p p' → opened_only p → opened_only p'.
Proof. intros [Hd Ht] [H1' H2']. split; congruence. Qed.

Lemma commit_setup_ok homePath cfg hex targetArg p r p' :
  fresh p → commit_setup homePath cfg hex targetArg p = (r, p') →
  match r with
  | Ok target => ParseUint targetArg = Ok target ∧ opened_only p'
      ∧ ∃ fpPk fp, NewBIP340PubKeyFromHex hex = Ok fpPk ∧ p_app p' = Some fp ∧ made_instance fpPk fp
  | Err _ => fresh p' ∨ opened_only p'
  | Crash _ => True
  end.
Proof.
  intros Hf HE. unfold commit_setup in HE.
  apply go_bind_inv in HE as [(fpPk & p1 & E & HE)|[(e & E & ->)|(w & E & ->)]]; [| |done];
    apply go_wrap_inv in E as (r0 & E & Er); injection E as <- <-; [|by left].
  apply go_bind_inv in HE as [(target & p1 & E & HE)|[(e & E & ->)|(w & E & ->)]]; [| |done];
    apply go_wrap_inv in E as (r0 & E & Er'); injection E as <- <-; [|by left].
  symmetry in Er, Er'. apply wrap_err_ok in Er, Er'.
  apply go_bind_inv in HE as [(lg & p1 & E & HE)|[(e & E & ->)|(w & E & ->)]]; [| |done];
    apply go_wrap_inv in E as (r0 & E & _); apply (on_os_fresh _ _ _ _ Hf) in E; [|by left].
  apply go_bind_inv in HE as [(db & p2 & E2 & HE)|[(e & E2 & ->)|(w & E2 & ->)]]; [| |done];
    apply (open_database_cases _ _ _ _ _ E) in E2; [|by left]. destruct E2 as [_ Ho].
  apply go_bind_inv in HE as [([] & p3 & E3 & HE)|[(e & E3 & ->)|(w & E3 & ->)]]; [| |done];
    apply commit_instance_ok in E3 as [Hs Hfp]; [|right; by eapply same_opened].
  injection HE as <- <-. split; [done|]. split; [by eapply same_opened|].
  destruct (Hfp eq_refl) as (fp & Ha & Hm). eauto.
Qed.

(** The first height a successful command commits to, and the instance when it
    begins: the one that was given, or the one after the last commitment. *)
Definition first_height (startHeight targetHeight : N) (fp : fpi) (first : N) (fp2 : fpi) : Prop :=
  ∃ fp1 last,
    (if bool_decide (startHeight = MaxUint64) then
       ∃ l, fi_GetLastCommittedHeight fp = (Ok l, fp1) ∧ l ≠ 0%N ∧ first = (l + 1)%N
     else fp1 = fp ∧ first = startHeight)
    ∧ fi_GetLastCommittedHeight fp1 = (Ok last, fp2) ∧ (last < first ≤ targetHeight)%N.

Section commitments.
Context (cfg : Config) (fuel : nat) (target : N).
Context (Hn : (0 < cfg_NumPubRand cfg)%N) (Hb : (target + cfg_NumPubRand cfg < two64)%N).
Context (Hfuel : commit_count cfg 0 target < fuel).

Lemma commit_count_mono start : commit_count cfg start target ≤ commit_count cfg 0 target.
Proof.
  unfold commit_count.
  assert ((target - start) / cfg_NumPubRand cfg ≤ (target - 0) / cfg_NumPubRand cfg)%N
    by (apply N.Div0.div_le_mono; lia). lia.
Qed.

Lemma with_start_ok start (fp : fpi) u (fp' : fpi) :
  CommitPubRandWithStartHeight cfg fuel start target fp = Some (Ok u, fp') →
  ∃ last (fp2 : fpi), fi_GetLastCommittedHeight fp = (Ok last, fp2) ∧ (last < start ≤ target)%N
    ∧ commit_all (heights_from cfg start (commit_count cfg start target)) fp2 = (Ok u, fp').
Proof.
  unfold CommitPubRandWithStartHeight. destruct (target <? start)%N eqn:El; [done|]. btests.
  destruct (fi_GetLastCommittedHeight fp) as [[last|e|w] fp2]; [|done..].
  destruct (start <=? last)%N eqn:Es; [done|]. btests. pose proof (commit_count_mono start).
  rewrite commitLoop_exact by (done || lia). intros [= HE]. by exists last, fp2.
Qed.

Lemma commit_up_to_ok start (fp : fpi) u (fp' : fpi) :
  commit_up_to cfg fuel start target fp = Some (Ok u, fp') →
  ∃ first (fp2 : fpi), first_height start target fp first fp2
    ∧ commit_all (heights_from cfg first (commit_count cfg first target)) fp2 = (Ok u, fp').
Proof.
  unfold commit_up_to, first_height. destruct (N.eqb_spec start MaxUint64) as [Hs|Hs].
  - rewrite bool_decide_eq_true_2 by done. intros ([r fp0] & E & [= Hr <-])%fmap_Some.
    symmetry in Hr. apply wrap_err_ok in Hr as ->. unfold manual_CommitPubRand in E.
    destruct (fi_GetLastCommittedHeight fp) as [[l|e|w] fp1] eqn:El; [|done..].
    destruct (target <=? l)%N eqn:Et; [done|]. btests.
    apply with_start_ok in E as (last & fp2 & Hl & Hr & Hall).
    destruct (N.eqb_spec l 0) as [->|Hl0]; [lia|]. rewrite u64_add_small in Hr, Hall by lia.
    exists (l + 1)%N, fp2. split; [|done]. exists fp1, last.
    split; [by exists l|done].
  - rewrite bool_decide_eq_false_2 by done. intros ([r fp0] & E & [= Hr <-])%fmap_Some.
    symmetry in Hr. apply wrap_err_ok in Hr as ->. apply with_start_ok in E as (last & fp2 & Hl & Hr & Hall).
    exists start, fp2. split; [|done]. by exists fp, last.
Qed.

Lemma commit_up_to_some start (fp : fpi) : is_Some (commit_up_to cfg fuel start target fp).
Proof.
  destruct (manual_commit_returns cfg fuel start target fp Hn Hb Hfuel) as [Hs Hm].
  unfold commit_up_to. destruct (start =? MaxUint64)%N; by apply fmap_is_Some.
Qed.
End commitments.

(** C27: [fpd commit-pubrand] on a home directory returns, given fuel for the
    commitments from height 0.  When it succeeds, an instance of the provider
    with the given key has made exactly the commitments from the start height,
    or from the one after the last commitment, up to the target: together they
    hold every height of that range exactly once.  Whatever it returns, a
    database that was opened is not closed. *)
Theorem commit_command_commits fuel homeDir hex targetArg start p
    (Hfresh : fresh p)
    (Hfuel : ∀ cfg w target, LoadConfig (getCleanPath (p_os p) homeDir) (p_os p) = (Ok cfg, w) →
       ParseUint targetArg = Ok target →
       (0 < cfg_NumPubRand cfg)%N ∧ (target + cfg_NumPubRand cfg < two64)%N
       ∧ commit_count cfg 0 target < fuel) :
  ∃ r p', runCommandCommitPubRand fuel homeDir hex targetArg start p = Some (r, p')
  ∧ match r with
    | Ok _ => opened_only p'
        ∧ ∃ cfg w fpPk target fp first fp2 fp',
            LoadConfig (getCleanPath (p_os p) homeDir) (p_os p) = (Ok cfg, w)
            ∧ NewBIP340PubKeyFromHex hex = Ok fpPk ∧ ParseUint targetArg = Ok target
            ∧ made_instance fpPk fp ∧ first_height start target fp first fp2
            ∧ commit_all (heights_from cfg first (commit_count cfg first target)) fp2 = (Ok (), fp')
            ∧ p_app p' = Some fp'
            ∧ ∀ h, (first ≤ h ≤ target)%N →
                ∃ s, s ∈ heights_from cfg first (commit_count cfg first target)
                  ∧ (s ≤ h < s + cfg_NumPubRand cfg)%N
                  ∧ ∀ s', s' ∈ heights_from cfg first (commit_count cfg first target) →
                      (s' ≤ h < s' + cfg_NumPubRand cfg)%N → s' = s
    | Err _ => fresh p' ∨ opened_only p'
    | Crash _ => True
    end.
Proof.
  unfold runCommandCommitPubRand. destruct (go_wrap _ _ p) as [r1 p1] eqn:E.
  apply go_wrap_inv in E as (r0 & E & ->). pose proof (on_os_fresh _ _ _ _ Hfresh E) as Hf1.
  destruct r0 as [cfg|e|w]; simpl; [|eexists _, _; split; [done|by left]|by eexists _, _].
  apply zoom_inv in E as (w & Eload & ->). unfold RunCommandCommitPubRandWithConfig.
  destruct (commit_setup _ _ _ _ _) as [r1 p1] eqn:Es. apply commit_setup_ok in Es; [|done].
  destruct r1 as [target|e|x]; [|by eexists _, _..]. destruct Es as (Ht & Ho & fpPk & fp & Hpk & Ha & Hm).
  rewrite Ha. destruct (Hfuel cfg w target Eload Ht) as (Hn & Hb & Hfu).
  destruct (commit_up_to_some cfg fuel target Hn Hb Hfu start fp) as [[r fp'] Hc]. rewrite Hc. simpl.
  eexists _, _. split; [done|]. destruct r as [[]|e|x]; [|by right|done]. split; [done|].
  apply commit_up_to_ok in Hc as (first & fp2 & Hfirst & Hall); [|done..].
  exists cfg, w, fpPk, target, fp, first, fp2, fp'. split_and!; try done.
  intros h Hh. by apply heights_cover.
Qed.
End commands.

Section recovery.
Context `{CryptoLaws} `{Sdk} `{BigEndianLaws} `{Merkle} `{Retry} `{BabylonErrors} `{AccAddress} `{Grpc}.
Context `{NetParsers} `{!Ini Config} `{BbnTypes} `{Bech32} `{StakingTypes}.
Context `{!Codec FinalityProvider} `{!Codec Description} `{!Codec pSigningRecord}.
Context `{Bip39} `{RandFuel} `{!Codec rpc_request}.
Context {D DR KR B0 : Type} `{!KvBackend D} `{!KvLaws D} `{!KvBackend DR} `{!Keyring KR}.
Context `{!BbnClient B0} `{!BbnStaking B0}.
Context (pages : nat).
#[local] Abbreviation bcc := (BabylonConsumerController B0).
#[local] Abbreviation remote := (EOTSManagerGRPCClient KR DR).
#[local] Instance recovery_consumer : ConsumerController bcc := home_consumer pages.
#[local] Abbreviation env := (RecoverEnv D remote bcc).
Variable bbnclient_New : BabylonConfig → outcome B0.
Variable BabylonConfig_Validate : BabylonConfig → outcome unit.
Variable eots_at : string → remote.
Variable GetBoltBackend : BoltBackendConfig → M os D.
Variable db_Close : outcome unit.
#[local] Hint Resolve set_app_same on_app_same : preserves.
#[local] Existing Instance same_db_order.

Lemma defer_close_inv {A} (m : M (proc env) A) p r p' :
  defer_close db_Close m p = (r, p') →
  match r with
  | Crash _ => True
  | _ => ∃ p1, m p = (r, p1) ∧ p' = close_database p1
  end.
Proof.
  unfold defer_close. destruct (m p) as [[a|e|w] p1]; [| |by intros [= <- <-]];
    (destruct db_Close as [?|?|?]; intros [= <- <-]; [|done..]; by exists p1).
Qed.

End recovery.

Module HomeWitness.
Import CfgToy FpdRpcToy RpcToy StartWitness.
#[local] Existing Instance w_staking_types.
#[local] Existing Instance w_staking.

(** An initialised home whose configuration asks for three random values per
    commitment, with a stored provider. *)
Definition w_home : string := "/home/user/f".
Definition small (c : Config) : Config :=
  mkConfig (cfg_LogLevel c) 3 (cfg_TimestampingDelayBlocks c) (cfg_MaxSubmissionRetries c)
    (cfg_EOTSManagerAddress c) (cfg_HMACKey c) (cfg_BatchSubmissionSize c) (cfg_RandomnessCommitInterval c)
    (cfg_SubmissionRetryInterval c) (cfg_SignatureSubmissionInterval c) (cfg_PollerConfig c)
    (cfg_DatabaseConfig c) (cfg_BabylonConfig c) (cfg_RPCListener c) (cfg_Metrics c) (cfg_ContextSigningHeight c)
    (cfg_GRPCMaxContentLength c) (cfg_AdvancedResetLastVotedHeight c).
Definition w_cfg : Config := small (default_config w_home).
Definition w_machine : os := (write_file (CfgFile w_home) (ini_write w_cfg) w_os).2.
Definition w_bolt (c : BoltBackendConfig) : M os MapDb.db := mret toy_fp_db.
Definition w_hex : string := toy_hex (toy_pk true).

(** The chain has a commitment to the heights 20 to 22. *)
Definition w_prs : list FieldVal :=
  ok_or [] (rpc_CreateRandomnessPairList (toy_pk true) toy_chain 20 3 [] (w_eots "")).1.
Definition w_chain0 : toy_bbn :=
  mkToyBbn [] [] [(20%N, mkCommitResponse 3 (GetPubRandCommitAndProofs w_prs).1 1)].
Definition w_committed (c : BabylonConfig) : outcome toy_bbn := Ok w_chain0.
Definition w_p1 : proc (FinalityProviderInstance MapDb.db (EOTSManagerGRPCClient toy_keyring MapDb.db)
    (BabylonConsumerController toy_bbn) (ChainPoller (BabylonConsumerController toy_bbn))) :=
  mkProc w_machine None false 0 [].
Definition w_commit :=
  runCommandCommitPubRand 3 w_committed w_valid w_eots w_bolt 20 "f" w_hex "30" MaxUint64 w_p1.
Definition w_p2 : proc (RecoverEnv MapDb.db (EOTSManagerGRPCClient toy_keyring MapDb.db)
    (BabylonConsumerController toy_bbn)) := mkProc w_machine None false 0 [].
Definition w_recover :=
  runCommandRecoverProof 3 w_committed w_valid w_eots w_bolt (Ok ()) "f" "bbn-1" w_hex 0 w_p2.

(** The start heights of the commitments a chain was sent. *)
Definition sent_heights (p : option (outcome unit * proc (FinalityProviderInstance MapDb.db
    (EOTSManagerGRPCClient toy_keyring MapDb.db) (BabylonConsumerController toy_bbn)
    (ChainPoller (BabylonConsumerController toy_bbn))))) : list N :=
  match p with
  | Some (_, p) =>
      match p_app p with
      | Some fp => omap (λ m, match m with MsgCommitPubRandList _ _ h _ _ _ => Some h | _ => None end)
                     (tb_delivered (bc_bbnClient (fi_consumerCon fp)))
      | None => []
      end
  | None => []
  end.

Lemma w_bounds cfg w target :
  LoadConfig (getCleanPath (p_os w_p1) "f") (p_os w_p1) = (Ok cfg, w) → ParseUint "30" = Ok target →
  (0 < cfg_NumPubRand cfg)%N ∧ (target + cfg_NumPubRand cfg < two64)%N ∧ commit_count cfg 0 target < 20.
Proof.
  intros Hl Ht. assert (cfg_NumPubRand cfg = 3%N) as Hn.
  { assert (match (LoadConfig (getCleanPath (p_os w_p1) "f") (p_os w_p1)).1 with
            | Ok c => cfg_NumPubRand c | _ => 0%N end = 3%N) as Hw by vm_eq.
    by rewrite Hl in Hw. }
  assert (target = 30%N) as ->. { assert (ParseUint "30" = Ok 30%N) as Hp by vm_eq. congruence. }
  unfold commit_count. rewrite Hn. split_and!; [done|done|]. vm_compute. lia.
Qed.

(** The last commitment ends at 22: three more reach height 30.  The database
    stays open. *)
Lemma commit_command_commits_witness :
  sent_heights w_commit = [23; 26; 29]%N
  ∧ ∃ p', w_commit = Some (Ok (), p') ∧ p_db_open p' = true ∧ p_trace p' = [DbOpened].
Proof.
  split; [vm_eq|]. assert (fst <$> w_commit = Some (Ok ())) as Hw by vm_eq.
  destruct (commit_command_commits 3 w_committed w_valid w_eots w_bolt 20 "f" w_hex "30" MaxUint64 w_p1
    (conj eq_refl (conj eq_refl eq_refl)) w_bounds) as (r & p' & E & Hr).
  change (w_commit = Some (r, p')) in E. rewrite E in Hw. injection Hw as ->.
  exists p'. split; [exact E|]. exact (proj1 Hr).
Defined.

(** What the chain lists *)
Definition w_list : list PubRandCommit :=
  ok_or [] (cc_QueryPubRandCommitList (ConsumerController := bbn_controller 3) toy_key 0
    (mkBCC w_chain0 (toy_bbn_cfg "fp" 0))).1.
Definition w_commit0 : PubRandCommit := default (mkPubRandCommit 0 0 0 [] (Ok ())) (head w_list).

Lemma w_list_eq : w_list = [w_commit0].
Proof. vm_eq. Qed.

Lemma w_listed bbn :
  cc_QueryPubRandCommitList (ConsumerController := bbn_controller 3) toy_key 0 (mkBCC w_chain0 bbn)
  = (Ok w_list, mkBCC w_chain0 bbn).
Proof. vm_eq. Qed.

Lemma ok_eq {A} (x : outcome A) a b : x = Ok a → x = Ok b → b = a.
Proof. congruence. Qed.

Lemma w_ctrl bbn ctrl :
  NewBabylonConsumerController w_committed w_valid bbn = Ok ctrl → ctrl = mkBCC w_chain0 bbn.
Proof. apply ok_eq. reflexivity. Qed.

End HomeWitness.
