(* ===== verification/Cli.v ===== *)
(** * The command lines of the two daemons
      (src/finality-provider/cmd/fpd, src/eotsmanager/cmd/eotsd, src/version/cmd.go,
       GetSubCommand of src/util/path.go)

    Every command with its names, positional arguments, flags and their
    defaults, and the function it runs, and the two trees of commands; what the
    commands read is in [CliFlags].  Cobra and pflag are parameters: [Pflag] are the
    reads of a parsed set of flags, [Invoked] says that cobra runs a command
    with such a set and its arguments, and [CobraLaws] is the documented part
    of their behaviour the sources rely on.  Texts of help are left out. *)

From Stdlib Require Import NArith ZArith Lia.
From stdpp Require Import base gmap strings list.
From S2P Require Import Prelude External.

(** ** Flags and commands *)

(** [pflag.FlagSet] of a running command *)
Class Pflag := {
  FlagSet : Type;
  GetString : FlagSet → string → outcome string;
  GetBool : FlagSet → string → outcome bool;
  GetUint64 : FlagSet → string → outcome N;
  (** whether the flag was given on the command line *)
  Changed : FlagSet → string → bool;
}.

Inductive flag_value := VString (s : string) | VBool (b : bool) | VUint64 (n : N).
Record Flag := mkFlag { flag_Name : string; flag_DefValue : flag_value }.

(** The [Args] of a command; [AnyArgs] when it is nil. *)
Inductive PositionalArgs := AnyArgs | NoArgs | ExactArgs (n : nat) | MinimumNArgs (n : nat).
Definition args_valid (p : PositionalArgs) (args : list string) : bool :=
  match p with
  | AnyArgs => true
  | NoArgs => bool_decide (args = [])
  | ExactArgs n => bool_decide (length args = n)
  | MinimumNArgs n => bool_decide (n ≤ length args)
  end.

(** The functions of the sources that commands run; [RunLibrary] is one of the
    Cosmos SDK or of Babylon. *)
Inductive handler :=
| RunGetDaemonInfo | RunUnjailFP | RunLsFP | RunInfoFP | RunAddFinalitySig | RunEditDescription
| RunPruneMerkleProof | RunFpdBackup | RunFpdInit | RunFpdStart | RunCreateFP | RunCommitPubRand
| RunRecoverProof | RunVersion
| RunInitHome | RunStartFn | RunExportPop | RunDeletePop | RunValidatePop | RunRollback
| RunEotsBackup | RunUnlock | RunPrintAllKeys | RunShowKey | RunAddKey | RunSaveKey
| RunLibrary (name : string).

Section command.
Context `{Pflag}.

(** [cmd_PreRunE] are the flags that the [PreRunE] of the command marks as
    required. *)
Record Command := mkCommand {
  cmd_Name : string;
  cmd_Aliases : list string;
  cmd_Args : PositionalArgs;
  cmd_Flags : list Flag;
  cmd_Persistent : list Flag;
  cmd_Required : list string;
  cmd_PreRunE : FlagSet → list string;
  cmd_RunE : option handler;
  cmd_PostRunE : option handler
}.

(** A command with its subcommands *)
#[warnings="-register-all"]
Inductive tree := Node (c : Command) (subs : list tree).
Definition root (t : tree) : Command := match t with Node c _ => c end.
Definition Commands (t : tree) : list tree := match t with Node _ l => l end.

(** [&cobra.Command{Use, Aliases, Args, RunE}] and the calls that extend it *)
Definition command (name : string) (aliases : list string) (args : PositionalArgs) (run : option handler) : Command :=
  mkCommand name aliases args [] [] [] (λ _, []) run None.
Definition with_flag (f : Flag) (c : Command) : Command :=
  mkCommand (cmd_Name c) (cmd_Aliases c) (cmd_Args c) (cmd_Flags c ++ [f]) (cmd_Persistent c) (cmd_Required c)
    (cmd_PreRunE c) (cmd_RunE c) (cmd_PostRunE c).
Definition flags_String (name def : string) : Command → Command := with_flag (mkFlag name (VString def)).
Definition flags_Bool (name : string) (def : bool) : Command → Command := with_flag (mkFlag name (VBool def)).
Definition flags_Uint64 (name : string) (def : N) : Command → Command := with_flag (mkFlag name (VUint64 def)).
Definition PersistentFlags_String (name def : string) (c : Command) : Command :=
  mkCommand (cmd_Name c) (cmd_Aliases c) (cmd_Args c) (cmd_Flags c) (cmd_Persistent c ++ [mkFlag name (VString def)])
    (cmd_Required c) (cmd_PreRunE c) (cmd_RunE c) (cmd_PostRunE c).
Definition MarkFlagRequired (name : string) (c : Command) : Command :=
  mkCommand (cmd_Name c) (cmd_Aliases c) (cmd_Args c) (cmd_Flags c) (cmd_Persistent c) (cmd_Required c ++ [name])
    (cmd_PreRunE c) (cmd_RunE c) (cmd_PostRunE c).
Definition set_PreRunE (f : FlagSet → list string) (c : Command) : Command :=
  mkCommand (cmd_Name c) (cmd_Aliases c) (cmd_Args c) (cmd_Flags c) (cmd_Persistent c) (cmd_Required c)
    f (cmd_RunE c) (cmd_PostRunE c).
Definition set_RunE (h : handler) (c : Command) : Command :=
  mkCommand (cmd_Name c) (cmd_Aliases c) (cmd_Args c) (cmd_Flags c) (cmd_Persistent c) (cmd_Required c)
    (cmd_PreRunE c) (Some h) (cmd_PostRunE c).
Definition set_PostRunE (h : handler) (c : Command) : Command :=
  mkCommand (cmd_Name c) (cmd_Aliases c) (cmd_Args c) (cmd_Flags c) (cmd_Persistent c) (cmd_Required c)
    (cmd_PreRunE c) (cmd_RunE c) (Some h).

(** The flags a command sees: its own, and the persistent ones of the path from
    it up to the root; the nearest declaration counts.  A path has the root
    last. *)
Definition visible (path : list Command) : list Flag :=
  match path with
  | [] => []
  | c :: up => cmd_Flags c ++ cmd_Persistent c ++ concat (cmd_Persistent <$> up)
  end.
Fixpoint find_flag (name : string) (l : list Flag) : option flag_value :=
  match l with
  | [] => None
  | f :: l' => if bool_decide (flag_Name f = name) then Some (flag_DefValue f) else find_flag name l'
  end.

(** [path] leads to a command of [t]. *)
Inductive on_path : tree → list Command → Prop :=
| path_root c subs : on_path (Node c subs) [c]
| path_sub c subs t path : t ∈ subs → on_path t path → on_path (Node c subs) (path ++ [c]).
End command.
Arguments Command {_}.
Arguments tree {_}.

(** Cobra runs the command at the end of a path. *)
Class Cobra `{Pflag} := Invoked : list Command → FlagSet → list string → Prop.

(** What cobra and pflag document: a declared flag has a value of its type, the
    default when it was not given; arguments are validated; flags marked as
    required, by [PreRunE] too, were given. *)
Class CobraLaws `{Cobra} : Prop := {
  invoked_string path fs args name def :
    Invoked path fs args → find_flag name (visible path) = Some (VString def) →
    ∃ s, GetString fs name = Ok s ∧ (Changed fs name = false → s = def);
  invoked_bool path fs args name def :
    Invoked path fs args → find_flag name (visible path) = Some (VBool def) →
    ∃ b, GetBool fs name = Ok b ∧ (Changed fs name = false → b = def);
  invoked_uint64 path fs args name def :
    Invoked path fs args → find_flag name (visible path) = Some (VUint64 def) →
    ∃ n, GetUint64 fs name = Ok n ∧ (Changed fs name = false → n = def);
  invoked_args c up fs args : Invoked (c :: up) fs args → args_valid (cmd_Args c) args = true;
  invoked_required c up fs args name :
    Invoked (c :: up) fs args → name ∈ cmd_Required c ++ cmd_PreRunE c fs → Changed fs name = true;
}.

(** ** Subcommands *)

(** [strings.EqualFold], for names in ASCII *)
Definition lower (c : Ascii.ascii) : Ascii.ascii :=
  let n := Ascii.N_of_ascii c in if (65 <=? n)%N && (n <=? 90)%N then Ascii.ascii_of_N (n + 32) else c.
Fixpoint EqualFold (s t : string) : bool :=
  match s, t with
  | "", "" => true
  | String a s', String b t' => bool_decide (lower a = lower b) && EqualFold s' t'
  | _, _ => false
  end.

Section subcommands.
Context `{Pflag}.

(** util/path.go: the position of the first subcommand of that name *)
Fixpoint find_sub (commandName : string) (l : list tree) : option nat :=
  match l with
  | [] => None
  | t :: l' => if EqualFold (cmd_Name (root t)) commandName then Some 0%nat else S <$> find_sub commandName l'
  end.
Definition GetSubCommand (cmd : tree) (commandName : string) : option nat := find_sub commandName (Commands cmd).

(** A change of the subcommand at a position *)
Definition alter_root (f : Command → Command) (t : tree) : tree := Node (f (root t)) (Commands t).
Definition alter_sub (f : Command → Command) (i : nat) (t : tree) : tree :=
  Node (root t) (alter (alter_root f) i (Commands t)).
End subcommands.

(** ** fpd *)

(** finality-provider/cmd/fpd/common/flags.go; flags of the Cosmos SDK *)
Definition FlagHome := "home".
Definition FlagChainID := "chain-id".
Definition FlagKeyringBackend := "keyring-backend".
Definition FlagOutput := "output".
Definition ForceFlag := "force".
Definition FpEotsPkFlag := "eots-pk".
Definition RPCListenerFlag := "rpc-listener".
Definition FpdDaemonAddressFlag := "daemon-address".
Definition KeyNameFlag := "key-name".
Definition AppHashFlag := "app-hash".
Definition ChainIDFlag := "chain-id".
Definition CheckDoubleSignFlag := "check-double-sign".
Definition FromFileFlag := "from-file".
Definition UpToHeightFlag := "up-to-height".
Definition MonikerFlag := "moniker".
Definition IdentityFlag := "identity".
Definition WebsiteFlag := "website".
Definition SecurityContactFlag := "security-contact".
Definition DetailsFlag := "details".
Definition CommissionRateFlag := "commission-rate".
Definition CommissionMaxRateFlag := "commission-max-rate".
Definition CommissionMaxChangeRateFlag := "commission-max-change-rate".
Definition flagDBPath := "db-path".
Definition flagBackupDir := "backup-dir".
(** "127.0.0.1:" and [DefaultRPCPort] *)
Definition defaultFpdDaemonAddress := "127.0.0.1:12581".

Section fpd.
Context `{Pflag}.
(** [fpcfg.DefaultFpdDir] *)
Variable DefaultFpdDir : string.

(** A command whose only flag is the address of the daemon *)
Definition daemon_command (name : string) (aliases : list string) (args : PositionalArgs) (h : handler) : Command :=
  flags_String FpdDaemonAddressFlag defaultFpdDaemonAddress (command name aliases args (Some h)).

Definition CommandGetDaemonInfo : Command := daemon_command "get-info" ["gi"] NoArgs RunGetDaemonInfo.
Definition CommandUnjailFP : Command :=
  daemon_command "unjail-finality-provider" ["ufp"] (ExactArgs 1) RunUnjailFP.
Definition CommandLsFP : Command := daemon_command "list-finality-providers" ["ls"] NoArgs RunLsFP.
Definition CommandInfoFP : Command := daemon_command "finality-provider-info" ["fpi"] (ExactArgs 1) RunInfoFP.

Definition CommandAddFinalitySig : Command :=
  MarkFlagRequired AppHashFlag $ MarkFlagRequired FpdDaemonAddressFlag $
  flags_Bool CheckDoubleSignFlag true $ flags_String AppHashFlag "" $
  daemon_command "unsafe-add-finality-sig" ["unsafe-afs"] (ExactArgs 2) RunAddFinalitySig.

Definition CommandEditFinalityDescription : Command :=
  flags_String CommissionRateFlag "" $ flags_String IdentityFlag "" $ flags_String DetailsFlag "" $
  flags_String SecurityContactFlag "" $ flags_String WebsiteFlag "" $ flags_String MonikerFlag "" $
  daemon_command "edit-finality-provider" ["efp"] (ExactArgs 1) RunEditDescription.

Definition CommandUnsafePruneMerkleProof : Command :=
  MarkFlagRequired UpToHeightFlag $ MarkFlagRequired ChainIDFlag $
  flags_Uint64 UpToHeightFlag 0 $ flags_String ChainIDFlag "" $
  daemon_command "unsafe-prune-merkle-proof" ["rmp"] (ExactArgs 1) RunPruneMerkleProof.

(** common/backup.go *)
Definition NewBackupCmd : Command :=
  MarkFlagRequired FpdDaemonAddressFlag $ MarkFlagRequired flagBackupDir $ MarkFlagRequired flagDBPath $
  flags_String FpdDaemonAddressFlag "" $ flags_String flagBackupDir "" $ flags_String flagDBPath "" $
  command "backup" ["bkp"] AnyArgs (Some RunFpdBackup).

Definition AddCommonCommands : list Command :=
  [CommandGetDaemonInfo; CommandUnjailFP; CommandLsFP; CommandInfoFP; CommandAddFinalitySig;
   CommandEditFinalityDescription; CommandUnsafePruneMerkleProof; NewBackupCmd].

Definition CommandInit : Command :=
  flags_String FlagHome DefaultFpdDir $ flags_Bool ForceFlag false $ command "init" [] NoArgs (Some RunFpdInit).
Definition CommandStart : Command :=
  flags_String FlagHome DefaultFpdDir $ flags_String RPCListenerFlag "" $ flags_String FpEotsPkFlag "" $
  command "start" [] NoArgs (Some RunFpdStart).

(** The [PreRunE] of the command to create a provider; an error of [GetString]
    leaves the path empty. *)
Definition createFP_PreRunE (fs : FlagSet) : list string :=
  let fromFilePath := match GetString fs FromFileFlag with Ok s => s | _ => "" end in
  if bool_decide (fromFilePath = "") then
    [ChainIDFlag; KeyNameFlag; MonikerFlag; CommissionRateFlag; CommissionMaxRateFlag;
     CommissionMaxChangeRateFlag; FpEotsPkFlag]
  else [].
Definition CommandCreateFP : Command :=
  set_PreRunE createFP_PreRunE $ flags_String FromFileFlag "" $ flags_String FpEotsPkFlag "" $
  flags_String DetailsFlag "" $ flags_String SecurityContactFlag "" $ flags_String WebsiteFlag "" $
  flags_String IdentityFlag "" $ flags_String MonikerFlag "" $ flags_String CommissionMaxChangeRateFlag "" $
  flags_String CommissionMaxRateFlag "" $ flags_String CommissionRateFlag "" $ flags_String ChainIDFlag "" $
  flags_String FlagHome DefaultFpdDir $ flags_String KeyNameFlag "" $
  daemon_command "create-finality-provider" ["cfp"] NoArgs RunCreateFP.

Definition CommandCommitPubRand : Command :=
  flags_String FlagHome DefaultFpdDir $ flags_Uint64 "start-height" MaxUint64 $
  command "unsafe-commit-pubrand" ["unsafe-cpr"] (ExactArgs 2) (Some RunCommitPubRand).
Definition CommandRecoverProof : Command :=
  flags_String FlagChainID "" $ flags_String FlagHome DefaultFpdDir $ flags_Uint64 "start-height" 1 $
  command "recover-rand-proof" ["rrp"] (ExactArgs 1) (Some RunRecoverProof).

(** version/cmd.go *)
Definition CommandVersion : Command := command "version" ["v"] NoArgs (Some RunVersion).

(** common/keys_cmd.go, whose change of a text of help is left out *)
Definition CommandKeys (keysCmd : tree) : outcome tree :=
  match GetSubCommand keysCmd "add" with
  | None => Crash "failed to find keys add command"
  | Some _ => Ok keysCmd
  end.

(** main.go: [keys.Commands()] and the incentive commands are of libraries. *)
Definition fpd_NewRootCmd : Command :=
  PersistentFlags_String FlagHome DefaultFpdDir (command "fpd" [] AnyArgs None).
Definition leaf (c : Command) : tree := Node c [].
Definition fpd_main (sdk_keys : tree) (incentive : list tree) : outcome tree :=
  keysCmd ← CommandKeys sdk_keys;
  Ok (Node fpd_NewRootCmd
        ((leaf <$> AddCommonCommands) ++ [keysCmd] ++ incentive ++ [leaf CommandVersion]
         ++ (leaf <$> [CommandInit; CommandStart; CommandCreateFP; CommandCommitPubRand; CommandRecoverProof]))).
End fpd.

(** ** eotsd *)

(** cmd/eotsd/daemon/flags.go, pop.go and store.go *)
Definition keyNameFlag := "key-name".
Definition eotsPkFlag := "eots-pk".
Definition forceFlag := "force".
Definition rpcListenerFlag := "rpc-listener".
Definition rpcClientFlag := "rpc-client".
Definition flagHomeBaby := "baby-home".
Definition flagKeyNameBaby := "baby-key-name".
Definition flagKeyringBackendBaby := "baby-keyring-backend".
Definition flagMessage := "message".
Definition flagOutputFile := "output-file".
Definition flagFromHeight := "rollback-until-height".
Definition flagChainID := "chain-id".

Section eotsd.
Context `{Pflag}.
(** [config.DefaultEOTSDir] *)
Variable DefaultEOTSDir : string.

Definition NewInitCmd : Command := flags_Bool forceFlag false (command "init" [] AnyArgs (Some RunInitHome)).
Definition NewStartCmd : Command :=
  flags_String rpcListenerFlag "" $ flags_String FlagHome DefaultEOTSDir $
  command "start" [] AnyArgs (Some RunStartFn).

(** The flags that [eotsFlags] and [babyFlags] read *)
Definition pop_flags (c : Command) : Command :=
  flags_String flagKeyringBackendBaby BackendTest $ flags_String flagKeyNameBaby "" $
  flags_String flagHomeBaby "" $ flags_String FlagKeyringBackend BackendTest $
  flags_String eotsPkFlag "" $ flags_String keyNameFlag "" $ flags_String FlagHome DefaultEOTSDir c.
Definition NewPopExportCmd : Command :=
  flags_String flagOutputFile "" (pop_flags (command "export" [] AnyArgs (Some RunExportPop))).
Definition NewPopDeleteCmd : Command :=
  flags_String flagOutputFile "" $ flags_String flagMessage "" $
  pop_flags (command "delete" [] AnyArgs (Some RunDeletePop)).
Definition NewPopValidateExportCmd : Command := command "validate" [] (ExactArgs 1) (Some RunValidatePop).
Definition NewPopCmd : tree :=
  Node (command "pop" [] AnyArgs None) (leaf <$> [NewPopExportCmd; NewPopDeleteCmd; NewPopValidateExportCmd]).

Definition NewSignStoreRollbackCmd : Command :=
  MarkFlagRequired flagFromHeight $ MarkFlagRequired flagChainID $ MarkFlagRequired eotsPkFlag $
  MarkFlagRequired FlagHome $ flags_Uint64 flagFromHeight 0 $ flags_String flagChainID "" $
  flags_String eotsPkFlag "" $ flags_String FlagHome DefaultEOTSDir $
  command "unsafe-rollback" [] AnyArgs (Some RunRollback).
Definition eots_NewBackupCmd : Command :=
  MarkFlagRequired rpcClientFlag $ MarkFlagRequired flagBackupDir $ MarkFlagRequired flagDBPath $
  flags_String rpcClientFlag "" $ flags_String flagBackupDir "" $ flags_String flagDBPath "" $
  command "backup" [] AnyArgs (Some RunEotsBackup).
Definition NewUnlockKeyringCmd : Command :=
  MarkFlagRequired rpcClientFlag $ MarkFlagRequired eotsPkFlag $ flags_String FlagHome "" $
  flags_String rpcClientFlag "" $ flags_String eotsPkFlag "" $ command "unlock" [] AnyArgs (Some RunUnlock).

(** *** keys.go on the commands of the Cosmos SDK *)

Definition saveKeyOnPostRun_cmd (commandName : string) (cmd : tree) : outcome tree :=
  match GetSubCommand cmd commandName with
  | None => Crash ("failed to find keys " +:+ commandName +:+ " command")
  | Some i => Ok (alter_sub (λ c, set_PostRunE RunSaveKey (flags_String rpcClientFlag "" c)) i cmd)
  end.

(** The override of the command to show a key, if there is one *)
Definition override_show (keysCmd : tree) : tree :=
  match GetSubCommand keysCmd "show" with
  | Some show => alter_sub (set_RunE RunShowKey) show keysCmd
  | None => keysCmd
  end.

Definition NewKeysCmd (keysCmd : tree) : outcome tree :=
  match GetSubCommand keysCmd "add", GetSubCommand keysCmd "list" with
  | None, _ => Crash "failed to find keys add command"
  | _, None => Crash "failed to find keys list command"
  | Some add, Some list =>
      let keysCmd := alter_root (PersistentFlags_String FlagHome DefaultEOTSDir) keysCmd in
      let keysCmd := alter_sub (set_RunE RunPrintAllKeys) list keysCmd in
      let keysCmd := override_show keysCmd in
      let keysCmd := alter_sub (λ c, set_RunE RunAddKey (flags_String rpcClientFlag "" c)) add keysCmd in
      keysCmd ← saveKeyOnPostRun_cmd "import" keysCmd;
      saveKeyOnPostRun_cmd "import-hex" keysCmd
  end.

(** root.go *)
Definition NewRootCmd (sdk_keys : tree) : outcome tree :=
  keysCmd ← NewKeysCmd sdk_keys;
  Ok (Node (PersistentFlags_String FlagHome DefaultEOTSDir (command "eotsd" [] AnyArgs None))
        [leaf NewInitCmd; keysCmd; leaf NewStartCmd; leaf CommandVersion; NewPopCmd;
         leaf NewSignStoreRollbackCmd; leaf eots_NewBackupCmd; leaf NewUnlockKeyringCmd]).
End eotsd.

(** ** The trees *)

Section trees.
Context `{Pflag}.
Implicit Types (c s : Command) (t : tree) (p : list Command).

Lemma on_path_inv c subs p :
  on_path (Node c subs) p → p = [c] ∨ ∃ t p', t ∈ subs ∧ on_path t p' ∧ p = p' ++ [c].
Proof. inversion 1; subst; eauto 10. Qed.

Lemma on_path_leaf c p : on_path (leaf c) p → p = [c].
Proof. intros [->|(t & p' & Ht & _)]%on_path_inv; [done|]. by apply elem_of_nil in Ht. Qed.

(** A tree of a library: nothing in it runs a function of these sources. *)
Definition library t : Prop :=
  ∀ c up, on_path t (c :: up) →
    (∀ h, cmd_RunE c = Some h → ∃ name, h = RunLibrary name) ∧ cmd_PostRunE c = None.

Lemma find_flag_app name l1 l2 :
  find_flag name (l1 ++ l2) = match find_flag name l1 with Some v => Some v | None => find_flag name l2 end.
Proof. induction l1 as [|f l1 IH]; simpl; [done|]. by case_bool_decide. Qed.

Lemma find_sub_name name l i t :
  find_sub name l = Some i → l !! i = Some t → EqualFold (cmd_Name (root t)) name = true.
Proof.
  revert i. induction l as [|t0 l IH]; intros i; simpl; [done|].
  destruct (EqualFold (cmd_Name (root t0)) name) eqn:E; [by intros [= <-] [= <-]|].
  destruct (find_sub name l) as [j|]; [|done]. intros [= <-]. by apply IH.
Qed.

(** *** The key commands of eotsd *)

Definition rpc_flag : Flag := mkFlag rpcClientFlag (VString "").

(** What [NewKeysCmd] may have made of a subcommand [s0] *)
Record sub_inv s0 s : Prop := {
  si_args : cmd_Args s = cmd_Args s0;
  si_persistent : cmd_Persistent s = cmd_Persistent s0;
  si_name : cmd_Name s = cmd_Name s0;
  si_flags : ∃ k, cmd_Flags s = cmd_Flags s0 ++ replicate k rpc_flag;
  si_run h : cmd_RunE s = Some h → cmd_RunE s0 = Some h
    ∨ h = RunPrintAllKeys ∧ EqualFold (cmd_Name s0) "list" = true
    ∨ h = RunShowKey ∧ EqualFold (cmd_Name s0) "show" = true
    ∨ h = RunAddKey ∧ EqualFold (cmd_Name s0) "add" = true ∧ rpc_flag ∈ cmd_Flags s;
  si_post h : cmd_PostRunE s = Some h → cmd_PostRunE s0 = Some h
    ∨ h = RunSaveKey ∧ rpc_flag ∈ cmd_Flags s
      ∧ (EqualFold (cmd_Name s0) "import" = true ∨ EqualFold (cmd_Name s0) "import-hex" = true)
}.

Definition subs_inv (l0 l : list tree) : Prop :=
  Forall2 (λ t0 t, Commands t = Commands t0 ∧ sub_inv (root t0) (root t)) l0 l.

Lemma sub_inv_refl s : sub_inv s s.
Proof. split; try done; [|by left..]. exists 0. by rewrite app_nil_r. Qed.

Lemma subs_inv_refl l : subs_inv l l.
Proof. induction l; constructor; [|done]. split; [done|apply sub_inv_refl]. Qed.

Lemma subs_inv_alter (f : Command → Command) name l0 l i :
  find_sub name l = Some i →
  (∀ s0 s, EqualFold (cmd_Name s0) name = true → sub_inv s0 s → sub_inv s0 (f s)) →
  subs_inv l0 l → subs_inv l0 (alter (alter_root f) i l).
Proof.
  intros Hi Hf Hl. apply Forall2_same_length_lookup. split.
  { rewrite length_alter. by eapply Forall2_length. }
  intros j t0 t Ht0 Ht. destruct (decide (i = j)) as [<-|Hne].
  - rewrite list_lookup_alter_eq in Ht. destruct (l !! i) as [t1|] eqn:Et; [|done]. injection Ht as <-.
    destruct (Forall2_lookup_lr _ _ _ _ _ _ Hl Ht0 Et) as [Hc Hs]. split; [done|]. apply Hf; [|done].
    rewrite <-(si_name _ _ Hs). by eapply find_sub_name.
  - rewrite list_lookup_alter_ne in Ht by done. exact (Forall2_lookup_lr _ _ _ _ _ _ Hl Ht0 Ht).
Qed.

Lemma find_sub_inv name l0 l : subs_inv l0 l → find_sub name l = find_sub name l0.
Proof. induction 1 as [|t0 t l0 l [_ Hs] _ IH]; simpl; [done|]. by rewrite (si_name _ _ Hs), IH. Qed.

Lemma sub_inv_list s0 s :
  EqualFold (cmd_Name s0) "list" = true → sub_inv s0 s → sub_inv s0 (set_RunE RunPrintAllKeys s).
Proof. intros Hn [Ha Hp Hnm Hf Hr Hpo]. split; try done. intros h [= <-]. naive_solver. Qed.
Lemma sub_inv_show s0 s :
  EqualFold (cmd_Name s0) "show" = true → sub_inv s0 s → sub_inv s0 (set_RunE RunShowKey s).
Proof. intros Hn [Ha Hp Hnm Hf Hr Hpo]. split; try done. intros h [= <-]. naive_solver. Qed.

Lemma sub_inv_rpc s0 s : sub_inv s0 s → sub_inv s0 (flags_String rpcClientFlag "" s).
Proof.
  intros [Ha Hp Hnm [k Hf] Hr Hpo]. split; try done.
  - exists (S k). simpl. rewrite Hf, <-(assoc_L (++)). f_equal. symmetry. apply replicate_cons_app.
  - intros h Hh. simpl. rewrite elem_of_app. destruct (Hr h Hh) as [?|[?|[?|(?&?&?)]]]; eauto 10.
  - intros h Hh. simpl. rewrite elem_of_app. destruct (Hpo h Hh) as [?|(?&?&?)]; eauto 10.
Qed.
Lemma rpc_flag_added s : rpc_flag ∈ cmd_Flags (flags_String rpcClientFlag "" s).
Proof. simpl. apply elem_of_app. right. left. Qed.

Lemma sub_inv_add s0 s :
  EqualFold (cmd_Name s0) "add" = true → sub_inv s0 s →
  sub_inv s0 (set_RunE RunAddKey (flags_String rpcClientFlag "" s)).
Proof.
  intros Hn Hs. pose proof (rpc_flag_added s) as Hin. destruct (sub_inv_rpc s0 s Hs) as [Ha Hp Hnm Hf Hr Hpo].
  split; try done. intros h [= <-]. eauto 10.
Qed.
Lemma sub_inv_import name s0 s :
  name = "import" ∨ name = "import-hex" →
  EqualFold (cmd_Name s0) name = true → sub_inv s0 s →
  sub_inv s0 (set_PostRunE RunSaveKey (flags_String rpcClientFlag "" s)).
Proof.
  intros Hname Hn Hs. pose proof (rpc_flag_added s) as Hin. destruct (sub_inv_rpc s0 s Hs) as [Ha Hp Hnm Hf Hr Hpo].
  split; try done. intros h [= <-]. right. split_and!; [done|done|]. destruct Hname as [->| ->]; eauto.
Qed.

Lemma saveKeyOnPostRun_inv name l0 t t' :
  name = "import" ∨ name = "import-hex" → subs_inv l0 (Commands t) → saveKeyOnPostRun_cmd name t = Ok t' →
  root t' = root t ∧ subs_inv l0 (Commands t').
Proof.
  intros Hname Hl. unfold saveKeyOnPostRun_cmd, GetSubCommand. destruct (find_sub _ _) as [i|] eqn:Ei; [|done].
  intros [= <-]. split; [done|]. simpl. eapply subs_inv_alter; [done| |done]. intros s0 s. by apply sub_inv_import.
Qed.

(** The subcommands of the Cosmos SDK stay, in their order, with their
    arguments and subcommands; only those named here run something else. *)
Lemma NewKeysCmd_ok home keys t :
  NewKeysCmd home keys = Ok t →
  root t = PersistentFlags_String FlagHome home (root keys) ∧ subs_inv (Commands keys) (Commands t).
Proof.
  unfold NewKeysCmd, GetSubCommand. destruct (find_sub "add" _) as [add|] eqn:Eadd; [|done].
  destruct (find_sub "list" _) as [list|] eqn:Elist; [|done]. simpl.
  set (l0 := Commands keys) in *. set (t1 := alter_sub _ list _).
  assert (root t1 = PersistentFlags_String FlagHome home (root keys) ∧ subs_inv l0 (Commands t1)) as [R1 H1].
  { split; [done|]. eapply subs_inv_alter; [done|exact sub_inv_list|apply subs_inv_refl]. }
  set (t2 := override_show t1).
  assert (root t2 = PersistentFlags_String FlagHome home (root keys) ∧ subs_inv l0 (Commands t2)) as [R2 H2].
  { subst t2. unfold override_show, GetSubCommand.
    destruct (find_sub "show" _) as [show|] eqn:Es; [|done]. split; [done|].
    eapply subs_inv_alter; [done|exact sub_inv_show|done]. }
  clearbody t2. set (t3 := alter_sub _ add t2).
  assert (root t3 = PersistentFlags_String FlagHome home (root keys) ∧ subs_inv l0 (Commands t3)) as [R3 H3].
  { split; [done|]. eapply subs_inv_alter; [by rewrite (find_sub_inv _ _ _ H2)|exact sub_inv_add|done]. }
  intros HE. apply outcome_bind_ok in HE as (t4 & E4 & E5).
  apply (saveKeyOnPostRun_inv _ l0) in E4 as [R4 H4]; [|by left|done].
  apply (saveKeyOnPostRun_inv _ l0) in E5 as [R5 H5]; [|by right|done].
  split; [congruence|done].
Qed.
End trees.

(** ** The tables are well formed *)

Section tables.
Context `{Pflag}.

Definition names (c : Command) : list string := cmd_Name c :: cmd_Aliases c.
(** pflag panics when a flag is declared twice, [MarkFlagRequired] fails when it
    is not declared. *)
Definition flags_ok (c : Command) : bool :=
  bool_decide (NoDup (flag_Name <$> cmd_Flags c ++ cmd_Persistent c))
  && forallb (λ n, bool_decide (n ∈ flag_Name <$> cmd_Flags c)) (cmd_Required c).

Definition fpd_commands (home : string) : list Command :=
  AddCommonCommands ++ [CommandVersion; CommandInit home; CommandStart home; CommandCreateFP home;
    CommandCommitPubRand home; CommandRecoverProof home].
Definition eotsd_commands (home : string) : list Command :=
  [NewInitCmd; NewStartCmd home; CommandVersion; root (NewPopCmd home); NewSignStoreRollbackCmd home;
   eots_NewBackupCmd; NewUnlockKeyringCmd].

(** No two commands of one level share a name or an alias, so that the name on
    the command line determines the command; making the commands does not
    panic; and the flags that creating a provider requires later are declared. *)
Theorem tables_wellformed home :
  NoDup (concat (names <$> fpd_commands home)) ∧ forallb flags_ok (fpd_commands home) = true
  ∧ NoDup (concat (names <$> eotsd_commands home)) ∧ forallb flags_ok (eotsd_commands home) = true
  ∧ NoDup (concat ((names ∘ root) <$> Commands (NewPopCmd home)))
  ∧ forallb (flags_ok ∘ root) (Commands (NewPopCmd home)) = true
  ∧ ∀ fs n, n ∈ createFP_PreRunE fs → n ∈ flag_Name <$> cmd_Flags (CommandCreateFP home).
Proof.
  split_and!; try (apply (bool_decide_unpack _); by vm_compute); try by vm_compute.
  intros fs n. unfold createFP_PreRunE. case_bool_decide; [|by intros ?%elem_of_nil].
  intros Hn. assert (Forall (λ n, n ∈ flag_Name <$> cmd_Flags (CommandCreateFP home))
    [ChainIDFlag; KeyNameFlag; MonikerFlag; CommissionRateFlag; CommissionMaxRateFlag;
     CommissionMaxChangeRateFlag; FpEotsPkFlag]) as Hall
    by (apply (bool_decide_unpack _); by vm_compute).
  rewrite Forall_forall in Hall. by apply Hall.
Qed.
End tables.
