(* ===== verification/CliFlags.v ===== *)
(** * What the commands read from their flags
      (src/finality-provider/cmd/fpd, src/eotsmanager/cmd/eotsd, src/version/cmd.go)

    The reads of flags of every command, in the order of the code and with its
    errors, as functions of the parsed flags; what is then done with the values
    is in [CreateCmd], [FpdTools], [FpdStart], [FpdHome], [CmdFiles], [EotsCmd],
    [KeysAdd], [EotsOffline], [Lifecycle] and [Backup].  The theorems say that a
    command that cobra runs never fails to read a flag and never runs out of
    arguments. *)

From Stdlib Require Import NArith ZArith Lia.
From stdpp Require Import base gmap strings list.
From S2P Require Import Prelude External Paths FpdCmd Metrics Cli.

(** ** fpd *)

Section fpd.
Context `{Pflag}.
Implicit Types fs : FlagSet.

(** [args[i]] *)
Definition arg (args : list string) (i : nat) : outcome string :=
  match args !! i with Some a => Ok a | None => Crash "index out of range" end.

Definition read_string fs (name : string) : outcome string :=
  wrap_err ("failed to read flag " +:+ name) (GetString fs name).
(** [v, _ := f.GetString(name)] and the like: an error leaves the zero value. *)
Definition string_or_zero fs (name : string) : string :=
  match GetString fs name with Ok s => s | _ => "" end.
Definition uint64_or_zero fs (name : string) : N :=
  match GetUint64 fs name with Ok n => n | _ => 0%N end.

(** The commands that talk to the daemon and read its address *)
Definition daemonAddress fs : outcome string := read_string fs FpdDaemonAddressFlag.

(** [runCommandAddFinalitySig]: address, app hash and the check *)
Definition addFinalitySig_flags fs : outcome (string * string * bool) :=
  daemonAddress ← read_string fs FpdDaemonAddressFlag;
  appHashHex ← read_string fs AppHashFlag;
  checkDoubleSign ← wrap_err ("failed to read flag " +:+ CheckDoubleSignFlag) (GetBool fs CheckDoubleSignFlag);
  Ok (daemonAddress, appHashHex, checkDoubleSign).

(** [runCommandEditFinalityDescription]: description and commission rate *)
Definition editDescription_flags fs : outcome (string * Description * string) :=
  daemonAddress ← read_string fs FpdDaemonAddressFlag;
  let moniker := string_or_zero fs MonikerFlag in
  let website := string_or_zero fs WebsiteFlag in
  let securityContact := string_or_zero fs SecurityContactFlag in
  let details := string_or_zero fs DetailsFlag in
  let identity := string_or_zero fs IdentityFlag in
  let rate := string_or_zero fs CommissionRateFlag in
  Ok (daemonAddress, mkDescription moniker identity website securityContact details, rate).

(** [runCommandUnsafePruneMerkleProof] *)
Definition prune_flags fs : outcome (string * string * N) :=
  daemonAddress ← read_string fs FpdDaemonAddressFlag;
  Ok (daemonAddress, string_or_zero fs ChainIDFlag, uint64_or_zero fs UpToHeightFlag).

(** [backup] of common/backup.go *)
Definition fpd_backup_flags fs : outcome (string * string * string) :=
  dbPath ← wrap_err ("failed to get db-path " +:+ flagDBPath +:+ " flag") (GetString fs flagDBPath);
  backupDir ← wrap_err ("failed to get " +:+ flagBackupDir +:+ " flag") (GetString fs flagBackupDir);
  rpcListener ← wrap_err ("failed to get " +:+ FpdDaemonAddressFlag +:+ " flag") (GetString fs FpdDaemonAddressFlag);
  Ok (dbPath, backupDir, rpcListener).

(** [runInitCmd] and [runStartCmd] *)
Definition init_flags fs : outcome bool :=
  wrap_err ("failed to read flag " +:+ ForceFlag) (GetBool fs ForceFlag).
Definition start_flags fs : outcome (string * string) :=
  fpStr ← read_string fs FpEotsPkFlag;
  rpcListener ← read_string fs RPCListenerFlag;
  Ok (fpStr, rpcListener).

(** [ParseFinalityProviderFlags] with [getDescriptionFromFlags] *)
Definition createFP_flags fs : outcome CreateFlags :=
  commissionRateStr ← read_string fs CommissionRateFlag;
  commissionMaxRateStr ← read_string fs CommissionMaxRateFlag;
  commissionMaxChangeRateStr ← read_string fs CommissionMaxChangeRateFlag;
  '(monikerStr, identityStr, websiteStr, securityContactStr, detailsStr) ←
    wrap_err "invalid description"
      (monikerStr ← read_string fs MonikerFlag;
       identityStr ← read_string fs IdentityFlag;
       websiteStr ← read_string fs WebsiteFlag;
       securityContactStr ← read_string fs SecurityContactFlag;
       detailsStr ← read_string fs DetailsFlag;
       Ok (monikerStr, identityStr, websiteStr, securityContactStr, detailsStr));
  keyName ← read_string fs KeyNameFlag;
  chainID ← read_string fs ChainIDFlag;
  eotsPkHex ← read_string fs FpEotsPkFlag;
  Ok (mkCreateFlags keyName chainID commissionRateStr commissionMaxRateStr commissionMaxChangeRateStr
        monikerStr identityStr websiteStr securityContactStr detailsStr eotsPkHex).

(** [runCommandCreateFP]: the file, or else the flags, and the address *)
Definition runCommandCreateFP_flags fs : outcome (string + CreateFlags) :=
  fpJSONPath ← read_string fs FromFileFlag;
  fp ← (if bool_decide (fpJSONPath = "") then
          match createFP_flags fs with
          | Ok f => Ok (inr f)
          | Err e => Crash (Error e)
          | Crash w => Crash w
          end
        else Ok (inl fpJSONPath));
  _ ← read_string fs FpdDaemonAddressFlag;
  Ok fp.

(** [RunCommandCommitPubRandWithConfig] and [RunCommandRecoverProofWithConfig] *)
Definition commitPubRand_flags fs : outcome N :=
  wrap_err "failed to get start-height flag" (GetUint64 fs "start-height").
Definition recoverProof_flags fs : outcome (string * N) :=
  chainID ← wrap_err "failed to read chain id flag" (GetString fs FlagChainID);
  if bool_decide (chainID = "") then Err (EText "please specify chain-id")
  else
    startHeight ← wrap_err "failed to get start height flag" (GetUint64 fs "start-height");
    Ok (chainID, startHeight).
End fpd.

(** ** version/cmd.go *)

(** What the command prints; [version] is [Version()]. *)
Definition CommandVersion_Run (version : string) (info : build_info) : string :=
  let '(commit, ts) := CommitInfo info in
  let v := if bool_decide (version = "") then "main" else version in
  let nl := String (Ascii.ascii_of_N 10) "" in
  "Version:       " +:+ v +:+ nl +:+ "Git Commit:    " +:+ commit +:+ nl +:+ "Git Timestamp: " +:+ ts +:+ nl +:+ nl.

(** ** eotsd *)

Section eotsd.
Context `{Pflag}.
Implicit Types (fs : FlagSet) (w : os).

(** [getCleanPath] and [getHomePath] of utils.go, with the read of the flag *)
Definition flag_path w fs (flag : string) : outcome string :=
  rawPath ← wrap_err ("failed to get " +:+ flag +:+ " flag") (GetString fs flag);
  Ok (getCleanPath w rawPath).
Definition getHomePath w fs : outcome string := flag_path w fs FlagHome.

(** [initHome], [startFn] *)
Definition initHome_flags w fs : outcome (string * bool) :=
  homePath ← wrap_err "failed to get home path" (getHomePath w fs);
  force ← wrap_err "failed to get force flag" (GetBool fs forceFlag);
  Ok (homePath, force).
Definition startFn_flags w fs : outcome (string * string) :=
  homePath ← wrap_err "failed to load home flag" (getHomePath w fs);
  rpcListener ← wrap_err "failed to get RPC listener flag" (GetString fs rpcListenerFlag);
  Ok (homePath, rpcListener).

(** pop.go: home, key name and keyring backend of the Babylon key, ... *)
Definition babyFlags w fs : outcome (string * string * string) :=
  babyHomePath ← wrap_err "failed to load baby home flag" (flag_path w fs flagHomeBaby);
  babyKeyName ← wrap_err "failed to get baby key name" (GetString fs flagKeyNameBaby);
  babyKeyringBackend ← wrap_err "failed to get baby keyring backend" (GetString fs flagKeyringBackendBaby);
  Ok (babyHomePath, babyKeyName, babyKeyringBackend).
(** ... and home, key name, public key and keyring backend of the EOTS key *)
Definition eotsFlags w fs : outcome (string * string * string * string) :=
  eotsKeyName ← wrap_err "failed to get eots key name" (GetString fs keyNameFlag);
  eotsFpPubKeyStr ← wrap_err "failed to get eots public key" (GetString fs eotsPkFlag);
  eotsKeyringBackend ← wrap_err "failed to get eots keyring backend" (GetString fs FlagKeyringBackend);
  eotsHomePath ← wrap_err "failed to get eots home path" (getHomePath w fs);
  Ok (eotsHomePath, eotsKeyName, eotsFpPubKeyStr, eotsKeyringBackend).
Definition message_flag fs : outcome string := wrap_err "failed to get message flag" (GetString fs flagMessage).
Definition output_flag fs : outcome string := wrap_err "failed to get output file path" (GetString fs flagOutputFile).

(** [rollbackSignStore]: home, height, key and chain *)
Definition rollback_flags w fs : outcome (string * N * string * string) :=
  eotsHomePath ← getHomePath w fs;
  height ← wrap_err "failed to get rollback-until-height flag" (GetUint64 fs flagFromHeight);
  if (height =? 0)%N then Err (EText "rollback-until-height flag is required")
  else
    eotsFpPubKeyStr ← wrap_err "failed to get eots pk flag" (GetString fs eotsPkFlag);
    chainID ← wrap_err "failed to get chain-id flag" (GetString fs flagChainID);
    if bool_decide (chainID = "") then Err (EText ("flag " +:+ flagChainID +:+ " is required"))
    else Ok (eotsHomePath, height, eotsFpPubKeyStr, chainID).

(** [backup] *)
Definition eots_backup_flags fs : outcome (string * string * string) :=
  dbPath ← wrap_err ("failed to get db-path " +:+ flagDBPath +:+ " flag") (GetString fs flagDBPath);
  backupDir ← wrap_err ("failed to get " +:+ flagBackupDir +:+ " flag") (GetString fs flagBackupDir);
  rpcListener ← wrap_err ("failed to get " +:+ rpcClientFlag +:+ " flag") (GetString fs rpcClientFlag);
  Ok (dbPath, backupDir, rpcListener).

(** unlock.go: key and address, ... *)
Definition unlock_flags fs : outcome (string * string) :=
  eotsFpPubKeyStr ← wrap_err ("failed to get " +:+ eotsPkFlag +:+ " flag") (GetString fs eotsPkFlag);
  rpcListener ← wrap_err ("failed to get " +:+ rpcClientFlag +:+ " flag") (GetString fs rpcClientFlag);
  Ok (eotsFpPubKeyStr, rpcListener).
(** ... and the home the HMAC key is read from; [None] is a home that was not
    given. *)
Definition hmac_home w fs : outcome (option string) :=
  flagHome ← wrap_err ("failed to get " +:+ FlagHome +:+ " flag") (GetString fs FlagHome);
  if bool_decide (flagHome = "") then Ok None
  else homePath ← wrap_err "failed to load home flag" (getHomePath w fs); Ok (Some homePath).

(** Standard input: what [Stat] answers, whether it is a terminal, and what
    reading it to the end, or without echo, gives. *)
Record stdin := mkStdin {
  in_Stat : outcome unit;
  in_tty : bool;
  in_ReadAll : outcome string;
  in_ReadPassword : outcome string
}.
Definition passwordReader (i : stdin) : outcome string :=
  _ ← wrap_err "failed to stat stdin" (in_Stat i);
  if negb (in_tty i) then wrap_err "failed to read passphrase from stdin" (in_ReadAll i)
  else wrap_err "failed to read passphrase from terminal" (in_ReadPassword i).

(** keys.go: [runCommandPrintAllKeys] with [getAllEOTSKeys] reads the home twice. *)
Definition printAllKeys_flags w fs : outcome (string * string * string) :=
  homePath ← wrap_err "failed to get public key" (getHomePath w fs);
  backend ← wrap_err "failed to get keyring backend" (GetString fs FlagKeyringBackend);
  _ ← wrap_err "failed to get keys from db" (wrap_err "failed to get home path" (getHomePath w fs));
  output ← wrap_err "failed to get output flag" (GetString fs FlagOutput);
  Ok (homePath, backend, output).
(** [saveKeyNameMapping] *)
Definition rpcClient_flag fs : outcome string := wrap_err "failed to get rpc client flag" (GetString fs rpcClientFlag).
End eotsd.

(** ** Every command *)

Section handlers.
Context `{Pflag}.
Implicit Types (fs : FlagSet) (w : os).

(** Whatever the command that runs [h] reads, in its order *)
Definition handler_flags (h : handler) w fs : outcome unit :=
  match h with
  | RunGetDaemonInfo | RunUnjailFP | RunLsFP | RunInfoFP => _ ← daemonAddress fs; Ok ()
  | RunAddFinalitySig => _ ← addFinalitySig_flags fs; Ok ()
  | RunEditDescription => _ ← editDescription_flags fs; Ok ()
  | RunPruneMerkleProof => _ ← prune_flags fs; Ok ()
  | RunFpdBackup => _ ← fpd_backup_flags fs; Ok ()
  | RunFpdInit => _ ← init_flags fs; Ok ()
  | RunFpdStart => _ ← start_flags fs; Ok ()
  | RunCreateFP => _ ← runCommandCreateFP_flags fs; Ok ()
  | RunCommitPubRand => _ ← commitPubRand_flags fs; Ok ()
  | RunRecoverProof => _ ← recoverProof_flags fs; Ok ()
  | RunInitHome => _ ← initHome_flags w fs; Ok ()
  | RunStartFn => _ ← startFn_flags w fs; Ok ()
  | RunExportPop => _ ← eotsFlags w fs; _ ← babyFlags w fs; _ ← output_flag fs; Ok ()
  | RunDeletePop => _ ← eotsFlags w fs; _ ← babyFlags w fs; _ ← message_flag fs; _ ← output_flag fs; Ok ()
  | RunRollback => _ ← rollback_flags w fs; Ok ()
  | RunEotsBackup => _ ← eots_backup_flags fs; Ok ()
  | RunUnlock => _ ← unlock_flags fs; _ ← hmac_home w fs; Ok ()
  | RunPrintAllKeys => _ ← printAllKeys_flags w fs; Ok ()
  | RunAddKey | RunSaveKey => _ ← rpcClient_flag fs; Ok ()
  | RunValidatePop | RunShowKey | RunVersion | RunLibrary _ => Ok ()
  end.

(** How many arguments it takes from [args] *)
Definition handler_args (h : handler) : nat :=
  match h with
  | RunUnjailFP | RunInfoFP | RunEditDescription | RunPruneMerkleProof | RunRecoverProof
  | RunValidatePop | RunShowKey | RunAddKey | RunSaveKey => 1
  | RunAddFinalitySig | RunCommitPubRand => 2
  | _ => 0
  end.

(** The errors of the two commands that check a value between two reads *)
Definition refused (h : handler) (e : error) : Prop :=
  match h with
  | RunRecoverProof => e = EText "please specify chain-id"
  | RunRollback => e = EText "rollback-until-height flag is required" ∨ e = EText "flag chain-id is required"
  | _ => False
  end.

(** A command that can run: its flags can be read and its arguments are there. *)
Definition readable (h : handler) w fs (args : list string) : Prop :=
  handler_args h ≤ length args
  ∧ match handler_flags h w fs with Ok _ => True | Err e => refused h e | Crash _ => False end.
End handlers.

(** ** A command that runs can be read *)

Definition is_string (v : option flag_value) : bool := match v with Some (VString _) => true | _ => false end.
Definition is_bool (v : option flag_value) : bool := match v with Some (VBool _) => true | _ => false end.
Definition is_uint64 (v : option flag_value) : bool := match v with Some (VUint64 _) => true | _ => false end.

Section reads.
Context `{CobraLaws}.
Lemma GetString_ok path fs args name :
  Invoked path fs args → is_string (find_flag name (visible path)) = true → ∃ s, GetString fs name = Ok s.
Proof.
  intros HI. destruct (find_flag _ _) as [[d| |]|] eqn:E; [|done..]. intros _.
  destruct (invoked_string _ _ _ _ _ HI E) as (s & Hs & _). eauto.
Qed.
Lemma GetBool_ok path fs args name :
  Invoked path fs args → is_bool (find_flag name (visible path)) = true → ∃ b, GetBool fs name = Ok b.
Proof.
  intros HI. destruct (find_flag _ _) as [[|d|]|] eqn:E; [done| |done..]. intros _.
  destruct (invoked_bool _ _ _ _ _ HI E) as (b & Hb & _). eauto.
Qed.
Lemma GetUint64_ok path fs args name :
  Invoked path fs args → is_uint64 (find_flag name (visible path)) = true → ∃ n, GetUint64 fs name = Ok n.
Proof.
  intros HI. destruct (find_flag _ _) as [[| |d]|] eqn:E; [done..| |done]. intros _.
  destruct (invoked_uint64 _ _ _ _ _ HI E) as (n & Hn & _). eauto.
Qed.
End reads.

(** Every read of a declared flag succeeds. *)
Ltac read_flag HI :=
  let s := fresh "s" in let E := fresh "E" in
  match goal with
  | |- context [GetString ?fs ?n] =>
      destruct (GetString_ok _ _ _ n HI) as [s E]; [reflexivity|rewrite !E; clear E; simpl]
  | |- context [GetBool ?fs ?n] =>
      destruct (GetBool_ok _ _ _ n HI) as [s E]; [reflexivity|rewrite !E; clear E; simpl]
  | |- context [GetUint64 ?fs ?n] =>
      destruct (GetUint64_ok _ _ _ n HI) as [s E]; [reflexivity|rewrite !E; clear E; simpl]
  end.
Ltac unfold_reads :=
  unfold handler_flags, daemonAddress, addFinalitySig_flags, editDescription_flags, prune_flags, fpd_backup_flags,
    init_flags, start_flags, runCommandCreateFP_flags, createFP_flags, commitPubRand_flags, recoverProof_flags,
    initHome_flags, startFn_flags, eotsFlags, babyFlags, message_flag, output_flag, rollback_flags,
    eots_backup_flags, unlock_flags, hmac_home, printAllKeys_flags, rpcClient_flag, getHomePath, flag_path,
    read_string.
Ltac solve_readable HI :=
  split;
  [ pose proof (invoked_args _ _ _ _ HI) as Hargs; simpl in Hargs;
    try (apply bool_decide_eq_true in Hargs); simpl; (lia || apply Nat.le_0_l)
  | unfold_reads; repeat first [read_flag HI | match goal with |- context [if ?b then _ else _] => destruct b; simpl end];
    by eauto ].

Section facts.
Context `{CobraLaws}.
Implicit Types (c : Command) (t : tree) (fs : FlagSet) (w : os).

Lemma fpd_command_readable home c r h w fs args :
  c ∈ fpd_commands home → cmd_RunE c = Some h → Invoked [c; r] fs args → readable h w fs args.
Proof.
  intros Hc Hh HI. unfold fpd_commands, AddCommonCommands in Hc. cbn [app] in Hc.
  repeat (apply elem_of_cons in Hc as [->|Hc]; [simpl in Hh; injection Hh as <-; solve_readable HI|]).
  by apply elem_of_nil in Hc.
Qed.

(** The commands of eotsd outside of its key commands, and those below [pop] *)
Lemma eotsd_command_readable home c h w fs args :
  let r := PersistentFlags_String FlagHome home (command "eotsd" [] AnyArgs None) in
  c ∈ eotsd_commands home → cmd_RunE c = Some h → Invoked [c; r] fs args → readable h w fs args.
Proof.
  intros r Hc Hh HI. subst r. unfold eotsd_commands in Hc.
  repeat (apply elem_of_cons in Hc as [->|Hc]; [simpl in Hh; first [discriminate|injection Hh as <-; solve_readable HI]|]).
  by apply elem_of_nil in Hc.
Qed.

Lemma pop_command_readable home c r h w fs args :
  leaf c ∈ Commands (NewPopCmd home) → cmd_RunE c = Some h →
  Invoked [c; root (NewPopCmd home); r] fs args → readable h w fs args.
Proof.
  intros Hc Hh HI. simpl in Hc.
  repeat (apply elem_of_cons in Hc as [[= ->]|Hc]; [simpl in Hh; injection Hh as <-; solve_readable HI|]).
  by apply elem_of_nil in Hc.
Qed.

(** What the Cosmos SDK documents of its key commands: they are its own, have
    persistent flags for the backend and the output, do not declare the flags
    that eotsd adds, and those that take a name require it; the four that are
    looked up are among them. *)
Record sdk_keys (keys : tree) : Prop := {
  sk_library : library keys;
  sk_backend : is_string (find_flag FlagKeyringBackend (cmd_Persistent (root keys))) = true;
  sk_output : is_string (find_flag FlagOutput (cmd_Persistent (root keys))) = true;
  sk_home : find_flag FlagHome (cmd_Persistent (root keys)) = None;
  sk_own s n : s ∈ Commands keys → n ∈ [FlagHome; FlagKeyringBackend; FlagOutput; rpcClientFlag] →
    find_flag n (cmd_Flags (root s) ++ cmd_Persistent (root s)) = None;
  sk_subs n : n ∈ ["add"; "list"; "import"; "import-hex"] → is_Some (GetSubCommand keys n);
  sk_args s n args : s ∈ Commands keys → n ∈ ["add"; "show"; "import"; "import-hex"] →
    EqualFold (cmd_Name (root s)) n = true → args_valid (cmd_Args (root s)) args = true → 1 ≤ length args
}.

Lemma library_readable name w fs args : readable (RunLibrary name) w fs args.
Proof. split; [apply Nat.le_0_l|done]. Qed.

Lemma find_flag_replicate n k : n ≠ rpcClientFlag → find_flag n (replicate k rpc_flag) = None.
Proof. intros Hn. induction k as [|k IH]; simpl; [done|]. by rewrite bool_decide_eq_false_2. Qed.

Lemma find_flag_rpc l : find_flag rpcClientFlag l = None → rpc_flag ∈ l → False.
Proof.
  induction l as [|f l IH]; simpl; [by intros _ ?%elem_of_nil|]. case_bool_decide as Hf; [done|].
  intros Hl [<-|Hin]%elem_of_cons; [done|by apply IH].
Qed.

(** The own flags of a key command *)
Lemma keys_own keys s0 s n :
  sdk_keys keys → s0 ∈ Commands keys → sub_inv (root s0) s →
  n ∈ [FlagHome; FlagKeyringBackend; FlagOutput; rpcClientFlag] →
  find_flag n (cmd_Flags (root s0)) = None ∧ find_flag n (cmd_Persistent s) = None.
Proof.
  intros Hk Hs0 Hs Hn. pose proof (sk_own _ Hk s0 n Hs0 Hn) as Hown. rewrite find_flag_app in Hown.
  rewrite (si_persistent _ _ Hs). by destruct (find_flag n (cmd_Flags (root s0))).
Qed.

(** What a key command of eotsd sees: the flags of the SDK and its own *)
Lemma keys_visible home keys s0 s r n :
  sdk_keys keys → s0 ∈ Commands keys → sub_inv (root s0) s → n ∈ [FlagHome; FlagKeyringBackend; FlagOutput] →
  is_string (find_flag n (visible [s; PersistentFlags_String FlagHome home (root keys); r])) = true.
Proof.
  intros Hk Hs0 Hs Hn. destruct (si_flags _ _ Hs) as [k Hf].
  assert (n ≠ rpcClientFlag ∧ n ∈ [FlagHome; FlagKeyringBackend; FlagOutput; rpcClientFlag]) as [Hr Hn'].
  { repeat (apply elem_of_cons in Hn as [->|Hn]; [split; [done|set_solver]|]). by apply elem_of_nil in Hn. }
  destruct (keys_own _ _ _ _ Hk Hs0 Hs Hn') as [H1' H2'].
  unfold visible. rewrite Hf, !find_flag_app, H1', H2', find_flag_replicate by done. simpl.
  rewrite !find_flag_app. repeat (apply elem_of_cons in Hn as [->|Hn]).
  - by rewrite (sk_home _ Hk).
  - pose proof (sk_backend _ Hk) as Hb. by destruct (find_flag FlagKeyringBackend (cmd_Persistent (root keys))).
  - pose proof (sk_output _ Hk) as Hb. by destruct (find_flag FlagOutput (cmd_Persistent (root keys))).
  - by apply elem_of_nil in Hn.
Qed.

Lemma keys_visible_rpc keys s0 s up :
  sdk_keys keys → s0 ∈ Commands keys → sub_inv (root s0) s → rpc_flag ∈ cmd_Flags s →
  is_string (find_flag rpcClientFlag (visible (s :: up))) = true.
Proof.
  intros Hk Hs0 Hs Hin. destruct (si_flags _ _ Hs) as [k Hf].
  destruct (keys_own _ _ _ rpcClientFlag Hk Hs0 Hs) as [H1' _]; [set_solver|].
  unfold visible. rewrite Hf, !find_flag_app, H1'. destruct k as [|k]; [|done].
  exfalso. rewrite Hf, app_nil_r in Hin. by eapply find_flag_rpc.
Qed.

Lemma keys_command_readable home keys s0 s r h w fs args :
  sdk_keys keys → s0 ∈ Commands keys → sub_inv (root s0) s →
  cmd_RunE s = Some h ∨ cmd_PostRunE s = Some h →
  Invoked [s; PersistentFlags_String FlagHome home (root keys); r] fs args → readable h w fs args.
Proof.
  intros Hk Hs0 Hs Hh HI.
  assert (Hargs : ∀ n, n ∈ ["add"; "show"; "import"; "import-hex"] → EqualFold (cmd_Name (root s0)) n = true →
            1 ≤ length args).
  { intros n Hn En. eapply (sk_args _ Hk); [done..|]. rewrite <-(si_args _ _ Hs). by eapply invoked_args. }
  assert (Hrpc : rpc_flag ∈ cmd_Flags s → ∃ a, GetString fs rpcClientFlag = Ok a).
  { intros Hin. eapply GetString_ok; [done|]. by eapply keys_visible_rpc. }
  assert (Hstr : ∀ n, n ∈ [FlagHome; FlagKeyringBackend; FlagOutput] → ∃ a, GetString fs n = Ok a).
  { intros n Hn. eapply GetString_ok; [done|]. by eapply keys_visible. }
  assert (on_path keys [root s0; root keys]) as Hp.
  { destruct keys as [k l]. apply (path_sub k l s0 [root s0] Hs0). destruct s0. constructor. }
  destruct (sk_library _ Hk _ _ Hp) as [Hl1 Hl2].
  destruct Hh as [Hh|Hh].
  - destruct (si_run _ _ Hs _ Hh) as [H0'|[[-> _]|[[-> En]|(-> & En & Hin)]]].
    + destruct (Hl1 _ H0') as [name ->]. apply library_readable.
    + destruct (Hstr FlagHome) as [a1 E1]; [set_solver|]. destruct (Hstr FlagKeyringBackend) as [a2 E2]; [set_solver|].
      destruct (Hstr FlagOutput) as [a3 E3]; [set_solver|].
      split; [apply Nat.le_0_l|]. unfold_reads. by rewrite E1, E2, E3.
    + split; [|done]. apply (Hargs "show"); [set_solver|done].
    + split; [apply (Hargs "add"); [set_solver|done]|]. unfold_reads. by destruct (Hrpc Hin) as [a ->].
  - destruct (si_post _ _ Hs _ Hh) as [H0'|(-> & Hin & En)]; [congruence|].
    split; [|unfold_reads; by destruct (Hrpc Hin) as [a ->]].
    destruct En as [En|En]; [apply (Hargs "import")|apply (Hargs "import-hex")]; set_solver.
Qed.

(** Below the root there are only single commands of a list. *)
Lemma leaf_path (l : list Command) t p : t ∈ leaf <$> l → on_path t p → ∃ c, c ∈ l ∧ p = [c].
Proof. intros (c & -> & Hc)%list_elem_of_fmap Hp%on_path_leaf. eauto. Qed.

Lemma library_path t c up h : library t → on_path t (c :: up) → cmd_RunE c = Some h ∨ cmd_PostRunE c = Some h →
  ∃ name, h = RunLibrary name.
Proof. intros Hl Hp Hh. destruct (Hl _ _ Hp) as [H1' H2']. destruct Hh as [Hh|Hh]; [eauto|congruence]. Qed.

Lemma fpd_readable home keys incentive t c up h w fs args :
  fpd_main home keys incentive = Ok t → library keys → Forall library incentive →
  on_path t (c :: up) → cmd_RunE c = Some h ∨ cmd_PostRunE c = Some h →
  Invoked (c :: up) fs args → readable h w fs args.
Proof.
  intros HE Hk Hinc Hp Hh HI. apply outcome_bind_ok in HE as (k & Ek & [= <-]).
  assert (k = keys) as ->. { unfold CommandKeys in Ek. by destruct (GetSubCommand _ _); simplify_eq. }
  apply on_path_inv in Hp as [[= -> ->]|(t & p' & Ht & Hp & Ep)]; [by destruct Hh|].
  assert (t ∈ leaf <$> fpd_commands home ∨ t = keys ∨ t ∈ incentive) as [Hin|Hin].
  { clear -Ht. unfold fpd_commands, AddCommonCommands. simpl in *. set_solver. }
  - destruct (leaf_path _ _ _ Hin Hp) as (x & Hx & ->). injection Ep as -> ->.
    destruct Hh as [Hh|Hh]; [by eapply fpd_command_readable|]. exfalso. revert Hh. clear -Hx.
    unfold fpd_commands, AddCommonCommands in Hx. cbn [app] in Hx.
    repeat (apply elem_of_cons in Hx as [->|Hx]; [done|]). by apply elem_of_nil in Hx.
  - destruct p' as [|c' p']; [by inversion Hp; destruct path|]. injection Ep as <- ->.
    assert (library t) as Hl. { rewrite Forall_forall in Hinc. destruct Hin as [->|Hin]; [done|by apply Hinc]. }
    destruct (library_path _ _ _ _ Hl Hp Hh) as [name ->]. apply library_readable.
Qed.

Lemma eotsd_readable home keys t c up h w fs args :
  NewRootCmd home keys = Ok t → sdk_keys keys →
  on_path t (c :: up) → cmd_RunE c = Some h ∨ cmd_PostRunE c = Some h →
  Invoked (c :: up) fs args → readable h w fs args.
Proof.
  intros HE Hk Hp Hh HI. apply outcome_bind_ok in HE as (k & Ek & [= <-]).
  apply NewKeysCmd_ok in Ek as [Hroot Hsubs].
  apply on_path_inv in Hp as [[= -> ->]|(t & p' & Ht & Hp & Ep)]; [by destruct Hh|].
  assert (t ∈ leaf <$> eotsd_commands home ∨ t = k ∨ t = NewPopCmd home) as [Hin|[->| ->]].
  { clear -Ht. unfold eotsd_commands. set_solver. }
  - destruct (leaf_path _ _ _ Hin Hp) as (x & Hx & ->). injection Ep as -> ->.
    destruct Hh as [Hh|Hh]; [by eapply eotsd_command_readable|]. exfalso. revert Hh. clear -Hx.
    unfold eotsd_commands in Hx. repeat (apply elem_of_cons in Hx as [->|Hx]; [done|]). by apply elem_of_nil in Hx.
  - destruct k as [kr l]. simpl in Hroot, Hsubs. subst kr.
    apply on_path_inv in Hp as [->|(s & p & Hs & Hp & ->)].
    { injection Ep as -> ->. destruct keys as [kc kl].
      destruct (sk_library _ Hk _ _ (path_root kc kl)) as [H1' H2']. destruct Hh as [Hh|Hh]; simpl in *; [|congruence].
      destruct (H1' _ Hh) as [name ->]. apply library_readable. }
    apply list_elem_of_lookup_1 in Hs as [i Hi].
    destruct (Forall2_lookup_r _ _ _ _ _ Hsubs Hi) as (s0 & Hi0 & Hc & Hinv).
    apply list_elem_of_lookup_2 in Hi0. destruct s as [sc sl]. simpl in Hc, Hinv. subst sl.
    apply on_path_inv in Hp as [->|(d & q & Hd & Hq & ->)].
    + injection Ep as -> ->. by eapply keys_command_readable.
    + destruct q as [|c' q]; [by inversion Hq; destruct path|]. injection Ep as <- ->.
      assert (on_path keys (c :: (q ++ [root s0]) ++ [root keys])) as Hpath.
      { destruct keys as [kc kl]. apply (path_sub kc kl s0 (c :: q ++ [root s0]) Hi0).
        destruct s0 as [s0c s0l]. by apply (path_sub s0c s0l d (c :: q)). }
      destruct (library_path _ _ _ _ (sk_library _ Hk) Hpath Hh) as [name ->]. apply library_readable.
  - apply on_path_inv in Hp as [->|(d & q & Hd & Hq & ->)]; [injection Ep as -> ->; by destruct Hh|].
    destruct (leaf_path _ _ _ Hd Hq) as (x & Hx & ->). injection Ep as -> ->.
    destruct Hh as [Hh|Hh].
    + eapply (pop_command_readable home); [|done|done]. simpl. clear -Hx. set_solver.
    + exfalso. revert Hh. clear -Hx. repeat (apply elem_of_cons in Hx as [->|Hx]; [done|]). by apply elem_of_nil in Hx.
Qed.

(** *** Making the trees does not panic *)

Lemma find_sub_alter name (f : Command → Command) i (l : list tree) :
  (∀ c, cmd_Name (f c) = cmd_Name c) → find_sub name (alter (alter_root f) i l) = find_sub name l.
Proof.
  intros Hf. revert i. induction l as [|t l IH]; intros [|i]; simpl; [done..|by rewrite Hf|].
  destruct (EqualFold _ _); [done|]. f_equal. apply IH.
Qed.

Lemma override_show_find name t : find_sub name (Commands (override_show t)) = find_sub name (Commands t).
Proof. unfold override_show. destruct (GetSubCommand _ _); [|done]. by apply find_sub_alter. Qed.

Lemma saveKeyOnPostRun_total name t :
  is_Some (find_sub name (Commands t)) →
  ∃ t', saveKeyOnPostRun_cmd name t = Ok t' ∧ ∀ n, find_sub n (Commands t') = find_sub n (Commands t).
Proof.
  intros [i Hi]. unfold saveKeyOnPostRun_cmd, GetSubCommand. rewrite Hi.
  eexists; split; [done|]. intros n. by apply find_sub_alter.
Qed.

Lemma trees_made home keys incentive :
  sdk_keys keys → (∃ t, fpd_main home keys incentive = Ok t) ∧ (∃ t, NewRootCmd home keys = Ok t).
Proof.
  intros Hk.
  assert (∀ n, n ∈ ["add"; "list"; "import"; "import-hex"] → is_Some (find_sub n (Commands keys))) as Hs
    by exact (sk_subs _ Hk).
  destruct (Hs "add") as [add Ea]; [set_solver|]. destruct (Hs "list") as [lst El]; [set_solver|].
  split.
  - unfold fpd_main, CommandKeys, GetSubCommand. rewrite Ea. simpl. eauto.
  - unfold NewRootCmd, NewKeysCmd, GetSubCommand. rewrite Ea, El. simpl. set (t := alter_sub _ add _).
    assert (∀ n, find_sub n (Commands t) = find_sub n (Commands keys)) as Ht.
    { intros n. subst t. simpl. rewrite find_sub_alter, override_show_find by done. simpl. by apply find_sub_alter. }
    destruct (saveKeyOnPostRun_total "import" t) as (t1 & -> & H1'); [rewrite Ht; apply Hs; set_solver|]. simpl.
    destruct (saveKeyOnPostRun_total "import-hex" t1) as (t2 & -> & _);
      [rewrite H1', Ht; apply Hs; set_solver|]. simpl. eauto.
Qed.

End facts.

(** ** An instance *)

Module CliWitness.

(** The flags given on the command line and those declared *)
Record flags := mkFlags { given : list Flag; declared : list Flag }.
Definition value (fs : flags) (name : string) : option flag_value := find_flag name (given fs ++ declared fs).
Definition unknown {A} : outcome A := Err (EText "flag accessed but not defined").

#[local] Instance pflag : Pflag := {|
  FlagSet := flags;
  GetString fs name := match value fs name with Some (VString s) => Ok s | _ => unknown end;
  GetBool fs name := match value fs name with Some (VBool b) => Ok b | _ => unknown end;
  GetUint64 fs name := match value fs name with Some (VUint64 n) => Ok n | _ => unknown end;
  Changed fs name := bool_decide (name ∈ flag_Name <$> given fs)
|}.

Definition same_type (v d : flag_value) : bool :=
  match v, d with VString _, VString _ | VBool _, VBool _ | VUint64 _, VUint64 _ => true | _, _ => false end.
(** What is given has the type declared for it. *)
Definition given_ok (path : list Command) (f : Flag) : bool :=
  match find_flag (flag_Name f) (visible path) with Some d => same_type (flag_DefValue f) d | None => false end.
Definition invoked (path : list Command) (fs : flags) (args : list string) : Prop :=
  declared fs = visible path ∧ Forall (given_ok path) (given fs)
  ∧ match path with
    | [] => False
    | c :: _ => args_valid (cmd_Args c) args = true
        ∧ Forall (λ n, Changed fs n = true) (cmd_Required c ++ cmd_PreRunE c fs)
    end.
#[local] Instance cobra : Cobra := invoked.

(** The value of a declared flag has its type, and is the default when the flag
    was not given. *)
Lemma value_typed path fs args name d :
  invoked path fs args → find_flag name (visible path) = Some d →
  ∃ v, value fs name = Some v ∧ same_type v d = true ∧ (Changed fs name = false → v = d).
Proof.
  intros (Hd & Hg & _) Hf. unfold value. rewrite find_flag_app, Hd, Hf.
  assert (∃ v, match find_flag name (given fs) with Some v => Some v | None => Some d end = Some v
    ∧ same_type v d = true ∧ (name ∉ flag_Name <$> given fs → v = d)) as (v & Hv & Ht & Hc).
  { induction (given fs) as [|f l IH]; simpl; [exists d; by destruct d|].
    apply Forall_cons in Hg as [Hv Hg]. destruct (bool_decide_reflect (flag_Name f = name)) as [<-|Hn].
    - exists (flag_DefValue f). unfold given_ok in Hv. rewrite Hf in Hv.
      split_and!; [done|by apply Is_true_eq_true|set_solver].
    - destruct (IH Hg) as (v & Hv' & Ht & Hc). exists v. split_and!; [done..|set_solver]. }
  exists v. split_and!; [done..|]. intros Hch%bool_decide_eq_false. auto.
Qed.

#[local] Instance laws : CobraLaws.
Proof.
  split.
  - intros path fs args name d HI Hf. destruct (value_typed _ _ _ _ _ HI Hf) as ([] & Hv & [=] & Hc).
    simpl. rewrite Hv. eexists; split; [done|]. intros Hch. by injection (Hc Hch).
  - intros path fs args name d HI Hf. destruct (value_typed _ _ _ _ _ HI Hf) as ([] & Hv & [=] & Hc).
    simpl. rewrite Hv. eexists; split; [done|]. intros Hch. by injection (Hc Hch).
  - intros path fs args name d HI Hf. destruct (value_typed _ _ _ _ _ HI Hf) as ([] & Hv & [=] & Hc).
    simpl. rewrite Hv. eexists; split; [done|]. intros Hch. by injection (Hc Hch).
  - by intros c up fs args (_ & _ & Ha & _).
  - intros c up fs args name (_ & _ & _ & Hr) Hn. rewrite Forall_forall in Hr. by apply Hr.
Qed.

(** The key commands of the Cosmos SDK, with the flags that matter here *)
Definition sdk_command (name : string) (args : PositionalArgs) : tree :=
  leaf (command name [] args (Some (RunLibrary name))).
Definition keys : tree :=
  Node (PersistentFlags_String FlagOutput "text" $ PersistentFlags_String FlagKeyringBackend "os" $
        command "keys" [] AnyArgs None)
    [sdk_command "add" (ExactArgs 1); sdk_command "import" (ExactArgs 2); sdk_command "import-hex" (ExactArgs 2);
     sdk_command "list" AnyArgs; sdk_command "show" (MinimumNArgs 1)].

Lemma keys_library : library keys.
Proof.
  intros c up [[= -> ->]|(t & p & Ht & Hp & E)]%on_path_inv; [done|].
  assert (∃ x n, t = leaf x ∧ cmd_RunE x = Some (RunLibrary n) ∧ cmd_PostRunE x = None) as (x & n & -> & Hx & Hpo).
  { clear -Ht. repeat (apply elem_of_cons in Ht as [->|Ht]; [by eauto 10|]). by apply elem_of_nil in Ht. }
  apply on_path_leaf in Hp as ->. injection E as -> ->. split; [|done]. intros h Hh. rewrite Hx in Hh.
  injection Hh as <-. eauto.
Qed.

Lemma keys_sdk : sdk_keys keys.
Proof.
  split; [exact keys_library|done..| | |].
  - intros s n Hs Hn. repeat (apply elem_of_cons in Hs as [->|Hs]; [done|]). by apply elem_of_nil in Hs.
  - intros n Hn. repeat (apply elem_of_cons in Hn as [->|Hn]; [vm_compute; by eauto|]). by apply elem_of_nil in Hn.
  - intros s n args Hs Hn He Ha. repeat (apply elem_of_cons in Hs as [->|Hs];
      [simpl in Ha; first [apply bool_decide_eq_true in Ha; lia|idtac]|]); [|by apply elem_of_nil in Hs].
    exfalso. revert He. repeat (apply elem_of_cons in Hn as [->|Hn]; [done|]). by apply elem_of_nil in Hn.
Qed.

(** [fpd unsafe-add-finality-sig <pk> <height> --app-hash 00 --daemon-address a],
    and [eotsd keys add <name>] of the other tree *)
Definition fpd_path : list Command := [CommandAddFinalitySig; fpd_NewRootCmd "/home"].
Definition vote_given : list Flag := [mkFlag AppHashFlag (VString "00"); mkFlag FpdDaemonAddressFlag (VString "a")].
Definition vote_flags : flags := mkFlags vote_given (visible fpd_path).
Definition add_cmd : Command := set_RunE RunAddKey $ flags_String rpcClientFlag "" $
  command "add" [] (ExactArgs 1) (Some (RunLibrary "add")).
Definition eotsd_path : list Command :=
  [add_cmd; PersistentFlags_String FlagHome "/home" (root keys);
   PersistentFlags_String FlagHome "/home" (command "eotsd" [] AnyArgs None)].

Definition w_os : os := mkOs ∅ ∅ "/" (Some "/home") (λ _, "").

Lemma vote_invoked : Invoked fpd_path vote_flags ["pk"; "10"].
Proof.
  split; [done|]. split; [apply (bool_decide_unpack _); by vm_compute|].
  split; [done|apply (bool_decide_unpack _); by vm_compute].
Qed.
Lemma add_invoked : Invoked eotsd_path (mkFlags [] (visible eotsd_path)) ["name"].
Proof. split; [done|]. split; [by constructor|]. split; [done|by constructor]. Qed.

End CliWitness.
