(* ===== verification/CmdFiles.v ===== *)
(** * Commands that write and read JSON documents
      (src/eotsmanager/cmd/eotsd/daemon/pop.go: exportPop, deletePop, validatePop,
       babyKeyring; keys.go: the output of runCommandPrintAllKeys)

    The whole commands of [pop]: they read their flags ([CliFlags]), make the
    keyring of the Babylon key, open the database of the EOTS home
    ([EotsOffline]), sign ([Pop]), write the document ([Json]) and close the
    database; validating one reads the file. *)

From Stdlib Require Import NArith ZArith Lia.
From stdpp Require Import base gmap strings list pretty.
From S2P Require Import Prelude Encoding Json Kvdb External Config Toy Paths ConfigFiles Util EotsStore EotsApi.
From S2P Require Import LocalManager Lifecycle EotsRpc Pop EotsCmd EotsOffline Cli CliFlags.

(** ** The documents *)

Definition pop_json (pop : PoPExport) : list (string * string) :=
  [("eotsPublicKey", EotsPublicKey pop); ("babyPublicKey", BabyPublicKey pop);
   ("babySignEotsPk", BabySignEotsPk pop); ("eotsSignBaby", EotsSignBaby pop); ("babyAddress", BabyAddress pop)].
Definition pop_fields : list string :=
  ["eotsPublicKey"; "babyPublicKey"; "babySignEotsPk"; "eotsSignBaby"; "babyAddress"].
Definition pop_of (m : gmap string string) : PoPExport :=
  mkPoPExport (field m "eotsPublicKey") (field m "babyPublicKey") (field m "babySignEotsPk")
    (field m "eotsSignBaby") (field m "babyAddress").

Definition del_json (del : PoPExportDelete) : list (string * string) :=
  [("eotsPublicKey", del_EotsPublicKey del); ("babyPublicKey", del_BabyPublicKey del);
   ("babySignature", del_BabySignature del); ("babyAddress", del_BabyAddress del)].
Definition del_fields : list string := ["eotsPublicKey"; "babyPublicKey"; "babySignature"; "babyAddress"].
Definition del_of (m : gmap string string) : PoPExportDelete :=
  mkPoPExportDelete (field m "eotsPublicKey") (field m "babyPublicKey") (field m "babySignature")
    (field m "babyAddress").

(** The end of [runCommandPrintAllKeys]: the keys in the chosen format; a slice
    nothing was appended to is nil and encodes as null. *)
Definition keyInfo_json (k : string * string) : bytes :=
  bytes_of_string "  {" ++ [Byte.x0a] ++ bytes_of_string "    " ++ json_string "name" ++ bytes_of_string ": "
  ++ json_string k.1 ++ [Byte.x2c; Byte.x0a] ++ bytes_of_string "    " ++ json_string "eots_pk" ++ bytes_of_string ": "
  ++ json_string k.2 ++ [Byte.x0a] ++ bytes_of_string "  }".
Fixpoint keyInfos_json (l : list (string * string)) : bytes :=
  match l with
  | [] => []
  | [k] => keyInfo_json k
  | k :: l' => keyInfo_json k ++ [Byte.x2c; Byte.x0a] ++ keyInfos_json l'
  end.
Definition printed_keys (output : string) (keys : list (string * string)) : bytes :=
  if EqualFold output "json" then
    match keys with
    | [] => bytes_of_string "null"
    | _ => bytes_of_string "[" ++ [Byte.x0a] ++ keyInfos_json keys ++ [Byte.x0a] ++ bytes_of_string "]"
    end ++ [Byte.x0a]
  else concat ((λ k, bytes_of_string ("Key Name: " +:+ k.1) ++ [Byte.x0a] ++ bytes_of_string ("EOTS PK: " +:+ k.2)
                       ++ [Byte.x0a]) <$> keys).

(** ** The commands *)

Section commands.
Context `{Crypto} `{Sdk} `{BigEndian} `{Codec pSigningRecord} `{Bip39} `{RandFuel} `{Merkle} `{AccAddress}.
Context {K D : Type} `{!Keyring K} `{!KeyringSign K} `{!CosmosKeys} `{!KvBackend D}.
Context `{NetParsers} `{Ini EotsConfig} `{Pflag}.
Variable GetBoltBackend : BoltBackendConfig → M os D.
Variable keyring_New : string → string → string → outcome K.
#[local] Abbreviation lm := (LocalEOTSManager K D).

(** The keyring and its reader, with the key and the address *)
Definition babyKeyring (babyHomePath babyKeyName babyKeyringBackend userInput : string)
    : outcome (K * string * (bytes * bytes)) :=
  kr ← wrap_err "failed to create keyring" (keyring_New "baby" babyKeyringBackend babyHomePath);
  let '(r, (kr', input)) := babyKeyring_key babyKeyName (kr, userInput) in
  key ← r; Ok (kr', input, key).

(** A part of [Pop] on the manager of the process *)
Definition on_pop {A} (kr : K) (input : string) (m : M (PopEnv K D) A) : M (proc lm) A := λ p,
  match p_app p with
  | None => (Crash "nil pointer dereference", p)
  | Some l => let '(r, s) := m (mkPopEnv kr input l) in (r, with_app (Some (pe_em s)) p)
  end.

(** [handleOutputJSON], with the read of its flag *)
Definition output_json (fs : FlagSet) (document : list (string * string)) : M (proc lm) string :=
  outputFilePath ← go_lift (output_flag fs);
  on_os (handleOutputJSON (MarshalIndent document) outputFilePath).

(** What the two commands share, up to their deferred [cmdCloseEots]: [body] is
    given the names of the two keys and the account. *)
Definition with_keys {A} (now : Z) (userInput : string) (fs : FlagSet)
    (body : K → string → string → string → string → bytes → bytes → M (proc lm) A) : M (proc lm) A :=
  p ← go_get;
  '(eotsHomePath, eotsKeyName, eotsFpPubKeyStr, eotsKeyringBackend) ← go_lift (eotsFlags (p_os p) fs);
  '(babyHomePath, babyKeyName, babyKeyringBackend) ← go_lift (babyFlags (p_os p) fs);
  '(kr, input, (babyPubKey, bbnAddr)) ← go_lift (babyKeyring babyHomePath babyKeyName babyKeyringBackend userInput);
  _ ← loadEotsManager_home GetBoltBackend keyring_New now eotsHomePath eotsFpPubKeyStr eotsKeyName eotsKeyringBackend;
  go_defer (body kr input eotsKeyName eotsFpPubKeyStr babyKeyName babyPubKey bbnAddr) cmdCloseEots.

Definition exportPop (now : Z) (userInput : string) (fs : FlagSet) : M (proc lm) string :=
  with_keys now userInput fs (λ kr input eotsKeyName eotsFpPubKeyStr babyKeyName babyPubKey bbnAddr,
    out ← on_pop kr input (exportPop_signed eotsKeyName eotsFpPubKeyStr babyKeyName babyPubKey bbnAddr);
    output_json fs (pop_json out)).

(** The flag of the message is read by [getInterpretedMessage]. *)
Definition deletePop (now : Z) (userInput : string) (fs : FlagSet) : M (proc lm) string :=
  with_keys now userInput fs (λ kr input eotsKeyName eotsFpPubKeyStr babyKeyName babyPubKey bbnAddr,
    out ← on_pop kr input
            (deletePop_signed eotsKeyName eotsFpPubKeyStr babyKeyName (message_flag fs) babyPubKey bbnAddr);
    output_json fs (del_json out)).

Definition validatePop (args : list string) : M os unit :=
  path ← go_lift (arg args 0);
  bzExportJSON ← go_wrap "failed to read pop file" (read_file (Clean path));
  match decode_struct pop_fields bzExportJSON with
  | None => go_fail (EText ("failed to marshal " +:+ string_of_bytes bzExportJSON +:+ " into PoPExport structure"))
  | Some m => go_lift (validatePop_doc (pop_of m))
  end.
End commands.

(** ** Documents and files *)

(** Hexadecimal keys and bech32 addresses are ASCII. *)
Class TextLaws `{Crypto} `{Sdk} `{AccAddress} `{!CosmosKeys} : Prop := {
  hex_text b pk : BIP340ToBTCPK b = Ok pk → ascii_text (MarshalHex b) = true;
  address_text key addr : secp_Address key = Ok addr → ascii_text (AccAddress_String addr) = true;
}.

Lemma pop_decodes pop :
  Forall valid_utf8 (pop_json pop).*2 →
  ∃ m, decode_struct pop_fields (MarshalIndent (pop_json pop)) = Some m ∧ pop_of m = pop.
Proof.
  intros Hv. destruct (decode_fields (pop_json pop)) as (m & Hm & Hf); [by vm_compute..|done|].
  exists m. split; [done|]. destruct pop. unfold pop_of. fields_read Hf.
Qed.
Lemma del_decodes del :
  Forall valid_utf8 (del_json del).*2 →
  ∃ m, decode_struct del_fields (MarshalIndent (del_json del)) = Some m ∧ del_of m = del.
Proof.
  intros Hv. destruct (decode_fields (del_json del)) as (m & Hm & Hf); [by vm_compute..|done|].
  exists m. split; [done|]. destruct del. unfold del_of. fields_read Hf.
Qed.

(** ** The commands *)

Section facts.
Context `{CryptoLaws} `{Sdk} `{BigEndian} `{Codec pSigningRecord} `{Bip39} `{RandFuel} `{Merkle} `{AccAddress}.
Context {K D : Type} `{!Keyring K} `{!KeyringSign K} `{!CosmosKeys} `{!CosmosKeysLaws K} `{!KvBackend D}.
Context `{!TextLaws} `{NetParsers} `{Ini EotsConfig} `{Pflag}.
Variable GetBoltBackend : BoltBackendConfig → M os D.
Variable keyring_New : string → string → string → outcome K.
#[local] Abbreviation lm := (LocalEOTSManager K D).
Implicit Types (p : proc lm) (fs : FlagSet).

(** The manager that was loaded is a new one on an open database. *)
Definition loaded p : Prop :=
  p_db_open p = true ∧ p_trace p = [DbOpened] ∧ ∃ em, p_app p = Some em ∧ lm_privateKeys em = ∅.

Lemma loadEotsManager_loaded now home pkStr name backend p p' :
  fresh p → loadEotsManager_home GetBoltBackend keyring_New now home pkStr name backend p = (Ok (), p') → loaded p'.
Proof.
  intros Hf. unfold loadEotsManager_home. destruct (_ && _); [done|]. intros HE.
  inv_bind HE. apply (on_os_fresh _ _ _ _ Hf) in E as Hf1. inv_bind HE. apply (on_os_fresh _ _ _ _ Hf1) in E0 as Hf2.
  destruct (ecfg_DatabaseConfig a) as [c|]; [|done]. inv_bind HE. apply (on_os_fresh _ _ _ _ Hf2) in E1 as (_ & Hd & Ht).
  inv_bind HE. inv_bind HE. injection E1 as _ <-. inv_bind HE. injection HE as <-.
  unfold loaded. simpl. rewrite Ht. split_and!; [done..|]. eexists; split; [done|].
  unfold NewLocalEOTSManager in E1. apply outcome_bind_ok in E1 as (es & _ & E1).
  apply outcome_bind_ok in E1 as (kr & _ & E1). by injection E1 as <-.
Qed.

(** The key that [babyKeyring] returns is the one of the record. *)
Lemma babyKeyring_ok home name backend input kr input' key addr :
  babyKeyring keyring_New home name backend input = Ok (kr, input', (key, addr)) →
  secp_Address key = Ok addr ∧ ∃ r i i', kr_Key kr i name = (Ok r, i') ∧ rec_PubKey r = Ok (PubSecp256k1 key).
Proof.
  unfold babyKeyring. intros (kr0 & _ & HE)%outcome_bind_ok.
  destruct (babyKeyring_key name (kr0, input)) as [[[k a]|e|x] [kr1 i1]] eqn:Ek; [|done..].
  injection HE as -> <- -> ->. apply babyKeyring_key_ok in Ek as (Hkr & Ha & r & i & Hk & Hp).
  simpl in Hkr. subst. eauto 10.
Qed.

Lemma with_keys_ok {A} now input fs (body : _ → _ → _ → _ → _ → _ → _ → M (proc lm) A) p a p' :
  fresh p → with_keys GetBoltBackend keyring_New now input fs body p = (Ok a, p') →
  ∃ kr input' eotsName pkStr babyName key addr r i i' p1 p2,
    loaded p1 ∧ body kr input' eotsName pkStr babyName key addr p1 = (Ok a, p2) ∧ p' = cmdCloseEots p2
    ∧ secp_Address key = Ok addr ∧ kr_Key kr i babyName = (Ok r, i') ∧ rec_PubKey r = Ok (PubSecp256k1 key).
Proof.
  intros Hf HE. unfold with_keys in HE. inv_bind HE. inv_bind HE. destruct a0 as [[[home eotsName] pkStr] backend].
  inv_bind HE. destruct a0 as [[bhome babyName] bbackend]. inv_bind HE. destruct a0 as [[kr input'] [key addr]].
  apply babyKeyring_ok in E1 as (Ha & r & i & i' & Hk & Hp). inv_bind HE. destruct a0.
  apply (loadEotsManager_loaded _ _ _ _ _ _ _ Hf) in E1. apply go_defer_inv in HE as (p2 & HE & ->). eauto 20.
Qed.

(** Running a part on the manager leaves everything else alone. *)
Lemma on_pop_ok {A} kr input (m : M (PopEnv K D) A) p a p' :
  loaded p → on_pop kr input m p = (Ok a, p') →
  ∃ em s, lm_privateKeys em = ∅ ∧ m (mkPopEnv kr input em) = (Ok a, s)
    ∧ p_db_open p' = true ∧ p_trace p' = [DbOpened].
Proof.
  intros (Hd & Ht & em & Ha & Hm). unfold on_pop. rewrite Ha. destruct (m _) as [r s] eqn:E. intros [= -> <-]. eauto 10.
Qed.

(** The file has what is printed, at the path that was given. *)
Lemma output_json_ok fs doc path p out p' :
  output_json fs doc p = (Ok out, p') → GetString fs flagOutputFile = Ok path → path ≠ "" →
  IsAbs (os_cwd (p_os p')) = true →
  out = string_of_bytes (MarshalIndent doc) ∧ p_db_open p' = p_db_open p ∧ p_trace p' = p_trace p
  ∧ read_file (Clean path) (p_os p') = (Ok (MarshalIndent doc), p_os p').
Proof.
  intros HE Hg Hp Hc. unfold output_json, output_flag in HE. rewrite Hg in HE. inv_bind HE.
  injection E as <-. apply zoom_inv in HE as (w' & HE & ->). cbn in Hc |- *.
  unfold handleOutputJSON in HE. inv_bind HE. rewrite bool_decide_false in HE by done. inv_bind HE.
  injection HE as <- <-. split_and!; [done..|].
  inv_bind E. destruct (MkdirAll _ _) as [err w1] eqn:Em. apply MkdirAll_os in Em as (n & -> & _ & _).
  injection E0 as _ <-. apply go_wrap_ok in E. apply (write_read _ _ _ _ _ _ E).
  apply write_file_ok in E as (-> & _). change (resolve (with_nodes ?n ?w)) with (resolve w). symmetry. by apply resolve_Abs.
Qed.

Lemma base64_valid b : valid_utf8 (EncodeToString b).
Proof. apply ascii_valid, base64_ascii. Qed.

(** C34: a proof of possession that [eotsd pop export] wrote to a file is
    accepted by [eotsd pop validate] on that file, for either way of naming the
    EOTS key, and names the address of the Babylon key; the file that [eotsd
    pop delete] wrote decodes to a document whose signature verifies, under the
    Babylon key it states, over the document of the unquoted message.  The file
    is what was printed, and both commands opened the database of the EOTS home
    and closed it again. *)
Theorem pop_files now input fs path p out p'
    (Hfresh : fresh p) (Hpath : GetString fs flagOutputFile = Ok path) (Hne : path ≠ "")
    (Hcwd : IsAbs (os_cwd (p_os p')) = true) :
  (exportPop GetBoltBackend keyring_New now input fs p = (Ok out, p') →
     opened_and_closed p' ∧ read_file (Clean path) (p_os p') = (Ok (bytes_of_string out), p_os p')
     ∧ validatePop [path] (p_os p') = (Ok (), p_os p')
     ∧ ∃ m key addr, decode_struct pop_fields (bytes_of_string out) = Some m ∧ secp_Address key = Ok addr
         ∧ BabyPublicKey (pop_of m) = EncodeToString key ∧ BabyAddress (pop_of m) = AccAddress_String addr)
  ∧ (deletePop GetBoltBackend keyring_New now input fs p = (Ok out, p') →
     opened_and_closed p' ∧ read_file (Clean path) (p_os p') = (Ok (bytes_of_string out), p_os p')
     ∧ ∃ m key addr msg text bz sig, decode_struct del_fields (bytes_of_string out) = Some m
         ∧ secp_Address key = Ok addr ∧ del_BabyPublicKey (del_of m) = EncodeToString key
         ∧ del_BabyAddress (del_of m) = AccAddress_String addr
         ∧ GetString fs flagMessage = Ok msg ∧ msg ≠ "" ∧ Unquote msg = Ok text
         ∧ adr36_bytes (del_BabyAddress (del_of m)) (bytes_of_string text) = Ok bz
         ∧ del_BabySignature (del_of m) = EncodeToString sig ∧ secp_Verify key bz sig = true).
Proof.
  split; intros HE; apply (with_keys_ok _ _ _ _ _ _ _ Hfresh) in HE
    as (kr & i0 & en & ps & bn & key & addr & r & i & i' & p1 & p2 & Hl & HE & -> & Ha & Hk & Hp);
    inv_bind HE; apply (on_pop_ok _ _ _ _ _ _ Hl) in E as (em & s0 & Hem & E & Hd & Ht);
    (apply (output_json_ok _ _ path) in HE as (-> & Hd2 & Ht2 & Hr); [|exact Hpath|exact Hne|exact Hcwd]); rewrite !bytes_string_bytes.
  - destruct (exportPop_signed_valid _ _ _ _ _ (mkPopEnv kr i0 em) _ _ _ _ _ Hem Hk Hp E)
      as (Hv & Hkey & Haddr & (pk & P & Hpk & HP) & (b1 & Hb1) & b2 & Hb2).
    destruct (pop_decodes a) as (m & Hm & Epop).
    { unfold pop_json. cbn. rewrite Hkey, Haddr, Hpk, Hb1, Hb2.
      repeat constructor; try apply base64_valid; apply ascii_valid; [by eapply hex_text|by eapply address_text]. }
    split_and!; [split; [done|simpl; by rewrite Ht2, Ht]|done| |].
    + unfold validatePop. simpl. erewrite go_bind_run; [|reflexivity].
      erewrite go_bind_run; [|unfold go_wrap, go_map_err; rewrite Hr; reflexivity].
      rewrite Hm, Epop, Hv. done.
    + exists m, key, addr. by rewrite Epop.
  - destruct (deletePop_signed_verifies _ _ _ _ _ _ (mkPopEnv kr i0 em) _ _ _ _ _ Hk Hp E)
      as (text & bz & sig & pk & P & Htext & HP & Hbz & Hv & ->).
    destruct (del_decodes (mkPoPExportDelete (MarshalHex pk) (EncodeToString key) (EncodeToString sig)
      (AccAddress_String addr))) as (m & Hm & Edel).
    { unfold del_json. cbn.
      repeat constructor; try apply base64_valid; apply ascii_valid; [by eapply hex_text|by eapply address_text]. }
    split_and!; [split; [done|simpl; by rewrite Ht2, Ht]|done|].
    unfold getInterpretedMessage in Htext. apply outcome_bind_ok in Htext as (msg & Hmsg%wrap_err_ok & Htext).
    case_bool_decide as Hmne; [done|]. apply wrap_err_ok in Htext.
    exists m, key, addr, msg, text, bz, sig. by rewrite Edel.
Qed.
End facts.

(** What the listing prints as JSON is JSON again. *)
Example printed_keys_parse :
  parse_document (printed_keys "JSON" [("a", "01"); ("b", "02")])
  = Some (JArray [JObject [(bytes_of_string "name", JString (bytes_of_string "a"));
                           (bytes_of_string "eots_pk", JString (bytes_of_string "01"))];
                  JObject [(bytes_of_string "name", JString (bytes_of_string "b"));
                           (bytes_of_string "eots_pk", JString (bytes_of_string "02"))]])
  ∧ parse_document (printed_keys "json" []) = Some JNull.
Proof. by vm_compute. Qed.

(** ** Witness *)

Module CmdFilesWitness.
Import CfgToy PopToy CliWitness.
#[local] Existing Instance pflag.

#[local] Instance toy_text : TextLaws.
Proof.
  split.
  - intros b pk Hb. change (toy_parse_pk b = Ok pk) in Hb. unfold toy_parse_pk in Hb.
    case_decide; [subst; by vm_compute|]. case_decide; [subst; by vm_compute|done].
  - intros key addr _. change (ascii_text ("bbn1" +:+ fmt_x addr) = true).
    rewrite ascii_app, hex_ascii. by vm_compute.
Qed.

Definition w_open (c : BoltBackendConfig) : M os MapDb.db := mret MapDb.empty.
Definition w_keyring (service backend dir : string) : outcome toy_keyring :=
  Ok {| tk_backend := backend; tk_names := ["baby"; "fp"] |}.
(** [--home /home/user/e --key-name fp --baby-key-name baby --message ... --output-file out/pop.json] *)
Definition w_given : list Flag :=
  [mkFlag FlagHome (VString "/home/user/e"); mkFlag keyNameFlag (VString "fp");
   mkFlag flagKeyNameBaby (VString "baby"); mkFlag flagMessage (VString "remove \u0031");
   mkFlag flagOutputFile (VString "out/pop.json")].
Definition w_flags : flags := mkFlags w_given (cmd_Flags (NewPopDeleteCmd "/home/user/.eotsd")).

Definition w_export := exportPop w_open w_keyring 0 "" w_flags LifecycleWitness.w_proc.
Definition w_delete := deletePop w_open w_keyring 0 "" w_flags LifecycleWitness.w_proc.

Lemma pop_files_witness :
  w_export = (Ok (ok_or "" w_export.1), w_export.2)
  ∧ validatePop ["out/pop.json"] (p_os w_export.2) = (Ok (), p_os w_export.2)
  ∧ w_delete = (Ok (ok_or "" w_delete.1), w_delete.2) ∧ opened_and_closed w_delete.2.
Proof.
  assert (E : w_export = (Ok (ok_or "" w_export.1), w_export.2)) by (apply run_ok; vm_eq).
  assert (E2 : w_delete = (Ok (ok_or "" w_delete.1), w_delete.2)) by (apply run_ok; vm_eq).
  split; [exact E|]. unfold w_export at 1 in E.
  destruct (pop_files w_open w_keyring 0 "" (w_flags : @FlagSet pflag) "out/pop.json" LifecycleWitness.w_proc
    (ok_or "" w_export.1) w_export.2 (conj eq_refl (conj eq_refl eq_refl)) eq_refl) as [Hx _];
    [discriminate|vm_eq|].
  split; [exact (proj1 (proj2 (proj2 (Hx E))))|]. split; [exact E2|]. unfold w_delete at 1 in E2.
  destruct (pop_files w_open w_keyring 0 "" (w_flags : @FlagSet pflag) "out/pop.json" LifecycleWitness.w_proc
    (ok_or "" w_delete.1) w_delete.2 (conj eq_refl (conj eq_refl eq_refl)) eq_refl) as [_ Hd];
    [discriminate|vm_eq|].
  exact (proj1 (Hd E2)).
Defined.
End CmdFilesWitness.
