(* ===== verification/CreateCmd.v ===== *)
(** * fpd create-finality-provider (src/finality-provider/cmd/fpd/daemon/create_fp.go)

    The whole command: the values from the flags ([CliFlags]) or from a JSON file
    ([Json]), their checks ([FpdCmd]), the key name of the configuration when none
    was given, and the request to the daemon ([AppRpc]). *)

From Stdlib Require Import NArith ZArith Lia.
From stdpp Require Import base gmap strings list relations.
From S2P Require Import Prelude Encoding Json Kvdb External Config Toy Paths ConfigFiles EotsStore EotsApi.
From S2P Require Import LocalManager EotsRpc PubRandStore FpStore ChainApi FinalitySubmitter RandCommitter Bootstrap.
From S2P Require Import ChainPoller BbnConsumer FpInstance ManualOps App AppRpc AppSteps AppHistory AppRequests FpdCmd.
From S2P Require Import Cli CliFlags.

(** ** The values *)

(** The names of the members of [internalFpJSON] *)
Definition fp_fields : list string :=
  ["keyName"; "chainID"; "passphrase"; "commissionRate"; "commissionMaxRate"; "commissionMaxChangeRate";
   "moniker"; "identity"; "website"; "securityContract"; "details"; "eotsPK"].
Definition fp_of (m : gmap string string) : internalFpJSON :=
  mkFpJSON (field m "keyName") (field m "chainID") (field m "passphrase") (field m "commissionRate")
    (field m "commissionMaxRate") (field m "commissionMaxChangeRate") (field m "moniker") (field m "identity")
    (field m "website") (field m "securityContract") (field m "details") (field m "eotsPK").

(** [ParseFinalityProviderJSON], up to the decoded file *)
Definition read_fpJSON `{JsonErrors} (path : string) : M os internalFpJSON :=
  contents ← go_wrap "failed to read file" (read_file path);
  m ← go_wrap "failed to unmarshal JSON" (go_lift (Unmarshal fp_fields contents));
  mret (fp_of m).

Section parsing.
Context `{Sdk} `{DescriptionLength} `{JsonErrors} `{Pflag}.
Implicit Types fs : FlagSet.

Definition ParseFinalityProviderJSON (path : string) : M os ParsedFinalityProvider :=
  fp ← read_fpJSON path; go_lift (parse_fpJSON fp).

Definition getDescriptionFromFlags fs : outcome Description :=
  monikerStr ← read_string fs MonikerFlag;
  identityStr ← read_string fs IdentityFlag;
  websiteStr ← read_string fs WebsiteFlag;
  securityContactStr ← read_string fs SecurityContactFlag;
  detailsStr ← read_string fs DetailsFlag;
  wrap_err "failed to ensure description length"
    (EnsureLength (mkDescription monikerStr identityStr websiteStr securityContactStr detailsStr)).

Definition ParseFinalityProviderFlags fs : outcome ParsedFinalityProvider :=
  commissionRateStr ← read_string fs CommissionRateFlag;
  commissionMaxRateStr ← read_string fs CommissionMaxRateFlag;
  commissionMaxChangeRateStr ← read_string fs CommissionMaxChangeRateFlag;
  commRates ← getCommissionRates commissionRateStr commissionMaxRateStr commissionMaxChangeRateStr;
  description ← wrap_err "invalid description" (getDescriptionFromFlags fs);
  keyName ← read_string fs KeyNameFlag;
  chainID ← read_string fs ChainIDFlag;
  _ ← required chainID "chain-id cannot be empty";
  eotsPkHex ← read_string fs FpEotsPkFlag;
  _ ← required eotsPkHex "eots-pk cannot be empty";
  Ok (mkParsedFp keyName chainID eotsPkHex description commRates).
End parsing.

(** ** The command *)

Section command.
Context `{Crypto} `{Sdk} `{BigEndian} `{Merkle} `{Retry} `{BabylonErrors} `{AccAddress} `{Grpc}.
Context `{DescriptionLength} `{JsonErrors} `{Pflag} `{NetParsers} `{Ini Config}.
Context {D E C Pl B K : Type} `{!KvBackend D} `{!Codec FinalityProvider} `{!Codec Description}.
Context `{!Codec ProofOfPossessionBTC}.
Context `{!EOTSManager E} `{!ConsumerController C} `{!BlockPoller Pl} `{!BabylonController B}.
Context `{!Keyring K}.
#[local] Abbreviation app := (FinalityProviderApp D E C Pl B K).

(** The key of the configuration in the home of the client context *)
Definition configured_key (homeDir : string) : M os string :=
  cfg ← go_wrap ("failed to load config from " +:+ CfgFile homeDir) (LoadConfig homeDir);
  match cfg_BabylonConfig cfg with
  | None => go_crash "nil pointer dereference"
  | Some bbn =>
      if bool_decide (bbn_cfg_Key bbn = "") then go_fail (EText "the key is neither in config nor provided")
      else mret (bbn_cfg_Key bbn)
  end.

(** [w] is the file system, which is only read.  A value that does not parse is
    a panic. *)
Definition runCommandCreateFP (now : Z) (homeDir : string) (fs : FlagSet) (w : os)
    : M app CreateFinalityProviderResult :=
  fpJSONPath ← go_lift (read_string fs FromFileFlag);
  match
    if negb (bool_decide (fpJSONPath = "")) then (ParseFinalityProviderJSON fpJSONPath w).1
    else ParseFinalityProviderFlags fs
  with
  | Err e => go_crash (Error e)
  | Crash x => go_crash x
  | Ok fp =>
      keyName ← (if bool_decide (pfp_KeyName fp = "") then go_lift (configured_key homeDir w).1
                 else mret (pfp_KeyName fp));
      _ ← go_lift (read_string fs FpdDaemonAddressFlag);
      go_wrap "failed to create finality provider"
        (clt_CreateFinalityProvider now keyName (pfp_ChainID fp) (pfp_EotsPK fp) (pfp_Description fp)
           (Some (pfp_CommissionRates fp)))
  end.
End command.

(** ** Lemmas *)

(** A file with the values of a finality provider, whatever it was written by *)
Definition fp_json (fp : internalFpJSON) : list (string * string) :=
  [("keyName", js_KeyName fp); ("chainID", js_ChainID fp); ("passphrase", js_Passphrase fp);
   ("commissionRate", js_CommissionRate fp); ("commissionMaxRate", js_CommissionMaxRate fp);
   ("commissionMaxChangeRate", js_CommissionMaxChangeRate fp); ("moniker", js_Moniker fp);
   ("identity", js_Identity fp); ("website", js_Website fp); ("securityContract", js_SecurityContract fp);
   ("details", js_Details fp); ("eotsPK", js_EotsPK fp)].
Lemma fp_file_read `{JsonErrors} path fp w :
  Forall valid_utf8 (fp_json fp).*2 → Stat w path = inr (NFile (MarshalIndent (fp_json fp))) →
  read_fpJSON path w = (Ok fp, w).
Proof.
  intros Hv Hs. destruct (decode_fields (fp_json fp)) as (m & Hm & Hf); [by vm_compute..|done|].
  change ((fp_json fp).*1) with fp_fields in Hm. unfold read_fpJSON.
  erewrite go_bind_run; [|unfold go_wrap, go_map_err, read_file; rewrite Hs; reflexivity].
  erewrite go_bind_run; [|unfold go_wrap, go_map_err, go_lift, Unmarshal; rewrite Hm; reflexivity].
  assert (fp_of m = fp) as ->; [|done]. destruct fp. unfold fp_of. fields_read Hf.
Qed.

(** The document in the help of the command to create a provider has a string
    that starts with two quotes, so that it does not decode. *)
Example help_document_refused :
  decode_struct fp_fields (doc "{'chainID': 'The identifier', 'moniker': ''A human-readable name', 'eotsPK': 'The hex string'}")
  = None.
Proof. by vm_compute. Qed.

(** The values of a file, as flags *)
Definition fp_values (fp : internalFpJSON) : CreateFlags :=
  mkCreateFlags (js_KeyName fp) (js_ChainID fp) (js_CommissionRate fp) (js_CommissionMaxRate fp)
    (js_CommissionMaxChangeRate fp) (js_Moniker fp) (js_Identity fp) (js_Website fp) (js_SecurityContract fp)
    (js_Details fp) (js_EotsPK fp).

Section facts.
Context `{CryptoLaws} `{SdkLaws} `{BigEndian} `{Merkle} `{Retry} `{BabylonErrors} `{AccAddress} `{Grpc}.
Context `{DescriptionLength} `{JsonErrors} `{CobraLaws} `{NetParsers} `{Ini Config}.
Context {D E C Pl B K : Type} `{!KvBackend D} `{!Codec FinalityProvider}.
Context `{!Codec Description} `{!CodecLaws Description} `{!Codec ProofOfPossessionBTC}.
Context `{!EOTSManager E} `{!ConsumerController C} `{!BlockPoller Pl} `{!BabylonController B}.
Context `{!Keyring K}.
#[local] Abbreviation app := (FinalityProviderApp D E C Pl B K).
Implicit Types (a : app) (fs : FlagSet) (v : CreateFlags).

(** What is registered: values that parse to these rates and this description *)
Record registers v (des : Description) (rate maxRate maxChange : LegacyDec) : Prop := {
  rg_chain : fl_ChainID v ≠ "";
  rg_hex : fl_FpEotsPk v ≠ "";
  rg_rate : LegacyNewDecFromStr (fl_CommissionRate v) = Ok rate;
  rg_max : LegacyNewDecFromStr (fl_CommissionMaxRate v) = Ok maxRate;
  rg_change : LegacyNewDecFromStr (fl_CommissionMaxChangeRate v) = Ok maxChange;
  rg_des : EnsureLength (mkDescription (fl_Moniker v) (fl_Identity v) (fl_Website v) (fl_SecurityContact v)
             (fl_Details v)) = Ok des
}.
Definition parsed v des rate maxRate maxChange : ParsedFinalityProvider :=
  mkParsedFp (fl_KeyName v) (fl_ChainID v) (fl_FpEotsPk v) des (NewCommissionRates rate maxRate maxChange).

(** The values come from the flags, or from a file that decodes and has all the
    required members. *)
Definition values_from fs (w : os) (path : string) v : Prop :=
  if bool_decide (path = "") then createFP_flags fs = Ok v
  else ∃ fp, (read_fpJSON path w).1 = Ok fp ∧ v = fp_values fp
    ∧ Forall (λ s, s ≠ "") [fl_Moniker v; fl_CommissionRate v; fl_CommissionMaxRate v; fl_CommissionMaxChangeRate v].

Lemma flags_parsed fs v des rate maxRate maxChange :
  createFP_flags fs = Ok v → registers v des rate maxRate maxChange →
  ParseFinalityProviderFlags fs = Ok (parsed v des rate maxRate maxChange).
Proof.
  intros HE [Hc Hh Hr Hm Hx Hd]. unfold createFP_flags in HE. unfold ParseFinalityProviderFlags, getDescriptionFromFlags.
  repeat match type of HE with
  | context [read_string fs ?n] => destruct (read_string fs n) as [?s|?|?]; [|discriminate HE..]; simpl in HE |- *
  end.
  injection HE as <-. simpl in *. unfold getCommissionRates, required. rewrite Hr, Hm, Hx. simpl.
  rewrite Hd. simpl. by rewrite !bool_decide_false by done.
Qed.

Lemma file_parsed path w fp v des rate maxRate maxChange :
  (read_fpJSON path w).1 = Ok fp → v = fp_values fp →
  Forall (λ s, s ≠ "") [fl_Moniker v; fl_CommissionRate v; fl_CommissionMaxRate v; fl_CommissionMaxChangeRate v] →
  registers v des rate maxRate maxChange →
  (ParseFinalityProviderJSON path w).1 = Ok (parsed v des rate maxRate maxChange).
Proof.
  intros HE -> Hne [Hc Hh Hr Hm Hx Hd]. rewrite !Forall_cons in Hne. destruct Hne as (N1 & N2 & N3 & N4 & _).
  unfold ParseFinalityProviderJSON. destruct (read_fpJSON path w) as [r w'] eqn:Er. simpl in HE. subst r.
  erewrite go_bind_run; [|exact Er]. simpl in *. unfold parse_fpJSON, required, getCommissionRates.
  rewrite !bool_decide_false by done. simpl. rewrite Hr, Hm, Hx. simpl. by rewrite Hd.
Qed.

Lemma values_parsed fs w path v des rate maxRate maxChange :
  values_from fs w path v → registers v des rate maxRate maxChange →
  (if negb (bool_decide (path = "")) then (ParseFinalityProviderJSON path w).1 else ParseFinalityProviderFlags fs)
  = Ok (parsed v des rate maxRate maxChange).
Proof.
  unfold values_from. case_bool_decide; simpl.
  - intros Hf Hreg. by apply flags_parsed.
  - intros (fp & Hfp & Hv & Hne) Hreg. by eapply file_parsed.
Qed.

(** The name of the key: the one that was given, or else that of the configuration *)
Definition key_name (homeDir : string) (w : os) v (key : string) : Prop :=
  if bool_decide (fl_KeyName v = "") then (configured_key homeDir w).1 = Ok key else key = fl_KeyName v.

End facts.

(** ** Witness *)

Module CreateWitness.
Import AppToy CfgToy CliWitness.
#[local] Existing Instance pflag.
#[local] Existing Instance cobra.
#[local] Existing Instance laws.
#[local] Instance w_length : DescriptionLength := λ d,
  if (70 <? String.length (Moniker d))%nat then Err (EText "invalid moniker length") else Ok d.
#[local] Instance w_grpc : Grpc := λ e, EWrap "rpc error: code = Unknown desc = " e "".
#[local] Instance w_json : JsonErrors := λ _, EText "invalid JSON".

Definition w_app := toy_app (toy_tc [] 0) (fp_initBuckets MapDb.empty).2.
Definition w_fp : internalFpJSON :=
  mkFpJSON "fp" "bbn-1" "" (toy_dec_string 1) (toy_dec_string 2) (toy_dec_string 3) "moniker" "" "" "" ""
    (toy_hex (toy_pk true)).
Definition w_des : Description := mkDescription "moniker" "" "" "" "".
Definition w_rates : CommissionRates := mkCommissionRates _ 1%N 2%N 3%N.
Definition w_files : os :=
  mkOs {[ ["tmp"] := NDir; ["tmp"; "fp.json"] := NFile (MarshalIndent (fp_json w_fp)) ]} ∅ "/" None (λ _, "").

(** [fpd create-finality-provider --from-file /tmp/fp.json], and the same with flags *)
Definition w_path : list Command := [CommandCreateFP "/home"; fpd_NewRootCmd "/home"].
Definition from_file : flags := mkFlags [mkFlag FromFileFlag (VString "/tmp/fp.json")] (visible w_path).
Definition from_flags : flags :=
  mkFlags [mkFlag ChainIDFlag (VString "bbn-1"); mkFlag KeyNameFlag (VString "fp");
           mkFlag MonikerFlag (VString "moniker"); mkFlag CommissionRateFlag (VString (toy_dec_string 1));
           mkFlag CommissionMaxRateFlag (VString (toy_dec_string 2));
           mkFlag CommissionMaxChangeRateFlag (VString (toy_dec_string 3));
           mkFlag FpEotsPkFlag (VString (toy_hex (toy_pk true)))] (visible w_path).

Definition w_direct := app_CreateFinalityProvider 7 "fp" "bbn-1" (Some (toy_pk true)) w_des w_rates w_app.

Lemma invoked_file : Invoked w_path from_file [].
Proof.
  split; [done|]. split; [apply (bool_decide_unpack _); by vm_compute|].
  split; [done|apply (bool_decide_unpack _); by vm_compute].
Qed.
Lemma invoked_flags : Invoked w_path from_flags [].
Proof.
  split; [done|]. split; [apply (bool_decide_unpack _); by vm_compute|].
  split; [done|apply (bool_decide_unpack _); by vm_compute].
Qed.
Lemma w_registers : registers (fp_values w_fp) w_des 1%N 2%N 3%N.
Proof. split; [done|by vm_compute|vm_eq..]. Qed.

End CreateWitness.
