(* ===== verification/VoteSafety.v ===== *)
(** * No conflicting votes reach the chain

    The end-to-end safety of the daemon.  The chain connection is instrumented
    with the list of the vote submissions that were sent through it, whatever
    the chain answered.  Over any history of the application, with restarts of
    the process on the same database and votes by hand through the protected
    signer, every vote that was sent is bound to its height in the EOTS manager, for the key and the chain of the stored record;
    the slashing protection of the manager then excludes two different votes of
    one provider for one height. *)

From Stdlib Require Import NArith ZArith Lia.
From stdpp Require Import base gmap strings list relations.
From S2P Require Import Prelude Kvdb External Config Toy EotsStore EotsApi LocalManager PubRandStore.
From S2P Require Import FpStore ChainApi FinalitySubmitter RandCommitter Bootstrap ChainPoller FpInstance ManualOps App AppRpc AppSteps AppHistory.

(** ** The instrumented connection *)

Section logged.
Context `{Crypto} {C : Type} `{!ConsumerController C}.
Local Abbreviation con := (C * list SubmitBatchFinalitySigsRequest)%type.

Definition unlogged {A} (m : M C A) : M con A := zoom fst (λ c p, (c, p.2)) m.

#[export] Instance logged_controller : ConsumerController con := {|
  cc_CommitPubRandList req := unlogged (cc_CommitPubRandList req);
  cc_QueryLastPubRandCommit pk := unlogged (cc_QueryLastPubRandCommit pk);
  cc_QueryPubRandCommitList pk h := unlogged (cc_QueryPubRandCommitList pk h);
  cc_QueryLatestFinalizedBlock := unlogged cc_QueryLatestFinalizedBlock;
  cc_QueryBlock h := unlogged (cc_QueryBlock h);
  cc_QueryBlocks req := unlogged (cc_QueryBlocks req);
  cc_QueryLatestBlock := unlogged cc_QueryLatestBlock;
  cc_QueryFinalityActivationBlockHeight := unlogged cc_QueryFinalityActivationBlockHeight;
  cc_SubmitBatchFinalitySigs req := λ p,
    let '(r, c) := cc_SubmitBatchFinalitySigs req p.1 in (r, (c, p.2 ++ [req]));
  cc_UnjailFinalityProvider pk := unlogged (cc_UnjailFinalityProvider pk);
  cc_QueryFinalityProviderHasPower pk h := unlogged (cc_QueryFinalityProviderHasPower pk h);
  cc_QueryFinalityProviderStatus pk := unlogged (cc_QueryFinalityProviderStatus pk);
  cc_QueryFinalityProviderHighestVotedHeight pk :=
    unlogged (cc_QueryFinalityProviderHighestVotedHeight pk);
|}.

Definition same_log (p p' : con) : Prop := p'.2 = p.2.
#[export] Instance same_log_preorder : PreOrder same_log.
Proof. split; [done|]. intros p1 p2 p3 H12 H23. unfold same_log in *. congruence. Qed.
Lemma unlogged_same {A} (m : M C A) : preserves same_log (unlogged m).
Proof. by apply preserves_zoom_any. Qed.
End logged.

Section safety.
Context `{CryptoLaws} `{SdkLaws} `{BigEndianLaws} `{Merkle} `{RetryLaws} `{BabylonErrors} `{AccAddress}.
Context `{!SlashingEvidence} `{ServiceDescription}.
Context {D E C Pl B K : Type} `{!KvBackend D} `{!KvLaws D}.
Context `{!Codec FinalityProvider} `{!CodecLaws FinalityProvider}.
Context `{!Codec Description} `{!CodecLaws Description} `{!Codec ProofOfPossessionBTC}.
Context `{!EOTSManager E} `{!EOTSProtection E} `{!ConsumerController C} `{!BlockPoller Pl}.
Context `{!BabylonController B} `{!Keyring K}.
Context (cfg : Config) (pollerCfg : ChainPollerConfig).
#[local] Abbreviation con := (C * list SubmitBatchFinalitySigsRequest)%type.
#[local] Abbreviation fpi := (FinalityProviderInstance D E con Pl).
#[local] Abbreviation app := (FinalityProviderApp D E con Pl B K).

(** What is bound stays bound. *)
Definition em_grows (e e' : E) : Prop :=
  ∀ pk c h m s, em_signed e pk c h m s → em_signed e' pk c h m s.
#[export] Instance em_grows_preorder : PreOrder em_grows.
Proof. split; [by intros e ?|]. intros e1 e2 e3 H12 H23 pk c h m s Hs. by apply H23, H12. Qed.

Lemma grows_rand pk c h n o : preserves em_grows (em_CreateRandomnessPairList (E:=E) pk c h n o).
Proof. intros e r e' HE ?????. by eapply em_CreateRandomnessPairList_grow. Qed.
Lemma grows_schnorr pk m : preserves em_grows (em_SignSchnorrSig (E:=E) pk m).
Proof. intros e r e' HE ?????. by eapply em_SignSchnorrSig_grow. Qed.
Lemma grows_sign pk c m h : preserves em_grows (em_SignEOTS (E:=E) pk c m h).
Proof. intros e r e' HE ?????. by eapply em_SignEOTS_grow. Qed.
Lemma grows_batch req : preserves em_grows (em_SignBatchEOTS (E:=E) req).
Proof. intros e r e' HE ?????. by eapply em_SignBatchEOTS_grow. Qed.

(** ** The invariant *)

(** The votes of a submission are bound to their heights for a chain. *)
Definition votes_bound (e : E) (chain : bytes) (req : SubmitBatchFinalitySigsRequest) : Prop :=
  Forall2 (λ b s, em_signed e (BIP340FromBTCPK (sub_FpPk req)) chain (blk_height b) (MsgToSign b "") s)
    (sub_Blocks req) (sub_Sigs req).

Definition stored_chain (d : D) (pk : PublicKey) (chain : bytes) : Prop :=
  ∃ fp, stored d (SerializePubKey pk) fp ∧ bytes_of_string (fp_ChainId fp) = chain.

(** [own]: the key and the chain of the instance. *)
Definition vote_inv (d : D) (e : E) (log : list SubmitBatchFinalitySigsRequest)
    (own : option (PublicKey * bytes)) : Prop :=
  store_wf d
  ∧ (∀ pk c, own = Some (pk, c) → stored_chain d pk c)
  ∧ Forall (λ req, ∃ c, stored_chain d (sub_FpPk req) c ∧ votes_bound e c req) log.

Lemma stored_chain_le d d' pk c :
  store_le d d' → stored_chain d pk c → stored_chain d' pk c.
Proof.
  intros Hle (fp & Hst & Hc). destruct (Hle _ _ Hst) as (fp' & Hst' & _ & Hc' & _).
  exists fp'. split; [done|]. by rewrite Hc'.
Qed.

Lemma vote_inv_mono d e log own d' e' :
  wf_le d d' → em_grows e e' → vote_inv d e log own → vote_inv d' e' log own.
Proof.
  intros Hd He (Hwf & Hown & Hlog). destruct (Hd Hwf) as [Hwf' Hle]. split_and!; [done| |].
  - intros pk c Ho. by eapply stored_chain_le, Hown.
  - eapply Forall_impl; [exact Hlog|]. intros req (c & Hc & Hv). exists c.
    split; [by eapply stored_chain_le|]. eapply Forall2_impl; [exact Hv|]. intros b s. by apply He.
Qed.

(** A submission of the instance, bound in the manager, may be sent. *)
Lemma vote_inv_send d e log pk c req :
  vote_inv d e log (Some (pk, c)) → sub_FpPk req = pk → votes_bound e c req →
  vote_inv d e (log ++ [req]) (Some (pk, c)).
Proof.
  intros (Hwf & Hown & Hlog) Hpk Hv. split_and!; [done|done|]. apply Forall_app. split; [done|].
  apply Forall_singleton. exists c. split; [|done]. rewrite Hpk. by apply Hown.
Qed.

(** *** The submitter *)

#[local] Abbreviation dsT := (DefaultFinalitySubmitter (FpState D) E con D).
Definition st_own (f : FpState D) : option (PublicKey * bytes) := Some (GetBtcPk f, GetChainID f).
Definition ds_inv (d : dsT) : Prop :=
  vote_inv (fps_s (ds_State d)) (ds_Em d) (ds_ConsumerCtrl d).2 (st_own (ds_State d)).
Definition ds_keeps (d d' : dsT) : Prop := ds_inv d → ds_inv d'.
#[export] Instance ds_keeps_preorder : PreOrder ds_keeps.
Proof. split; [by intros d ?|]. intros d1 d2 d3 H12 H23 ?. by apply H23, H12. Qed.

Lemma ds_keeps_State {A} (m : M (FpState D) A) :
  preserves st_le m → preserves st_binding m → preserves ds_keeps (on_State m).
Proof.
  intros Hm Hb d r d'. unfold on_State. destruct (m _) as [r1 f] eqn:Em. intros [= _ <-].
  destruct (Hb _ _ _ Em) as [Hp Hc]. unfold ds_keeps, ds_inv, st_own. simpl. rewrite Hp, Hc.
  by apply vote_inv_mono; [apply (Hm _ _ _ Em)|].
Qed.
Lemma ds_keeps_Em {A} (m : M E A) : preserves em_grows m → preserves ds_keeps (on_Em m).
Proof.
  intros Hm d r d'. unfold on_Em. destruct (m _) as [r1 e] eqn:Em. intros [= _ <-].
  unfold ds_keeps, ds_inv. apply vote_inv_mono; [done|]. by apply (Hm _ _ _ Em).
Qed.
Lemma ds_keeps_Ctrl {A} (m : M con A) : preserves same_log m → preserves ds_keeps (on_Ctrl m).
Proof.
  intros Hm d r d'. unfold on_Ctrl. destruct (m _) as [r1 c] eqn:Em. intros [= _ <-].
  unfold ds_keeps, ds_inv. simpl. by rewrite (Hm _ _ _ Em).
Qed.
Lemma ds_keeps_Proofs {A} (m : M D A) : preserves ds_keeps (on_Proofs m).
Proof. intros d r d'. unfold on_Proofs. destruct (m _) as [r1 p]. intros [= _ <-] Hinv. exact Hinv. Qed.
Lemma status_binding s : preserves st_binding (SetStatus (D:=D) s).
Proof.
  intros f r f' HE. by pose proof (st_status_set (F:=FpState D) s f r f' HE) as (_ & _ & Hp & Hc).
Qed.
Lemma height_binding h : preserves st_binding (SetLastVotedHeight (D:=D) h).
Proof.
  intros f r f' HE. by pose proof (st_height_set (F:=FpState D) h f r f' HE) as (_ & _ & Hp & Hc).
Qed.

(** A submission that was built is bound, so that sending it keeps the
    invariant. *)
Lemma Submit_keeps getter scfg fuel timer bs (d d' : dsT) r :
  SubmitBatchFinalitySignatures getter scfg fuel timer bs d = Some (r, d') → ds_keeps d d'.
Proof.
  apply frame_Submit; [apply _|..].
  - intros s. apply ds_keeps_State; [apply SetStatus_st_le|apply status_binding].
  - intros h. apply ds_keeps_State; [apply SetLastVotedHeight_st_le|apply height_binding].
  - intros pk c h n. apply ds_keeps_Em, grows_rand.
  - intros req. apply ds_keeps_Em, grows_batch.
  - intros h n. apply ds_keeps_Proofs.
  - intros pk h. apply ds_keeps_Ctrl, unlogged_same.
  - intros h. apply ds_keeps_Ctrl, unlogged_same.
  - intros bs' d0 req d1 r1 d2 Hb. pose proof (build_State _ _ _ _ _ Hb) as Hst.
    apply build_protected in Hb as (_ & _ & Hpk & Hv). unfold same_State, ds_GetBtcPkBIP340 in *.
    rewrite <- Hst in Hpk, Hv. unfold on_Ctrl. simpl.
    destruct (cc_SubmitBatchFinalitySigs req _) as [r2 c]. intros [= _ <-] Hinv.
    apply vote_inv_send; [exact Hinv|done|]. unfold votes_bound. by rewrite Hpk.
Qed.

(** *** The instance *)

Definition fi_inv (fi : fpi) : Prop := ds_inv (fi_ds fi).
Definition fi_keeps (fi fi' : fpi) : Prop := fi_inv fi → fi_inv fi'.
#[export] Instance fi_keeps_preorder : PreOrder fi_keeps.
Proof. split; [by intros d ?|]. intros d1 d2 d3 H12 H23 ?. by apply H23, H12. Qed.

Lemma fi_keeps_State {A} (m : M (FpState D) A) :
  preserves st_le m → preserves st_binding m → preserves fi_keeps (on_fpState m).
Proof.
  intros Hm Hb fi r fi'. unfold on_fpState. destruct (m _) as [r1 f] eqn:Em. intros [= _ <-].
  destruct (Hb _ _ _ Em) as [Hp Hc]. unfold fi_keeps, fi_inv, ds_inv, st_own. simpl. rewrite Hp, Hc.
  by apply vote_inv_mono; [apply (Hm _ _ _ Em)|].
Qed.
Lemma fi_keeps_status s : preserves fi_keeps (on_fpState (SetStatus s)).
Proof. apply fi_keeps_State; [apply SetStatus_st_le|apply status_binding]. Qed.
Lemma fi_keeps_height h : preserves fi_keeps (on_fpState (SetLastVotedHeight h)).
Proof. apply fi_keeps_State; [apply SetLastVotedHeight_st_le|apply height_binding]. Qed.
Lemma fi_keeps_get pk : preserves fi_keeps (on_fpState (on_s (GetFinalityProvider pk))).
Proof.
  apply fi_keeps_State; [apply on_s_get_st|]. intros f r f'. unfold on_s.
  destruct (GetFinalityProvider _ _). by intros [= _ <-].
Qed.
Lemma fi_keeps_poller A (m : M Pl A) : preserves fi_keeps (on_poller m).
Proof. intros fi r fi'. unfold on_poller. destruct (m _). intros [= _ <-] Hinv. exact Hinv. Qed.
Lemma fi_keeps_report ready e : preserves fi_keeps (reportCriticalErr ready e).
Proof. intros fi r fi' [= _ <-] Hinv. destruct ready; exact Hinv. Qed.
Lemma fi_keeps_start pk h :
  preserves fi_keeps (on_consumerCon (DetermineStartHeight pollerCfg (Some pk) (Some (Ok h)))).
Proof.
  intros fi r fi'. unfold on_consumerCon. destruct (DetermineStartHeight _ _ _ _) as [r1 c] eqn:Em.
  intros [= _ <-]. apply (frame_DetermineStartHeight _ same_log) in Em; [|intros; apply unlogged_same..].
  unfold fi_keeps, fi_inv, ds_inv. simpl. by rewrite Em.
Qed.

Definition rc_keeps (rc rc' : DefaultRandomnessCommitter D con E) : Prop :=
  em_grows (rc_Em rc) (rc_Em rc') ∧ same_log (rc_ConsumerCon rc) (rc_ConsumerCon rc').
#[export] Instance rc_keeps_preorder : PreOrder rc_keeps.
Proof. split; [done|]. intros ??? [] []. by split; etrans. Qed.
Lemma rc_keeps_Con {A} (m : M con A) : preserves same_log m → preserves rc_keeps (on_Con m).
Proof.
  intros Hm rc r rc'. unfold on_Con. destruct (m _) eqn:Em. intros [= _ <-].
  split; [done|]. by apply (Hm _ _ _ Em).
Qed.
Lemma rc_keeps_Em {A} (m : M E A) : preserves em_grows m → preserves rc_keeps (on_rcEm m).
Proof.
  intros Hm rc r rc'. unfold on_rcEm. destruct (m _) eqn:Em. intros [= _ <-].
  split; [|done]. by apply (Hm _ _ _ Em).
Qed.
Lemma rc_keeps_PubRand {A} (m : M D A) : preserves rc_keeps (on_PubRand m).
Proof. intros rc r rc'. unfold on_PubRand. destruct (m _). by intros [= _ <-]. Qed.

Lemma fi_keeps_rc {A} (m : M (DefaultRandomnessCommitter D con E) A) :
  preserves rc_keeps m → preserves fi_keeps (on_rndCommitter m).
Proof.
  intros Hm fi r fi'. unfold on_rndCommitter. destruct (m _) as [r1 rc] eqn:Em. intros [= _ <-].
  destruct (Hm _ _ _ Em) as [He Hl]. unfold fi_keeps, fi_inv, ds_inv. simpl. rewrite Hl.
  by apply vote_inv_mono.
Qed.
Lemma fi_keeps_should : preserves fi_keeps (on_rndCommitter ShouldCommit).
Proof.
  apply fi_keeps_rc, frame_ShouldCommit; [apply _|intros; apply rc_keeps_Con, unlogged_same..].
Qed.
Lemma fi_keeps_commit h : preserves fi_keeps (on_rndCommitter (Commit h)).
Proof.
  apply fi_keeps_rc, frame_Commit; [apply _|intros..].
  - apply rc_keeps_Con, unlogged_same.
  - apply rc_keeps_Em, grows_rand.
  - apply rc_keeps_Em, grows_schnorr.
  - apply rc_keeps_PubRand.
Qed.
Lemma fi_keeps_submit fuel timer bs (fi : fpi) r d :
  SubmitBatchFinalitySignatures (proofListGetter fi) (submitterCfg cfg) fuel timer bs (fi_ds fi)
    = Some (r, d) → fi_keeps fi (fi_with_ds fi d).
Proof. intros HE Hinv. by apply (Submit_keeps _ _ _ _ _ _ _ _ HE) in Hinv. Qed.
#[local] Hint Resolve fi_keeps_status fi_keeps_height fi_keeps_get fi_keeps_poller fi_keeps_report
  fi_keeps_start fi_keeps_should fi_keeps_commit : preserves.

(** A vote by hand, of an instance whose key is the one of its record. *)
Definition key_ok (fi : fpi) : Prop := fi_btcPk fi = BIP340FromBTCPK (GetBtcPk (fi_fpState fi)).
Definition vote_keeps (fi fi' : fpi) : Prop := key_ok fi → fi_inv fi → key_ok fi' ∧ fi_inv fi'.
#[export] Instance vote_keeps_preorder : PreOrder vote_keeps.
Proof.
  split; [done|]. intros f1 f2 f3 H12 H23 K1 I1. destruct (H12 K1 I1) as [K2 I2]. by apply H23.
Qed.
Lemma vote_keeps_em {A} (m : M E A) : preserves em_grows m → preserves vote_keeps (on_fi_em m).
Proof.
  apply preserves_zoom. intros fi e He Hk Hinv. split; [exact Hk|].
  apply (vote_inv_mono (fps_s (fi_fpState fi)) (fi_em fi)); [done|exact He|exact Hinv].
Qed.
Lemma vote_keeps_proofs {A} (m : M D A) : preserves vote_keeps (on_pubRandState m).
Proof. apply preserves_zoom_any. intros fi d Hk Hinv. by split. Qed.

Lemma sign_bound b (fi : fpi) sig fi' :
  fi_SignFinalitySig b fi = (Ok sig, fi') →
  fi_btcPk fi' = fi_btcPk fi ∧ em_signed (fi_em fi') (fi_btcPk fi') (GetChainID (fi_fpState fi'))
    (blk_height b) (MsgToSign b "") (ToModNScalar sig).
Proof.
  unfold fi_SignFinalitySig. intros HE. inv_bind HE. inv_bind HE. injection HE as <- <-.
  apply zoom_inv in E0 as (e & Hs & ->). split; [done|]. rewrite eots_sig_roundtrip.
  by apply em_SignEOTS_signed in Hs.
Qed.

Lemma vote_keeps_send p b prs proofs sig (fi : fpi) r fi' :
  em_signed (fi_em fi) (fi_btcPk fi) (GetChainID (fi_fpState fi)) (blk_height b) (MsgToSign b "") sig →
  submitAndExtract p (mkSubmitReq _ (GetBtcPk (fi_fpState fi)) [b] prs proofs [sig]) fi = (r, fi') →
  vote_keeps fi fi'.
Proof.
  intros Hs HE Hk Hinv. revert HE. unfold submitAndExtract.
  assert (∀ f r1 f1, on_consumerCon (cc_SubmitBatchFinalitySigs
            (mkSubmitReq _ (GetBtcPk (fi_fpState fi)) [b] prs proofs [sig])) fi = (r1, f1) → f = f1 →
          key_ok f ∧ fi_inv f) as Hsend.
  { intros f r1 f1. unfold on_consumerCon. simpl.
    destruct (cc_SubmitBatchFinalitySigs _ _) as [r2 c]. intros [= _ <-] ->. split; [exact Hk|].
    apply vote_inv_send; [exact Hinv|done|]. unfold key_ok in Hk. rewrite Hk in Hs.
    by constructor. }
  unfold mbind, M_bind, go_bind, go_wrap, go_map_err.
  destruct (on_consumerCon _ fi) as [r1 f1] eqn:Ec. intros HE. apply (Hsend _ r1 f1); [done|].
  revert HE. destruct r1 as [[res|]|e|w]; simpl; [|by intros [= _ <-]..].
  case_bool_decide; [by intros [= _ <-]|]. unfold go_lift. by destruct (extractKey _); intros [= _ <-].
Qed.

Lemma vote_keeps_manual b : preserves vote_keeps (SubmitFinalitySignatureAndExtractPrivKey b true).
Proof.
  unfold SubmitFinalitySignatureAndExtractPrivKey. apply preserves_bind; [apply _| |intros [|pr prs]].
  - unfold fi_GetPubRandList. apply preserves_wrap, preserves_bind; [apply _|apply preserves_get, _|intros fi].
    apply preserves_wrap, vote_keeps_em, grows_rand.
  - apply preserves_crash, _.
  - apply preserves_bind; [apply _| |intros proof].
    + unfold getProofOf. apply preserves_bind; [apply _|apply preserves_get, _|intros fi].
      apply preserves_wrap, vote_keeps_proofs.
    + apply preserves_bind_run; [apply _| |intros fi sig fi1 r fi' [_ Hs]%sign_bound HE].
      * unfold eotsSigner, fi_SignFinalitySig. apply preserves_bind; [apply _|apply preserves_get, _|intros fi].
        apply preserves_bind; [apply _| |intros s; apply preserves_ret, _].
        apply preserves_map_err, vote_keeps_em, grows_sign.
      * by apply (vote_keeps_send _ _ _ _ _ _ _ _ Hs HE).
Qed.

(** *** The application *)

Context (em_env : relation E) (con_env : relation con).
Context (Hem_env : ∀ e e', em_env e e' → em_grows e e').
Context (Hcon_env : ∀ c c', con_env c c' → same_log c c').
Implicit Types a : app.

Definition app_own a : option (PublicKey * bytes) :=
  (λ o, (sfp_BtcPk (own_sfp o), own_chain o)) <$> app_fpIns a.
Definition app_inv a : Prop :=
  vote_inv (app_fps a) (app_eotsManager a) (app_consumerCon a).2 (app_own a).
Definition app_keeps a a' : Prop := app_inv a → app_inv a'.
#[export] Instance app_keeps_preorder : PreOrder app_keeps.
Proof. split; [by intros d ?|]. intros d1 d2 d3 H12 H23 ?. by apply H23, H12. Qed.

Lemma app_mono a a' :
  wf_le (app_fps a) (app_fps a') → em_grows (app_eotsManager a) (app_eotsManager a') →
  same_log (app_consumerCon a) (app_consumerCon a') → app_own a' = app_own a → app_keeps a a'.
Proof. intros Hd He Hl Ho. unfold app_keeps, app_inv. rewrite Ho, Hl. by apply vote_inv_mono. Qed.

Lemma keeps_on_fps {A} (m : M D A) : preserves wf_le m → preserves app_keeps (on_fps m).
Proof. apply preserves_zoom. intros a d Hd. by apply app_mono. Qed.
Lemma keeps_on_em {A} (m : M E A) : preserves em_grows m → preserves app_keeps (on_em m).
Proof. apply preserves_zoom. intros a d Hd. by apply app_mono. Qed.
Lemma keeps_on_con {A} (m : M con A) : preserves same_log m → preserves app_keeps (on_con m).
Proof. apply preserves_zoom. intros a d Hd. by apply app_mono. Qed.
Lemma keeps_ins a o fi' :
  app_fpIns a = Some o → fi_keeps (ins_view a o) fi' → app_keeps a (app_with_fi fi' a).
Proof.
  intros Ho Hk Hinv. apply Hk. unfold fi_inv, ds_inv. unfold app_inv, app_own in Hinv.
  by rewrite Ho in Hinv.
Qed.
Lemma keeps_on_ins {A} (m : M fpi A) : preserves fi_keeps m → preserves app_keeps (on_ins m).
Proof. apply on_ins_preserves; [apply _|apply keeps_ins]. Qed.

(** A new instance takes its key and chain from the stored record. *)
Definition dp_same (dp dp' : instance_deps (D:=D) (E:=E) (C:=con) (Pl:=Pl)) : Prop :=
  dp_s dp' = dp_s dp ∧ rc_Em (dp_rndCommitter dp') = rc_Em (dp_rndCommitter dp)
  ∧ rc_ConsumerCon (dp_rndCommitter dp') = rc_ConsumerCon (dp_rndCommitter dp).
#[export] Instance dp_same_preorder : PreOrder dp_same.
Proof. split; [done|]. intros ??? (?&?&?) (?&?&?). unfold dp_same. split_and!; congruence. Qed.
Lemma dp_same_get pk : preserves dp_same (on_dp_s (GetFinalityProvider pk)).
Proof.
  intros dp r dp'. unfold on_dp_s. destruct (GetFinalityProvider _ _) as [r1 d] eqn:Em.
  intros [= _ <-]. unfold GetFinalityProvider in Em.
  by assert (dp_s dp = d) as <- by exact (preserves_wrap eq _ _ (preserves_view eq _) _ _ _ Em).
Qed.
Lemma dp_same_init p c : preserves dp_same (on_dp_rc (Init p c)).
Proof.
  intros dp r dp'. unfold on_dp_rc, Init. destruct p; [|by intros [= _ <-]].
  destruct (_ =? 0)%nat; [by intros [= _ <-]|]. destruct (_ && _); by intros [= _ <-].
Qed.
Lemma dp_same_state : preserves dp_same InitState.
Proof. intros dp r dp'. unfold InitState. by destruct (dp_stateSet dp); intros [= _ <-]. Qed.
#[local] Hint Resolve dp_same_get dp_same_init dp_same_state : preserves.

Lemma new_same pk : preserves dp_same (NewFinalityProviderInstance pk).
Proof. unfold NewFinalityProviderInstance, newFinalityProviderInstanceFromStore. solve_preserves. Qed.

Lemma new_stored pk (dp dp' : instance_deps (D:=D) (E:=E) (C:=con) (Pl:=Pl)) fi :
  store_wf (dp_s dp) → NewFinalityProviderInstance pk dp = (Ok fi, dp') →
  stored_chain (dp_s dp) (GetBtcPk (fi_fpState fi)) (GetChainID (fi_fpState fi)).
Proof.
  intros Hwf. unfold NewFinalityProviderInstance, newFinalityProviderInstanceFromStore. intros HE.
  inv_bind HE. inv_bind HE. unfold on_dp_s in E1. destruct (GetFinalityProvider _ _) as [r d] eqn:Eg.
  injection E1 as -> <-. apply GetFinalityProvider_ok in Eg as (-> & fp & Hst & Hp).
  case_bool_decide; [done|]. inv_bind HE. inv_bind HE. inv_bind HE. injection HE as <- _.
  destruct (proto_status _ _ Hp) as (_ & _ & Hc & Hpk). rewrite (Hwf _ _ Hst) in Hpk.
  apply schnorr_pk_parsed in Hpk. exists fp.
  unfold GetBtcPk, GetChainID. simpl. by rewrite Hpk, Hc.
Qed.

Lemma keeps_new p pk a r a' : app_fpIns a = None →
  (fpIns ← go_wrap p (on_deps (NewFinalityProviderInstance pk)); set_fpIns fpIns) a = (r, a') →
  app_keeps a a'.
Proof.
  intros Hn. unfold mbind, M_bind, go_bind, go_wrap, go_map_err, on_deps, zoom.
  destruct (NewFinalityProviderInstance pk (app_deps a)) as [rn dp] eqn:En.
  pose proof (new_same _ _ _ _ En) as (Hd & He & Hc). simpl in *.
  assert (∀ own, vote_inv (app_fps a) (app_eotsManager a) (app_consumerCon a).2 own →
    vote_inv (dp_s dp) (rc_Em (dp_rndCommitter dp)) (rc_ConsumerCon (dp_rndCommitter dp)).2 own)
    as Hsame by (intros own Hi; by rewrite Hd, He, Hc).
  destruct rn as [fi|e|w]; simpl.
  - intros [= _ <-] (Hwf & _ & Hlog). apply (Hsame (st_own (fi_fpState fi))). split_and!; [done| |done].
    intros pk' c [= <- <-]. exact (new_stored _ (app_deps a) _ _ Hwf En).
  - intros [= _ <-] Hinv. by apply Hsame.
  - intros [= _ <-] Hinv. by apply Hsame.
Qed.

#[export] Instance app_keeps_frame : AppFrame cfg pollerCfg em_env con_env app_keeps.
Proof.
  split; intros.
  all: try (by apply preserves_zoom_any; intros; apply app_mono).
  all: try (by apply keeps_on_fps; eauto using wf_le_get, wf_le_all, wf_le_status, wf_le_must,
    wf_le_create, wf_le_des, wf_le_height).
  all: try (by apply keeps_on_con, unlogged_same).
  all: try (by apply app_mono; auto).
  all: try (apply keeps_on_ins).
  - intros a r a'. unfold Address. destruct (kr_Key _ _ _). intros [= _ <-]. by apply app_mono.
  - apply keeps_on_em, grows_schnorr.
  - by eapply keeps_new.
  - apply frame_Start; eauto with preserves; [apply _|]. intros fi st q Hinv. exact Hinv.
  - apply frame_Stop; eauto with preserves; [apply _|]. intros fi st q Hinv. exact Hinv.
  - apply frame_fi_mustSetStatus; eauto with preserves; apply _.
  - apply frame_randomness; eauto with preserves; apply _.
  - eapply keeps_ins; [done|].
    by eapply frame_process; eauto using fi_keeps_submit with preserves; apply _.
  - apply app_mono; [done..|]. unfold app_own.
    match goal with Ho : app_fpIns _ = _ |- _ => by rewrite Ho end.
  - intros (Hwf & _ & Hlog). by split_and!.
Qed.

(** With the binding of the instance, votes by hand keep the invariant as well. *)
Definition safe_keeps a a' : Prop := bind_inv a → app_inv a → bind_inv a' ∧ app_inv a'.
#[export] Instance safe_keeps_preorder : PreOrder safe_keeps.
Proof.
  split; [done|]. intros a1 a2 a3 H12 H23 B1 I1. destruct (H12 B1 I1) as [B2 I2]. by apply H23.
Qed.
#[export] Instance safe_keeps_frame : AppFrame cfg pollerCfg em_env con_env safe_keeps.
Proof.
  apply (app_frame_both _ _ _ _ bind_le app_keeps); [apply _..|].
  intros a a' HB HI Ba Ia. split; [by apply HB|by apply HI].
Qed.
#[export] Instance safe_keeps_vote : AppVoteFrame safe_keeps.
Proof.
  intros b a r a' HE Ba Ia. split; [by apply (bind_le_vote b a r a' HE)|].
  revert HE. unfold on_ins. destruct (app_fpIns a) as [o|] eqn:Eo; [|by intros [= _ <-]].
  intros (fi' & Em & ->)%zoom_inv. destruct (Ba o Eo) as (_ & _ & Hk).
  apply (vote_keeps_manual b _ _ _ Em); [by symmetry|].
  unfold app_inv, app_own in Ia. by rewrite Eo in Ia.
Qed.
End safety.

(** ** The property *)

Section votes.
Context `{CryptoLaws} `{SdkLaws} `{BigEndianLaws} `{Merkle} `{RetryLaws} `{BabylonErrors} `{AccAddress}.
Context `{!SlashingEvidence} `{ServiceDescription}.
Context {D E C Pl B K : Type} `{!KvBackend D} `{!KvLaws D}.
Context `{!Codec FinalityProvider} `{!CodecLaws FinalityProvider}.
Context `{!Codec Description} `{!CodecLaws Description} `{!Codec ProofOfPossessionBTC}.
Context `{!EOTSManager E} `{!EOTSProtection E} `{!ConsumerController C} `{!BlockPoller Pl}.
Context `{!BabylonController B} `{!Keyring K}.
#[local] Abbreviation con := (C * list SubmitBatchFinalitySigsRequest)%type.
#[local] Abbreviation app := (FinalityProviderApp D E con Pl B K).
Implicit Types a : app.

(** The daemon runs under some configuration, next to other users of the EOTS
    manager that do not undo its records, or is restarted on its database with
    new connections and another configuration. *)
Inductive daemon_step : app → app → Prop :=
| ds_run cfg pollerCfg a a' :
    app_step cfg pollerCfg em_grows same_log a a' → daemon_step a a'
| ds_restart cc con poller rcCfg kr stdin a a' :
    con.2 = (app_consumerCon a).2 →
    NewFinalityProviderApp cc con (app_eotsManager a) poller rcCfg kr stdin (app_fps a)
      (app_pubRandStore a) = Ok a' →
    daemon_step a a'.

(** The votes that were sent: provider, block and signature. *)
Definition sent_votes a : list (PublicKey * BlockInfo * ModNScalar) :=
  (app_consumerCon a).2 ≫= λ req,
    (λ '(b, s), (sub_FpPk req, b, s)) <$> zip (sub_Blocks req) (sub_Sigs req).

Lemma initBuckets_wf_le : preserves wf_le (fp_initBuckets (D:=D)).
Proof.
  unfold fp_initBuckets. apply preserves_wrap. intros d r d' HE Hwf.
  destruct r as [[]|e|w]; [|by apply kv_update_not_ok in HE as ->..].
  apply kv_update_ok in HE. apply outcome_bind_ok in HE as (d1 & Hc%wrap_err_ok & [= <-]).
  assert (∀ k fp, stored d1 k fp ↔ stored d k fp) as Heq
    by (intros k fp; unfold stored; by rewrite (kv_create_get _ _ _ _ _ Hc)).
  split; [intros k fp Hs; by apply Hwf, Heq|]. intros k fp Hs. exists fp. split; [by apply Heq|done].
Qed.

Lemma daemon_step_keeps a a' : daemon_step a a' → safe_keeps a a'.
Proof.
  destruct 1 as [cfg pollerCfg a a' Hs|cc con poller rcCfg kr stdin a a' Hlog Hnew].
  - eapply app_step_frame; [apply _| |apply _|exact Hs]. by apply safe_keeps_frame.
  - intros _ Hinv. split; [by eapply new_bind_inv|].
    unfold NewFinalityProviderApp in Hnew. destruct (fp_initBuckets _) as [rf d] eqn:Ef.
    destruct rf; [|done..]. destruct (pr_initBuckets _) as [[]?]; [|done..].
    apply outcome_bind_ok in Hnew as (k & _ & [= <-]).
    unfold app_inv. simpl. rewrite Hlog.
    apply (vote_inv_mono (app_fps a) (app_eotsManager a)); [by eapply initBuckets_wf_le|done|].
    destruct Hinv as (Hwf & _ & Hl). by split_and!.
Qed.

Lemma sent_votes_bound a pk b s :
  app_inv a → (pk, b, s) ∈ sent_votes a →
  ∃ c, stored_chain (app_fps a) pk c
    ∧ em_signed (app_eotsManager a) (BIP340FromBTCPK pk) c (blk_height b) (MsgToSign b "") s.
Proof.
  intros (_ & _ & Hlog) (req & Hin & Hreq)%list_elem_of_bind. rewrite Forall_forall in Hlog.
  destruct (Hlog _ Hreq) as (c & Hc & Hv). apply list_elem_of_fmap in Hin as ([b' s'] & [= -> -> ->] & Hz).
  exists c. split; [done|]. apply list_elem_of_lookup in Hz as [i Hi].
  apply lookup_zip_with_Some in Hi as (b'' & s'' & [= -> ->] & Hb & Hs).
  exact (Forall2_lookup_lr _ _ _ _ _ _ Hv Hb Hs).
Qed.

(** C1: the daemon never sends conflicting votes: over any history, with any
    interleaving of its loops and requests, failures of the chain and of the
    database, retries, restarts on the same database, votes by hand through
    the protected signer and other users of the EOTS manager, two votes that were sent for the same finality provider and
    the same height are for the same block hash and carry the same signature,
    so that no submission can be used to extract the key. *)
Theorem no_conflicting_votes a0 a pk b1 b2 s1 s2
    (Hwf : store_wf (app_fps a0)) (Hidle : app_fpIns a0 = None) (Hlog : (app_consumerCon a0).2 = [])
    (Hsteps : rtc daemon_step a0 a)
    (H1in : (pk, b1, s1) ∈ sent_votes a) (H2in : (pk, b2, s2) ∈ sent_votes a)
    (Hheight : blk_height b1 = blk_height b2) :
  blk_Hash b1 = blk_Hash b2 ∧ s1 = s2.
Proof.
  assert (app_inv a) as Hinv.
  { assert (app_inv a0) as I0 by (unfold app_inv, app_own; rewrite Hidle, Hlog; by split_and!).
    assert (bind_inv a0) as B0 by (intros o; by rewrite Hidle).
    clear Hlog Hwf Hidle H1in H2in. induction Hsteps as [|x y z Hs _ IH]; [done|].
    by destruct (daemon_step_keeps _ _ Hs B0 I0); apply IH. }
  destruct (sent_votes_bound _ _ _ _ Hinv H1in) as (c1 & (fp1 & Hst1 & <-) & Hb1).
  destruct (sent_votes_bound _ _ _ _ Hinv H2in) as (c2 & (fp2 & Hst2 & <-) & Hb2).
  rewrite (stored_det _ _ _ _ Hst2 Hst1), <- Hheight in Hb2.
  destruct (em_signed_functional _ _ _ _ _ _ _ _ Hb1 Hb2) as [Hm ->]. split; [|done].
  unfold MsgToSign in Hm. simpl in Hm. rewrite Hheight in Hm. by apply app_inv_head in Hm.
Qed.
End votes.

(** ** Witness *)

Module VoteWitness.
Import StepsToy.
#[local] Abbreviation con := (toy_consumer * list SubmitBatchFinalitySigsRequest)%type.

(** The first submission times out and is sent again. *)
Definition w_a0 := toy_app (C:=con) (toy_tc [122; 123]%N 1, []) toy_fp_db.
Definition w_start := StartFinalityProvider toy_config toy_poller_cfg (toy_pk true) w_a0.
Definition w_commit := on_ins (processRandomnessCommitment true) w_start.2.
Definition w_block (h : N) : BlockInfo := NewBlockInfo h [Byte.x07] false.
(** The chain has grown. *)
Definition w_con3 : con := (mkToyConsumer _ 130 [122; 123]%N [] 5 0 0 1 [], (app_consumerCon w_commit.2).2).
Definition w_a3 :=
  let a := w_commit.2 in
  mkApp (app_cc a) w_con3 (app_kr a) (app_stdin a) (app_fps a) (app_pubRandStore a)
    (toy_cp true [w_block 122; w_block 123]) (app_rcPk a) (app_rcCfg a) (app_stateSet a)
    (app_eotsManager a) (app_fpIns a) (app_started a) (app_stopped a) (app_loops a).
Definition w_o : fp_own := default (mkOwn _ _ [] toy_sfp false None []) (app_fpIns w_a3).
Definition w_vote := processAndSubmitSignatures toy_config 4 4 (λ _, true) true (ins_view w_a3 w_o).
Definition w_out := default (Ok (), ins_view w_a3 w_o) w_vote.
Definition w_a4 := app_with_fi w_out.2 w_a3.
Definition w_v (i : nat) : PublicKey * BlockInfo * ModNScalar :=
  default (true, w_block 0, 0%N) (sent_votes w_a4 !! i).

Lemma w_steps : rtc daemon_step w_a0 w_a4.
Proof.
  eapply rtc_l; [|eapply rtc_l; [|eapply rtc_l; [|apply rtc_once]]].
  - apply (ds_run toy_config toy_poller_cfg), (as_start_fp _ _ _ _ (toy_pk true) _ w_start.1 w_start.2).
    exact (surjective_pairing w_start).
  - apply (ds_run toy_config toy_poller_cfg), (as_rand _ _ _ _ true _ w_commit.1 w_commit.2).
    exact (surjective_pairing w_commit).
  - apply (ds_run toy_config toy_poller_cfg). apply (as_chain toy_config toy_poller_cfg em_grows same_log
      w_con3 (app_cc w_commit.2) (toy_cp true [w_block 122; w_block 123])
      (app_stdin w_commit.2) w_commit.2). reflexivity.
  - apply (ds_run toy_config toy_poller_cfg), (as_sigs _ _ _ _ 4 4 (λ _, true) true w_o _ w_out.1 w_out.2).
    + apply some_default. vm_eq.
    + rewrite <- surjective_pairing. apply some_default. vm_eq.
Qed.

(** The vote for height 122 was sent twice. *)
Lemma no_conflicting_votes_witness :
  length (sent_votes w_a4) = 4%nat
  ∧ blk_height (w_v 0).1.2 = 122%N ∧ blk_height (w_v 2).1.2 = 122%N
  ∧ blk_Hash (w_v 0).1.2 = blk_Hash (w_v 2).1.2 ∧ (w_v 0).2 = (w_v 2).2.
Proof.
  split; [vm_eq|]. split; [vm_eq|]. split; [vm_eq|].
  apply (no_conflicting_votes w_a0 w_a4 true).
  - exact toy_fp_wf.
  - reflexivity.
  - reflexivity.
  - exact w_steps.
  - apply (list_elem_of_lookup_2 _ 0). vm_eq.
  - apply (list_elem_of_lookup_2 _ 2). vm_eq.
  - vm_eq.
Defined.
End VoteWitness.
